(* ===== verification/_CoqProject ===== *)
-Q . S2P
Prelude.v
Ethernet.v
Arp.v
UdpIp.v
Lcg.v
Dhcp.v
Wire.v
Packet.v
Control.v
MockDevice.v
Matcher.v
Backend.v
Tx.v
Rx.v
Bind.v
Typed.v
Link.v
Delivery.v
Threads.v
Transport.v
Host.v
Utun.v
Net.v
Dns.v
Tunnel.v
Status.v
Device.v
Daemon.v
Quiet.v
Nusb.v
Crate.v
Probe.v
Signals.v
Service.v
Server.v
Resident.v
Main.v
NetTests.v
UsbTests.v
HostTests.v
