(* ===== verification/Prelude.v ===== *)
(** * Muta: Android USB tethering for macOS

    A model of the crate under [src/src] and the theorems about it. The program
    is a daemon that finds an Android phone offering RNDIS over USB, brings the
    RNDIS control channel up, carries Ethernet frames over the bulk endpoints
    with two threads, gets a lease by DHCP over that link, and puts a utun
    interface with its routes and resolver on top; when the phone goes it undoes
    what it did to the system.

    ** Files and sources

    The files are listed from the leaves to the program.

    - [Prelude]: machine integers, results that can panic, slices, byte orders,
      clocks, IPv4 addresses, and the tactics and lemmas the others share.
    - [Ethernet], [Arp], [UdpIp], [Dhcp] ([netstack/ethernet.rs], [arp.rs],
      [ipv4.rs], [dhcp.rs]; [Lcg] is the period of the transaction ids): frames
      and datagrams, the ARP table, the checksum, the DHCP client.
    - [Wire], [Packet], [Control] ([rndis/wire.rs], [packet.rs], [control.rs]):
      the RNDIS messages, frames in transfers, and transactions and bring-up over
      a [ControlTransport]. [MockDevice] is the scripted device of the control
      tests, and a device for which bring-up is computed.
    - [Matcher] ([usb/descriptor.rs], [usb/matcher.rs]): descriptors and the
      search for an RNDIS function.
    - [Backend] ([usb/error.rs], [usb/backend.rs]): the endpoint traits as
      classes with their documented laws.
    - [Tx], [Rx] ([link.rs]): the two threads of the link, each on its own, the
      sink included.
    - [Link], [Delivery], [Threads] ([link.rs]): the threads as machines over the
      shared ARP table, channels and flag, their interleavings, and that each
      machine is the loop of [Tx] or [Rx]. [Bind] and [Typed] are about the
      receive thread with the DHCP client.
    - [Transport] ([transport.rs]): the control transport over USB, an instance of
      the class [Control] is proved against.
    - [Host], [Utun], [Net], [Dns], [Tunnel] ([tun/*.rs], [tunnel.rs]): errors
      with their contexts, the state of the system, and the tunnel over system
      calls, programs and the dynamic store.
    - [Status], [Server] ([status.rs]): the one-line format, and the socket it is
      served on.
    - [Device] ([device.rs]), [Daemon], [Quiet], [Resident] ([daemon.rs]): the
      scan, the bring-up of a phone, a session, and the daemon from start-up to
      its return. [Quiet] lifts what primitive operations preserve to these.
    - [Nusb], [Crate] ([usb/nusb_backend.rs]): the adapters that implement the
      backend traits over the nusb crate, and discharge their laws.
    - [Probe] ([probe.rs]), [Signals] ([signals.rs]), [Service] ([service.rs]),
      [Main] ([main.rs]): the descriptor dump, the signal handlers, the installed
      service, and the command line over the modelled commands.
    - [NetTests], [UsbTests], [HostTests]: the crate's unit tests, run on the
      model.

    A component is a module with the name of its file; its definitions keep the
    names of the source. [x] of Rust's [impl] blocks that a name of the file
    already takes is written out ([transport.rs]' [send] is [usb_send]).

    ** How code is translated

    Integers are [Z], with casts and wrapping written out ([as_u8], [as_u32],
    [fetch_add]); additions that overflow go through [Profile], the build
    profile, and panic or wrap. [Result] is [outcome], whose third case [Panic] is
    an index out of range, a failed [unwrap] or an overflow; the theorems say
    which functions never panic. Where no panic is possible, results are
    [Backend.Result] or [Host.Result]. Errors of [anyhow] are their contexts
    over a cause.

    Everything outside the crate is a class over a world [W] that is threaded
    through: endpoints and control requests, the clock, sleeping, system calls,
    programs, the dynamic store, the file system, sockets, nusb. What the code
    relies on is in a class of laws beside it ([InLaws], [UsbLaws], [LibcLaws],
    [FsLaws], [CrateLaws] and so on); every class of laws has an instance for a
    concrete world, on which the witnesses run. Calls that fail have failed: a
    route that could not be deleted is still there ([RunnerLaws]), a key that
    could not be removed too ([StoreLaws]), and the removal is in the history of
    those the system refused ([Host.stuck]). [Text] and [ShowRndis] are
    displays of errors that nothing depends on.

    Loops are functions with fuel, or steps of a machine. [transact_loop] takes one
    unit per read, and [Control.fuel_ok] is enough: the deadline passes before
    it is used up. [drain_queue] has the bound of the source's loop, and
    [fold_carries] three turns, enough for a 32-bit sum.
    [Packet.decode] takes the length of the transfer, each message being
    at least a header long. [Tx.flush_fuel] is enough for a flush when something
    (the device, or a shutdown) breaks every silence, and what is still to come
    from the channel is added to it for a burst ([burst_delivers]) and for the
    thread ([loop_delivers]). [Rx.rx_run] and [Daemon.session_run] run as many turns
    as they are given, and the theorems hold of any number; for [Resident.run],
    [run_restores] says how many are enough: more than the scans and polls until
    the user's signal ([Resident.Future]).

    Ownership is written out where it matters: a descriptor is closed where its
    last owner is dropped, in reverse order of declaration, early returns
    included ([Tunnel.up], [Daemon.drop_tunnel] with the [Arc] the sink shares).
    The threads share a state whose steps interleave ([Link.step],
    [Tunnel.reader_addresses] over any log of calls on the ARP table,
    [Server.step]); a step is what happens under one lock or on one channel.
    In [Daemon] the link is seen through its
    operations, and the packets for the sink arrive while the session sleeps.
    [Service] takes paths that differ to be files that differ.

    ** What is proved

    - The system is put back: [Tunnel.up_restores], [Daemon.session_restores],
      and over the whole run [Resident.run_restores], which also says that the
      daemon returns once the signal has come. What they promise is
      [Host.undone]: the same descriptors; nothing of ours but what the system
      refused to remove; everything else as it was, except a route for the very
      subnet of a lease, which [Net.install] replaces and nobody puts back; and
      exactly the system from before when there was no such route and no refusal.
      [Service.install_atomic], [uninstall_removes] and [bootstrap_retries] are the
      like for the installed service, [Main.unprivileged_harmless] for the
      command line.
    - The control channel: it ends ([transact_finishes]), what it accepts is
      usable ([bring_up_sound]), it succeeds against a conforming device
      ([bring_up_conforming]), and all of it holds over USB ([usb_bring_up]);
      [open_ready] is the phone after it.
    - The link: every frame that fits a transfer leaves once and in order
      ([burst_delivers], [loop_delivers], [frames_conserved]), every frame
      received is handled as it should, a lease reported only for the ACK that
      grants it ([transfer_exact]), the timer sends the message the client's state
      asks for ([due_sends]), the DHCP exchange ends in its lease ([link_binds],
      [reachable_wf], [discover_fresh_xid]) and its route is the lease's network
      ([route_covers_lease]), neither thread panics ([link_survives]), stalls are
      cleared on idle endpoints only ([recovery_clears_idle]), the queue is
      bounded ([flush_bounded]), and shutting down joins ([shutdown_joins]).
      [Threads] shows that the machines of [Link] are the loops of [Tx] and [Rx],
      [Typed] that the receive thread keeps bytes bytes.
    - Formats: round trips for transfers, DHCP replies and the status line,
      packets whose checksums a receiver verifies by RFC 1071
      ([build_udp_verifies]), parsers that never leave their buffer.
    - Discovery: the first tethering phone, and the function its descriptors
      name ([find_first_tethering], [find_rndis_correct]), [open_listed] for the
      adapter, [scan_reports] for the dump, whose lines no other descriptors
      print. A device is judged by what it answers when it is asked; the bus may
      change at any time.
    - The rest: the ARP table is the last thing learned, the tunnel takes the
      first free unit and its reader frames what it read for an address that had
      not expired, signals only flip the flag or move the log, a client is told
      a status that was current since it was accepted.

    ** Not modelled

    Logging, with what is only computed for it: the [Display] of a MAC address,
    the transfer rates and link-state lines of the daemon's keepalive. The nusb
    crate, macOS and the programs it runs are classes. The event loop inside
    nusb's hotplug stream is a sequence of events. Spawning a thread cannot fail
    in the link and the tunnel (the source panics there); in the status server
    it can, and is modelled. Locks are never poisoned, since no thread that
    takes them panics. *)
From Stdlib Require Import ZArith Lia.
From stdpp Require Import base numbers list strings countable.

Open Scope Z_scope.

(** ** Machine integers

    Every integer of the program is a [Z]; the predicates below say that a
    value is in the range of its Rust type, and casts and wrapping operations
    write the reduction out. *)

Definition is_u8 (x : Z) : Prop := 0 <= x < 256.

Definition is_u16 (x : Z) : Prop := 0 <= x < 65536.

Definition is_u32 (x : Z) : Prop := 0 <= x < 4294967296.

(** [x as u8], [x as u16], [x as u32] *)
Definition as_u8 (x : Z) : Z := x mod 256.

Definition as_u16 (x : Z) : Z := x mod 65536.

Definition as_u32 (x : Z) : Z := x mod 4294967296.

(** A byte buffer: [Vec<u8>] or [&[u8]]. *)
Definition bytes_ok (b : list Z) : Prop := Forall is_u8 b.

(** [b.len()] *)
Definition zlen {A} (l : list A) : Z := Z.of_nat (length l).

(** ** Results that can panic

    [Ok] and [Err] are Rust's [Result]; [Panic] is the outcome of an index out
    of range or of an overflowing addition checked at run time. *)

Inductive outcome (E A : Type) : Type :=
| Ok (a : A)
| Err (e : E)
| Panic.

Arguments Ok {E A} a.
Arguments Err {E A} e.
Arguments Panic {E A}.

#[export] Instance outcome_ret E : MRet (outcome E) := fun A a => Ok a.

#[export] Instance outcome_bind E : MBind (outcome E) := fun A B f m =>
  match m with
  | Ok a => f a
  | Err e => Err e
  | Panic => Panic
  end.

(** [o.ok_or(e)] *)
Definition ok_or {E A} (o : option A) (e : E) : outcome E A :=
  match o with
  | Some a => Ok a
  | None => Err e
  end.

(** Whether integer overflow panics ([overflow-checks], on in Cargo's dev
    profile) or wraps (off in the release profile the crate ships with). *)
Class Profile := overflow_checks : bool.

Definition dev_profile : Profile := true.

Definition release_profile : Profile := false.

(** [a + b] on an unsigned integer of range [0, m). *)
Definition add_checked {P : Profile} {E} (m a b : Z) : outcome E Z :=
  if a + b <? m then Ok (a + b)
  else if overflow_checks then Panic
  else Ok ((a + b) mod m).

(** [a.checked_add(b)] on the 64-bit [usize]. *)
Definition checked_add_usize (a b : Z) : option Z :=
  if a + b <? 18446744073709551616 then Some (a + b) else None.

(** ** Indexing and slicing *)

Definition nthZ (b : list Z) (i : Z) : Z := nth (Z.to_nat i) b 0.

Definition sub (b : list Z) (i j : Z) : list Z :=
  take (Z.to_nat (j - i)) (drop (Z.to_nat i) b).

(** [b.get(i..j)] *)
Definition get_range (b : list Z) (i j : Z) : option (list Z) :=
  if (0 <=? i) && (i <=? j) && (j <=? zlen b) then Some (sub b i j) else None.

(** [b[i]]: out of range it panics. *)
Definition idx {E} (b : list Z) (i : Z) : outcome E Z :=
  if (0 <=? i) && (i <? zlen b) then Ok (nthZ b i) else Panic.

(** [&b[i..j]]: out of range it panics. *)
Definition slice {E} (b : list Z) (i j : Z) : outcome E (list Z) :=
  match get_range b i j with
  | Some s => Ok s
  | None => Panic
  end.

(** [b.resize(n, v)] *)
Definition vec_resize (b : list Z) (n v : Z) : list Z :=
  take (Z.to_nat n) b ++ replicate (Z.to_nat n - length b) v.

Declare Scope rust_scope.
Delimit Scope rust_scope with rust.

Notation "b .[ i ]" := (idx b i)
  (at level 1, left associativity, i at level 200, format "b .[ i ]") : rust_scope.

Notation "b .[ i ..< j ]" := (slice b i j)
  (at level 1, left associativity, i at level 200, j at level 200,
   format "b .[ i  ..<  j ]") : rust_scope.

Open Scope rust_scope.

(** ** Byte orders *)

(** [u16::from_be_bytes([a, b])] *)
Definition be16 (a b : Z) : Z := a * 256 + b.

(** [u32::from_be_bytes([a, b, c, d])] *)
Definition be32 (a b c d : Z) : Z := ((a * 256 + b) * 256 + c) * 256 + d.

(** [u32::from_le_bytes([a, b, c, d])] *)
Definition le32 (a b c d : Z) : Z := be32 d c b a.

(** [x.to_be_bytes()] for a [u16] *)
Definition to_be16 (x : Z) : list Z := [x / 256 mod 256; x mod 256].

(** [x.to_be_bytes()] for a [u32] *)
Definition to_be32 (x : Z) : list Z :=
  [x / 16777216 mod 256; x / 65536 mod 256; x / 256 mod 256; x mod 256].

(** [x.to_le_bytes()] for a [u32] *)
Definition to_le32 (x : Z) : list Z :=
  [x mod 256; x / 256 mod 256; x / 65536 mod 256; x / 16777216 mod 256].

(** ** Time: [Duration] and [Instant] in nanoseconds *)

Definition from_secs (s : Z) : Z := s * 1000000000.

Definition from_millis (ms : Z) : Z := ms * 1000000.

(** [now.duration_since(earlier)], which saturates at zero. *)
Definition duration_since (now earlier : Z) : Z := Z.max 0 (now - earlier).

(** [Instant::now()], read from the world a thread runs in. *)
Class Clock (W : Type) : Type := now : W -> Z * W.

(** ** [std::net::Ipv4Addr] *)

Record Ipv4Addr : Type := Ipv4 { oct0 : Z; oct1 : Z; oct2 : Z; oct3 : Z }.

#[export] Instance Ipv4Addr_eq_dec : EqDecision Ipv4Addr.
Proof. solve_decision. Defined.

#[export] Instance Ipv4Addr_countable : Countable Ipv4Addr.
Proof.
  refine (inj_countable' (fun i => (oct0 i, oct1 i, oct2 i, oct3 i))
    (fun p => let '(a, b, c, d) := p in Ipv4 a b c d) _).
  by intros [].
Defined.

Definition UNSPECIFIED : Ipv4Addr := Ipv4 0 0 0 0.

Definition BROADCAST_IP : Ipv4Addr := Ipv4 255 255 255 255.

Definition is_unspecified (i : Ipv4Addr) : bool := bool_decide (i = UNSPECIFIED).

Definition octets (i : Ipv4Addr) : list Z := [oct0 i; oct1 i; oct2 i; oct3 i].

(** [u32::from(ip)] and [Ipv4Addr::from(u32)] *)
Definition u32_of_ip (i : Ipv4Addr) : Z := be32 (oct0 i) (oct1 i) (oct2 i) (oct3 i).

Definition ip_of_u32 (x : Z) : Ipv4Addr :=
  Ipv4 (x / 16777216 mod 256) (x / 65536 mod 256) (x / 256 mod 256) (x mod 256).

Definition ip_ok (i : Ipv4Addr) : Prop := bytes_ok (octets i).

(** ** Automation *)

(** Euclidean equations for every [div] and [mod] with a constant divisor. *)
Ltac zdm := Z.div_mod_to_equations; lia.

(** Replaces [Z.to_nat] of a literal by the literal natural number. *)
Ltac znat :=
  repeat match goal with
  | |- context [Z.to_nat (Zpos ?p)] =>
      let n := eval vm_compute in (Z.to_nat (Zpos p)) in
      change (Z.to_nat (Zpos p)) with n
  | |- context [Z.to_nat 0] => change (Z.to_nat 0) with 0%nat
  end.

(** Splits the boolean comparisons of the goal, closing the impossible side. *)
Ltac zcases :=
  repeat match goal with
  | |- context [?a <? ?b] => destruct (Z.ltb_spec a b); try lia; cbn [andb orb negb]
  | |- context [?a <=? ?b] => destruct (Z.leb_spec a b); try lia; cbn [andb orb negb]
  | |- context [?a =? ?b] => destruct (Z.eqb_spec a b); try lia; cbn [andb orb negb]
  end.

(** Case analysis of the [outcome] an equation of the context binds. *)
Ltac inv_bind H :=
  match type of H with
  | mbind _ ?m = _ =>
      let E := fresh "E" in
      destruct m eqn:E; cbn [mbind outcome_bind] in H; [| discriminate H | discriminate H]
  end.

(** ** Lemmas on lists and bytes *)

Lemma zlen_nonneg {A} (l : list A) : 0 <= zlen l.
Proof. unfold zlen; lia. Qed.

Lemma zlen_nil {A} : zlen (@nil A) = 0.
Proof. reflexivity. Qed.

Lemma zlen_cons {A} (x : A) l : zlen (x :: l) = 1 + zlen l.
Proof. unfold zlen; cbn [length]; lia. Qed.

Lemma zlen_app {A} (l k : list A) : zlen (l ++ k) = zlen l + zlen k.
Proof. unfold zlen; rewrite length_app; lia. Qed.

Lemma zlen_replicate {A} n (x : A) : zlen (replicate n x) = Z.of_nat n.
Proof. unfold zlen; by rewrite length_replicate. Qed.

Create Rewrite HintDb zlen.
#[export] Hint Rewrite @zlen_nil @zlen_cons @zlen_app @zlen_replicate : zlen.

(** Computes the lengths of the goal. *)
Ltac zl := autorewrite with zlen in *; try lia.

Lemma sub_length b i j :
  0 <= i <= j -> j <= zlen b -> zlen (sub b i j) = j - i.
Proof. intros. unfold sub, zlen in *. rewrite length_take, length_drop. lia. Qed.

Lemma sub_all b : sub b 0 (zlen b) = b.
Proof.
  unfold sub, zlen. znat. rewrite drop_0, take_ge; [done|lia].
Qed.

Lemma sub_app_l a b i j : 0 <= i -> j <= zlen a -> sub (a ++ b) i j = sub a i j.
Proof.
  intros. unfold sub, zlen in *.
  destruct (decide (i <= j)) as [Hij|Hij].
  - rewrite drop_app_le by lia. rewrite take_app_le; [done|].
    rewrite length_drop. lia.
  - replace (Z.to_nat (j - i)) with 0%nat by lia. by rewrite !take_0.
Qed.

Lemma sub_app_r a b i j :
  zlen a <= i -> sub (a ++ b) i j = sub b (i - zlen a) (j - zlen a).
Proof.
  intros. unfold sub, zlen in *. rewrite drop_app_ge by lia.
  f_equal; [lia|]. f_equal; lia.
Qed.

Lemma sub_prefix a b n : n = zlen a -> sub (a ++ b) 0 n = a.
Proof. intros ->. rewrite sub_app_l by lia. apply sub_all. Qed.

Lemma sub_suffix a b i j :
  i = zlen a -> j = zlen a + zlen b -> sub (a ++ b) i j = b.
Proof.
  intros -> ->. rewrite sub_app_r by lia.
  replace (zlen a - zlen a) with 0 by lia.
  replace (zlen a + zlen b - zlen a) with (zlen b) by lia. apply sub_all.
Qed.

Lemma nthZ_app_l a b i : 0 <= i < zlen a -> nthZ (a ++ b) i = nthZ a i.
Proof. intros. unfold nthZ, zlen in *. apply app_nth1. lia. Qed.

Lemma nthZ_app_r a b i : zlen a <= i -> nthZ (a ++ b) i = nthZ b (i - zlen a).
Proof.
  intros. unfold nthZ, zlen in *. rewrite app_nth2 by lia. f_equal. lia.
Qed.

Lemma nthZ_ok b i : bytes_ok b -> is_u8 (nthZ b i).
Proof.
  intros Hb. unfold nthZ.
  destruct (nth_in_or_default (Z.to_nat i) b 0) as [Hin | ->].
  - unfold bytes_ok in Hb. rewrite Forall_forall in Hb. apply Hb, Hin.
  - unfold is_u8; lia.
Qed.

Lemma idx_ok {E} b i : 0 <= i < zlen b -> @idx E b i = Ok (nthZ b i).
Proof. intros. unfold idx. by zcases. Qed.

Lemma slice_ok {E} b i j :
  0 <= i <= j -> j <= zlen b -> @slice E b i j = Ok (sub b i j).
Proof. intros. unfold slice, get_range. by zcases. Qed.

Lemma get_range_Some b i j s :
  get_range b i j = Some s <-> 0 <= i <= j /\ j <= zlen b /\ s = sub b i j.
Proof.
  unfold get_range. zcases; split; intros Hs; try done; try lia;
    destruct_and?; simplify_eq; try done; repeat split; lia.
Qed.

Lemma get_range_None b i j :
  get_range b i j = None <-> ~ (0 <= i <= j /\ j <= zlen b).
Proof. unfold get_range. zcases; split; intros Hs; try done; lia. Qed.

(** Rewrites every in-range index and slice of the goal to its value. *)
Ltac inb :=
  repeat (first
    [ rewrite idx_ok by (autorewrite with zlen in *; lia)
    | rewrite slice_ok by (autorewrite with zlen in *; lia) ];
    cbn [mbind outcome_bind mret outcome_ret]).

Lemma bytes_ok_app a b : bytes_ok (a ++ b) <-> bytes_ok a /\ bytes_ok b.
Proof. apply Forall_app. Qed.

Lemma bytes_ok_sub b i j : bytes_ok b -> bytes_ok (sub b i j).
Proof. intros. unfold sub. apply Forall_take, Forall_drop. done. Qed.

Lemma bytes_ok_replicate n v : is_u8 v -> bytes_ok (replicate n v).
Proof. intros. by apply Forall_replicate. Qed.

Lemma is_u8_mod x : is_u8 (x mod 256).
Proof. unfold is_u8. zdm. Qed.

Lemma zlen_octets i : zlen (octets i) = 4.
Proof. reflexivity. Qed.

#[export] Hint Rewrite zlen_octets : zlen.

Lemma bytes_ok_to_be16 x : bytes_ok (to_be16 x).
Proof. repeat constructor; apply is_u8_mod. Qed.

Lemma bytes_ok_to_be32 x : bytes_ok (to_be32 x).
Proof. repeat constructor; apply is_u8_mod. Qed.

Lemma bytes_ok_to_le32 x : bytes_ok (to_le32 x).
Proof. repeat constructor; apply is_u8_mod. Qed.

Create HintDb bytes.
#[export] Hint Resolve bytes_ok_sub bytes_ok_replicate bytes_ok_to_be16
  bytes_ok_to_be32 bytes_ok_to_le32 is_u8_mod nthZ_ok : bytes.

Lemma zlen_to_be16 x : zlen (to_be16 x) = 2.
Proof. reflexivity. Qed.

Lemma zlen_to_be32 x : zlen (to_be32 x) = 4.
Proof. reflexivity. Qed.

Lemma zlen_to_le32 x : zlen (to_le32 x) = 4.
Proof. reflexivity. Qed.

#[export] Hint Rewrite zlen_to_be16 zlen_to_be32 zlen_to_le32 : zlen.

(** Encoding then decoding an integer of the type gives it back. *)
Lemma be16_to_be16 x : is_u16 x -> be16 (x / 256 mod 256) (x mod 256) = x.
Proof. unfold is_u16, be16. intros. zdm. Qed.

Lemma be32_to_be32 x :
  is_u32 x ->
  be32 (x / 16777216 mod 256) (x / 65536 mod 256) (x / 256 mod 256) (x mod 256) = x.
Proof. unfold is_u32, be32. intros. zdm. Qed.

Lemma le32_to_le32 x :
  is_u32 x ->
  le32 (x mod 256) (x / 256 mod 256) (x / 65536 mod 256) (x / 16777216 mod 256) = x.
Proof. unfold le32. apply be32_to_be32. Qed.

Lemma to_be16_be16 a b : is_u8 a -> is_u8 b -> to_be16 (be16 a b) = [a; b].
Proof.
  unfold is_u8, to_be16, be16. intros. repeat f_equal; zdm.
Qed.

Lemma be16_bound a b : is_u8 a -> is_u8 b -> is_u16 (be16 a b).
Proof. unfold is_u8, is_u16, be16. lia. Qed.

Lemma be32_bound a b c d :
  is_u8 a -> is_u8 b -> is_u8 c -> is_u8 d -> is_u32 (be32 a b c d).
Proof. unfold is_u8, is_u32, be32. lia. Qed.

#[export] Hint Resolve be16_bound be32_bound : bytes.

Lemma zlen_vec_resize b n v :
  zlen b <= n -> vec_resize b n v = b ++ replicate (Z.to_nat (n - zlen b)) v.
Proof.
  intros. unfold vec_resize, zlen in *. rewrite take_ge by lia.
  do 2 f_equal. lia.
Qed.

Lemma u32_of_ip_bound i : ip_ok i -> is_u32 (u32_of_ip i).
Proof.
  unfold ip_ok, octets, bytes_ok. rewrite !Forall_cons_iff.
  intros (? & ? & ? & ? & _). apply be32_bound; done.
Qed.

Lemma u32_of_ip_of_u32 x : is_u32 x -> u32_of_ip (ip_of_u32 x) = x.
Proof. apply be32_to_be32. Qed.

Lemma ip_of_u32_of_ip i : ip_ok i -> ip_of_u32 (u32_of_ip i) = i.
Proof.
  destruct i as [a b c d]. unfold ip_ok, octets, bytes_ok. cbn [oct0 oct1 oct2 oct3].
  rewrite !Forall_cons_iff. unfold is_u8. intros (? & ? & ? & ? & _).
  unfold ip_of_u32, u32_of_ip, be32. cbn [oct0 oct1 oct2 oct3]. f_equal; zdm.
Qed.

Lemma ip_of_u32_ok x : ip_ok (ip_of_u32 x).
Proof. repeat constructor; apply is_u8_mod. Qed.

Lemma is_unspecified_spec i : is_unspecified i = true <-> i = UNSPECIFIED.
Proof. apply bool_decide_eq_true. Qed.

#[export] Hint Resolve u32_of_ip_bound ip_of_u32_ok : bytes.

(** Adjacent slices concatenate, and a slice starts with its first element. *)
Lemma sub_split b i j k :
  0 <= i <= j -> j <= k -> k <= zlen b -> sub b i k = sub b i j ++ sub b j k.
Proof.
  intros. unfold sub, zlen in *.
  replace (Z.to_nat (k - i)) with (Z.to_nat (j - i) + Z.to_nat (k - j))%nat by lia.
  rewrite <- take_take_drop. f_equal. rewrite drop_drop. do 2 f_equal. lia.
Qed.

Lemma sub_step b i j :
  0 <= i < j -> j <= zlen b -> sub b i j = nthZ b i :: sub b (i + 1) j.
Proof.
  intros. rewrite (sub_split b i (i + 1) j) by lia.
  change (nthZ b i :: sub b (i + 1) j) with ([nthZ b i] ++ sub b (i + 1) j).
  f_equal. unfold sub, nthZ, zlen in *.
  replace (Z.to_nat (i + 1 - i)) with 1%nat by lia.
  destruct (lookup_lt_is_Some_2 b (Z.to_nat i)) as [x Hx]; [lia|].
  rewrite (nth_lookup_Some b _ 0 x Hx).
  by rewrite (drop_S b x (Z.to_nat i) Hx).
Qed.

Lemma sub_nil b i j : j <= i -> sub b i j = [].
Proof. intros. unfold sub. replace (Z.to_nat (j - i)) with 0%nat by lia. apply take_0. Qed.

Lemma nthZ_sub b i j k :
  0 <= i -> 0 <= k < j - i -> nthZ (sub b i j) k = nthZ b (i + k).
Proof.
  intros. unfold sub, nthZ.
  replace (Z.to_nat (i + k)) with (Z.to_nat i + Z.to_nat k)%nat by lia.
  rewrite !nth_lookup, lookup_take_lt by lia. by rewrite lookup_drop.
Qed.

(** [b[i..j].copy_from_slice(s)]: panics out of range or on unequal lengths. *)
Definition copy_from_slice {E} (b : list Z) (i j : Z) (s : list Z) : outcome E (list Z) :=
  if (0 <=? i) && (i <=? j) && (j <=? zlen b) && (zlen s =? j - i)
  then Ok (sub b 0 i ++ s ++ sub b j (zlen b)) else Panic.

Lemma copy_from_slice_ok {E} b i j s :
  0 <= i <= j -> j <= zlen b -> zlen s = j - i ->
  @copy_from_slice E b i j s = Ok (sub b 0 i ++ s ++ sub b j (zlen b)).
Proof. intros. unfold copy_from_slice. by zcases. Qed.

(** Replacing the middle of [a ++ old ++ c]. *)
Lemma copy_from_slice_app {E} a old c s i j :
  i = zlen a -> j = zlen a + zlen old -> zlen s = zlen old ->
  @copy_from_slice E (a ++ old ++ c) i j s = Ok (a ++ s ++ c).
Proof.
  intros -> -> Hs. pose proof (zlen_nonneg a). pose proof (zlen_nonneg old).
  pose proof (zlen_nonneg c).
  rewrite copy_from_slice_ok by (autorewrite with zlen; lia).
  rewrite sub_prefix by done.
  rewrite (app_assoc a old c), sub_suffix; [done|zl|zl].
Qed.

Lemma add_checked_small {P : Profile} {E} m a b :
  a + b < m -> @add_checked P E m a b = Ok (a + b).
Proof. intros. unfold add_checked. by zcases. Qed.

(** A slice of a slice. *)
Lemma sub_sub b i j k l :
  0 <= i -> 0 <= k -> l <= j - i -> sub (sub b i j) k l = sub b (i + k) (i + l).
Proof.
  intros. unfold sub. rewrite skipn_firstn_comm, drop_drop, take_take.
  f_equal; [lia|]. f_equal. lia.
Qed.

(** [&b[n..]] inside a loop that consumes [b]: [drop], in a form the
    termination checker can follow. *)
Fixpoint skip (b : list Z) (n : nat) {struct b} : list Z :=
  match n, b with
  | O, _ => b
  | S _, [] => b
  | S n, _ :: b => skip b n
  end.

Lemma skip_drop b n : skip b n = drop n b.
Proof. revert n. induction b as [|x b IH]; intros [|n]; cbn; auto. Qed.

(** [x.count_ones()] on a [u32] *)
Definition count_ones (x : Z) : Z :=
  zlen (filter (fun i => Z.testbit x (Z.of_nat i) = true) (seq 0 32)).

(** The middle of a concatenation. *)
Lemma sub_mid a m c i j :
  i = zlen a -> j = zlen a + zlen m -> sub (a ++ m ++ c) i j = m.
Proof.
  intros -> ->. pose proof (zlen_nonneg a). pose proof (zlen_nonneg m).
  rewrite sub_app_r by lia. rewrite Z.sub_diag. apply sub_prefix. lia.
Qed.

Lemma skip_app (a b : list Z) n : n = length a -> skip (a ++ b) n = b.
Proof. intros ->. rewrite skip_drop. apply drop_app_length. Qed.

(** Closes [Forall is_u32 [..]] on constants, hypotheses and arithmetic. *)
Ltac forall_u32 :=
  repeat first
    [ apply Forall_nil
    | apply Forall_cons;
      [ first [ assumption
              | unfold is_u32 in *; lia
              | by (split; vm_compute; congruence) ] | ] ].

(** Bytes of a concrete buffer, by evaluation. *)
Definition bytes_okb (b : list Z) : bool := forallb (fun x => (0 <=? x) && (x <? 256)) b.

Lemma bytes_okb_ok b : bytes_okb b = true -> bytes_ok b.
Proof.
  induction b as [|x b IH]; intros Hb; [constructor|].
  cbn in Hb. apply andb_true_iff in Hb as [Hx Hb]. apply andb_true_iff in Hx as [H0 H1].
  apply Z.leb_le in H0. apply Z.ltb_lt in H1.
  constructor; [unfold is_u8; lia | by apply IH].
Qed.
