(* ===== verification/Ethernet.v ===== *)
(** * Ethernet

    [src/netstack/error.rs] and [src/netstack/ethernet.rs]: MAC addresses and
    the 14-byte Ethernet header, padded to the 60-byte minimum on the way out. *)
From Stdlib Require Import ZArith Lia.
From stdpp Require Import base numbers list strings.
From S2P Require Import Prelude.

Open Scope Z_scope.

(** [netstack::error::Error] *)
Inductive Error : Type :=
| Truncated
| Malformed (msg : string).

#[export] Instance Error_eq_dec : EqDecision Error.
Proof. solve_decision. Defined.

(** [MacAddr(pub [u8; 6])] *)
Record MacAddr : Type := Mac { m0 : Z; m1 : Z; m2 : Z; m3 : Z; m4 : Z; m5 : Z }.

#[export] Instance MacAddr_eq_dec : EqDecision MacAddr.
Proof. solve_decision. Defined.

Module MacAddr.

Definition BROADCAST : MacAddr := Mac 255 255 255 255 255 255.

Definition ZERO : MacAddr := Mac 0 0 0 0 0 0.

Definition as_bytes (m : MacAddr) : list Z := [m0 m; m1 m; m2 m; m3 m; m4 m; m5 m].

Definition from_slice (b : list Z) : outcome Error MacAddr :=
  s ← ok_or (get_range b 0 6) Truncated;
  mret (Mac (nthZ s 0) (nthZ s 1) (nthZ s 2) (nthZ s 3) (nthZ s 4) (nthZ s 5)).

(** True for broadcast too, per the 802.3 group bit. *)
Definition is_multicast (m : MacAddr) : bool := negb (Z.land (m0 m) 1 =? 0).

End MacAddr.

Definition mac_ok (m : MacAddr) : Prop := bytes_ok (MacAddr.as_bytes m).

Module Ethernet.

Definition HEADER_LEN : Z := 14.

Definition MIN_FRAME_LEN : Z := 60.

Definition ETHERTYPE_IPV4 : Z := 2048.

Definition ETHERTYPE_ARP : Z := 2054.

Record Frame : Type := mkFrame
  { dst : MacAddr; src : MacAddr; ethertype : Z; payload : list Z }.

Definition parse (buf : list Z) : outcome Error Frame :=
  if zlen buf <? HEADER_LEN then Err Truncated
  else
    d ← buf.[0 ..< 6];
    d ← MacAddr.from_slice d;
    s ← buf.[6 ..< 12];
    s ← MacAddr.from_slice s;
    e0 ← buf.[12];
    e1 ← buf.[13];
    p ← buf.[HEADER_LEN ..< zlen buf];
    mret (mkFrame d s (be16 e0 e1) p).

(** Build a frame, zero-padded to the 60-byte minimum. *)
Definition build (dst src : MacAddr) (ethertype : Z) (payload : list Z) : list Z :=
  let f := MacAddr.as_bytes dst ++ MacAddr.as_bytes src ++ to_be16 ethertype ++ payload in
  vec_resize f (Z.max (zlen f) MIN_FRAME_LEN) 0.

(** The padding [build] appends to a payload of [n] bytes. *)
Definition padding (n : Z) : list Z :=
  replicate (Z.to_nat (Z.max 0 (MIN_FRAME_LEN - HEADER_LEN - n))) 0.

End Ethernet.

(** ** Lemmas *)

Section lemmas.

Import Ethernet.

Lemma zlen_as_bytes m : zlen (MacAddr.as_bytes m) = 6.
Proof. reflexivity. Qed.

Lemma from_slice_as_bytes m rest :
  MacAddr.from_slice (MacAddr.as_bytes m ++ rest) = Ok m.
Proof.
  unfold MacAddr.from_slice, get_range. rewrite zlen_app, zlen_as_bytes.
  pose proof (zlen_nonneg rest). zcases.
  rewrite sub_prefix by done. by destruct m.
Qed.

Lemma from_slice_short b : zlen b < 6 -> MacAddr.from_slice b = Err Truncated.
Proof. intros. unfold MacAddr.from_slice, get_range. by zcases. Qed.

Lemma from_slice_long b :
  6 <= zlen b ->
  exists m, MacAddr.from_slice b = Ok m /\ MacAddr.as_bytes m = sub b 0 6.
Proof.
  intros Hl. unfold MacAddr.from_slice, get_range. zcases. cbn.
  eexists; split; [done|].
  assert (Hs : zlen (sub b 0 6) = 6) by (rewrite sub_length; lia).
  unfold zlen in Hs. set (s := sub b 0 6) in *.
  do 6 (destruct s as [|? s]; [cbn in Hs; lia|]).
  destruct s; [done | cbn in Hs; lia].
Qed.

Lemma build_eq d s et p :
  build d s et p =
    MacAddr.as_bytes d ++ MacAddr.as_bytes s ++ to_be16 et ++ p ++ padding (zlen p).
Proof.
  unfold build, padding, MIN_FRAME_LEN, HEADER_LEN.
  rewrite zlen_vec_resize by lia.
  rewrite <- !app_assoc. do 5 f_equal.
  autorewrite with zlen. rewrite !zlen_as_bytes. lia.
Qed.

Lemma zlen_build d s et p :
  zlen (build d s et p) = Z.max MIN_FRAME_LEN (HEADER_LEN + zlen p).
Proof.
  rewrite build_eq. unfold padding, MIN_FRAME_LEN, HEADER_LEN.
  autorewrite with zlen. rewrite !zlen_as_bytes. pose proof (zlen_nonneg p). lia.
Qed.

End lemmas.

#[export] Hint Rewrite zlen_as_bytes : zlen.

(** ** Properties *)

Section properties.

Import Ethernet.

(** [parse] on a header written out field by field. *)
Lemma parse_app d s e0 e1 p :
  parse (MacAddr.as_bytes d ++ MacAddr.as_bytes s ++ [e0; e1] ++ p) =
    Ok (mkFrame d s (be16 e0 e1) p).
Proof.
  set (b := _ ++ _).
  assert (Hl : zlen b = 14 + zlen p) by (unfold b; zl).
  pose proof (zlen_nonneg p). unfold parse, HEADER_LEN. rewrite Hl. zcases.
  rewrite (slice_ok b 0 6), (slice_ok b 6 12) by lia. cbn [mbind outcome_bind].
  change (sub b 0 6) with (MacAddr.as_bytes d ++ []).
  change (sub b 6 12) with (MacAddr.as_bytes s ++ []).
  rewrite !from_slice_as_bytes. cbn [mbind outcome_bind].
  rewrite !idx_ok, slice_ok by lia. cbn [mbind outcome_bind].
  do 2 f_equal. change b with (([m0 d; m1 d; m2 d; m3 d; m4 d; m5 d; m0 s; m1 s; m2 s;
    m3 s; m4 s; m5 s; e0; e1]) ++ p).
  apply sub_suffix; [done|]. rewrite <- zlen_app. symmetry. zl.
Qed.

Lemma parse_built d s et p :
  is_u16 et ->
  parse (build d s et p) = Ok (mkFrame d s et (p ++ padding (zlen p))).
Proof.
  intros Het. rewrite build_eq.
  change (to_be16 et ++ p ++ padding (zlen p))
    with ([et / 256 mod 256; et mod 256] ++ p ++ padding (zlen p)).
  by rewrite parse_app, be16_to_be16.
Qed.

(** Whatever [build] frames, [parse] recovers: the two addresses, the
    ethertype, and the payload followed only by the zero padding. *)
Theorem parse_build d s et p :
  is_u16 et ->
  parse (build d s et p) = Ok (mkFrame d s et (p ++ padding (zlen p))).
Proof. apply parse_built. Qed.

Lemma parse_build_witness :
  parse (build MacAddr.BROADCAST (Mac 2 0 0 0 0 1) ETHERTYPE_ARP [7; 7]) =
    Ok (mkFrame MacAddr.BROADCAST (Mac 2 0 0 0 0 1) ETHERTYPE_ARP (7 :: 7 :: replicate 44 0)).
Proof. rewrite parse_build; [reflexivity|by split]. Defined.

Lemma parse_split buf :
  bytes_ok buf ->
  match parse buf with
  | Ok f => buf = MacAddr.as_bytes (dst f) ++ MacAddr.as_bytes (src f) ++
              to_be16 (ethertype f) ++ payload f
  | Err e => e = Truncated /\ zlen buf < HEADER_LEN
  | Panic => False
  end.
Proof.
  intros Hok. destruct (decide (zlen buf < HEADER_LEN)) as [Hs|Hs].
  { unfold parse. by zcases. }
  unfold HEADER_LEN, zlen in Hs.
  do 14 (destruct buf as [|? buf]; [cbn in Hs; lia|]).
  change (parse _) with (parse (MacAddr.as_bytes (Mac z z0 z1 z2 z3 z4) ++
    MacAddr.as_bytes (Mac z5 z6 z7 z8 z9 z10) ++ [z11; z12] ++ buf)).
  rewrite parse_app. cbn [dst src ethertype payload].
  unfold bytes_ok in Hok. rewrite !Forall_cons_iff in Hok. destruct_and!.
  by rewrite to_be16_be16.
Qed.

(** [parse] never panics: it rejects exactly the buffers shorter than a header,
    and otherwise splits the buffer into its fields without losing a byte. *)
Theorem parse_exact buf :
  bytes_ok buf ->
  match parse buf with
  | Ok f => buf = MacAddr.as_bytes (dst f) ++ MacAddr.as_bytes (src f) ++
              to_be16 (ethertype f) ++ payload f
  | Err e => e = Truncated /\ zlen buf < HEADER_LEN
  | Panic => False
  end.
Proof. apply parse_split. Qed.

Lemma parse_exact_witness :
  replicate 20 9 = MacAddr.as_bytes (Mac 9 9 9 9 9 9) ++ MacAddr.as_bytes (Mac 9 9 9 9 9 9) ++
    to_be16 2313 ++ replicate 6 9.
Proof.
  assert (Hok : bytes_ok (replicate 20 9)) by (by apply bytes_okb_ok).
  pose proof (parse_exact (replicate 20 9) Hok) as Hp.
  assert (E : parse (replicate 20 9) =
    Ok (mkFrame (Mac 9 9 9 9 9 9) (Mac 9 9 9 9 9 9) 2313 (replicate 6 9))) by (by vm_compute).
  rewrite E in Hp. exact Hp.
Defined.

End properties.
