(* ===== verification/Arp.v ===== *)
(** * ARP

    [src/netstack/arp.rs]: the packet format, and the responder and resolver of
    one link. Both [HashMap]s are [gmap]s keyed by address; every method reads
    the clock at most once, so the reading is an argument [now]. *)
From Stdlib Require Import ZArith Lia Sorted.
From stdpp Require Import base numbers list strings gmap.
From S2P Require Import Prelude Ethernet.

Open Scope Z_scope.

Module Arp.

Definition OP_REQUEST : Z := 1.

Definition OP_REPLY : Z := 2.

Definition HTYPE_ETHERNET : Z := 1.

Definition PACKET_LEN : Z := 28.

(** How long a learned mapping stays valid. *)
Definition ENTRY_TTL : Z := from_secs 300.

(** Minimum gap between repeat requests for the same address. *)
Definition RETRY_INTERVAL : Z := from_secs 1.

Record ArpPacket : Type := mkArpPacket
  { op : Z;
    sender_mac : MacAddr;
    sender_ip : Ipv4Addr;
    target_mac : MacAddr;
    target_ip : Ipv4Addr }.

(** [Ipv4Addr::new(b[0], b[1], b[2], b[3])] *)
Definition ipv4 {E} (b : list Z) : outcome E Ipv4Addr :=
  a ← b.[0]; c ← b.[1]; d ← b.[2]; e ← b.[3];
  mret (Ipv4 a c d e).

Definition parse (buf : list Z) : outcome Error ArpPacket :=
  if zlen buf <? PACKET_LEN then Err Truncated
  else
    h0 ← buf.[0]; h1 ← buf.[1];
    p0 ← buf.[2]; p1 ← buf.[3];
    if negb (be16 h0 h1 =? HTYPE_ETHERNET) || negb (be16 p0 p1 =? Ethernet.ETHERTYPE_IPV4)
    then Err (Malformed "not Ethernet/IPv4 ARP")
    else
      hl ← buf.[4]; pl ← buf.[5];
      if negb (hl =? 6) || negb (pl =? 4)
      then Err (Malformed "unexpected ARP address sizes")
      else
        o0 ← buf.[6]; o1 ← buf.[7];
        sm ← buf.[8 ..< 14]; sm ← MacAddr.from_slice sm;
        si ← buf.[14 ..< 18]; si ← ipv4 si;
        tm ← buf.[18 ..< 24]; tm ← MacAddr.from_slice tm;
        ti ← buf.[24 ..< 28]; ti ← ipv4 ti;
        mret (mkArpPacket (be16 o0 o1) sm si tm ti).

Definition build (p : ArpPacket) : list Z :=
  to_be16 HTYPE_ETHERNET ++ to_be16 Ethernet.ETHERTYPE_IPV4 ++ [6; 4] ++
  to_be16 (op p) ++ MacAddr.as_bytes (sender_mac p) ++ octets (sender_ip p) ++
  MacAddr.as_bytes (target_mac p) ++ octets (target_ip p).

Record Entry : Type := mkEntry { mac : MacAddr; learned : Z }.

(** ARP responder and resolver for one link. *)
Record Arp : Type := mkArp
  { host_mac : MacAddr;
    host_ip : Ipv4Addr;
    cache : gmap Ipv4Addr Entry;
    last_request : gmap Ipv4Addr Z }.

Definition new (host_mac : MacAddr) (host_ip : Ipv4Addr) : Arp :=
  mkArp host_mac host_ip ∅ ∅.

(** Our address changes when DHCP hands us a lease. *)
Definition set_host_ip (a : Arp) (ip : Ipv4Addr) : Arp :=
  mkArp (host_mac a) ip (cache a) (last_request a).

Definition lookup (now : Z) (a : Arp) (ip : Ipv4Addr) : option MacAddr :=
  match cache a !! ip with
  | Some e => if duration_since now (learned e) <? ENTRY_TTL then Some (mac e) else None
  | None => None
  end.

Definition insert (now : Z) (a : Arp) (ip : Ipv4Addr) (m : MacAddr) : Arp :=
  mkArp (host_mac a) (host_ip a) (<[ip := mkEntry m now]> (cache a)) (last_request a).

(** The broadcast frame [request] sends for [ip]. *)
Definition request_frame (a : Arp) (ip : Ipv4Addr) : list Z :=
  let packet := build (mkArpPacket OP_REQUEST (host_mac a) (host_ip a) MacAddr.ZERO ip) in
  Ethernet.build MacAddr.BROADCAST (host_mac a) Ethernet.ETHERTYPE_ARP packet.

(** A broadcast ARP request for [ip], rate-limited to one per second. *)
Definition request (now : Z) (a : Arp) (ip : Ipv4Addr) : option (list Z) * Arp :=
  let send :=
    (Some (request_frame a ip),
     mkArp (host_mac a) (host_ip a) (cache a) (<[ip := now]> (last_request a))) in
  match last_request a !! ip with
  | Some sent => if duration_since now sent <? RETRY_INTERVAL then (None, a) else send
  | None => send
  end.

(** Whether [handle] learns from a packet: never from an unspecified sender,
    which would poison the cache, and never a group address. *)
Definition learnable (p : ArpPacket) : bool :=
  negb (is_unspecified (sender_ip p)) && negb (MacAddr.is_multicast (sender_mac p)).

(** [handle] reaches [insert], the one place that reads the clock. *)
Definition teaches (payload : list Z) : bool :=
  match parse payload with
  | Ok p => learnable p
  | _ => false
  end.

(** Handle an inbound ARP payload, learning what it tells us and returning a
    reply frame when the request is for our address. *)
Definition handle (now : Z) (a : Arp) (payload : list Z)
    : outcome Error (option (list Z)) * Arp :=
  match parse payload with
  | Err e => (Err e, a)
  | Panic => (Panic, a)
  | Ok p =>
      let a := if learnable p then insert now a (sender_ip p) (sender_mac p) else a in
      if negb (op p =? OP_REQUEST) || negb (bool_decide (target_ip p = host_ip a))
         || is_unspecified (host_ip a)
      then (Ok None, a)
      else
        let reply := build (mkArpPacket OP_REPLY (host_mac a) (host_ip a)
                              (sender_mac p) (sender_ip p)) in
        (Ok (Some (Ethernet.build (sender_mac p) (host_mac a) Ethernet.ETHERTYPE_ARP reply)), a)
  end.

(** ** The packet format *)

Lemma zlen_arp_build p : zlen (build p) = PACKET_LEN.
Proof. reflexivity. Qed.

Definition packet_ok (p : ArpPacket) : Prop :=
  is_u16 (op p) /\ mac_ok (sender_mac p) /\ ip_ok (sender_ip p) /\
  mac_ok (target_mac p) /\ ip_ok (target_ip p).

(** [parse] on a packet written out byte by byte. *)
Lemma parse_fields o0 o1 sm si tm ti rest :
  parse ([0; 1; 8; 0; 6; 4; o0; o1] ++ MacAddr.as_bytes sm ++ octets si ++
         MacAddr.as_bytes tm ++ octets ti ++ rest) =
    Ok (mkArpPacket (be16 o0 o1) sm si tm ti).
Proof.
  set (b := _ ++ _).
  assert (Hl : zlen b = 28 + zlen rest) by (unfold b; zl).
  pose proof (zlen_nonneg rest). unfold parse, PACKET_LEN. rewrite Hl. zcases.
  rewrite !idx_ok, !slice_ok by lia. cbn [mbind outcome_bind].
  change (sub b 8 14) with (MacAddr.as_bytes sm ++ []).
  change (sub b 18 24) with (MacAddr.as_bytes tm ++ []).
  change (sub b 14 18) with (octets si). change (sub b 24 28) with (octets ti).
  rewrite !from_slice_as_bytes. by destruct si, ti.
Qed.

Lemma arp_parse_built p rest :
  is_u16 (op p) -> parse (build p ++ rest) = Ok p.
Proof.
  intros Hop. unfold build. rewrite <- !app_assoc.
  change (parse _) with
    (parse ([0; 1; 8; 0; 6; 4; op p / 256 mod 256; op p mod 256] ++
      MacAddr.as_bytes (sender_mac p) ++ octets (sender_ip p) ++
      MacAddr.as_bytes (target_mac p) ++ octets (target_ip p) ++ rest)).
  rewrite parse_fields, be16_to_be16 by done. by destruct p.
Qed.

(** Every packet survives the wire, whatever follows it in the frame (the
    Ethernet padding of a short frame). *)
Theorem arp_parse_build p rest :
  is_u16 (op p) -> parse (build p ++ rest) = Ok p.
Proof. apply arp_parse_built. Qed.

Definition sample_request : ArpPacket :=
  mkArpPacket OP_REQUEST (Mac 2 0 0 0 0 7) (Ipv4 10 0 0 7) MacAddr.ZERO (Ipv4 10 0 0 1).

Lemma arp_parse_build_witness :
  parse (build sample_request ++ replicate 18 0) = Ok sample_request.
Proof. apply arp_parse_build. by split. Defined.

Lemma arp_short buf : zlen buf < PACKET_LEN -> parse buf = Err Truncated.
Proof. intros. unfold parse. by zcases. Qed.

Lemma arp_parse_split buf :
  bytes_ok buf ->
  match parse buf with
  | Ok p => buf = build p ++ sub buf PACKET_LEN (zlen buf) /\ packet_ok p
  | Err e => (e = Truncated <-> zlen buf < PACKET_LEN)
  | Panic => False
  end.
Proof.
  intros Hok. destruct (decide (zlen buf < PACKET_LEN)) as [Hs|Hs].
  { by rewrite arp_short. }
  pose proof Hs as Hlen. unfold PACKET_LEN, zlen in Hs.
  assert (Hsplit : buf = sub buf 0 PACKET_LEN ++ sub buf PACKET_LEN (zlen buf)).
  { rewrite <- sub_split by (unfold PACKET_LEN in *; lia). by rewrite sub_all. }
  do 28 (destruct buf as [|? buf]; [cbn in Hs; lia|]).
  unfold bytes_ok in Hok. rewrite !Forall_cons_iff in Hok. destruct_and!.
  set (b := z :: _) in *. unfold parse. zcases.
  unfold PACKET_LEN in Hlen.
  rewrite !(idx_ok b), !(slice_ok b) by lia. cbn [mbind outcome_bind].
  destruct (negb (be16 _ _ =? HTYPE_ETHERNET) || _) eqn:Eh; [split; [done|lia]|].
  destruct (negb (nthZ b 4 =? 6) || _) eqn:Ea; [split; [done|lia]|].
  change (sub b 8 14) with (MacAddr.as_bytes (Mac z7 z8 z9 z10 z11 z12) ++ []).
  change (sub b 18 24) with (MacAddr.as_bytes (Mac z17 z18 z19 z20 z21 z22) ++ []).
  rewrite !from_slice_as_bytes. cbn [mbind outcome_bind].
  change (ipv4 (sub b 14 18)) with (@Ok Error _ (Ipv4 z13 z14 z15 z16)).
  change (ipv4 (sub b 24 28)) with (@Ok Error _ (Ipv4 z23 z24 z25 z26)).
  cbn [mbind outcome_bind mret outcome_ret].
  change (nthZ b 0) with z in *. change (nthZ b 1) with z0 in *.
  change (nthZ b 2) with z1 in *. change (nthZ b 3) with z2 in *.
  change (nthZ b 4) with z3 in *. change (nthZ b 5) with z4 in *.
  apply orb_false_elim in Eh as [Eh0 Eh1]. apply orb_false_elim in Ea as [Ea0 Ea1].
  rewrite negb_false_iff, Z.eqb_eq in *. subst z3 z4.
  split; [|repeat split; repeat constructor; cbn; unfold is_u8 in *; try lia;
           apply be16_bound; done].
  rewrite Hsplit at 1. f_equal. unfold build. cbn [op sender_mac sender_ip target_mac target_ip].
  rewrite <- Eh0, <- Eh1, !to_be16_be16 by done. done.
Qed.

(** [parse] never panics; it reports truncation exactly below 28 bytes, and what
    it accepts re-encodes to the 28 bytes it read. *)
Theorem arp_parse_exact buf :
  bytes_ok buf ->
  match parse buf with
  | Ok p => buf = build p ++ sub buf PACKET_LEN (zlen buf) /\ packet_ok p
  | Err e => (e = Truncated <-> zlen buf < PACKET_LEN)
  | Panic => False
  end.
Proof. apply arp_parse_split. Qed.

Lemma arp_parse_exact_witness :
  build sample_request ++ [1; 2] =
    build sample_request ++ sub (build sample_request ++ [1; 2]) PACKET_LEN 30 /\
  packet_ok sample_request.
Proof.
  assert (Hok : bytes_ok (build sample_request ++ [1; 2])) by (apply bytes_okb_ok; by vm_compute).
  pose proof (arp_parse_exact _ Hok) as Hp.
  assert (E : parse (build sample_request ++ [1; 2]) = Ok sample_request) by (by vm_compute).
  rewrite E in Hp. exact Hp.
Defined.

(** ** The responder *)

(** [handle] answers exactly the requests for the address we hold; the answer
    parses back to a reply from us to the asker, in a unicast frame. *)
Theorem handle_answers now a p pad :
  is_u16 (op p) ->
  match fst (handle now a (build p ++ pad)) with
  | Ok (Some frame) =>
      op p = OP_REQUEST /\ target_ip p = host_ip a /\ host_ip a <> UNSPECIFIED /\
      exists f, Ethernet.parse frame = Ok f /\
        Ethernet.dst f = sender_mac p /\ Ethernet.src f = host_mac a /\
        Ethernet.ethertype f = Ethernet.ETHERTYPE_ARP /\
        parse (Ethernet.payload f) =
          Ok (mkArpPacket OP_REPLY (host_mac a) (host_ip a) (sender_mac p) (sender_ip p))
  | Ok None =>
      op p <> OP_REQUEST \/ target_ip p <> host_ip a \/ host_ip a = UNSPECIFIED
  | _ => False
  end.
Proof.
  intros Hop. unfold handle. rewrite arp_parse_built by done.
  set (a' := if learnable p then _ else _).
  assert (Ha : host_ip a' = host_ip a /\ host_mac a' = host_mac a)
    by (unfold a'; by destruct (learnable p)).
  destruct Ha as [-> ->].
  destruct (op p =? OP_REQUEST) eqn:E1; cbn [negb orb fst]; [|left; lia].
  case_bool_decide as E2; cbn [negb orb fst]; [|by right; left].
  destruct (is_unspecified (host_ip a)) eqn:E3; cbn [negb orb fst].
  { right; right. by apply is_unspecified_spec. }
  repeat split; [lia|done| |].
  { intros Hu. apply is_unspecified_spec in Hu. congruence. }
  eexists. rewrite parse_built by done. split; [done|].
  cbn [Ethernet.dst Ethernet.src Ethernet.ethertype Ethernet.payload].
  by rewrite arp_parse_built.
Qed.

Lemma handle_answers_witness :
  exists frame f,
    fst (handle 0 (new (Mac 2 0 0 0 0 1) (Ipv4 10 0 0 1)) (build sample_request ++ [])) =
      Ok (Some frame) /\
    Ethernet.parse frame = Ok f /\ Ethernet.dst f = Mac 2 0 0 0 0 7.
Proof.
  pose proof (handle_answers 0 (new (Mac 2 0 0 0 0 1) (Ipv4 10 0 0 1)) sample_request []
    ltac:(by split)) as Hh.
  destruct (fst (handle 0 _ _)) as [[frame|]|e|] eqn:E; [| |done|done].
  - destruct Hh as (_ & _ & _ & f & Hf & Hd & _). by exists frame, f.
  - exfalso. destruct Hh as [Hh|[Hh|Hh]]; by apply Hh || discriminate Hh.
Defined.

(** ** The resolver

    The two tables are related to the history of the calls that made them: the
    methods are run over a log of timed calls. *)

Inductive call : Type :=
| CHandle (payload : list Z)
| CInsert (ip : Ipv4Addr) (m : MacAddr)
| CRequest (ip : Ipv4Addr)
| CSetHostIp (ip : Ipv4Addr).

(** One call, and whether it was a request that sent a frame. *)
Definition step (now : Z) (a : Arp) (c : call) : bool * Arp :=
  match c with
  | CHandle payload => (false, snd (handle now a payload))
  | CInsert ip m => (false, insert now a ip m)
  | CRequest ip => let '(o, a) := request now a ip in (bool_decide (is_Some o), a)
  | CSetHostIp ip => (false, set_host_ip a ip)
  end.

Definition run (a : Arp) (log : list (Z * call)) : Arp :=
  foldl (fun a '(t, c) => snd (step t a c)) a log.

(** What a call teaches us. *)
Definition learns (c : call) : option (Ipv4Addr * MacAddr) :=
  match c with
  | CHandle payload =>
      match parse payload with
      | Ok p => if learnable p then Some (sender_ip p, sender_mac p) else None
      | _ => None
      end
  | CInsert ip m => Some (ip, m)
  | _ => None
  end.

(** The last thing a log taught us about [ip], and when. *)
Definition last_learned (ip : Ipv4Addr) (log : list (Z * call)) : option (MacAddr * Z) :=
  foldl (fun acc '(t, c) =>
    match learns c with
    | Some (ip', m) => if bool_decide (ip' = ip) then Some (m, t) else acc
    | None => acc
    end) None log.

(** The frames a log of calls sent for [ip], by their times, latest first. *)
Fixpoint sent_times (a : Arp) (ip : Ipv4Addr) (log : list (Z * call)) : list Z :=
  match log with
  | [] => []
  | (t, c) :: log =>
      let '(sent, a) := step t a c in
      let rest := sent_times a ip log in
      match c with
      | CRequest ip' => if sent && bool_decide (ip' = ip) then t :: rest else rest
      | _ => rest
      end
  end.

Lemma step_cache now a c ip :
  cache (snd (step now a c)) !! ip =
    match learns c with
    | Some (ip', m) => if bool_decide (ip' = ip) then Some (mkEntry m now) else cache a !! ip
    | None => cache a !! ip
    end.
Proof.
  destruct c as [payload|ip' m|ip'|ip']; cbn [step learns snd]; try done.
  - unfold handle. destruct (parse payload) as [p| |]; try done.
    destruct (learnable p); destruct (_ || _); cbn; try done;
      rewrite lookup_insert; case_bool_decide; by case_decide.
  - cbn. rewrite lookup_insert. case_bool_decide; by case_decide.
  - unfold request. destruct (last_request a !! ip') as [t|]; [|done].
    by destruct (duration_since now t <? RETRY_INTERVAL).
Qed.

Lemma run_cache a log ip acc :
  cache a !! ip = (fun p => mkEntry (fst p) (snd p)) <$> acc ->
  cache (run a log) !! ip = (fun p => mkEntry (fst p) (snd p)) <$>
    foldl (fun acc '(t, c) =>
      match learns c with
      | Some (ip', m) => if bool_decide (ip' = ip) then Some (m, t) else acc
      | None => acc
      end) acc log.
Proof.
  revert a acc. induction log as [|[t c] log IH]; intros a acc Ha; [done|].
  cbn. apply IH. rewrite step_cache, Ha.
  destruct (learns c) as [[ip' m]|]; [|done]. by case_bool_decide.
Qed.

Lemma lookup_run_new m i log now ip :
  lookup now (run (new m i) log) ip =
    match last_learned ip log with
    | Some (mac, t) => if duration_since now t <? ENTRY_TTL then Some mac else None
    | None => None
    end.
Proof.
  unfold lookup. rewrite (run_cache (new m i) log ip None) by apply lookup_empty.
  unfold last_learned. by destruct (foldl _ _ log) as [[? ?]|].
Qed.

(** C38. A lookup returns what the history last taught about the address, for as long
    as [ENTRY_TTL] and not longer: nothing else ever enters or leaves the cache. *)
Theorem lookup_is_last_learned m i log now ip :
  lookup now (run (new m i) log) ip =
    match last_learned ip log with
    | Some (mac, t) => if duration_since now t <? ENTRY_TTL then Some mac else None
    | None => None
    end.
Proof. apply lookup_run_new. Qed.

Lemma step_last_request now a c ip :
  last_request (snd (step now a c)) !! ip =
    match c with
    | CRequest ip' =>
        if fst (step now a c) && bool_decide (ip' = ip) then Some now
        else last_request a !! ip
    | _ => last_request a !! ip
    end.
Proof.
  destruct c as [payload|ip' m|ip'|ip']; try done.
  - cbn. unfold handle. destruct (parse payload) as [p| |]; try done.
    by destruct (learnable p); destruct (_ || _).
  - cbn. unfold request.
    destruct (last_request a !! ip') as [t|] eqn:E;
      [destruct (duration_since now t <? RETRY_INTERVAL)|]; cbn; try done;
      rewrite lookup_insert; case_bool_decide; by case_decide.
Qed.

(** The first request for [ip] a log sends comes no earlier than a retry
    interval after the one recorded, and later ones are as far apart. *)
Lemma sent_times_spaced a ip log :
  forall prev, StronglySorted Z.le (prev :: map fst log) ->
  (forall t, last_request a !! ip = Some t -> t <= prev) ->
  ForallOrdPairs (fun t u => u - t >= RETRY_INTERVAL) (sent_times a ip log) /\
  (forall t, last_request a !! ip = Some t ->
    Forall (fun u => u - t >= RETRY_INTERVAL) (sent_times a ip log)).
Proof.
  revert a. induction log as [|[now c] log IH]; intros a prev Hs Ha.
  { split; [constructor|]. intros. constructor. }
  cbn [map fst] in Hs. apply StronglySorted_inv in Hs as [Hs Hp].
  apply Forall_cons_iff in Hp as [Hp _].
  pose proof (step_last_request now a c ip) as Hstep.
  destruct (IH (snd (step now a c)) now Hs) as [IH1 IH2].
  { intros t Ht. rewrite Hstep in Ht. specialize (Ha t).
    destruct c; try (specialize (Ha Ht); lia).
    destruct (_ && _); [simplify_eq; lia|]. specialize (Ha Ht). lia. }
  cbn [sent_times]. destruct (step now a c) as [sent a'] eqn:Es. cbn [fst snd] in *.
  destruct c as [payload|ip' m|ip'|ip']; try (split; [done|]; intros t Ht;
    apply IH2; by rewrite Hstep).
  destruct (sent && bool_decide (ip' = ip)) eqn:Eb.
  - split; [constructor; [by apply IH2|done]|]. intros t Ht.
    apply andb_prop in Eb as [-> Eb]. apply bool_decide_eq_true in Eb as ->.
    assert (Hgap : now - t >= RETRY_INTERVAL).
    { cbn in Es. unfold request in Es. rewrite Ht in Es.
      destruct (duration_since now t <? RETRY_INTERVAL) eqn:Ed; [done|].
      unfold duration_since, RETRY_INTERVAL, from_secs in *. lia. }
    constructor; [done|]. eapply Forall_impl; [by apply IH2|].
    cbn. unfold RETRY_INTERVAL, from_secs in *. lia.
  - split; [done|]. intros t Ht. apply IH2. by rewrite Hstep.
Qed.

(** Over any history with a monotone clock, two requests sent for the same
    address are at least [RETRY_INTERVAL] (one second) apart. *)
Theorem requests_rate_limited m i ip log :
  StronglySorted Z.le (map fst log) ->
  ForallOrdPairs (fun t u => u - t >= RETRY_INTERVAL) (sent_times (new m i) ip log).
Proof.
  intros Hs. destruct log as [|[t c] log]; [constructor|].
  refine (proj1 (sent_times_spaced (new m i) ip ((t, c) :: log) t _ _)).
  - cbn [map fst] in *. constructor; [done|].
    apply StronglySorted_inv in Hs as [_ Hs]. constructor; [lia|done].
  - intros t' Ht'. by cbn in Ht'; rewrite lookup_empty in Ht'.
Qed.

Lemma requests_rate_limited_witness :
  let ip := Ipv4 192 168 42 129 in
  let log := [(0, CRequest ip); (from_millis 400, CRequest ip); (from_secs 1, CRequest ip)] in
  sent_times (new MacAddr.ZERO UNSPECIFIED) ip log = [0; from_secs 1] /\
  ForallOrdPairs (fun t u => u - t >= RETRY_INTERVAL)
    (sent_times (new MacAddr.ZERO UNSPECIFIED) ip log).
Proof.
  intros ip log. split; [by vm_compute|]. apply requests_rate_limited.
  repeat constructor; vm_compute; discriminate.
Defined.

End Arp.
