(* ===== verification/UdpIp.v ===== *)
(** * IPv4 and UDP

    [src/netstack/ipv4.rs]: the Internet checksum, and the two headers DHCP
    messages travel in. *)
From Stdlib Require Import ZArith Lia.
From stdpp Require Import base numbers list strings.
From S2P Require Import Prelude Ethernet.

Open Scope Z_scope.

Module UdpIp.

Definition PROTO_UDP : Z := 17.

Definition IPV4_HEADER_LEN : Z := 20.

Definition UDP_HEADER_LEN : Z := 8.

Record UdpDatagram : Type := mkUdp
  { src_ip : Ipv4Addr; dst_ip : Ipv4Addr; src_port : Z; dst_port : Z; payload : list Z }.

(** The loop over [chunks_exact(2)] of one part: the sum, and the remainder. *)
Fixpoint sum_chunks {P : Profile} {E} (sum : Z) (bytes : list Z) : outcome E (Z * list Z) :=
  match bytes with
  | a :: b :: rest =>
      sum ← add_checked 4294967296 sum (be16 a b);
      sum_chunks sum rest
  | rem => mret (sum, rem)
  end.

(** One iteration of the loop over the parts, on [sum] and [carry_byte]. *)
Definition add_part {P : Profile} {E} (sum : Z) (carry_byte : option Z) (part : list Z)
    : outcome E (Z * option Z) :=
  '(sum, bytes) ←
    match carry_byte with
    | Some high =>
        let low := default 0 (head part) in
        sum ← add_checked 4294967296 sum (be16 high low);
        mret (sum, tail part)
    | None => mret (sum, part)
    end;
  '(sum, rem) ← sum_chunks sum bytes;
  mret (sum, match rem with [last] => Some last | _ => None end).

Fixpoint add_parts {P : Profile} {E} (sum : Z) (carry_byte : option Z) (parts : list (list Z))
    : outcome E (Z * option Z) :=
  match parts with
  | [] => mret (sum, carry_byte)
  | part :: parts =>
      '(sum, carry_byte) ← add_part sum carry_byte part;
      add_parts sum carry_byte parts
  end.

(** [while sum >> 16 != 0 { sum = (sum & 0xFFFF) + (sum >> 16) }], at most
    [fuel] times; three are enough for a [u32]. *)
Fixpoint fold_carries (fuel : nat) (sum : Z) : Z :=
  match fuel with
  | O => sum
  | S fuel =>
      if Z.shiftr sum 16 =? 0 then sum
      else fold_carries fuel (Z.land sum 65535 + Z.shiftr sum 16)
  end.

(** One's-complement sum used by both the IPv4 and UDP checksums. *)
Definition checksum {P : Profile} {E} (parts : list (list Z)) : outcome E Z :=
  '(sum, carry_byte) ← add_parts 0 None parts;
  sum ← match carry_byte with
        | Some high => add_checked 4294967296 sum (be16 high 0)
        | None => mret sum
        end;
  mret (as_u16 (Z.lnot (as_u16 (fold_carries 3 sum)))).

(** Build a complete IPv4+UDP packet. *)
Definition build_udp {P : Profile} {E} (d : UdpDatagram) (ip_id : Z) : outcome E (list Z) :=
  let udp_len := UDP_HEADER_LEN + zlen (payload d) in
  let total_len := IPV4_HEADER_LEN + udp_len in
  let p := [69; 0] ++ to_be16 (as_u16 total_len) ++ to_be16 ip_id ++ to_be16 0 ++
           [64; PROTO_UDP] ++ to_be16 0 ++ octets (src_ip d) ++ octets (dst_ip d) in
  h ← p.[0 ..< IPV4_HEADER_LEN];
  ip_checksum ← checksum [h];
  p ← copy_from_slice p 10 12 (to_be16 ip_checksum);
  let p := p ++ to_be16 (src_port d) ++ to_be16 (dst_port d) ++ to_be16 (as_u16 udp_len) ++
           to_be16 0 ++ payload d in
  let pseudo := octets (src_ip d) ++ octets (dst_ip d) ++
                [0; PROTO_UDP; as_u8 (Z.shiftr udp_len 8); as_u8 udp_len] in
  udp ← p.[IPV4_HEADER_LEN ..< zlen p];
  udp_checksum ← checksum [pseudo; udp];
  let udp_checksum := if udp_checksum =? 0 then 65535 else udp_checksum in
  copy_from_slice p (IPV4_HEADER_LEN + 6) (IPV4_HEADER_LEN + 8) (to_be16 udp_checksum).

(** Extract a UDP datagram, tolerating IPv4 options. *)
Definition parse_udp (buf : list Z) : outcome Error UdpDatagram :=
  if zlen buf <? IPV4_HEADER_LEN then Err Truncated else
  b0 ← buf.[0];
  if negb (Z.shiftr b0 4 =? 4) then Err (Malformed "not IPv4") else
  let header_len := Z.land b0 15 * 4 in
  if (header_len <? IPV4_HEADER_LEN) || (zlen buf <? header_len)
  then Err (Malformed "bad IPv4 header length") else
  b9 ← buf.[9];
  if negb (b9 =? PROTO_UDP) then Err (Malformed "not UDP") else
  b6 ← buf.[6]; b7 ← buf.[7];
  if negb (Z.land b6 32 =? 0) || negb (be16 (Z.land b6 31) b7 =? 0)
  then Err (Malformed "fragmented") else
  b2 ← buf.[2]; b3 ← buf.[3];
  let total_len := be16 b2 b3 in
  if (total_len <? header_len) || (zlen buf <? total_len) then Err Truncated else
  udp ← buf.[header_len ..< total_len];
  if zlen udp <? UDP_HEADER_LEN then Err Truncated else
  u4 ← udp.[4]; u5 ← udp.[5];
  let udp_len := be16 u4 u5 in
  if (udp_len <? UDP_HEADER_LEN) || (zlen udp <? udp_len) then Err Truncated else
  s0 ← buf.[12]; s1 ← buf.[13]; s2 ← buf.[14]; s3 ← buf.[15];
  d0 ← buf.[16]; d1 ← buf.[17]; d2 ← buf.[18]; d3 ← buf.[19];
  u0 ← udp.[0]; u1 ← udp.[1]; u2 ← udp.[2]; u3 ← udp.[3];
  data ← udp.[UDP_HEADER_LEN ..< udp_len];
  mret (mkUdp (Ipv4 s0 s1 s2 s3) (Ipv4 d0 d1 d2 d3) (be16 u0 u1) (be16 u2 u3) data).

(** ** The reference checksum (RFC 1071) *)

(** The sum of the big-endian 16-bit words of a buffer, the last byte of an odd
    one padded with zero. *)
Fixpoint word_sum (b : list Z) : Z :=
  match b with
  | a :: c :: rest => be16 a c + word_sum rest
  | [a] => be16 a 0
  | [] => 0
  end.

(** The one's-complement representative of a sum: zero only for zero. *)
Definition ones_complement (s : Z) : Z := if s =? 0 then 0 else 1 + (s - 1) mod 65535.

Definition rfc1071 (b : list Z) : Z := 65535 - ones_complement (word_sum b).

(** What a receiver does with a buffer that holds its checksum: it adds the
    16-bit words up in one's complement, each carry out of the top added back in
    at the bottom, and accepts when every bit of the sum is one. *)
Definition end_around (s word : Z) : Z :=
  if s + word <? 65536 then s + word else s + word - 65535.

Fixpoint received_sum (s : Z) (b : list Z) : Z :=
  match b with
  | a :: c :: rest => received_sum (end_around s (be16 a c)) rest
  | [a] => end_around s (be16 a 0)
  | [] => s
  end.

Definition accepts (b : list Z) : Prop := received_sum 0 b = 65535.

(** ** Lemmas on the checksum *)

Lemma word_sum_bounds b : bytes_ok b -> 0 <= word_sum b /\ 2 * word_sum b <= 65535 * (zlen b + 1).
Proof.
  remember (length b) as n eqn:Hn. revert b Hn.
  induction n as [n IH] using lt_wf_ind. intros [|a [|c b]] Hn Hb; cbn [word_sum].
  - unfold zlen; cbn; lia.
  - unfold bytes_ok in Hb. rewrite !Forall_cons_iff in Hb. unfold is_u8, be16, zlen in *.
    cbn. lia.
  - unfold bytes_ok in Hb. rewrite !Forall_cons_iff in Hb. destruct Hb as (Ha & Hc & Hb).
    specialize (IH (length b) ltac:(cbn in Hn; lia) b eq_refl Hb).
    autorewrite with zlen. unfold is_u8, be16 in *. lia.
Qed.

Lemma word_sum_app a b :
  Nat.even (length a) = true -> word_sum (a ++ b) = word_sum a + word_sum b.
Proof.
  remember (length a) as n eqn:Hn. revert a Hn.
  induction n as [n IH] using lt_wf_ind. intros [|x [|y a]] Hn He; subst; try done.
  cbn [app word_sum]. rewrite (IH (length a)); [lia|cbn; lia|done|done].
Qed.

Lemma fold_step s :
  0 <= s -> ones_complement (Z.land s 65535 + Z.shiftr s 16) = ones_complement s.
Proof.
  intros Hs. change 65535 with (Z.ones 16). rewrite Z.land_ones, Z.shiftr_div_pow2 by lia.
  change (2 ^ 16) with 65536. unfold ones_complement. zcases; zdm.
Qed.

Lemma ones_complement_small s : 0 <= s < 65536 -> ones_complement s = s.
Proof. intros. unfold ones_complement. zcases; zdm. Qed.

Lemma end_around_spec s word :
  0 <= s < 65536 -> is_u16 word ->
  end_around s word = ones_complement (s + word) /\ is_u16 (end_around s word).
Proof. unfold end_around, ones_complement, is_u16. intros. zcases; zdm. Qed.

Lemma ones_complement_add s t :
  0 <= s -> 0 <= t -> ones_complement (ones_complement s + t) = ones_complement (s + t).
Proof.
  intros. pose proof (Z.mod_pos_bound (s - 1) 65535). unfold ones_complement at 2.
  destruct (Z.eqb_spec s 0) as [->|]; [done|]. unfold ones_complement. zcases.
  replace (1 + (s - 1) mod 65535 + t - 1) with ((s - 1) mod 65535 + t) by lia.
  rewrite Zplus_mod_idemp_l. do 2 f_equal. lia.
Qed.

Lemma received_sum_spec b : forall s,
  bytes_ok b -> is_u16 s -> received_sum s b = ones_complement (s + word_sum b).
Proof.
  remember (length b) as n eqn:Hn. revert b Hn.
  induction n as [n IH] using lt_wf_ind. intros [|x [|y b]] Hn s Hb Hs;
    cbn [received_sum word_sum].
  - rewrite Z.add_0_r, ones_complement_small; [done|exact Hs].
  - apply Forall_cons_iff in Hb as [Hx _].
    apply end_around_spec; [exact Hs|]. by apply be16_bound.
  - unfold bytes_ok in Hb. rewrite !Forall_cons_iff in Hb. destruct Hb as (Hx & Hy & Hb).
    destruct (end_around_spec s (be16 x y)) as [E Hu]; [exact Hs|by apply be16_bound|].
    rewrite (IH (length b) ltac:(cbn in Hn; lia) b eq_refl _ Hb Hu), E.
    pose proof (word_sum_bounds b Hb). pose proof (be16_bound x y Hx Hy) as Hxy.
    unfold is_u16 in *. rewrite ones_complement_add by lia. f_equal. lia.
Qed.

(** The loop: three rounds reach the fixed point, which is the representative. *)
Lemma fold_carries_spec s : is_u32 s -> fold_carries 3 s = ones_complement s.
Proof.
  intros Hs. unfold is_u32 in Hs. cbn [fold_carries].
  set (step := fun s => Z.land s 65535 + Z.shiftr s 16).
  change (Z.land s 65535 + Z.shiftr s 16) with (step s).
  change (Z.land (step s) 65535 + Z.shiftr (step s) 16) with (step (step s)).
  change (Z.land (step (step s)) 65535 + Z.shiftr (step (step s)) 16) with (step (step (step s))).
  assert (Hstep : forall x, step x = x mod 65536 + x / 65536).
  { intros. unfold step. change 65535 with (Z.ones 16).
    rewrite Z.land_ones, Z.shiftr_div_pow2 by lia. done. }
  assert (Hsh : forall x, Z.shiftr x 16 = x / 65536).
  { intros. by rewrite Z.shiftr_div_pow2 by lia. }
  assert (Hfix : forall x, 0 <= x -> ones_complement (step x) = ones_complement x)
    by (intros; by apply fold_step).
  assert (H1 : 0 <= step s <= 131070) by (rewrite Hstep; zdm).
  assert (H2 : 0 <= step (step s) <= 65535) by (rewrite (Hstep (step s)); zdm).
  rewrite !Hsh.
  destruct (Z.eqb_spec (s / 65536) 0); [symmetry; apply ones_complement_small; zdm|].
  destruct (Z.eqb_spec (step s / 65536) 0).
  { rewrite <- Hfix by lia. symmetry. apply ones_complement_small. zdm. }
  destruct (Z.eqb_spec (step (step s) / 65536) 0); [|zdm].
  rewrite <- Hfix, <- (Hfix (step s)) by lia.
  symmetry. apply ones_complement_small. lia.
Qed.

(** The byte a carry stands for. *)
Definition carried (c : option Z) : list Z := match c with Some h => [h] | None => [] end.

Lemma word_sum_nonneg b : bytes_ok b -> 0 <= word_sum b.
Proof. intros. by apply word_sum_bounds. Qed.

Lemma sum_chunks_ok {P : Profile} {E} b : forall sum,
  bytes_ok b -> 0 <= sum -> sum + word_sum b < 4294967296 ->
  exists sum' rem, @sum_chunks P E sum b = Ok (sum', rem) /\ 0 <= sum' /\ bytes_ok rem /\
    (rem = [] \/ exists last, rem = [last]) /\
    forall rest, sum + word_sum (b ++ rest) = sum' + word_sum (rem ++ rest).
Proof.
  remember (length b) as n eqn:Hn. revert b Hn.
  induction n as [n IH] using lt_wf_ind. intros [|a [|c b]] Hn sum Hb H0 Hs.
  - exists sum, []. repeat split; eauto.
  - exists sum, [a]. repeat split; eauto.
  - unfold bytes_ok in Hb. rewrite !Forall_cons_iff in Hb. destruct Hb as (Ha & Hc & Hb).
    pose proof (word_sum_nonneg b Hb). pose proof (be16_bound a c Ha Hc) as Hac.
    unfold is_u16 in Hac. cbn [word_sum] in Hs. cbn [sum_chunks].
    rewrite add_checked_small by lia. cbn [mbind outcome_bind].
    destruct (IH (length b) ltac:(cbn in Hn; lia) b eq_refl (sum + be16 a c))
      as (s' & rem & -> & Hs0 & Hrok & Hrem & Heq); [done|lia|lia|].
    exists s', rem. repeat split; eauto. intros rest. rewrite <- Heq. cbn [app word_sum]. lia.
Qed.

Lemma add_part_ok {P : Profile} {E} sum carry part rest :
  bytes_ok (carried carry ++ part) -> 0 <= sum ->
  sum + word_sum (carried carry ++ part) < 4294967296 ->
  (part <> [] \/ rest = []) ->
  exists sum' carry', @add_part P E sum carry part = Ok (sum', carry') /\ 0 <= sum' /\
    bytes_ok (carried carry') /\
    sum + word_sum (carried carry ++ part ++ rest) = sum' + word_sum (carried carry' ++ rest).
Proof.
  intros Hok H0 Hs Hne. unfold add_part.
  assert (Hfin : forall s0 bytes, bytes_ok bytes -> 0 <= s0 -> s0 + word_sum bytes < 4294967296 ->
    exists sum' carry',
      ('(sum, rem) ← sum_chunks s0 bytes;
       mret (sum, match rem with [last] => Some last | _ => None end)) =
        @Ok E _ (sum', carry') /\ 0 <= sum' /\ bytes_ok (carried carry') /\
      s0 + word_sum (bytes ++ rest) = sum' + word_sum (carried carry' ++ rest)).
  { intros s0 bytes Hb Hs0 Hlt.
    destruct (@sum_chunks_ok P E bytes s0) as (s' & rem & -> & ? & Hr & Hrem & Heq); try done.
    destruct Hrem as [-> | [last ->]]; cbn [mbind outcome_bind mret outcome_ret];
      eexists _, _; (split; [done|]); (split; [done|]); split; try done; apply Heq. }
  destruct carry as [h|]; [|by apply Hfin].
  cbn [carried app] in *.
  unfold bytes_ok in Hok. apply Forall_cons_iff in Hok as [Hh Hok].
  destruct part as [|l part]; cbn [app head tail from_option] in *.
  - destruct Hne as [Hne | ->]; [done|]. cbn [word_sum] in Hs.
    cbn. rewrite add_checked_small by lia. cbn.
    eexists _, None. unfold is_u8, be16 in *. split; [done|].
    split; [lia|]. split; [constructor|]. cbn. lia.
  - apply Forall_cons_iff in Hok as [Hl Hok].
    pose proof (word_sum_nonneg part Hok). cbn [word_sum] in *.
    pose proof (be16_bound h l Hh Hl) as Hb. unfold is_u16 in Hb.
    cbn [default]. rewrite add_checked_small by (cbn; lia).
    cbn [mbind outcome_bind mret outcome_ret tail default].
    destruct (Hfin (sum + be16 h l) part) as (s' & c' & He & ? & ? & Heq); try done; [lia..|].
    exists s', c'. split; [exact He|]. split; [done|]. split; [done|].
    cbn [id]. rewrite <- Heq. lia.
Qed.

Lemma add_parts_ok {P : Profile} {E} parts : forall sum carry,
  bytes_ok (carried carry ++ concat parts) -> 0 <= sum ->
  sum + word_sum (carried carry ++ concat parts) < 4294967296 ->
  Forall (fun p => p <> []) (removelast parts) ->
  exists sum' carry', @add_parts P E sum carry parts = Ok (sum', carry') /\ 0 <= sum' /\
    sum + word_sum (carried carry ++ concat parts) = sum' + word_sum (carried carry').
Proof.
  induction parts as [|p parts IH]; intros sum carry Hok H0 Hs Hne.
  { exists sum, carry. cbn [concat app]. by rewrite app_nil_r. }
  cbn [concat] in *. rewrite app_assoc, bytes_ok_app in Hok. destruct Hok as [Hp Hps].
  assert (Hsplit : forall q : list Z, bytes_ok q -> word_sum q <= word_sum (q ++ concat parts)).
  { intros q. remember (length q) as n eqn:Hn. revert q Hn.
    induction n as [n IHn] using lt_wf_ind. intros [|x [|y q]] Hn Hq; cbn [word_sum app].
    - by apply word_sum_nonneg.
    - destruct (concat parts) as [|z zs] eqn:Ez; [cbn; lia|].
      unfold bytes_ok in Hps. rewrite Forall_cons_iff in Hps. destruct Hps as [Hz Hzs].
      pose proof (word_sum_nonneg zs Hzs). cbn. unfold be16, is_u8 in *. lia.
    - unfold bytes_ok in Hq. rewrite !Forall_cons_iff in Hq.
      specialize (IHn (length q) ltac:(cbn in Hn; lia) q eq_refl ltac:(tauto)). lia. }
  pose proof (Hsplit _ Hp) as Hle. rewrite <- app_assoc in Hle.
  destruct (@add_part_ok P E sum carry p (concat parts)) as (s1 & c1 & He & Hs1 & Hc1 & Heq);
    [done|done|lia| |].
  { destruct parts; [by right|]. left. cbn in Hne. by apply Forall_cons_iff in Hne as [? _]. }
  cbn [add_parts]. rewrite He. cbn [mbind outcome_bind].
  destruct (IH s1 c1) as (s2 & c2 & He2 & Hs2 & Heq2); [|done|lia| |].
  { apply bytes_ok_app. done. }
  { destruct parts; [done|]. cbn in Hne. by apply Forall_cons_iff in Hne as [_ ?]. }
  exists s2, c2. rewrite He2. repeat split; try done. lia.
Qed.

Lemma not_u16 x : 0 <= x < 65536 -> as_u16 (Z.lnot (as_u16 x)) = 65535 - x.
Proof.
  intros. unfold as_u16. rewrite (Z.mod_small x) by lia. unfold Z.lnot. zdm.
Qed.

Lemma ones_complement_bounds s : 0 <= s -> 0 <= ones_complement s < 65536.
Proof. intros. unfold ones_complement. zcases. zdm. Qed.

Lemma checksum_parts {P : Profile} {E} parts :
  bytes_ok (concat parts) -> zlen (concat parts) <= 131072 ->
  Forall (fun p => p <> []) (removelast parts) ->
  @checksum P E parts = Ok (rfc1071 (concat parts)).
Proof.
  intros Hok Hlen Hne. pose proof (word_sum_bounds _ Hok) as [Hn Hb].
  destruct (@add_parts_ok P E parts 0 None) as (s & c & He & Hs & Heq); cbn [carried app] in *;
    try done; [lia|].
  unfold checksum. rewrite He. cbn [mbind outcome_bind].
  assert (Hsum : match c with
                 | Some high => @add_checked P E 4294967296 s (be16 high 0)
                 | None => mret s
                 end = Ok (word_sum (concat parts))).
  { destruct c as [h|]; cbn [carried word_sum] in Heq.
    - rewrite add_checked_small by lia. f_equal. lia.
    - cbn. f_equal. lia. }
  rewrite Hsum. cbn [mbind outcome_bind mret outcome_ret].
  rewrite fold_carries_spec by (unfold is_u32; lia).
  unfold rfc1071. f_equal. apply not_u16, ones_complement_bounds. lia.
Qed.

(** The piecewise sum, with its carry byte between the parts, is RFC 1071's
    checksum of the concatenation: in either profile, for up to 128 KiB, provided
    that only the last part is empty. *)
Theorem checksum_concat {P : Profile} {E} parts :
  bytes_ok (concat parts) -> zlen (concat parts) <= 131072 ->
  Forall (fun p => p <> []) (removelast parts) ->
  @checksum P E parts = Ok (rfc1071 (concat parts)).
Proof. apply checksum_parts. Qed.

Lemma checksum_concat_witness :
  @checksum release_profile Error [[69; 0; 1]; [2; 3]] = Ok (rfc1071 [69; 0; 1; 2; 3]) /\
  rfc1071 [69; 0; 1; 2; 3] = 46845.
Proof.
  split; [|by vm_compute].
  apply (@checksum_concat release_profile Error [[69; 0; 1]; [2; 3]]);
    [repeat constructor; lia | vm_compute; discriminate | by repeat constructor].
Defined.

(** An empty part in the middle drops the carry: the parts are then not summed
    as if they were concatenated. *)
Lemma checksum_empty_part {P : Profile} :
  @checksum P Error [[1]; []; [2]] = Ok (rfc1071 [1; 0; 2]) /\
  rfc1071 [1; 0; 2] <> rfc1071 (concat [[1]; []; [2]]).
Proof. by destruct P. Qed.

(** ** Building a packet *)

Definition datagram_ok (d : UdpDatagram) : Prop :=
  ip_ok (src_ip d) /\ ip_ok (dst_ip d) /\ is_u16 (src_port d) /\ is_u16 (dst_port d) /\
  bytes_ok (payload d) /\ zlen (payload d) <= 65507.

(** The headers [build_udp] writes, with the checksum fields [c]. *)
Definition ip_header (d : UdpDatagram) (ip_id : Z) (c : list Z) : list Z :=
  ([69; 0] ++ to_be16 (28 + zlen (payload d)) ++ to_be16 ip_id ++ [0; 0; 64; 17]) ++
  c ++ octets (src_ip d) ++ octets (dst_ip d).

Definition udp_segment (d : UdpDatagram) (c : list Z) : list Z :=
  (to_be16 (src_port d) ++ to_be16 (dst_port d) ++ to_be16 (8 + zlen (payload d))) ++
  c ++ payload d.

Definition pseudo_header (d : UdpDatagram) : list Z :=
  octets (src_ip d) ++ octets (dst_ip d) ++ [0; 17] ++ to_be16 (8 + zlen (payload d)).

(** The checksum value [build_udp] stores in the UDP header. *)
Definition nonzero_checksum (c : Z) : Z := if c =? 0 then 65535 else c.

Lemma bytes_ok_field a b c :
  bytes_ok (a ++ [0; 0] ++ b) -> bytes_ok (a ++ to_be16 c ++ b).
Proof. rewrite !bytes_ok_app. intros (? & _ & ?). repeat split; auto with bytes. Qed.

(** A receiver accepts a buffer whose checksum is stored in its own zeroed field;
    so it does with the all-ones stand-in for zero. *)
Lemma rfc1071_verifies a b c :
  bytes_ok (a ++ [0; 0] ++ b) -> Nat.even (length a) = true ->
  c = rfc1071 (a ++ [0; 0] ++ b) \/ c = nonzero_checksum (rfc1071 (a ++ [0; 0] ++ b)) ->
  accepts (a ++ to_be16 c ++ b) /\ is_u16 c.
Proof.
  intros Hok He Hc. pose proof (word_sum_nonneg _ Hok) as Hn.
  pose proof (ones_complement_bounds _ Hn) as Hoc.
  assert (Hu : is_u16 c).
  { unfold is_u16. destruct Hc as [-> | ->]; unfold nonzero_checksum, rfc1071; zcases; lia. }
  split; [|done]. unfold accepts. rewrite received_sum_spec; [|by apply bytes_ok_field|done].
  unfold rfc1071 in *. rewrite word_sum_app in * by done.
  cbn [app to_be16 word_sum] in *. rewrite be16_to_be16 by done.
  replace (be16 0 0) with 0 in * by done.
  set (S := word_sum a + (0 + word_sum b)) in *.
  replace (0 + (word_sum a + (c + word_sum b))) with (S + c) by lia.
  unfold nonzero_checksum, ones_complement, is_u16 in *.
  revert Hc. zcases; intros [Hc|Hc]; try lia; revert Hc; zcases; zdm.
Qed.

Lemma zlen_ip_header d i c : zlen c = 2 -> zlen (ip_header d i c) = 20.
Proof. intros. unfold ip_header. zl. Qed.

Lemma zlen_udp_segment d c : zlen c = 2 -> zlen (udp_segment d c) = 8 + zlen (payload d).
Proof. intros. unfold udp_segment. zl. Qed.

Lemma bytes_ok_headers d i c :
  datagram_ok d -> bytes_ok c ->
  bytes_ok (ip_header d i c) /\ bytes_ok (udp_segment d c) /\ bytes_ok (pseudo_header d).
Proof.
  intros (? & ? & _ & _ & ? & _) Hc. unfold ip_header, udp_segment, pseudo_header.
  rewrite !bytes_ok_app. repeat split; auto with bytes; repeat constructor; lia.
Qed.

(** What [build_udp] computes: both headers, each with its checksum. *)
Lemma build_udp_eq {P : Profile} {E} d ip_id :
  datagram_ok d ->
  @build_udp P E d ip_id =
    Ok (ip_header d ip_id (to_be16 (rfc1071 (ip_header d ip_id [0; 0]))) ++
        udp_segment d (to_be16 (nonzero_checksum
          (rfc1071 (pseudo_header d ++ udp_segment d [0; 0]))))).
Proof.
  intros Hd. destruct (bytes_ok_headers d ip_id [0; 0] Hd) as (Hih & Hus & Hph);
    [by repeat constructor|].
  destruct Hd as (_ & _ & _ & _ & _ & Hlen). pose proof (zlen_nonneg (payload d)) as Hn.
  unfold build_udp, UDP_HEADER_LEN, IPV4_HEADER_LEN, PROTO_UDP.
  assert (Ht : as_u16 (20 + (8 + zlen (payload d))) = 28 + zlen (payload d))
    by (unfold as_u16; rewrite Z.mod_small; lia).
  assert (Hu : as_u16 (8 + zlen (payload d)) = 8 + zlen (payload d))
    by (unfold as_u16; rewrite Z.mod_small; lia).
  rewrite Ht, Hu.
  change ([69; 0] ++ _) with (ip_header d ip_id [0; 0]).
  pose proof (zlen_ip_header d ip_id [0; 0] eq_refl) as Hlh.
  rewrite slice_ok by lia. cbn [mbind outcome_bind].
  replace (sub (ip_header d ip_id [0; 0]) 0 20) with (ip_header d ip_id [0; 0])
    by (rewrite <- Hlh; by rewrite sub_all).
  rewrite checksum_parts; cbn [concat]; rewrite ?app_nil_r; [|done|lia|constructor].
  cbn [mbind outcome_bind]. unfold ip_header at 1.
  rewrite copy_from_slice_app by (autorewrite with zlen; cbn; lia). cbn [mbind outcome_bind].
  set (c1 := rfc1071 (ip_header d ip_id [0; 0])).
  change (([69; 0] ++ _) ++ to_be16 c1 ++ _) with (ip_header d ip_id (to_be16 c1)).
  pose proof (zlen_ip_header d ip_id (to_be16 c1) eq_refl) as Hl1.
  replace (to_be16 (src_port d) ++ _) with (udp_segment d [0; 0])
    by (unfold udp_segment; by rewrite <- !app_assoc).
  pose proof (zlen_udp_segment d [0; 0] eq_refl) as Hl2.
  rewrite slice_ok by (autorewrite with zlen; lia). cbn [mbind outcome_bind].
  rewrite sub_suffix by (autorewrite with zlen; lia).
  replace (octets (src_ip d) ++ octets (dst_ip d) ++ _) with (pseudo_header d).
  2: { unfold pseudo_header, to_be16, as_u8. rewrite Z.shiftr_div_pow2 by lia. done. }
  rewrite checksum_parts; cbn [concat]; rewrite ?app_nil_r.
  2: { by apply bytes_ok_app. }
  2: { unfold pseudo_header. autorewrite with zlen. lia. }
  2: { by repeat constructor. }
  cbn [mbind outcome_bind]. set (c2 := rfc1071 (pseudo_header d ++ udp_segment d [0; 0])).
  unfold udp_segment at 1. rewrite (app_assoc (ip_header _ _ _)).
  rewrite copy_from_slice_app by (autorewrite with zlen; rewrite ?Hl1; cbn; lia).
  rewrite <- app_assoc. done.
Qed.

(** C37. A receiver accepts what [build_udp] builds: no panic, the two headers byte
    for byte with the caller's addresses, ports, lengths and payload, and in the
    two checksum fields what makes both one's-complement sums of RFC 1071, the
    header's and that of the segment with its pseudo-header, all ones; the UDP
    field is never the "no checksum" zero. *)
Theorem build_udp_verifies {P : Profile} {E} d ip_id :
  datagram_ok d -> is_u16 ip_id ->
  exists p c1 c2, @build_udp P E d ip_id = Ok p /\ zlen p = 28 + zlen (payload d) /\
    bytes_ok p /\ is_u16 c1 /\ is_u16 c2 /\ c2 <> 0 /\
    sub p 0 20 = ip_header d ip_id (to_be16 c1) /\
    sub p 20 (zlen p) = udp_segment d (to_be16 c2) /\
    accepts (sub p 0 20) /\ accepts (pseudo_header d ++ sub p 20 (zlen p)).
Proof.
  intros Hd Hid. rewrite build_udp_eq by done.
  set (c1 := rfc1071 _). set (c2 := nonzero_checksum _).
  exists (ip_header d ip_id (to_be16 c1) ++ udp_segment d (to_be16 c2)), c1, c2.
  destruct (bytes_ok_headers d ip_id [0; 0] Hd) as (Hih & Hus & Hph); [by repeat constructor|].
  destruct (bytes_ok_headers d ip_id (to_be16 c1) Hd) as (Hih1 & _); [auto with bytes|].
  destruct (bytes_ok_headers d ip_id (to_be16 c2) Hd) as (_ & Hus2 & _); [auto with bytes|].
  pose proof (zlen_ip_header d ip_id (to_be16 c1) eq_refl) as Hl1.
  pose proof (zlen_udp_segment d (to_be16 c2) eq_refl) as Hl2.
  rewrite (sub_prefix (ip_header _ _ _)), (sub_suffix (ip_header _ _ _))
    by (autorewrite with zlen; lia).
  destruct (rfc1071_verifies ([69; 0] ++ to_be16 (28 + zlen (payload d)) ++ to_be16 ip_id ++
    [0; 0; 64; 17]) (octets (src_ip d) ++ octets (dst_ip d)) c1) as [Hv1 Hc1];
    [done|done|by left|].
  destruct (rfc1071_verifies (pseudo_header d ++ to_be16 (src_port d) ++
    to_be16 (dst_port d) ++ to_be16 (8 + zlen (payload d))) (payload d) c2) as [Hv2 Hc2];
    [rewrite <- app_assoc; by apply bytes_ok_app|done|right; by rewrite <- app_assoc|].
  rewrite <- app_assoc in Hv2.
  repeat split; try done; try apply Hc1; try apply Hc2;
    [autorewrite with zlen; lia|by apply bytes_ok_app|].
  unfold c2, nonzero_checksum. zcases; lia.
Qed.

Definition sample_datagram : UdpDatagram :=
  mkUdp (Ipv4 0 0 0 0) (Ipv4 255 255 255 255) 68 67 [1; 2; 3].

Lemma sample_datagram_ok : datagram_ok sample_datagram.
Proof.
  unfold datagram_ok, is_u16. cbn.
  repeat split; try (by apply bytes_okb_ok); try lia; discriminate.
Qed.

Lemma build_udp_verifies_witness :
  exists p, @build_udp dev_profile Error sample_datagram 9 = Ok p /\ zlen p = 31 /\
    accepts (sub p 0 20) /\ sub p 10 12 = [122; 198].
Proof.
  destruct (@build_udp_verifies dev_profile Error sample_datagram 9 sample_datagram_ok)
    as (p & c1 & c2 & E & Hl & _ & _ & _ & _ & _ & _ & Hc & _); [by split|].
  exists p. split; [exact E|]. split; [exact Hl|]. split; [exact Hc|].
  vm_compute in E. injection E as <-. reflexivity.
Defined.

(** ** Parsing *)

(** [parse_udp] on the fixed header of an IPv4 packet without options. *)
Lemma parse_udp_headers t0 t1 i0 i1 c0 c1 si di sp0 sp1 dp0 dp1 u0 u1 k0 k1 data pad :
  let total := be16 t0 t1 in
  let udp_len := be16 u0 u1 in
  total = 28 + zlen data -> udp_len = 8 + zlen data ->
  parse_udp ([69; 0; t0; t1; i0; i1; 0; 0; 64; 17; c0; c1] ++ octets si ++ octets di ++
             [sp0; sp1; dp0; dp1; u0; u1; k0; k1] ++ data ++ pad) =
    Ok (mkUdp si di (be16 sp0 sp1) (be16 dp0 dp1) data).
Proof.
  intros total udp_len Ht Hu. pose proof (zlen_nonneg data). pose proof (zlen_nonneg pad).
  set (udp := [sp0; sp1; dp0; dp1; u0; u1; k0; k1] ++ data).
  set (b := _ ++ _).
  assert (Hl : zlen b = 28 + zlen data + zlen pad) by (unfold b; zl).
  assert (Hlu : zlen udp = 8 + zlen data) by (unfold udp; zl).
  assert (Hsub : sub b 20 total = udp).
  { change b with (([69; 0; t0; t1; i0; i1; 0; 0; 64; 17; c0; c1] ++ octets si ++ octets di) ++
      ([sp0; sp1; dp0; dp1; u0; u1; k0; k1] ++ data ++ pad)).
    rewrite sub_app_r by (autorewrite with zlen; lia).
    rewrite app_assoc. apply sub_prefix. autorewrite with zlen. lia. }
  unfold parse_udp, IPV4_HEADER_LEN, UDP_HEADER_LEN, PROTO_UDP. rewrite Hl. zcases.
  rewrite !(idx_ok b) by lia. cbn [mbind outcome_bind].
  change (nthZ b 0) with 69. change (nthZ b 9) with 17.
  change (nthZ b 6) with 0. change (nthZ b 7) with 0.
  change (Z.shiftr 69 4) with 4. change (Z.land 69 15 * 4) with 20.
  change (Z.land 0 32) with 0. change (be16 (Z.land 0 31) 0) with 0.
  cbn [Z.eqb negb orb Pos.eqb]. change (nthZ b 2) with t0. change (nthZ b 3) with t1.
  fold total. zcases. rewrite slice_ok by lia. cbn [mbind outcome_bind].
  rewrite Hsub, Hlu. zcases. rewrite !(idx_ok udp) by lia. cbn [mbind outcome_bind].
  change (nthZ udp 4) with u0. change (nthZ udp 5) with u1. fold udp_len. zcases.
  rewrite slice_ok by lia. cbn [mbind outcome_bind].
  replace (sub udp 8 udp_len) with data; [by destruct si, di|].
  symmetry. unfold udp. apply sub_suffix; [done|]. autorewrite with zlen. lia.
Qed.

(** The packet [build_udp] makes, followed by anything (Ethernet padding),
    parses back to the datagram. *)
Theorem parse_udp_build_udp {P : Profile} d ip_id p pad :
  datagram_ok d -> build_udp d ip_id = @Ok Error _ p -> parse_udp (p ++ pad) = Ok d.
Proof.
  intros Hd. rewrite build_udp_eq by done. intros [= <-].
  destruct Hd as (_ & _ & Hsp & Hdp & _ & Hlen). pose proof (zlen_nonneg (payload d)).
  unfold ip_header, udp_segment. set (c1 := rfc1071 _). set (c2 := nonzero_checksum _).
  rewrite <- !app_assoc.
  unshelve epose proof (parse_udp_headers
    ((28 + zlen (payload d)) / 256 mod 256) ((28 + zlen (payload d)) mod 256)
    (ip_id / 256 mod 256) (ip_id mod 256) (c1 / 256 mod 256) (c1 mod 256) (src_ip d) (dst_ip d)
    (src_port d / 256 mod 256) (src_port d mod 256) (dst_port d / 256 mod 256)
    (dst_port d mod 256) ((8 + zlen (payload d)) / 256 mod 256) ((8 + zlen (payload d)) mod 256)
    (c2 / 256 mod 256) (c2 mod 256) (payload d) pad _ _) as Hp.
  1, 2: rewrite be16_to_be16 by (unfold is_u16; lia); lia.
  rewrite !be16_to_be16 in Hp by done. etrans; [exact Hp|]. by destruct d.
Qed.

Lemma parse_udp_build_udp_witness :
  exists p, @build_udp dev_profile Error sample_datagram 9 = Ok p /\
    parse_udp (p ++ replicate 15 0) = Ok sample_datagram.
Proof.
  destruct (@build_udp dev_profile Error sample_datagram 9) as [p|e|] eqn:E;
    [|by vm_compute in E|by vm_compute in E].
  exists p. split; [done|].
  apply (@parse_udp_build_udp dev_profile sample_datagram 9 p _ sample_datagram_ok E).
Defined.

Lemma parse_udp_total buf :
  bytes_ok buf ->
  match parse_udp buf with
  | Ok d => exists i, 28 <= i /\ i + zlen (payload d) <= zlen buf /\
      payload d = sub buf i (i + zlen (payload d)) /\
      is_u16 (src_port d) /\ is_u16 (dst_port d) /\ ip_ok (src_ip d) /\ ip_ok (dst_ip d)
  | Err _ => True
  | Panic => False
  end.
Proof.
  intros Hok. unfold parse_udp, IPV4_HEADER_LEN, UDP_HEADER_LEN, PROTO_UDP.
  destruct (Z.ltb_spec (zlen buf) 20); [done|].
  rewrite !(idx_ok buf) by lia. cbn [mbind outcome_bind].
  destruct (negb (Z.shiftr _ 4 =? 4)); [done|].
  set (hl := Z.land (nthZ buf 0) 15 * 4).
  destruct (Z.ltb_spec hl 20), (Z.ltb_spec (zlen buf) hl); cbn [orb]; try done.
  destruct (negb (nthZ buf 9 =? 17)); [done|].
  destruct (_ || _); [done|].
  set (total := be16 (nthZ buf 2) (nthZ buf 3)).
  destruct (Z.ltb_spec total hl), (Z.ltb_spec (zlen buf) total); cbn [orb]; try done.
  rewrite slice_ok by lia. cbn [mbind outcome_bind].
  assert (Hsl : zlen (sub buf hl total) = total - hl) by (apply sub_length; lia).
  set (udp := sub buf hl total) in *.
  destruct (Z.ltb_spec (zlen udp) 8); [done|].
  rewrite !(idx_ok udp) by lia. cbn [mbind outcome_bind].
  set (ul := be16 (nthZ udp 4) (nthZ udp 5)).
  destruct (Z.ltb_spec ul 8), (Z.ltb_spec (zlen udp) ul); cbn [orb]; try done.
  rewrite slice_ok by lia. cbn [mbind outcome_bind mret outcome_ret].
  cbn [payload src_ip dst_ip src_port dst_port].
  assert (Hudp : bytes_ok udp) by (by apply bytes_ok_sub).
  exists (hl + 8). rewrite sub_length by lia.
  split; [lia|]. split; [lia|]. split.
  - unfold udp. rewrite sub_sub by lia. f_equal. lia.
  - split; [apply be16_bound; auto with bytes|].
    split; [apply be16_bound; auto with bytes|].
    split; repeat constructor; cbn; apply nthZ_ok; done.
Qed.

(** [parse_udp] is total: on any buffer it returns or rejects without a panic,
    and a datagram it returns lies inside the buffer it was cut from. *)
Theorem parse_udp_safe buf :
  bytes_ok buf ->
  match parse_udp buf with
  | Ok d => exists i, 28 <= i /\ i + zlen (payload d) <= zlen buf /\
      payload d = sub buf i (i + zlen (payload d)) /\
      is_u16 (src_port d) /\ is_u16 (dst_port d) /\ ip_ok (src_ip d) /\ ip_ok (dst_ip d)
  | Err _ => True
  | Panic => False
  end.
Proof. apply parse_udp_total. Qed.

Lemma parse_udp_safe_witness :
  match parse_udp (replicate 40 69) with Panic => False | _ => True end.
Proof.
  assert (Hok : bytes_ok (replicate 40 69)) by (by apply bytes_okb_ok).
  pose proof (parse_udp_safe _ Hok) as Hp.
  destruct (parse_udp (replicate 40 69)); [done|done|exact Hp].
Defined.

End UdpIp.
