(* ===== verification/Lcg.v ===== *)
(** * The transaction-id generator

    Number theory behind [DhcpClient::discover]: the map
    [x -> a x + c mod 2^k] with [c] odd and [a = 1 mod 4] has full period. *)
From Stdlib Require Import ZArith Lia.
From stdpp Require Import base numbers.

Open Scope Z_scope.

(** An odd factor does not help divisibility by a power of two. *)
Lemma odd_cancel k : forall q y, (2 ^ Z.of_nat k | (1 + 2 * q) * y) -> (2 ^ Z.of_nat k | y).
Proof.
  induction k as [|k IH]; intros q y Hd; [apply Z.divide_1_l|].
  rewrite Nat2Z.inj_succ, Z.pow_succ_r in * by lia. destruct Hd as [r Hr].
  set (w := r * 2 ^ Z.of_nat k - q * y).
  assert (Hy : y = 2 * w) by (unfold w; lia).
  rewrite Hy. apply Z.mul_divide_mono_l, (IH q).
  exists r. apply (Z.mul_reg_l _ _ 2); [lia|]. rewrite Hy in Hr. lia.
Qed.

Section lcg.

Variables a c : Z.

Hypothesis Ha : a mod 4 = 1.

Hypothesis Hc : c mod 2 = 1.

(** [1 + a + ... + a^(n-1)] *)
Fixpoint geom (n : nat) : Z :=
  match n with
  | O => 0
  | S n => geom n + a ^ Z.of_nat n
  end.

Lemma geom_add m n : geom (m + n) = geom m + a ^ Z.of_nat m * geom n.
Proof.
  induction n as [|n IH]; [rewrite Nat.add_0_r; cbn; lia|].
  rewrite Nat.add_succ_r. cbn [geom]. rewrite IH, Nat2Z.inj_add, Z.pow_add_r by lia. lia.
Qed.

Lemma geom_pow n : (a - 1) * geom n = a ^ Z.of_nat n - 1.
Proof.
  induction n as [|n IH]; [cbn [geom]; rewrite Z.pow_0_r; lia|]. cbn [geom].
  rewrite Nat2Z.inj_succ, Z.pow_succ_r by lia. lia.
Qed.

Lemma pow_mod4 n : (a ^ Z.of_nat n) mod 4 = 1.
Proof.
  induction n as [|n IH]; [reflexivity|].
  rewrite Nat2Z.inj_succ, Z.pow_succ_r, Z.mul_mod, Ha, IH by lia. done.
Qed.

Lemma geom_mod2 n : geom n mod 2 = Z.of_nat n mod 2.
Proof.
  induction n as [|n IH]; [reflexivity|]. cbn [geom].
  pose proof (pow_mod4 n). rewrite Nat2Z.inj_succ. Z.div_mod_to_equations. lia.
Qed.

(** The power of two in [geom n] is the power of two in [n]. *)
Lemma geom_divide k : forall n, (2 ^ Z.of_nat k | geom n) -> (2 ^ Z.of_nat k | Z.of_nat n).
Proof.
  induction k as [|k IH]; intros n Hd; [apply Z.divide_1_l|].
  rewrite Nat2Z.inj_succ, Z.pow_succ_r in * by lia.
  destruct (Nat.Even_or_Odd n) as [[m ->]|[m ->]].
  - replace (2 * m)%nat with (m + m)%nat in * by lia. rewrite geom_add in Hd.
    pose proof (pow_mod4 m) as H4.
    assert (Hq : exists q, 1 + a ^ Z.of_nat m = 2 * (1 + 2 * q))
      by (exists (a ^ Z.of_nat m / 4); Z.div_mod_to_equations; lia).
    destruct Hq as [q Hq].
    replace (geom m + a ^ Z.of_nat m * geom m) with (2 * ((1 + 2 * q) * geom m)) in Hd by nia.
    apply Z.mul_divide_cancel_l in Hd; [|lia].
    apply odd_cancel, IH in Hd as [r Hr]. exists r. lia.
  - exfalso. pose proof (geom_mod2 (2 * m + 1)) as Hm.
    destruct Hd as [r Hr]. rewrite Hr in Hm.
    rewrite Nat2Z.inj_add, Nat2Z.inj_mul in Hm.
    replace (r * (2 * 2 ^ Z.of_nat k)) with (2 * (r * 2 ^ Z.of_nat k)) in Hm by lia.
    Z.div_mod_to_equations. lia.
Qed.

(** One step of the generator modulo [2^k], and its iterates. *)
Definition lcg (k : nat) (x : Z) : Z := (x * a + c) mod 2 ^ Z.of_nat k.

Lemma lcg_iter k n x :
  (Nat.iter n (lcg k) x) mod 2 ^ Z.of_nat k = (a ^ Z.of_nat n * x + c * geom n) mod 2 ^ Z.of_nat k.
Proof.
  assert (Hp : 2 ^ Z.of_nat k <> 0) by (apply Z.pow_nonzero; lia).
  induction n as [|n IH].
  { cbn. f_equal. lia. }
  cbn [Nat.iter nat_rect geom]. change (nat_rect _ _ _ n) with (Nat.iter n (lcg k) x).
  unfold lcg at 1. rewrite Z.mod_mod by done.
  rewrite Z.add_mod, Z.mul_mod, IH, <- Z.mul_mod, <- Z.add_mod by done.
  f_equal. pose proof (geom_pow n). rewrite Nat2Z.inj_succ, Z.pow_succ_r by lia. nia.
Qed.

(** No value comes back before [2^k] steps. *)
Lemma lcg_period k n x :
  0 < Z.of_nat n < 2 ^ Z.of_nat k -> 0 <= x < 2 ^ Z.of_nat k ->
  Nat.iter n (lcg k) x <> x.
Proof.
  intros Hn Hx Heq. pose proof (lcg_iter k n x) as Hi. rewrite Heq in Hi.
  assert (Hd : (2 ^ Z.of_nat k | ((a - 1) * x + c) * geom n)).
  { apply Z.mod_divide; [lia|].
    replace (((a - 1) * x + c) * geom n) with ((a ^ Z.of_nat n * x + c * geom n) - x)
      by (pose proof (geom_pow n); nia).
    rewrite Zminus_mod, <- Hi. by rewrite Z.sub_diag. }
  assert (Hq : exists q, (a - 1) * x + c = 1 + 2 * q).
  { exists ((a - 1) / 2 * x + c / 2).
    assert (a - 1 = 2 * ((a - 1) / 2)) by (Z.div_mod_to_equations; lia).
    assert (c = 2 * (c / 2) + 1) by (Z.div_mod_to_equations; lia). nia. }
  destruct Hq as [q Hq]. rewrite Hq in Hd.
  apply odd_cancel, geom_divide, Z.divide_pos_le in Hd; lia.
Qed.

End lcg.
