(* ===== verification/Dhcp.v ===== *)
(** * DHCP client

    [src/netstack/dhcp.rs]: the message format and the client state machine.
    Methods on [&mut self] return the new client next to their result. *)
From Stdlib Require Import ZArith Lia.
From stdpp Require Import base numbers list strings.
From S2P Require Import Prelude Ethernet Arp Lcg.

Open Scope Z_scope.

(** [dhcp::State] *)
Module State.

Inductive t : Type := Init | Selecting | Requesting | Bound | Renewing.

#[global] Instance eq_dec : EqDecision t.
Proof. solve_decision. Defined.

End State.

Module Dhcp.

Definition CLIENT_PORT : Z := 68.

Definition SERVER_PORT : Z := 67.

Definition OP_REQUEST : Z := 1.

Definition OP_REPLY : Z := 2.

Definition HTYPE_ETHERNET : Z := 1.

Definition FLAG_BROADCAST : Z := 32768.

Definition MAGIC_COOKIE : list Z := [99; 130; 83; 99].

(** BOOTP fixed header, before the magic cookie. *)
Definition BOOTP_LEN : Z := 236.

Definition OPT_PAD : Z := 0.
Definition OPT_SUBNET_MASK : Z := 1.
Definition OPT_ROUTER : Z := 3.
Definition OPT_DNS : Z := 6.
Definition OPT_DOMAIN_NAME : Z := 15.
Definition OPT_INTERFACE_MTU : Z := 26.
Definition OPT_REQUESTED_IP : Z := 50.
Definition OPT_LEASE_TIME : Z := 51.
Definition OPT_MESSAGE_TYPE : Z := 53.
Definition OPT_SERVER_ID : Z := 54.
Definition OPT_PARAM_REQUEST : Z := 55.
Definition OPT_RENEWAL_TIME : Z := 58.
Definition OPT_CLIENT_ID : Z := 61.
Definition OPT_END : Z := 255.

Definition DISCOVER : Z := 1.
Definition OFFER : Z := 2.
Definition REQUEST : Z := 3.
Definition ACK : Z := 5.
Definition NAK : Z := 6.

(** A [String] is the list of its UTF-8 bytes. *)
Record Lease : Type := mkLease
  { ip : Ipv4Addr;
    netmask : Ipv4Addr;
    router : option Ipv4Addr;
    dns : list Ipv4Addr;
    domain : option (list Z);
    mtu : option Z;
    server_id : Ipv4Addr;
    lease_time : Z;
    renewal_time : Z }.

Definition prefix_len (l : Lease) : Z := as_u8 (count_ones (u32_of_ip (netmask l))).

(** What the caller should do after feeding in a received message. *)
Inductive Event : Type :=
| Ignored
| Send (msg : list Z)
| EBound (l : Lease)
| ENak.

Record DhcpClient : Type := mkClient
  { mac : MacAddr;
    xid : Z;
    state : State.t;
    offered : option Ipv4Addr;
    c_server_id : option Ipv4Addr;
    lease : option Lease }.

(** ** Building messages *)

Definition push_option (m : list Z) (code : Z) (data : list Z) : list Z :=
  m ++ [code; as_u8 (zlen data)] ++ data.

Definition push_ip_option (m : list Z) (code : Z) (o : option Ipv4Addr) : list Z :=
  match o with
  | Some ip => push_option m code (octets ip)
  | None => m
  end.

Definition build (c : DhcpClient) (message_type : Z) (ciaddr : Ipv4Addr)
    (requested_ip server_id : option Ipv4Addr) : list Z :=
  let m := [OP_REQUEST; HTYPE_ETHERNET; 6; 0] ++ to_be32 (xid c) ++ to_be16 0 in
  let flags := if is_unspecified ciaddr then FLAG_BROADCAST else 0 in
  let m := m ++ to_be16 flags ++ octets ciaddr ++ replicate 4 0 ++ replicate 4 0 ++
           replicate 4 0 ++ MacAddr.as_bytes (mac c) in
  let m := vec_resize m BOOTP_LEN 0 in
  let m := m ++ MAGIC_COOKIE in
  let m := push_option m OPT_MESSAGE_TYPE [message_type] in
  let m := push_option m OPT_CLIENT_ID (HTYPE_ETHERNET :: MacAddr.as_bytes (mac c)) in
  let m := push_ip_option m OPT_REQUESTED_IP requested_ip in
  let m := push_ip_option m OPT_SERVER_ID server_id in
  let m := if (message_type =? DISCOVER) || (message_type =? REQUEST)
           then push_option m OPT_PARAM_REQUEST
                  [OPT_SUBNET_MASK; OPT_ROUTER; OPT_DNS; OPT_DOMAIN_NAME;
                   OPT_INTERFACE_MTU; OPT_LEASE_TIME; OPT_RENEWAL_TIME]
           else m in
  let m := m ++ [OPT_END] in
  vec_resize m (Z.max (zlen m) 300) 0.

(** ** Parsing messages *)

Record Parsed : Type := mkParsed
  { p_xid : Z;
    yiaddr : Ipv4Addr;
    siaddr : Ipv4Addr;
    chaddr : MacAddr;
    message_type : Z;
    p_netmask : option Ipv4Addr;
    p_router : option Ipv4Addr;
    p_dns : list Ipv4Addr;
    p_domain : option (list Z);
    p_mtu : option Z;
    p_server_id : option Ipv4Addr;
    p_lease_time : option Z;
    p_renewal_time : option Z }.

Definition default_parsed (x : Z) (yi si : Ipv4Addr) (ch : MacAddr) : Parsed :=
  mkParsed x yi si ch 0 None None [] None None None None None.

(** Assignments to the fields the option loop sets. *)
Definition set_message_type (v : Z) (p : Parsed) : Parsed :=
  mkParsed (p_xid p) (yiaddr p) (siaddr p) (chaddr p) v (p_netmask p) (p_router p)
    (p_dns p) (p_domain p) (p_mtu p) (p_server_id p) (p_lease_time p) (p_renewal_time p).

Definition set_netmask (v : Ipv4Addr) (p : Parsed) : Parsed :=
  mkParsed (p_xid p) (yiaddr p) (siaddr p) (chaddr p) (message_type p) (Some v) (p_router p)
    (p_dns p) (p_domain p) (p_mtu p) (p_server_id p) (p_lease_time p) (p_renewal_time p).

Definition set_router (v : Ipv4Addr) (p : Parsed) : Parsed :=
  mkParsed (p_xid p) (yiaddr p) (siaddr p) (chaddr p) (message_type p) (p_netmask p) (Some v)
    (p_dns p) (p_domain p) (p_mtu p) (p_server_id p) (p_lease_time p) (p_renewal_time p).

Definition set_dns (v : list Ipv4Addr) (p : Parsed) : Parsed :=
  mkParsed (p_xid p) (yiaddr p) (siaddr p) (chaddr p) (message_type p) (p_netmask p) (p_router p)
    v (p_domain p) (p_mtu p) (p_server_id p) (p_lease_time p) (p_renewal_time p).

Definition set_domain (v : option (list Z)) (p : Parsed) : Parsed :=
  mkParsed (p_xid p) (yiaddr p) (siaddr p) (chaddr p) (message_type p) (p_netmask p) (p_router p)
    (p_dns p) v (p_mtu p) (p_server_id p) (p_lease_time p) (p_renewal_time p).

Definition set_mtu (v : Z) (p : Parsed) : Parsed :=
  mkParsed (p_xid p) (yiaddr p) (siaddr p) (chaddr p) (message_type p) (p_netmask p) (p_router p)
    (p_dns p) (p_domain p) (Some v) (p_server_id p) (p_lease_time p) (p_renewal_time p).

Definition set_server_id (v : Ipv4Addr) (p : Parsed) : Parsed :=
  mkParsed (p_xid p) (yiaddr p) (siaddr p) (chaddr p) (message_type p) (p_netmask p) (p_router p)
    (p_dns p) (p_domain p) (p_mtu p) (Some v) (p_lease_time p) (p_renewal_time p).

Definition set_lease_time (v : Z) (p : Parsed) : Parsed :=
  mkParsed (p_xid p) (yiaddr p) (siaddr p) (chaddr p) (message_type p) (p_netmask p) (p_router p)
    (p_dns p) (p_domain p) (p_mtu p) (p_server_id p) (Some v) (p_renewal_time p).

Definition set_renewal_time (v : Z) (p : Parsed) : Parsed :=
  mkParsed (p_xid p) (yiaddr p) (siaddr p) (chaddr p) (message_type p) (p_netmask p) (p_router p)
    (p_dns p) (p_domain p) (p_mtu p) (p_server_id p) (p_lease_time p) (Some v).

(** A continuation byte in the range a leading byte allows. *)
Definition in_range (lo hi x : Z) : bool := (lo <=? x) && (x <=? hi).

(** [String::from_utf8] accepts: the well-formed byte sequences of Unicode's
    table 3-7. *)
Fixpoint utf8_valid (b : list Z) : bool :=
  match b with
  | [] => true
  | x :: r =>
      if x <? 128 then utf8_valid r
      else match r with
      | [] => false
      | y :: r =>
          if in_range 194 223 x then in_range 128 191 y && utf8_valid r
          else match r with
          | [] => false
          | z :: r =>
              if x =? 224 then in_range 160 191 y && in_range 128 191 z && utf8_valid r
              else if in_range 225 236 x || in_range 238 239 x
              then in_range 128 191 y && in_range 128 191 z && utf8_valid r
              else if x =? 237 then in_range 128 159 y && in_range 128 191 z && utf8_valid r
              else match r with
              | [] => false
              | w :: r =>
                  if x =? 240
                  then in_range 144 191 y && in_range 128 191 z && in_range 128 191 w
                       && utf8_valid r
                  else if in_range 241 243 x
                  then in_range 128 191 y && in_range 128 191 z && in_range 128 191 w
                       && utf8_valid r
                  else if x =? 244
                  then in_range 128 143 y && in_range 128 191 z && in_range 128 191 w
                       && utf8_valid r
                  else false
              end
          end
      end
  end.

(** [s.trim_end_matches('\0')] *)
Fixpoint trim_end_nul (s : list Z) : list Z :=
  match s with
  | [] => []
  | x :: s =>
      match trim_end_nul s with
      | [] => if x =? 0 then [] else [x]
      | t => x :: t
      end
  end.

(** The value of a domain name option. *)
Definition domain_name (data : list Z) : option (list Z) :=
  if utf8_valid data
  then match trim_end_nul data with
       | [] => None
       | s => Some s
       end
  else None.

(** [data.chunks_exact(4).map(ipv4).collect()] *)
Fixpoint addresses (data : list Z) : list Ipv4Addr :=
  match data with
  | a :: b :: c :: d :: rest => Ipv4 a b c d :: addresses rest
  | _ => []
  end.

Definition seconds {E} (b : list Z) : outcome E Z :=
  a ← b.[0]; c ← b.[1]; d ← b.[2]; e ← b.[3];
  mret (from_secs (be32 a c d e)).

(** The [match code] of the option loop. *)
Definition apply_option (code : Z) (data : list Z) (p : Parsed) : outcome Error Parsed :=
  let len := zlen data in
  if (code =? OPT_MESSAGE_TYPE) && (1 <=? len) then
    v ← data.[0]; mret (set_message_type v p)
  else if (code =? OPT_SUBNET_MASK) && (4 <=? len) then
    v ← Arp.ipv4 data; mret (set_netmask v p)
  else if (code =? OPT_ROUTER) && (4 <=? len) then
    v ← Arp.ipv4 data; mret (set_router v p)
  else if (code =? OPT_SERVER_ID) && (4 <=? len) then
    v ← Arp.ipv4 data; mret (set_server_id v p)
  else if code =? OPT_DNS then mret (set_dns (addresses data) p)
  else if code =? OPT_DOMAIN_NAME then mret (set_domain (domain_name data) p)
  else if (code =? OPT_INTERFACE_MTU) && (2 <=? len) then
    a ← data.[0]; b ← data.[1]; mret (set_mtu (be16 a b) p)
  else if (code =? OPT_LEASE_TIME) && (4 <=? len) then
    v ← seconds data; mret (set_lease_time v p)
  else if (code =? OPT_RENEWAL_TIME) && (4 <=? len) then
    v ← seconds data; mret (set_renewal_time v p)
  else mret p.

(** The [while let Some((&code, tail)) = rest.split_first()] loop. *)
Fixpoint parse_options (rest : list Z) (p : Parsed) : outcome Error Parsed :=
  match rest with
  | [] => mret p
  | code :: tail =>
      if code =? OPT_PAD then parse_options tail p
      else if code =? OPT_END then mret p
      else
        match tail with
        | [] => Err Truncated
        | len :: tail =>
            match get_range tail 0 len with
            | None => Err Truncated
            | Some data =>
                match apply_option code data p with
                | Ok p => parse_options (skip tail (Z.to_nat len)) p
                | Err e => Err e
                | Panic => Panic
                end
            end
        end
  end.

Definition parse (buf : list Z) : outcome Error Parsed :=
  if zlen buf <? BOOTP_LEN + 4 then Err Truncated else
  b0 ← buf.[0];
  if negb (b0 =? OP_REPLY) then Err (Malformed "not a BOOTP reply") else
  cookie ← buf.[BOOTP_LEN ..< BOOTP_LEN + 4];
  if negb (bool_decide (cookie = MAGIC_COOKIE)) then Err (Malformed "bad magic cookie") else
  x0 ← buf.[4]; x1 ← buf.[5]; x2 ← buf.[6]; x3 ← buf.[7];
  yi ← buf.[16 ..< 20]; yi ← Arp.ipv4 yi;
  si ← buf.[20 ..< 24]; si ← Arp.ipv4 si;
  ch ← buf.[28 ..< 34]; ch ← MacAddr.from_slice ch;
  rest ← buf.[BOOTP_LEN + 4 ..< zlen buf];
  p ← parse_options rest (default_parsed (be32 x0 x1 x2 x3) yi si ch);
  if message_type p =? 0 then Err (Malformed "no DHCP message type") else mret p.

(** ** The client *)

(** [xid] should be random per client so replies can be matched. *)
Definition new (mac : MacAddr) (xid : Z) : DhcpClient :=
  mkClient mac xid State.Init None None None.

(** [x.wrapping_mul(1_664_525).wrapping_add(1_013_904_223)] *)
Definition next_xid (x : Z) : Z := as_u32 (as_u32 (x * 1664525) + 1013904223).

(** Begin (or restart) discovery. *)
Definition discover (c : DhcpClient) : list Z * DhcpClient :=
  let c := mkClient (mac c) (next_xid (xid c)) State.Selecting None None (lease c) in
  (build c DISCOVER UNSPECIFIED None None, c).

(** Re-send whatever the current state is waiting on. *)
Definition retransmit (c : DhcpClient) : option (list Z) :=
  match state c with
  | State.Selecting => Some (build c DISCOVER UNSPECIFIED None None)
  | State.Requesting => Some (build c REQUEST UNSPECIFIED (offered c) (c_server_id c))
  | State.Renewing =>
      match lease c with
      | Some l => Some (build c REQUEST (ip l) None None)
      | None => None
      end
  | State.Init | State.Bound => None
  end.

(** REQUEST to extend the current lease. *)
Definition renew (c : DhcpClient) : option (list Z) * DhcpClient :=
  match lease c with
  | None => (None, c)
  | Some l =>
      let c := mkClient (mac c) (xid c) State.Renewing (offered c) (c_server_id c) (lease c) in
      (Some (build c REQUEST (ip l) None None), c)
  end.

Definition lease_from (c : DhcpClient) (p : Parsed) : outcome Error Lease :=
  if is_unspecified (yiaddr p) then Err (Malformed "ACK without an address") else
  let server_id :=
    match p_server_id p with
    | Some s => s
    | None => match c_server_id c with Some s => s | None => siaddr p end
    end in
  let router :=
    match p_router p with
    | Some r => Some r
    | None => if is_unspecified server_id then None else Some server_id
    end in
  let netmask := default (Ipv4 255 255 255 0) (p_netmask p) in
  let lease_time := default (from_secs 3600) (p_lease_time p) in
  Ok (mkLease (yiaddr p) netmask router (p_dns p) (p_domain p) (p_mtu p) server_id lease_time
        (default (lease_time / 2) (p_renewal_time p))).

Definition handle (c : DhcpClient) (msg : list Z) : outcome Error Event * DhcpClient :=
  match parse msg with
  | Err e => (Err e, c)
  | Panic => (Panic, c)
  | Ok p =>
      if negb (p_xid p =? xid c) || negb (bool_decide (chaddr p = mac c)) then (Ok Ignored, c)
      else
        let on_ack :=
          match lease_from c p with
          | Ok l =>
              (Ok (EBound l),
               mkClient (mac c) (xid c) State.Bound (offered c) (c_server_id c) (Some l))
          | Err e => (Err e, c)
          | Panic => (Panic, c)
          end in
        let on_nak :=
          (Ok ENak, mkClient (mac c) (xid c) State.Init None (c_server_id c) None) in
        match state c with
        | State.Selecting =>
            if message_type p =? OFFER then
              let c := mkClient (mac c) (xid c) State.Requesting (Some (yiaddr p))
                         (p_server_id p) (lease c) in
              (Ok (Send (build c REQUEST UNSPECIFIED (Some (yiaddr p)) (p_server_id p))), c)
            else (Ok Ignored, c)
        | State.Requesting | State.Renewing =>
            if message_type p =? ACK then on_ack
            else if message_type p =? NAK then on_nak
            else (Ok Ignored, c)
        | State.Init | State.Bound => (Ok Ignored, c)
        end
  end.

(** ** Parsing: totality *)

Lemma apply_option_total code data p : exists p', apply_option code data p = Ok p' /\
  p_xid p' = p_xid p /\ yiaddr p' = yiaddr p /\ siaddr p' = siaddr p /\ chaddr p' = chaddr p.
Proof.
  unfold apply_option, Arp.ipv4, seconds.
  repeat match goal with
  | |- context [if ?b then _ else _] =>
      let E := fresh in destruct b eqn:E;
      [try (apply andb_prop in E as [_ E]; apply Z.leb_le in E); inb; by eexists | clear E]
  end.
  by eexists.
Qed.

Lemma parse_options_safe rest : forall p,
  match parse_options rest p with
  | Ok p' => p_xid p' = p_xid p /\ yiaddr p' = yiaddr p /\ siaddr p' = siaddr p /\
             chaddr p' = chaddr p
  | Err e => e = Truncated
  | Panic => False
  end.
Proof.
  remember (length rest) as n eqn:Hn. revert rest Hn.
  induction n as [n IH] using lt_wf_ind. intros [|code tail] Hn p; [done|].
  cbn [parse_options]. destruct (code =? OPT_PAD).
  { apply (IH (length tail)); [cbn in Hn; lia|done]. }
  destruct (code =? OPT_END); [done|]. destruct tail as [|len tail]; [done|].
  destruct (get_range tail 0 len) as [data|]; [|done].
  destruct (apply_option_total code data p) as (p' & -> & <- & <- & <- & <-).
  apply (IH (length (skip tail (Z.to_nat len)))); [|done].
  rewrite skip_drop, length_drop. cbn in Hn. lia.
Qed.

Lemma parse_total buf :
  match parse buf with
  | Ok p =>
      240 <= zlen buf /\ nthZ buf 0 = OP_REPLY /\ sub buf 236 240 = MAGIC_COOKIE /\
      p_xid p = be32 (nthZ buf 4) (nthZ buf 5) (nthZ buf 6) (nthZ buf 7) /\
      octets (yiaddr p) = sub buf 16 20 /\ octets (siaddr p) = sub buf 20 24 /\
      MacAddr.as_bytes (chaddr p) = sub buf 28 34 /\ message_type p <> 0
  | Err _ => True
  | Panic => False
  end.
Proof.
  unfold parse, BOOTP_LEN. destruct (Z.ltb_spec (zlen buf) (236 + 4)); [done|].
  rewrite !idx_ok, !slice_ok by lia. cbn [mbind outcome_bind].
  destruct (Z.eqb_spec (nthZ buf 0) OP_REPLY) as [H0|]; cbn [negb]; [|done].
  case_bool_decide as Hc; cbn [negb]; [|done].
  assert (Hip : forall i, 0 <= i -> i + 4 <= zlen buf ->
    exists a, Arp.ipv4 (sub buf i (i + 4)) = @Ok Error _ a /\ octets a = sub buf i (i + 4)).
  { intros i Hi0 Hi. unfold Arp.ipv4.
    assert (Hs : zlen (sub buf i (i + 4)) = 4) by (rewrite sub_length; lia).
    rewrite !idx_ok by lia. eexists; split; [done|]. unfold octets. cbn [oct0 oct1 oct2 oct3].
    rewrite !nthZ_sub, !(sub_step buf) by lia. rewrite (sub_nil buf) by lia.
    by replace (i + 0) with i by lia; replace (i + 1 + 1) with (i + 2) by lia;
      replace (i + 2 + 1) with (i + 3) by lia. }
  destruct (Hip 16) as (yi & Hyi & Hoyi); [lia|lia|].
  destruct (Hip 20) as (si & Hsi & Hosi); [lia|lia|]. cbn in Hyi, Hsi.
  change (16 + 4) with 20 in *. change (20 + 4) with 24 in *.
  rewrite Hyi. cbn [mbind outcome_bind]. rewrite Hsi. cbn [mbind outcome_bind].
  destruct (from_slice_long (sub buf 28 34)) as (ch & -> & Hch); [rewrite sub_length; lia|].
  cbn [mbind outcome_bind].
  pose proof (parse_options_safe (sub buf (236 + 4) (zlen buf))
    (default_parsed (be32 (nthZ buf 4) (nthZ buf 5) (nthZ buf 6) (nthZ buf 7)) yi si ch)) as Hp.
  destruct (parse_options _ _) as [p| |]; cbn [mbind outcome_bind]; [|done|done].
  destruct Hp as (Hx & Hpy & Hps & Hpc). destruct (Z.eqb_spec (message_type p) 0); [done|].
  cbn [mret outcome_ret]. rewrite Hx, Hpy, Hps, Hpc. cbn [yiaddr siaddr chaddr p_xid default_parsed].
  repeat split; try done. by rewrite Hch, sub_sub by lia.
Qed.

(** [parse] never panics and rejects everything shorter than the BOOTP header
    and the cookie; the header fields of what it accepts are the ones at their
    RFC 951 offsets, and there is a message type. *)
Theorem parse_safe buf :
  match parse buf with
  | Ok p =>
      240 <= zlen buf /\ nthZ buf 0 = OP_REPLY /\ sub buf 236 240 = MAGIC_COOKIE /\
      p_xid p = be32 (nthZ buf 4) (nthZ buf 5) (nthZ buf 6) (nthZ buf 7) /\
      octets (yiaddr p) = sub buf 16 20 /\ octets (siaddr p) = sub buf 20 24 /\
      MacAddr.as_bytes (chaddr p) = sub buf 28 34 /\ message_type p <> 0
  | Err _ => True
  | Panic => False
  end.
Proof. apply parse_total. Qed.

(** ** Parsing: what a server sends *)

(** An option as RFC 2132 encodes it. *)
Inductive wire_option : Type :=
| WPad
| WOpt (code : Z) (data : list Z).

Definition encode_option (o : wire_option) : list Z :=
  match o with
  | WPad => [OPT_PAD]
  | WOpt code data => [code; zlen data] ++ data
  end.

Definition option_ok (o : wire_option) : Prop :=
  match o with
  | WPad => True
  | WOpt code data => code <> OPT_PAD /\ code <> OPT_END /\ zlen data <= 255
  end.

Definition encode_options (opts : list wire_option) : list Z := concat (map encode_option opts).

(** The options applied in order, the later of two winning. *)
Fixpoint apply_options (opts : list wire_option) (p : Parsed) : outcome Error Parsed :=
  match opts with
  | [] => mret p
  | WPad :: opts => apply_options opts p
  | WOpt code data :: opts => p ← apply_option code data p; apply_options opts p
  end.

(** The loop reads an option stream back, up to the end marker and no further. *)
Lemma parse_options_encode opts rest : forall p,
  Forall option_ok opts ->
  parse_options (encode_options opts ++ OPT_END :: rest) p = apply_options opts p.
Proof.
  induction opts as [|o opts IH]; intros p Hok; [done|].
  apply Forall_cons_iff in Hok as [Ho Hok].
  unfold encode_options. cbn [map concat]. rewrite <- app_assoc.
  change (concat (map encode_option opts)) with (encode_options opts).
  destruct o as [|code data].
  { change (encode_option WPad ++ ?r) with (OPT_PAD :: r). cbn [parse_options apply_options].
    rewrite Z.eqb_refl. by apply IH. }
  destruct Ho as (H1 & H2 & H3). pose proof (zlen_nonneg data).
  change (encode_option (WOpt code data) ++ ?r) with (code :: zlen data :: (data ++ r)).
  cbn [parse_options apply_options].
  rewrite (proj2 (Z.eqb_neq code OPT_PAD)), (proj2 (Z.eqb_neq code OPT_END)) by done.
  rewrite (proj2 (get_range_Some _ 0 (zlen data) data)).
  2: { pose proof (zlen_nonneg (encode_options opts ++ OPT_END :: rest)).
       rewrite zlen_app. repeat split; try lia. symmetry. by apply sub_prefix. }
  destruct (apply_option_total code data p) as (p' & -> & _). cbn [mbind outcome_bind].
  rewrite skip_app by (unfold zlen; lia). by apply IH.
Qed.

(** A BOOTP reply: what [parse] skips is arbitrary. *)
Record Reply : Type := mkReply
  { r_xid : Z; r_misc : Ipv4Addr; r_ciaddr : Ipv4Addr; r_yiaddr : Ipv4Addr;
    r_siaddr : Ipv4Addr; r_giaddr : Ipv4Addr; r_chaddr : MacAddr; r_rest : list Z }.

Definition encode_reply (r : Reply) (opts : list wire_option) (trailer : list Z) : list Z :=
  [OP_REPLY; HTYPE_ETHERNET; 6; 0] ++ to_be32 (r_xid r) ++ octets (r_misc r) ++
  octets (r_ciaddr r) ++ octets (r_yiaddr r) ++ octets (r_siaddr r) ++ octets (r_giaddr r) ++
  MacAddr.as_bytes (r_chaddr r) ++ r_rest r ++ MAGIC_COOKIE ++
  encode_options opts ++ OPT_END :: trailer.

(** C36. Whatever reply a server encodes, [parse] reads back its header fields and
    applies its options in order; only a missing message type is refused. *)
Theorem parse_reply r opts trailer :
  is_u32 (r_xid r) -> zlen (r_rest r) = 202 -> Forall option_ok opts ->
  parse (encode_reply r opts trailer) =
    (p ← apply_options opts (default_parsed (r_xid r) (r_yiaddr r) (r_siaddr r) (r_chaddr r));
     if message_type p =? 0 then Err (Malformed "no DHCP message type") else mret p).
Proof.
  intros Hx Hr Hopts. set (tl := encode_options opts ++ OPT_END :: trailer).
  set (b := encode_reply r opts trailer).
  set (hd := [OP_REPLY; HTYPE_ETHERNET; 6; 0] ++ to_be32 (r_xid r) ++ octets (r_misc r) ++
    octets (r_ciaddr r) ++ octets (r_yiaddr r) ++ octets (r_siaddr r) ++ octets (r_giaddr r) ++
    MacAddr.as_bytes (r_chaddr r)).
  assert (Hb : b = (hd ++ r_rest r) ++ MAGIC_COOKIE ++ tl).
  { unfold b, hd, encode_reply. by rewrite <- !app_assoc. }
  assert (Hh : zlen (hd ++ r_rest r) = 236) by (rewrite zlen_app, Hr; done).
  assert (Hl : zlen b = 240 + zlen tl) by (rewrite Hb, zlen_app, Hh, zlen_app;
    change (zlen MAGIC_COOKIE) with 4; lia).
  pose proof (zlen_nonneg tl).
  unfold parse, BOOTP_LEN. rewrite Hl. zcases.
  rewrite !(idx_ok b), !(slice_ok b) by lia. cbn [mbind outcome_bind].
  change (nthZ b 0) with OP_REPLY. cbn [Z.eqb Pos.eqb OP_REPLY negb].
  replace (sub b 236 (236 + 4)) with MAGIC_COOKIE.
  2: { rewrite Hb. symmetry. apply sub_mid; by rewrite Hh. }
  rewrite bool_decide_eq_true_2 by done. cbn [negb].
  change (nthZ b 4) with (r_xid r / 16777216 mod 256).
  change (nthZ b 5) with (r_xid r / 65536 mod 256).
  change (nthZ b 6) with (r_xid r / 256 mod 256). change (nthZ b 7) with (r_xid r mod 256).
  rewrite be32_to_be32 by done.
  change (Arp.ipv4 (sub b 16 20)) with (@Ok Error _ (Ipv4 (oct0 (r_yiaddr r))
    (oct1 (r_yiaddr r)) (oct2 (r_yiaddr r)) (oct3 (r_yiaddr r)))).
  change (Arp.ipv4 (sub b 20 24)) with (@Ok Error _ (Ipv4 (oct0 (r_siaddr r))
    (oct1 (r_siaddr r)) (oct2 (r_siaddr r)) (oct3 (r_siaddr r)))).
  change (sub b 28 34) with (MacAddr.as_bytes (r_chaddr r) ++ []).
  rewrite from_slice_as_bytes. cbn [mbind outcome_bind].
  replace (sub b (236 + 4) (240 + zlen tl)) with tl.
  2: { rewrite Hb, app_assoc. symmetry.
       apply sub_suffix; rewrite zlen_app, Hh; change (zlen MAGIC_COOKIE) with 4; lia. }
  unfold tl. rewrite parse_options_encode by done. by destruct (r_yiaddr r), (r_siaddr r).
Qed.

Definition sample_mac : MacAddr := Mac 2 0 0 0 0 1.

(** A server's reply to the client's first transaction. *)
Definition sample_reply (mt : Z) : Reply :=
  mkReply (next_xid 1) UNSPECIFIED UNSPECIFIED (Ipv4 10 0 0 7) (Ipv4 10 0 0 1) UNSPECIFIED
    sample_mac (replicate 202 0).

Definition sample_options (mt : Z) : list wire_option :=
  [WOpt OPT_MESSAGE_TYPE [mt]; WPad; WOpt OPT_SERVER_ID [10; 0; 0; 1];
   WOpt OPT_LEASE_TIME [0; 0; 14; 16]].

Definition sample_message (mt : Z) : list Z :=
  encode_reply (sample_reply mt) (sample_options mt) [0; 0].

Definition sample_parsed (mt : Z) : Parsed :=
  set_lease_time (from_secs 3600) (set_server_id (Ipv4 10 0 0 1) (set_message_type mt
    (default_parsed (next_xid 1) (Ipv4 10 0 0 7) (Ipv4 10 0 0 1) sample_mac))).

Lemma parse_reply_witness : parse (sample_message OFFER) = Ok (sample_parsed OFFER).
Proof.
  unfold sample_message. rewrite parse_reply.
  - by vm_compute.
  - by split.
  - done.
  - repeat (apply List.Forall_cons; [by repeat split|]). apply List.Forall_nil.
Defined.

(** ** Building: what a server reads *)

(** A reader of a message's options: the payload of the first one with [code]. *)
Fixpoint find_option (rest : list Z) (code : Z) : option (list Z) :=
  match rest with
  | [] => None
  | c :: tail =>
      if c =? OPT_END then None
      else if c =? OPT_PAD then find_option tail code
      else
        match tail with
        | [] => None
        | len :: tail =>
            match get_range tail 0 len with
            | None => None
            | Some data =>
                if c =? code then Some data else find_option (skip tail (Z.to_nat len)) code
            end
        end
  end.

(** [option(msg, code)] of the module's tests. *)
Definition option_of (msg : list Z) (code : Z) : option (list Z) :=
  find_option (sub msg 240 (zlen msg)) code.

Lemma find_option_cons code data rest c :
  code <> OPT_PAD -> code <> OPT_END -> zlen data <= 255 ->
  find_option (([code; zlen data] ++ data) ++ rest) c =
    if code =? c then Some data else find_option rest c.
Proof.
  intros H1 H2 H3. pose proof (zlen_nonneg data). pose proof (zlen_nonneg rest).
  rewrite <- app_assoc. cbn [app find_option].
  rewrite (proj2 (Z.eqb_neq code OPT_PAD)), (proj2 (Z.eqb_neq code OPT_END)) by done.
  rewrite (proj2 (get_range_Some _ 0 (zlen data) data)).
  2: { rewrite zlen_app. repeat split; try lia. symmetry. by apply sub_prefix. }
  by rewrite skip_app by (unfold zlen; lia).
Qed.

Definition params : list Z :=
  [OPT_SUBNET_MASK; OPT_ROUTER; OPT_DNS; OPT_DOMAIN_NAME; OPT_INTERFACE_MTU;
   OPT_LEASE_TIME; OPT_RENEWAL_TIME].

Definition ip_option (code : Z) (o : option Ipv4Addr) : list wire_option :=
  match o with Some i => [WOpt code (octets i)] | None => [] end.

(** The options of a client message. *)
Definition client_options (c : DhcpClient) (mt : Z) (rq sid : option Ipv4Addr)
    : list wire_option :=
  [WOpt OPT_MESSAGE_TYPE [mt]] ++
  [WOpt OPT_CLIENT_ID (HTYPE_ETHERNET :: MacAddr.as_bytes (mac c))] ++
  ip_option OPT_REQUESTED_IP rq ++ ip_option OPT_SERVER_ID sid ++
  (if (mt =? DISCOVER) || (mt =? REQUEST) then [WOpt OPT_PARAM_REQUEST params] else []).

(** The 240 bytes in front of them. *)
Definition client_header (c : DhcpClient) (ciaddr : Ipv4Addr) : list Z :=
  ([OP_REQUEST; HTYPE_ETHERNET; 6; 0] ++ to_be32 (xid c) ++ to_be16 0 ++
   to_be16 (if is_unspecified ciaddr then FLAG_BROADCAST else 0) ++ octets ciaddr ++
   replicate 12 0 ++ MacAddr.as_bytes (mac c) ++ replicate 202 0) ++ MAGIC_COOKIE.

Lemma zlen_client_header c ci : zlen (client_header c ci) = 240.
Proof. reflexivity. Qed.

Lemma push_option_eq m code data :
  zlen data <= 255 -> push_option m code data = m ++ encode_options [WOpt code data].
Proof.
  intros. pose proof (zlen_nonneg data). unfold push_option, encode_options, as_u8.
  rewrite Z.mod_small by lia. cbn [map concat encode_option]. by rewrite app_nil_r.
Qed.

Lemma encode_options_app a b : encode_options (a ++ b) = encode_options a ++ encode_options b.
Proof. unfold encode_options. by rewrite map_app, concat_app. Qed.

Lemma push_ip_option_eq m code o :
  push_ip_option m code o = m ++ encode_options (ip_option code o).
Proof.
  destruct o as [i|]; cbn [push_ip_option ip_option]; [by apply push_option_eq|].
  by rewrite app_nil_r.
Qed.

(** A client message is its header, its options, the end marker, and zeros up to
    300 bytes. *)
Lemma client_build_eq c mt ci rq sid :
  exists k, build c mt ci rq sid =
    client_header c ci ++ encode_options (client_options c mt rq sid) ++ OPT_END :: replicate k 0
    /\ zlen (build c mt ci rq sid) = 300.
Proof.
  set (h := client_header c ci). set (opts := client_options c mt rq sid). unfold build.
  match goal with
  | |- context [vec_resize ?m (Z.max (zlen ?m) 300) 0] =>
      assert (HM : m = h ++ encode_options opts ++ [OPT_END])
  end.
  { match goal with
    | |- context [?t ++ MAGIC_COOKIE] =>
        replace (t ++ MAGIC_COOKIE) with h by reflexivity
    end.
    rewrite !push_ip_option_eq, !push_option_eq by done.
    unfold opts, client_options. rewrite !encode_options_app.
    destruct (_ || _); by rewrite <- !app_assoc, ?app_nil_l. }
  rewrite !HM. clear HM.
  assert (Hl : zlen (h ++ encode_options opts ++ [OPT_END]) <= 300).
  { unfold h. rewrite !zlen_app, zlen_client_header.
    unfold opts, client_options. rewrite !encode_options_app, !zlen_app.
    destruct rq, sid, (_ || _); vm_compute; discriminate. }
  rewrite zlen_vec_resize by lia. rewrite <- !app_assoc. eexists. split; [done|].
  rewrite !app_assoc, zlen_app, zlen_replicate, <- !app_assoc. lia.
Qed.

(** The payload of the first option with a code. *)
Fixpoint first_option (opts : list wire_option) (c : Z) : option (list Z) :=
  match opts with
  | [] => None
  | WPad :: opts => first_option opts c
  | WOpt code data :: opts => if code =? c then Some data else first_option opts c
  end.

Lemma find_option_encode opts rest c :
  Forall option_ok opts ->
  find_option (encode_options opts ++ OPT_END :: rest) c = first_option opts c.
Proof.
  induction opts as [|o opts IH]; intros Hok; [done|].
  apply Forall_cons_iff in Hok as [Ho Hok]. unfold encode_options. cbn [map concat].
  rewrite <- app_assoc. destruct o as [|code data]; [by apply IH|].
  destruct Ho as (H1 & H2 & H3). cbn [encode_option first_option].
  rewrite find_option_cons by done. destruct (code =? c); [done|by apply IH].
Qed.

(** A server reads back what the client put in: 300 bytes, the transaction, the
    hardware address, broadcast asked for exactly when there is no address to
    answer to, and the options the message type calls for. *)
Theorem build_readable c mt ci rq sid :
  let m := build c mt ci rq sid in
  zlen m = 300 /\ nthZ m 0 = OP_REQUEST /\
  sub m 4 8 = to_be32 (xid c) /\
  sub m 10 12 = to_be16 (if bool_decide (ci = UNSPECIFIED) then FLAG_BROADCAST else 0) /\
  sub m 12 16 = octets ci /\ sub m 28 34 = MacAddr.as_bytes (mac c) /\
  sub m 236 240 = MAGIC_COOKIE /\
  option_of m OPT_MESSAGE_TYPE = Some [mt] /\
  option_of m OPT_REQUESTED_IP = octets <$> rq /\
  option_of m OPT_SERVER_ID = octets <$> sid /\
  option_of m OPT_PARAM_REQUEST =
    (if (mt =? DISCOVER) || (mt =? REQUEST) then Some params else None).
Proof.
  cbv zeta. destruct (client_build_eq c mt ci rq sid) as (k & Heq & Hl).
  set (m := build c mt ci rq sid) in *.
  assert (Hsub : forall i j, 0 <= i -> j <= 240 -> sub m i j = sub (client_header c ci) i j).
  { intros i j Hi Hj. rewrite Heq. by apply sub_app_l. }
  assert (Hopt : forall code, option_of m code = first_option (client_options c mt rq sid) code).
  { intros code. unfold option_of. rewrite Heq at 1.
    rewrite sub_suffix; [|by rewrite zlen_client_header|rewrite Heq, zlen_app; done].
    apply find_option_encode. unfold client_options.
    destruct rq, sid, (_ || _); cbn [app ip_option]; rewrite ?Forall_cons_iff;
      repeat split; try apply Forall_nil; done. }
  rewrite !Hopt, !Hsub by lia.
  split; [done|]. split; [by rewrite Heq|]. repeat (split; [done|]).
  unfold client_options. by destruct rq, sid, (_ || _).
Qed.

(** ** The transaction id *)

Lemma next_xid_lcg x : next_xid x = lcg 1664525 1013904223 32 x.
Proof.
  unfold next_xid, as_u32, lcg. change (2 ^ Z.of_nat 32) with 4294967296.
  apply Zplus_mod_idemp_l.
Qed.

Lemma next_xid_bound x : is_u32 (next_xid x).
Proof. unfold next_xid, as_u32, is_u32. zdm. Qed.

(** The client after [n] discoveries in a row. *)
Definition discoveries (n : nat) (c : DhcpClient) : DhcpClient :=
  Nat.iter n (fun c => snd (discover c)) c.

(** C16. A transaction id comes back only after all [2^32] of them: a reply to an
    abandoned attempt cannot match a later one. *)
Theorem discover_fresh_xid n c :
  is_u32 (xid c) -> 0 < Z.of_nat n < 4294967296 -> xid (discoveries n c) <> xid c.
Proof.
  intros Hx Hn.
  assert (Hiter : xid (discoveries n c) = Nat.iter n (lcg 1664525 1013904223 32) (xid c)).
  { clear Hx Hn. induction n as [|n IH]; [done|].
    change (xid (discoveries (S n) c)) with (next_xid (xid (discoveries n c))).
    by rewrite next_xid_lcg, IH. }
  rewrite Hiter. by apply lcg_period.
Qed.

Lemma discover_fresh_xid_witness :
  xid (discoveries 2 (new MacAddr.ZERO 4660)) <> 4660 /\
  xid (discoveries 1 (new MacAddr.ZERO 4660)) = 180656131.
Proof.
  split; [|by vm_compute].
  apply (discover_fresh_xid 2 (new MacAddr.ZERO 4660)); unfold is_u32; cbn; lia.
Defined.

(** ** The state machine *)

(** The client's calls that change it. *)
Inductive step : DhcpClient -> DhcpClient -> Prop :=
| step_discover c : step c (snd (discover c))
| step_renew c : step c (snd (renew c))
| step_handle c msg : step c (snd (handle c msg)).

(** The clients a caller can see, from a new one. *)
Inductive reachable (m : MacAddr) (x : Z) : DhcpClient -> Prop :=
| reachable_new : reachable m x (new m x)
| reachable_step c c' : reachable m x c -> step c c' -> reachable m x c'.

(** What the states promise: a bound or renewing client has a lease to renew, a
    requesting one an address to ask for, and no lease is for 0.0.0.0. *)
Definition client_ok (c : DhcpClient) : Prop :=
  match state c with
  | State.Bound | State.Renewing => is_Some (lease c)
  | State.Requesting => is_Some (offered c)
  | State.Init | State.Selecting => offered c = None
  end /\
  forall l, lease c = Some l -> ip l <> UNSPECIFIED.

(** The lease an ACK gives: its address, the server from the ACK, the offer or
    the header in that order, the server standing in for a missing router, an hour
    for a missing lease time and half the lease for a missing renewal time. *)
Definition granted (c : DhcpClient) (p : Parsed) (l : Lease) : Prop :=
  ip l = yiaddr p /\ ip l <> UNSPECIFIED /\
  server_id l =
    match p_server_id p, c_server_id c with
    | Some s, _ | None, Some s => s
    | None, None => siaddr p
    end /\
  (p_router p = None -> server_id l <> UNSPECIFIED -> router l = Some (server_id l)) /\
  (p_router p = None -> server_id l = UNSPECIFIED -> router l = None) /\
  (forall r, p_router p = Some r -> router l = Some r) /\
  netmask l = default (Ipv4 255 255 255 0) (p_netmask p) /\
  lease_time l = default (from_secs 3600) (p_lease_time p) /\
  (forall t, p_renewal_time p = Some t -> renewal_time l = t) /\
  (p_renewal_time p = None -> renewal_time l = lease_time l / 2) /\
  dns l = p_dns p /\ domain l = p_domain p /\ mtu l = p_mtu p.

Lemma lease_from_granted c p l : lease_from c p = Ok l -> granted c p l.
Proof.
  unfold lease_from. destruct (is_unspecified (yiaddr p)) eqn:Ey; [done|]. intros [= <-].
  assert (Hy : yiaddr p <> UNSPECIFIED) by (intros Hu; apply is_unspecified_spec in Hu; congruence).
  unfold granted. cbn [ip netmask server_id router renewal_time lease_time dns domain mtu].
  destruct (p_server_id p), (c_server_id c);
    repeat split; intros; destruct (p_router p), (p_renewal_time p); simplify_eq; try done;
    match goal with
    | |- context [is_unspecified ?x] => destruct (is_unspecified x) eqn:Eu
    end; try done; try (apply is_unspecified_spec in Eu; congruence);
    match goal with Hn : ?x = UNSPECIFIED |- _ => apply is_unspecified_spec in Hn end; congruence.
Qed.

(** The message types the client waits for in a state. *)
Definition expected (st : State.t) (ty : Z) : Prop :=
  match st with
  | State.Selecting => ty = OFFER
  | State.Requesting | State.Renewing => ty = ACK \/ ty = NAK
  | State.Init | State.Bound => False
  end.

(** A message the client takes: of its transaction, for its MAC, and of a type it
    waits for. *)
Definition taken (c : DhcpClient) (p : Parsed) : Prop :=
  p_xid p = xid c /\ chaddr p = mac c /\ expected (state c) (message_type p).

(** [handle], by what the message parses to: what is not taken changes nothing;
    an OFFER is requested, an ACK with an address binds, a NAK starts over. *)
Inductive handled (c : DhcpClient) (msg : list Z)
    : outcome Error Event * DhcpClient -> Prop :=
| handled_bad e : parse msg = Err e -> handled c msg (Err e, c)
| handled_ignored p : parse msg = Ok p -> ~ taken c p -> handled c msg (Ok Ignored, c)
| handled_offer p c' : parse msg = Ok p -> taken c p ->
    state c = State.Selecting -> message_type p = OFFER ->
    c' = mkClient (mac c) (xid c) State.Requesting (Some (yiaddr p)) (p_server_id p) (lease c) ->
    handled c msg
      (Ok (Send (build c' REQUEST UNSPECIFIED (Some (yiaddr p)) (p_server_id p))), c')
| handled_ack p l : parse msg = Ok p -> taken c p ->
    state c = State.Requesting \/ state c = State.Renewing -> message_type p = ACK ->
    granted c p l ->
    handled c msg (Ok (EBound l),
      mkClient (mac c) (xid c) State.Bound (offered c) (c_server_id c) (Some l))
| handled_bad_ack p : parse msg = Ok p -> taken c p ->
    state c = State.Requesting \/ state c = State.Renewing -> message_type p = ACK ->
    yiaddr p = UNSPECIFIED ->
    handled c msg (Err (Malformed "ACK without an address"), c)
| handled_nak p : parse msg = Ok p -> taken c p ->
    state c = State.Requesting \/ state c = State.Renewing -> message_type p = NAK ->
    handled c msg (Ok ENak, mkClient (mac c) (xid c) State.Init None (c_server_id c) None).

Lemma lease_from_cases c p :
  (yiaddr p = UNSPECIFIED /\ lease_from c p = Err (Malformed "ACK without an address")) \/
  (exists l, lease_from c p = Ok l /\ ip l = yiaddr p /\ ip l <> UNSPECIFIED).
Proof.
  unfold lease_from. destruct (is_unspecified (yiaddr p)) eqn:E.
  - left. split; [by apply is_unspecified_spec|done].
  - right. eexists. split; [done|]. split; [done|]. cbn. intros Hu.
    apply is_unspecified_spec in Hu. congruence.
Qed.

Lemma handle_handled c msg : handled c msg (handle c msg).
Proof.
  unfold handle. pose proof (parse_total msg) as Hsafe.
  destruct (parse msg) as [p|e|] eqn:Ep; [|by constructor|done]. clear Hsafe.
  destruct (negb (p_xid p =? xid c) || _) eqn:Em.
  { eapply handled_ignored; [done|]. intros (Hx & Hc & _). apply orb_true_iff in Em as [Em|Em].
    - by rewrite Hx, Z.eqb_refl in Em.
    - by rewrite bool_decide_eq_true_2 in Em. }
  apply orb_false_elim in Em as [Ex Ec]. rewrite negb_false_iff in Ex, Ec.
  apply Z.eqb_eq in Ex. apply bool_decide_eq_true in Ec.
  assert (Hign : ~ expected (state c) (message_type p) -> handled c msg (Ok Ignored, c)).
  { intros Hn. eapply handled_ignored; [done|]. by intros (_ & _ & He). }
  assert (Htk : expected (state c) (message_type p) -> taken c p) by by split.
  assert (Hwait : state c = State.Requesting \/ state c = State.Renewing ->
    handled c msg
      (if message_type p =? ACK then
         match lease_from c p with
         | Ok l => (Ok (EBound l), mkClient (mac c) (xid c) State.Bound (offered c) (c_server_id c) (Some l))
         | Err e => (Err e, c)
         | Panic => (Panic, c)
         end
       else if message_type p =? NAK
       then (Ok ENak, mkClient (mac c) (xid c) State.Init None (c_server_id c) None)
       else (Ok Ignored, c))).
  { intros Hst. destruct (Z.eqb_spec (message_type p) ACK) as [Ea|Ea].
    { assert (Ht : taken c p) by (apply Htk; destruct Hst as [-> | ->]; by left).
      destruct (lease_from_cases c p) as [[Hy Hl]|(l & Hl & _)]; rewrite Hl.
      - by eapply handled_bad_ack.
      - eapply handled_ack; eauto. by apply lease_from_granted. }
    destruct (Z.eqb_spec (message_type p) NAK) as [En|En].
    { eapply handled_nak; eauto. apply Htk. destruct Hst as [-> | ->]; by right. }
    apply Hign. destruct Hst as [-> | ->]; by intros [|]. }
  destruct (state c) eqn:Es; try (apply Hign; by intros []); try (apply Hwait; by auto).
  destruct (Z.eqb_spec (message_type p) OFFER) as [Eo|Eo]; [|by apply Hign].
  eapply handled_offer; eauto.
Qed.

Lemma step_client_ok c c' : client_ok c -> step c c' -> client_ok c'.
Proof.
  intros Hc Hs. pose proof Hc as [Hst Hl]. destruct Hs as [c|c|c msg].
  - by split.
  - unfold renew. destruct (lease c) as [l|] eqn:El; cbn [snd]; [|done].
    split; cbn [state lease]; [by eexists|]. intros l' Hl'. apply Hl. congruence.
  - destruct (handle_handled c msg); cbn [snd]; try done.
    + subst c'. split; [by eexists|]. done.
    + split; [by eexists|]. cbn [lease]. intros l' [= <-].
      by match goal with Hg : granted _ _ _ |- _ => destruct Hg as (_ & Hne & _) end.
Qed.

Lemma reachable_client_ok m x c : reachable m x c -> client_ok c.
Proof.
  induction 1 as [|c c' _ IH Hs]; [by split|]. by eapply step_client_ok.
Qed.

(** C35. Every client a caller can reach is well formed, so [retransmit] has nothing
    to say exactly when nothing is outstanding: never for want of a lease or of
    an offer. *)
Theorem reachable_wf m x c :
  reachable m x c ->
  client_ok c /\
  (retransmit c = None <-> state c = State.Init \/ state c = State.Bound).
Proof.
  intros Hr. apply reachable_client_ok in Hr as Hc. split; [done|].
  destruct Hc as [Hst _]. unfold retransmit.
  destruct (state c); try (split; [done|]; by intros [?|?]); try (split; by auto).
  destruct Hst as [l ->]. split; [done|]. by intros [?|?].
Qed.

Lemma reachable_wf_witness :
  client_ok (snd (discover (new sample_mac 1))) /\
  (retransmit (snd (discover (new sample_mac 1))) = None <->
   state (snd (discover (new sample_mac 1))) = State.Init \/
   state (snd (discover (new sample_mac 1))) = State.Bound).
Proof.
  apply (reachable_wf sample_mac 1). eapply reachable_step; [apply reachable_new|].
  apply step_discover.
Defined.

(** A reply to another transaction or for another client leaves the client as it
    was and asks for nothing. *)
Theorem foreign_reply_ignored c msg p :
  parse msg = Ok p -> p_xid p <> xid c \/ chaddr p <> mac c ->
  handle c msg = (Ok Ignored, c).
Proof.
  intros Hp Hf. unfold handle. rewrite Hp.
  destruct (Z.eqb_spec (p_xid p) (xid c)); cbn [negb orb]; [|done].
  rewrite bool_decide_eq_false_2; [done|]. tauto.
Qed.

Lemma foreign_reply_ignored_witness :
  handle (snd (discover (new sample_mac 77))) (sample_message OFFER) =
    (Ok Ignored, snd (discover (new sample_mac 77))).
Proof.
  apply (foreign_reply_ignored _ _ (sample_parsed OFFER)); [by vm_compute|].
  left. by vm_compute.
Defined.

(** The four-way exchange: from any state, a DISCOVER answered by an OFFER and an
    ACK of the transaction leaves the client bound to the acknowledged lease; the
    REQUEST in between names the offered address and its server. *)
Theorem four_way_exchange c offer ack po pa :
  let c1 := snd (discover c) in
  let c2 := snd (handle c1 offer) in
  parse offer = Ok po -> p_xid po = xid c1 -> chaddr po = mac c ->
  message_type po = OFFER ->
  parse ack = Ok pa -> p_xid pa = xid c1 -> chaddr pa = mac c -> message_type pa = ACK ->
  yiaddr pa <> UNSPECIFIED ->
  fst (handle c1 offer) =
    Ok (Send (build c2 REQUEST UNSPECIFIED (Some (yiaddr po)) (p_server_id po))) /\
  exists l c3, handle c2 ack = (Ok (EBound l), c3) /\ granted c2 pa l /\
    state c3 = State.Bound /\ lease c3 = Some l /\ retransmit c3 = None.
Proof.
  intros c1 c2 Ho Hox Hoc Hot Ha Hax Hac Hat Hy.
  set (cr := mkClient (mac c) (xid c1) State.Requesting (Some (yiaddr po))
    (p_server_id po) (lease c)).
  assert (Hh : handle c1 offer =
    (Ok (Send (build cr REQUEST UNSPECIFIED (Some (yiaddr po)) (p_server_id po))), cr)).
  { unfold handle. rewrite Ho, Hox, Z.eqb_refl, bool_decide_eq_true_2 by done.
    cbn [negb orb]. change (state c1) with State.Selecting. cbn iota.
    rewrite Hot. reflexivity. }
  assert (Hc2 : c2 = cr) by (unfold c2; by rewrite Hh).
  rewrite Hh, Hc2. split; [done|].
  unfold handle. rewrite Ha. cbn [xid mac state cr].
  rewrite Hax, Z.eqb_refl, bool_decide_eq_true_2 by done. cbn [negb orb].
  rewrite Hat. cbn [Z.eqb Pos.eqb ACK].
  destruct (lease_from_cases cr pa) as [[? _]|(l & Hl & _)]; [done|].
  fold cr. rewrite Hl. eexists l, _. split; [reflexivity|]. split; [|done].
  by apply lease_from_granted.
Qed.

Lemma four_way_exchange_witness :
  exists l c3,
    handle (snd (handle (snd (discover (new sample_mac 1))) (sample_message OFFER)))
      (sample_message ACK) = (Ok (EBound l), c3) /\
    ip l = Ipv4 10 0 0 7 /\ router l = Some (Ipv4 10 0 0 1) /\
    renewal_time l = from_secs 1800 /\ state c3 = State.Bound.
Proof.
  destruct (four_way_exchange (new sample_mac 1) (sample_message OFFER) (sample_message ACK)
    (sample_parsed OFFER) (sample_parsed ACK)) as (_ & l & c3 & E & Hg & Hs & _);
    try (by vm_compute).
  exists l, c3. split; [exact E|]. destruct Hg as (Hi & _ & Hsv & Hr & _ & _ & _ & _ & _ & Ht & _).
  assert (El : lease c3 = Some l /\ lease_time l = from_secs 3600).
  { vm_compute in E. injection E as <- <-. by split. }
  split; [exact Hi|]. cbn in Hsv. rewrite Hsv in Hr.
  split; [by apply Hr|]. split; [|exact Hs].
  rewrite Ht by done. by destruct El as [_ ->].
Defined.

(** ** Bytes

    Every field of the client is in range when what it was fed is bytes, so its
    messages are 300 bytes. *)

Definition opt_ip_ok (o : option Ipv4Addr) : Prop := forall i, o = Some i -> ip_ok i.

Definition client_bytes (c : DhcpClient) : Prop :=
  mac_ok (mac c) /\ opt_ip_ok (offered c) /\ opt_ip_ok (c_server_id c) /\
  forall l, lease c = Some l -> ip_ok (ip l).

Definition message_ok (m : list Z) : Prop := bytes_ok m /\ zlen m = 300.

Lemma encode_options_bytes opts :
  Forall (fun o => match o with WPad => True | WOpt c d => is_u8 c /\ bytes_ok d /\ is_u8 (zlen d) end) opts ->
  bytes_ok (encode_options opts).
Proof.
  intros Ho. unfold encode_options. induction Ho as [|[|c d] opts Hh _ IH]; cbn [map concat].
  - apply List.Forall_nil.
  - apply bytes_ok_app. split; [by repeat constructor|done].
  - apply bytes_ok_app. split; [|done]. destruct Hh as (Hc & Hd & Hl). cbn [encode_option].
    constructor; [done|]. by constructor.
Qed.

Lemma build_message_ok c mt ci rq sid :
  mac_ok (mac c) -> is_u8 mt -> ip_ok ci -> opt_ip_ok rq -> opt_ip_ok sid ->
  message_ok (build c mt ci rq sid).
Proof.
  intros Hm Hmt Hci Hrq Hsid. destruct (client_build_eq c mt ci rq sid) as (k & E & Hl).
  split; [|done]. rewrite E. rewrite bytes_ok_app, bytes_ok_app. split; [|split].
  - unfold client_header. rewrite !bytes_ok_app. repeat split; auto with bytes;
      by apply bytes_okb_ok.
  - assert (Hip : forall code o, is_u8 code -> opt_ip_ok o ->
      Forall (fun o => match o with WPad => True | WOpt c d => is_u8 c /\ bytes_ok d /\ is_u8 (zlen d) end)
        (ip_option code o)).
    { intros code [i|] Hc Hi; cbn [ip_option]; constructor; [|constructor]. split; [done|].
      split; [by apply Hi|by split]. }
    assert (Hone : forall code d, is_u8 code -> bytes_ok d -> is_u8 (zlen d) ->
      Forall (fun o => match o with WPad => True | WOpt c d => is_u8 c /\ bytes_ok d /\ is_u8 (zlen d) end)
        [WOpt code d]).
    { intros. constructor; [done|apply List.Forall_nil]. }
    apply encode_options_bytes. unfold client_options. rewrite !Forall_app.
    split; [apply Hone; [by split| |by split]; constructor; [done|apply List.Forall_nil]|].
    split; [apply Hone; [by split| |by split]; constructor; [by split|done]|].
    split; [by apply Hip|]. split; [by apply Hip|].
    destruct (_ || _); [|apply List.Forall_nil].
    apply Hone; [by split|by apply bytes_okb_ok|by split].
  - constructor; [by split|]. apply bytes_ok_replicate. by split.
Qed.

Lemma apply_option_server code data p p' :
  bytes_ok data -> opt_ip_ok (p_server_id p) -> apply_option code data p = Ok p' ->
  opt_ip_ok (p_server_id p').
Proof.
  intros Hd Hp. unfold apply_option, Arp.ipv4, seconds.
  repeat match goal with
  | |- context [if ?b then _ else _] =>
      let E := fresh in destruct b eqn:E;
      [try (apply andb_prop in E as [_ E]; apply Z.leb_le in E); inb; intros [= <-]; try done | clear E]
  end.
  - cbn. intros i [= <-]. repeat constructor; cbn; by apply nthZ_ok.
  - by intros [= <-].
Qed.

Lemma bytes_ok_skip b n : bytes_ok b -> bytes_ok (skip b n).
Proof. intros. rewrite skip_drop. by apply Forall_drop. Qed.

Lemma parse_options_server rest : forall p p',
  bytes_ok rest -> opt_ip_ok (p_server_id p) -> parse_options rest p = Ok p' ->
  opt_ip_ok (p_server_id p').
Proof.
  remember (length rest) as n eqn:Hn. revert rest Hn.
  induction n as [n IH] using lt_wf_ind. intros [|code tail] Hn p p' Hb Hp; [by intros [= <-]|].
  apply Forall_cons_iff in Hb as [Hc Hb]. cbn [parse_options]. destruct (code =? OPT_PAD).
  { apply (IH (length tail)); [cbn in Hn; lia|done|done|done]. }
  destruct (code =? OPT_END); [by intros [= <-]|]. destruct tail as [|len tail]; [done|].
  apply Forall_cons_iff in Hb as [Hlen Hb].
  destruct (get_range tail 0 len) as [data|] eqn:Eg; [|done].
  apply get_range_Some in Eg as (_ & _ & ->).
  destruct (apply_option _ _ _) as [p1| |] eqn:Ea; [|done|done].
  apply (IH (length (skip tail (Z.to_nat len)))); [|done|by apply bytes_ok_skip|].
  - rewrite skip_drop, length_drop. cbn in Hn. lia.
  - apply (apply_option_server _ _ _ _ (bytes_ok_sub _ _ _ Hb) Hp Ea).
Qed.

Lemma parse_bytes msg p :
  bytes_ok msg -> parse msg = Ok p ->
  ip_ok (yiaddr p) /\ ip_ok (siaddr p) /\ opt_ip_ok (p_server_id p).
Proof.
  intros Hb Hp. pose proof (parse_total msg) as Ht. rewrite Hp in Ht.
  destruct Ht as (Hl & _ & _ & _ & Hy & Hs & _).
  unfold ip_ok. rewrite Hy, Hs. split; [by apply bytes_ok_sub|]. split; [by apply bytes_ok_sub|].
  unfold parse, BOOTP_LEN in Hp. destruct (_ <? _); [done|].
  inv_bind Hp. destruct (negb _); [done|]. inv_bind Hp. destruct (negb _); [done|].
  do 11 inv_bind Hp.
  destruct (parse_options _ _) as [q| |] eqn:Eq; cbn [mbind outcome_bind] in Hp; [|done|done].
  destruct (_ =? 0); [done|]. injection Hp as <-.
  eapply parse_options_server; [| |exact Eq]; [|done].
  rewrite slice_ok in E11 by lia. injection E11 as <-. by apply bytes_ok_sub.
Qed.

Ltac message_ok :=
  apply build_message_ok;
    [done | by split | first [done | by apply bytes_okb_ok | auto] | first [assumption | by intros ? ?] | first [assumption | by intros ? ?]].

(** The client's calls keep its fields in range, and everything it says is a
    message. *)
Lemma discover_bytes c :
  client_bytes c -> client_bytes (snd (discover c)) /\ message_ok (fst (discover c)).
Proof.
  intros (Hm & _ & _ & Hl). split; [by repeat split|].
  message_ok.
Qed.

Lemma renew_bytes c :
  client_bytes c -> client_bytes (snd (renew c)) /\
  forall m, fst (renew c) = Some m -> message_ok m.
Proof.
  intros (Hm & Ho & Hs & Hl). unfold renew. destruct (lease c) as [l|] eqn:El; cbn [fst snd].
  - split; [split; [done|split; [done|split; [done|]]]; cbn [lease]; done|].
    intros m [= <-]. message_ok.
  - split; [|done]. repeat split; try done. by rewrite El.
Qed.

Lemma retransmit_bytes c m : client_bytes c -> retransmit c = Some m -> message_ok m.
Proof.
  intros (Hm & Ho & Hs & Hl). unfold retransmit.
  destruct (state c); try done; [intros [= <-]; message_ok..|].
  destruct (lease c) as [l|]; [|done]. intros [= <-]. message_ok.
Qed.

Lemma handle_bytes c msg :
  client_bytes c -> bytes_ok msg ->
  client_bytes (snd (handle c msg)) /\
  match fst (handle c msg) with
  | Ok (Send m) => message_ok m
  | Ok (EBound l) => ip_ok (ip l)
  | Panic => False
  | _ => True
  end.
Proof.
  intros Hc Hb. assert (Hc' := Hc). destruct Hc' as (Hm & Ho & Hs & Hl).
  destruct (handle_handled c msg); cbn [fst snd]; try done.
  - destruct (parse_bytes _ _ Hb H) as (Hy & _ & Hsv). subst c'.
    assert (Hoy : opt_ip_ok (Some (yiaddr p))) by (by intros i [= <-]).
    split; [by repeat split|]. message_ok.
  - destruct (parse_bytes _ _ Hb H) as (Hy & _ & Hsv).
    match goal with Hg : granted _ _ _ |- _ => destruct Hg as (Hip & _) end.
    split; [|by rewrite Hip]. repeat split; try done. cbn [lease]. intros l' [= <-].
    by rewrite Hip.
Qed.

End Dhcp.
