(* ===== verification/Wire.v ===== *)
(** * RNDIS messages

    [src/rndis/error.rs] and [src/rndis/wire.rs]: constants, and the encoding
    and decoding of control messages. Every field is a little-endian [u32]. *)
From Stdlib Require Import ZArith Lia.
From stdpp Require Import base numbers list strings.
From S2P Require Import Prelude.

Open Scope Z_scope.

Module Wire.

(** [rndis::error::Error] *)
Inductive Error : Type :=
| Truncated
| Malformed (msg : string)
| UnexpectedMessage (t : Z)
| Status (s : Z)
| NoResponse
| Transport (msg : string).

#[export] Instance Error_eq_dec : EqDecision Error.
Proof. solve_decision. Defined.

Definition MSG_COMPLETION : Z := 0x80000000.
Definition MSG_PACKET : Z := 0x00000001.
Definition MSG_INIT : Z := 0x00000002.
Definition MSG_INIT_C : Z := Z.lor MSG_INIT MSG_COMPLETION.
Definition MSG_HALT : Z := 0x00000003.
Definition MSG_QUERY : Z := 0x00000004.
Definition MSG_QUERY_C : Z := Z.lor MSG_QUERY MSG_COMPLETION.
Definition MSG_SET : Z := 0x00000005.
Definition MSG_SET_C : Z := Z.lor MSG_SET MSG_COMPLETION.
Definition MSG_INDICATE : Z := 0x00000007.
Definition MSG_KEEPALIVE : Z := 0x00000008.
Definition MSG_KEEPALIVE_C : Z := Z.lor MSG_KEEPALIVE MSG_COMPLETION.

Definition STATUS_SUCCESS : Z := 0x00000000.
Definition STATUS_MEDIA_CONNECT : Z := 0x4001000B.
Definition STATUS_MEDIA_DISCONNECT : Z := 0x4001000C.

Definition OID_GEN_CURRENT_PACKET_FILTER : Z := 0x0001010E.
Definition OID_802_3_PERMANENT_ADDRESS : Z := 0x01010101.
Definition OID_802_3_CURRENT_ADDRESS : Z := 0x01010102.

(** DIRECTED, MULTICAST, ALL_MULTICAST, BROADCAST and PROMISCUOUS. *)
Definition DEFAULT_PACKET_FILTER : Z :=
  Z.lor (Z.lor (Z.lor (Z.lor 0x1 0x2) 0x4) 0x8) 0x20.

(** [struct rndis_data_hdr], the PACKET_MSG header. *)
Definition DATA_HEADER_LEN : Z := 44.

(** Offsets inside control messages are relative to the end of [msg_len]. *)
Definition OFFSET_BASE : Z := 8.

Definition MAX_CONTROL_MSG : Z := 1024.

Definition RESPONSE_AVAILABLE : Z := 0x00000001.

Definition REQ_SEND_ENCAPSULATED : Z := 0x00.

Definition REQ_GET_ENCAPSULATED : Z := 0x01.

Definition u32_at (buf : list Z) (offset : Z) : outcome Error Z :=
  b ← ok_or (get_range buf offset (offset + 4)) Truncated;
  b0 ← b.[0]; b1 ← b.[1]; b2 ← b.[2]; b3 ← b.[3];
  mret (le32 b0 b1 b2 b3).

Definition put_u32 (out : list Z) (v : Z) : list Z := out ++ to_le32 v.

(** [REMOTE_NDIS_INITIALIZE_MSG] *)
Definition encode_init (request_id max_transfer_size : Z) : list Z :=
  let m := put_u32 [] MSG_INIT in
  let m := put_u32 m 24 in
  let m := put_u32 m request_id in
  let m := put_u32 m 1 in
  let m := put_u32 m 0 in
  put_u32 m max_transfer_size.

(** [REMOTE_NDIS_QUERY_MSG] with an empty information buffer. *)
Definition encode_query (request_id oid : Z) : list Z :=
  let m := put_u32 [] MSG_QUERY in
  let m := put_u32 m 28 in
  let m := put_u32 m request_id in
  let m := put_u32 m oid in
  let m := put_u32 m 0 in
  let m := put_u32 m 0 in
  put_u32 m 0.

(** [REMOTE_NDIS_SET_MSG] *)
Definition encode_set (request_id oid : Z) (data : list Z) : list Z :=
  let m := put_u32 [] MSG_SET in
  let m := put_u32 m (as_u32 (28 + zlen data)) in
  let m := put_u32 m request_id in
  let m := put_u32 m oid in
  let m := put_u32 m (as_u32 (zlen data)) in
  let m := put_u32 m (as_u32 (28 - OFFSET_BASE)) in
  let m := put_u32 m 0 in
  m ++ data.

(** [REMOTE_NDIS_KEEPALIVE_MSG] *)
Definition encode_keepalive (request_id : Z) : list Z :=
  let m := put_u32 [] MSG_KEEPALIVE in
  let m := put_u32 m 12 in
  put_u32 m request_id.

(** [REMOTE_NDIS_HALT_MSG] *)
Definition encode_halt (request_id : Z) : list Z :=
  let m := put_u32 [] MSG_HALT in
  let m := put_u32 m 12 in
  put_u32 m request_id.

(** [REMOTE_NDIS_KEEPALIVE_CMPLT], sent when the device pings us. *)
Definition encode_keepalive_complete (request_id : Z) : list Z :=
  let m := put_u32 [] MSG_KEEPALIVE_C in
  let m := put_u32 m 16 in
  let m := put_u32 m request_id in
  put_u32 m STATUS_SUCCESS.

Record InitComplete : Type := mkInit
  { request_id : Z; status : Z; major_version : Z; minor_version : Z; medium : Z;
    max_packets_per_transfer : Z; max_transfer_size : Z; packet_alignment : Z }.

Definition decode_init_complete (buf : list Z) : outcome Error InitComplete :=
  t ← u32_at buf 0;
  if negb (t =? MSG_INIT_C) then (t ← u32_at buf 0; Err (UnexpectedMessage t)) else
  alignment_exponent ← u32_at buf 40;
  id ← u32_at buf 8;
  st ← u32_at buf 12;
  maj ← u32_at buf 16;
  min ← u32_at buf 20;
  med ← u32_at buf 28;
  mp ← u32_at buf 32;
  mt ← u32_at buf 36;
  mret (mkInit id st maj min med mp mt
    (if alignment_exponent <? 8 then Z.shiftl 1 alignment_exponent else 1)).

(** Request id, status, and the information buffer. *)
Definition decode_query_complete (buf : list Z) : outcome Error (Z * Z * list Z) :=
  t ← u32_at buf 0;
  if negb (t =? MSG_QUERY_C) then (t ← u32_at buf 0; Err (UnexpectedMessage t)) else
  request_id ← u32_at buf 8;
  status ← u32_at buf 12;
  len ← u32_at buf 16;
  offset ← u32_at buf 20;
  if negb (status =? STATUS_SUCCESS) then mret (request_id, status, []) else
  start ← ok_or (checked_add_usize OFFSET_BASE offset) Truncated;
  fin ← ok_or (checked_add_usize start len) Truncated;
  info ← ok_or (get_range buf start fin) Truncated;
  mret (request_id, status, info).

Definition decode_completion (buf : list Z) : outcome Error (Z * Z) :=
  id ← u32_at buf 8;
  st ← u32_at buf 12;
  mret (id, st).

Definition decode_indicate_status (buf : list Z) : outcome Error Z := u32_at buf 8.

(** ** Lemmas *)

(** The word at an offset, when the buffer reaches that far. *)
Definition word (buf : list Z) (o : Z) : Z :=
  le32 (nthZ buf o) (nthZ buf (o + 1)) (nthZ buf (o + 2)) (nthZ buf (o + 3)).

Lemma u32_at_ok buf o : 0 <= o -> o + 4 <= zlen buf -> u32_at buf o = Ok (word buf o).
Proof.
  intros. unfold u32_at. rewrite (proj2 (get_range_Some _ _ _ (sub buf o (o + 4)))) by
    (repeat split; lia). cbn [ok_or mbind outcome_bind].
  assert (Hs : zlen (sub buf o (o + 4)) = 4) by (rewrite sub_length; lia).
  rewrite !idx_ok by lia. cbn [mbind outcome_bind]. rewrite !nthZ_sub by lia.
  unfold word. by rewrite Z.add_0_r.
Qed.

Lemma u32_at_short buf o : 0 <= o -> zlen buf < o + 4 -> u32_at buf o = Err Truncated.
Proof.
  intros. unfold u32_at. rewrite (proj2 (get_range_None _ _ _)) by lia. done.
Qed.

(** [u32_at] never panics: both outcomes, by the length alone. *)
Lemma u32_at_cases buf o : 0 <= o ->
  (o + 4 <= zlen buf /\ u32_at buf o = Ok (word buf o)) \/
  (zlen buf < o + 4 /\ u32_at buf o = Err Truncated).
Proof.
  intros. destruct (decide (o + 4 <= zlen buf)); [left|right]; split; try lia.
  - by apply u32_at_ok.
  - apply u32_at_short; lia.
Qed.

Lemma word_bound buf o : bytes_ok buf -> is_u32 (word buf o).
Proof. intros. unfold word, le32. apply be32_bound; by apply nthZ_ok. Qed.

(** The word an encoder put at an offset. *)
Lemma u32_at_app a v b o : is_u32 v -> o = zlen a -> u32_at (a ++ to_le32 v ++ b) o = Ok v.
Proof.
  intros Hv ->. pose proof (zlen_nonneg a). pose proof (zlen_nonneg b).
  rewrite u32_at_ok by (autorewrite with zlen; lia). unfold word.
  assert (Hn : forall k, 0 <= k ->
    nthZ (a ++ to_le32 v ++ b) (zlen a + k) = nthZ (to_le32 v ++ b) k).
  { intros k Hk. rewrite nthZ_app_r by lia. f_equal. lia. }
  rewrite <- (Z.add_0_r (zlen a)) at 1. rewrite !Hn by lia.
  change (nthZ (to_le32 v ++ b) 0) with (v mod 256).
  change (nthZ (to_le32 v ++ b) 1) with (v / 256 mod 256).
  change (nthZ (to_le32 v ++ b) 2) with (v / 65536 mod 256).
  change (nthZ (to_le32 v ++ b) 3) with (v / 16777216 mod 256).
  by rewrite le32_to_le32.
Qed.

(** Case analysis on every [u32_at] of the goal. *)
Ltac u32s :=
  repeat match goal with
  | |- context [u32_at ?b ?o] =>
      let H := fresh "Hw" in let E := fresh "Ew" in
      destruct (u32_at_cases b o ltac:(lia)) as [[H E] | [H E]]; rewrite E;
      cbn [mbind outcome_bind]
  end.

(** The words of a message, for stating what a device reads. *)
Definition words (vs : list Z) : list Z := concat (map to_le32 vs).

Lemma zlen_words vs : zlen (words vs) = 4 * zlen vs.
Proof.
  induction vs as [|v vs IH]; [done|]. unfold words in *. cbn [map concat].
  autorewrite with zlen. lia.
Qed.

Lemma u32_at_words vs i rest :
  Forall is_u32 vs -> 0 <= i < zlen vs ->
  u32_at (words vs ++ rest) (4 * i) = Ok (nthZ vs i).
Proof.
  intros Hvs Hi. unfold zlen in Hi.
  destruct (lookup_lt_is_Some_2 vs (Z.to_nat i)) as [v Hv]; [lia|].
  pose proof (take_drop_middle vs (Z.to_nat i) v Hv) as Hsplit.
  unfold nthZ. rewrite (nth_lookup_Some vs _ 0 v Hv).
  rewrite <- Hsplit. unfold words. rewrite map_app, concat_app. cbn [map concat].
  rewrite <- !app_assoc. apply u32_at_app.
  - rewrite Forall_forall in Hvs. apply Hvs.
    apply list_elem_of_lookup. by eexists.
  - fold (words (take (Z.to_nat i) vs)). rewrite zlen_words. unfold zlen.
    rewrite length_take. lia.
Qed.

(** The same by byte offset. *)
Lemma u32_at_offset vs o rest :
  Forall is_u32 vs -> (o mod 4 =? 0) && (0 <=? o) && (o / 4 <? zlen vs) = true ->
  u32_at (words vs ++ rest) o = Ok (nthZ vs (o / 4)).
Proof.
  intros Hvs Ho. apply andb_true_iff in Ho as [Ho H3]. apply andb_true_iff in Ho as [H1 H2].
  apply Z.eqb_eq in H1. apply Z.leb_le in H2. apply Z.ltb_lt in H3.
  rewrite <- (u32_at_words vs (o / 4) rest Hvs) by zdm. f_equal. zdm.
Qed.

Lemma read_words vs rest idxs :
  Forall is_u32 vs -> Forall (fun i => 0 <= i < zlen vs) idxs ->
  map (u32_at (words vs ++ rest)) (map (Z.mul 4) idxs) = map (fun i => Ok (nthZ vs i)) idxs.
Proof.
  intros Hvs Hi. induction Hi as [|i idxs Hi _ IH]; [done|].
  cbn [map]. by rewrite u32_at_words, IH.
Qed.

(** ** Properties *)

(** A device reads every command back: type, its own length, request id, and for
    SET the object and a payload found at the announced offset. *)
Theorem commands_readable id oid sz data :
  is_u32 id -> is_u32 oid -> is_u32 sz -> zlen data < 4294967268 ->
  let i := encode_init id sz in
  let q := encode_query id oid in
  let s := encode_set id oid data in
  map (u32_at i) [0; 4; 8; 12; 16; 20] = map Ok [MSG_INIT; zlen i; id; 1; 0; sz] /\
  map (u32_at q) [0; 4; 8; 12; 16; 20] = map Ok [MSG_QUERY; zlen q; id; oid; 0; 0] /\
  map (u32_at s) [0; 4; 8; 12; 16] = map Ok [MSG_SET; zlen s; id; oid; zlen data] /\
  (off ← u32_at s 20; ok_or (get_range s (OFFSET_BASE + off) (OFFSET_BASE + off + zlen data))
     Truncated) = Ok data.
Proof.
  intros Hid Hoid Hsz Hlen. cbv zeta. pose proof (zlen_nonneg data).
  assert (Hi : encode_init id sz = words [MSG_INIT; 24; id; 1; 0; sz] ++ []) by done.
  assert (Hq : encode_query id oid = words [MSG_QUERY; 28; id; oid; 0; 0; 0] ++ []) by done.
  assert (Hs : encode_set id oid data =
    words [MSG_SET; 28 + zlen data; id; oid; zlen data; 20; 0] ++ data).
  { unfold encode_set, as_u32. rewrite !(Z.mod_small) by (unfold OFFSET_BASE; lia). done. }
  assert (Fi : Forall is_u32 [MSG_INIT; 24; id; 1; 0; sz]) by forall_u32.
  assert (Fq : Forall is_u32 [MSG_QUERY; 28; id; oid; 0; 0; 0])
    by forall_u32.
  assert (Fs : Forall is_u32 [MSG_SET; 28 + zlen data; id; oid; zlen data; 20; 0])
    by forall_u32.
  rewrite Hi, Hq, Hs. repeat split.
  - apply (read_words _ [] [0; 1; 2; 3; 4; 5] Fi). repeat constructor; done.
  - apply (read_words _ [] [0; 1; 2; 3; 4; 5] Fq). repeat constructor; done.
  - rewrite zlen_app, zlen_words. change (4 * zlen _) with 28.
    apply (read_words _ data [0; 1; 2; 3; 4] Fs). repeat constructor; done.
  - pose proof (u32_at_words _ 5 data Fs ltac:(unfold zlen; cbn; lia)) as E.
    change (4 * 5) with 20 in E.
    rewrite E. change (nthZ _ 5) with 20. cbn [mbind outcome_bind]. unfold OFFSET_BASE.
    rewrite (proj2 (get_range_Some _ _ _ data)); [done|].
    rewrite zlen_app, zlen_words. change (4 * zlen _) with 28.
    repeat split; try lia. symmetry. apply sub_suffix; rewrite zlen_words; change (4 * zlen _) with 28; lia.
Qed.

Lemma commands_readable_witness :
  u32_at (encode_set 7 OID_GEN_CURRENT_PACKET_FILTER [47; 0; 0; 0]) 4 = Ok 32 /\
  map (u32_at (encode_init 1 16384)) [0; 4; 8; 12; 16; 20] = map Ok [2; 24; 1; 1; 0; 16384].
Proof.
  split; [by vm_compute|].
  refine (proj1 (commands_readable 1 0 16384 [] _ _ _ _)); unfold is_u32, zlen; cbn; lia.
Defined.

Lemma decode_query_ok buf :
  bytes_ok buf ->
  match decode_query_complete buf with
  | Ok (id, st, info) =>
      24 <= zlen buf /\ word buf 0 = MSG_QUERY_C /\ id = word buf 8 /\ st = word buf 12 /\
      (st <> STATUS_SUCCESS -> info = []) /\
      (st = STATUS_SUCCESS ->
        8 + word buf 20 + word buf 16 <= zlen buf /\
        info = sub buf (8 + word buf 20) (8 + word buf 20 + word buf 16))
  | Err (UnexpectedMessage t) => t = word buf 0 /\ t <> MSG_QUERY_C
  | Err e => e = Truncated
  | Panic => False
  end.
Proof.
  intros Hok. pose proof (word_bound buf 16 Hok). pose proof (word_bound buf 20 Hok).
  unfold is_u32 in *. unfold decode_query_complete.
  destruct (u32_at_cases buf 0 ltac:(lia)) as [[Hl0 E0]|[Hl0 E0]]; rewrite E0;
    cbn [mbind outcome_bind]; [|done].
  destruct (Z.eqb_spec (word buf 0) MSG_QUERY_C); cbn [negb]; [|done].
  u32s; try done.
  destruct (Z.eqb_spec (word buf 12) STATUS_SUCCESS); cbn [negb].
  - unfold checked_add_usize, OFFSET_BASE.
    rewrite (proj2 (Z.ltb_lt (8 + word buf 20) _)) by lia. cbn [ok_or mbind outcome_bind].
    rewrite (proj2 (Z.ltb_lt (8 + word buf 20 + word buf 16) _)) by lia.
    cbn [ok_or mbind outcome_bind].
    destruct (get_range _ _ _) as [info|] eqn:Eg; cbn [ok_or mbind outcome_bind]; [|done].
    apply get_range_Some in Eg as (? & ? & ->). by repeat split.
  - by repeat split.
Qed.

Lemma decode_init_ok buf :
  bytes_ok buf ->
  match decode_init_complete buf with
  | Ok c =>
      44 <= zlen buf /\ status c = word buf 12 /\ max_transfer_size c = word buf 36 /\
      max_packets_per_transfer c = word buf 32 /\
      exists k, 0 <= k < 8 /\ packet_alignment c = 2 ^ k /\
        (word buf 40 < 8 -> k = word buf 40)
  | Err e => zlen buf < 44 /\ e = Truncated \/
             e = UnexpectedMessage (word buf 0) /\ word buf 0 <> MSG_INIT_C
  | Panic => False
  end.
Proof.
  intros Hok. pose proof (word_bound buf 40 Hok) as Hb. unfold is_u32 in Hb.
  unfold decode_init_complete.
  destruct (u32_at_cases buf 0 ltac:(lia)) as [[Hl0 E0]|[Hl0 E0]]; rewrite E0;
    cbn [mbind outcome_bind]; [|left; split; [lia|done]].
  destruct (Z.eqb_spec (word buf 0) MSG_INIT_C); cbn [negb]; [|by right].
  u32s; try (left; split; [lia|done]); try lia.
  cbn [mret outcome_ret status max_transfer_size max_packets_per_transfer packet_alignment].
  repeat (split; [first [done|lia]|]).
  destruct (Z.ltb_spec (word buf 40) 8).
  - exists (word buf 40). rewrite Z.shiftl_1_l. repeat split; lia.
  - exists 0. repeat split; lia.
Qed.

(** The information buffer of a query completion cannot escape the message: on
    any bytes the decoder neither panics nor returns anything but the slice the
    message announces, inside the message. The [usize] additions never overflow,
    so their checks only guard. *)
Theorem query_complete_in_bounds buf :
  bytes_ok buf ->
  match decode_query_complete buf with
  | Ok (id, st, info) =>
      24 <= zlen buf /\ word buf 0 = MSG_QUERY_C /\ id = word buf 8 /\ st = word buf 12 /\
      (st <> STATUS_SUCCESS -> info = []) /\
      (st = STATUS_SUCCESS ->
        8 + word buf 20 + word buf 16 <= zlen buf /\
        info = sub buf (8 + word buf 20) (8 + word buf 20 + word buf 16))
  | Err (UnexpectedMessage t) => t = word buf 0 /\ t <> MSG_QUERY_C
  | Err e => e = Truncated
  | Panic => False
  end.
Proof. apply decode_query_ok. Qed.

Definition sample_query_reply : list Z := words [MSG_QUERY_C; 26; 1; 0; 2; 16] ++ [7; 9].

Lemma query_complete_in_bounds_witness :
  8 + word sample_query_reply 20 + word sample_query_reply 16 <= zlen sample_query_reply /\
  [7; 9] = sub sample_query_reply (8 + word sample_query_reply 20)
             (8 + word sample_query_reply 20 + word sample_query_reply 16).
Proof.
  assert (Hok : bytes_ok sample_query_reply) by (apply bytes_okb_ok; by vm_compute).
  pose proof (query_complete_in_bounds sample_query_reply Hok) as Hq.
  assert (E : decode_query_complete sample_query_reply = Ok (1, 0, [7; 9])) by (by vm_compute).
  rewrite E in Hq. destruct Hq as (_ & _ & _ & _ & _ & Hs). by apply Hs.
Defined.

(** What the decoder makes of an INITIALIZE completion: the alignment is a power
    of two between 1 and 128 whatever exponent the device sends, and a completion
    is accepted exactly when its eleven words are there. *)
Theorem init_complete_alignment buf :
  bytes_ok buf ->
  match decode_init_complete buf with
  | Ok c =>
      44 <= zlen buf /\ status c = word buf 12 /\ max_transfer_size c = word buf 36 /\
      max_packets_per_transfer c = word buf 32 /\
      exists k, 0 <= k < 8 /\ packet_alignment c = 2 ^ k /\
        (word buf 40 < 8 -> k = word buf 40)
  | Err e => zlen buf < 44 /\ e = Truncated \/
             e = UnexpectedMessage (word buf 0) /\ word buf 0 <> MSG_INIT_C
  | Panic => False
  end.
Proof. apply decode_init_ok. Qed.

Lemma init_complete_alignment_witness :
  exists k, 0 <= k < 8 /\ 1 = 2 ^ k.
Proof.
  set (buf := words [MSG_INIT_C; 52; 1; 0; 1; 0; 0; 0; 8; 16384; 40; 0; 0]).
  assert (Hok : bytes_ok buf) by (apply bytes_okb_ok; by vm_compute).
  pose proof (init_complete_alignment buf Hok) as Hi.
  assert (E : decode_init_complete buf = Ok (mkInit 1 0 1 0 0 8 16384 1)) by (by vm_compute).
  rewrite E in Hi. destruct Hi as (_ & _ & _ & _ & k & Hk & Ha & _). by exists k.
Defined.

End Wire.
