(* ===== verification/Packet.v ===== *)
(** * PACKET_MSG framing

    [src/rndis/packet.rs]: Ethernet frames in and out of bulk transfers. The
    iterator [Frames] is its remaining buffer; [next] returns the item and the
    buffer it leaves. *)
From Stdlib Require Import ZArith Lia.
From stdpp Require Import base numbers list strings.
From S2P Require Import Prelude Wire.

Open Scope Z_scope.

Module Packet.

Import Wire.

(** [a.next_multiple_of(b)] *)
Definition next_multiple_of (a b : Z) : Z :=
  if a mod b =? 0 then a else a + (b - a mod b).

(** Append a PACKET_MSG for [frame], padded so the next message begins on an
    [alignment] boundary. *)
Definition append (out : list Z) (frame : list Z) (alignment : Z) : list Z :=
  let body := DATA_HEADER_LEN + zlen frame in
  let msg_len := next_multiple_of body (Z.max alignment 1) in
  let fields :=
    [MSG_PACKET; as_u32 msg_len; as_u32 (DATA_HEADER_LEN - OFFSET_BASE); as_u32 (zlen frame);
     0; 0; 0; 0; 0; 0; 0] in
  let out := foldl (fun out f => out ++ to_le32 f) out fields in
  let out := out ++ frame in
  vec_resize out (zlen out + (msg_len - body)) 0.

(** [Frames::next_frame]: the frame, and the buffer after its message. *)
Definition next_frame (buf : list Z) : outcome Error (list Z * list Z) :=
  t ← u32_at buf 0;
  if negb (t =? MSG_PACKET) then (t ← u32_at buf 0; Err (UnexpectedMessage t)) else
  msg_len ← u32_at buf 4;
  data_offset ← u32_at buf 8;
  data_len ← u32_at buf 12;
  if (msg_len <? DATA_HEADER_LEN) || (zlen buf <? msg_len)
  then Err (Malformed "packet length outside transfer") else
  fin ← ok_or
    (match checked_add_usize OFFSET_BASE data_offset with
     | Some s => checked_add_usize s data_len
     | None => None
     end) (Malformed "packet data offset overflow");
  if msg_len <? fin then Err (Malformed "packet data outside message") else
  frame ← buf.[OFFSET_BASE + data_offset ..< fin];
  rest ← buf.[msg_len ..< zlen buf];
  mret (frame, rest).

(** [Iterator::next] for [Frames] *)
Definition next (buf : list Z) : option (outcome Error (list Z)) * list Z :=
  if zlen buf <? DATA_HEADER_LEN then (None, [])
  else
    match next_frame buf with
    | Ok (frame, rest) => (Some (Ok frame), rest)
    | Err e => (Some (Err e), [])
    | Panic => (Some Panic, [])
    end.

(** The items a consumer draws, at most [fuel] of them. *)
Fixpoint drain (fuel : nat) (buf : list Z) : list (outcome Error (list Z)) :=
  match fuel with
  | O => []
  | S fuel =>
      match next buf with
      | (None, _) => []
      | (Some item, rest) => item :: drain fuel rest
      end
  end.

(** Split a received bulk transfer into Ethernet frames: every item takes at
    least a byte, so the length of the buffer is fuel enough. *)
Definition decode (buf : list Z) : list (outcome Error (list Z)) := drain (length buf) buf.

(** ** Lemmas *)

Lemma next_multiple_of_spec a b :
  0 <= a -> 0 < b ->
  a <= next_multiple_of a b < a + b /\ next_multiple_of a b mod b = 0.
Proof.
  intros. unfold next_multiple_of.
  destruct (Z.eqb_spec (a mod b) 0); [split; [lia|done]|].
  pose proof (Z.mod_pos_bound a b ltac:(lia)). split; [lia|].
  replace (a + (b - a mod b)) with ((a / b + 1) * b) by (pose proof (Z.div_mod a b); nia).
  apply Z_mod_mult.
Qed.

(** The length of the message [append] writes for a frame of [n] bytes. *)
Definition message_len (n alignment : Z) : Z :=
  next_multiple_of (DATA_HEADER_LEN + n) (Z.max alignment 1).

Lemma message_len_bounds n al :
  0 <= n -> DATA_HEADER_LEN + n <= message_len n al < DATA_HEADER_LEN + n + Z.max al 1.
Proof.
  intros. unfold message_len. apply next_multiple_of_spec; unfold DATA_HEADER_LEN; lia.
Qed.

Lemma message_len_mod n al : 0 <= n -> message_len n al mod Z.max al 1 = 0.
Proof.
  intros. unfold message_len. apply next_multiple_of_spec; unfold DATA_HEADER_LEN; lia.
Qed.

(** The message [append] writes: eleven words, the frame, zero padding. *)
Definition message (frame : list Z) (al : Z) : list Z :=
  words [MSG_PACKET; as_u32 (message_len (zlen frame) al); 36; as_u32 (zlen frame);
         0; 0; 0; 0; 0; 0; 0] ++ frame ++
  replicate (Z.to_nat (message_len (zlen frame) al - (DATA_HEADER_LEN + zlen frame))) 0.

Lemma append_message out frame al : append out frame al = out ++ message frame al.
Proof.
  pose proof (zlen_nonneg frame). pose proof (message_len_bounds (zlen frame) al ltac:(lia)).
  unfold append. fold (message_len (zlen frame) al).
  rewrite zlen_vec_resize by lia.
  replace (foldl _ out _) with (out ++ words [MSG_PACKET; as_u32 (message_len (zlen frame) al);
    36; as_u32 (zlen frame); 0; 0; 0; 0; 0; 0; 0]).
  2: { cbn [foldl]. unfold words. cbn [map concat]. by rewrite <- !app_assoc, app_nil_r. }
  unfold message. rewrite <- !app_assoc. do 5 f_equal. lia.
Qed.

Lemma zlen_message frame al : zlen (message frame al) = message_len (zlen frame) al.
Proof.
  pose proof (zlen_nonneg frame). pose proof (message_len_bounds (zlen frame) al ltac:(lia)).
  unfold message. rewrite !zlen_app, zlen_words, zlen_replicate.
  change (4 * zlen _) with 44. unfold DATA_HEADER_LEN in *. lia.
Qed.

(** A frame whose message length fits the [u32] fields. *)
Definition frame_ok (al : Z) (frame : list Z) : Prop :=
  message_len (zlen frame) al < 4294967296.

(** What the iterator does at a message, whatever follows it. *)
Lemma next_message frame al rest :
  frame_ok al frame -> next (message frame al ++ rest) = (Some (Ok frame), rest).
Proof.
  intros Hok. unfold frame_ok in Hok. pose proof (zlen_nonneg frame).
  pose proof (message_len_bounds (zlen frame) al ltac:(lia)) as Hb.
  unfold DATA_HEADER_LEN in Hb. set (ml := message_len (zlen frame) al) in *.
  assert (Hsp : message frame al ++ rest =
    words [MSG_PACKET; ml; 36; zlen frame; 0; 0; 0; 0; 0; 0; 0] ++
    (frame ++ replicate (Z.to_nat (ml - (44 + zlen frame))) 0 ++ rest)).
  { unfold message. fold ml. unfold as_u32. rewrite !Z.mod_small by lia.
    by rewrite <- !app_assoc. }
  assert (Hf : Forall is_u32 [MSG_PACKET; ml; 36; zlen frame; 0; 0; 0; 0; 0; 0; 0])
    by forall_u32.
  assert (Hl : zlen (message frame al ++ rest) = ml + zlen rest)
    by (rewrite zlen_app; by rewrite zlen_message).
  pose proof (zlen_nonneg rest).
  assert (Hw : forall i x, 0 <= i < 11 ->
    nthZ [MSG_PACKET; ml; 36; zlen frame; 0; 0; 0; 0; 0; 0; 0] i = x ->
    u32_at (message frame al ++ rest) (4 * i) = Ok x).
  { intros i x Hi <-. rewrite Hsp. by apply u32_at_words. }
  unfold next, DATA_HEADER_LEN. rewrite Hl. zcases. unfold next_frame.
  pose proof (Hw 0 _ ltac:(lia) eq_refl) as E0. pose proof (Hw 1 _ ltac:(lia) eq_refl) as E1.
  pose proof (Hw 2 _ ltac:(lia) eq_refl) as E2. pose proof (Hw 3 _ ltac:(lia) eq_refl) as E3.
  change (u32_at (message frame al ++ rest) 0 = Ok MSG_PACKET) in E0.
  change (u32_at (message frame al ++ rest) 4 = Ok ml) in E1.
  change (u32_at (message frame al ++ rest) 8 = Ok 36) in E2.
  change (u32_at (message frame al ++ rest) 12 = Ok (zlen frame)) in E3.
  rewrite E0, E1, E2, E3.
  cbn [mbind outcome_bind]. rewrite Z.eqb_refl. cbn [negb].
  unfold DATA_HEADER_LEN. rewrite Hl. zcases. unfold checked_add_usize, OFFSET_BASE.
  rewrite (proj2 (Z.ltb_lt (8 + 36) _)), (proj2 (Z.ltb_lt (8 + 36 + zlen frame) _)) by lia.
  cbn [ok_or mbind outcome_bind]. zcases.
  rewrite !slice_ok by lia. cbn [mbind outcome_bind mret outcome_ret].
  rewrite Hsp at 1. rewrite sub_mid by (rewrite zlen_words; change (4 * zlen _) with 44; lia).
  by rewrite sub_suffix by (rewrite zlen_message; lia).
Qed.

(** More fuel than bytes changes nothing. *)
Lemma next_shrinks buf item rest :
  next buf = (Some item, rest) -> (length rest < length buf)%nat.
Proof.
  unfold next, DATA_HEADER_LEN. destruct (Z.ltb_spec (zlen buf) 44) as [|Hl]; [done|].
  assert (Hz : zlen buf <> 0) by lia.
  assert (Hn : (0 < length buf)%nat) by (unfold zlen in Hz; lia).
  destruct (next_frame buf) as [[f r]| |] eqn:E; intros [= <- <-]; cbn; try done.
  unfold next_frame in E. inv_bind E. destruct (negb _); [done|].
  do 3 inv_bind E.
  destruct (a0 <? DATA_HEADER_LEN) eqn:Eml; [done|]. apply Z.ltb_ge in Eml.
  unfold DATA_HEADER_LEN in Eml. destruct (zlen buf <? a0) eqn:Eb; [done|]. cbn [orb] in E.
  inv_bind E. destruct (a0 <? a3); [done|]. do 2 inv_bind E.
  injection E as <- <-. rewrite slice_ok in E6 by lia. injection E6 as <-.
  pose proof (sub_length buf a0 (zlen buf) ltac:(lia) ltac:(lia)) as Hs. unfold zlen in *. lia.
Qed.

Lemma drain_fuel n buf : (length buf <= n)%nat -> drain n buf = decode buf.
Proof.
  unfold decode. remember (length buf) as k eqn:Hk. revert buf n Hk.
  induction k as [k IH] using lt_wf_ind. intros buf n Hk Hn.
  destruct k as [|k].
  { destruct buf; [|done]. by destruct n. }
  destruct n as [|n]; [lia|]. cbn [drain].
  destruct (next buf) as [[item|] rest] eqn:E; [|done].
  apply next_shrinks in E. f_equal.
  rewrite (IH (length rest)); [|lia|done|lia].
  symmetry. apply (IH (length rest)); [lia|done|lia].
Qed.

(** The equation of the consuming loop. *)
Lemma decode_unfold buf :
  decode buf =
    match next buf with
    | (None, _) => []
    | (Some item, rest) => item :: decode rest
    end.
Proof.
  unfold decode at 1. destruct (length buf) as [|n] eqn:E.
  - by destruct buf.
  - cbn [drain]. destruct (next buf) as [[item|] rest] eqn:En; [|done].
    f_equal. apply drain_fuel. apply next_shrinks in En. lia.
Qed.

(** The transfer [append] builds from an empty one. *)
Definition pack (al : Z) (frames : list (list Z)) : list Z :=
  foldl (fun out f => append out f al) [] frames.

Lemma pack_messages al frames : pack al frames = concat (map (fun f => message f al) frames).
Proof.
  unfold pack.
  assert (Hb : forall out, foldl (fun out f => append out f al) out frames =
                 out ++ concat (map (fun f => message f al) frames)).
  { induction frames as [|f fs IH]; intros out; cbn [foldl map concat].
    - by rewrite app_nil_r.
    - by rewrite IH, append_message, <- app_assoc. }
  by rewrite Hb.
Qed.

Lemma pack_snoc al frames f : pack al (frames ++ [f]) = append (pack al frames) f al.
Proof. unfold pack. by rewrite foldl_app. Qed.

Lemma decode_pack frames al pad :
  0 <= al -> Forall (frame_ok al) frames -> zlen pad < DATA_HEADER_LEN ->
  let buf := pack al frames in
  decode (buf ++ pad) = map Ok frames /\ zlen buf mod Z.max al 1 = 0.
Proof.
  intros Hal Hok Hpad. cbv zeta. rewrite pack_messages. split.
  - induction Hok as [|f fs Hf _ IH]; cbn [map concat app].
    + rewrite decode_unfold. unfold next. by zcases.
    + rewrite <- app_assoc, decode_unfold, next_message by done. by rewrite IH.
  - clear. induction frames as [|f fs IH]; cbn [map concat].
    + by rewrite Z.mod_0_l by lia.
    + rewrite zlen_app, zlen_message. rewrite Z.add_mod, IH, message_len_mod by (lia || apply zlen_nonneg).
      by rewrite Z.mod_0_l by lia.
Qed.

(** ** Properties *)

(** C20. The frames that [append] packed into one transfer, at any alignment, come
    out of [decode] in order and unchanged; up to 43 bytes of trailing padding
    are ignored, and every message starts on an alignment boundary. *)
Theorem decode_appends frames al pad :
  0 <= al -> Forall (frame_ok al) frames -> zlen pad < DATA_HEADER_LEN ->
  let buf := foldl (fun out f => append out f al) [] frames in
  decode (buf ++ pad) = map Ok frames /\ zlen buf mod Z.max al 1 = 0.
Proof. intros. by apply decode_pack. Qed.

Lemma decode_appends_witness :
  decode (foldl (fun out f => append out f 8) [] [[1; 2; 3]; [4]] ++ [0; 0; 0; 0; 0])
  = [Ok [1; 2; 3]; Ok [4]].
Proof.
  refine (proj1 (decode_appends [[1; 2; 3]; [4]] 8 [0; 0; 0; 0; 0] _ _ _)); [lia| |reflexivity].
  repeat constructor; vm_compute; reflexivity.
Defined.

(** What one step of the iterator may do: stop on less than a header; fail on
    the first message; or yield a slice of that message and step over it. *)
Definition step_ok (buf : list Z) (r : option (outcome Error (list Z)) * list Z) : Prop :=
  match r with
  | (None, rest) => zlen buf < DATA_HEADER_LEN /\ rest = []
  | (Some (Ok frame), rest) =>
      exists i j ml, 8 <= i <= j /\ j <= ml /\ DATA_HEADER_LEN <= ml <= zlen buf /\
        word buf 0 = MSG_PACKET /\ ml = word buf 4 /\ j - i = word buf 12 /\
        frame = sub buf i j /\ rest = sub buf ml (zlen buf)
  | (Some (Err e), rest) => rest = [] /\ DATA_HEADER_LEN <= zlen buf
  | (Some Panic, _) => False
  end.

Lemma next_ok buf : bytes_ok buf -> step_ok buf (next buf).
Proof.
  intros Hok. pose proof (word_bound buf 8 Hok) as B8. pose proof (word_bound buf 12 Hok) as B12.
  unfold is_u32 in *. unfold next.
  destruct (Z.ltb_spec (zlen buf) DATA_HEADER_LEN) as [|Hl]; [done|].
  unfold next_frame. unfold DATA_HEADER_LEN in Hl.
  rewrite (u32_at_ok buf 0), (u32_at_ok buf 4), (u32_at_ok buf 8), (u32_at_ok buf 12) by lia.
  cbn [mbind outcome_bind].
  destruct (Z.eqb_spec (word buf 0) MSG_PACKET); cbn [negb]; [|done].
  destruct (_ || _) eqn:Eml; [done|]. apply orb_false_iff in Eml as [Ea Eb].
  apply Z.ltb_ge in Ea, Eb. unfold DATA_HEADER_LEN in Ea.
  unfold checked_add_usize, OFFSET_BASE.
  rewrite (proj2 (Z.ltb_lt (8 + word buf 8) _)) by lia.
  rewrite (proj2 (Z.ltb_lt (8 + word buf 8 + word buf 12) _)) by lia.
  cbn [ok_or mbind outcome_bind].
  destruct (Z.ltb_spec (word buf 4) (8 + word buf 8 + word buf 12)); [done|].
  rewrite !slice_ok by lia. cbn [mbind outcome_bind mret outcome_ret step_ok].
  exists (8 + word buf 8), (8 + word buf 8 + word buf 12), (word buf 4).
  unfold DATA_HEADER_LEN. repeat split; (done || lia).
Qed.

(** The frames a decode yields, before any error. *)
Definition oks (items : list (outcome Error (list Z))) : list (list Z) :=
  omap (fun r => match r with Ok f => Some f | _ => None end) items.

Lemma oks_prefix frames tail :
  (tail = [] \/ exists e, tail = [Err e]) -> oks (map Ok frames ++ tail) = frames.
Proof.
  intros Ht. unfold oks. induction frames as [|f fs IH]; cbn.
  - by destruct Ht as [-> | [e ->]].
  - f_equal. exact IH.
Qed.

Lemma decode_total buf :
  bytes_ok buf ->
  exists frames tail,
    decode buf = map Ok frames ++ tail /\
    (tail = [] \/ exists e, tail = [Err e]) /\
    Forall bytes_ok frames /\
    DATA_HEADER_LEN * zlen (decode buf) <= zlen buf.
Proof.
  remember (length buf) as n eqn:Hn. revert buf Hn.
  induction n as [n IH] using lt_wf_ind. intros buf -> Hok.
  pose proof (next_ok buf Hok) as Hs. rewrite decode_unfold.
  destruct (next buf) as [[item|] rest] eqn:En.
  2: { exists [], []. pose proof (zlen_nonneg buf). repeat split; [by left|constructor|zl]. }
  pose proof (next_shrinks _ _ _ En) as Hlt.
  destruct item as [f|e|]; cbn [step_ok] in Hs; [| |done].
  - destruct Hs as (i & j & ml & ? & ? & Hml & ? & ? & ? & -> & ->).
    destruct (IH _ Hlt _ eq_refl) as (fs & tl & E & Ht & Hfs & Hb); [by apply bytes_ok_sub|].
    exists (sub buf i j :: fs), tl. rewrite E. repeat split; try done.
    + constructor; [by apply bytes_ok_sub|done].
    + rewrite zlen_cons, <- E. unfold DATA_HEADER_LEN in *.
      rewrite sub_length in Hb by lia. lia.
  - destruct Hs as [-> Hl]. exists [], [Err e].
    change (decode []) with (@nil (outcome Error (list Z))). repeat split; [|constructor|].
    + right. by eexists.
    + zl.
Qed.

(** C21. On any transfer the decoder terminates without panicking; an error ends the
    sequence; and there are no more items than 44-byte headers fit in the
    transfer. *)
Theorem decode_safe buf :
  bytes_ok buf ->
  exists frames tail,
    decode buf = map Ok frames ++ tail /\
    (tail = [] \/ exists e, tail = [Err e]) /\
    Forall bytes_ok frames /\
    DATA_HEADER_LEN * zlen (decode buf) <= zlen buf.
Proof. apply decode_total. Qed.

Lemma decode_safe_witness :
  exists frames tail,
    decode (message [9; 9] 1 ++ replicate 44 1) = map Ok frames ++ tail /\
    (tail = [] \/ exists e, tail = [Err e]) /\
    Forall bytes_ok frames /\
    DATA_HEADER_LEN * zlen (decode (message [9; 9] 1 ++ replicate 44 1))
      <= zlen (message [9; 9] 1 ++ replicate 44 1).
Proof.
  apply decode_safe, bytes_okb_ok. by vm_compute.
Defined.

End Packet.
