(* ===== verification/Control.v ===== *)
(** * The RNDIS control channel

    [src/rndis/control.rs]: transactions over a [ControlTransport], the bring-up
    sequence, keepalives and request ids. The transport is a class, as in the
    source; [Clock] is [Instant::now], read from the same world. The loop of
    [transact] runs on fuel, and [None] is "not finished yet": the theorems
    show how much fuel is enough. *)
From Stdlib Require Import ZArith Lia.
From stdpp Require Import base numbers list strings.
From S2P Require Import Prelude Wire.

Open Scope Z_scope.

Module Control.

Import Wire.

Definition TRANSACTION_TIMEOUT : Z := from_secs 5.

Definition POLL_INTERVAL : Z := from_millis 50.

Definition HOST_MAX_TRANSFER_SIZE : Z := 16384.

(** The USB control endpoint, as the RNDIS layer needs it. *)
Class ControlTransport (T : Type) : Type :=
  { send : list Z -> T -> outcome Error unit * T;
    receive : T -> outcome Error (list Z) * T;
    await_response : Z -> T -> outcome Error unit * T }.

Inductive LinkState : Type := Unknown | Up | Down.

#[export] Instance LinkState_eq_dec : EqDecision LinkState.
Proof. solve_decision. Defined.

(** What the device told us during bring-up. *)
Record Session : Type := mkSession
  { host_mac : list Z; device_max_transfer_size : Z; s_max_packets_per_transfer : Z;
    s_packet_alignment : Z }.

Record Rndis (T : Type) : Type := mkRndis
  { transport : T; next_request_id : Z; link : LinkState }.

Arguments mkRndis {T} _ _ _.
Arguments transport {T} _.
Arguments next_request_id {T} _.
Arguments link {T} _.

(** ** Methods on [&mut self] that return a [Result] *)

Definition M (T A : Type) : Type := Rndis T -> option (outcome Error A * Rndis T).

#[export] Instance M_ret T : MRet (M T) := fun A a r => Some (Ok a, r).

(** [?]: an error or a panic leaves the method with the state reached. *)
#[export] Instance M_bind T : MBind (M T) := fun A B f m r =>
  match m r with
  | None => None
  | Some (Ok a, r) => f a r
  | Some (Err e, r) => Some (Err e, r)
  | Some (Panic, r) => Some (Panic, r)
  end.

Definition of_outcome {T A} (o : outcome Error A) : M T A := fun r => Some (o, r).

(** A call on [self.transport]. *)
Definition on_transport {T A} (f : T -> outcome Error A * T) : M T A := fun r =>
  let '(o, t) := f (transport r) in Some (o, mkRndis t (next_request_id r) (link r)).

Definition get_link {T} : M T LinkState := fun r => Some (Ok (link r), r).

Definition set_link {T} (l : LinkState) : M T unit := fun r =>
  Some (Ok tt, mkRndis (transport r) (next_request_id r) l).

(** [match m { Ok(..) => .., Err(..) => .. }] *)
Definition attempt {T A} (m : M T A) : M T (Error + A) := fun r =>
  match m r with
  | None => None
  | Some (Ok a, r) => Some (Ok (inr a), r)
  | Some (Err e, r) => Some (Ok (inl e), r)
  | Some (Panic, r) => Some (Panic, r)
  end.

Definition new {T} (t : T) : Rndis T := mkRndis t 1 Unknown.

Definition link_state {T} (r : Rndis T) : LinkState := link r.

(** [self.next_request_id.wrapping_add(1).max(1)] *)
Definition following_id (id : Z) : Z := Z.max (as_u32 (id + 1)) 1.

Definition take_request_id {T} : M T Z := fun r =>
  let id := next_request_id r in
  Some (Ok id, mkRndis (transport r) (following_id id) (link r)).

Section control.
Context {T : Type} `{ControlTransport T} `{Clock T}.

Definition instant_now : M T Z := on_transport (fun t => let '(n, t) := now t in (Ok n, t)).

(** Link-state changes, and the device's keepalive pings, which are answered. *)
Definition handle_unsolicited (msg_type : Z) (reply : list Z) : M T unit :=
  if msg_type =? MSG_INDICATE then
    status ← of_outcome (decode_indicate_status reply);
    l ← get_link;
    set_link (if status =? STATUS_MEDIA_CONNECT then Up
              else if status =? STATUS_MEDIA_DISCONNECT then Down else l)
  else if msg_type =? MSG_KEEPALIVE then
    id ← of_outcome (u32_at reply 8);
    on_transport (send (encode_keepalive_complete id))
  else mret tt.

(** [while Instant::now() < deadline { .. }] of [transact] *)
Fixpoint transact_loop (fuel : nat) (deadline expect request_id : Z) : M T (list Z) :=
  match fuel with
  | O => fun _ => None
  | S fuel =>
      n ← instant_now;
      if negb (n <? deadline) then of_outcome (Err NoResponse) else
      _ ← on_transport (await_response POLL_INTERVAL);
      reply ← on_transport receive;
      if zlen reply <? 12 then transact_loop fuel deadline expect request_id else
      msg_type ← of_outcome (u32_at reply 0);
      if msg_type =? expect then
        c ← of_outcome (decode_completion reply);
        if fst c =? request_id then mret reply
        else transact_loop fuel deadline expect request_id
      else
        _ ← handle_unsolicited msg_type reply;
        transact_loop fuel deadline expect request_id
  end.

(** Send a command and wait for its matching completion. *)
Definition transact (fuel : nat) (msg : list Z) (expect request_id : Z) : M T (list Z) :=
  _ ← on_transport (send msg);
  n ← instant_now;
  transact_loop fuel (n + TRANSACTION_TIMEOUT) expect request_id.

Definition initialize (fuel : nat) : M T InitComplete :=
  id ← take_request_id;
  reply ← transact fuel (encode_init id HOST_MAX_TRANSFER_SIZE) MSG_INIT_C id;
  init ← of_outcome (decode_init_complete reply);
  if negb (status init =? STATUS_SUCCESS) then of_outcome (Err (Status (status init))) else
  if max_transfer_size init =? 0
  then of_outcome (Err (Malformed "device advertised a zero transfer size"))
  else mret init.

Definition query (fuel : nat) (oid : Z) : M T (list Z) :=
  id ← take_request_id;
  reply ← transact fuel (encode_query id oid) MSG_QUERY_C id;
  c ← of_outcome (decode_query_complete reply);
  let '(_, status, info) := c in
  if negb (status =? STATUS_SUCCESS) then of_outcome (Err (Status status)) else mret info.

(** The [for oid in [..]] of [query_mac] *)
Fixpoint query_mac_loop (fuel : nat) (oids : list Z) : M T (list Z) :=
  match oids with
  | [] => of_outcome (Err (Malformed "device did not report a usable MAC"))
  | oid :: oids =>
      r ← attempt (query fuel oid);
      match r with
      | inr info =>
          if 6 <=? zlen info then
            first6 ← of_outcome (info.[0 ..< 6]);
            mac ← of_outcome (copy_from_slice [0; 0; 0; 0; 0; 0] 0 6 first6);
            if negb (bool_decide (mac = [0; 0; 0; 0; 0; 0])) then mret mac
            else query_mac_loop fuel oids
          else query_mac_loop fuel oids
      | inl _ => query_mac_loop fuel oids
      end
  end.

Definition query_mac (fuel : nat) : M T (list Z) :=
  query_mac_loop fuel [OID_802_3_PERMANENT_ADDRESS; OID_802_3_CURRENT_ADDRESS].

Definition set (fuel : nat) (oid : Z) (data : list Z) : M T unit :=
  id ← take_request_id;
  reply ← transact fuel (encode_set id oid data) MSG_SET_C id;
  c ← of_outcome (decode_completion reply);
  if negb (snd c =? STATUS_SUCCESS) then of_outcome (Err (Status (snd c))) else mret tt.

Definition keepalive (fuel : nat) : M T unit :=
  id ← take_request_id;
  reply ← transact fuel (encode_keepalive id) MSG_KEEPALIVE_C id;
  c ← of_outcome (decode_completion reply);
  if negb (snd c =? STATUS_SUCCESS) then of_outcome (Err (Status (snd c))) else mret tt.

(** Best-effort shutdown; the device has no completion for HALT. *)
Definition halt : M T unit :=
  id ← take_request_id;
  on_transport (send (encode_halt id)).

(** INITIALIZE, learn the MAC, set the packet filter. *)
Definition bring_up (fuel : nat) : M T Session :=
  init ← initialize fuel;
  mac ← query_mac fuel;
  _ ← set fuel OID_GEN_CURRENT_PACKET_FILTER (to_le32 DEFAULT_PACKET_FILTER);
  l ← get_link;
  _ ← (if bool_decide (l = Unknown) then set_link Up else mret tt);
  mret (mkSession mac (max_transfer_size init) (Z.max (max_packets_per_transfer init) 1)
          (Z.max (packet_alignment init) 1)).

End control.

Lemma bind_ok {T A B} (m : M T A) (f : A -> M T B) r a r' :
  m r = Some (Ok a, r') -> (m ≫= f) r = f a r'.
Proof. intros E. unfold mbind, M_bind. by rewrite E. Qed.

(** Executes the calls at the head of a method on a concrete transport. *)
Ltac step_m := erewrite bind_ok by reflexivity.

(** ** What a transport promises

    No operation panics, what is received is bytes, the clock never runs
    backwards, and waiting for a response and then reading it takes some time. *)
Class TransportLaws (T : Type) `{ControlTransport T} `{Clock T} : Type :=
  { clock : T -> Z;
    wait_time : Z;
    transfer_time : Z;
    wait_time_nonneg : 0 <= wait_time;
    transfer_time_nonneg : 0 <= transfer_time;
    iteration_pos : 0 < wait_time + transfer_time;
    now_reads t : fst (now t) = clock t /\ clock t <= clock (snd (now t));
    send_law msg t : fst (send msg t) <> Panic /\ clock t <= clock (snd (send msg t));
    await_law t : fst (await_response POLL_INTERVAL t) <> Panic /\
      clock t + wait_time <= clock (snd (await_response POLL_INTERVAL t));
    receive_law t :
      clock t + transfer_time <= clock (snd (receive t)) /\
      match fst (receive t) with
      | Ok b => bytes_ok b
      | Err _ => True
      | Panic => False
      end }.

(** ** Reasoning about methods *)

Section laws.
Context {T : Type} `{TransportLaws T}.

Definition id_ok (id : Z) : Prop := 1 <= id < 4294967296.

(** What every method respects: time passes, a known link state is not
    forgotten, request ids stay non-zero. *)
Definition follows (r r' : Rndis T) : Prop :=
  clock (transport r) <= clock (transport r') /\
  (link r <> Unknown -> link r' <> Unknown) /\
  (id_ok (next_request_id r) -> id_ok (next_request_id r')).

#[export] Instance follows_preorder : PreOrder follows.
Proof.
  split; [by intros r; split|]. intros r1 r2 r3 (? & ? & ?) (? & ? & ?).
  split; [lia|]. split; auto.
Qed.

(** The method finishes, does not panic, and its value satisfies [P]. *)
Definition runs {A} (m : M T A) (r : Rndis T) (P : A -> Rndis T -> Prop) : Prop :=
  exists o r', m r = Some (o, r') /\ follows r r' /\
    match o with Ok a => P a r' | Err _ => True | Panic => False end.

Lemma runs_ret {A} (a : A) r (P : A -> Rndis T -> Prop) : P a r -> runs (mret a) r P.
Proof. intros. by exists (Ok a), r. Qed.

Lemma runs_bind {A B} (m : M T A) (f : A -> M T B) r P Q :
  runs m r P -> (forall a r', follows r r' -> P a r' -> runs (f a) r' Q) ->
  runs (m ≫= f) r Q.
Proof.
  intros (o & r' & E & Hf & Ho) Hk. unfold runs, mbind, M_bind. rewrite E.
  destruct o as [a|e|]; [| |done].
  - destruct (Hk a r' Hf Ho) as (o2 & r2 & E2 & Hf2 & Ho2). rewrite E2.
    exists o2, r2. split; [done|]. split; [by etrans|done].
  - exists (Err e), r'. done.
Qed.

Lemma runs_mono {A} (m : M T A) r (P Q : A -> Rndis T -> Prop) :
  runs m r P -> (forall a r', P a r' -> Q a r') -> runs m r Q.
Proof.
  intros (o & r' & E & Hf & Ho) HPQ. exists o, r'. split; [done|]. split; [done|].
  destruct o; auto.
Qed.

Lemma runs_outcome {A} (o : outcome Error A) r (P : A -> Rndis T -> Prop) :
  match o with Ok a => P a r | Err _ => True | Panic => False end ->
  runs (of_outcome o) r P.
Proof. intros. by exists o, r. Qed.

Lemma runs_err {A} e r (P : A -> Rndis T -> Prop) : runs (of_outcome (Err e)) r P.
Proof. by apply runs_outcome. Qed.

Lemma runs_attempt {A} (m : M T A) r P :
  runs m r P -> runs (attempt m) r (fun x r' => match x with inr a => P a r' | _ => True end).
Proof.
  intros (o & r' & E & Hf & Ho). unfold attempt, runs. rewrite E.
  destruct o as [a|e|]; [| |done]; (eexists _, r'; split; [done|by split]).
Qed.

Lemma runs_send msg r (P : unit -> Rndis T -> Prop) :
  (forall r', P tt r') -> runs (on_transport (send msg)) r P.
Proof.
  intros HP. unfold runs, on_transport. destruct (send_law msg (transport r)) as [Hp Hc].
  destruct (send msg (transport r)) as [o t]. cbn in *.
  eexists _, _. split; [done|]. split; [by split|]. by destruct o as [[]| |].
Qed.

Lemma runs_await r :
  runs (on_transport (await_response POLL_INTERVAL)) r (fun _ r' =>
    clock (transport r) + wait_time <= clock (transport r')).
Proof.
  unfold runs, on_transport. destruct (await_law (transport r)) as [Hp Hc].
  destruct (await_response POLL_INTERVAL (transport r)) as [o t]. cbn in *. pose proof wait_time_nonneg.
  eexists _, _. split; [done|]. split; [split; [cbn; lia|by split]|]. by destruct o.
Qed.

Lemma runs_receive r :
  runs (on_transport receive) r (fun b r' => bytes_ok b /\
    clock (transport r) + transfer_time <= clock (transport r')).
Proof.
  unfold runs, on_transport. destruct (receive_law (transport r)) as [Hc Hb].
  destruct (receive (transport r)) as [o t]. cbn in *. pose proof transfer_time_nonneg.
  eexists _, _. split; [done|]. split; [split; [cbn; lia|by split]|]. by destruct o.
Qed.

Lemma runs_now r :
  runs instant_now r (fun n r' => n = clock (transport r) /\ n <= clock (transport r')).
Proof.
  unfold runs, instant_now, on_transport. destruct (now_reads (transport r)) as [Hn Hc].
  destruct (now (transport r)) as [n t]. cbn in *. subst n.
  eexists _, _. split; [done|]. by split; [split|].
Qed.

Lemma following_id_ok id : id_ok id -> id_ok (following_id id).
Proof.
  unfold id_ok, following_id, as_u32. intros.
  pose proof (Z.mod_pos_bound (id + 1) 4294967296 ltac:(lia)). lia.
Qed.

Lemma runs_take r : runs take_request_id r (fun id _ => id = next_request_id r).
Proof.
  eexists _, _. split; [done|]. split; [|done].
  split; [done|]. split; [done|]. apply following_id_ok.
Qed.

Lemma runs_unsolicited t reply r :
  12 <= zlen reply -> runs (handle_unsolicited t reply) r (fun _ _ => True).
Proof.
  intros. unfold handle_unsolicited. destruct (t =? MSG_INDICATE).
  - eapply runs_bind.
    { apply (runs_outcome _ _ (fun _ _ => True)). unfold decode_indicate_status.
      by rewrite u32_at_ok by lia. }
    intros st r1 _ _. eapply (runs_bind get_link _ _ (fun l r' => l = link r')).
    { by eexists (Ok _), _. }
    intros l r2 _ ->. eexists (Ok _), _. split; [done|]. split; [|done].
    split; [done|]. split; [|done]. cbn. intros. by repeat case_match.
  - destruct (t =? MSG_KEEPALIVE); [|by apply runs_ret].
    eapply runs_bind.
    { apply (runs_outcome _ _ (fun _ _ => True)). by rewrite u32_at_ok by lia. }
    intros. by apply runs_send.
Qed.

(** A reply that [transact] may return for a request. *)
Definition answers (expect request_id : Z) (reply : list Z) : Prop :=
  bytes_ok reply /\ 16 <= zlen reply /\ word reply 0 = expect /\ word reply 8 = request_id.

Lemma runs_completion reply r :
  12 <= zlen reply ->
  runs (of_outcome (decode_completion reply)) r (fun c r' =>
    c = (word reply 8, word reply 12) /\ 16 <= zlen reply /\ r' = r).
Proof.
  intros. apply runs_outcome. unfold decode_completion. rewrite (u32_at_ok _ 8) by lia.
  cbn [mbind outcome_bind]. by u32s.
Qed.

Lemma runs_loop fuel deadline expect id r :
  (1 <= fuel)%nat -> deadline - clock (transport r) <= (Z.of_nat fuel - 1) * (wait_time + transfer_time) ->
  runs (transact_loop fuel deadline expect id) r (fun reply _ => answers expect id reply).
Proof.
  pose proof iteration_pos as Htt. pose proof wait_time_nonneg as Hw0.
  pose proof transfer_time_nonneg as Ht0.
  revert r. induction fuel as [|fuel IH]; intros r Hf Hd; [lia|]. cbn [transact_loop].
  eapply runs_bind; [apply runs_now|]. intros n r1 _ [-> Hc1].
  destruct (Z.ltb_spec (clock (transport r)) deadline); cbn [negb]; [|apply runs_err].
  eapply runs_bind; [apply runs_await|]. intros [] r2 _ Hc2.
  eapply runs_bind; [apply runs_receive|]. intros reply r3 _ [Hb Hc3].
  assert (Hnext : forall r', follows r3 r' ->
    runs (transact_loop fuel deadline expect id) r' (fun reply _ => answers expect id reply)).
  { intros r' (Hc4 & _ & _). apply IH; nia. }
  destruct (Z.ltb_spec (zlen reply) 12); [by apply Hnext|].
  rewrite u32_at_ok by lia.
  eapply (runs_bind _ _ _ (fun t r' => t = word reply 0 /\ r' = r3)); [by apply runs_outcome|].
  intros t r4 _ [-> ->]. destruct (Z.eqb_spec (word reply 0) expect) as [Ht|Ht].
  - eapply runs_bind; [apply runs_completion; lia|].
    intros c r5 _ (-> & Hl & ->). cbn [fst].
    destruct (Z.eqb_spec (word reply 8) id) as [Hi|Hi]; [|by apply Hnext].
    apply runs_ret. done.
  - eapply runs_bind; [apply runs_unsolicited; lia|]. intros _ r5 Hf5 _. by apply Hnext.
Qed.

(** Fuel for one transaction: an iteration per transfer that fits the timeout,
    and one to notice that it is over. *)
Definition fuel_ok (fuel : nat) : Prop :=
  TRANSACTION_TIMEOUT <= (Z.of_nat fuel - 1) * (wait_time + transfer_time).

Lemma runs_transact fuel msg expect id r :
  fuel_ok fuel -> runs (transact fuel msg expect id) r (fun reply _ => answers expect id reply).
Proof.
  pose proof iteration_pos. unfold fuel_ok. intros Hf.
  assert (0 < TRANSACTION_TIMEOUT) by done.
  unfold transact. eapply (runs_bind _ _ _ (fun _ _ => True)); [by apply runs_send|].
  intros _ r1 _ _. eapply runs_bind; [apply runs_now|]. intros n r2 _ [-> Hc].
  apply runs_loop; [|lia].
  destruct fuel; [lia|]. lia.
Qed.

Lemma runs_initialize fuel r :
  fuel_ok fuel ->
  runs (initialize fuel) r (fun init _ => status init = STATUS_SUCCESS /\
    0 < max_transfer_size init < 4294967296 /\
    exists k, 0 <= k < 8 /\ packet_alignment init = 2 ^ k).
Proof.
  intros Hf. unfold initialize.
  eapply runs_bind; [apply runs_take|]. intros id r1 _ _.
  eapply runs_bind; [by apply runs_transact|]. intros reply r2 _ (Hb & _).
  eapply (runs_bind _ _ _ (fun c _ => max_transfer_size c = word reply 36 /\
    exists k, 0 <= k < 8 /\ packet_alignment c = 2 ^ k)).
  { apply runs_outcome. pose proof (decode_init_ok reply Hb) as Hd.
    destruct (decode_init_complete reply) as [c|e|]; [|done|done].
    destruct Hd as (_ & _ & ? & _ & k & ? & ? & _). split; [done|]. by exists k. }
  intros c r3 _ [Hm Hk]. destruct (Z.eqb_spec (status c) STATUS_SUCCESS); cbn [negb];
    [|apply runs_err].
  destruct (Z.eqb_spec (max_transfer_size c) 0); [apply runs_err|].
  apply runs_ret. pose proof (word_bound reply 36 Hb) as Hw. unfold is_u32 in Hw.
  repeat split; try done; lia.
Qed.

Lemma runs_query fuel oid r :
  fuel_ok fuel -> runs (query fuel oid) r (fun info _ => bytes_ok info).
Proof.
  intros Hf. unfold query.
  eapply runs_bind; [apply runs_take|]. intros id r1 _ _.
  eapply runs_bind; [by apply runs_transact|]. intros reply r2 _ (Hb & _).
  eapply (runs_bind _ _ _ (fun c _ => bytes_ok (snd c))).
  { apply runs_outcome. pose proof (decode_query_ok reply Hb) as Hd.
    destruct (decode_query_complete reply) as [[[i st] info]|e|]; [|done|done].
    destruct Hd as (_ & _ & _ & _ & Hn & Hs). cbn [snd].
    destruct (decide (st = STATUS_SUCCESS)) as [E|E].
    - destruct (Hs E) as [_ ->]. by apply bytes_ok_sub.
    - rewrite (Hn E). constructor. }
  intros [[i st] info] r3 _ Hi. destruct (negb _); [apply runs_err|by apply runs_ret].
Qed.

(** A MAC the bring-up accepts. *)
Definition usable_mac (mac : list Z) : Prop :=
  bytes_ok mac /\ zlen mac = 6 /\ mac <> [0; 0; 0; 0; 0; 0].

Lemma runs_query_mac fuel r :
  fuel_ok fuel -> runs (query_mac fuel) r (fun mac _ => usable_mac mac).
Proof.
  intros Hf. unfold query_mac.
  generalize [OID_802_3_PERMANENT_ADDRESS; OID_802_3_CURRENT_ADDRESS]. intros oids.
  revert r. induction oids as [|oid oids IH]; intros r; cbn [query_mac_loop]; [apply runs_err|].
  eapply runs_bind; [by apply runs_attempt, runs_query|].
  intros [e|info] r1 _ Hi; [apply IH|].
  destruct (Z.leb_spec 6 (zlen info)); [|apply IH].
  rewrite slice_ok by lia.
  eapply (runs_bind _ _ _ (fun s _ => s = sub info 0 6)); [by apply runs_outcome|].
  intros s r2 _ ->. pose proof (sub_length info 0 6 ltac:(lia) ltac:(lia)) as Hl.
  eapply (runs_bind _ _ _ (fun m _ => m = sub info 0 6)).
  { apply runs_outcome. pose proof (@copy_from_slice_app Error [] [0; 0; 0; 0; 0; 0] []
      (sub info 0 6) 0 6 eq_refl eq_refl Hl) as E.
    rewrite app_nil_r in E. cbn [app] in E. rewrite E. by rewrite app_nil_r. }
  intros m r3 _ ->. destruct (bool_decide_reflect (sub info 0 6 = [0; 0; 0; 0; 0; 0]));
    cbn [negb]; [apply IH|]. apply runs_ret. split; [by apply bytes_ok_sub|]. by split.
Qed.

Lemma runs_set fuel oid data r : fuel_ok fuel -> runs (set fuel oid data) r (fun _ _ => True).
Proof.
  intros Hf. unfold set.
  eapply runs_bind; [apply runs_take|]. intros id r1 _ _.
  eapply runs_bind; [by apply runs_transact|]. intros reply r2 _ (_ & Hl & _).
  eapply runs_bind; [apply runs_completion; lia|]. intros c r3 _ _.
  destruct (negb _); [apply runs_err|by apply runs_ret].
Qed.

(** What the data path relies on in a session. *)
Definition session_ok (s : Session) : Prop :=
  usable_mac (host_mac s) /\ 0 < device_max_transfer_size s < 4294967296 /\
  1 <= s_max_packets_per_transfer s /\
  exists k, 0 <= k < 8 /\ s_packet_alignment s = 2 ^ k.

Lemma runs_keepalive fuel r : fuel_ok fuel -> runs (keepalive fuel) r (fun _ _ => True).
Proof.
  intros Hf. unfold keepalive.
  eapply runs_bind; [apply runs_take|]. intros id r1 _ _.
  eapply runs_bind; [by apply runs_transact|]. intros reply r2 _ (_ & Hl & _).
  eapply runs_bind; [apply runs_completion; lia|]. intros c r3 _ _.
  destruct (negb _); [apply runs_err|by apply runs_ret].
Qed.

Lemma runs_halt r : runs halt r (fun _ _ => True).
Proof.
  unfold halt. eapply runs_bind; [apply runs_take|]. intros id r1 _ _. by apply runs_send.
Qed.

Lemma runs_bring_up fuel r :
  fuel_ok fuel -> runs (bring_up fuel) r (fun s r' => session_ok s /\ link r' <> Unknown).
Proof.
  intros Hf. unfold bring_up.
  eapply runs_bind; [by apply runs_initialize|]. intros init r1 _ (_ & Hm & k & Hk & Ha).
  eapply runs_bind; [by apply runs_query_mac|]. intros mac r2 _ Hmac.
  eapply runs_bind; [by apply runs_set|]. intros _ r3 _ _.
  eapply (runs_bind get_link _ _ (fun l r' => l = link r')); [by eexists (Ok _), _|].
  intros l r4 _ ->.
  eapply (runs_bind _ _ _ (fun _ r' => link r' <> Unknown)).
  { destruct (bool_decide_reflect (link r4 = Unknown)).
    - eexists (Ok _), _. split; [done|]. by split.
    - by apply runs_ret. }
  intros _ r5 _ Hl. apply runs_ret. split; [|done]. unfold session_ok.
  cbn [host_mac device_max_transfer_size s_max_packets_per_transfer s_packet_alignment].
  split; [done|]. split; [lia|]. split; [lia|].
  exists k. pose proof (Z.pow_pos_nonneg 2 k). split; lia.
Qed.

(** C5. A transaction over any lawful transport finishes without panicking, with
    fuel for one iteration per transfer that fits the five seconds; what it
    returns is the completion of this request: the expected type, this request
    id, a status word. Anything else the device says in between (short replies,
    stale completions, indications, pings) is never returned. *)
Theorem transact_finishes fuel msg expect id r :
  fuel_ok fuel ->
  exists o r', transact fuel msg expect id r = Some (o, r') /\
    match o with
    | Ok reply => bytes_ok reply /\ 16 <= zlen reply /\
                  word reply 0 = expect /\ word reply 8 = id
    | Err _ => True
    | Panic => False
    end.
Proof.
  intros Hf. destruct (runs_transact fuel msg expect id r Hf) as (o & r' & E & _ & Ho).
  by exists o, r'.
Qed.

(** C4. Bring-up finishes whatever the device does, and a session it returns is one
    the data path can use: a six-byte MAC that is not all zero, a non-zero
    transfer size, at least one packet per transfer, an alignment that is a
    power of two up to 128; and the link state is known. *)
Theorem bring_up_sound fuel r :
  fuel_ok fuel ->
  exists o r', bring_up fuel r = Some (o, r') /\
    match o with
    | Ok s => session_ok s /\ link r' <> Unknown
    | Err _ => True
    | Panic => False
    end.
Proof.
  intros Hf. destruct (runs_bring_up fuel r Hf) as (o & r' & E & _ & Ho). by exists o, r'.
Qed.

End laws.

(** ** Invariants of a transport

    Whatever every operation of the transport preserves, every method of the
    channel preserves. *)
Section keeps.
Context {T : Type} `{ControlTransport T} `{Clock T} (I : T -> Prop).

Definition transport_keeps : Prop := forall t, I t ->
  (forall msg, I (snd (send msg t))) /\ I (snd (receive t)) /\
  (forall d, I (snd (await_response d t))) /\ I (snd (now t)).

Context (Hkeeps : transport_keeps).

Definition keeps {A} (m : M T A) : Prop := forall r o r',
  I (transport r) -> m r = Some (o, r') -> I (transport r').

Lemma keeps_bind {A B} (m : M T A) (f : A -> M T B) :
  keeps m -> (forall a, keeps (f a)) -> keeps (m ≫= f).
Proof.
  intros Hm Hf r o r' HI. unfold mbind, M_bind.
  destruct (m r) as [[[a|e|] r1]|] eqn:E; intros Hr; simplify_eq; [|by eapply Hm..].
  eapply Hf; [|done]. by eapply Hm.
Qed.

Lemma keeps_ret {A} (a : A) : keeps (mret a).
Proof. intros r o r' HI E. by injection E as <- <-. Qed.

Lemma keeps_outcome {A} (o : outcome Error A) : keeps (of_outcome o).
Proof. intros r o' r' HI E. by injection E as <- <-. Qed.

Lemma keeps_stuck {A} : keeps (fun _ => None : option (outcome Error A * Rndis T)).
Proof. done. Qed.

Lemma keeps_transport {A} (f : T -> outcome Error A * T) :
  (forall t, I t -> I (snd (f t))) -> keeps (on_transport f).
Proof.
  intros Hf r o r' HI. unfold on_transport. specialize (Hf (transport r) HI).
  destruct (f (transport r)). intros E. by injection E as <- <-.
Qed.

Lemma keeps_send msg : keeps (on_transport (send msg)).
Proof. apply keeps_transport. intros t Ht. by apply Hkeeps. Qed.

Lemma keeps_receive : keeps (on_transport receive).
Proof. apply keeps_transport. intros t Ht. by apply Hkeeps. Qed.

Lemma keeps_await d : keeps (on_transport (await_response d)).
Proof. apply keeps_transport. intros t Ht. by apply Hkeeps. Qed.

Lemma keeps_now : keeps instant_now.
Proof.
  apply keeps_transport. intros t Ht. destruct (Hkeeps t Ht) as (_ & _ & _ & Hn).
  by destruct (now t).
Qed.

Lemma keeps_take_id : keeps take_request_id.
Proof. intros r o r' HI E. by injection E as <- <-. Qed.

Lemma keeps_get_link : keeps get_link.
Proof. intros r o r' HI E. by injection E as <- <-. Qed.

Lemma keeps_set_link l : keeps (set_link l).
Proof. intros r o r' HI E. by injection E as <- <-. Qed.

Lemma keeps_attempt {A} (m : M T A) : keeps m -> keeps (attempt m).
Proof.
  intros Hm r o r' HI. unfold attempt.
  destruct (m r) as [[[a|e|] r1]|] eqn:E; intros Hr; simplify_eq; by eapply Hm.
Qed.

Create HintDb keeps discriminated.
Hint Resolve keeps_bind keeps_ret keeps_outcome keeps_stuck keeps_send keeps_receive keeps_await
  keeps_now keeps_take_id keeps_get_link keeps_set_link keeps_attempt : keeps.

(** Follows a method's binds and branches. *)
Ltac keeps :=
  repeat match goal with
  | |- keeps (_ ≫= _) => apply keeps_bind; [|intros ?]
  | |- keeps (if ?c then _ else _) => destruct c
  | |- keeps (match ?p with _ => _ end) => destruct p
  end; auto with keeps.

Lemma keeps_unsolicited msg_type reply : keeps (handle_unsolicited msg_type reply).
Proof. unfold handle_unsolicited. keeps. Qed.
Hint Resolve keeps_unsolicited : keeps.

Lemma keeps_transact_loop fuel deadline expect id : keeps (transact_loop fuel deadline expect id).
Proof. induction fuel as [|fuel IH]; cbn [transact_loop]; keeps. Qed.
Hint Resolve keeps_transact_loop : keeps.

Lemma keeps_transact fuel msg expect id : keeps (transact fuel msg expect id).
Proof. unfold transact. keeps. Qed.
Hint Resolve keeps_transact : keeps.

Lemma keeps_initialize fuel : keeps (initialize fuel).
Proof. unfold initialize. keeps. Qed.

Lemma keeps_query fuel oid : keeps (query fuel oid).
Proof. unfold query. keeps. Qed.
Hint Resolve keeps_initialize keeps_query : keeps.

Lemma keeps_query_mac fuel : keeps (query_mac fuel).
Proof. unfold query_mac. cbn [query_mac_loop]. keeps. Qed.

Lemma keeps_set fuel oid data : keeps (set fuel oid data).
Proof. unfold set. keeps. Qed.
Hint Resolve keeps_query_mac keeps_set : keeps.

Lemma keeps_bring_up fuel : keeps (bring_up fuel).
Proof. unfold bring_up. keeps. Qed.

Lemma keeps_keepalive fuel : keeps (keepalive fuel).
Proof. unfold keepalive. keeps. Qed.

Lemma keeps_halt : keeps halt.
Proof. unfold halt. keeps. Qed.

End keeps.

(** ** A silent device

    The [Silent] device of the tests: it accepts every command and never says
    anything; waiting for it sleeps ten milliseconds at most. Its state is the
    clock. *)

Definition Silent : Type := Z.

#[export] Instance silent_transport : ControlTransport Silent :=
  { send := fun _ t => (Ok tt, t);
    receive := fun t => (Ok [], t);
    await_response := fun timeout t => (Ok tt, t + Z.min timeout (from_millis 10)) }.

#[export] Instance silent_clock : Clock Silent := fun t => (t, t).

#[export] Instance silent_laws : TransportLaws Silent.
Proof.
  refine {| clock := fun t : Silent => t; wait_time := from_millis 10; transfer_time := 0 |};
    try done; intros t; cbn -[from_millis]; unfold POLL_INTERVAL, from_millis;
    repeat split; try done; try lia.
  apply List.Forall_nil.
Defined.

Lemma transact_finishes_witness :
  exists o r',
  transact 501 (encode_init 1 HOST_MAX_TRANSFER_SIZE) MSG_INIT_C 1 (new (T := Silent) 0) =
    Some (o, r') /\
    match o with
    | Ok reply => bytes_ok reply /\ 16 <= zlen reply /\
                  word reply 0 = MSG_INIT_C /\ word reply 8 = 1
    | Err _ => True
    | Panic => False
    end.
Proof. apply transact_finishes. by vm_compute. Defined.

Lemma bring_up_sound_witness :
  exists o r', bring_up 501 (new (T := Silent) 0) = Some (o, r') /\
    match o with
    | Ok s => session_ok s /\ link r' <> Unknown
    | Err _ => True
    | Panic => False
    end.
Proof. apply bring_up_sound. by vm_compute. Defined.

(** The silent device times out rather than hanging. *)
Lemma silent_times_out :
  transact 502 (encode_init 1 HOST_MAX_TRANSFER_SIZE) MSG_INIT_C 1 (new (T := Silent) 0) =
  Some (Err NoResponse, mkRndis (from_secs 5) 1 Unknown).
Proof. vm_compute. reflexivity. Qed.

(** ** Request ids *)

Lemma nth_id n : Nat.iter n following_id 1 = 1 + Z.of_nat n mod 4294967295.
Proof.
  induction n as [|n IH]; [done|].
  change (Nat.iter (S n) following_id 1) with (following_id (Nat.iter n following_id 1)). rewrite IH.
  unfold following_id, as_u32.
  pose proof (Z.mod_pos_bound (Z.of_nat n) 4294967295 ltac:(lia)) as Hm.
  rewrite Nat2Z.inj_succ. unfold Z.succ.
  destruct (decide (Z.of_nat n mod 4294967295 = 4294967294)) as [E|E].
  - rewrite E. change ((1 + 4294967294 + 1) mod 4294967296) with 0.
    rewrite Z.add_mod, E by lia. done.
  - rewrite (Z.mod_small (1 + _ + 1)) by lia.
    rewrite (Z.add_mod (Z.of_nat n)) by lia.
    rewrite (Z.mod_small 1), (Z.mod_small (_ + 1)) by lia. lia.
Qed.

(** The ids [take_request_id] hands out are non-zero 32-bit numbers, and any
    2^32 - 1 consecutive ones are pairwise different, so a completion cannot be
    mistaken for that of another recent request. *)
Theorem request_ids_distinct i j :
  (i < j)%nat -> Z.of_nat j - Z.of_nat i < 4294967295 ->
  1 <= Nat.iter i following_id 1 < 4294967296 /\
  Nat.iter i following_id 1 <> Nat.iter j following_id 1.
Proof.
  intros. rewrite !nth_id.
  pose proof (Z.mod_pos_bound (Z.of_nat i) 4294967295 ltac:(lia)). split; [lia|].
  intros E. assert (Hd : (Z.of_nat j - Z.of_nat i) mod 4294967295 = 0).
  { rewrite Zminus_mod. replace (Z.of_nat j mod 4294967295) with (Z.of_nat i mod 4294967295) by lia.
    by rewrite Z.sub_diag. }
  rewrite Z.mod_small in Hd by lia. lia.
Qed.

Lemma request_ids_distinct_witness :
  1 <= Nat.iter 2 following_id 1 < 4294967296 /\
  Nat.iter 2 following_id 1 <> Nat.iter 5 following_id 1.
Proof. apply request_ids_distinct; lia. Defined.

End Control.
