(* ===== verification/MockDevice.v ===== *)
(** * A conforming device

    The scripted device of the tests of [src/rndis/control.rs] (lines 249-353),
    with a clock that advances by [tick] at every reading. It satisfies the
    transport laws up to the bytes preloaded in it, and bring-up against it is
    computed for any unsolicited traffic ahead of the first completion. *)
From Stdlib Require Import ZArith Lia.
From stdpp Require Import base numbers list strings.
From S2P Require Import Prelude Wire Control.

Open Scope Z_scope.

Module MockDevice.

Import Wire Control.

Record MockDevice : Type := mkMock
  { sent : list (list Z);
    replies : list (list Z);
    (* replies queued ahead of any command, e.g. an INDICATE_STATUS *)
    preloaded : list (list Z);
    mac : list Z;
    fail_permanent_address : bool;
    time : Z; tick : Z }.

Definition set_sent v d :=
  mkMock v (replies d) (preloaded d) (mac d) (fail_permanent_address d) (time d) (tick d).

Definition set_replies v d :=
  mkMock (sent d) v (preloaded d) (mac d) (fail_permanent_address d) (time d) (tick d).

Definition set_preloaded v d :=
  mkMock (sent d) (replies d) v (mac d) (fail_permanent_address d) (time d) (tick d).

Definition set_time v d :=
  mkMock (sent d) (replies d) (preloaded d) (mac d) (fail_permanent_address d) v (tick d).

(** The reply of [respond] to one command, if any. *)
Definition reply_to (d : MockDevice) (msg : list Z) : outcome Error (list (list Z)) :=
  msg_type ← u32_at msg 0;
  id ← u32_at msg 8;
  if msg_type =? MSG_INIT then
    mret [words [MSG_INIT_C; 52; id; STATUS_SUCCESS; 1; 0; 0; 0; 8; 16384; 0; 0; 0]]
  else if msg_type =? MSG_QUERY then
    oid ← u32_at msg 12;
    if fail_permanent_address d && (oid =? OID_802_3_PERMANENT_ADDRESS) then
      mret [words [MSG_QUERY_C; 24; id; 0xC0000001; 0; 0]]
    else mret [words [MSG_QUERY_C; 30; id; STATUS_SUCCESS; 6; 16] ++ mac d]
  else if (msg_type =? MSG_SET) || (msg_type =? MSG_KEEPALIVE) then
    let complete := if msg_type =? MSG_SET then MSG_SET_C else MSG_KEEPALIVE_C in
    mret [words [complete; 16; id; STATUS_SUCCESS]]
  else mret [].

(** [send]: the [unwrap]s of [respond] panic on a short message. *)
Definition mock_send (msg : list Z) (d : MockDevice) : outcome Error unit * MockDevice :=
  let d := set_sent (sent d ++ [msg]) d in
  match reply_to d msg with
  | Ok rs => (Ok tt, set_replies (replies d ++ rs) d)
  | _ => (Panic, d)
  end.

Definition mock_receive (d : MockDevice) : outcome Error (list Z) * MockDevice :=
  match preloaded d with
  | m :: rest => (Ok m, set_preloaded rest d)
  | [] =>
      match replies d with
      | m :: rest => (Ok m, set_replies rest d)
      | [] => (Ok [], d)
      end
  end.

#[export] Instance mock_transport : ControlTransport MockDevice :=
  { send := mock_send; receive := mock_receive; await_response := fun _ d => (Ok tt, d) }.

#[export] Instance mock_clock : Clock MockDevice :=
  fun d => (time d, set_time (time d + tick d) d).

Definition indicate (st : Z) : list Z := words [MSG_INDICATE; 20; st; 0; 0].

(** ** Unsolicited traffic *)

(** A message the loop skips, or serves, while it waits for completion [expect]
    of request [id]. *)
Definition harmless (expect id : Z) (m : list Z) : Prop :=
  zlen m < 12 \/ word m 0 <> expect \/ 16 <= zlen m /\ word m 8 <> id.

(** What serving it sends, and the link state it leaves. *)
Definition answer (expect : Z) (m : list Z) : list (list Z) :=
  if (12 <=? zlen m) && negb (word m 0 =? expect) && (word m 0 =? MSG_KEEPALIVE)
  then [encode_keepalive_complete (word m 8)] else [].

Definition link_after (expect : Z) (l : LinkState) (m : list Z) : LinkState :=
  if (12 <=? zlen m) && negb (word m 0 =? expect) && (word m 0 =? MSG_INDICATE) then
    if word m 8 =? STATUS_MEDIA_CONNECT then Up
    else if word m 8 =? STATUS_MEDIA_DISCONNECT then Down else l
  else l.

(** The device after it queued [n] clock readings and sent [log]. *)
Definition at_state (d : MockDevice) (log rs pre : list (list Z)) (n : Z) : MockDevice :=
  mkMock log rs pre (mac d) (fail_permanent_address d) n (tick d).

(** A keepalive completion needs no answer from the device. *)
Lemma reply_to_keepalive_complete d id :
  is_u32 id -> reply_to d (encode_keepalive_complete id) = Ok [].
Proof.
  intros. unfold reply_to.
  change (encode_keepalive_complete id) with (words [MSG_KEEPALIVE_C; 16; id; 0] ++ []).
  assert (Hf : Forall is_u32 [MSG_KEEPALIVE_C; 16; id; 0]) by forall_u32.
  pose proof (u32_at_words _ 0 [] Hf ltac:(unfold zlen; cbn; lia)) as E0.
  pose proof (u32_at_words _ 2 [] Hf ltac:(unfold zlen; cbn; lia)) as E2.
  change (4 * 0) with 0 in E0. change (4 * 2) with 8 in E2.
  rewrite E0, E2. reflexivity.
Qed.

(** One iteration of the loop on one unsolicited message. *)
Lemma loop_unsolicited fuel deadline expect id log rs m pre n d nid l :
  bytes_ok m -> harmless expect id m -> n < deadline ->
  transact_loop (S fuel) deadline expect id
    (mkRndis (at_state d log rs (m :: pre) n) nid l) =
  transact_loop fuel deadline expect id
    (mkRndis (at_state d (log ++ answer expect m) rs pre (n + tick d)) nid
       (link_after expect l m)).
Proof.
  intros Hb Hh Hn. cbn [transact_loop]. step_m. cbn [transport time at_state].
  rewrite (proj2 (Z.ltb_lt _ _) Hn). cbn [negb]. do 2 step_m. unfold answer, link_after.
  destruct (Z.ltb_spec (zlen m) 12) as [Hl|Hl].
  { rewrite (proj2 (Z.leb_gt 12 (zlen m))) by lia. cbn [andb]. by rewrite app_nil_r. }
  rewrite (proj2 (Z.leb_le 12 (zlen m))) by lia.
  rewrite u32_at_ok by lia. step_m.
  destruct (Z.eqb_spec (word m 0) expect) as [He|He]; cbn [negb andb].
  - destruct Hh as [?|[?|[Hl2 Hid]]]; [lia|done|].
    unfold decode_completion. rewrite !u32_at_ok by lia. step_m. cbn [fst].
    rewrite (proj2 (Z.eqb_neq _ _) Hid). by rewrite app_nil_r.
  - unfold handle_unsolicited. destruct (Z.eqb_spec (word m 0) MSG_INDICATE) as [Hi|Hi].
    + rewrite Hi. change (MSG_INDICATE =? MSG_KEEPALIVE) with false. cbn [andb].
      unfold decode_indicate_status. rewrite u32_at_ok by lia. rewrite app_nil_r.
      by step_m.
    + destruct (Z.eqb_spec (word m 0) MSG_KEEPALIVE) as [Hk|Hk].
      * rewrite u32_at_ok by lia.
        erewrite bind_ok; [reflexivity|]. step_m.
        unfold on_transport. cbn [send mock_transport transport]. unfold mock_send.
        rewrite reply_to_keepalive_complete by by apply word_bound.
        cbn [replies set_sent at_state]. by rewrite app_nil_r.
      * rewrite app_nil_r. by step_m.
Qed.

(** All of the unsolicited traffic, in order. *)
Lemma loop_noise pre fuel deadline expect id log rs n d nid l :
  Forall bytes_ok pre -> Forall (harmless expect id) pre -> 0 <= tick d ->
  n + zlen pre * tick d < deadline ->
  transact_loop (length pre + fuel) deadline expect id
    (mkRndis (at_state d log rs pre n) nid l) =
  transact_loop fuel deadline expect id
    (mkRndis (at_state d (log ++ concat (map (answer expect) pre)) rs [] (n + zlen pre * tick d))
       nid (foldl (link_after expect) l pre)).
Proof.
  intros Hb Hh Ht. revert log n l Hb. induction Hh as [|m pre Hm _ IH]; intros log n l Hb Hn.
  - cbn [length Nat.add map concat foldl]. change (zlen []) with 0. by rewrite app_nil_r, Z.mul_0_l, Z.add_0_r.
  - apply Forall_cons_iff in Hb as [Hbm Hb].
    rewrite zlen_cons in Hn. pose proof (zlen_nonneg pre).
    change (length (m :: pre) + fuel)%nat with (S (length pre + fuel)).
    rewrite loop_unsolicited by (done || nia).
    rewrite IH by (done || nia). cbn [map concat foldl].
    rewrite <- app_assoc, zlen_cons. do 3 f_equal. lia.
Qed.

(** The completion at the head of the replies is returned. *)
Lemma loop_completion fuel deadline expect id log c n d nid l :
  12 <= zlen c -> u32_at c 0 = Ok expect -> u32_at c 8 = Ok id -> 16 <= zlen c -> n < deadline ->
  transact_loop (S fuel) deadline expect id (mkRndis (at_state d log [c] [] n) nid l) =
  Some (Ok c, mkRndis (at_state d log [] [] (n + tick d)) nid l).
Proof.
  intros Hl H0 H8 Hl2 Hn. cbn [transact_loop]. step_m. cbn [transport time at_state].
  rewrite (proj2 (Z.ltb_lt _ _) Hn). cbn [negb]. do 2 step_m.
  rewrite (proj2 (Z.ltb_ge _ _) Hl), H0. step_m. rewrite Z.eqb_refl.
  unfold decode_completion. rewrite H8, (u32_at_ok c 12) by lia. step_m. cbn [fst].
  by rewrite Z.eqb_refl.
Qed.

(** A whole transaction: the command is recorded, the traffic ahead of the
    completion served, and the completion returned. *)
Lemma transact_mock fuel msg expect id log pre n d nid l c :
  reply_to d msg = Ok [c] ->
  16 <= zlen c -> u32_at c 0 = Ok expect -> u32_at c 8 = Ok id ->
  Forall bytes_ok pre -> Forall (harmless expect id) pre -> 0 <= tick d ->
  (1 + zlen pre) * tick d < TRANSACTION_TIMEOUT -> (length pre < fuel)%nat ->
  transact fuel msg expect id (mkRndis (at_state d log [] pre n) nid l) =
  Some (Ok c, mkRndis
    (at_state d (log ++ [msg] ++ concat (map (answer expect) pre)) [] []
       (n + (2 + zlen pre) * tick d)) nid (foldl (link_after expect) l pre)).
Proof.
  intros Hr Hl H0 H8 Hb Hh Ht Hd Hf. pose proof (zlen_nonneg pre). unfold transact.
  rewrite (bind_ok _ _ _ tt (mkRndis (at_state d (log ++ [msg]) [c] pre n) nid l)).
  2: { unfold on_transport. cbn [send mock_transport transport]. unfold mock_send.
       change (reply_to (set_sent _ _) msg) with (reply_to d msg). by rewrite Hr. }
  rewrite (bind_ok _ _ _ n (mkRndis (at_state d (log ++ [msg]) [c] pre (n + tick d)) nid l))
    by done.
  replace fuel with (length pre + S (fuel - length pre - 1))%nat by lia.
  rewrite loop_noise by (done || nia).
  rewrite loop_completion by (done || nia).
  rewrite <- app_assoc. do 4 f_equal. lia.
Qed.

(** ** Bring-up *)

Definition queries (d : MockDevice) : list (list Z) :=
  if fail_permanent_address d
  then [encode_query 2 OID_802_3_PERMANENT_ADDRESS; encode_query 3 OID_802_3_CURRENT_ADDRESS]
  else [encode_query 2 OID_802_3_PERMANENT_ADDRESS].

(** Every command of a bring-up, in order, with the answers to the pings the
    device sent before its first completion. *)
Definition commands (d : MockDevice) (pre : list (list Z)) : list (list Z) :=
  [encode_init 1 HOST_MAX_TRANSFER_SIZE] ++ concat (map (answer MSG_INIT_C) pre) ++ queries d ++
  [encode_set (2 + zlen (queries d)) OID_GEN_CURRENT_PACKET_FILTER (to_le32 DEFAULT_PACKET_FILTER)].

Definition final_link (pre : list (list Z)) : LinkState :=
  let l := foldl (link_after MSG_INIT_C) Unknown pre in
  if bool_decide (l = Unknown) then Up else l.

Lemma transact_quiet fuel msg expect id log n d nid l c :
  reply_to d msg = Ok [c] ->
  16 <= zlen c -> u32_at c 0 = Ok expect -> u32_at c 8 = Ok id ->
  0 <= tick d < TRANSACTION_TIMEOUT -> (0 < fuel)%nat ->
  transact fuel msg expect id (mkRndis (at_state d log [] [] n) nid l) =
  Some (Ok c, mkRndis (at_state d (log ++ [msg]) [] [] (n + 2 * tick d)) nid l).
Proof.
  intros. rewrite (transact_mock _ _ _ _ _ _ _ _ _ _ c) by
    (first [done | constructor | lia | change (zlen []) with 0; lia | cbn [length]; lia]).
  done.
Qed.

(** Reads every word of a message built from words. *)
Ltac reads :=
  repeat (rewrite u32_at_offset by (solve [forall_u32] || reflexivity);
    repeat match goal with
    | |- context [nthZ ?l (?o / 4)] =>
        let n := eval vm_compute in (Z.to_nat (o / 4)) in
        let v := eval cbn [nth] in (nth n l 0) in
        change (nthZ l (o / 4)) with v
    end; cbn [mbind outcome_bind]; rewrite ?Z.eqb_refl; cbn [negb]).

(** The three kinds of completion the device sends. *)
Definition init_reply (id : Z) : list Z :=
  words [MSG_INIT_C; 52; id; STATUS_SUCCESS; 1; 0; 0; 0; 8; 16384; 0; 0; 0] ++ [].

Definition mac_reply (d : MockDevice) (id : Z) : list Z :=
  words [MSG_QUERY_C; 30; id; STATUS_SUCCESS; 6; 16] ++ mac d.

Definition refusal (id : Z) : list Z :=
  words [MSG_QUERY_C; 24; id; 0xC0000001; 0; 0] ++ [].

Lemma decode_mac_reply d id :
  is_u32 id -> zlen (mac d) = 6 ->
  decode_query_complete (mac_reply d id) = Ok (id, STATUS_SUCCESS, mac d).
Proof.
  intros Hi Hm. unfold decode_query_complete, mac_reply.
  reads.
  change (checked_add_usize OFFSET_BASE 16) with (Some 24).
  cbn [ok_or mbind outcome_bind]. change (checked_add_usize 24 6) with (Some 30).
  cbn [ok_or mbind outcome_bind]. rewrite (proj2 (get_range_Some _ _ _ (mac d))); [done|].
  rewrite zlen_app, zlen_words, Hm. change (4 * zlen _) with 24. repeat split; try done.
  symmetry. apply sub_suffix; rewrite zlen_words, ?Hm; done.
Qed.

Lemma query_served fuel d oid log n nid l :
  (oid = OID_802_3_PERMANENT_ADDRESS /\ fail_permanent_address d = false \/
   oid = OID_802_3_CURRENT_ADDRESS) ->
  is_u32 nid -> zlen (mac d) = 6 -> 0 <= tick d < TRANSACTION_TIMEOUT -> (0 < fuel)%nat ->
  query fuel oid (mkRndis (at_state d log [] [] n) nid l) =
  Some (Ok (mac d),
    mkRndis (at_state d (log ++ [encode_query nid oid]) [] [] (n + 2 * tick d)) (following_id nid) l).
Proof.
  intros Ho Hi Hm Ht Hf. unfold query. step_m. cbn [next_request_id transport link].
  assert (Hiu : is_u32 oid) by (destruct Ho as [[-> _]| ->]; by split).
  erewrite bind_ok.
  2: { apply (transact_quiet fuel _ _ _ _ _ _ _ _ (mac_reply d nid)); try done.
       - unfold reply_to.
         change (encode_query nid oid) with (words [MSG_QUERY; 28; nid; oid; 0; 0; 0] ++ []).
         reads.
         destruct Ho as [[-> Hp]| ->]; [rewrite Hp; reflexivity|].
         cbn. by rewrite andb_false_r.
       - unfold mac_reply. rewrite zlen_app, zlen_words, Hm. by vm_compute.
       - unfold mac_reply. by reads.
       - unfold mac_reply. by reads. }
  rewrite decode_mac_reply by done. by step_m.
Qed.

Lemma query_refused fuel d log n nid l :
  fail_permanent_address d = true ->
  is_u32 nid -> 0 <= tick d < TRANSACTION_TIMEOUT -> (0 < fuel)%nat ->
  attempt (query fuel OID_802_3_PERMANENT_ADDRESS) (mkRndis (at_state d log [] [] n) nid l) =
  Some (Ok (inl (Status 0xC0000001)),
    mkRndis (at_state d (log ++ [encode_query nid OID_802_3_PERMANENT_ADDRESS]) [] []
      (n + 2 * tick d)) (following_id nid) l).
Proof.
  intros Ho Hi Ht Hf. unfold attempt, query. step_m. cbn [next_request_id transport link].
  erewrite bind_ok.
  2: { apply (transact_quiet fuel _ _ _ _ _ _ _ _ (refusal nid)); try done.
       - unfold reply_to.
         change (encode_query nid ?o) with (words [MSG_QUERY; 28; nid; o; 0; 0; 0] ++ []).
         reads. by rewrite Ho.
       - unfold refusal. by reads.
  }
  unfold decode_query_complete, refusal. reads. by step_m.
Qed.

Lemma init_served fuel d pre n :
  Forall bytes_ok pre -> Forall (harmless MSG_INIT_C 1) pre -> 0 <= tick d ->
  (1 + zlen pre) * tick d < TRANSACTION_TIMEOUT -> (length pre < fuel)%nat ->
  initialize fuel (new (at_state d [] [] pre n)) =
  Some (Ok (mkInit 1 0 1 0 0 8 16384 1),
    mkRndis (at_state d ([encode_init 1 HOST_MAX_TRANSFER_SIZE] ++
                         concat (map (answer MSG_INIT_C) pre)) [] []
      (n + (2 + zlen pre) * tick d)) 2 (foldl (link_after MSG_INIT_C) Unknown pre)).
Proof.
  intros Hb Hh Ht Hd Hf. unfold initialize, new. step_m. cbn [next_request_id transport link].
  erewrite bind_ok by by apply (transact_mock fuel _ _ _ _ _ _ _ _ _ (init_reply 1)).
  by step_m.
Qed.

Lemma set_served fuel d log n nid l :
  is_u32 nid -> 0 <= tick d < TRANSACTION_TIMEOUT -> (0 < fuel)%nat ->
  set fuel OID_GEN_CURRENT_PACKET_FILTER (to_le32 DEFAULT_PACKET_FILTER)
    (mkRndis (at_state d log [] [] n) nid l) =
  Some (Ok tt,
    mkRndis (at_state d (log ++ [encode_set nid OID_GEN_CURRENT_PACKET_FILTER
        (to_le32 DEFAULT_PACKET_FILTER)]) [] [] (n + 2 * tick d)) (following_id nid) l).
Proof.
  intros Hi Ht Hf. unfold set. step_m. cbn [next_request_id transport link].
  erewrite bind_ok.
  2: { apply (transact_quiet fuel _ _ _ _ _ _ _ _
         (words [MSG_SET_C; 16; nid; STATUS_SUCCESS] ++ [])); try done.
       - unfold reply_to.
         change (encode_set nid OID_GEN_CURRENT_PACKET_FILTER (to_le32 DEFAULT_PACKET_FILTER)) with
           (words [MSG_SET; 32; nid; OID_GEN_CURRENT_PACKET_FILTER; 4; 20; 0] ++
            to_le32 DEFAULT_PACKET_FILTER). by reads.
       - by reads.
       }
  unfold decode_completion. reads. by step_m.
Qed.

(** The fallback of [query_mac]: the permanent address, or the current one from
    a device that only knows that. *)
Lemma query_mac_served fuel d log n l :
  usable_mac (mac d) -> 0 <= tick d < TRANSACTION_TIMEOUT -> (0 < fuel)%nat ->
  exists n',
  query_mac fuel (mkRndis (at_state d log [] [] n) 2 l) =
  Some (Ok (mac d),
    mkRndis (at_state d (log ++ queries d) [] [] n') (2 + zlen (queries d)) l).
Proof.
  intros (Hmb & Hml & Hm0) Ht Hf.
  assert (Hacc : forall (r : Rndis MockDevice) (k : M MockDevice (list Z)),
    (first6 ← of_outcome ((mac d).[0 ..< 6]);
     m ← of_outcome (copy_from_slice [0; 0; 0; 0; 0; 0] 0 6 first6);
     if negb (bool_decide (m = [0; 0; 0; 0; 0; 0])) then mret m else k) r = Some (Ok (mac d), r)).
  { intros r k. rewrite slice_ok by lia. step_m.
    replace (sub (mac d) 0 6) with (mac d) by (rewrite <- Hml; symmetry; apply sub_all).
    pose proof (@copy_from_slice_app Error [] [0; 0; 0; 0; 0; 0] [] (mac d) 0 6
      eq_refl eq_refl Hml) as E.
    rewrite !app_nil_r in E. cbn [app] in E. rewrite E. step_m. by rewrite bool_decide_eq_false_2. }
  unfold query_mac, queries. cbn [query_mac_loop].
  destruct (fail_permanent_address d) eqn:Ef.
  - exists (n + 2 * tick d + 2 * tick d).
    rewrite (bind_ok _ _ _ _ _ (query_refused fuel d log n 2 l Ef ltac:(done) Ht Hf)).
    erewrite bind_ok.
    2: { unfold attempt. rewrite query_served; [reflexivity|by right|done..]. }
    cbv beta iota. rewrite Hml. cbn [Z.leb Z.compare Pos.compare Pos.compare_cont]. rewrite Hacc.
    by rewrite <- app_assoc.
  - exists (n + 2 * tick d). erewrite bind_ok.
    2: { unfold attempt. rewrite query_served; [reflexivity|by left|done..]. }
    cbv beta iota. rewrite Hml. cbn [Z.leb Z.compare Pos.compare Pos.compare_cont]. by rewrite Hacc.
Qed.

(** C3. Bring-up against a conforming device, whatever unsolicited traffic it
    queued first: INITIALIZE, the MAC query (and its fallback), the packet
    filter, with consecutive request ids, every ping answered in order; the
    session is what the device advertised, and the link state is the one its
    last indication reported, or up. *)
Theorem bring_up_conforming fuel d pre n :
  usable_mac (mac d) -> Forall bytes_ok pre -> Forall (harmless MSG_INIT_C 1) pre ->
  0 <= tick d -> (1 + zlen pre) * tick d < TRANSACTION_TIMEOUT -> (length pre < fuel)%nat ->
  exists d' nid,
  bring_up fuel (new (at_state d [] [] pre n)) =
  Some (Ok (mkSession (mac d) 16384 8 1), mkRndis d' nid (final_link pre)) /\
  sent d' = commands d pre /\ nid = 3 + zlen (queries d).
Proof.
  intros Hm Hb Hh Ht Hd Hf. pose proof (zlen_nonneg pre).
  assert (Ht' : 0 <= tick d < TRANSACTION_TIMEOUT) by nia.
  unfold bring_up. rewrite (bind_ok _ _ _ _ _ (init_served fuel d pre n Hb Hh Ht Hd Hf)).
  edestruct query_mac_served as (n' & E); [exact Hm|exact Ht'| |].
  { instantiate (1 := fuel). lia. }
  rewrite (bind_ok _ _ _ _ _ E).
  assert (Hid : is_u32 (2 + zlen (queries d)) /\
    following_id (2 + zlen (queries d)) = 3 + zlen (queries d)).
  { unfold queries. by destruct (fail_permanent_address d). }
  destruct Hid as [Hid Hnid].
  erewrite bind_ok.
  2: { apply set_served; [exact Hid|exact Ht'|lia]. }
  step_m. cbn [link]. unfold commands, final_link.
  destruct (bool_decide_reflect (foldl (link_after MSG_INIT_C) Unknown pre = Unknown)); step_m;
    eexists _, _; (split; [reflexivity|]); cbn [sent at_state]; by rewrite <- !app_assoc.
Qed.

Definition sample_device : MockDevice :=
  mkMock [] [] [] [0xAA; 0xBB; 0xCC; 1; 2; 3] true 0 1000.

Lemma bring_up_conforming_witness :
  exists d' nid,
  bring_up 4 (new (at_state sample_device [] []
      [words [MSG_KEEPALIVE; 12; 0x4242]; indicate STATUS_MEDIA_DISCONNECT] 0)) =
  Some (Ok (mkSession [0xAA; 0xBB; 0xCC; 1; 2; 3] 16384 8 1), mkRndis d' nid Down) /\
  map (fun m => u32_at m 0) (sent d') =
    map Ok [MSG_INIT; MSG_KEEPALIVE_C; MSG_QUERY; MSG_QUERY; MSG_SET] /\ nid = 5.
Proof.
  destruct (bring_up_conforming 4 sample_device
    [words [MSG_KEEPALIVE; 12; 0x4242]; indicate STATUS_MEDIA_DISCONNECT] 0)
    as (d' & nid & E & Hs & Hn).
  - split; [apply bytes_okb_ok; by vm_compute|]. split; [done|discriminate].
  - constructor; [|constructor; [|constructor]]; apply bytes_okb_ok; by vm_compute.
  - constructor; [|constructor; [|constructor]]; right; left; by vm_compute.
  - done.
  - by vm_compute.
  - by vm_compute; lia.
  - exists d', nid. split; [etransitivity; [exact E|reflexivity]|].
    rewrite Hs, Hn. split; [vm_compute|]; reflexivity.
Defined.

End MockDevice.
