(* ===== verification/Matcher.v ===== *)
(** * Locating the RNDIS function

    [src/usb/descriptor.rs]: descriptor snapshots. [src/usb/matcher.rs]: the
    search for an RNDIS function in them. The one addition on [u8] follows the
    build profile: it panics or wraps. *)
From Stdlib Require Import ZArith Lia.
From stdpp Require Import base numbers list strings.
From S2P Require Import Prelude.

Open Scope Z_scope.

Module Descriptor.

(** Stable handle for one attached device. *)
Record DeviceId : Type := mkDeviceId { raw_id : Z }.

#[export] Instance DeviceId_eq_dec : EqDecision DeviceId.
Proof. solve_decision. Defined.

Record DeviceInfo : Type := mkDeviceInfo
  { id : DeviceId; vendor_id : Z; product_id : Z;
    manufacturer : option string; product : option string }.

(** A digit of [{:04x}]. *)
Definition hex_digit (d : Z) : string :=
  String.substring (Z.to_nat d) 1 "0123456789abcdef".

(** [format!("{:04x}", x)] on a [u16] *)
Definition hex4 (x : Z) : string :=
  hex_digit (x / 4096 mod 16) +:+ hex_digit (x / 256 mod 16) +:+
  hex_digit (x / 16 mod 16) +:+ hex_digit (x mod 16).

(** [Vendor Product (vid:pid)], for logs. *)
Definition label (d : DeviceInfo) : string :=
  let name :=
    match manufacturer d, product d with
    | Some m, Some p => m +:+ " " +:+ p
    | None, Some p => p
    | Some m, None => m
    | None, None => "unknown device"
    end in
  name +:+ " (" +:+ hex4 (vendor_id d) +:+ ":" +:+ hex4 (product_id d) +:+ ")".

Inductive TransferType : Type := Control | Isochronous | Bulk | Interrupt.

#[export] Instance TransferType_eq_dec : EqDecision TransferType.
Proof. solve_decision. Defined.

Inductive Direction : Type := In | Out.

#[export] Instance Direction_eq_dec : EqDecision Direction.
Proof. solve_decision. Defined.

Record EndpointDescriptor : Type := mkEndpoint
  { address : Z; transfer_type : TransferType; max_packet_size : Z }.

Definition direction (e : EndpointDescriptor) : Direction :=
  if negb (Z.land (address e) 0x80 =? 0) then In else Out.

Record InterfaceDescriptor : Type := mkInterface
  { number : Z; alt_setting : Z; class : Z; subclass : Z; protocol : Z;
    endpoints : list EndpointDescriptor; extra : list Z }.

(** [iter().find(..)] *)
Definition find {A} (p : A -> bool) (l : list A) : option A := List.find p l.

Definition endpoint (i : InterfaceDescriptor) (ty : TransferType) (dir : Direction) :
    option EndpointDescriptor :=
  find (fun e => bool_decide (transfer_type e = ty) && bool_decide (direction e = dir))
    (endpoints i).

Record ConfigDescriptor : Type := mkConfig
  { value : Z; interfaces : list InterfaceDescriptor }.

End Descriptor.

Module Matcher.

Import Descriptor.

Definition CS_INTERFACE : Z := 0x24.

Definition CDC_UNION : Z := 0x06.

Definition CLASS_CDC_DATA : Z := 0x0A.

Definition CONTROL_SIGNATURES : list (Z * Z * Z) :=
  [(0xE0, 0x01, 0x03); (0x02, 0x02, 0xFF); (0xEF, 0x04, 0x01)].

Record RndisFunction : Type := mkRndis
  { config_value : Z; control_interface : Z; data_interface : Z; data_alt_setting : Z;
    interrupt_in : option Z; bulk_in : Z; bulk_out : Z; bulk_max_packet_size : Z }.

(** A function that returns an [Option] and may panic. *)
Abbreviation search A := (outcome Empty_set (option A)).

(** [?] on an [Option] *)
Definition and_then {A B} (m : search A) (f : A -> search B) : search B :=
  o ← m; match o with Some a => f a | None => mret None end.

(** [iter().find_map(..)] *)
Fixpoint find_map {A B} (f : A -> search B) (l : list A) : search B :=
  match l with
  | [] => mret None
  | a :: l =>
      o ← f a;
      match o with
      | Some b => mret (Some b)
      | None => find_map f l
      end
  end.

(** [bSubordinateInterface0] of the CDC Union functional descriptor. The loop
    drops [len >= 2] bytes of [rest] per turn. *)
Fixpoint union_subordinate (extra : list Z) : search Z :=
  match extra with
  | [] => mret None
  | len :: tl =>
      if (len <? 2) || (zlen extra <? len) then mret None else
      desc ← extra.[0 ..< len];
      d1 ← desc.[1];
      is_union ←
        (if (d1 =? CS_INTERFACE) && (5 <=? zlen desc)
         then (d2 ← desc.[2]; mret (d2 =? CDC_UNION)) else mret false);
      if is_union : bool then (d4 ← desc.[4]; mret (Some d4))
      else union_subordinate (skip tl (Z.to_nat (len - 1)))
  end.

Definition is_control_signature (i : InterfaceDescriptor) : bool :=
  bool_decide ((class i, subclass i, protocol i) ∈ CONTROL_SIGNATURES).

Section matcher.
Context {P : Profile}.

(** The argument of [unwrap_or] is evaluated first, whether it is used or not. *)
Definition data_number (control : InterfaceDescriptor) : outcome Empty_set Z :=
  u ← union_subordinate (extra control);
  next ← add_checked 256 (number control) 1;
  mret (default next u).

(** The closure that picks the alternate setting with the bulk pair. *)
Definition bulk_pair (i : InterfaceDescriptor) :
    option (InterfaceDescriptor * EndpointDescriptor * EndpointDescriptor) :=
  match endpoint i Bulk In with
  | Some bin =>
      match endpoint i Bulk Out with
      | Some bout => Some (i, bin, bout)
      | None => None
      end
  | None => None
  end.

Definition build (config : ConfigDescriptor) (control : InterfaceDescriptor) :
    search RndisFunction :=
  data_number ← data_number control;
  and_then
    (find_map (fun i => mret (bulk_pair i))
      (List.filter (fun i => (number i =? data_number) && (class i =? CLASS_CDC_DATA))
         (interfaces config)))
    (fun '(data, bin, bout) =>
      mret (Some (mkRndis (value config) (number control) (number data) (alt_setting data)
        (address <$> endpoint control Interrupt In) (address bin) (address bout)
        (Z.max (max_packet_size bin) (max_packet_size bout))))).

Definition find_rndis_in_config (config : ConfigDescriptor) : search RndisFunction :=
  find_map (build config)
    (List.filter (fun i => (alt_setting i =? 0) && is_control_signature i) (interfaces config)).

(** Find the first RNDIS function across all configurations. *)
Definition find_rndis (configs : list ConfigDescriptor) : search RndisFunction :=
  find_map find_rndis_in_config configs.

End matcher.

(** ** The descriptor walk *)

(** A descriptor whose first byte is its length. *)
Definition descriptor (d : list Z) : Prop := 2 <= zlen d < 256 /\ nthZ d 0 = zlen d.

Definition is_union (d : list Z) : bool :=
  (nthZ d 1 =? CS_INTERFACE) && (5 <=? zlen d) && (nthZ d 2 =? CDC_UNION).

Lemma union_subordinate_cons d rest :
  descriptor d ->
  union_subordinate (d ++ rest) =
    if is_union d then Ok (Some (nthZ d 4)) else union_subordinate rest.
Proof.
  intros [Hl H0]. destruct d as [|len tl]; [done|].
  change (nthZ (len :: tl) 0) with len in H0.
  pose proof (zlen_nonneg rest).
  cbn [app union_subordinate]. change (len :: tl ++ rest) with ((len :: tl) ++ rest).
  rewrite (proj2 (Z.ltb_ge len 2)), (proj2 (Z.ltb_ge (zlen ((len :: tl) ++ rest)) len))
    by (rewrite ?zlen_app; lia).
  cbn [orb]. rewrite slice_ok by (rewrite ?zlen_app; lia).
  cbn [mbind outcome_bind]. rewrite sub_prefix by done.
  rewrite (idx_ok _ 1) by lia. cbn [mbind outcome_bind]. unfold is_union.
  replace (skip (tl ++ rest) _) with rest.
  2: { symmetry. apply skip_app. rewrite zlen_cons in H0. unfold zlen in H0. lia. }
  destruct (Z.eqb_spec (nthZ (len :: tl) 1) CS_INTERFACE); cbn [andb]; [|done].
  destruct (Z.leb_spec 5 (zlen (len :: tl))); cbn [andb]; [|done].
  rewrite (idx_ok _ 2) by lia. cbn [mbind outcome_bind mret outcome_ret].
  destruct (_ =? CDC_UNION); [|done]. by rewrite idx_ok by lia.
Qed.

(** On any bytes the walk ends without reading out of range. *)
Lemma union_subordinate_total extra :
  exists o, union_subordinate extra = Ok o.
Proof.
  remember (length extra) as n eqn:Hn. revert extra Hn.
  induction n as [n IH] using lt_wf_ind. intros [|len tl] ->; [by eexists|].
  cbn [union_subordinate]. destruct (_ || _) eqn:E; [by eexists|].
  apply orb_false_iff in E as [E1 E2]. apply Z.ltb_ge in E1, E2.
  rewrite slice_ok by lia. cbn [mbind outcome_bind].
  pose proof (sub_length (len :: tl) 0 len ltac:(lia) ltac:(lia)) as Hl.
  rewrite (idx_ok _ 1) by lia. cbn [mbind outcome_bind].
  assert (Hskip : exists o, union_subordinate (skip tl (Z.to_nat (len - 1))) = Ok o).
  { eapply IH; [|done]. rewrite skip_drop, length_drop. cbn [length]. lia. }
  destruct (_ =? CS_INTERFACE); cbn [andb]; [|done].
  destruct (Z.leb_spec 5 (zlen (sub (len :: tl) 0 len))); [|done].
  rewrite (idx_ok _ 2) by lia. cbn [mbind outcome_bind mret outcome_ret].
  destruct (_ =? CDC_UNION); [|done]. rewrite idx_ok by lia. by eexists.
Qed.

(** ** Searching *)

Lemma find_map_spec {A B} (f : A -> search B) l :
  match find_map f l with
  | Ok (Some b) => exists l1 a l2, l = l1 ++ a :: l2 /\ f a = Ok (Some b) /\
                     Forall (fun x => f x = Ok None) l1
  | Ok None => Forall (fun x => f x = Ok None) l
  | Err _ => False
  | Panic => exists l1 a l2, l = l1 ++ a :: l2 /\ f a = Panic /\
               Forall (fun x => f x = Ok None) l1
  end.
Proof.
  induction l as [|a l IH]; cbn [find_map]; [constructor|].
  destruct (f a) as [[b|]|[]|] eqn:E; cbn [mbind outcome_bind].
  - exists [], a, l. by repeat split.
  - destruct (find_map f l) as [[b|]|[]|].
    + destruct IH as (l1 & x & l2 & -> & Hx & Hl1). exists (a :: l1), x, l2. split; [done|].
      split; [done|]. by constructor.
    + by constructor.
    + destruct IH as (l1 & x & l2 & -> & Hx & Hl1). exists (a :: l1), x, l2. split; [done|].
      split; [done|]. by constructor.
  - exists [], a, l. by repeat split.
Qed.

Lemma find_some {A} (p : A -> bool) l a : find p l = Some a -> a ∈ l /\ p a = true.
Proof.
  intros Hf. apply List.find_some in Hf as [Hi Hp]. split; [by apply list_elem_of_In|done].
Qed.

Lemma find_none {A} (p : A -> bool) l a : find p l = None -> a ∈ l -> p a = false.
Proof. intros Hf Ha. eapply List.find_none; [done|by apply list_elem_of_In]. Qed.

Lemma elem_of_filter {A} (p : A -> bool) l (a : A) : a ∈ List.filter p l <-> a ∈ l /\ p a = true.
Proof. rewrite !list_elem_of_In. apply List.filter_In. Qed.

(** ** Specification *)

(** The bulk endpoints of a data interface, the first of each direction. *)
Definition has_pair (i : InterfaceDescriptor) (bin bout : EndpointDescriptor) : Prop :=
  endpoint i Bulk In = Some bin /\ endpoint i Bulk Out = Some bout.

(** The data interface a control interface names: by its union descriptor, or
    else the next number, which is a [u8]. *)
Definition names_data (control : InterfaceDescriptor) (n : Z) : Prop :=
  exists u, union_subordinate (extra control) = Ok u /\
    n = default (as_u8 (number control + 1)) u.

(** An RNDIS control interface and its data interface in one configuration. *)
Definition pairing (config : ConfigDescriptor) (control data : InterfaceDescriptor) : Prop :=
  control ∈ interfaces config /\ alt_setting control = 0 /\
  (class control, subclass control, protocol control) ∈ CONTROL_SIGNATURES /\
  data ∈ interfaces config /\ class data = CLASS_CDC_DATA /\ names_data control (number data) /\
  exists bin bout, has_pair data bin bout.

(** The function a pairing describes. *)
Definition describes (config : ConfigDescriptor) (control data : InterfaceDescriptor)
    (f : RndisFunction) : Prop :=
  exists bin bout, has_pair data bin bout /\
    f = mkRndis (value config) (number control) (number data) (alt_setting data)
          (address <$> endpoint control Interrupt In) (address bin) (address bout)
          (Z.max (max_packet_size bin) (max_packet_size bout)).

Lemma bulk_pair_spec i : 
  match bulk_pair i with
  | Some (i', bin, bout) => i' = i /\ has_pair i bin bout
  | None => ~ exists bin bout, has_pair i bin bout
  end.
Proof.
  unfold bulk_pair, has_pair.
  destruct (endpoint i Bulk In) as [bin|]; [|by intros (? & ? & ? & ?)].
  destruct (endpoint i Bulk Out) as [bout|]; [done|by intros (? & ? & ? & ?)].
Qed.

(** In the release profile [data_number] is the interface named. *)
Lemma data_number_release control :
  0 <= number control < 256 ->
  exists n, @data_number release_profile control = Ok n /\ names_data control n /\
    forall m, names_data control m -> m = n.
Proof.
  intros Hn. unfold data_number, names_data.
  destruct (union_subordinate_total (extra control)) as [u Hu]. rewrite Hu.
  exists (default (as_u8 (number control + 1)) u). split; [|split].
  - cbn [mbind outcome_bind]. unfold add_checked, overflow_checks, release_profile, as_u8.
    destruct (Z.ltb_spec (number control + 1) 256); [|done].
    by rewrite Z.mod_small by lia.
  - by exists u.
  - intros m (u' & [= <-] & ->). done.
Qed.

Lemma build_spec config control :
  0 <= number control < 256 ->
  match @build release_profile config control with
  | Ok (Some f) => exists data, data ∈ interfaces config /\ class data = CLASS_CDC_DATA /\
                     names_data control (number data) /\ describes config control data f
  | Ok None => forall data, data ∈ interfaces config -> class data = CLASS_CDC_DATA ->
                 names_data control (number data) -> ~ exists bin bout, has_pair data bin bout
  | _ => False
  end.
Proof.
  intros Hn. unfold build. destruct (data_number_release control Hn) as (n & -> & Hnd & Huniq).
  cbn [mbind outcome_bind]. unfold and_then.
  set (l := List.filter _ _).
  pose proof (find_map_spec (fun i => mret (bulk_pair i) : search _) l) as Hs.
  destruct (find_map _ l) as [[[[d bin] bout]|]|[]|]; cbn [mbind outcome_bind]; [| |].
  - destruct Hs as (l1 & a & l2 & Hl & [= Ha] & _).
    assert (Hin : a ∈ l) by (rewrite Hl; apply elem_of_app; right; left).
    apply elem_of_filter in Hin as [Hin Hp]. apply andb_true_iff in Hp as [Hp1 Hp2].
    apply Z.eqb_eq in Hp1, Hp2. pose proof (bulk_pair_spec a) as Hb. rewrite Ha in Hb.
    destruct Hb as [-> Hb]. exists a. split; [done|]. split; [done|].
    split; [by rewrite Hp1|]. by exists bin, bout.
  - cbn [mret outcome_ret]. intros data Hd Hc Hnum Hpair.
    assert (Hin : data ∈ l).
    { apply elem_of_filter. split; [done|]. rewrite (Huniq _ Hnum), Hc, !Z.eqb_refl. done. }
    pose proof (proj1 (Forall_forall _ _) Hs data Hin) as [= E].
    pose proof (bulk_pair_spec data) as Hb. rewrite E in Hb. done.
  - destruct Hs as (l1 & a & l2 & _ & Ha & _). done.
Qed.

Definition config_ok (config : ConfigDescriptor) : Prop :=
  Forall (fun i => 0 <= number i < 256) (interfaces config).

(** The control interface of the first pairing, in interface order. *)
Definition first_pairing (config : ConfigDescriptor) (control data : InterfaceDescriptor) : Prop :=
  pairing config control data /\
  exists l1 l2, interfaces config = l1 ++ control :: l2 /\
    Forall (fun c => forall d, ~ pairing config c d) l1.

Lemma signature_spec c :
  (alt_setting c =? 0) && is_control_signature c = true <->
  alt_setting c = 0 /\ (class c, subclass c, protocol c) ∈ CONTROL_SIGNATURES.
Proof.
  rewrite andb_true_iff, Z.eqb_eq. unfold is_control_signature. by rewrite bool_decide_eq_true.
Qed.

(** Splitting a filtered list splits the list. *)
Lemma filter_split {A} (p : A -> bool) l l1 a l2 :
  List.filter p l = l1 ++ a :: l2 ->
  exists k1 k2, l = k1 ++ a :: k2 /\ List.filter p k1 = l1.
Proof.
  revert l1. induction l as [|x l IH]; intros l1 E; cbn in E; [by destruct l1|].
  destruct (p x) eqn:Ep.
  - destruct l1 as [|y l1]; injection E as -> E.
    + by exists [], l.
    + destruct (IH _ E) as (k1 & k2 & -> & <-). exists (y :: k1), k2. cbn. by rewrite Ep.
  - destruct (IH _ E) as (k1 & k2 & -> & <-). exists (x :: k1), k2. cbn. by rewrite Ep.
Qed.

Lemma no_pairing config c :
  config_ok config -> c ∈ interfaces config ->
  @build release_profile config c = Ok None -> forall d, ~ pairing config c d.
Proof.
  intros Hok Hc Hb d (_ & _ & _ & Hd & Hcl & Hn & bin & bout & Hp).
  pose proof (build_spec config c (proj1 (Forall_forall _ _) Hok c Hc)) as Hs.
  rewrite Hb in Hs. by apply (Hs d Hd Hcl Hn); exists bin, bout.
Qed.

Lemma find_in_config_spec config :
  config_ok config ->
  match @find_rndis_in_config release_profile config with
  | Ok (Some f) => exists control data,
      first_pairing config control data /\ describes config control data f
  | Ok None => forall control data, ~ pairing config control data
  | _ => False
  end.
Proof.
  intros Hok. unfold find_rndis_in_config. set (l := List.filter _ _).
  assert (Hl : forall c, c ∈ l <-> c ∈ interfaces config /\ alt_setting c = 0 /\
    (class c, subclass c, protocol c) ∈ CONTROL_SIGNATURES).
  { intros c. unfold l. by rewrite elem_of_filter, signature_spec. }
  pose proof (find_map_spec (@build release_profile config) l) as Hs.
  destruct (find_map _ l) as [[f|]|[]|].
  - destruct Hs as (l1 & c & l2 & El & Hc & Hl1).
    assert (Hin : c ∈ l) by (rewrite El; apply elem_of_app; right; left).
    apply Hl in Hin as (Hin & Ha & Hsig).
    pose proof (build_spec config c (proj1 (Forall_forall _ _) Hok c Hin)) as Hb.
    rewrite Hc in Hb. destruct Hb as (d & Hd & Hcl & Hnm & Hdes). exists c, d.
    split; [|done]. split.
    + repeat split; try done. destruct Hdes as (bin & bout & Hp & _). by exists bin, bout.
    + destruct (filter_split _ _ _ _ _ El) as (k1 & k2 & Ek & Hf).
      exists k1, k2. split; [done|]. apply Forall_forall. intros x Hx d' Hp.
      assert (Hx1 : x ∈ l1).
      { rewrite <- Hf. apply elem_of_filter. split; [done|]. apply signature_spec.
        destruct Hp as (_ & ? & ? & _). done. }
      rewrite Forall_forall in Hl1.
      apply (no_pairing config x Hok) with d'; [|by apply Hl1|done].
      rewrite Ek. apply elem_of_app. by left.
  - intros c d Hp. assert (Hp' := Hp). destruct Hp' as (Hc & Ha & Hsig & _).
    rewrite Forall_forall in Hs. apply (no_pairing config c Hok Hc) with d; [|done].
    apply Hs. by apply Hl.
  - destruct Hs as (l1 & c & l2 & El & Hc & _).
    assert (Hin : c ∈ l) by (rewrite El; apply elem_of_app; right; left).
    apply Hl in Hin as (Hin & _).
    pose proof (build_spec config c (proj1 (Forall_forall _ _) Hok c Hin)) as Hb.
    by rewrite Hc in Hb.
Qed.

(** A release build searches any descriptors without a panic. *)
Lemma find_rndis_release configs :
  Forall config_ok configs -> @find_rndis release_profile configs <> Panic.
Proof.
  intros Hok E. unfold find_rndis in E.
  pose proof (find_map_spec (@find_rndis_in_config release_profile) configs) as Hs.
  rewrite E in Hs. destruct Hs as (l1 & c & l2 & -> & Hc & _).
  apply Forall_app in Hok as [_ Hok]. apply Forall_cons_iff in Hok as [Hok _].
  pose proof (find_in_config_spec c Hok) as Hf. by rewrite Hc in Hf.
Qed.

(** ** Properties *)

(** C31. The search is sound and complete: it returns the function of the first
    configuration with an RNDIS control interface (one of the three signatures,
    alternate setting 0) paired with a CDC data interface that has both bulk
    endpoints, and of that configuration the first such control interface; it
    returns nothing only when no configuration has one. The function's fields
    are those of the pairing. *)
Theorem find_rndis_correct configs :
  Forall config_ok configs ->
  match @find_rndis release_profile configs with
  | Ok (Some f) => exists before config after control data,
      configs = before ++ config :: after /\
      Forall (fun c => forall i d, ~ pairing c i d) before /\
      first_pairing config control data /\ describes config control data f
  | Ok None => Forall (fun c => forall i d, ~ pairing c i d) configs
  | _ => False
  end.
Proof.
  intros Hok. unfold find_rndis.
  assert (Hnone : forall c, config_ok c -> @find_rndis_in_config release_profile c = Ok None ->
    forall i d, ~ pairing c i d).
  { intros c Hc E. pose proof (find_in_config_spec c Hc) as Hs. by rewrite E in Hs. }
  pose proof (find_map_spec (@find_rndis_in_config release_profile) configs) as Hs.
  destruct (find_map _ configs) as [[f|]|[]|].
  - destruct Hs as (l1 & c & l2 & -> & Hc & Hl1).
    apply Forall_app in Hok as [Hok1 Hok2]. apply Forall_cons_iff in Hok2 as [Hokc _].
    pose proof (find_in_config_spec c Hokc) as Hf. rewrite Hc in Hf.
    destruct Hf as (ctl & d & Hp & Hd). exists l1, c, l2, ctl, d. split; [done|].
    split; [|done]. rewrite Forall_forall in *. intros x Hx. apply Hnone; auto.
  - rewrite Forall_forall in *. intros x Hx. apply Hnone; auto.
  - destruct Hs as (l1 & c & l2 & -> & Hc & _).
    apply Forall_app in Hok as [_ Hok2]. apply Forall_cons_iff in Hok2 as [Hokc _].
    pose proof (find_in_config_spec c Hokc) as Hf. by rewrite Hc in Hf.
Qed.

(** The Android gadget of the tests: control interface 0, union naming 1. *)
Definition android_cdc_extra : list Z :=
  [0x05; CS_INTERFACE; 0x00; 0x10; 0x01; 0x05; CS_INTERFACE; 0x01; 0x00; 0x01;
   0x04; CS_INTERFACE; 0x02; 0x00; 0x05; CS_INTERFACE; CDC_UNION; 0x00; 0x01].

Definition control_iface (n : Z) (sig : Z * Z * Z) (extra : list Z) : InterfaceDescriptor :=
  mkInterface n 0 sig.1.1 sig.1.2 sig.2 [mkEndpoint 0x81 Interrupt 512] extra.

Definition data_iface (n : Z) : InterfaceDescriptor :=
  mkInterface n 0 CLASS_CDC_DATA 0 0 [mkEndpoint 0x82 Bulk 512; mkEndpoint 0x02 Bulk 512] [].

Definition android_config : ConfigDescriptor :=
  mkConfig 1 [control_iface 0 (0xE0, 0x01, 0x03) android_cdc_extra; data_iface 1].

Lemma find_rndis_correct_witness :
  exists before config after control data,
    [android_config] = before ++ config :: after /\
    Forall (fun c => forall i d, ~ pairing c i d) before /\
    first_pairing config control data /\
    describes config control data (mkRndis 1 0 1 0 (Some 0x81) 0x82 0x02 512).
Proof.
  assert (Hok : Forall config_ok [android_config])
    by (constructor; [repeat constructor; cbn; lia|constructor]).
  pose proof (find_rndis_correct [android_config] Hok) as Hf.
  assert (E : @find_rndis release_profile [android_config] =
    Ok (Some (mkRndis 1 0 1 0 (Some 0x81) 0x82 0x02 512))) by (by vm_compute).
  by rewrite E in Hf.
Defined.

(** The walk over class-specific descriptors finds the union descriptor wherever
    it stands among well-formed descriptors, reads the subordinate of the first
    one, and stops at a descriptor that would not advance or overruns. *)
Theorem union_subordinate_walk ds rest :
  Forall descriptor ds ->
  rest = [] \/ nthZ rest 0 < 2 \/ zlen rest < nthZ rest 0 ->
  union_subordinate (concat ds ++ rest) =
    Ok ((fun d => nthZ d 4) <$> find is_union ds).
Proof.
  intros Hds Hrest. induction Hds as [|d ds Hd _ IH]; cbn [concat].
  - cbn [app]. destruct rest as [|len tl]; [done|].
    change (nthZ (len :: tl) 0) with len in Hrest. cbn [union_subordinate].
    destruct Hrest as [?|[?|?]]; [done| |].
    + by rewrite (proj2 (Z.ltb_lt len 2)) by lia.
    + rewrite (proj2 (Z.ltb_lt (zlen (len :: tl)) len)) by lia. by rewrite orb_true_r.
  - rewrite <- app_assoc, union_subordinate_cons by done. unfold find. cbn [List.find].
    by destruct (is_union d).
Qed.

Lemma union_subordinate_walk_witness :
  union_subordinate (concat [[4; CS_INTERFACE; 2; 0]; [5; CS_INTERFACE; CDC_UNION; 0; 3]] ++ [9; 9])
  = Ok (Some 3).
Proof.
  rewrite union_subordinate_walk; [done| |by right; right].
  constructor; [|constructor; [|constructor]]; by split.
Defined.

(** C32. The addition [control.number + 1] is evaluated even when a union descriptor
    names the data interface: for interface 255 a build with overflow checks
    panics, and a release build falls back to interface 0. Below 255 the
    profiles agree. *)
Theorem next_interface_overflow control :
  0 <= number control < 256 ->
  exists u, union_subordinate (extra control) = Ok u /\
    @data_number release_profile control = Ok (default ((number control + 1) mod 256) u) /\
    @data_number dev_profile control =
      (if number control =? 255 then Panic else Ok (default (number control + 1) u)).
Proof.
  intros Hn. destruct (union_subordinate_total (extra control)) as [u Hu]. exists u.
  unfold data_number. rewrite Hu. cbn [mbind outcome_bind].
  unfold add_checked, overflow_checks, release_profile, dev_profile.
  split; [done|]. destruct (Z.ltb_spec (number control + 1) 256).
  - rewrite Z.mod_small by lia. by rewrite (proj2 (Z.eqb_neq (number control) 255)) by lia.
  - replace (number control) with 255 by lia. done.
Qed.

Lemma next_interface_overflow_witness :
  @find_rndis dev_profile
    [mkConfig 1 [control_iface 255 (0xE0, 0x01, 0x03) android_cdc_extra; data_iface 1]] = Panic /\
  @data_number dev_profile (control_iface 255 (0xE0, 0x01, 0x03) android_cdc_extra) = Panic.
Proof.
  split; [by vm_compute|].
  destruct (next_interface_overflow (control_iface 255 (0xE0, 0x01, 0x03) android_cdc_extra))
    as (u & _ & _ & E); [by split|exact E].
Defined.

End Matcher.
