(* ===== verification/Backend.v ===== *)
(** * USB backend

    [src/usb/error.rs] and [src/usb/backend.rs]: the errors and the endpoint
    traits the threads code against, as classes over the world a thread runs
    in. The laws are the documented behaviour of the traits: a submitted
    transfer is pending until [wait] returns it, and nothing else changes the
    count. [Watched] records how many transfers were pending at each
    [clear_halt], which is "only valid with no transfers pending". *)
From Stdlib Require Import ZArith Lia.
From stdpp Require Import base numbers list strings.
From S2P Require Import Prelude.

Open Scope Z_scope.

Module Backend.

Inductive UsbError : Type :=
| Disconnected
| Timeout
| Stall
| NotFound
| Other (msg : string).

#[export] Instance UsbError_eq_dec : EqDecision UsbError.
Proof. solve_decision. Defined.

(** Whether the device is gone and the session should be torn down. *)
Definition is_fatal (e : UsbError) : bool :=
  match e with
  | Disconnected | NotFound => true
  | _ => false
  end.

(** The [Display] messages of the [#[error]] attributes. *)
Definition to_string (e : UsbError) : string :=
  match e with
  | Disconnected => "device disconnected"
  | Timeout => "transfer timed out"
  | Stall => "endpoint stalled"
  | NotFound => "device not found"
  | Other m => m
  end.

(** [usb::error::Result] *)
Inductive Result (A : Type) : Type :=
| ok (a : A)
| err (e : UsbError).

Arguments ok {A} a.
Arguments err {A} e.

(** A class request addressed to an interface. *)
Record ControlSetup : Type := mkSetup { request : Z; setup_value : Z; setup_index : Z }.

(** ** Traits *)

(** A queue of read transfers. *)
Class InEndpoint (W : Type) : Type :=
  { in_submit : Z -> W -> W;
    in_wait : Z -> W -> option (Result (list Z)) * W;
    in_pending : W -> Z;
    in_cancel_all : W -> W;
    in_clear_halt : W -> Result unit * W }.

(** A queue of write transfers. *)
Class OutEndpoint (W : Type) : Type :=
  { out_max_packet_size : W -> Z;
    out_pending : W -> Z;
    out_submit : list Z -> W -> W;
    out_wait : Z -> W -> option (Result unit) * W;
    out_cancel_all : W -> W;
    out_clear_halt : W -> Result unit * W }.

(** The control requests of a claimed interface. *)
Class UsbInterface (W : Type) : Type :=
  { control_out : ControlSetup -> list Z -> Z -> W -> Result unit * W;
    control_in : ControlSetup -> Z -> Z -> W -> Result (list Z) * W }.

(** [shutdown.load(Ordering::Relaxed)]: the flag other threads set. *)
Class Shutdown (W : Type) : Type := shutdown : W -> bool.

(** ** Laws *)

Class InLaws (W : Type) `{InEndpoint W} : Prop :=
  { in_pending_nonneg w : 0 <= in_pending w;
    in_submit_pending n w : in_pending (in_submit n w) = in_pending w + 1;
    in_wait_pending t w :
      in_pending (snd (in_wait t w)) =
        in_pending w - match fst (in_wait t w) with Some _ => 1 | None => 0 end;
    in_cancel_pending w : in_pending (in_cancel_all w) = in_pending w;
    in_clear_pending w : in_pending (snd (in_clear_halt w)) = in_pending w }.

Class OutLaws (W : Type) `{OutEndpoint W} : Prop :=
  { out_pending_nonneg w : 0 <= out_pending w;
    out_submit_pending d w : out_pending (out_submit d w) = out_pending w + 1;
    out_wait_pending t w :
      out_pending (snd (out_wait t w)) =
        out_pending w - match fst (out_wait t w) with Some _ => 1 | None => 0 end;
    out_cancel_pending w : out_pending (out_cancel_all w) = out_pending w;
    out_clear_pending w : out_pending (snd (out_clear_halt w)) = out_pending w }.

(** ** Draining a cancelled queue

    [for _ in 0..=DEPTH { if pending() == 0 { break; } wait(..); }], shared by
    the recovery of both directions. *)
Section drain.
Context {W : Type} (pending : W -> Z) (wait : W -> W).

Fixpoint drain_queue (n : nat) (w : W) : W :=
  match n with
  | O => w
  | S n => if pending w =? 0 then w else drain_queue n (wait w)
  end.

Context (pending_nonneg : forall w, 0 <= pending w).

Lemma drain_queue_le n w :
  (forall w, pending (wait w) <= pending w) -> pending (drain_queue n w) <= pending w.
Proof.
  intros Hle. revert w. induction n as [|n IH]; intros w; cbn [drain_queue]; [lia|].
  destruct (_ =? 0); [lia|]. etrans; [apply IH|apply Hle].
Qed.

(** With a turn per pending transfer, and every turn taking one, it is empty. *)
Lemma drain_queue_empty (P : W -> Prop) n w :
  P w -> (forall w, P w -> 0 < pending w -> P (wait w) /\ pending (wait w) = pending w - 1) ->
  pending w <= Z.of_nat n -> pending (drain_queue n w) = 0.
Proof.
  intros HP Hstep. revert w HP. induction n as [|n IH]; intros w HP Hn; cbn [drain_queue].
  - pose proof (pending_nonneg w). lia.
  - destruct (Z.eqb_spec (pending w) 0); [done|].
    pose proof (pending_nonneg w). destruct (Hstep w HP ltac:(lia)) as [HP' Hp].
    apply IH; [done|lia].
Qed.

End drain.

(** ** Watching [clear_halt] *)

Record Watched (W : Type) : Type := mkWatched { inner : W; at_halt : list Z }.

Arguments mkWatched {W} _ _.
Arguments inner {W} _.
Arguments at_halt {W} _.

Definition on_inner {W A} (f : W -> A * W) (w : Watched W) : A * Watched W :=
  let '(a, i) := f (inner w) in (a, mkWatched i (at_halt w)).

Definition in_inner {W} (f : W -> W) (w : Watched W) : Watched W :=
  mkWatched (f (inner w)) (at_halt w).

#[export] Instance watched_in W `{InEndpoint W} : InEndpoint (Watched W) :=
  { in_submit n := in_inner (in_submit n);
    in_wait t := on_inner (in_wait t);
    in_pending w := in_pending (inner w);
    in_cancel_all := in_inner in_cancel_all;
    in_clear_halt w :=
      let '(r, i) := in_clear_halt (inner w) in
      (r, mkWatched i (at_halt w ++ [in_pending (inner w)])) }.

#[export] Instance watched_out W `{OutEndpoint W} : OutEndpoint (Watched W) :=
  { out_max_packet_size w := out_max_packet_size (inner w);
    out_pending w := out_pending (inner w);
    out_submit d := in_inner (out_submit d);
    out_wait t := on_inner (out_wait t);
    out_cancel_all := in_inner out_cancel_all;
    out_clear_halt w :=
      let '(r, i) := out_clear_halt (inner w) in
      (r, mkWatched i (at_halt w ++ [out_pending (inner w)])) }.

#[export] Instance watched_in_laws W `{InLaws W} : InLaws (Watched W).
Proof.
  split; intros; cbn.
  - apply in_pending_nonneg.
  - apply in_submit_pending.
  - unfold on_inner. pose proof (in_wait_pending t (inner w)) as Hp.
    by destruct (in_wait t (inner w)).
  - apply in_cancel_pending.
  - pose proof (in_clear_pending (inner w)) as Hp. by destruct (in_clear_halt (inner w)).
Qed.

#[export] Instance watched_out_laws W `{OutLaws W} : OutLaws (Watched W).
Proof.
  split; intros; cbn.
  - apply out_pending_nonneg.
  - apply out_submit_pending.
  - unfold on_inner. pose proof (out_wait_pending t (inner w)) as Hp.
    by destruct (out_wait t (inner w)).
  - apply out_cancel_pending.
  - pose proof (out_clear_pending (inner w)) as Hp. by destruct (out_clear_halt (inner w)).
Qed.

End Backend.
