(* ===== verification/Tx.v ===== *)
(** * The transmit thread

    [src/link.rs], lines 75-100, 198-332 and 360-375: packing frames into bulk
    transfers, bounding the queue of the bulk OUT endpoint, and recovering it
    from a stall. The thread's world gives it the endpoint, the channel of
    frames and the shutdown flag. *)
From Stdlib Require Import ZArith Lia.
From stdpp Require Import base numbers list strings.
From S2P Require Import Prelude Wire Packet Backend.

Open Scope Z_scope.

Module Tx.

Import Backend.

Definition TX_DEPTH : Z := 8.

Definition TICK : Z := from_millis 200.

Definition DRAIN_TIMEOUT : Z := from_millis 250.

(** What the device said it can accept in one bulk transfer. *)
Record TxLimits : Type := mkLimits
  { max_transfer_size : Z; max_packets : Z; alignment : Z }.

(** What [recv_timeout] returns. *)
Inductive Recv : Type :=
| Frame (f : list Z)
| TimedOut
| HungUp.

(** [Receiver<Vec<u8>>]: the frames other threads queued. *)
Class FrameReceiver (W : Type) : Type :=
  { recv_timeout : Z -> W -> Recv * W;
    try_recv : W -> option (list Z) * W }.

(** [counter.fetch_add(n, Ordering::Relaxed)] on an [AtomicU64] *)
Definition fetch_add (counter n : Z) : Z := (counter + n) mod 18446744073709551616.

Record Tx (W : Type) : Type := mkTx
  { world : W; limits : TxLimits; max_packet : Z;
    batch : list Z; packets : Z; sent : Z; transfers : Z; bytes : Z }.

Arguments mkTx {W} _ _ _ _ _ _ _ _.
Arguments world {W} _.
Arguments limits {W} _.
Arguments max_packet {W} _.
Arguments batch {W} _.
Arguments packets {W} _.
Arguments sent {W} _.
Arguments transfers {W} _.
Arguments bytes {W} _.

Definition set_world {W} (w : W) (tx : Tx W) : Tx W :=
  mkTx w (limits tx) (max_packet tx) (batch tx) (packets tx) (sent tx) (transfers tx) (bytes tx).

Definition set_batch {W} (b : list Z) (n : Z) (tx : Tx W) : Tx W :=
  mkTx (world tx) (limits tx) (max_packet tx) b n (sent tx) (transfers tx) (bytes tx).

(** Whether [frame] still fits the transfer being built. *)
Definition fits {W} (tx : Tx W) (frame : list Z) : bool :=
  (packets tx <? max_packets (limits tx)) &&
  (zlen (batch tx) + Wire.DATA_HEADER_LEN + zlen frame <=? max_transfer_size (limits tx)).

Definition push {W} (frame : list Z) (tx : Tx W) : Tx W :=
  set_batch (Packet.append (batch tx) frame (alignment (limits tx))) (packets tx + 1) tx.

Section tx.
Context {W : Type} `{OutEndpoint W}.

(** Clear a halted bulk OUT pipe so later batches are not rejected. *)
Definition recover_bulk_out (w : W) : Result unit * W :=
  let w := out_cancel_all w in
  let w := drain_queue out_pending (fun w => snd (out_wait DRAIN_TIMEOUT w))
             (Z.to_nat (TX_DEPTH + 1)) w in
  if 0 <? out_pending w
  then (err (Other "bulk OUT transfers did not drain after cancel"), w)
  else out_clear_halt w.

(** [while bulk_out.pending() > 0 { .. }]; every turn that does not leave the
    loop returns a transfer, so the number pending is fuel enough. *)
Fixpoint reap_loop (fuel : nat) (timeout : Z) (w : W) : W :=
  match fuel with
  | O => w
  | S fuel =>
      if 0 <? out_pending w then
        match out_wait timeout w with
        | (Some (ok _), w) => reap_loop fuel timeout w
        | (Some (err e), w) =>
            match e with
            | Stall => snd (recover_bulk_out w)
            | _ => w
            end
        | (None, w) => w
        end
      else w
  end.

Definition reap (timeout : Z) (w : W) : W := reap_loop (Z.to_nat (out_pending w)) timeout w.

Context `{FrameReceiver W} `{Shutdown W}.

(** Bounds the queue: [false] when the wait ended in a shutdown. *)
Fixpoint wait_room (fuel : nat) (w : W) : option (bool * W) :=
  match fuel with
  | O => None
  | S fuel =>
      if TX_DEPTH <=? out_pending w then
        let '(r, w) := out_wait TICK w in
        match r with
        | None => if shutdown w then Some (false, w) else wait_room fuel w
        | Some _ => wait_room fuel w
        end
      else Some (true, w)
  end.

Definition flush (fuel : nat) (tx : Tx W) : option (Tx W) :=
  if packets tx =? 0 then Some tx else
  let full :=
    if zlen (batch tx) mod max_packet tx =? 0 then batch tx ++ [0] else batch tx in
  r ← wait_room fuel (world tx);
  match r with
  | (false, w) => Some (set_world w (set_batch full (packets tx) tx))
  | (true, w) =>
      let w := out_submit full w in
      let w := reap 0 w in
      Some (mkTx w (limits tx) (max_packet tx) [] 0
              (fetch_add (sent tx) (packets tx)) (fetch_add (transfers tx) 1)
              (fetch_add (bytes tx) (zlen full)))
  end.

(** [if !fits { flush; if !fits { break } }]: whether the frame fits now. *)
Definition make_room (fuel : nat) (frame : list Z) (tx : Tx W) : option (bool * Tx W) :=
  if fits tx frame then Some (true, tx)
  else tx ← flush fuel tx; Some (fits tx frame, tx).

(** [while let Some(frame) = next.take() { .. }] *)
Fixpoint fill (fuel : nat) (frame : list Z) (tx : Tx W) : option (Tx W) :=
  match fuel with
  | O => None
  | S fuel =>
      r ← make_room fuel frame tx;
      match r with
      | (false, tx) => Some tx
      | (true, tx) =>
          let tx := push frame tx in
          let '(next, w) := try_recv (world tx) in
          let tx := set_world w tx in
          match next with
          | Some frame => fill fuel frame tx
          | None => Some tx
          end
      end
  end.

(** One frame taken from the channel, and the burst behind it. *)
Definition burst (fuel : nat) (frame : list Z) (tx : Tx W) : option (Tx W) :=
  tx ← fill fuel frame tx; flush fuel tx.

(** [while !shutdown { .. }] and the final reap. *)
Fixpoint tx_run (fuel : nat) (tx : Tx W) : option (Tx W) :=
  match fuel with
  | O => None
  | S fuel =>
      if shutdown (world tx) then Some (set_world (reap (from_millis 500) (world tx)) tx)
      else
        let '(r, w) := recv_timeout TICK (world tx) in
        match r with
        | Frame f => tx ← burst fuel f (set_world w tx); tx_run fuel tx
        | TimedOut => tx_run fuel (set_world (reap 0 w) tx)
        | HungUp => Some (set_world (reap (from_millis 500) w) tx)
        end
  end.

Definition tx_loop (fuel : nat) (limits : TxLimits) (w : W) : option (Tx W) :=
  tx_run fuel (mkTx w limits (Z.max (out_max_packet_size w) 1) [] 0 0 0 0).

End tx.

(** ** Recovery *)

Section recover.
Context {W : Type} `{OutLaws W}.

Lemma drain_out_le n w :
  out_pending (drain_queue out_pending (fun w => snd (out_wait DRAIN_TIMEOUT w)) n w) <= out_pending w.
Proof.
  apply drain_queue_le. intros w'. rewrite out_wait_pending.
  destruct (fst _); lia.
Qed.

Lemma recover_out_pending w : out_pending (snd (recover_bulk_out w)) <= out_pending w.
Proof.
  unfold recover_bulk_out.
  pose proof (drain_out_le (Z.to_nat (TX_DEPTH + 1)) (out_cancel_all w)) as Hd.
  rewrite out_cancel_pending in Hd.
  destruct (_ <? _); cbn [snd]; [done|]. by rewrite out_clear_pending.
Qed.

Lemma reap_loop_pending fuel t w : out_pending (reap_loop fuel t w) <= out_pending w.
Proof.
  revert w. induction fuel as [|fuel IH]; intros w; cbn [reap_loop]; [lia|].
  destruct (_ <? _); [|lia]. pose proof (out_wait_pending t w) as Hp.
  destruct (out_wait t w) as [[[[]|e]|] w']; cbn [fst snd] in Hp.
  - etrans; [apply IH|lia].
  - destruct e; try lia. etrans; [apply recover_out_pending|lia].
  - lia.
Qed.

(** The fuel of [reap] is enough: with more of it the result is the same. *)
Lemma reap_loop_fuel n t w :
  out_pending w <= Z.of_nat n -> reap_loop n t w = reap t w.
Proof.
  unfold reap. remember (Z.to_nat (out_pending w)) as k eqn:Hk.
  revert n w Hk. induction k as [|k IH]; intros n w Hk Hn; pose proof (out_pending_nonneg w).
  - cbn [reap_loop]. destruct n; cbn [reap_loop]; [done|].
    by rewrite (proj2 (Z.ltb_ge 0 (out_pending w))) by lia.
  - destruct n as [|n]; [lia|]. cbn [reap_loop]. destruct (_ <? _); [|done].
    pose proof (out_wait_pending t w) as Hp.
    destruct (out_wait t w) as [[[[]|e]|] w'] eqn:E; cbn [fst snd] in Hp; [|done|done].
    apply IH; lia.
Qed.

End recover.

(** ** What the thread's world promises

    [submitted] is the history of transfers handed to the endpoint and
    [received] the frames taken from the channel; the shutdown flag, once set,
    stays set. *)
Class TxLaws (W : Type) `{OutLaws W} `{FrameReceiver W} `{Shutdown W} : Type :=
  { submitted : W -> list (list Z);
    received : W -> list (list Z);
    quiet w w' := submitted w' = submitted w /\ received w' = received w /\
                  (shutdown w = true -> shutdown w' = true);
    submit_law d w :
      submitted (out_submit d w) = submitted w ++ [d] /\
      received (out_submit d w) = received w /\
      (shutdown w = true -> shutdown (out_submit d w) = true);
    wait_law t w : quiet w (snd (out_wait t w));
    cancel_law w : quiet w (out_cancel_all w);
    clear_law w : quiet w (snd (out_clear_halt w));
    try_recv_law w :
      submitted (snd (try_recv w)) = submitted w /\
      received (snd (try_recv w)) = received w ++ option_list (fst (try_recv w)) /\
      out_pending (snd (try_recv w)) = out_pending w /\
      (shutdown w = true -> shutdown (snd (try_recv w)) = true);
    recv_timeout_law t w :
      submitted (snd (recv_timeout t w)) = submitted w /\
      received (snd (recv_timeout t w)) = received w ++
        match fst (recv_timeout t w) with Frame f => [f] | _ => [] end /\
      out_pending (snd (recv_timeout t w)) = out_pending w /\
      (shutdown w = true -> shutdown (snd (recv_timeout t w)) = true) }.

Section laws.
Context {W : Type} `{TxLaws W}.

#[export] Instance quiet_preorder : PreOrder quiet.
Proof.
  split; [by intros w; split|]. intros w1 w2 w3 (E1 & F1 & S1) (E2 & F2 & S2).
  split; [congruence|]. split; [congruence|]. auto.
Qed.

Lemma recover_quiet w : quiet w (snd (recover_bulk_out w)).
Proof.
  unfold recover_bulk_out.
  assert (Hd : forall n w, quiet w
    (drain_queue out_pending (fun w => snd (out_wait DRAIN_TIMEOUT w)) n w)).
  { induction n as [|n IH]; intros w'; cbn [drain_queue]; [done|].
    destruct (_ =? 0); [done|]. etrans; [apply wait_law|apply IH]. }
  etrans; [apply cancel_law|]. etrans; [apply Hd|].
  destruct (_ <? _); [done|apply clear_law].
Qed.

Lemma reap_quiet t w : quiet w (reap t w).
Proof.
  unfold reap. generalize (Z.to_nat (out_pending w)). intros n. revert w.
  induction n as [|n IH]; intros w; cbn [reap_loop]; [done|].
  destruct (_ <? _); [|done]. pose proof (wait_law t w) as Hq.
  destruct (out_wait t w) as [[[[]|e]|] w']; cbn [snd] in Hq.
  - etrans; [done|apply IH].
  - destruct e; try done. etrans; [done|apply recover_quiet].
  - done.
Qed.

Lemma wait_room_spec fuel w b w' :
  wait_room fuel w = Some (b, w') ->
  quiet w w' /\ out_pending w' <= out_pending w /\
  if b then out_pending w' < TX_DEPTH else shutdown w' = true.
Proof.
  revert w. induction fuel as [|fuel IH]; intros w Hr; [done|]. cbn [wait_room] in Hr.
  destruct (Z.leb_spec TX_DEPTH (out_pending w)).
  - pose proof (wait_law TICK w) as Hq. pose proof (out_wait_pending TICK w) as Hp.
    destruct (out_wait TICK w) as [[r|] w1]; cbn [fst snd] in *.
    + destruct (IH _ Hr) as (Hq' & ? & ?). split; [by etrans|]. split; [lia|done].
    + destruct (shutdown w1) eqn:Es; [injection Hr as <- <-; split; [done|]; split; [lia|done]|].
      destruct (IH _ Hr) as (Hq' & ? & ?). split; [by etrans|]. split; [lia|done].
  - injection Hr as <- <-. split; [done|]. split; lia.
Qed.

(** ** Batches *)

Definition al (l : TxLimits) : Z := Z.max (alignment l) 1.

Definition limits_ok (l : TxLimits) : Prop :=
  0 <= alignment l /\ max_transfer_size l + al l <= 4294967296.

(** A frame that fits a transfer of its own. *)
Definition fits_alone (l : TxLimits) (f : list Z) : bool :=
  (0 <? max_packets l) && (Wire.DATA_HEADER_LEN + zlen f <=? max_transfer_size l).

(** The batch holds these frames. *)
Definition holding (tx : Tx W) (held : list (list Z)) : Prop :=
  limits_ok (limits tx) /\ 1 <= max_packet tx /\
  batch tx = Packet.pack (alignment (limits tx)) held /\ packets tx = zlen held /\
  (held <> [] -> zlen held <= max_packets (limits tx) /\
    zlen (batch tx) < max_transfer_size (limits tx) + al (limits tx)) /\
  Forall (Packet.frame_ok (alignment (limits tx))) held.

(** A transfer the device can take apart: one message per frame, no more of them
    than it accepts, over its size limit by padding at most, and never a
    multiple of the packet size. *)
Definition transfer_ok (l : TxLimits) (max_packet : Z) (t : list Z) : Prop :=
  exists frames, Packet.decode t = map Ok frames /\
    1 <= zlen frames <= max_packets l /\
    zlen t <= max_transfer_size l + al l /\
    (2 <= max_packet -> zlen t mod max_packet <> 0).

Lemma push_holding tx held f :
  holding tx held -> fits tx f = true -> holding (push f tx) (held ++ [f]).
Proof.
  intros ([Ha Hm] & Hmp & Hb & Hp & _ & Hok) Hf. unfold fits in Hf.
  apply andb_true_iff in Hf as [Hf1 Hf2]. apply Z.ltb_lt in Hf1. apply Z.leb_le in Hf2.
  pose proof (zlen_nonneg f). pose proof (zlen_nonneg (batch tx)).
  pose proof (Packet.message_len_bounds (zlen f) (alignment (limits tx)) ltac:(lia)).
  unfold holding, push, set_batch, al in *. cbn [limits max_packet batch packets].
  split; [done|]. split; [done|]. split; [by rewrite Packet.pack_snoc, Hb|].
  rewrite zlen_app, Packet.append_message, zlen_app, Packet.zlen_message.
  change (zlen [f]) with 1. split; [lia|]. split; [intros _; lia|].
  apply Forall_app. split; [done|]. constructor; [|constructor].
  unfold Packet.frame_ok. lia.
Qed.

(** What leaves in a flush: the batch, with one byte more when it would need a
    zero-length packet. *)
Lemma padded_transfer tx held :
  holding tx held -> held <> [] ->
  let full :=
    if zlen (batch tx) mod max_packet tx =? 0 then batch tx ++ [0] else batch tx in
  Packet.decode full = map Ok held /\ transfer_ok (limits tx) (max_packet tx) full.
Proof.
  intros ([Ha Hm] & Hmp & Hb & Hp & Hl & Hok) Hne full. destruct (Hl Hne) as [Hl1 Hl2].
  assert (Hfull : exists pad, full = batch tx ++ pad /\ zlen pad <= 1 /\
    (2 <= max_packet tx -> zlen full mod max_packet tx <> 0)).
  { unfold full. destruct (Z.eqb_spec (zlen (batch tx) mod max_packet tx) 0) as [E0|E0].
    - exists [0]. split; [done|]. split; [done|]. intros Hmp2.
      rewrite zlen_app, Z.add_mod, E0 by lia. change (zlen [0]) with 1.
      rewrite Z.mod_1_l by lia. rewrite Z.mod_1_l by lia. lia.
    - exists []. rewrite app_nil_r. split; [done|]. split; [done|]. by intros _. }
  destruct Hfull as (pad & Hfull & Hpad & Hmod).
  assert (Hdec : Packet.decode full = map Ok held).
  { rewrite Hfull, Hb. apply (Packet.decode_pack held (alignment (limits tx)) pad); [done|done|].
    unfold Wire.DATA_HEADER_LEN. lia. }
  split; [done|]. exists held. split; [done|]. split; [|split; [|done]].
  - destruct held; [done|]. rewrite zlen_cons in *. pose proof (zlen_nonneg held). lia.
  - rewrite Hfull, zlen_app. lia.
Qed.

Lemma flush_spec fuel tx tx' held :
  holding tx held -> flush fuel tx = Some tx' -> shutdown (world tx') = false ->
  exists ts,
    submitted (world tx') = submitted (world tx) ++ ts /\
    received (world tx') = received (world tx) /\
    Forall (transfer_ok (limits tx) (max_packet tx)) ts /\
    concat (map Packet.decode ts) = map Ok held /\
    holding tx' [] /\ limits tx' = limits tx /\ max_packet tx' = max_packet tx.
Proof.
  intros Hh Hf Hs. assert (Hh' := Hh). destruct Hh' as ([Ha Hm] & Hmp & Hb & Hp & Hl & Hok).
  unfold flush in Hf. destruct (Z.eqb_spec (packets tx) 0) as [E|E].
  { injection Hf as <-. destruct held; [|rewrite zlen_cons in Hp; pose proof (zlen_nonneg held); lia].
    exists []. rewrite app_nil_r. by repeat split. }
  set (full := if _ =? 0 then _ else _) in Hf.
  destruct (wait_room fuel (world tx)) as [[b w]|] eqn:Ew; [|done]. cbn in Hf.
  apply wait_room_spec in Ew as ((Es & Er & Esh) & _ & Hbw).
  destruct b; injection Hf as <-; cbn [world set_world set_batch] in *; [|congruence].
  pose proof (submit_law full w) as (S1 & S2 & _).
  pose proof (reap_quiet 0 (out_submit full w)) as (Q1 & Q2 & _).
  exists [full]. cbn [limits max_packet]. rewrite Q1, Q2, S1, S2, Es, Er.
  assert (Hne : held <> []) by (intros ->; by apply E).
  destruct (padded_transfer tx held Hh Hne) as [Hdec Hok']. fold full in Hdec, Hok'.
  split; [done|]. split; [done|].
  split; [by constructor|split; [cbn [map concat]; by rewrite app_nil_r|by repeat split]].
Qed.

Lemma fits_spec tx held f : holding tx held -> fits tx f = true -> fits_alone (limits tx) f = true.
Proof.
  intros (_ & _ & _ & Hp & _) Hf. unfold fits in Hf. unfold fits_alone.
  apply andb_true_iff in Hf as [H1' H2']. apply Z.ltb_lt in H1'. apply Z.leb_le in H2'.
  pose proof (zlen_nonneg held). pose proof (zlen_nonneg (batch tx)).
  apply andb_true_iff. split; [apply Z.ltb_lt|apply Z.leb_le]; lia.
Qed.

Lemma fits_empty tx f : holding tx [] -> fits tx f = fits_alone (limits tx) f.
Proof. intros (_ & _ & Hb & Hp & _). unfold fits, fits_alone. by rewrite Hb, Hp. Qed.

Lemma flush_shutdown fuel tx tx' :
  flush fuel tx = Some tx' -> shutdown (world tx) = true -> shutdown (world tx') = true.
Proof.
  unfold flush. intros Hf Hs. destruct (_ =? 0); [by injection Hf as <-|].
  destruct (wait_room fuel (world tx)) as [[b w]|] eqn:Ew; [|done]. cbn in Hf.
  apply wait_room_spec in Ew as ((_ & _ & Esh) & _).
  destruct b; injection Hf as <-; cbn [world set_world set_batch]; [|by apply Esh].
  apply reap_quiet, submit_law. by apply Esh.
Qed.

Lemma make_room_shutdown fuel f tx b tx' :
  make_room fuel f tx = Some (b, tx') -> shutdown (world tx) = true -> shutdown (world tx') = true.
Proof.
  unfold make_room. intros Hm Hs. destruct (fits tx f); [by injection Hm as _ <-|].
  destruct (flush fuel tx) as [tx1|] eqn:Efl; [|done]. injection Hm as _ <-.
  by apply (flush_shutdown _ _ _ Efl).
Qed.

Lemma fill_shutdown fuel f tx tx' :
  fill fuel f tx = Some tx' -> shutdown (world tx) = true -> shutdown (world tx') = true.
Proof.
  revert f tx. induction fuel as [|fuel IH]; intros f tx Hf Hs; [done|]. cbn [fill] in Hf.
  destruct (make_room fuel f tx) as [[b tx1]|] eqn:Em; [|done]. cbn in Hf.
  pose proof (make_room_shutdown _ _ _ _ _ Em Hs) as Hs1.
  destruct b; [|by injection Hf as <-].
  pose proof (try_recv_law (world tx1)) as (_ & _ & _ & Hm).
  destruct (try_recv (world tx1)) as [[g|] w]; cbn [fst snd] in *.
  - apply (IH _ _ Hf). cbn. by apply Hm.
  - injection Hf as <-. cbn. by apply Hm.
Qed.

(** What a stretch of the thread does to the world: frames [new] are taken, and
    those that fit a transfer, after the ones held before, leave in [ts] or are
    held after. *)
Definition moves (tx tx' : Tx W) (held held' new : list (list Z)) (ts : list (list Z)) : Prop :=
  submitted (world tx') = submitted (world tx) ++ ts /\
  Forall (transfer_ok (limits tx) (max_packet tx)) ts /\
  concat (map Packet.decode ts) ++ map Ok held' =
    map Ok (held ++ List.filter (fits_alone (limits tx)) new) /\
  holding tx' held' /\ limits tx' = limits tx /\ max_packet tx' = max_packet tx.

Lemma moves_trans tx1 tx2 tx3 h1 h2 h3 n1 n2 t1 t2 :
  moves tx1 tx2 h1 h2 n1 t1 -> moves tx2 tx3 h2 h3 n2 t2 ->
  moves tx1 tx3 h1 h3 (n1 ++ n2) (t1 ++ t2).
Proof.
  intros (S1 & T1 & D1 & H1' & L1 & M1) (S2 & T2 & D2 & H2' & L2 & M2).
  rewrite L1, M1 in *. split; [by rewrite S2, S1, app_assoc|].
  split; [by apply Forall_app|]. split; [|split; [done|split; congruence]].
  rewrite map_app, concat_app, <- app_assoc, D2, map_app, app_assoc, D1, <- map_app, <- app_assoc.
  by rewrite List.filter_app.
Qed.

Lemma make_room_spec fuel f tx b tx' held :
  make_room fuel f tx = Some (b, tx') -> shutdown (world tx') = false -> holding tx held ->
  exists ts held', received (world tx') = received (world tx) /\
    moves tx tx' held held' [] ts /\ fits tx' f = b /\
    fits_alone (limits tx) f = b /\ (b = false -> held' = []).
Proof.
  unfold make_room. intros Hm Hs Hh. destruct (fits tx f) eqn:Efit.
  - injection Hm as <- <-. exists [], held. split; [done|].
    split; [|split; [done|split; [by apply (fits_spec tx held)|done]]].
    split; [by rewrite app_nil_r|]. split; [constructor|]. cbn. by rewrite app_nil_r.
  - destruct (flush fuel tx) as [tx1|] eqn:Efl; [|done]. injection Hm as <- <-.
    destruct (flush_spec _ _ _ _ Hh Efl Hs) as (ts & S1 & R1 & T1 & D1 & Hh1 & L1 & M1).
    exists ts, []. split; [done|]. split; [|split; [done|split; [|done]]].
    + split; [done|]. split; [done|]. cbn [map List.filter]. by rewrite !app_nil_r.
    + by rewrite fits_empty, L1.
Qed.

Lemma fill_spec fuel f tx tx' held :
  fill fuel f tx = Some tx' -> shutdown (world tx') = false -> holding tx held ->
  exists new ts held',
    received (world tx') = received (world tx) ++ new /\
    moves tx tx' held held' (f :: new) ts.
Proof.
  revert f tx held. induction fuel as [|fuel IH]; intros f tx held Hf Hs Hh; [done|].
  cbn [fill] in Hf. destruct (make_room fuel f tx) as [[b tx1]|] eqn:Em; [|done]. cbn in Hf.
  assert (Hs1 : shutdown (world tx1) = false).
  { apply not_true_is_false. intros E. apply not_true_iff_false in Hs. apply Hs.
    destruct b; [|by injection Hf as <-].
    pose proof (try_recv_law (world tx1)) as (_ & _ & _ & Hm).
    destruct (try_recv (world tx1)) as [[g|] w]; cbn [fst snd] in *.
    - apply (fill_shutdown _ _ _ _ Hf). cbn. by apply Hm.
    - injection Hf as <-. cbn. by apply Hm. }
  destruct (make_room_spec _ _ _ _ _ _ Em Hs1 Hh) as (ts1 & h1 & R1 & Hm1 & Hfit & Hal & Hb).
  assert (Hh1 : holding tx1 h1) by apply Hm1.
  assert (L1 : limits tx1 = limits tx) by apply Hm1.
  destruct b.
  - pose proof (push_holding _ _ _ Hh1 Hfit) as Hp.
    pose proof (try_recv_law (world tx1)) as (Hsub & Hrec & _ & _).
    destruct (try_recv (world tx1)) as [g w]; cbn [fst snd] in *.
    set (tx2 := set_world w (push f tx1)) in Hf.
    assert (Hm2 : moves tx1 tx2 h1 (h1 ++ [f]) [f] []).
    { split; [by rewrite app_nil_r|]. split; [constructor|].
      cbn [map concat app List.filter]. rewrite L1, Hal. by split. }
    pose proof (moves_trans _ _ _ _ _ _ [] [f] ts1 [] Hm1 Hm2) as Hm12.
    destruct g as [g|]; cbn [option_list] in *.
    + destruct (IH g tx2 (h1 ++ [f]) Hf Hs Hp) as (new & ts & held' & Hr & Hmv).
      exists (g :: new), ((ts1 ++ []) ++ ts), held'. split.
      * rewrite Hr. cbn [tx2 world set_world]. rewrite Hrec.
        rewrite R1. by rewrite <- app_assoc.
      * apply (moves_trans _ _ _ _ _ _ [f] (g :: new) _ ts Hm12 Hmv).
    + injection Hf as <-. exists [], (ts1 ++ []), (h1 ++ [f]). split; [|done].
      cbn [tx2 world set_world]. rewrite Hrec. by rewrite R1.
  - injection Hf as <-. exists [], ts1, h1. split; [by rewrite app_nil_r|].
    destruct Hm1 as (S1 & T1 & D1 & Hrest). split; [done|]. split; [done|].
    split; [|exact Hrest]. rewrite D1. cbn [List.filter]. by rewrite Hal.
Qed.

Lemma burst_spec fuel f tx tx' :
  burst fuel f tx = Some tx' -> shutdown (world tx') = false -> holding tx [] ->
  exists new ts,
    received (world tx') = received (world tx) ++ new /\ moves tx tx' [] [] (f :: new) ts.
Proof.
  unfold burst. intros Hb Hs Hh. destruct (fill fuel f tx) as [tx1|] eqn:Ef; [|done].
  cbn in Hb. assert (Hs1 : shutdown (world tx1) = false).
  { apply not_true_is_false. intros E. rewrite (flush_shutdown _ _ _ Hb E) in Hs. done. }
  destruct (fill_spec _ _ _ _ _ Ef Hs1 Hh) as (new & ts1 & h1 & R1 & Hm1).
  assert (Hh1 : holding tx1 h1) by apply Hm1.
  destruct (flush_spec _ _ _ _ Hh1 Hb Hs) as (ts2 & S2 & R2 & T2 & D2 & Hh2 & L2 & M2).
  assert (Hm2 : moves tx1 tx' h1 [] [] ts2).
  { split; [done|]. split; [done|]. cbn [map List.filter]. by rewrite !app_nil_r. }
  exists new, (ts1 ++ ts2). split; [by rewrite R2|].
  pose proof (moves_trans _ _ _ _ _ _ _ _ _ _ Hm1 Hm2) as Hm. by rewrite app_nil_r in Hm.
Qed.

(** ** The queue of the endpoint *)

Lemma flush_pending fuel tx tx' :
  flush fuel tx = Some tx' -> out_pending (world tx) <= TX_DEPTH ->
  out_pending (world tx') <= TX_DEPTH.
Proof.
  unfold flush. intros Hf Hp. destruct (_ =? 0); [by injection Hf as <-|].
  destruct (wait_room fuel (world tx)) as [[b w]|] eqn:Ew; [|done]. cbn in Hf.
  apply wait_room_spec in Ew as (_ & Hle & Hb).
  destruct b; injection Hf as <-; cbn [world set_world set_batch]; [|lia].
  etrans; [apply reap_loop_pending|]. rewrite out_submit_pending. lia.
Qed.

Lemma fill_pending fuel f tx tx' :
  fill fuel f tx = Some tx' -> out_pending (world tx) <= TX_DEPTH ->
  out_pending (world tx') <= TX_DEPTH.
Proof.
  revert f tx. induction fuel as [|fuel IH]; intros f tx Hf Hp; [done|]. cbn [fill] in Hf.
  destruct (make_room fuel f tx) as [[b tx1]|] eqn:Em; [|done]. cbn in Hf.
  assert (Hp1 : out_pending (world tx1) <= TX_DEPTH).
  { unfold make_room in Em. destruct (fits tx f); [by injection Em as _ <-|].
    destruct (flush fuel tx) as [tx2|] eqn:Efl; [|done]. injection Em as _ <-.
    by apply (flush_pending _ _ _ Efl). }
  destruct b; [|by injection Hf as <-].
  pose proof (try_recv_law (world tx1)) as (_ & _ & Hq & _).
  destruct (try_recv (world tx1)) as [[g|] w]; cbn [fst snd] in *.
  - apply (IH _ _ Hf). cbn. lia.
  - injection Hf as <-. cbn. lia.
Qed.

(** The queue is full and the [n] next waits are all empty ticks without a
    shutdown. *)
Fixpoint silent (n : nat) (w : W) : Prop :=
  match n with
  | O => True
  | S n =>
      TX_DEPTH <= out_pending w /\ fst (out_wait TICK w) = None /\ shutdown (snd (out_wait TICK w)) = false /\
      silent n (snd (out_wait TICK w))
  end.

Lemma wait_room_mono n m w r : wait_room n w = Some r -> (n <= m)%nat -> wait_room m w = Some r.
Proof.
  revert m w. induction n as [|n IH]; intros m w Hr Hm; [done|].
  destruct m as [|m]; [lia|]. cbn [wait_room] in *. destruct (_ <=? _); [|done].
  destruct (out_wait TICK w) as [[x|] w']; [apply IH; [done|lia]|].
  destruct (shutdown w'); [done|apply IH; [done|lia]].
Qed.

Lemma wait_room_finishes k p n w :
  (forall w, ~ silent k w) -> out_pending w <= Z.of_nat p -> ~ silent n w -> (n <= k)%nat ->
  exists r, wait_room (n + k * p + 1) w = Some r.
Proof.
  intros Hk. revert n w. induction p as [|p IHp]; intros n w Hp Hn Hle.
  - replace (n + k * 0 + 1)%nat with (S n) by lia. cbn [wait_room]. unfold TX_DEPTH.
    rewrite (proj2 (Z.leb_gt 8 (out_pending w))) by lia. by eexists.
  - revert w Hp Hn. induction n as [|n IHn]; intros w Hp Hn; [by destruct Hn|].
    change (S n + k * S p + 1)%nat with (S (n + k * S p + 1)). cbn [wait_room].
    destruct (Z.leb_spec TX_DEPTH (out_pending w)); [|by eexists].
    pose proof (out_wait_pending TICK w) as Hw. cbn [silent] in Hn.
    destruct (out_wait TICK w) as [[x|] w']; cbn [fst snd] in *.
    + destruct (IHp k w' ltac:(lia) (Hk w') ltac:(lia)) as [r Hr]. exists r.
      apply (wait_room_mono _ _ _ _ Hr). lia.
    + destruct (shutdown w') eqn:Es; [by eexists|].
      apply (IHn ltac:(lia) w'); [lia|]. intros Hs. by apply Hn.
Qed.

(** ** A burst ends

    A measure the endpoint's operations do not add to. *)
Class Spent (m : W -> nat) : Prop :=
  { spent_submit d w : (m (out_submit d w) <= m w)%nat;
    spent_wait t w : (m (snd (out_wait t w)) <= m w)%nat;
    spent_cancel w : (m (out_cancel_all w) <= m w)%nat;
    spent_clear w : (m (snd (out_clear_halt w)) <= m w)%nat }.

Section spent.
Context (m : W -> nat) `{!Spent m}.

Lemma recover_spends w : (m (snd (recover_bulk_out w)) <= m w)%nat.
Proof.
  unfold recover_bulk_out.
  assert (Hd : forall n w, (m
    (drain_queue out_pending (fun w => snd (out_wait DRAIN_TIMEOUT w)) n w) <= m w)%nat).
  { induction n as [|n IH]; intros w'; cbn [drain_queue]; [done|].
    destruct (_ =? 0); [lia|]. etrans; [apply IH|apply spent_wait]. }
  etrans; [|apply spent_cancel]. etrans; [|apply (Hd (Z.to_nat (TX_DEPTH + 1)))].
  destruct (_ <? _); [cbn [snd]; lia|apply spent_clear].
Qed.

Lemma reap_spends t w : (m (reap t w) <= m w)%nat.
Proof.
  unfold reap. generalize (Z.to_nat (out_pending w)). intros n. revert w.
  induction n as [|n IH]; intros w; cbn [reap_loop]; [lia|].
  destruct (_ <? _); [|lia]. pose proof (spent_wait t w) as Hq.
  destruct (out_wait t w) as [[[[]|e]|] w']; cbn [snd] in Hq.
  - etrans; [apply IH|done].
  - destruct e; try lia. etrans; [apply recover_spends|done].
  - lia.
Qed.

Lemma wait_room_spends fuel w b w' :
  wait_room fuel w = Some (b, w') -> (m w' <= m w)%nat.
Proof.
  revert w. induction fuel as [|fuel IH]; intros w Hr; [done|]. cbn [wait_room] in Hr.
  destruct (_ <=? _); [|injection Hr as _ <-; lia]. pose proof (spent_wait TICK w) as Hc.
  destruct (out_wait TICK w) as [[r|] w1]; cbn [snd] in Hc.
  - etrans; [by apply (IH _ Hr)|done].
  - destruct (shutdown w1); [injection Hr as _ <-; lia|]. etrans; [by apply (IH _ Hr)|done].
Qed.

Lemma flush_spends fuel tx tx' :
  flush fuel tx = Some tx' -> (m (world tx') <= m (world tx))%nat.
Proof.
  unfold flush. intros Hf. destruct (_ =? 0); [injection Hf as <-; lia|].
  destruct (wait_room fuel (world tx)) as [[b w]|] eqn:Ew; [|done]. cbn in Hf.
  apply wait_room_spends in Ew.
  destruct b; injection Hf as <-; cbn [world set_world set_batch]; [|done].
  etrans; [apply reap_spends|]. etrans; [apply spent_submit|done].
Qed.

End spent.

(** [coming] is how many frames the thread will take from the channel before it
    finds it empty: those that are queued, and those that arrive in time. *)
Class Backlog : Type :=
  { coming : W -> nat;
    coming_spent :: Spent coming;
    coming_recv w : (coming (snd (try_recv w)) <= coming w -
                       match fst (try_recv w) with Some _ => 1 | None => 0 end)%nat;
    coming_some w f : fst (try_recv w) = Some f -> (0 < coming w)%nat }.

Section ends.
Context (k : nat) (Hk : forall w, ~ silent k w).

(** Fuel for one flush, whatever is in flight. *)
Definition flush_fuel : nat := (k + k * Z.to_nat TX_DEPTH + 1)%nat.

Lemma flush_ends fuel tx :
  out_pending (world tx) <= TX_DEPTH -> (flush_fuel <= fuel)%nat ->
  exists tx', flush fuel tx = Some tx' /\ out_pending (world tx') <= TX_DEPTH.
Proof.
  intros Hp Hf. pose proof (out_pending_nonneg (world tx)) as Hn.
  destruct (wait_room_finishes k (Z.to_nat (out_pending (world tx))) k (world tx) Hk)
    as [[b w] Hr]; [lia|apply Hk|lia|].
  apply (wait_room_mono _ fuel) in Hr; [|unfold flush_fuel in Hf; nia].
  assert (He : exists tx', flush fuel tx = Some tx').
  { unfold flush. destruct (_ =? 0); [by eexists|]. rewrite Hr. cbn. destruct b; by eexists. }
  destruct He as [tx' He]. exists tx'. split; [done|]. by apply (flush_pending _ _ _ He).
Qed.

Lemma fill_ends `{Backlog} fuel f tx :
  out_pending (world tx) <= TX_DEPTH -> (flush_fuel + coming (world tx) < fuel)%nat ->
  exists tx', fill fuel f tx = Some tx' /\ (coming (world tx') <= coming (world tx))%nat.
Proof.
  revert f tx. induction fuel as [|fuel IH]; intros f tx Hp Hf; [lia|]. cbn [fill].
  assert (Hm : exists b tx1, make_room fuel f tx = Some (b, tx1) /\
    out_pending (world tx1) <= TX_DEPTH /\ (coming (world tx1) <= coming (world tx))%nat).
  { unfold make_room. destruct (fits tx f); [eexists _, _; split; [done|]; split; [done|lia]|].
    destruct (flush_ends fuel tx Hp ltac:(lia)) as (tx1 & E & Hp1).
    pose proof (flush_spends coming _ _ _ E). rewrite E. cbn. by eexists _, _. }
  destruct Hm as (b & tx1 & -> & Hp1 & Hc1). cbn. destruct b; [|by exists tx1].
  pose proof (try_recv_law (world tx1)) as (_ & _ & Hq & _).
  pose proof (coming_recv (world tx1)) as Hr. pose proof (coming_some (world tx1)) as Hs.
  destruct (try_recv (world tx1)) as [[g|] w]; cbn [fst snd] in *; [|eexists; split; [done|cbn; lia]].
  specialize (Hs g eq_refl). set (tx2 := set_world w (push f tx1)).
  destruct (IH g tx2) as (tx' & E & Hc'); [cbn; lia|cbn; lia|].
  exists tx'. split; [done|]. cbn in Hc'. lia.
Qed.

(** A burst ends, and leaves no more to come. *)
Lemma burst_ends `{Backlog} fuel f tx :
  out_pending (world tx) <= TX_DEPTH -> (flush_fuel + coming (world tx) < fuel)%nat ->
  exists tx', burst fuel f tx = Some tx' /\ out_pending (world tx') <= TX_DEPTH /\
    (coming (world tx') <= coming (world tx))%nat.
Proof.
  intros Hp Hf. destruct (fill_ends fuel f tx Hp Hf) as (tx1 & E1 & Hc1).
  pose proof (fill_pending _ _ _ _ E1 Hp) as Hp1.
  destruct (flush_ends fuel tx1 Hp1 ltac:(lia)) as (tx' & E2 & Hp2).
  exists tx'. split; [unfold burst; by rewrite E1|]. split; [done|].
  pose proof (flush_spends coming _ _ _ E2). lia.
Qed.

End ends.

(** ** Properties *)

(** C10. A burst ends and delivers. If the device, or a shutdown, breaks every
    silence within [k] ticks, and [coming] frames reach the channel before it is
    found empty, a burst ends within [flush_fuel k + coming + 1] turns, with at
    most [TX_DEPTH] transfers in flight. When the thread is not being shut down,
    the frames it took from the channel have left in order, none lost, duplicated
    or reordered, except those no transfer could carry; every transfer is one the
    device can take apart and needs no zero-length packet; and nothing stays
    behind. *)
Theorem burst_delivers `{Backlog} k fuel f tx :
  (forall w, ~ silent k w) -> out_pending (world tx) <= TX_DEPTH -> holding tx [] ->
  (flush_fuel k + coming (world tx) < fuel)%nat ->
  exists tx', burst fuel f tx = Some tx' /\ out_pending (world tx') <= TX_DEPTH /\
    (shutdown (world tx') = false ->
     exists new ts,
       received (world tx') = received (world tx) ++ new /\
       submitted (world tx') = submitted (world tx) ++ ts /\
       concat (map Packet.decode ts) = map Ok (List.filter (fits_alone (limits tx)) (f :: new)) /\
       Forall (transfer_ok (limits tx) (max_packet tx)) ts /\
       holding tx' []).
Proof.
  intros Hk Hp Hh Hf. destruct (burst_ends k Hk fuel f tx Hp Hf) as (tx' & Hb & Hp2 & _).
  exists tx'. split; [done|]. split; [done|]. intros Hs.
  destruct (burst_spec _ _ _ _ Hb Hs Hh) as (new & ts & R & S1 & T1 & D1 & H' & _).
  exists new, ts. cbn [map app] in D1. rewrite app_nil_r in D1. by repeat split; try apply H'.
Qed.

(** The senders go away: before they do, the thread takes at most [coming] frames
    or waits as often for nothing. *)
Class Closing `{Backlog} : Prop :=
  { coming_tick w : fst (recv_timeout TICK w) <> HungUp ->
      (coming (snd (recv_timeout TICK w)) < coming w)%nat }.

Lemma burst_shutdown fuel f tx tx' :
  burst fuel f tx = Some tx' -> shutdown (world tx) = true -> shutdown (world tx') = true.
Proof.
  unfold burst. intros Hb Hs. destruct (fill fuel f tx) as [tx1|] eqn:Ef; [|done].
  apply (flush_shutdown _ _ _ Hb). by apply (fill_shutdown _ _ _ _ Ef).
Qed.

Lemma tx_run_shutdown fuel tx tx' :
  tx_run fuel tx = Some tx' -> shutdown (world tx) = true -> shutdown (world tx') = true.
Proof.
  destruct fuel as [|fuel]; [done|]. cbn [tx_run]. intros E Hs. rewrite Hs in E. injection E as <-.
  by apply reap_quiet.
Qed.

(** What is left when a stretch of the thread is not followed by a shutdown: the
    frames [new] it took have all left, but for those no transfer could carry. *)
Definition delivered (tx tx' : Tx W) : Prop :=
  exists new ts,
    received (world tx') = received (world tx) ++ new /\ moves tx tx' [] [] new ts.

Lemma delivered_trans tx1 tx2 tx3 : delivered tx1 tx2 -> delivered tx2 tx3 -> delivered tx1 tx3.
Proof.
  intros (n1 & t1 & R1 & M1) (n2 & t2 & R2 & M2). exists (n1 ++ n2), (t1 ++ t2).
  split; [by rewrite R2, R1, app_assoc|]. by eapply moves_trans.
Qed.

(** The thread has found the senders gone, and seen its last transfers out. *)
Definition hung_up (tx : Tx W) : Prop :=
  exists w, fst (recv_timeout TICK w) = HungUp /\
    world tx = reap (from_millis 500) (snd (recv_timeout TICK w)).

Lemma run_delivers `{Closing} k fuel tx :
  (forall w, ~ silent k w) -> out_pending (world tx) <= TX_DEPTH -> holding tx [] ->
  (flush_fuel k + coming (world tx) + 1 < fuel)%nat ->
  exists tx', tx_run fuel tx = Some tx' /\ (shutdown (world tx') = false -> hung_up tx' /\ delivered tx tx').
Proof.
  intros Hk. revert tx. induction fuel as [|fuel IH]; intros tx Hp Hh Hf; [lia|].
  cbn [tx_run]. destruct (shutdown (world tx)) eqn:Es.
  { eexists. split; [done|]. cbn. intros Hs.
    pose proof (reap_quiet (from_millis 500) (world tx)) as (_ & _ & Hq). by rewrite (Hq Es) in Hs. }
  pose proof (recv_timeout_law TICK (world tx)) as (Hsub & Hrec & Hpe & Hsh).
  pose proof (coming_tick (world tx)) as Hc.
  destruct (recv_timeout TICK (world tx)) as [[f| |] w] eqn:Er; cbn [fst snd] in *.
  - destruct (burst_ends k Hk fuel f (set_world w tx)) as (tx1 & E1 & Hp1 & Hc1);
      [cbn; lia|cbn; specialize (Hc ltac:(done)); lia|].
    cbn in Hc1. specialize (Hc ltac:(done)). rewrite E1. cbn [mbind option_bind].
    destruct (shutdown (world tx1)) eqn:Es1.
    { destruct fuel as [|fuel]; [lia|]. cbn [tx_run]. rewrite Es1. eexists. split; [done|].
      cbn. intros Hs. pose proof (reap_quiet (from_millis 500) (world tx1)) as (_ & _ & Hq).
      by rewrite (Hq Es1) in Hs. }
    destruct (burst_spec _ _ _ _ E1 Es1 Hh) as (new & ts & R & M).
    destruct (IH tx1) as (tx' & E & Hd); [done|apply M|lia|].
    exists tx'. split; [done|]. intros Hs. destruct (Hd Hs) as [Hg Hd'].
    split; [exact Hg|]. eapply delivered_trans; [|exact Hd'].
    exists (f :: new), ts. split; [rewrite R; cbn; by rewrite Hrec, <- app_assoc|].
    destruct M as (S1 & M). split; [rewrite S1; cbn; by rewrite Hsub|exact M].
  - set (tx1 := set_world (reap 0 w) tx).
    assert (Hp1 : out_pending (world tx1) <= TX_DEPTH) by (cbn; etrans; [apply reap_loop_pending|lia]).
    assert (Hc1 : (coming (world tx1) <= coming w)%nat) by apply (reap_spends coming).
    specialize (Hc ltac:(done)). destruct (IH tx1) as (tx' & E & Hd); [done|done|lia|].
    exists tx'. split; [done|]. intros Hs. destruct (Hd Hs) as [Hg Hd'].
    split; [exact Hg|]. eapply delivered_trans; [|exact Hd'].
    pose proof (reap_quiet 0 w) as (Q1 & Q2 & Q3). rewrite app_nil_r in Hrec.
    exists [], []. cbn. rewrite !app_nil_r. split; [congruence|].
    split; [cbn; rewrite app_nil_r; congruence|]. by split; [constructor|].
  - eexists. split; [done|]. intros _. split.
    { exists (world tx). by rewrite Er. }
    rewrite app_nil_r in Hrec.
    pose proof (reap_quiet (from_millis 500) w) as (Q1 & Q2 & Q3).
    exists [], []. cbn. rewrite !app_nil_r. split; [congruence|].
    split; [cbn; rewrite app_nil_r; congruence|]. by split; [constructor|].
Qed.

(** C13. The transmit thread ends when it should, and delivers. If the device, or a
    shutdown, breaks every silence within [k] ticks, and the senders are gone after
    [coming] frames and empty waits, the thread returns. Unless it was shut down,
    it returned because it found the senders gone, and every frame it took from the channel has left, in order, each once, except
    those no transfer could carry, whatever bursts they came in; every transfer is
    one the device can take apart and needs no zero-length packet. *)
Theorem loop_delivers `{Closing} k fuel l (w : W) :
  (forall w, ~ silent k w) -> out_pending w <= TX_DEPTH -> limits_ok l ->
  (flush_fuel k + coming w + 1 < fuel)%nat ->
  exists tx', tx_loop fuel l w = Some tx' /\
    (shutdown (world tx') = false ->
     hung_up tx' /\ exists new ts,
       received (world tx') = received w ++ new /\
       submitted (world tx') = submitted w ++ ts /\
       concat (map Packet.decode ts) = map Ok (List.filter (fits_alone l) new) /\
       Forall (transfer_ok l (Z.max (out_max_packet_size w) 1)) ts).
Proof.
  intros Hk Hp Hl Hf. unfold tx_loop. set (tx := mkTx w l _ [] 0 0 0 0).
  assert (Hh : holding tx []).
  { split; [done|]. split; [cbn; lia|]. split; [done|]. split; [done|].
    split; [done|apply List.Forall_nil]. }
  destruct (run_delivers k fuel tx Hk Hp Hh Hf) as (tx' & E & Hd). exists tx'. split; [done|].
  intros Hs. destruct (Hd Hs) as [Hg (new & ts & R & S1 & T1 & D1 & _)].
  split; [exact Hg|]. exists new, ts.
  cbn [map app] in D1. rewrite app_nil_r in D1. by repeat split.
Qed.

(** C23. The writes in flight never exceed [TX_DEPTH], and a flush finishes: if the
    device, or a shutdown, breaks every silence within [k] ticks, [k] times one
    more than the transfers pending (and one) is fuel enough. *)
Theorem flush_bounded k tx :
  (forall w, ~ silent k w) -> out_pending (world tx) <= TX_DEPTH ->
  exists tx', flush (k + k * Z.to_nat (out_pending (world tx)) + 1) tx = Some tx' /\
    out_pending (world tx') <= TX_DEPTH.
Proof.
  intros Hk Hp.
  destruct (wait_room_finishes k (Z.to_nat (out_pending (world tx))) k (world tx) Hk)
    as [[b w] Hr]; [pose proof (out_pending_nonneg (world tx)); lia|apply Hk|lia|].
  assert (Hf : exists tx', flush (k + k * Z.to_nat (out_pending (world tx)) + 1) tx = Some tx').
  { unfold flush. destruct (_ =? 0); [by eexists|]. rewrite Hr. cbn. destruct b; by eexists. }
  destruct Hf as [tx' Hf]. exists tx'. split; [done|]. by apply (flush_pending _ _ _ Hf).
Qed.

End laws.

(** ** A world to run the thread in

    The endpoint completes one transfer per wait; the channel holds the queued
    frames and hangs up when they are gone. *)
Record SimTx : Type := mkSim
  { queued : list (list Z); in_flight : nat; wire : list (list Z); taken : list (list Z);
    down : bool }.

#[export] Instance sim_out : OutEndpoint SimTx :=
  { out_max_packet_size _ := 64;
    out_pending w := Z.of_nat (in_flight w);
    out_submit d w := mkSim (queued w) (S (in_flight w)) (wire w ++ [d]) (taken w) (down w);
    out_wait _ w :=
      match in_flight w with
      | O => (None, w)
      | S n => (Some (ok tt), mkSim (queued w) n (wire w) (taken w) (down w))
      end;
    out_cancel_all w := w;
    out_clear_halt w := (ok tt, w) }.

Definition sim_take (w : SimTx) : option (list Z) * SimTx :=
  match queued w with
  | [] => (None, w)
  | f :: q => (Some f, mkSim q (in_flight w) (wire w) (taken w ++ [f]) (down w))
  end.

#[export] Instance sim_recv : FrameReceiver SimTx :=
  { recv_timeout _ w :=
      let '(o, w) := sim_take w in (match o with Some f => Frame f | None => HungUp end, w);
    try_recv := sim_take }.

#[export] Instance sim_shutdown : Shutdown SimTx := down.

#[export] Instance sim_out_laws : OutLaws SimTx.
Proof.
  split; intros; cbn; try lia. destruct w as [q [|n] ws tk d]; cbn; lia.
Qed.

#[export] Instance sim_laws : TxLaws SimTx.
Proof.
  refine {| submitted := wire; received := taken |}; unfold shutdown, sim_shutdown; cbn.
  - by intros d w.
  - intros _ w. by destruct (in_flight w).
  - by intros w.
  - by intros w.
  - intros w. unfold sim_take. destruct (queued w); cbn; by rewrite ?app_nil_r.
  - intros _ w. unfold sim_take. destruct (queued w); cbn; by rewrite ?app_nil_r.
Defined.

Definition sim_start (frames : list (list Z)) : SimTx := mkSim frames 0 [] [] false.

Definition small_limits : TxLimits := mkLimits 128 2 4.

Definition sim_tx (l : TxLimits) (frames : list (list Z)) : Tx SimTx :=
  mkTx (sim_start frames) l 64 [] 0 0 0 0.

#[export] Instance sim_backlog : Backlog (W := SimTx).
Proof.
  refine {| coming w := length (queued w) |}.
  - split; intros; cbn; [done..| |done|done]. by destruct (in_flight w).
  - intros w. cbn. unfold sim_take. destruct (queued w) as [|g q] eqn:E; cbn [fst snd queued length];
      rewrite ?E; cbn [length]; lia.
  - intros w f E. cbn in E. unfold sim_take in E. destruct (queued w) as [|g q]; [done|]. cbn [length]. lia.
Defined.

#[export] Instance sim_closing : Closing (W := SimTx).
Proof.
  split. intros w E. cbn in E |- *. unfold sim_take in *. destruct (queued w) as [|g q]; [done|].
  cbn. lia.
Qed.

(** The simulated endpoint is never silent while something is in flight. *)
Lemma sim_never_silent (w : SimTx) : ~ silent 1 w.
Proof. intros (Hp & Hn & _). cbn in Hp, Hn. destruct (in_flight w); [unfold TX_DEPTH in Hp; lia|done]. Qed.

(** The third frame, too long for any transfer, ends the burst; the fourth stays
    in the channel. *)
Lemma burst_delivers_witness :
  exists tx' new ts,
    burst 20 [1; 2; 3] (sim_tx small_limits [[4]; replicate 90 0; [5; 6]]) = Some tx' /\
    taken (world tx') = new /\ wire (world tx') = ts /\
    concat (map Packet.decode ts) =
      map Ok (List.filter (fits_alone small_limits) ([1; 2; 3] :: new)) /\
    zlen ts = 1 /\ zlen new = 2.
Proof.
  set (tx := sim_tx small_limits [[4]; replicate 90 0; [5; 6]]).
  assert (Hh : holding tx []).
  { split; [by split|]. split; [done|]. split; [done|]. split; [done|].
    split; [done|apply List.Forall_nil]. }
  destruct (burst_delivers 1 20 [1; 2; 3] tx sim_never_silent) as (tx' & E & _ & Hd);
    [by vm_compute|done|apply Nat.ltb_lt; by vm_compute|].
  assert (Es : match burst 20 [1; 2; 3] tx with
    | Some tx' => down (world tx') = false /\ zlen (wire (world tx')) = 1 /\
        zlen (taken (world tx')) = 2
    | None => False
    end) by (vm_compute; by repeat split).
  rewrite E in Es. destruct Es as (Es & Hw & Ht).
  destruct (Hd Es) as (new & ts & R & S1 & D & _). cbn in R, S1. subst new ts.
  exists tx', (taken (world tx')), (wire (world tx')). by repeat split.
Defined.

(** Both bursts of the same channel: the second takes the frame after the one that
    was too long, and the thread returns when the senders have hung up. *)
Lemma loop_delivers_witness :
  exists tx' ts,
    tx_loop 30 small_limits (sim_start [[1; 2; 3]; [4]; replicate 90 0; [5; 6]]) = Some tx' /\
    wire (world tx') = ts /\ zlen ts = 2 /\
    concat (map Packet.decode ts) = map Ok [[1; 2; 3]; [4]; [5; 6]].
Proof.
  set (w := sim_start [[1; 2; 3]; [4]; replicate 90 0; [5; 6]]).
  destruct (loop_delivers 1 30 small_limits w sim_never_silent) as (tx' & E & Hd);
    [by vm_compute|by split|apply Nat.ltb_lt; by vm_compute|].
  assert (Es : match tx_loop 30 small_limits w with
    | Some tx' => down (world tx') = false /\ zlen (wire (world tx')) = 2 /\
        List.filter (fits_alone small_limits) (taken (world tx')) = [[1; 2; 3]; [4]; [5; 6]]
    | None => False
    end) by (vm_compute; by repeat split).
  rewrite E in Es. destruct Es as (Es & Hw & Ht).
  destruct (Hd Es) as [_ (new & ts & R & S1 & D & _)]. cbn in R, S1. subst new ts.
  exists tx', (wire (world tx')). split; [exact E|]. split; [reflexivity|]. split; [exact Hw|].
  rewrite D. by rewrite Ht.
Defined.

Definition full_tx : Tx SimTx :=
  mkTx (mkSim [] 8 [] [] false) small_limits 64 (Packet.pack 4 [[7]]) 1 0 0 0.

Lemma flush_bounded_witness :
  exists tx', flush 10 full_tx = Some tx' /\ out_pending (world tx') <= TX_DEPTH.
Proof.
  change 10%nat with (1 + 1 * Z.to_nat (out_pending (world full_tx)) + 1)%nat.
  apply (flush_bounded (W := SimTx) 1 full_tx); [apply sim_never_silent|by vm_compute].
Defined.

(** [fits] counts neither the padding [append] adds nor the byte [flush] adds:
    a frame that fits can leave in a transfer longer than the limit. *)
Lemma transfer_over_limit :
  exists tx', burst 2 (replicate 20 0) (sim_tx (mkLimits 64 1 1) []) = Some tx' /\
    map zlen (wire (world tx')) = [65] /\ max_transfer_size (limits tx') = 64.
Proof. eexists. split; [vm_compute; reflexivity|]. by vm_compute. Qed.

Lemma padding_over_limit :
  exists tx', burst 2 (replicate 20 0) (sim_tx (mkLimits 100 1 128) []) = Some tx' /\
    map zlen (wire (world tx')) = [129].
Proof. eexists. split; [vm_compute; reflexivity|]. by vm_compute. Qed.

End Tx.
