(* ===== verification/Rx.v ===== *)
(** * The receive thread

    [src/link.rs], lines 34-73, 334-358 and 377-582: inbound transfers to ARP,
    DHCP and the IP sink, the DHCP timer, stall recovery, and the loop. The
    thread's world gives it the bulk IN endpoint, the clock and the shutdown
    flag; what it sends to other threads is kept in order in its context. *)
From Stdlib Require Import ZArith Lia.
From stdpp Require Import base numbers list strings pretty.
From S2P Require Import Prelude Ethernet Arp UdpIp Dhcp Wire Packet Backend Tx.

Open Scope Z_scope.

(** [SwitchableSink]: packets before the tunnel exists are counted and
    dropped. [S] is the attached sink. *)
Module Sink.

Record SwitchableSink (S : Type) : Type := mkSink
  { inner : option S; delivered : Z; bytes_in : Z; dropped : Z }.

Arguments mkSink {S} _ _ _ _.
Arguments inner {S} _.
Arguments delivered {S} _.
Arguments bytes_in {S} _.
Arguments dropped {S} _.

(** [fetch_add] on an [AtomicU64] wraps. *)
Definition count (x n : Z) : Z := (x + n) mod 18446744073709551616.

Definition attach {S} (s : S) (k : SwitchableSink S) : SwitchableSink S :=
  mkSink (Some s) (delivered k) (bytes_in k) (dropped k).

Definition detach {S} (k : SwitchableSink S) : SwitchableSink S :=
  mkSink None (delivered k) (bytes_in k) (dropped k).

(** [deliver], given the attached sink's own [deliver]. *)
Definition deliver {S} (inner_deliver : list Z -> S -> S) (packet : list Z)
    (k : SwitchableSink S) : SwitchableSink S :=
  match inner k with
  | Some s => mkSink (Some (inner_deliver packet s)) (count (delivered k) 1)
                (count (bytes_in k) (zlen packet)) (dropped k)
  | None => mkSink None (delivered k) (bytes_in k) (count (dropped k) 1)
  end.

End Sink.

Module Rx.

Import Backend.

Definition RX_DEPTH : Z := 16.

Definition TICK : Z := from_millis 200.

Definition DRAIN_TIMEOUT : Z := from_millis 250.

Definition MAX_CONSECUTIVE_STALLS : Z := 5.

Definition DHCP_RETRY_MIN : Z := from_secs 1.

Definition DHCP_RETRY_MAX : Z := from_secs 16.

Inductive LinkEvent : Type :=
| Bound (l : Dhcp.Lease)
| Failed (msg : string).

(** [RxContext]: the shared ARP table, and the frames, packets and events sent
    to the transmit thread, the sink and the daemon, oldest first. *)
Record RxContext : Type := mkCtx
  { host_mac : MacAddr; arp : Arp.Arp; tx : list (list Z); sink : list (list Z);
    events : list LinkEvent }.

Definition set_arp (a : Arp.Arp) (c : RxContext) : RxContext :=
  mkCtx (host_mac c) a (tx c) (sink c) (events c).

Definition send_frame (f : list Z) (c : RxContext) : RxContext :=
  mkCtx (host_mac c) (arp c) (tx c ++ [f]) (sink c) (events c).

Definition deliver (p : list Z) (c : RxContext) : RxContext :=
  mkCtx (host_mac c) (arp c) (tx c) (sink c ++ [p]) (events c).

Definition send_event (e : LinkEvent) (c : RxContext) : RxContext :=
  mkCtx (host_mac c) (arp c) (tx c) (sink c) (events c ++ [e]).

(** Retransmit backoff for whatever DHCP is currently waiting on. *)
Record DhcpTimer : Type := mkTimer
  { next : Z; backoff : Z; renew_at : option Z }.

Section rx.
Context {P : Profile} {W : Type} `{InEndpoint W} `{Clock W} `{Shutdown W}.

Abbreviation result A := (outcome Empty_set A).

(** What the thread owns: its context, the DHCP client and its timer, and the
    world. *)
Record RxState : Type := mkRx
  { ctx : RxContext; dhcp : Dhcp.DhcpClient; timer : DhcpTimer; world : W }.

Definition on_ctx (f : RxContext -> RxContext) (s : RxState) : RxState :=
  mkRx (f (ctx s)) (dhcp s) (timer s) (world s).

Definition on_world (f : W -> W) (s : RxState) : RxState :=
  mkRx (ctx s) (dhcp s) (timer s) (f (world s)).

Definition set_dhcp (c : Dhcp.DhcpClient) (s : RxState) : RxState :=
  mkRx (ctx s) c (timer s) (world s).

Definition set_timer (t : DhcpTimer) (s : RxState) : RxState :=
  mkRx (ctx s) (dhcp s) t (world s).

(** [Instant::now()] *)
Definition read_clock (s : RxState) : Z * RxState :=
  let '(n, w) := now (world s) in (n, mkRx (ctx s) (dhcp s) (timer s) w).

(** ** The DHCP timer *)

Definition timer_new (now : Z) : DhcpTimer :=
  mkTimer (now + DHCP_RETRY_MIN) DHCP_RETRY_MIN None.

Definition bound (now : Z) (l : Dhcp.Lease) : DhcpTimer :=
  mkTimer (now + Dhcp.renewal_time l) DHCP_RETRY_MIN (Some (now + Dhcp.renewal_time l)).

Definition restart (now : Z) : DhcpTimer := mkTimer now DHCP_RETRY_MIN None.

(** The next message to send, if a timer has expired. *)
Definition due (s : RxState) : option (list Z) * RxState :=
  let '(n, s) := read_clock s in
  if n <? next (timer s) then (None, s) else
  let '(n, s) := read_clock s in
  match renew_at (timer s) with
  | Some _ =>
      let s := set_timer (mkTimer (n + DHCP_RETRY_MIN) DHCP_RETRY_MIN None) s in
      let '(m, c) := Dhcp.renew (dhcp s) in
      (m, set_dhcp c s)
  | None =>
      let b := Z.min (backoff (timer s) * 2) DHCP_RETRY_MAX in
      let s := set_timer (mkTimer (n + b) b (renew_at (timer s))) s in
      match Dhcp.retransmit (dhcp s) with
      | Some m => (Some m, s)
      | None => let '(m, c) := Dhcp.discover (dhcp s) in (Some m, set_dhcp c s)
      end
  end.

(** ** Inbound transfers *)

(** Wrap a DHCP message in UDP/IP/Ethernet and queue it. *)
Definition send_dhcp (msg : list Z) (c : RxContext) : result RxContext :=
  let datagram := UdpIp.mkUdp UNSPECIFIED BROADCAST_IP Dhcp.CLIENT_PORT Dhcp.SERVER_PORT msg in
  ip ← UdpIp.build_udp datagram 0;
  mret (send_frame
    (Ethernet.build MacAddr.BROADCAST (host_mac c) Ethernet.ETHERTYPE_IPV4 ip) c).

Definition send_message (msg : list Z) (s : RxState) : result RxState :=
  c ← send_dhcp msg (ctx s); mret (mkRx c (dhcp s) (timer s) (world s)).

(** Whether a datagram is a DHCP reply to us. *)
Definition is_dhcp (d : UdpIp.UdpDatagram) : bool :=
  (UdpIp.dst_port d =? Dhcp.CLIENT_PORT) && (UdpIp.src_port d =? Dhcp.SERVER_PORT).

Definition handle_ipv4 (src_mac : MacAddr) (payload : list Z) (s : RxState) : result RxState :=
  match UdpIp.parse_udp payload with
  | Panic => Panic
  | Err _ => mret (on_ctx (deliver payload) s)
  | Ok d =>
      if is_dhcp d then
        let '(r, c) := Dhcp.handle (dhcp s) (UdpIp.payload d) in
        let s := set_dhcp c s in
        match r with
        | Ok (Dhcp.Send msg) => send_message msg s
        | Ok (Dhcp.EBound lease) =>
            let '(n, s) := read_clock s in
            let s := set_timer (bound n lease) s in
            let a := Arp.set_host_ip (arp (ctx s)) (Dhcp.ip lease) in
            let '(n, s) := read_clock s in
            let a := Arp.insert n a (UdpIp.src_ip d) src_mac in
            mret (on_ctx (fun c => send_event (Bound lease) (set_arp a c)) s)
        | Ok Dhcp.ENak =>
            let '(n, s) := read_clock s in
            mret (set_timer (restart n) s)
        | Ok Dhcp.Ignored => mret s
        | Err _ => mret s
        | Panic => Panic
        end
      else mret (on_ctx (deliver payload) s)
  end.

(** The clock as [Arp.handle] reads it: inside [insert], so only for a payload
    that teaches an address; [0] stands for the reading that is not taken. *)
Definition arp_now (payload : list Z) (s : RxState) : Z * RxState :=
  if Arp.teaches payload then read_clock s else (0, s).

(** One frame of a transfer. *)
Definition handle_frame (frame_bytes : list Z) (s : RxState) : result RxState :=
  match Ethernet.parse frame_bytes with
  | Panic => Panic
  | Err _ => mret s
  | Ok frame =>
      if negb (bool_decide (Ethernet.dst frame = host_mac (ctx s)))
         && negb (MacAddr.is_multicast (Ethernet.dst frame))
      then mret s
      else if Ethernet.ethertype frame =? Ethernet.ETHERTYPE_ARP then
        let '(n, s) := arp_now (Ethernet.payload frame) s in
        let '(r, a) := Arp.handle n (arp (ctx s)) (Ethernet.payload frame) in
        let s := on_ctx (set_arp a) s in
        match r with
        | Ok (Some reply) => mret (on_ctx (send_frame reply) s)
        | Ok None => mret s
        | Err _ => mret s
        | Panic => Panic
        end
      else if Ethernet.ethertype frame =? Ethernet.ETHERTYPE_IPV4
      then handle_ipv4 (Ethernet.src frame) (Ethernet.payload frame) s
      else mret s
  end.

(** The loop over [packet::decode(data)]: a framing error ends it. *)
Fixpoint handle_items (items : list (outcome Wire.Error (list Z))) (s : RxState) :
    result RxState :=
  match items with
  | [] => mret s
  | Ok f :: items => s ← handle_frame f s; handle_items items s
  | Err _ :: _ => mret s
  | Panic :: _ => Panic
  end.

Definition handle_transfer (data : list Z) (s : RxState) : result RxState :=
  handle_items (Packet.decode data) s.

(** ** The loop *)

Fixpoint submit_all (n : nat) (size : Z) (w : W) : W :=
  match n with
  | O => w
  | S n => submit_all n size (in_submit size w)
  end.

(** Drop the queued reads, clear the halt, and refill the read queue. *)
Definition recover_bulk_in (size : Z) (w : W) : Result unit * W :=
  let w := in_cancel_all w in
  let w := drain_queue in_pending (fun w => snd (in_wait DRAIN_TIMEOUT w))
             (Z.to_nat (RX_DEPTH + 1)) w in
  if 0 <? in_pending w
  then (err (Other "bulk IN reads did not drain after cancel"), w)
  else
    match in_clear_halt w with
    | (err e, w) => (err e, w)
    | (ok _, w) => (ok tt, submit_all (Z.to_nat RX_DEPTH) size w)
    end.

Record RxLoop : Type := mkLoop { st : RxState; stalls : Z }.

(** How a turn of the loop ends. *)
Inductive turn : Type :=
| Again (l : RxLoop)
| Returned (l : RxLoop).

(** [if let Some(msg) = dhcp_state.due(&mut dhcp) { send_dhcp(..) }] *)
Definition run_timer (s : RxState) : result RxState :=
  let '(m, s) := due s in
  match m with
  | Some msg => send_message msg s
  | None => mret s
  end.

Definition continue (stalls : Z) (s : RxState) : result turn :=
  s ← run_timer s; mret (Again (mkLoop s stalls)).

(** [let _ = ctx.events.send(LinkEvent::Failed(..)); return;] *)
Definition fail (msg : string) (stalls : Z) (s : RxState) : result turn :=
  mret (Returned (mkLoop (on_ctx (send_event (Failed msg)) s) stalls)).

(** The body of [while !shutdown]; [size] is the transfer size. *)
Definition rx_turn (size : Z) (l : RxLoop) : result turn :=
  let '(r, w) := in_wait TICK (world (st l)) in
  let s := on_world (fun _ => w) (st l) in
  match r with
  | Some (ok data) =>
      s ← handle_transfer data (on_world (in_submit size) s);
      continue 0 s
  | Some (err e) =>
      if is_fatal e then fail (to_string e) (stalls l) s
      else match e with
      | Stall =>
          let stalls := stalls l + 1 in
          if MAX_CONSECUTIVE_STALLS <? stalls
          then fail ("bulk IN endpoint stalled " +:+ pretty stalls +:+ " times in a row") stalls s
          else
            let '(r, w) := recover_bulk_in size w in
            let s := on_world (fun _ => w) s in
            match r with
            | ok _ => continue stalls s
            | err e => fail (to_string e) stalls s
            end
      | _ => continue (stalls l) (on_world (in_submit size) s)
      end
  | None => continue (stalls l) s
  end.

(** The state before the first turn: the reads are queued, and the first
    DISCOVER is sent; the transaction id is seeded from the host MAC. *)
Definition rx_start (size : Z) (c : RxContext) (w : W) : result RxLoop :=
  let w := submit_all (Z.to_nat RX_DEPTH) size w in
  let m := host_mac c in
  let client := Dhcp.new m (be32 (m2 m) (m3 m) (m4 m) (m5 m)) in
  let '(n, w) := now w in
  let '(msg, client) := Dhcp.discover client in
  s ← send_message msg (mkRx c client (timer_new n) w);
  mret (mkLoop s 0).

(** [while !shutdown.load(..) { .. }], for at most [fuel] turns: [Again] when
    they are used up. *)
Fixpoint rx_run (fuel : nat) (size : Z) (l : RxLoop) : result turn :=
  match fuel with
  | O => mret (Again l)
  | S fuel =>
      if shutdown (world (st l)) then mret (Returned l) else
      t ← rx_turn size l;
      match t with
      | Again l => rx_run fuel size l
      | Returned l => mret (Returned l)
      end
  end.

Definition rx_loop (fuel : nat) (size : Z) (c : RxContext) (w : W) : result turn :=
  l ← rx_start size c w; rx_run fuel size l.

End rx.

Arguments RxState W : clear implicits.
Arguments RxLoop W : clear implicits.
Arguments turn W : clear implicits.

(** ** What the world promises

    Besides the endpoint's laws: a read that completes gives bytes, and reading
    the clock leaves the endpoint alone. *)
Class RxLaws (W : Type) `{InLaws W} `{Clock W} : Prop :=
  { wait_bytes t w d : fst (in_wait t w) = Some (ok d) -> bytes_ok d;
    now_pending w : in_pending (snd (now w)) = in_pending w }.

(** ** The state between two frames *)

Section state.
Context {P : Profile} {W : Type} `{RxLaws W}.

(** The timer waits for the renewal exactly when the client is bound. *)
Definition timer_ok (t : DhcpTimer) (c : Dhcp.DhcpClient) : Prop :=
  DHCP_RETRY_MIN <= backoff t <= DHCP_RETRY_MAX /\
  match renew_at t with
  | Some r => Dhcp.state c = Dhcp.State.Bound /\ next t = r
  | None => Dhcp.state c <> Dhcp.State.Bound
  end.

Definition rx_ok (s : RxState W) : Prop :=
  Dhcp.client_ok (dhcp s) /\ Dhcp.client_bytes (dhcp s) /\
  Dhcp.mac (dhcp s) = host_mac (ctx s) /\ timer_ok (timer s) (dhcp s).

(** Nothing a step sends is taken back, and the MAC and the queue of reads
    stay. *)
Definition keeps (s s' : RxState W) : Prop :=
  host_mac (ctx s') = host_mac (ctx s) /\ in_pending (world s') = in_pending (world s).

#[export] Instance keeps_preorder : PreOrder keeps.
Proof.
  split; [by intros s|]. intros s1 s2 s3 [E1 F1] [E2 F2]. split; congruence.
Qed.

Lemma read_clock_spec (s : RxState W) :
  exists n w, read_clock s = (n, mkRx (ctx s) (dhcp s) (timer s) w) /\
    in_pending w = in_pending (world s).
Proof.
  unfold read_clock. pose proof (now_pending (world s)) as Hp.
  destruct (now (world s)) as [n w]. by exists n, w.
Qed.

Lemma arp_now_spec payload (s : RxState W) :
  exists n w, arp_now payload s = (n, mkRx (ctx s) (dhcp s) (timer s) w) /\
    in_pending w = in_pending (world s).
Proof.
  unfold arp_now. destruct (Arp.teaches payload); [apply read_clock_spec|].
  exists 0, (world s). by destruct s.
Qed.

(** The frame [send_dhcp] queues. *)
Definition dhcp_frame (m : MacAddr) (msg : list Z) : list Z :=
  let d := UdpIp.mkUdp UNSPECIFIED BROADCAST_IP Dhcp.CLIENT_PORT Dhcp.SERVER_PORT msg in
  Ethernet.build MacAddr.BROADCAST m Ethernet.ETHERTYPE_IPV4
    (UdpIp.ip_header d 0 (to_be16 (UdpIp.rfc1071 (UdpIp.ip_header d 0 [0; 0]))) ++
     UdpIp.udp_segment d (to_be16 (UdpIp.nonzero_checksum
       (UdpIp.rfc1071 (UdpIp.pseudo_header d ++ UdpIp.udp_segment d [0; 0]))))).

Lemma send_message_ok msg (s : RxState W) :
  Dhcp.message_ok msg ->
  send_message msg s = Ok (on_ctx (send_frame (dhcp_frame (host_mac (ctx s)) msg)) s).
Proof.
  intros [Hb Hl]. unfold send_message, send_dhcp. rewrite UdpIp.build_udp_eq; [done|].
  unfold UdpIp.datagram_ok. cbn.
  repeat split; try (apply bytes_okb_ok; reflexivity); try done; lia.
Qed.

(** ** Frames for us *)

(** The IPv4 packets of a frame: addressed to us or to a group. *)
Definition ipv4_of (host : MacAddr) (frame : list Z) : option (MacAddr * list Z) :=
  match Ethernet.parse frame with
  | Ok f =>
      if (bool_decide (Ethernet.dst f = host) || MacAddr.is_multicast (Ethernet.dst f))
         && (Ethernet.ethertype f =? Ethernet.ETHERTYPE_IPV4)
      then Some (Ethernet.src f, Ethernet.payload f) else None
  | _ => None
  end.

(** The DHCP datagram of a packet, if it is one. *)
Definition dhcp_of (packet : list Z) : option UdpIp.UdpDatagram :=
  match UdpIp.parse_udp packet with
  | Ok d => if is_dhcp d then Some d else None
  | _ => None
  end.

(** The packet a frame brings for the tunnel. *)
Definition tunnelled (host : MacAddr) (frame : list Z) : option (list Z) :=
  match ipv4_of host frame with
  | Some (_, packet) => match dhcp_of packet with Some _ => None | None => Some packet end
  | None => None
  end.

(** The DHCP message of a frame, if it is one for us. *)
Definition dhcp_message (host : MacAddr) (frame : list Z) : option (list Z) :=
  match ipv4_of host frame with
  | Some (_, packet) => UdpIp.payload <$> dhcp_of packet
  | None => None
  end.

Definition lease_of {E} (r : outcome E Dhcp.Event) : list Dhcp.Lease :=
  match r with Ok (Dhcp.EBound l) => [l] | _ => [] end.

(** The leases a client is given by a list of frames, each frame with a DHCP
    message handled, as [Dhcp.handled] says, by the client the frames before it
    left. *)
Inductive answers (host : MacAddr) :
    Dhcp.DhcpClient -> list (list Z) -> Dhcp.DhcpClient -> list Dhcp.Lease -> Prop :=
| answers_nil c : answers host c [] c []
| answers_other c f fs c' ls :
    dhcp_message host f = None -> answers host c fs c' ls -> answers host c (f :: fs) c' ls
| answers_message c f fs msg r c1 c2 ls :
    dhcp_message host f = Some msg -> Dhcp.handled c msg (r, c1) ->
    answers host c1 fs c2 ls -> answers host c (f :: fs) c2 (lease_of r ++ ls).

Lemma answers_app host c1 f1 c2 l1 f2 c3 l2 :
  answers host c1 f1 c2 l1 -> answers host c2 f2 c3 l2 -> answers host c1 (f1 ++ f2) c3 (l1 ++ l2).
Proof.
  intros Ha Hb. induction Ha as [|c f fs c' ls Hf _ IH|c f fs msg r c1' c2' ls Hf Hh _ IH];
    cbn [app]; [done|..].
  - apply answers_other; auto.
  - rewrite <- app_assoc. eapply answers_message; eauto.
Qed.

(** What one frame does: the invariant is kept, the tunnelled packet is delivered,
    and the leases it gives are reported. *)
Definition frame_effect (frame : list Z) (s s' : RxState W) : Prop :=
  rx_ok s' /\ keeps s s' /\ Dhcp.xid (dhcp s') = Dhcp.xid (dhcp s) /\
  sink (ctx s') = sink (ctx s) ++ option_list (tunnelled (host_mac (ctx s)) frame) /\
  exists leases, events (ctx s') = events (ctx s) ++ map Bound leases /\
    answers (host_mac (ctx s)) (dhcp s) [frame] (dhcp s') leases.

Lemma handle_mac c msg : Dhcp.mac (snd (Dhcp.handle c msg)) = Dhcp.mac c.
Proof. destruct (Dhcp.handle_handled c msg); cbn; subst; done. Qed.

(** Handling a DHCP message does not start a transaction. *)
Lemma handle_xid c msg : Dhcp.xid (snd (Dhcp.handle c msg)) = Dhcp.xid c.
Proof. destruct (Dhcp.handle_handled c msg); cbn; subst; done. Qed.

(** A frame that is neither tunnelled nor a DHCP message. *)
Lemma frame_effect_none frame (s s' : RxState W) :
  rx_ok s' -> keeps s s' -> dhcp s' = dhcp s ->
  sink (ctx s') = sink (ctx s) -> events (ctx s') = events (ctx s) ->
  ipv4_of (host_mac (ctx s)) frame = None -> frame_effect frame s s'.
Proof.
  intros Hok Hk Hx Hs He Ht. split; [done|]. split; [done|]. split; [by rewrite Hx|].
  unfold tunnelled. rewrite Ht, Hs. cbn. split; [by rewrite app_nil_r|]. exists []. rewrite He. cbn.
  rewrite app_nil_r. split; [done|]. rewrite Hx. apply answers_other; [|apply answers_nil].
  unfold dhcp_message. by rewrite Ht.
Qed.

(** A DHCP message, by what [Dhcp.handle] made of it. *)
Lemma frame_effect_dhcp frame msg r c (s s' : RxState W) :
  rx_ok s' -> keeps s s' -> dhcp s' = c -> sink (ctx s') = sink (ctx s) ->
  events (ctx s') = events (ctx s) ++ map Bound (lease_of r) ->
  dhcp_message (host_mac (ctx s)) frame = Some msg ->
  tunnelled (host_mac (ctx s)) frame = None ->
  Dhcp.handle (dhcp s) msg = (r, c) -> frame_effect frame s s'.
Proof.
  intros Hok Hk Hx Hs He Hm Ht Hh. pose proof (Dhcp.handle_handled (dhcp s) msg) as Hhd.
  split; [done|]. split; [done|].
  split; [rewrite Hx; pose proof (handle_xid (dhcp s) msg) as E; by rewrite Hh in E|].
  rewrite Ht, Hs. cbn. split; [by rewrite app_nil_r|]. exists (lease_of r). split; [done|].
  rewrite <- (app_nil_r (lease_of r)). rewrite Hh in Hhd. rewrite Hx.
  eapply answers_message; [done|done|apply answers_nil].
Qed.

Lemma rx_ok_ext (s s' : RxState W) :
  rx_ok s -> dhcp s' = dhcp s -> timer s' = timer s -> host_mac (ctx s') = host_mac (ctx s) ->
  rx_ok s'.
Proof. unfold rx_ok. by intros ? -> -> ->. Qed.

Lemma handle_ipv4_deliver frame src packet (s : RxState W) :
  rx_ok s -> ipv4_of (host_mac (ctx s)) frame = Some (src, packet) -> dhcp_of packet = None ->
  frame_effect frame s (on_ctx (deliver packet) s).
Proof.
  intros Hok Hf Hd. split; [by apply (rx_ok_ext s)|]. split; [done|]. split; [done|].
  unfold tunnelled. rewrite Hf, Hd. split; [done|]. exists []. cbn. rewrite app_nil_r.
  split; [done|]. apply answers_other; [|apply answers_nil]. unfold dhcp_message.
  by rewrite Hf, Hd.
Qed.

Lemma handle_dhcp_effect frame src packet d (s : RxState W) :
  rx_ok s -> ipv4_of (host_mac (ctx s)) frame = Some (src, packet) ->
  dhcp_of packet = Some d -> bytes_ok packet ->
  exists s', handle_ipv4 src packet s = Ok s' /\ frame_effect frame s s'.
Proof.
  intros Hok Hf Hd Hb. assert (Ht : tunnelled (host_mac (ctx s)) frame = None)
    by (unfold tunnelled; by rewrite Hf, Hd).
  assert (Hmsg : dhcp_message (host_mac (ctx s)) frame = Some (UdpIp.payload d))
    by (unfold dhcp_message; by rewrite Hf, Hd).
  unfold dhcp_of in Hd. unfold handle_ipv4.
  pose proof (UdpIp.parse_udp_total packet Hb) as Hu.
  destruct (UdpIp.parse_udp packet) as [d'| |]; [|done|done].
  destruct (is_dhcp d') eqn:Ed; [|done]. injection Hd as ->.
  assert (Hbd : bytes_ok (UdpIp.payload d)).
  { destruct Hu as (k & _ & _ & -> & _). by apply bytes_ok_sub. }
  destruct Hok as (Hc & Hcb & Hm & Ht0 & Ht1).
  pose proof (Dhcp.step_client_ok _ _ Hc (Dhcp.step_handle (dhcp s) (UdpIp.payload d))) as Hc'.
  pose proof (Dhcp.handle_bytes _ _ Hcb Hbd) as [Hcb' Hev].
  pose proof (handle_mac (dhcp s) (UdpIp.payload d)) as Hm'.
  pose proof (Dhcp.handle_handled (dhcp s) (UdpIp.payload d)) as Hhd.
  destruct (Dhcp.handle (dhcp s) (UdpIp.payload d)) as [r c] eqn:Eh. cbn [fst snd] in *.
  assert (Heff : forall s', rx_ok s' -> keeps s s' -> dhcp s' = c -> sink (ctx s') = sink (ctx s) ->
    events (ctx s') = events (ctx s) ++ map Bound (lease_of r) -> frame_effect frame s s')
    by (intros; by eapply frame_effect_dhcp).
  assert (Hsame : rx_ok (set_dhcp (dhcp s) s)) by done.
  inversion Hhd as [e Hp E|p Hp Hn E|p c' Hp Htk Hst Hmt Ec E|p l Hp Htk Hst Hmt Hl E|p Hp Htk Hst Hmt Hy E
    |p Hp Htk Hst Hmt E]; subst r c; cbn [lease_of map] in *.
  - eexists. split; [reflexivity|]. apply Heff; [exact Hsame|done..|by rewrite app_nil_r].
  - eexists. split; [reflexivity|]. apply Heff; [exact Hsame|done..|by rewrite app_nil_r].
  - subst c'. rewrite send_message_ok by done. eexists. split; [reflexivity|].
    apply Heff; [|done..|by rewrite app_nil_r]. split; [done|]. split; [done|]. split; [cbn; congruence|].
    cbn [timer dhcp set_dhcp on_ctx]. split; [done|]. cbn [Dhcp.state].
    destruct (renew_at (timer s)); [|done]. rewrite Hst in Ht1. by destruct Ht1.
  - match goal with |- context [read_clock ?r] => destruct (read_clock_spec r) as (n1 & w1 & E1 & P1) end.
    rewrite E1.
    cbn [ctx dhcp timer set_timer set_dhcp world] in *.
    match goal with |- context [read_clock ?r] => destruct (read_clock_spec r) as (n2 & w2 & E2 & P2) end.
    rewrite E2. cbn [ctx dhcp timer set_timer world] in *.
    eexists. split; [reflexivity|]. apply Heff; [|split; [done|cbn; congruence]|done..].
    split; [done|]. split; [done|]. split; [cbn; congruence|]. by split.
  - eexists. split; [reflexivity|]. apply Heff; [exact Hsame|done..|by rewrite app_nil_r].
  - match goal with |- context [read_clock ?r] => destruct (read_clock_spec r) as (n1 & w1 & E1 & P1) end.
    rewrite E1.
    cbn [ctx dhcp timer set_timer set_dhcp world] in *.
    eexists. split; [reflexivity|].
    apply Heff; [|split; [done|cbn; congruence]|done..|by rewrite app_nil_r].
    split; [done|]. split; [done|]. split; [cbn; congruence|]. by split.
Qed.

Lemma arp_handle_total n a payload :
  bytes_ok payload -> fst (Arp.handle n a payload) <> Panic.
Proof.
  intros Hb. pose proof (Arp.arp_parse_split payload Hb) as Ha. unfold Arp.handle.
  destruct (Arp.parse payload) as [p|e|]; [|done|done]. by destruct (_ || _).
Qed.

Lemma handle_ipv4_effect frame src packet (s : RxState W) :
  rx_ok s -> ipv4_of (host_mac (ctx s)) frame = Some (src, packet) -> bytes_ok packet ->
  exists s', handle_ipv4 src packet s = Ok s' /\ frame_effect frame s s'.
Proof.
  intros Hok Hf Hb. destruct (dhcp_of packet) as [d|] eqn:Ed; [by eapply handle_dhcp_effect|].
  exists (on_ctx (deliver packet) s). split; [|by eapply handle_ipv4_deliver].
  unfold handle_ipv4. unfold dhcp_of in Ed. pose proof (UdpIp.parse_udp_total packet Hb) as Hu.
  destruct (UdpIp.parse_udp packet) as [d| |]; [|done|done]. by destruct (is_dhcp d).
Qed.

Lemma ipv4_of_parse host frame f :
  Ethernet.parse frame = Ok f ->
  ipv4_of host frame =
    if (bool_decide (Ethernet.dst f = host) || MacAddr.is_multicast (Ethernet.dst f))
       && (Ethernet.ethertype f =? Ethernet.ETHERTYPE_IPV4)
    then Some (Ethernet.src f, Ethernet.payload f) else None.
Proof. intros E. unfold ipv4_of. by rewrite E. Qed.

(** One frame, whatever it holds: no panic, and only the effects above. *)
Lemma handle_frame_effect frame (s : RxState W) :
  rx_ok s -> bytes_ok frame ->
  exists s', handle_frame frame s = Ok s' /\ frame_effect frame s s'.
Proof.
  intros Hok Hb. unfold handle_frame. pose proof (parse_split frame Hb) as Hp.
  destruct (Ethernet.parse frame) as [f|e|] eqn:Ep; [| |done].
  2: { exists s. split; [done|]. apply frame_effect_none; try done.
       unfold ipv4_of. by rewrite Ep. }
  pose proof (ipv4_of_parse (host_mac (ctx s)) frame f Ep) as Hf.
  assert (Hpb : bytes_ok (Ethernet.payload f)).
  { rewrite Hp in Hb. unfold bytes_ok in Hb. rewrite !Forall_app in Hb. by destruct_and!. }
  rewrite <- negb_orb. destruct (_ || _); cbn [negb andb] in *.
  2: { exists s. split; [done|]. by apply frame_effect_none. }
  destruct (Z.eqb_spec (Ethernet.ethertype f) Ethernet.ETHERTYPE_ARP) as [Ea|Ea].
  - rewrite Ea in Hf. change (_ =? _) with false in Hf.
    destruct (arp_now_spec (Ethernet.payload f) s) as (n & w & -> & Hw).
    cbn [ctx dhcp timer world]. pose proof (arp_handle_total n (arp (ctx s)) _ Hpb) as Hh.
    destruct (Arp.handle n (arp (ctx s)) (Ethernet.payload f)) as [[[reply|]|e|] a]; [| | |done];
      (eexists; split; [reflexivity|]; by apply frame_effect_none).
  - destruct (Z.eqb_spec (Ethernet.ethertype f) Ethernet.ETHERTYPE_IPV4) as [Ei|Ei].
    + by apply handle_ipv4_effect.
    + exists s. split; [done|]. by apply frame_effect_none.
Qed.

(** The effect of a list of frames. *)
Definition transfer_effect (frames : list (list Z)) (s s' : RxState W) : Prop :=
  rx_ok s' /\ keeps s s' /\ Dhcp.xid (dhcp s') = Dhcp.xid (dhcp s) /\
  sink (ctx s') = sink (ctx s) ++ omap (tunnelled (host_mac (ctx s))) frames /\
  exists leases, events (ctx s') = events (ctx s) ++ map Bound leases /\
    answers (host_mac (ctx s)) (dhcp s) frames (dhcp s') leases.

Lemma transfer_effect_nil s : rx_ok s -> transfer_effect [] s s.
Proof.
  intros. split; [done|]. split; [done|]. split; [done|]. cbn. split; [by rewrite app_nil_r|].
  exists []. cbn. rewrite app_nil_r. split; [done|apply answers_nil].
Qed.

Lemma transfer_effect_cons f frames s1 s2 s3 :
  frame_effect f s1 s2 -> transfer_effect frames s2 s3 -> transfer_effect (f :: frames) s1 s3.
Proof.
  intros (Hok2 & K2 & X2 & S2 & l2 & E2 & G2) (Hok3 & K3 & X3 & S3 & l3 & E3 & G3).
  destruct (K2) as [Hm2 _]. rewrite Hm2, X2 in *.
  split; [done|]. split; [by etrans|]. split; [done|]. split.
  - rewrite S3, S2, <- app_assoc. f_equal. cbn [omap list_omap].
    by destruct (tunnelled (host_mac (ctx s1)) f).
  - exists (l2 ++ l3). rewrite E3, E2, map_app, <- app_assoc. split; [done|].
    exact (answers_app _ _ [f] _ _ _ _ _ G2 G3).
Qed.

(** A whole transfer: the frames before the first framing error. *)
Lemma handle_transfer_effect data (s : RxState W) :
  rx_ok s -> bytes_ok data ->
  exists s', handle_transfer data s = Ok s' /\
    transfer_effect (Packet.oks (Packet.decode data)) s s'.
Proof.
  intros Hok Hb. unfold handle_transfer.
  destruct (Packet.decode_total data Hb) as (frames & tail & -> & Ht & Hfb & _).
  rewrite (Packet.oks_prefix frames tail Ht). revert s Hok. induction Hfb as [|f fs Hf _ IH]; intros s Hok.
  - exists s. split; [|by apply transfer_effect_nil]. by destruct Ht as [-> | [e ->]].
  - destruct (handle_frame_effect f s Hok Hf) as (s1 & E1 & F1).
    assert (Hok1 : rx_ok s1) by apply F1.
    destruct (IH s1 Hok1) as (s2 & E2 & F2).
    exists s2. split; [|by eapply transfer_effect_cons].
    cbn [map app handle_items]. by rewrite E1.
Qed.

(** ** The timer *)

(** What an expired timer makes the client [c] say, and the client after it: a bound
    client asks its server to extend the lease, and renews from then on; a client
    that waits repeats what it said, to be renewed, to be given the offered
    address, or to be offered one; a client that waits for nothing starts a new
    transaction. *)
Definition says (c : Dhcp.DhcpClient) (msg : list Z) (c' : Dhcp.DhcpClient) : Prop :=
  match Dhcp.state c with
  | Dhcp.State.Bound | Dhcp.State.Renewing =>
      exists l, Dhcp.lease c = Some l /\
        c' = Dhcp.mkClient (Dhcp.mac c) (Dhcp.xid c) Dhcp.State.Renewing (Dhcp.offered c)
               (Dhcp.c_server_id c) (Some l) /\
        msg = Dhcp.build c' Dhcp.REQUEST (Dhcp.ip l) None None
  | Dhcp.State.Requesting =>
      exists i, Dhcp.offered c = Some i /\ c' = c /\
        msg = Dhcp.build c Dhcp.REQUEST UNSPECIFIED (Some i) (Dhcp.c_server_id c)
  | Dhcp.State.Selecting => c' = c /\ msg = Dhcp.build c Dhcp.DISCOVER UNSPECIFIED None None
  | Dhcp.State.Init =>
      c' = Dhcp.mkClient (Dhcp.mac c) (Dhcp.next_xid (Dhcp.xid c)) Dhcp.State.Selecting None None
             (Dhcp.lease c) /\
      msg = Dhcp.build c' Dhcp.DISCOVER UNSPECIFIED None None
  end.

Lemma retransmit_says c msg :
  Dhcp.state c <> Dhcp.State.Bound -> Dhcp.client_ok c -> Dhcp.retransmit c = Some msg -> says c msg c.
Proof.
  intros Hb [Hc _] E. unfold Dhcp.retransmit, says in *. destruct c as [m x st o sv l]; cbn in *.
  destruct st; try done.
  - by injection E as <-.
  - destruct Hc as [i ->]. exists i. by injection E as <-.
  - destruct Hc as [l' ->]. exists l'. by injection E as <-.
Qed.

Lemma discover_says c :
  Dhcp.state c <> Dhcp.State.Bound -> Dhcp.client_ok c -> Dhcp.retransmit c = None ->
  says c (fst (Dhcp.discover c)) (snd (Dhcp.discover c)).
Proof.
  intros Hb [Hc _] E. unfold Dhcp.retransmit, says in *. destruct (Dhcp.state c); try done.
  destruct Hc as [l' El]. by rewrite El in E.
Qed.

Lemma due_spec (s : RxState W) :
  rx_ok s ->
  exists m s', due s = (m, s') /\ rx_ok s' /\ keeps s s' /\ ctx s' = ctx s /\
    (forall msg, m = Some msg -> Dhcp.message_ok msg) /\
    if fst (read_clock s) <? next (timer s)
    then m = None /\ timer s' = timer s /\ dhcp s' = dhcp s
    else (exists msg, m = Some msg /\ says (dhcp s) msg (dhcp s')) /\ renew_at (timer s') = None /\
      next (timer s') = fst (read_clock (snd (read_clock s))) + backoff (timer s') /\
      backoff (timer s') =
        match renew_at (timer s) with
        | Some _ => DHCP_RETRY_MIN
        | None => Z.min (backoff (timer s) * 2) DHCP_RETRY_MAX
        end.
Proof.
  intros (Hc & Hb & Hm & Ht0 & Ht1). unfold due.
  destruct (read_clock_spec s) as (n1 & w1 & -> & P1). cbn [ctx dhcp timer world fst snd].
  destruct (n1 <? next (timer s)).
  { eexists _, _. split; [reflexivity|]. split; [done|]. split; [done|]. done. }
  match goal with |- context [read_clock ?r] => destruct (read_clock_spec r) as (n2 & w2 & -> & P2) end.
  cbn [ctx dhcp timer world fst snd set_timer set_dhcp] in *.
  assert (Hk : forall c t, keeps s (mkRx (ctx s) c t w2)).
  { intros c t. split; [done|]. cbn [world]. congruence. }
  destruct (renew_at (timer s)) as [r|].
  - destruct Ht1 as [Hst _]. destruct (Hc) as [Hl _]. rewrite Hst in Hl.
    pose proof (Dhcp.step_client_ok _ _ Hc (Dhcp.step_renew (dhcp s))) as Hc'.
    pose proof (Dhcp.renew_bytes _ Hb) as [Hb' Hmsg].
    assert (Hsay : forall l, Dhcp.lease (dhcp s) = Some l -> says (dhcp s)
      (Dhcp.build (snd (Dhcp.renew (dhcp s))) Dhcp.REQUEST (Dhcp.ip l) None None)
      (snd (Dhcp.renew (dhcp s)))).
    { intros l El. unfold says. rewrite Hst. exists l. unfold Dhcp.renew. rewrite El.
      split; [done|]. by split. }
    destruct Hl as [l El]. specialize (Hsay l El).
    unfold Dhcp.renew in *. rewrite El in *. cbn [fst snd] in *.
    eexists _, _. split; [reflexivity|]. split; [|split; [apply Hk|split; [done|split; [done|]]]].
    + split; [done|]. split; [done|]. split; [done|]. by split.
    + split; [|done]. eexists. split; [reflexivity|]. exact Hsay.
  - assert (Hbo : DHCP_RETRY_MIN <= Z.min (backoff (timer s) * 2) DHCP_RETRY_MAX <= DHCP_RETRY_MAX)
      by (unfold DHCP_RETRY_MIN, DHCP_RETRY_MAX, from_secs in *; lia).
    destruct (Dhcp.retransmit (dhcp s)) as [msg|] eqn:Er.
    + eexists _, _. split; [reflexivity|]. split; [|split; [apply Hk|split; [done|split]]].
      * split; [done|]. split; [done|]. split; [done|]. by split.
      * intros m [= <-]. by apply (Dhcp.retransmit_bytes (dhcp s)).
      * split; [|done]. eexists. split; [reflexivity|]. by apply retransmit_says.
    + pose proof (discover_says (dhcp s) Ht1 Hc Er) as Hsay.
      pose proof (Dhcp.step_client_ok _ _ Hc (Dhcp.step_discover (dhcp s))) as Hc'.
      pose proof (Dhcp.discover_bytes _ Hb) as [Hb' Hmsg].
      unfold Dhcp.discover in *. cbn [fst snd] in *.
      eexists _, _. split; [reflexivity|]. split; [|split; [apply Hk|split; [done|split]]].
      * split; [done|]. split; [done|]. split; [done|]. by split.
      * intros m [= <-]. done.
      * split; [|done]. eexists. split; [reflexivity|]. exact Hsay.
Qed.

Lemma run_timer_ok (s : RxState W) :
  rx_ok s -> exists s', run_timer s = Ok s' /\ rx_ok s' /\ keeps s s' /\
    events (ctx s') = events (ctx s).
Proof.
  intros Hok. unfold run_timer. destruct (due_spec s Hok) as (m & s' & -> & Hok' & K & Hctx & Hm & _).
  destruct m as [msg|].
  - rewrite send_message_ok by auto. eexists. split; [reflexivity|].
    split; [by apply (rx_ok_ext s')|]. split; [by destruct K|]. cbn. by rewrite Hctx.
  - exists s'. by rewrite Hctx.
Qed.

(** ** Recovery *)

Lemma submit_all_pending n size (w : W) : in_pending (submit_all n size w) = in_pending w + Z.of_nat n.
Proof.
  revert w. induction n as [|n IH]; intros w; cbn [submit_all]; [lia|].
  rewrite IH, in_submit_pending. lia.
Qed.

Lemma recover_in_pending size (w w' : W) :
  recover_bulk_in size w = (ok tt, w') -> in_pending w' = RX_DEPTH.
Proof.
  unfold recover_bulk_in. set (w1 := drain_queue _ _ _ _).
  destruct (Z.ltb_spec 0 (in_pending w1)) as [|Hp]; [done|].
  pose proof (in_pending_nonneg w1). pose proof (in_clear_pending w1) as Hc.
  destruct (in_clear_halt w1) as [[[]|e] w2]; [|done]. intros E.
  assert (Hw : w' = submit_all (Z.to_nat RX_DEPTH) size w2) by congruence. rewrite Hw.
  cbn [snd] in Hc. rewrite submit_all_pending. unfold RX_DEPTH. lia.
Qed.

(** ** The loop *)

(** Between turns every read slot is queued, and the stalls in a row are within
    bounds. *)
Definition loop_ok (l : RxLoop W) : Prop :=
  rx_ok (st l) /\ in_pending (world (st l)) = RX_DEPTH /\
  0 <= stalls l <= MAX_CONSECUTIVE_STALLS.

Lemma continue_ok n (s : RxState W) :
  rx_ok s -> in_pending (world s) = RX_DEPTH -> 0 <= n <= MAX_CONSECUTIVE_STALLS ->
  exists l, continue n s = Ok (Again l) /\ loop_ok l.
Proof.
  intros Hok Hp Hn. unfold continue.
  destruct (run_timer_ok s Hok) as (s' & -> & Hok' & [_ K] & _).
  eexists. split; [reflexivity|]. split; [done|]. cbn [st stalls]. split; [congruence|done].
Qed.

(** The thread gives up with one last event. *)
Definition gave_up (l l' : RxLoop W) : Prop :=
  exists msg, events (ctx (st l')) = events (ctx (st l)) ++ [Failed msg].

Lemma rx_turn_ok size (l : RxLoop W) :
  loop_ok l -> exists t, rx_turn size l = Ok t /\
    match t with Again l' => loop_ok l' | Returned l' => gave_up l l' end.
Proof.
  intros (Hok & Hp & Hs). unfold rx_turn.
  pose proof (in_wait_pending TICK (world (st l))) as Hw.
  pose proof (wait_bytes TICK (world (st l))) as Hb.
  destruct (in_wait TICK (world (st l))) as [[[data|e]|] w]; cbn [fst snd] in *.
  - assert (Hok1 : rx_ok (on_world (in_submit size) (on_world (fun _ => w) (st l))))
      by (by apply (rx_ok_ext (st l))).
    destruct (handle_transfer_effect data _ Hok1 (Hb data eq_refl)) as (s' & -> & Hok' & [_ K] & _).
    cbn [mbind outcome_bind].
    destruct (continue_ok 0 s' Hok') as (l' & -> & Hl'); [|done|by exists (Again l')].
    rewrite K. cbn. rewrite in_submit_pending. lia.
  - assert (Hfail : forall msg n w, exists t,
      fail msg n (on_world (fun _ => w) (st l)) = Ok t /\
      match t with Again l' => loop_ok l' | Returned l' => gave_up l l' end).
    { intros msg n w'. eexists. split; [reflexivity|]. by exists msg. }
    assert (Hcont : exists t, continue (stalls l) (on_world (in_submit size)
        (on_world (fun _ => w) (st l))) = Ok t /\
      match t with Again l' => loop_ok l' | Returned l' => gave_up l l' end).
    { destruct (continue_ok (stalls l) (on_world (in_submit size) (on_world (fun _ => w) (st l))))
        as (l' & -> & Hl'); [by apply (rx_ok_ext (st l))| |done|by exists (Again l')].
      cbn. rewrite in_submit_pending. lia. }
    destruct e; cbn [is_fatal]; [apply Hfail|apply Hcont| |apply Hfail|apply Hcont].
    destruct (Z.ltb_spec MAX_CONSECUTIVE_STALLS (stalls l + 1)); [apply Hfail|].
    destruct (recover_bulk_in size w) as [[[]|e] w'] eqn:Er; [|apply Hfail].
    destruct (continue_ok (stalls l + 1) (on_world (fun _ => w') (on_world (fun _ => w) (st l))))
      as (l' & -> & Hl'); [by apply (rx_ok_ext (st l))| |lia|by exists (Again l')].
    cbn. by apply (recover_in_pending size w).
  - destruct (continue_ok (stalls l) (on_world (fun _ => w) (st l)))
      as (l' & -> & Hl'); [by apply (rx_ok_ext (st l))| |done|by exists (Again l')].
    cbn. lia.
Qed.

Lemma rx_start_ok size (c : RxContext) (w : W) :
  mac_ok (host_mac c) -> in_pending w = 0 ->
  exists l, rx_start size c w = Ok l /\ loop_ok l /\ events (ctx (st l)) = events c.
Proof.
  intros Hm Hp. unfold rx_start.
  pose proof (now_pending (submit_all (Z.to_nat RX_DEPTH) size w)) as Hn.
  destruct (now _) as [n w']. cbn [snd] in Hn. rewrite submit_all_pending in Hn.
  set (c0 := Dhcp.new (host_mac c) _).
  assert (Hb0 : Dhcp.client_bytes c0) by done.
  pose proof (Dhcp.discover_bytes _ Hb0) as [Hb' Hmsg].
  assert (Hc0 : Dhcp.client_ok c0) by done.
  pose proof (Dhcp.step_client_ok _ _ Hc0 (Dhcp.step_discover c0)) as Hc'.
  unfold Dhcp.discover in *. cbn [fst snd] in *. rewrite send_message_ok by done.
  eexists. split; [reflexivity|]. split; [|done]. split; [|split; [|done]].
  - split; [done|]. split; [done|]. split; [done|]. by split.
  - cbn [world st on_ctx]. rewrite Hn, Hp. done.
Qed.

Lemma rx_run_ok `{Shutdown W} fuel size (l : RxLoop W) :
  loop_ok l -> exists t, rx_run fuel size l = Ok t /\
    match t with
    | Again l' => loop_ok l'
    | Returned l' => shutdown (world (st l')) = true /\ loop_ok l' \/
                     exists evs msg, events (ctx (st l')) = evs ++ [Failed msg]
    end.
Proof.
  revert l. induction fuel as [|fuel IH]; intros l Hl; cbn [rx_run]; [by eexists|].
  destruct (shutdown (world (st l))) eqn:Es; [eexists; split; [done|]; by left|].
  destruct (rx_turn_ok size l Hl) as ([l'|l'] & -> & Ht); cbn [mbind outcome_bind].
  - by apply IH.
  - eexists. split; [done|]. right. destruct Ht as [msg E]. by eexists _, msg.
Qed.

(** ** Properties *)

(** The receive thread is robust: whatever bytes the phone sends and whatever
    errors the endpoint returns, no turn of the loop panics, every turn starts
    with all sixteen reads queued and at most five stalls in a row behind it, and
    the thread returns only for a shutdown or after reporting, last, that the
    link failed. *)
Theorem rx_loop_safe `{Shutdown W} fuel size (c : RxContext) (w : W) :
  mac_ok (host_mac c) -> in_pending w = 0 ->
  exists t, rx_loop fuel size c w = Ok t /\
    match t with
    | Again l => loop_ok l
    | Returned l => shutdown (world (st l)) = true /\ loop_ok l \/
                    exists evs msg, events (ctx (st l)) = evs ++ [Failed msg]
    end.
Proof.
  intros Hm Hp. unfold rx_loop. destruct (rx_start_ok size c w Hm Hp) as (l & -> & Hl & _).
  by apply rx_run_ok.
Qed.

(** C11. A transfer does what its frames ask, and nothing else: the packets handed to
    the tunnel are the IPv4 packets addressed to us or to a group, less the DHCP
    replies, in order and each once; and the leases reported to the daemon are
    exactly those its DHCP messages give, in order. A message gives one if and only
    if the client, as the messages before it left it, is in the state that waits
    for an acknowledgement, and it is an ACK, with an address, of the transaction
    in progress and for our MAC; the lease is then the one its options describe. *)
Theorem transfer_exact data (s : RxState W) :
  rx_ok s -> bytes_ok data ->
  exists s', handle_transfer data s = Ok s' /\ rx_ok s' /\
    sink (ctx s') = sink (ctx s) ++
      omap (tunnelled (host_mac (ctx s))) (Packet.oks (Packet.decode data)) /\
    exists leases, events (ctx s') = events (ctx s) ++ map Bound leases /\
      answers (host_mac (ctx s)) (dhcp s) (Packet.oks (Packet.decode data)) (dhcp s') leases.
Proof.
  intros Hok Hb. destruct (handle_transfer_effect data s Hok Hb) as (s' & E & Hok' & _ & _ & Hs & He).
  by exists s'.
Qed.

(** C18. DHCP cannot go quiet: in any state the thread can be in, an expired timer
    sends the message the client's state calls for: a bound client asks to extend
    its lease and renews from then on, a client that waits for an answer repeats
    its REQUEST or DISCOVER, and one that waits for nothing starts a transaction
    with a new id. The next attempt is one to sixteen seconds ahead: one after a
    renewal has started, and otherwise the back-off, doubled up to sixteen. *)
Theorem due_sends (s : RxState W) :
  rx_ok s -> next (timer s) <= fst (read_clock s) ->
  let s' := snd (due s) in
  let now2 := fst (read_clock (snd (read_clock s))) in
  (exists msg, fst (due s) = Some msg /\ says (dhcp s) msg (dhcp s')) /\ rx_ok s' /\
  next (timer s') = now2 + backoff (timer s') /\
  from_secs 1 <= backoff (timer s') <= from_secs 16 /\
  backoff (timer s') =
    (if bool_decide (Dhcp.state (dhcp s) = Dhcp.State.Bound) then from_secs 1
     else Z.min (backoff (timer s) * 2) (from_secs 16)).
Proof.
  intros Hok Hn. destruct (due_spec s Hok) as (m & s' & E & Hok' & _ & _ & _ & Hd).
  rewrite E. cbn [fst snd]. rewrite (proj2 (Z.ltb_ge _ _) Hn) in Hd.
  destruct Hd as (Hm & Hr & Hnx & Hb). split; [done|]. split; [done|]. split; [done|].
  destruct Hok' as (_ & _ & _ & Hbo & _). split; [done|].
  destruct Hok as (_ & _ & _ & _ & Ht). rewrite Hb. destruct (renew_at (timer s)).
  - by rewrite bool_decide_eq_true_2 by apply Ht.
  - by rewrite bool_decide_eq_false_2.
Qed.

End state.

(** ** Recovery of a stalled endpoint *)

Section recovery.
Context {W : Type}.

Lemma in_drain_at_halt `{InEndpoint W} n (w : Watched W) :
  at_halt (drain_queue in_pending (fun w => snd (in_wait DRAIN_TIMEOUT w)) n w) = at_halt w.
Proof.
  revert w. induction n as [|n IH]; intros w; cbn [drain_queue]; [done|].
  destruct (_ =? 0); [done|]. rewrite IH. cbn. unfold on_inner.
  by destruct (in_wait DRAIN_TIMEOUT (inner w)).
Qed.

Lemma out_drain_at_halt `{OutEndpoint W} n (w : Watched W) :
  at_halt (drain_queue out_pending (fun w => snd (out_wait Tx.DRAIN_TIMEOUT w)) n w) = at_halt w.
Proof.
  revert w. induction n as [|n IH]; intros w; cbn [drain_queue]; [done|].
  destruct (_ =? 0); [done|]. rewrite IH. cbn. unfold on_inner.
  by destruct (out_wait Tx.DRAIN_TIMEOUT (inner w)).
Qed.

Lemma submit_all_at_halt `{InEndpoint W} n size (w : Watched W) :
  at_halt (submit_all n size w) = at_halt w.
Proof. revert w. induction n as [|n IH]; intros w; cbn [submit_all]; [done|]. by rewrite IH. Qed.

Lemma recover_in_cases `{InLaws W} size (w : Watched W) :
  match recover_bulk_in size w with
  | (ok _, w') => at_halt w' = at_halt w ++ [0] /\ in_pending w' = RX_DEPTH
  | (err _, w') => at_halt w' = at_halt w /\ 0 < in_pending w' \/
                   at_halt w' = at_halt w ++ [0] /\ in_pending w' = 0
  end.
Proof.
  unfold recover_bulk_in. set (w1 := drain_queue _ _ _ _).
  assert (Hh : at_halt w1 = at_halt w) by (unfold w1; by rewrite in_drain_at_halt).
  destruct (Z.ltb_spec 0 (in_pending w1)) as [|Hp]; [by left|].
  pose proof (in_pending_nonneg w1) as Hn. pose proof (in_clear_pending w1) as Hc.
  cbn in Hc, Hp, Hn. cbn [in_clear_halt watched_in]. rewrite Hh.
  replace (in_pending (inner w1)) with 0 in * by lia.
  destruct (in_clear_halt (inner w1)) as [[[]|e] i]; cbn [snd inner] in Hc.
  - rewrite submit_all_at_halt. split; [done|]. rewrite submit_all_pending.
    cbn [in_pending watched_in inner]. rewrite Hc. unfold RX_DEPTH. lia.
  - right. split; [done|]. cbn [in_pending watched_in inner]. lia.
Qed.

Lemma recover_out_cases `{OutLaws W} (w : Watched W) :
  let '(r, w') := Tx.recover_bulk_out w in
  at_halt w' = at_halt w /\ 0 < out_pending w' /\
    r = err (Other "bulk OUT transfers did not drain after cancel") \/
  at_halt w' = at_halt w ++ [0] /\ out_pending w' = 0.
Proof.
  unfold Tx.recover_bulk_out. set (w1 := drain_queue _ _ _ _).
  assert (Hh : at_halt w1 = at_halt w) by (unfold w1; by rewrite out_drain_at_halt).
  destruct (Z.ltb_spec 0 (out_pending w1)) as [|Hp]; [by left|].
  pose proof (out_pending_nonneg w1) as Hn. pose proof (out_clear_pending w1) as Hc.
  cbn in Hc, Hp, Hn. cbn [out_clear_halt watched_out]. rewrite Hh.
  replace (out_pending (inner w1)) with 0 in * by lia.
  destruct (out_clear_halt (inner w1)) as [r i]; cbn [snd inner] in Hc. right. split; [done|].
  cbn [out_pending watched_out inner]. lia.
Qed.

End recovery.

(** C22. A halt is cleared only on an idle endpoint, in both directions, and at most
    once per recovery; when the reads do not drain it is not cleared at all. A
    successful recovery of the IN endpoint leaves all sixteen reads queued. *)
Theorem recovery_clears_idle `{InLaws W1} `{OutLaws W2} size (w1 : Watched W1) (w2 : Watched W2) :
  match recover_bulk_in size w1 with
  | (ok _, w') => at_halt w' = at_halt w1 ++ [0] /\ in_pending w' = RX_DEPTH
  | (err _, w') => at_halt w' = at_halt w1 /\ 0 < in_pending w' \/
                   at_halt w' = at_halt w1 ++ [0] /\ in_pending w' = 0
  end /\
  let '(r, w') := Tx.recover_bulk_out w2 in
  at_halt w' = at_halt w2 /\ 0 < out_pending w' /\
    r = err (Other "bulk OUT transfers did not drain after cancel") \/
  at_halt w' = at_halt w2 ++ [0] /\ out_pending w' = 0.
Proof. split; [apply recover_in_cases|apply recover_out_cases]. Qed.

(** ** A world to run the thread in

    The scripted endpoint of the tests of [src/link.rs] (lines 601-666): [submit]
    enqueues a read that completes empty, [wait] hands back queued results, and
    [cancel_all] turns them into cancellations unless the endpoint is wedged.
    The reads pending are the results queued, as the tests keep them. *)
Definition to_bytes (d : list Byte.byte) : list Z := map (fun b => Z.of_N (Byte.to_N b)) d.

Lemma to_bytes_ok d : bytes_ok (to_bytes d).
Proof.
  induction d as [|b d IH]; cbn [to_bytes map]; constructor; [|exact IH].
  pose proof (Byte.to_N_bounded b). unfold is_u8. lia.
Qed.

Definition to_result (r : Result (list Byte.byte)) : Result (list Z) :=
  match r with ok d => ok (to_bytes d) | err e => err e end.

Record FakeIn : Type := mkFakeIn
  { results : list (Result (list Byte.byte)); submits : nat; cancels : nat; halts : nat; wedge : bool;
    time : Z; stop : bool }.

#[export] Instance fake_in : InEndpoint FakeIn :=
  { in_submit _ w :=
      mkFakeIn (results w ++ [ok []]) (S (submits w)) (cancels w) (halts w) (wedge w)
        (time w) (stop w);
    in_wait _ w :=
      if wedge w then (None, w) else
      match results w with
      | [] => (None, w)
      | r :: rs =>
          (Some (to_result r), mkFakeIn rs (submits w) (cancels w) (halts w) (wedge w) (time w) (stop w))
      end;
    in_pending w := zlen (results w);
    in_cancel_all w :=
      mkFakeIn (if wedge w then results w else map (fun _ => err Timeout) (results w))
        (submits w) (S (cancels w)) (halts w) (wedge w) (time w) (stop w);
    in_clear_halt w :=
      (ok tt, mkFakeIn (results w) (submits w) (cancels w) (S (halts w)) (wedge w)
                (time w) (stop w)) }.

#[export] Instance fake_clock : Clock FakeIn := fun w =>
  (time w, mkFakeIn (results w) (submits w) (cancels w) (halts w) (wedge w)
             (time w + 1) (stop w)).

#[export] Instance fake_shutdown : Shutdown FakeIn := stop.

#[export] Instance fake_in_laws : InLaws FakeIn.
Proof.
  split; intros; cbn.
  - apply zlen_nonneg.
  - rewrite zlen_app. done.
  - destruct (wedge w); [cbn; lia|]. destruct (results w) eqn:E; cbn; rewrite ?E; [done|].
    rewrite zlen_cons. lia.
  - destruct (wedge w); [done|]. unfold zlen. by rewrite length_map.
  - done.
Qed.

(** The endpoint of the tests: fifteen reads are queued. *)
Definition fifteen : FakeIn := submit_all 15 16384 (mkFakeIn [] 1 0 0 false 0 false).

#[local] Existing Instance Tx.sim_out.
#[local] Existing Instance Tx.sim_out_laws.

Lemma recovery_clears_idle_witness :
  at_halt (snd (recover_bulk_in 16384 (mkWatched fifteen []))) = [0] /\
  (at_halt (snd (Tx.recover_bulk_out (mkWatched (Tx.mkSim [] 3 [] [] false) []))) = [] /\
     0 < out_pending (snd (Tx.recover_bulk_out (mkWatched (Tx.mkSim [] 3 [] [] false) []))) \/
   at_halt (snd (Tx.recover_bulk_out (mkWatched (Tx.mkSim [] 3 [] [] false) []))) = [0]).
Proof.
  destruct (recovery_clears_idle 16384 (mkWatched fifteen [])
    (mkWatched (Tx.mkSim [] 3 [] [] false) [])) as [Hi Ho].
  assert (Ei : fst (recover_bulk_in 16384 (mkWatched fifteen [])) = ok tt) by (by vm_compute).
  destruct (recover_bulk_in 16384 (mkWatched fifteen [])) as [[u|e] w1]; [|done].
  destruct (Tx.recover_bulk_out (mkWatched (Tx.mkSim [] 3 [] [] false) [])) as [r w2].
  cbn [fst snd] in *. split; [apply Hi|].
  destruct Ho as [(Ha & Hp & _)|[Ha _]]; [by left|by right].
Defined.

#[export] Instance fake_laws : RxLaws FakeIn.
Proof.
  split; [|done]. intros t w d. cbn. destruct (wedge w); [done|].
  destruct (results w) as [|[b|e] rs]; cbn; [done| |done]. intros [= <-]. apply to_bytes_ok.
Qed.

(** A phone at [host]'s link: the thread starts, reads a frame that is too short
    and three stalls, and is told to stop. *)
Definition sample_host : MacAddr := Mac 0x02 0 0 0 0 1.

Definition sample_ctx : RxContext := mkCtx sample_host (Arp.new sample_host UNSPECIFIED) [] [] [].

Definition sample_world : FakeIn := mkFakeIn [] 0 0 0 false 0 false.

Lemma rx_loop_safe_witness :
  exists t, rx_loop (P := dev_profile) 3 16384 sample_ctx sample_world = Ok t /\
    match t with
    | Again l => loop_ok l
    | Returned l => shutdown (world (st l)) = true /\ loop_ok l \/
                    exists evs msg, events (ctx (st l)) = evs ++ [Failed msg]
    end.
Proof. apply rx_loop_safe; [by apply bytes_okb_ok|done]. Defined.

(** The state the thread starts in, and a transfer with one packet for the
    tunnel between a frame for someone else and garbage. *)
Definition sample_state : RxState FakeIn :=
  mkRx sample_ctx (snd (Dhcp.discover (Dhcp.new sample_host 1))) (timer_new 0) sample_world.

Lemma sample_state_ok : rx_ok sample_state.
Proof.
  assert (Hb : Dhcp.client_bytes (Dhcp.new sample_host 1))
    by (split; [by apply bytes_okb_ok|done]).
  split; [by apply (Dhcp.step_client_ok (Dhcp.new sample_host 1)); [done|apply Dhcp.step_discover]|].
  split; [by apply Dhcp.discover_bytes|]. by split.
Qed.

Definition sample_transfer : list Z :=
  Packet.pack 4
    [Ethernet.build (Mac 0x02 0 0 0 0 9) (Mac 2 0 0 0 0 7) Ethernet.ETHERTYPE_IPV4 (replicate 46 1);
     Ethernet.build sample_host (Mac 2 0 0 0 0 7) Ethernet.ETHERTYPE_IPV4 (replicate 46 7);
     [1; 2; 3]] ++ replicate 44 0.

Lemma transfer_exact_witness :
  exists s', handle_transfer (P := dev_profile) sample_transfer sample_state = Ok s' /\
    sink (ctx s') = [replicate 46 7] /\ events (ctx s') = [].
Proof.
  assert (Hb : bytes_ok sample_transfer) by (apply bytes_okb_ok; by vm_compute).
  destruct (transfer_exact (P := dev_profile) sample_transfer sample_state sample_state_ok Hb)
    as (s' & E & _ & Hs & _).
  exists s'. split; [exact E|]. split; [rewrite Hs; by vm_compute|].
  assert (Ee : exists r, handle_transfer (P := dev_profile) sample_transfer sample_state = Ok r /\
    events (ctx r) = []) by (eexists; split; [vm_compute; reflexivity|reflexivity]).
  destruct Ee as (r & Er & He). congruence.
Defined.

(** A client that waits for an offer repeats its DISCOVER. *)
Lemma due_sends_witness :
  let s := set_timer (mkTimer 0 (from_secs 4) None) sample_state in
  (exists msg, fst (due s) = Some msg /\
    msg = Dhcp.build (dhcp s) Dhcp.DISCOVER UNSPECIFIED None None) /\
  backoff (timer (snd (due s))) = from_secs 8.
Proof.
  assert (Hok : rx_ok (set_timer (mkTimer 0 (from_secs 4) None) sample_state)).
  { destruct sample_state_ok as (? & ? & ? & _). split; [done|]. split; [done|]. split; [done|].
    by split. }
  destruct (due_sends _ Hok) as ((msg & Em & Hm) & _ & _ & _ & Hb); [by vm_compute|].
  split; [exists msg; split; [exact Em|apply Hm]|]. rewrite Hb; by vm_compute.
Defined.

End Rx.
