(* ===== verification/Bind.v ===== *)
(** * The link gets its lease

    The DHCP exchange through every layer, from the bytes of the bulk transfers
    to the event the daemon waits for: [src/link.rs] over
    [src/netstack/dhcp.rs], for a phone that answers among any other traffic. *)
From Stdlib Require Import ZArith Lia.
From stdpp Require Import base numbers list strings relations gmap.
From S2P Require Import Prelude Ethernet Arp UdpIp Dhcp Wire Packet Backend Tx Rx.

Open Scope Z_scope.

Module Bind.

Import Backend Rx.

Section bind.
Context {P : Profile} {W : Type} `{RxLaws W}.

(** A frame without a DHCP message for us. *)
Definition quiet_frame (host : MacAddr) (f : list Z) : Prop :=
  forall src packet, ipv4_of host f = Some (src, packet) -> dhcp_of packet = None.

(** [s'] follows [s] with the client as it was, and whatever was sent and
    reported by then still there. *)
Definition waiting (s s' : RxState W) : Prop :=
  dhcp s' = dhcp s /\ host_mac (ctx s') = host_mac (ctx s) /\
  events (ctx s') = events (ctx s) /\ tx (ctx s) `prefix_of` tx (ctx s').

#[local] Instance waiting_preorder : PreOrder waiting.
Proof.
  split; [by intros s|]. intros s1 s2 s3 (D1 & M1 & E1 & T1) (D2 & M2 & E2 & T2).
  split; [congruence|]. split; [congruence|]. split; [congruence|]. by etrans.
Qed.

Lemma handle_frame_quiet f (s s' : RxState W) :
  quiet_frame (host_mac (ctx s)) f -> handle_frame f s = Ok s' -> waiting s s'.
Proof.
  intros Hq E. unfold handle_frame in E. destruct (Ethernet.parse f) as [e| |] eqn:Ep; [| |done].
  2: { by injection E as <-. }
  pose proof (ipv4_of_parse (host_mac (ctx s)) f e Ep) as Hi. rewrite <- negb_orb in E.
  destruct (_ || _); cbn [negb andb] in *; [|by injection E as <-].
  destruct (Z.eqb_spec (Ethernet.ethertype e) Ethernet.ETHERTYPE_ARP).
  - destruct (arp_now_spec (Ethernet.payload e) s) as (n & w & E1 & _). rewrite E1 in E.
    cbn [ctx dhcp timer world] in E.
    destruct (Arp.handle _ _ _) as [[[reply|]|e'|] a]; try done; injection E as <-; try done.
    do 3 (split; [done|]). by eexists.
  - destruct (_ =? _); [|by injection E as <-].
    pose proof (Hq _ _ Hi) as Hd. unfold handle_ipv4, dhcp_of in *.
    destruct (UdpIp.parse_udp _) as [d| |]; [|by injection E as <-|done].
    destruct (is_dhcp d); [done|]. by injection E as <-.
Qed.

(** While an OFFER or an ACK is awaited the timer only repeats what was said. *)
Definition awaiting (c : Dhcp.DhcpClient) : Prop :=
  Dhcp.state c = State.Selecting \/ Dhcp.state c = State.Requesting.

Lemma run_timer_quiet (s s' : RxState W) :
  rx_ok s -> awaiting (dhcp s) -> run_timer s = Ok s' -> waiting s s'.
Proof.
  intros (_ & _ & _ & _ & Ht) Ha E. unfold run_timer, due in E.
  unfold read_clock in E. destruct (now (world s)) as [n w]. cbn [ctx dhcp timer world] in E.
  destruct (n <? _); [by injection E as <-|].
  destruct (now w) as [n2 w2]. cbn [ctx dhcp timer world] in E.
  destruct (renew_at (timer s)) as [r|].
  { destruct Ht as [Hb _]. destruct Ha; congruence. }
  assert (Hr : exists m, Dhcp.retransmit (dhcp s) = Some m)
    by (unfold Dhcp.retransmit; destruct Ha as [-> | ->]; by eexists).
  destruct Hr as [m Hm]. cbn [dhcp set_timer] in E. rewrite Hm in E.
  unfold send_message, send_dhcp in E. destruct (UdpIp.build_udp _ _); [|done..].
  injection E as <-. do 3 (split; [done|]). by eexists.
Qed.

(** ** Frames *)

Lemma quiet_frames pre (s : RxState W) :
  rx_ok s -> Forall bytes_ok pre -> Forall (quiet_frame (host_mac (ctx s))) pre ->
  exists s', (forall items, handle_items (map Ok pre ++ items) s = handle_items items s') /\
    rx_ok s' /\ waiting s s'.
Proof.
  intros Hok Hb. revert s Hok. induction Hb as [|f pre Hf _ IH]; intros s Hok Hq; [by exists s|].
  apply Forall_cons_iff in Hq as [Hqf Hq].
  destruct (handle_frame_effect f s Hok Hf) as (s1 & E1 & Hok1 & _).
  pose proof (handle_frame_quiet f s s1 Hqf E1) as Hw1.
  destruct (IH s1 Hok1) as (s' & Ei & Hok' & Hw'); [by rewrite (proj1 (proj2 Hw1))|].
  exists s'. split; [|split; [done|by etrans]].
  intros items. cbn [map app handle_items]. rewrite E1. apply Ei.
Qed.

(** A frame from [src] that brings the message [p] for the client [c], sent from
    the address [sip]. *)
Definition brings (c : Dhcp.DhcpClient) (host src : MacAddr) (sip : Ipv4Addr) (p : Dhcp.Parsed)
    (f : list Z) : Prop :=
  exists packet d, ipv4_of host f = Some (src, packet) /\ dhcp_of packet = Some d /\
    UdpIp.src_ip d = sip /\ Dhcp.parse (UdpIp.payload d) = Ok p /\
    Dhcp.p_xid p = Dhcp.xid c /\ Dhcp.chaddr p = host.

Lemma handle_frame_ipv4 f src packet (s : RxState W) :
  ipv4_of (host_mac (ctx s)) f = Some (src, packet) -> handle_frame f s = handle_ipv4 src packet s.
Proof.
  unfold ipv4_of, handle_frame. destruct (Ethernet.parse f) as [e| |]; [|done..].
  rewrite <- negb_orb. destruct (_ || _); cbn [negb andb]; [|done].
  destruct (Z.eqb_spec (Ethernet.ethertype e) Ethernet.ETHERTYPE_ARP) as [->|]; [done|].
  destruct (_ =? _); [|done]. by intros [= <- <-].
Qed.

(** The message such a frame brings is bytes. *)
Lemma brought_bytes host f src packet d :
  bytes_ok f -> ipv4_of host f = Some (src, packet) -> UdpIp.parse_udp packet = Ok d ->
  bytes_ok (UdpIp.payload d).
Proof.
  intros Hb Hf Hu. assert (Hp : bytes_ok packet).
  { pose proof (parse_split f Hb) as Hs. unfold ipv4_of in Hf.
    destruct (Ethernet.parse f) as [e| |]; [|done..]. destruct (_ && _); [|done].
    injection Hf as _ <-. rewrite Hs in Hb. unfold bytes_ok in Hb. rewrite !Forall_app in Hb.
    by destruct_and!. }
  pose proof (UdpIp.parse_udp_total packet Hp) as Ht. rewrite Hu in Ht.
  destruct Ht as (k & _ & _ & -> & _). by apply bytes_ok_sub.
Qed.

Lemma handle_brought f src sip p (s : RxState W) :
  bytes_ok f -> brings (dhcp s) (host_mac (ctx s)) src sip p f ->
  exists packet d, handle_frame f s = handle_ipv4 src packet s /\
    UdpIp.parse_udp packet = Ok d /\ is_dhcp d = true /\ UdpIp.src_ip d = sip /\
    Dhcp.parse (UdpIp.payload d) = Ok p /\ bytes_ok (UdpIp.payload d) /\
    Dhcp.p_xid p = Dhcp.xid (dhcp s) /\ Dhcp.chaddr p = host_mac (ctx s).
Proof.
  intros Hb (packet & d & Hf & Hd & Hs & Hp & Hx & Hc). exists packet, d.
  split; [by apply handle_frame_ipv4|]. unfold dhcp_of in Hd.
  destruct (UdpIp.parse_udp packet) as [d'| |] eqn:Eu; [|done..].
  destruct (is_dhcp d') eqn:Ed; [|done]. injection Hd as ->.
  pose proof (brought_bytes _ _ _ _ _ Hb Hf Eu). done.
Qed.

(** The client after an offer. *)
Definition requesting (c : Dhcp.DhcpClient) (p : Dhcp.Parsed) : Dhcp.DhcpClient :=
  Dhcp.mkClient (Dhcp.mac c) (Dhcp.xid c) State.Requesting (Some (Dhcp.yiaddr p))
    (Dhcp.p_server_id p) (Dhcp.lease c).

(** The request that answers an offer, as a frame. *)
Definition request_frame (c : Dhcp.DhcpClient) (p : Dhcp.Parsed) : list Z :=
  dhcp_frame (Dhcp.mac c)
    (Dhcp.build (requesting c p) Dhcp.REQUEST UNSPECIFIED (Some (Dhcp.yiaddr p)) (Dhcp.p_server_id p)).

(** What the client makes of a message that is brought. *)
Lemma handle_matching c msg p :
  Dhcp.parse msg = Ok p -> Dhcp.p_xid p = Dhcp.xid c -> Dhcp.chaddr p = Dhcp.mac c ->
  (Dhcp.state c = State.Selecting -> Dhcp.message_type p = Dhcp.OFFER ->
    Dhcp.handle c msg =
      (Ok (Dhcp.Send (Dhcp.build (requesting c p) Dhcp.REQUEST UNSPECIFIED
         (Some (Dhcp.yiaddr p)) (Dhcp.p_server_id p))), requesting c p)) /\
  (Dhcp.state c = State.Requesting -> Dhcp.message_type p = Dhcp.ACK ->
    Dhcp.yiaddr p <> UNSPECIFIED ->
    exists l, Dhcp.granted c p l /\ fst (Dhcp.handle c msg) = Ok (Dhcp.EBound l)).
Proof.
  intros Hp Hx Hc. unfold Dhcp.handle. rewrite Hp, Hx, Hc, Z.eqb_refl, bool_decide_eq_true_2 by done.
  cbn [negb orb]. split; intros -> ->.
  - reflexivity.
  - intros Hy. cbn [Z.eqb Pos.eqb Dhcp.ACK].
    destruct (Dhcp.lease_from_cases c p) as [[? _]|(l & Hl & _)]; [done|].
    exists l. rewrite Hl. split; [by apply Dhcp.lease_from_granted|done].
Qed.

Lemma handle_offer f src sip p (s : RxState W) :
  rx_ok s -> bytes_ok f -> brings (dhcp s) (host_mac (ctx s)) src sip p f ->
  Dhcp.state (dhcp s) = State.Selecting -> Dhcp.message_type p = Dhcp.OFFER ->
  exists s', handle_frame f s = Ok s' /\ rx_ok s' /\ dhcp s' = requesting (dhcp s) p /\
    host_mac (ctx s') = host_mac (ctx s) /\ events (ctx s') = events (ctx s) /\
    tx (ctx s') = tx (ctx s) ++ [request_frame (dhcp s) p].
Proof.
  intros Hok Hb Hbr Hst Hmt. destruct (handle_frame_effect f s Hok Hb) as (s' & E & Hok' & _).
  exists s'. split; [done|]. split; [done|].
  destruct (handle_brought f src sip p s Hb Hbr) as (packet & d & Ef & Hu & Hd & _ & Hp & Hbd & Hx & Hch).
  destruct Hok as (_ & Hcb & Hm & _).
  rewrite Ef in E. unfold handle_ipv4 in E. rewrite Hu, Hd in E.
  destruct (handle_matching (dhcp s) _ p Hp Hx) as [Ho _]; [congruence|].
  pose proof (Dhcp.handle_bytes (dhcp s) _ Hcb Hbd) as [_ Hmsg].
  rewrite Ho in E, Hmsg by done. cbn [fst] in Hmsg. rewrite send_message_ok in E by done.
  injection E as <-. unfold request_frame. by rewrite Hm.
Qed.

Lemma handle_ack f src sip p (s : RxState W) :
  rx_ok s -> bytes_ok f -> brings (dhcp s) (host_mac (ctx s)) src sip p f ->
  Dhcp.state (dhcp s) = State.Requesting -> Dhcp.message_type p = Dhcp.ACK ->
  Dhcp.yiaddr p <> UNSPECIFIED ->
  exists s' l n, handle_frame f s = Ok s' /\ rx_ok s' /\ Dhcp.granted (dhcp s) p l /\
    events (ctx s') = events (ctx s) ++ [Bound l] /\ tx (ctx s') = tx (ctx s) /\
    arp (ctx s') = Arp.insert n (Arp.set_host_ip (arp (ctx s)) (Dhcp.ip l)) sip src.
Proof.
  intros Hok Hb Hbr Hst Hmt Hy. destruct (handle_frame_effect f s Hok Hb) as (s' & E & Hok' & _).
  destruct (handle_brought f src sip p s Hb Hbr) as (packet & d & Ef & Hu & Hd & Hs & Hp & Hbd & Hx & Hch).
  destruct Hok as (_ & Hcb & Hm & _).
  assert (E' := E). rewrite Ef in E'. unfold handle_ipv4 in E'. rewrite Hu, Hd in E'.
  destruct (handle_matching (dhcp s) _ p Hp Hx) as [_ Ha]; [congruence|].
  destruct (Ha Hst Hmt Hy) as (l & Hg & Hh). destruct (Dhcp.handle (dhcp s) _) as [r c]. cbn in Hh.
  subst r. unfold read_clock in E'. cbn [world set_dhcp ctx dhcp timer] in E'.
  destruct (now (world s)) as [n1 w1]. cbn [world set_timer ctx dhcp timer] in E'.
  destruct (now w1) as [n2 w2]. injection E' as <-. eexists _, l, n2. split; [exact E|].
  split; [done|]. split; [done|]. cbn. by rewrite Hs.
Qed.

(** ** Turns *)

(** The loop goes on, and the transfer the turn read, if any, holds these frames
    in turn. *)
Definition reads (size : Z) (l l' : RxLoop W) (frames : list (list Z)) : Prop :=
  rx_turn size l = Ok (Again l') /\
  exists data, fst (in_wait TICK (world (st l))) = Some (ok data) /\
    Packet.oks (Packet.decode data) = frames.

(** A turn in which the phone is silent, fails short of the end of the link, or
    speaks of other things than DHCP. *)
Definition quiet_turn (size : Z) (l l' : RxLoop W) : Prop :=
  rx_turn size l = Ok (Again l') /\
  forall data, fst (in_wait TICK (world (st l))) = Some (ok data) ->
    Forall (quiet_frame (host_mac (ctx (st l)))) (Packet.oks (Packet.decode data)).

(** Reading a transfer: its frames are handled in turn, and the timer looked at. *)
Lemma read_turn size (l l' : RxLoop W) frames :
  loop_ok l -> reads size l l' frames ->
  Forall bytes_ok frames /\ loop_ok l' /\
  exists s tail, rx_ok s /\ waiting (st l) s /\ arp (ctx s) = arp (ctx (st l)) /\
    (tail = [] \/ exists e, tail = [Err e]) /\
    (s' ← handle_items (map Ok frames ++ tail) s; run_timer s') = Ok (st l').
Proof.
  intros Hl (E & data & Hw & Hd). pose proof Hl as (Hok & _).
  destruct (rx_turn_ok size l Hl) as (t & Et & Ht'). rewrite E in Et. injection Et as <-.
  unfold rx_turn in E. pose proof (wait_bytes TICK (world (st l)) data Hw) as Hb.
  destruct (in_wait TICK (world (st l))) as [r w]. cbn in Hw. subst r.
  destruct (Packet.decode_total data Hb) as (fs & tail & Ed & Ht & Hf & _).
  rewrite Ed, Packet.oks_prefix in Hd by done. subst fs.
  split; [done|]. split; [done|].
  exists (on_world (in_submit size) (on_world (fun _ => w) (st l))), tail.
  split; [by apply (rx_ok_ext (st l))|]. split; [done|]. split; [done|]. split; [done|].
  rewrite <- Ed. fold (handle_transfer data (on_world (in_submit size) (on_world (fun _ => w) (st l)))).
  inv_bind E. cbn [mbind outcome_bind]. unfold continue in E. inv_bind E. by injection E as <-.
Qed.

Lemma tail_done tail (s s' : RxState W) :
  tail = [] \/ (exists e, tail = [Err e]) -> handle_items tail s = Ok s' -> s' = s.
Proof. by intros [-> | [e ->]] [= <-]. Qed.

Lemma continue_quiet n (s : RxState W) l' :
  rx_ok s -> awaiting (dhcp s) -> continue n s = Ok (Again l') -> waiting s (st l').
Proof.
  unfold continue. intros Hok Ha E. inv_bind E. injection E as <-. by apply run_timer_quiet.
Qed.

Lemma quiet_turn_waiting size (l l' : RxLoop W) :
  loop_ok l -> awaiting (dhcp (st l)) -> quiet_turn size l l' ->
  loop_ok l' /\ waiting (st l) (st l').
Proof.
  intros Hl Ha (E & Hq). destruct (rx_turn_ok size l Hl) as (t & Et & Hl').
  rewrite E in Et. injection Et as <-. split; [done|].
  destruct (fst (in_wait TICK (world (st l)))) as [[data|e]|] eqn:Ew.
  { destruct (read_turn size l l' _ Hl (conj E (ex_intro _ data (conj Ew eq_refl))))
      as (Hb & _ & s & tail & Hok & Hw & _ & Ht & Er).
    pose proof (Hq data eq_refl) as Hf. rewrite <- (proj1 (proj2 Hw)) in Hf.
    destruct (quiet_frames _ s Hok Hb Hf) as (s1 & Ei & Hok1 & Hw1). rewrite Ei in Er.
    inv_bind Er. apply tail_done in E0; [|done]. subst.
    etrans; [exact Hw|]. etrans; [exact Hw1|]. apply (run_timer_quiet _ _ Hok1); [|done].
    rewrite (proj1 Hw1), (proj1 Hw). exact Ha. }
  all: unfold rx_turn in E; destruct (in_wait TICK (world (st l))) as [r w]; cbn in Ew; subst r.
  all: assert (Hc : forall n f, continue n (on_world f (st l)) = Ok (Again l') ->
    waiting (st l) (st l')) by
    (intros n f Ec; apply (continue_quiet n (on_world f (st l)) l'); [exact (rx_ok_ext (st l) _ (proj1 Hl) eq_refl eq_refl eq_refl)|exact Ha|exact Ec]).
  - destruct (is_fatal e); [done|]. destruct e; try (exact (Hc _ (fun _ => in_submit size w) E)).
    destruct (_ <? _); [done|]. destruct (recover_bulk_in size w) as [[u|e] w']; [|done].
    exact (Hc _ (fun _ => w') E).
  - exact (Hc _ (fun _ => w) E).
Qed.

(** Any number of them. *)
Lemma quiet_turns_waiting size (l l' : RxLoop W) :
  rtc (quiet_turn size) l l' -> loop_ok l -> awaiting (dhcp (st l)) ->
  loop_ok l' /\ waiting (st l) (st l').
Proof.
  induction 1 as [l|l l1 l2 Hq _ IH]; intros Hl Ha; [by split|].
  destruct (quiet_turn_waiting size l l1 Hl Ha Hq) as [Hl1 Hw1].
  destruct IH as [Hl2 Hw2]; [done|by rewrite (proj1 Hw1)|]. split; [done|by etrans].
Qed.

(** Looking at the timer moves neither the events nor the ARP table. *)
Lemma timer_keeps_arp (s s' : RxState W) :
  run_timer s = Ok s' ->
  events (ctx s') = events (ctx s) /\ arp (ctx s') = arp (ctx s) /\ tx (ctx s) `prefix_of` tx (ctx s').
Proof.
  unfold run_timer. assert (Hd : ctx (snd (due s)) = ctx s).
  { unfold due, read_clock. destruct (now (world s)) as [n w]. cbn [world].
    destruct (n <? _); [done|]. destruct (now w) as [n2 w2]. cbn [world timer ctx dhcp].
    destruct (renew_at (timer s)); cbn [dhcp set_timer].
    - by destruct (Dhcp.renew (dhcp s)).
    - destruct (Dhcp.retransmit (dhcp s)); [done|]. by destruct (Dhcp.discover (dhcp s)). }
  destruct (due s) as [[m|] s1]; cbn in Hd; intros E.
  - unfold send_message, send_dhcp in E. destruct (UdpIp.build_udp _ _); [|done..].
    injection E as <-. cbn. rewrite Hd. do 2 (split; [done|]). by eexists.
  - injection E as <-. by rewrite Hd.
Qed.

(** The state the loop starts from. *)
Lemma start_spec size c w (l : RxLoop W) :
  mac_ok (host_mac c) -> in_pending w = 0 -> rx_start size c w = Ok l ->
  let host := host_mac c in
  let client := snd (Dhcp.discover (Dhcp.new host (be32 (m2 host) (m3 host) (m4 host) (m5 host)))) in
  loop_ok l /\ dhcp (st l) = client /\
  ctx (st l) =
    send_frame (dhcp_frame host (Dhcp.build client Dhcp.DISCOVER UNSPECIFIED None None)) c.
Proof.
  intros Hm Hp E host client. destruct (rx_start_ok size c w Hm Hp) as (l' & E' & Hl & Hv).
  rewrite E in E'. injection E' as <-. split; [done|]. unfold rx_start in E.
  destruct (now _) as [n w']. fold host in E.
  set (c0 := Dhcp.new host _) in *. assert (Hb0 : Dhcp.client_bytes c0) by
    (split; [exact Hm|split; [intros i [=]|split; [intros i [=]|intros le [=]]]]).
  pose proof (Dhcp.discover_bytes c0 Hb0) as [_ Hmsg]. unfold Dhcp.discover in *. cbn [fst snd] in *.
  rewrite send_message_ok in E by done. by injection E as <-.
Qed.

(** The turn that reads the offer. *)
Lemma offer_turn size (l l' : RxLoop W) pre f post src sip p :
  loop_ok l -> reads size l l' (pre ++ f :: post) ->
  Forall (quiet_frame (host_mac (ctx (st l)))) pre ->
  Forall (quiet_frame (host_mac (ctx (st l)))) post ->
  brings (dhcp (st l)) (host_mac (ctx (st l))) src sip p f ->
  Dhcp.state (dhcp (st l)) = State.Selecting -> Dhcp.message_type p = Dhcp.OFFER ->
  loop_ok l' /\ dhcp (st l') = requesting (dhcp (st l)) p /\
  host_mac (ctx (st l')) = host_mac (ctx (st l)) /\ events (ctx (st l')) = events (ctx (st l)) /\
  (tx (ctx (st l)) `prefix_of` tx (ctx (st l'))) /\ request_frame (dhcp (st l)) p ∈ tx (ctx (st l')).
Proof.
  intros Hl Hr Hpre Hpost Hbr Hst Hmt.
  destruct (read_turn size l l' _ Hl Hr) as (Hb & Hl' & s & tail & Hok & Hw & _ & Ht & Er).
  split; [done|]. destruct Hw as (Dw & Mw & Ew & Tw). rewrite <- Dw, <- Mw, <- Ew in *.
  rewrite map_app in Er. cbn [map] in Er. rewrite <- app_assoc in Er.
  apply Forall_app in Hb as [Hb1 Hb2]. apply Forall_cons_iff in Hb2 as [Hbf Hb2].
  destruct (quiet_frames pre s Hok Hb1 Hpre) as (s1 & Ei & Hok1 & D1 & M1 & E1 & T1).
  rewrite Ei in Er. clear Ei. rewrite <- D1, <- M1, <- E1 in *.
  destruct (handle_offer f src sip p s1 Hok1 Hbf Hbr Hst Hmt) as (s2 & E2 & Hok2 & D2 & M2 & V2 & T2).
  cbn [app handle_items] in Er. rewrite E2 in Er. cbn [mbind outcome_bind] in Er.
  rewrite <- M2 in Hpost.
  destruct (quiet_frames post s2 Hok2 Hb2 Hpost) as (s3 & Ei & Hok3 & D3 & M3 & V3 & T3).
  rewrite Ei in Er. inv_bind Er. apply tail_done in E; [|done]. subst a.
  destruct (run_timer_quiet _ _ Hok3 ltac:(rewrite D3, D2; by right) Er) as (D4 & M4 & V4 & T4).
  split; [congruence|]. split; [congruence|]. split; [congruence|].
  assert (Hp : tx (ctx s2) `prefix_of` tx (ctx (st l'))) by (by etrans). rewrite T2 in Hp. split.
  - etrans; [exact Tw|]. etrans; [exact T1|]. etrans; [|exact Hp]. by eexists.
  - destruct Hp as [k ->]. rewrite !elem_of_app. left. right. by apply list_elem_of_singleton.
Qed.

(** The turn that reads the acknowledgement, as its last frame. *)
Lemma ack_turn size (l l' : RxLoop W) pre f src sip p :
  loop_ok l -> reads size l l' (pre ++ [f]) ->
  Forall (quiet_frame (host_mac (ctx (st l)))) pre ->
  brings (dhcp (st l)) (host_mac (ctx (st l))) src sip p f ->
  Dhcp.state (dhcp (st l)) = State.Requesting -> Dhcp.message_type p = Dhcp.ACK ->
  Dhcp.yiaddr p <> UNSPECIFIED ->
  exists lease n, Dhcp.granted (dhcp (st l)) p lease /\
    events (ctx (st l')) = events (ctx (st l)) ++ [Bound lease] /\
    (tx (ctx (st l)) `prefix_of` tx (ctx (st l'))) /\
    Arp.host_ip (arp (ctx (st l'))) = Dhcp.ip lease /\
    Arp.cache (arp (ctx (st l'))) !! sip = Some (Arp.mkEntry src n).
Proof.
  intros Hl Hr Hpre Hbr Hst Hmt Hy.
  destruct (read_turn size l l' _ Hl Hr) as (Hb & Hl' & s & tail & Hok & Hw & _ & Ht & Er).
  destruct Hw as (Dw & Mw & Ew & Tw). rewrite <- Dw, <- Mw, <- Ew in *.
  rewrite map_app in Er. cbn [map] in Er. rewrite <- app_assoc in Er.
  apply Forall_app in Hb as [Hb1 Hb2]. apply Forall_cons_iff in Hb2 as [Hbf Hb2].
  destruct (quiet_frames pre s Hok Hb1 Hpre) as (s1 & Ei & Hok1 & D1 & M1 & E1 & T1).
  rewrite Ei in Er. clear Ei. rewrite <- D1, <- M1, <- E1 in *.
  destruct (handle_ack f src sip p s1 Hok1 Hbf Hbr Hst Hmt Hy)
    as (s2 & lease & n & E2 & Hok2 & Hg & V2 & T2 & A2).
  cbn [app handle_items] in Er. rewrite E2 in Er. cbn [mbind outcome_bind] in Er.
  inv_bind Er. apply tail_done in E; [|done]. subst a.
  destruct (timer_keeps_arp s2 (st l') Er) as (Va & Aa & Ta). exists lease, n. rewrite D1.
  split; [by rewrite D1 in Hg|]. split; [congruence|].
  split; [etrans; [exact Tw|]; etrans; [exact T1|]; by rewrite <- T2|].
  rewrite Aa, A2. cbn. split; [done|]. rewrite lookup_insert. by case_decide.
Qed.

(** C12. The link gets its lease: after the start, whatever the phone says of other
    things, however long it is silent and whatever errors the link recovers from,
    an offer for our transaction is answered by a request for the offered
    address from its server, and the acknowledgement, again after any amount of
    other traffic, reaches the daemon as the lease it grants, with the ARP table
    ready to route through the phone; the DISCOVER and the REQUEST are among the
    frames queued for it, and nothing else was reported. *)
Theorem link_binds size c w (l0 l1 l2 l3 l4 : RxLoop W) src1 sip1 po pre1 fo post1 src sip pa pre2 fa :
  let host := host_mac c in
  let client := snd (Dhcp.discover (Dhcp.new host (be32 (m2 host) (m3 host) (m4 host) (m5 host)))) in
  mac_ok host -> in_pending w = 0 -> events c = [] -> rx_start size c w = Ok l0 ->
  rtc (quiet_turn size) l0 l1 ->
  reads size l1 l2 (pre1 ++ fo :: post1) ->
  Forall (quiet_frame host) (pre1 ++ post1) ->
  brings client host src1 sip1 po fo -> Dhcp.message_type po = Dhcp.OFFER ->
  rtc (quiet_turn size) l2 l3 ->
  reads size l3 l4 (pre2 ++ [fa]) -> Forall (quiet_frame host) pre2 ->
  brings client host src sip pa fa -> Dhcp.message_type pa = Dhcp.ACK ->
  Dhcp.yiaddr pa <> UNSPECIFIED ->
  exists lease n,
    Dhcp.granted (requesting client po) pa lease /\ events (ctx (st l4)) = [Bound lease] /\
    dhcp_frame host (Dhcp.build client Dhcp.DISCOVER UNSPECIFIED None None) ∈ tx (ctx (st l4)) /\
    request_frame client po ∈ tx (ctx (st l4)) /\
    Arp.host_ip (arp (ctx (st l4))) = Dhcp.ip lease /\
    forall t, duration_since t n < Arp.ENTRY_TTL ->
      Arp.lookup t (arp (ctx (st l4))) sip = Some src.
Proof.
  intros host client Hm Hp He E0 Hq1 Hr1 Hf1 Hb1 Ho Hq2 Hr2 Hf2 Hb2 Ha Hy.
  destruct (start_spec size c w l0 Hm Hp E0) as (Hl0 & D0 & C0).
  fold host client in D0, C0.
  assert (M0 : host_mac (ctx (st l0)) = host) by (by rewrite C0).
  assert (V0 : events (ctx (st l0)) = events c) by (by rewrite C0). apply Forall_app in Hf1 as [Hpre1 Hpost1].
  destruct (quiet_turns_waiting size l0 l1 Hq1 Hl0) as (Hl1 & D1 & M1 & V1 & T1); [rewrite D0; by left|].
  rewrite M0 in M1. rewrite D0 in D1.
  destruct (offer_turn size l1 l2 pre1 fo post1 src1 sip1 po Hl1 Hr1) as (Hl2 & D2 & M2 & V2 & T2 & R2);
    rewrite ?M1, ?D1; try done.
  rewrite D1 in D2, R2. rewrite M1 in M2.
  destruct (quiet_turns_waiting size l2 l3 Hq2 Hl2) as (Hl3 & D3 & M3 & V3 & T3); [rewrite D2; by right|].
  rewrite D2 in D3. rewrite M2 in M3.
  destruct (ack_turn size l3 l4 pre2 fa src sip pa Hl3 Hr2) as (lease & n & Hg & V4 & T4 & A4 & C4);
    rewrite ?M3, ?D3; try done.
  exists lease, n. rewrite D3 in Hg. split; [done|].
  split; [by rewrite V4, V3, V2, V1, V0, He|].
  assert (Hpre : tx (ctx (st l2)) `prefix_of` tx (ctx (st l4))) by (by etrans).
  split; [|split; [|split; [done|]]].
  - assert (Hall : tx (ctx (st l0)) `prefix_of` tx (ctx (st l4))) by (etrans; [exact T1|by etrans]).
    destruct Hall as [k ->]. rewrite C0. cbn. rewrite !elem_of_app. left. right. by apply list_elem_of_singleton.
  - destruct Hpre as [k ->]. rewrite elem_of_app. by left.
  - intros t Hlt. unfold Arp.lookup. rewrite C4. cbn. by rewrite (proj2 (Z.ltb_lt _ _) Hlt).
Qed.

End bind.

(** ** A phone that answers

    The endpoint completes its reads with what the phone says, in order. *)
Record Phone : Type := mkPhone { says : list (list Byte.byte); pending : nat; time : Z }.

#[export] Instance phone_in : InEndpoint Phone :=
  { in_submit _ w := mkPhone (says w) (S (pending w)) (time w);
    in_wait _ w :=
      match says w, pending w with
      | d :: ds, S n => (Some (ok (to_bytes d)), mkPhone ds n (time w))
      | _, _ => (None, w)
      end;
    in_pending w := Z.of_nat (pending w);
    in_cancel_all w := w;
    in_clear_halt w := (ok tt, w) }.

#[export] Instance phone_clock : Clock Phone := fun w => (time w, mkPhone (says w) (pending w) (time w + 1)).

#[export] Instance phone_in_laws : InLaws Phone.
Proof.
  split; intros; cbn; try lia. destruct w as [[|d ds] [|n] t']; cbn; lia.
Qed.

#[export] Instance phone_laws : RxLaws Phone.
Proof.
  split; [|done]. intros t w d. cbn. destruct (says w) as [|x ds]; [done|].
  destruct (pending w); [done|]. intros [= <-]. apply to_bytes_ok.
Qed.

Definition of_bytes (b : list Z) : list Byte.byte :=
  omap (fun x => Byte.of_N (Z.to_N x)) b.

Definition phone_mac : MacAddr := Mac 2 0 0 0 0 9.

(** A DHCP message of the phone, as a frame. *)
Definition served (mt : Z) : list Z :=
  match UdpIp.build_udp (E := Empty_set) (P := dev_profile) (UdpIp.mkUdp (Ipv4 10 0 0 1) BROADCAST_IP Dhcp.SERVER_PORT Dhcp.CLIENT_PORT
          (Dhcp.sample_message mt)) 0 with
  | Ok ip => Ethernet.build MacAddr.BROADCAST phone_mac Ethernet.ETHERTYPE_IPV4 ip
  | _ => []
  end.

(** Some broadcast that is not for us, alone and ahead of the acknowledgement. *)
Definition chatter : list Z :=
  Ethernet.build MacAddr.BROADCAST phone_mac 0x86dd (replicate 46 0).

Definition script : list (list Byte.byte) :=
  map of_bytes
    [Packet.pack 4 [chatter]; Packet.pack 4 [served Dhcp.OFFER];
     Packet.pack 4 [chatter; served Dhcp.ACK]].

Definition sample_ctx : RxContext :=
  mkCtx Dhcp.sample_mac (Arp.new Dhcp.sample_mac UNSPECIFIED) [] [] [].

(** The states of the loop, turn by turn. *)
Definition first_loop : RxLoop Phone :=
  match rx_start (P := dev_profile) 16384 sample_ctx (mkPhone script 0 0) with
  | Ok l => l
  | _ => mkLoop (mkRx sample_ctx (Dhcp.new Dhcp.sample_mac 1) (timer_new 0) (mkPhone [] 0 0)) 0
  end.

Definition next_loop (l : RxLoop Phone) : RxLoop Phone :=
  match rx_turn (P := dev_profile) 16384 l with
  | Ok (Again l) => l
  | _ => l
  end.

Definition last_loop : RxLoop Phone := next_loop (next_loop (next_loop first_loop)).

Lemma chatter_quiet : quiet_frame Dhcp.sample_mac chatter.
Proof. intros src packet Hf. by vm_compute in Hf. Qed.

(** What the phone serves, read by the client. *)
Lemma served_brings mt :
  mt = Dhcp.OFFER \/ mt = Dhcp.ACK ->
  brings (snd (Dhcp.discover (Dhcp.new Dhcp.sample_mac 1))) Dhcp.sample_mac phone_mac
    (Ipv4 10 0 0 1) (Dhcp.sample_parsed mt) (served mt).
Proof.
  intros [-> | ->]; eexists _, _; (split; [vm_compute; reflexivity|]);
    (split; [vm_compute; reflexivity|]); by vm_compute.
Qed.

Lemma link_binds_witness :
  exists lease,
    events (ctx (st last_loop)) = [Bound lease] /\ Dhcp.ip lease = Ipv4 10 0 0 7 /\
    request_frame (snd (Dhcp.discover (Dhcp.new Dhcp.sample_mac 1))) (Dhcp.sample_parsed Dhcp.OFFER)
      ∈ tx (ctx (st last_loop)).
Proof.
  assert (Hq : quiet_turn (P := dev_profile) 16384 first_loop (next_loop first_loop)).
  { split; [by vm_compute|]. intros data Hw.
    assert (Hd : Packet.oks (Packet.decode data) = [chatter]) by (vm_compute in Hw; by injection Hw as <-).
    rewrite Hd. constructor; [apply chatter_quiet|constructor]. }
  assert (Hr1 : reads (P := dev_profile) 16384 (next_loop first_loop) (next_loop (next_loop first_loop))
    ([] ++ served Dhcp.OFFER :: [])).
  { split; [by vm_compute|]. eexists. split; [vm_compute; reflexivity|]. by vm_compute. }
  assert (Hr2 : reads (P := dev_profile) 16384 (next_loop (next_loop first_loop)) last_loop
    ([chatter] ++ [served Dhcp.ACK])).
  { split; [by vm_compute|]. eexists. split; [vm_compute; reflexivity|]. by vm_compute. }
  destruct (link_binds (P := dev_profile) 16384 sample_ctx (mkPhone script 0 0)
    first_loop (next_loop first_loop) (next_loop (next_loop first_loop))
    (next_loop (next_loop first_loop)) last_loop
    phone_mac (Ipv4 10 0 0 1) (Dhcp.sample_parsed Dhcp.OFFER) [] (served Dhcp.OFFER) []
    phone_mac (Ipv4 10 0 0 1) (Dhcp.sample_parsed Dhcp.ACK) [chatter] (served Dhcp.ACK))
    as (lease & n & Hg & He & _ & Ht & _).
  - by apply bytes_okb_ok.
  - reflexivity.
  - reflexivity.
  - by vm_compute.
  - by apply rtc_once.
  - exact Hr1.
  - constructor.
  - apply served_brings. by left.
  - reflexivity.
  - apply rtc_refl.
  - exact Hr2.
  - constructor; [apply chatter_quiet|constructor].
  - apply served_brings. by right.
  - reflexivity.
  - by vm_compute.
  - exists lease. split; [exact He|]. split; [apply Hg|exact Ht].
Defined.

End Bind.
