(* ===== verification/Typed.v ===== *)
(** * What the receive thread hands out is well typed

    Bytes are [Z]s throughout the development; here is that the receive thread of
    [src/link.rs] keeps to them: everything it queues, delivers or reports is made
    of bytes, whatever bytes it is given. *)
From Stdlib Require Import ZArith Lia.
From stdpp Require Import base numbers list strings.
From S2P Require Import Prelude Ethernet Arp UdpIp Dhcp Wire Packet Backend Tx Rx Bind.

Open Scope Z_scope.

Module Typed.

Import Backend Rx.

(** A frame of bytes, of a length an ARP or DHCP frame of ours has. *)
Definition frame_typed (f : list Z) : Prop := bytes_ok f /\ 60 <= zlen f <= 342.

Lemma build_typed dst src ty payload :
  mac_ok dst -> mac_ok src -> bytes_ok payload -> zlen payload <= 328 ->
  frame_typed (Ethernet.build dst src ty payload).
Proof.
  intros Hd Hs Hp Hl. unfold Ethernet.build, frame_typed. set (f := _ ++ _ ++ _ ++ _).
  assert (Hf : bytes_ok f) by (unfold f; rewrite !bytes_ok_app; repeat split; auto with bytes).
  assert (Hz : zlen f = 14 + zlen payload)
    by (unfold f; rewrite !zlen_app, zlen_to_be16;
        change (zlen (MacAddr.as_bytes dst)) with 6; change (zlen (MacAddr.as_bytes src)) with 6; lia).
  pose proof (zlen_nonneg payload).
  assert (HM : Ethernet.MIN_FRAME_LEN = 60) by done.
  rewrite zlen_vec_resize by lia. split.
  - apply bytes_ok_app. split; [done|]. apply bytes_ok_replicate. by split.
  - rewrite zlen_app, zlen_replicate. lia.
Qed.

Lemma dhcp_frame_typed m msg : mac_ok m -> Dhcp.message_ok msg -> frame_typed (dhcp_frame m msg).
Proof.
  intros Hm [Hb Hl]. unfold dhcp_frame.
  set (d := UdpIp.mkUdp _ _ _ _ msg).
  assert (Hd : UdpIp.datagram_ok d)
    by (unfold UdpIp.datagram_ok, d; cbn; repeat split; try (by apply bytes_okb_ok); try done; lia).
  destruct (UdpIp.bytes_ok_headers d 0 (to_be16 (UdpIp.rfc1071 (UdpIp.ip_header d 0 [0; 0]))) Hd)
    as (Hi & _ & _); [auto with bytes|].
  match goal with |- context [UdpIp.udp_segment d ?c] =>
    destruct (UdpIp.bytes_ok_headers d 0 c Hd) as (_ & Hu & _); [apply bytes_ok_to_be16|] end.
  apply build_typed; [by apply bytes_okb_ok|done|by apply bytes_ok_app|]. clear Hd Hi Hu.
  unfold UdpIp.ip_header, UdpIp.udp_segment. subst d. cbn [UdpIp.payload UdpIp.src_ip UdpIp.dst_ip].
  rewrite !zlen_app, !zlen_to_be16, Hl, !zlen_octets. by vm_compute.
Qed.

(** The table's own addresses, which its replies and requests carry. *)
Definition arp_typed (a : Arp.Arp) : Prop := mac_ok (Arp.host_mac a) /\ ip_ok (Arp.host_ip a).

Lemma arp_handle_typed n a payload :
  arp_typed a -> bytes_ok payload ->
  arp_typed (snd (Arp.handle n a payload)) /\
  match fst (Arp.handle n a payload) with
  | Ok (Some reply) => frame_typed reply
  | _ => True
  end.
Proof.
  intros [Hm Hi] Hb. pose proof (Arp.arp_parse_split payload Hb) as Hp. unfold Arp.handle.
  destruct (Arp.parse payload) as [p|e|]; [|by split|done].
  destruct Hp as [_ (Hop & Hsm & Hsi & _)].
  assert (Ha : arp_typed (if Arp.learnable p
    then Arp.insert n a (Arp.sender_ip p) (Arp.sender_mac p) else a)) by (by destruct (Arp.learnable p)).
  destruct (_ || _); [by split|]. split; [done|]. cbn [fst].
  set (a' := if Arp.learnable p then _ else _) in *.
  apply build_typed; [done|apply Ha| |by rewrite Arp.zlen_arp_build].
  unfold Arp.build. cbn [Arp.op Arp.sender_mac Arp.sender_ip Arp.target_mac Arp.target_ip].
  destruct Ha as [Ha1 Ha2].
  rewrite !bytes_ok_app. repeat split; auto with bytes; by apply bytes_okb_ok.
Qed.

Section typed.
Context {P : Profile} {W : Type} `{RxLaws W}.

Definition event_typed (e : LinkEvent) : Prop :=
  match e with Bound l => ip_ok (Dhcp.ip l) | Failed _ => True end.

Definition typed (s : RxState W) : Prop :=
  rx_ok s /\ arp_typed (arp (ctx s)) /\ Forall frame_typed (tx (ctx s)) /\
  Forall bytes_ok (sink (ctx s)) /\ Forall event_typed (events (ctx s)).

Lemma typed_world f (s : RxState W) : typed s -> typed (on_world f s).
Proof. intros (Hok & Hr). split; [by apply (rx_ok_ext s)|done]. Qed.

Lemma send_message_typed msg (s s' : RxState W) :
  typed s -> Dhcp.message_ok msg -> send_message msg s = Ok s' -> typed s'.
Proof.
  intros (Hok & Ha & Ht & Hs & He) Hm E. rewrite send_message_ok in E by done. injection E as <-.
  split; [by apply (rx_ok_ext s)|]. split; [done|]. split; [|done]. cbn.
  apply Forall_app. split; [done|]. constructor; [|constructor].
  destruct Hok as (_ & (Hmac & _) & Hh & _). rewrite <- Hh. by apply dhcp_frame_typed.
Qed.

(** Changes of the client and the timer. *)
Lemma typed_ctx (s s' : RxState W) : typed s -> rx_ok s' -> ctx s' = ctx s -> typed s'.
Proof. intros (_ & Hr) Hok E. split; [done|]. by rewrite E. Qed.

Lemma run_timer_typed (s s' : RxState W) : typed s -> run_timer s = Ok s' -> typed s'.
Proof.
  intros Hty E. pose proof Hty as (Hok & _). unfold run_timer in E.
  destruct (due_spec s Hok) as (m & s1 & E1 & Hok1 & _ & Hc & Hm & _). rewrite E1 in E.
  pose proof (typed_ctx s s1 Hty Hok1 Hc) as Ht1. destruct m as [msg|].
  - by apply (send_message_typed msg s1 s' Ht1 (Hm msg eq_refl)).
  - by injection E as <-.
Qed.

(** The two ways an IPv4 packet can go. *)
Lemma handle_ipv4_typed src packet (s s' : RxState W) :
  typed s -> rx_ok s' -> bytes_ok packet -> handle_ipv4 src packet s = Ok s' -> typed s'.
Proof.
  intros Hty Hok' Hb E. pose proof Hty as (Hok & Ha & Ht & Hs & He).
  assert (Hdel : Ok (on_ctx (deliver packet) s) = (Ok s' : outcome Empty_set _) -> typed s').
  { intros [= <-]. split; [done|]. do 2 (split; [done|]). split; [|done]. cbn.
    apply Forall_app. split; [done|]. by constructor. }
  unfold handle_ipv4 in E. pose proof (UdpIp.parse_udp_total packet Hb) as Hu.
  destruct (UdpIp.parse_udp packet) as [d| |]; [|by apply Hdel|done].
  destruct (is_dhcp d); [|by apply Hdel].
  assert (Hbd : bytes_ok (UdpIp.payload d)) by (destruct Hu as (k & _ & _ & -> & _); by apply bytes_ok_sub).
  destruct Hok as (Hc & Hcb & Hm & _).
  pose proof (Dhcp.handle_bytes _ _ Hcb Hbd) as [Hcb' Hev].
  destruct (Dhcp.handle (dhcp s) (UdpIp.payload d)) as [[[|msg|le|]|e|] c]; cbn [fst snd] in *; try done.
  - injection E as <-. by apply (typed_ctx s).
  - unfold send_message, send_dhcp in E.
    set (s1 := set_dhcp c s) in *. assert (E' := E).
    destruct (UdpIp.build_udp _ _) as [ip| |] eqn:Eb; [|done..]. injection E' as E'.
    pose proof (send_message_ok msg s1 Hev) as Hsm. unfold send_message, send_dhcp in Hsm.
    rewrite Eb in Hsm. rewrite Hsm in E. injection E as <-. split; [done|]. split; [done|].
    split; [|done]. cbn. apply Forall_app. split; [done|]. constructor; [|constructor].
    destruct Hcb as (Hmac & _). rewrite <- Hm. by apply dhcp_frame_typed.
  - unfold read_clock in E. cbn [world ctx dhcp timer set_dhcp] in E.
    destruct (now (world s)) as [n1 w1]. cbn [world ctx dhcp timer set_timer] in E.
    destruct (now w1) as [n2 w2]. injection E as <-. split; [done|]. split; [|split; [done|split; [done|]]].
    + destruct Ha as [Ha1 Ha2]. by split.
    + cbn. apply Forall_app. split; [done|]. by constructor.
  - unfold read_clock in E. cbn [world set_dhcp] in E. destruct (now (world s)). injection E as <-.
    by apply (typed_ctx s).
  - injection E as <-. by apply (typed_ctx s).
Qed.

Lemma handle_frame_typed f (s s' : RxState W) :
  typed s -> bytes_ok f -> handle_frame f s = Ok s' -> typed s'.
Proof.
  intros Hty Hb E. pose proof Hty as (Hok & Ha & Ht & Hs & He).
  destruct (handle_frame_effect f s Hok Hb) as (s1 & E1 & Hok' & _). rewrite E in E1.
  injection E1 as <-. unfold handle_frame in E. pose proof (parse_split f Hb) as Hp.
  destruct (Ethernet.parse f) as [e| |]; [|by injection E as <-|done].
  assert (Hpb : bytes_ok (Ethernet.payload e)).
  { rewrite Hp in Hb. unfold bytes_ok in Hb. rewrite !Forall_app in Hb. by destruct_and!. }
  destruct (_ && _); [by injection E as <-|].
  destruct (_ =? _).
  - destruct (arp_now_spec (Ethernet.payload e) s) as (n & w & E1 & _). rewrite E1 in E.
    cbn [ctx dhcp timer world] in E.
    pose proof (arp_handle_typed n (arp (ctx s)) _ Ha Hpb) as [Ha' Hr].
    destruct (Arp.handle n (arp (ctx s)) _) as [[[reply|]|e'|] a]; cbn [fst snd] in *; try done;
      injection E as <-; (split; [done|]); (split; [done|]); (split; [|done]); try done.
    cbn. apply Forall_app. split; [done|]. by constructor.
  - destruct (_ =? _); [|by injection E as <-]. by eapply handle_ipv4_typed.
Qed.

Lemma handle_items_typed items (s s' : RxState W) :
  typed s -> Forall (fun i => match i with Ok f => bytes_ok f | _ => True end) items ->
  handle_items items s = Ok s' -> typed s'.
Proof.
  intros Hty Hi. revert s Hty. induction Hi as [|[f|e|] items Hf _ IH]; intros s Hty E; cbn in E.
  - by injection E as <-.
  - inv_bind E. eapply IH; [|exact E]. by eapply handle_frame_typed.
  - by injection E as <-.
  - done.
Qed.

(** The loop, at rest or returned. *)
Definition turn_typed (t : turn W) : Prop :=
  match t with Again l | Returned l => typed (st l) end.

Lemma rx_turn_typed size (l : RxLoop W) t : typed (st l) -> rx_turn size l = Ok t -> turn_typed t.
Proof.
  intros Hty E. unfold rx_turn in E.
  pose proof (wait_bytes TICK (world (st l))) as Hb.
  assert (Hc : forall n s, typed s -> continue n s = Ok t -> turn_typed t).
  { intros n s Hs Ec. unfold continue in Ec. inv_bind Ec. injection Ec as <-.
    by eapply run_timer_typed. }
  assert (Hf : forall msg n s, typed s -> fail msg n s = Ok t -> turn_typed t).
  { intros msg n s (Hok & Ha & Ht & Hs & He) [= <-]. split; [by apply (rx_ok_ext s)|].
    do 3 (split; [done|]). cbn. apply Forall_app. split; [done|]. by constructor. }
  destruct (in_wait TICK (world (st l))) as [[[data|e]|] w]; cbn [fst] in Hb.
  - inv_bind E. apply (Hc 0 a); [|done]. unfold handle_transfer in E0.
    destruct (Packet.decode_total data (Hb data eq_refl)) as (fs & tl & Ed & Ht & Hfs & _).
    rewrite Ed in E0. eapply handle_items_typed; [| |exact E0]; [by do 2 apply typed_world|].
    apply Forall_app. split; [by apply Forall_map|].
    destruct Ht as [-> | [x ->]]; by repeat constructor.
  - destruct (is_fatal e); [eapply Hf, E; by apply typed_world|].
    destruct e; try (eapply Hc, E; by do 2 apply typed_world).
    destruct (_ <? _); [eapply Hf, E; by apply typed_world|].
    destruct (recover_bulk_in size w) as [[u|e] w'].
    + eapply Hc, E. by do 2 apply typed_world.
    + eapply Hf, E. by do 2 apply typed_world.
  - eapply Hc, E. by apply typed_world.
Qed.

Definition fresh_ctx (m : MacAddr) : RxContext := mkCtx m (Arp.new m UNSPECIFIED) [] [] [].

(** The receive thread keeps to its types: whatever bytes arrive, every frame it
    queues is made of bytes and no longer than a DHCP message in its headers,
    every packet it delivers is made of bytes, every address it reports has four
    of them, and so do the addresses its ARP replies are built from. *)
Theorem rx_typed `{Shutdown W} fuel size m w t :
  mac_ok m -> in_pending w = 0 -> rx_loop fuel size (fresh_ctx m) w = Ok t -> turn_typed t.
Proof.
  intros Hm Hp E. unfold rx_loop in E.
  destruct (rx_start_ok size (fresh_ctx m) w Hm Hp) as (l & El & (Hok & _) & _). rewrite El in E.
  cbn [mbind outcome_bind] in E.
  assert (Hl : typed (st l)).
  { destruct (Bind.start_spec size (fresh_ctx m) w l Hm Hp El) as (_ & _ & Hc).
    split; [done|]. rewrite Hc. split; [split; [done|by apply bytes_okb_ok]|].
    split; [|by split]. constructor; [|constructor]. apply dhcp_frame_typed; [done|].
    set (c0 := Dhcp.new _ _). assert (Hb0 : Dhcp.client_bytes c0) by
      (split; [exact Hm|split; [intros i [=]|split; [intros i [=]|intros le [=]]]]).
    exact (proj2 (Dhcp.discover_bytes _ Hb0)). }
  clear El Hok. revert l Hl E. induction fuel as [|fuel IH]; intros l Hl E; cbn [rx_run] in E.
  - by injection E as <-.
  - destruct (shutdown _); [by injection E as <-|]. inv_bind E.
    pose proof (rx_turn_typed size l a Hl E0) as Ha. destruct a as [l1|l1]; [by apply (IH l1)|].
    by injection E as <-.
Qed.

End typed.

Lemma rx_typed_witness :
  match rx_loop (P := dev_profile) 3 16384 (fresh_ctx sample_host) sample_world with
  | Ok t => turn_typed t /\
      match t with Again l | Returned l => zlen (tx (ctx (st l))) = 1 end
  | _ => False
  end.
Proof.
  pose proof (rx_typed (P := dev_profile) 3 16384 sample_host sample_world) as Ht.
  destruct (rx_loop _ _ _ _) as [t| |] eqn:E; [|by vm_compute in E..].
  split; [by apply Ht; [apply bytes_okb_ok| |]|]. vm_compute in E. by injection E as <-.
Defined.

End Typed.
