(* ===== verification/Link.v ===== *)
(** * The link

    [src/link.rs], lines 102-196 and 584-595: the threads of a link over what
    they share. Each thread is a machine whose steps are what it does between
    two looks at shared state, a channel operation, a lock of the ARP table or
    a load of the shutdown flag, and the link runs their steps in any order,
    with those of the other holders of a [FrameSender] and of the daemon. *)
From Stdlib Require Import ZArith Lia.
From stdpp Require Import base numbers list strings relations.
From S2P Require Import Prelude Ethernet Arp UdpIp Dhcp Wire Packet Backend Tx Rx.

Open Scope Z_scope.

Module Link.

Import Backend.

(** Where the transmit thread is in [tx_loop]. *)
Inductive TxPc : Type :=
| TTop                               (** [while !shutdown.load(..)] *)
| TRecv                              (** [frames.recv_timeout(TICK)] *)
| TFilling (f : list Z)              (** [while let Some(frame) = next.take()] *)
| TPolling                           (** [next = frames.try_recv().ok()] *)
| TFlushing (f : option (list Z))    (** in [flush], before [f] is tried again or at the end of the burst *)
| TDone.

(** Where the receive thread is in [rx_loop], with its count of stalls. *)
Inductive RxPc : Type :=
| RStart
| RTop (stalls : Z)                  (** [while !shutdown.load(..)] *)
| RWait (stalls : Z)                 (** [bulk_in.wait(TICK)] *)
| RFrames (items : list (outcome Wire.Error (list Z)))   (** in [handle_transfer] *)
| RTimer (stalls : Z)                (** [dhcp_state.due(&mut dhcp)] *)
| RDone
| RPanicked.

(** A started link. [ctx (rx l)] is what the threads share: the ARP table, every
    frame queued so far, of which the transmit thread took the first [taken],
    and every event sent, of which the daemon saw the first [seen]. [held]
    says whether the [Link] itself still holds its sender, [others] counts the
    clones of it, and [wire] is the history of submitted transfers. *)
Record Link (Wr Wt : Type) : Type := mkLink
  { rx : Rx.RxState Wr; rpc : RxPc; tx : Tx.Tx Wt; tpc : TxPc; taken : nat; seen : nat;
    flag : bool; held : bool; others : nat; wire : list (list Z) }.

Arguments mkLink {Wr Wt} _ _ _ _ _ _ _ _ _ _.
Arguments rx {Wr Wt} _.
Arguments rpc {Wr Wt} _.
Arguments tx {Wr Wt} _.
Arguments tpc {Wr Wt} _.
Arguments taken {Wr Wt} _.
Arguments seen {Wr Wt} _.
Arguments flag {Wr Wt} _.
Arguments held {Wr Wt} _.
Arguments others {Wr Wt} _.
Arguments wire {Wr Wt} _.

Section state.
Context {Wr Wt : Type}.

Definition set_rx (s : Rx.RxState Wr) (pc : RxPc) (l : Link Wr Wt) : Link Wr Wt :=
  mkLink s pc (tx l) (tpc l) (taken l) (seen l) (flag l) (held l) (others l) (wire l).

Definition set_tx (t : Tx.Tx Wt) (pc : TxPc) (l : Link Wr Wt) : Link Wr Wt :=
  mkLink (rx l) (rpc l) t pc (taken l) (seen l) (flag l) (held l) (others l) (wire l).

(** The frame channel: everything sent, and what is still in it. *)
Definition queued (l : Link Wr Wt) : list (list Z) := Rx.tx (Rx.ctx (rx l)).

Definition queue (l : Link Wr Wt) : list (list Z) := drop (taken l) (queued l).

Definition take_frame (f : list Z) (l : Link Wr Wt) : Link Wr Wt :=
  mkLink (rx l) (rpc l) (tx l) (TFilling f) (S (taken l)) (seen l) (flag l) (held l) (others l)
    (wire l).

(** [FrameSender::send] *)
Definition send (f : list Z) (l : Link Wr Wt) : Link Wr Wt :=
  set_rx (Rx.on_ctx (Rx.send_frame f) (rx l)) (rpc l) l.

Definition rx_ended (pc : RxPc) : bool :=
  match pc with RDone | RPanicked => true | _ => false end.

(** The receive thread drops its context, and the sender in it, when it ends. *)
Definition disconnected (l : Link Wr Wt) : bool :=
  negb (held l) && (others l =? 0)%nat && rx_ended (rpc l).

Definition joined (l : Link Wr Wt) : Prop := tpc l = TDone /\ rx_ended (rpc l) = true.

(** [Link::start]: the timer is [rx_loop]'s own, and set when it starts. *)
Definition start `{OutEndpoint Wt} (m : MacAddr) (limits : Tx.TxLimits) (bulk_in : Wr)
    (bulk_out : Wt) : Link Wr Wt :=
  let ctx := Rx.mkCtx m (Arp.new m UNSPECIFIED) [] [] [] in
  let client := Dhcp.new m (be32 (m2 m) (m3 m) (m4 m) (m5 m)) in
  mkLink (Rx.mkRx ctx client (Rx.timer_new 0) bulk_in) RStart
    (Tx.mkTx bulk_out limits (Z.max (out_max_packet_size bulk_out) 1) [] 0 0 0 0) TTop
    0 0 false true 0 [].

(** [Link::shutdown], before it joins the threads. *)
Definition shutdown (l : Link Wr Wt) : Link Wr Wt :=
  mkLink (rx l) (rpc l) (tx l) (tpc l) (taken l) (seen l) true false (others l) (wire l).

Definition set_others (n : nat) (l : Link Wr Wt) : Link Wr Wt :=
  mkLink (rx l) (rpc l) (tx l) (tpc l) (taken l) (seen l) (flag l) (held l) n (wire l).

(** A call of another holder on the shared ARP table, under its lock. *)
Definition arp_call (t : Z) (c : Arp.call) (l : Link Wr Wt) : Link Wr Wt :=
  set_rx (Rx.on_ctx (fun x => Rx.set_arp (snd (Arp.step t (Rx.arp x) c)) x) (rx l)) (rpc l) l.

(** [try_next_event]: nothing when the channel is empty, and nothing when it is
    closed. *)
Definition try_next_event (l : Link Wr Wt) : option Rx.LinkEvent * Link Wr Wt :=
  match Rx.events (Rx.ctx (rx l)) !! seen l with
  | Some e =>
      (Some e, mkLink (rx l) (rpc l) (tx l) (tpc l) (taken l) (S (seen l)) (flag l) (held l)
                 (others l) (wire l))
  | None => (None, l)
  end.

End state.

(** ** The transmit thread *)

Section tx.
Context {Wr Wt : Type} `{OutEndpoint Wt}.

(** The byte that spares a zero-length packet. *)
Definition pad (t : Tx.Tx Wt) : Tx.Tx Wt :=
  Tx.set_batch
    (if zlen (Tx.batch t) mod Tx.max_packet t =? 0 then Tx.batch t ++ [0] else Tx.batch t)
    (Tx.packets t) t.

(** The [flush] at the end of a burst. *)
Definition final_flush (t : Tx.Tx Wt) : Tx.Tx Wt * TxPc :=
  if Tx.packets t =? 0 then (t, TTop) else (pad t, TFlushing None).

(** After a flush: the frame is tried again, and dropped if it still does not
    fit. *)
Definition after_flush (f : option (list Z)) (t : Tx.Tx Wt) : Tx.Tx Wt * TxPc :=
  match f with
  | None => (t, TTop)
  | Some f => if Tx.fits t f then (Tx.push f t, TPolling) else final_flush t
  end.

(** The [flush] that makes room for a frame. *)
Definition flush_for (f : list Z) (t : Tx.Tx Wt) : Tx.Tx Wt * TxPc :=
  if Tx.packets t =? 0 then after_flush (Some f) t else (pad t, TFlushing (Some f)).

Definition submit_batch (t : Tx.Tx Wt) : Tx.Tx Wt :=
  Tx.mkTx (Tx.reap 0 (out_submit (Tx.batch t) (Tx.world t))) (Tx.limits t) (Tx.max_packet t) [] 0
    (Tx.fetch_add (Tx.sent t) (Tx.packets t)) (Tx.fetch_add (Tx.transfers t) 1)
    (Tx.fetch_add (Tx.bytes t) (zlen (Tx.batch t))).

Definition reaped (timeout : Z) (t : Tx.Tx Wt) : Tx.Tx Wt :=
  Tx.set_world (Tx.reap timeout (Tx.world t)) t.

(** One turn of the wait for room: [None] when the batch can be submitted. *)
Definition wait_turn (stop : bool) (f : option (list Z)) (t : Tx.Tx Wt) :
    option (Tx.Tx Wt * TxPc) :=
  if Tx.TX_DEPTH <=? out_pending (Tx.world t) then
    let '(r, w) := out_wait Tx.TICK (Tx.world t) in
    let t := Tx.set_world w t in
    match r with
    | None => if stop then Some (after_flush f t) else Some (t, TFlushing f)
    | Some _ => Some (t, TFlushing f)
    end
  else None.

Definition tx_step (l : Link Wr Wt) : option (Link Wr Wt) :=
  let become (r : Tx.Tx Wt * TxPc) := Some (set_tx (fst r) (snd r) l) in
  match tpc l with
  | TTop =>
      if flag l then become (reaped (from_millis 500) (tx l), TDone) else become (tx l, TRecv)
  | TRecv =>
      match queue l with
      | f :: _ => Some (take_frame f l)
      | [] =>
          if disconnected l then become (reaped (from_millis 500) (tx l), TDone)
          else become (reaped 0 (tx l), TTop)
      end
  | TFilling f =>
      become (if Tx.fits (tx l) f then (Tx.push f (tx l), TPolling) else flush_for f (tx l))
  | TPolling =>
      match queue l with
      | f :: _ => Some (take_frame f l)
      | [] => become (final_flush (tx l))
      end
  | TFlushing f =>
      match wait_turn (flag l) f (tx l) with
      | Some r => become r
      | None =>
          let r := after_flush f (submit_batch (tx l)) in
          Some (mkLink (rx l) (rpc l) (fst r) (snd r) (taken l) (seen l) (flag l) (held l)
                  (others l) (wire l ++ [Tx.batch (tx l)]))
      end
  | TDone => None
  end.

End tx.

(** ** The receive thread *)

Section rx.
Context {P : Profile} {Wr Wt : Type} `{InEndpoint Wr} `{Clock Wr}.

Definition rx_step (size : Z) (l : Link Wr Wt) : option (Link Wr Wt) :=
  let s := rx l in
  let fail msg (s : Rx.RxState Wr) :=
    Some (set_rx (Rx.on_ctx (Rx.send_event (Rx.Failed msg)) s) RDone l) in
  match rpc l with
  | RStart =>
      match Rx.rx_start size (Rx.ctx s) (Rx.world s) with
      | Ok r => Some (set_rx (Rx.st r) (RTop (Rx.stalls r)) l)
      | _ => Some (set_rx s RPanicked l)
      end
  | RTop n => Some (set_rx s (if flag l then RDone else RWait n) l)
  | RWait n =>
      let '(r, w) := in_wait Rx.TICK (Rx.world s) in
      let s := Rx.on_world (fun _ => w) s in
      match r with
      | Some (ok data) =>
          Some (set_rx (Rx.on_world (in_submit size) s) (RFrames (Packet.decode data)) l)
      | Some (err e) =>
          if is_fatal e then fail (to_string e) s
          else match e with
          | Stall =>
              if Rx.MAX_CONSECUTIVE_STALLS <? n + 1
              then fail ("bulk IN endpoint stalled " +:+ pretty.pretty (n + 1) +:+
                         " times in a row") s
              else
                let '(r, w) := Rx.recover_bulk_in size w in
                let s := Rx.on_world (fun _ => w) s in
                match r with
                | ok _ => Some (set_rx s (RTimer (n + 1)) l)
                | err e => fail (to_string e) s
                end
          | _ => Some (set_rx (Rx.on_world (in_submit size) s) (RTimer n) l)
          end
      | None => Some (set_rx s (RTimer n) l)
      end
  | RFrames [] => Some (set_rx s (RTimer 0) l)
  | RFrames (Ok f :: items) =>
      match Rx.handle_frame f s with
      | Ok s => Some (set_rx s (RFrames items) l)
      | _ => Some (set_rx s RPanicked l)
      end
  | RFrames (Err _ :: _) => Some (set_rx s (RTimer 0) l)
  | RFrames (Panic :: _) => Some (set_rx s RPanicked l)
  | RTimer n =>
      match Rx.run_timer s with
      | Ok s => Some (set_rx s (RTop n) l)
      | _ => Some (set_rx s RPanicked l)
      end
  | RDone | RPanicked => None
  end.

Context `{OutEndpoint Wt}.

(** One step of the link: of a thread, of the daemon that holds it, or of
    another holder of a sender. *)
Inductive step (size : Z) (l : Link Wr Wt) : Link Wr Wt -> Prop :=
| step_rx l' : rx_step size l = Some l' -> step size l l'
| step_tx l' : tx_step l = Some l' -> step size l l'
| step_shutdown : held l = true -> step size l (shutdown l)
| step_event e l' : held l = true -> try_next_event l = (Some e, l') -> step size l l'
| step_clone : held l = true -> step size l (set_others (S (others l)) l)
| step_send f : (0 < others l)%nat -> step size l (send f l)
| step_arp t c : (0 < others l)%nat -> step size l (arp_call t c l)
| step_drop n : others l = S n -> step size l (set_others n l).

(** The links a start leads to. *)
Inductive reachable (size : Z) (m : MacAddr) (limits : Tx.TxLimits) (bulk_in : Wr) (bulk_out : Wt) :
    Link Wr Wt -> Prop :=
| reach_start : reachable size m limits bulk_in bulk_out (start m limits bulk_in bulk_out)
| reach_step l l' :
    reachable size m limits bulk_in bulk_out l -> step size l l' ->
    reachable size m limits bulk_in bulk_out l'.

End rx.

(** ** What the receive thread queues *)

Section sends.
Context {P : Profile} {W : Type} `{InEndpoint W} `{Clock W}.

(** At most [k] frames are queued behind what was there. *)
Definition sends (k : nat) (s s' : Rx.RxState W) : Prop :=
  exists fs, Rx.tx (Rx.ctx s') = Rx.tx (Rx.ctx s) ++ fs /\ (length fs <= k)%nat.

Lemma sends_same k s s' : Rx.tx (Rx.ctx s') = Rx.tx (Rx.ctx s) -> sends k s s'.
Proof. intros E. exists []. rewrite app_nil_r. split; [done|cbn; lia]. Qed.

Lemma sends_one f k s s' :
  Rx.tx (Rx.ctx s') = Rx.tx (Rx.ctx s) ++ [f] -> sends (S k) s s'.
Proof. intros E. exists [f]. split; [done|cbn; lia]. Qed.

Lemma send_message_sends msg (s s' : Rx.RxState W) : Rx.send_message msg s = Ok s' -> sends 1 s s'.
Proof.
  unfold Rx.send_message, Rx.send_dhcp. intros E. inv_bind E.
  destruct (UdpIp.build_udp _ _); cbn in E0; try done.
  injection E as <-. injection E0 as <-. by eapply sends_one.
Qed.

Lemma read_clock_ctx (s : Rx.RxState W) : Rx.ctx (snd (Rx.read_clock s)) = Rx.ctx s.
Proof. unfold Rx.read_clock. by destruct (now (Rx.world s)). Qed.

Lemma arp_now_ctx payload (s : Rx.RxState W) : Rx.ctx (snd (Rx.arp_now payload s)) = Rx.ctx s.
Proof. unfold Rx.arp_now. destruct (Arp.teaches payload); [apply read_clock_ctx|done]. Qed.

(** Moves the clock readings of a goal out of the way. *)
Ltac clock :=
  repeat match goal with
  | |- context [Rx.read_clock ?s] =>
      let Hc := fresh "Hc" in
      pose proof (read_clock_ctx s) as Hc; destruct (Rx.read_clock s); cbn in Hc |- *
  | |- context [Rx.arp_now ?p ?s] =>
      let Hc := fresh "Hc" in
      pose proof (arp_now_ctx p s) as Hc; destruct (Rx.arp_now p s); cbn in Hc |- *
  end.

Lemma handle_ipv4_sends src p (s s' : Rx.RxState W) : Rx.handle_ipv4 src p s = Ok s' -> sends 1 s s'.
Proof.
  unfold Rx.handle_ipv4. destruct (UdpIp.parse_udp p) as [d| |]; [| |done].
  2: { intros [= <-]. by apply sends_same. }
  destruct (Rx.is_dhcp d); [|intros [= <-]; by apply sends_same].
  destruct (Dhcp.handle _ _) as [[[|msg|le|]|e|] c]; try done.
  - intros [= <-]. by apply sends_same.
  - apply send_message_sends.
  - clock. intros [= <-]. apply sends_same. cbn. congruence.
  - clock. intros [= <-]. apply sends_same. cbn. congruence.
  - intros [= <-]. by apply sends_same.
Qed.

Lemma handle_frame_sends f (s s' : Rx.RxState W) : Rx.handle_frame f s = Ok s' -> sends 1 s s'.
Proof.
  unfold Rx.handle_frame. destruct (Ethernet.parse f) as [e| |]; [| |done].
  2: { intros [= <-]. by apply sends_same. }
  destruct (_ && _); [intros [= <-]; by apply sends_same|].
  destruct (_ =? _).
  - clock. destruct (Arp.handle _ _ _) as [[[reply|]|e'|] a]; try done; intros [= <-].
    + apply (sends_one reply). cbn. by rewrite Hc.
    + apply sends_same. cbn. congruence.
    + apply sends_same. cbn. congruence.
  - destruct (_ =? _); [apply handle_ipv4_sends|]. intros [= <-]. by apply sends_same.
Qed.

Lemma run_timer_sends (s s' : Rx.RxState W) : Rx.run_timer s = Ok s' -> sends 1 s s'.
Proof.
  unfold Rx.run_timer.
  assert (Hd : Rx.tx (Rx.ctx (snd (Rx.due s))) = Rx.tx (Rx.ctx s)).
  { unfold Rx.due. clock. destruct (_ <? _); cbn; [congruence|]. clock.
    destruct (Rx.renew_at _); cbn.
    - destruct (Dhcp.renew _). cbn. congruence.
    - destruct (Dhcp.retransmit _); cbn; congruence. }
  destruct (Rx.due s) as [[m|] s1]; cbn in Hd.
  - intros E. apply send_message_sends in E as (fs & E & Hl). exists fs. by rewrite E, Hd.
  - intros [= <-]. by apply sends_same.
Qed.

Lemma rx_start_sends size (s : Rx.RxState W) r :
  Rx.rx_start size (Rx.ctx s) (Rx.world s) = Ok r -> sends 1 s (Rx.st r).
Proof.
  unfold Rx.rx_start. destruct (now _) as [n w]. destruct (Dhcp.discover _) as [m c].
  intros E. inv_bind E. injection E as <-. cbn.
  by apply send_message_sends in E0 as (fs & E & Hl); exists fs.
Qed.

End sends.

(** A step of the receive thread leaves the rest of the link alone, and queues at
    most one frame. *)
Lemma rx_step_queue {P : Profile} {Wr Wt : Type} `{InEndpoint Wr} `{Clock Wr} size
    (l l' : Link Wr Wt) :
  rx_step size l = Some l' -> exists s pc, l' = set_rx s pc l /\ sends 1 (rx l) s.
Proof.
  intros E. unfold rx_step in E.
  assert (Hs : forall s pc, Some (set_rx s pc l) = Some l' -> sends 1 (rx l) s ->
    exists s pc, l' = set_rx s pc l /\ sends 1 (rx l) s).
  { intros s pc [= <-] Hs. by exists s, pc. }
  assert (Hsame : forall s pc, Some (set_rx s pc l) = Some l' ->
    Rx.tx (Rx.ctx s) = queued l -> exists s pc, l' = set_rx s pc l /\ sends 1 (rx l) s).
  { intros s pc E' Hq. apply (Hs s pc E'). by apply sends_same. }
  destruct (rpc l) as [|n|n|[|[f|e|] items]|n| |]; try done; try (by apply (Hsame _ _ E)).
  - destruct (Rx.rx_start _ _ _) as [r| |] eqn:Er; try (by apply (Hsame _ _ E)).
    apply (Hs _ _ E). by eapply rx_start_sends.
  - destruct (in_wait _ _) as [[[d|e]|] w]; try (by apply (Hsame _ _ E)).
    destruct (is_fatal e); [by apply (Hsame _ _ E)|]. destruct e; try (by apply (Hsame _ _ E)).
    destruct (_ <? _); [by apply (Hsame _ _ E)|].
    destruct (Rx.recover_bulk_in size w) as [[u|e] w']; by apply (Hsame _ _ E).
  - destruct (Rx.handle_frame f (rx l)) as [s| |] eqn:Ef; try (by apply (Hsame _ _ E)).
    apply (Hs _ _ E). by eapply handle_frame_sends.
  - destruct (Rx.run_timer (rx l)) as [s| |] eqn:Et; try (by apply (Hsame _ _ E)).
    apply (Hs _ _ E). by eapply run_timer_sends.
Qed.

(** ** Shutting down *)

Section shutdown.
Context {P : Profile} {Wr Wt : Type} `{InEndpoint Wr} `{Clock Wr} `{OutLaws Wt}.

Abbreviation link := (Link Wr Wt).

(** [Link::shutdown] has dropped the link's sender, and nobody else has one. *)
Definition stopping (l : link) : Prop :=
  flag l = true /\ held l = false /\ others l = 0%nat.

(** What the receive thread may still do: its steps, and four for each frame it
    may queue. *)
Definition rx_work (l : link) : Z :=
  match rpc l with
  | RStart => 10
  | RTop _ => 1
  | RWait _ =>
      match fst (in_wait Rx.TICK (Rx.world (rx l))) with
      | Some (ok d) => 8 + 5 * zlen (Packet.decode d)
      | _ => 7
      end
  | RFrames items => 7 + 5 * zlen items
  | RTimer _ => 6
  | RDone | RPanicked => 0
  end.

Definition tx_rank (pc : TxPc) : Z :=
  match pc with
  | TTop => 1
  | TRecv | TPolling => 4
  | TFilling _ => 7
  | TFlushing (Some _) => 6
  | TFlushing None => 3
  | TDone => 0
  end.

(** What both threads may still do. *)
Definition work (l : link) : Z :=
  rx_work l + 4 * zlen (queue l) + tx_rank (tpc l) + out_pending (Tx.world (tx l)).

Lemma rx_work_nonneg l : 0 <= rx_work l.
Proof.
  unfold rx_work. destruct (rpc l); try lia.
  - destruct (fst _) as [[d|e]|]; try lia. pose proof (zlen_nonneg (Packet.decode d)). lia.
  - pose proof (zlen_nonneg items). lia.
Qed.

Lemma work_nonneg l : 0 <= work l.
Proof.
  unfold work. pose proof (rx_work_nonneg l). pose proof (zlen_nonneg (queue l)).
  pose proof (out_pending_nonneg (Tx.world (tx l))).
  assert (0 <= tx_rank (tpc l)) by (destruct (tpc l) as [| | | |[?|]|]; cbn; lia). lia.
Qed.

(** A step of the receive thread leaves the rest alone and uses up its work. *)
Definition rx_moves (l l' : link) : Prop :=
  exists s pc (fs : list (list Z)), l' = set_rx s pc l /\ Rx.tx (Rx.ctx s) = queued l ++ fs /\
    rx_work l' + 4 * zlen fs < rx_work l.

(** A step of the transmit thread leaves the other and the flags alone. *)
Definition tx_moves (l l' : link) : Prop :=
  rx l' = rx l /\ rpc l' = rpc l /\ flag l' = flag l /\ held l' = held l /\
  others l' = others l /\ work l' < work l.

Lemma rx_step_work size l l' :
  rx_step size l = Some l' -> flag l = true ->
  rx_moves l l'.
Proof.
  intros E Hf. unfold rx_step in E.
  assert (Hnone : forall s pc, Some (set_rx s pc l) = Some l' ->
    Rx.tx (Rx.ctx s) = queued l -> rx_work (set_rx s pc l) < rx_work l ->
    rx_moves l l').
  { intros s pc [= <-] Hq Hw. exists s, pc, []. rewrite app_nil_r. split; [done|].
    split; [done|]. unfold zlen. cbn [length]. lia. }
  assert (Hone : forall s pc, Some (set_rx s pc l) = Some l' ->
    sends 1 (rx l) s -> rx_work (set_rx s pc l) + 4 < rx_work l ->
    rx_moves l l').
  { intros s pc [= <-] (fs & Hq & Hl) Hw. exists s, pc, fs. unfold zlen. split; [done|].
    split; [done|lia]. }
  unfold rx_work in Hnone at 2, Hone at 2. pose proof (zlen_nonneg (queue l)).
  destruct (rpc l) as [|n|n|items|n| |] eqn:Epc; try done.
  - destruct (Rx.rx_start _ _ _) as [r| |] eqn:Er.
    + apply (Hone _ _ E); [by eapply rx_start_sends|]. cbn. lia.
    + by apply (Hnone _ _ E).
    + by apply (Hnone _ _ E).
  - rewrite Hf in E. by apply (Hnone _ _ E).
  - destruct (in_wait Rx.TICK (Rx.world (rx l))) as [[[d|e]|] w]; cbn [fst] in Hnone, Hone.
    + apply (Hnone _ _ E); [done|]. cbn. lia.
    + destruct (is_fatal e); [by apply (Hnone _ _ E)|].
      destruct e; try (by apply (Hnone _ _ E)).
      destruct (_ <? _); [by apply (Hnone _ _ E)|].
      destruct (Rx.recover_bulk_in size w) as [[u|e] w']; by apply (Hnone _ _ E).
    + by apply (Hnone _ _ E).
  - pose proof (zlen_nonneg items). destruct items as [|[f|e|] items].
    + by apply (Hnone _ _ E).
    + pose proof (zlen_nonneg items).
      destruct (Rx.handle_frame f (rx l)) as [s| |] eqn:Ef.
      * apply (Hone _ _ E); [by eapply handle_frame_sends|]. cbn. rewrite zlen_cons. lia.
      * apply (Hnone _ _ E); [done|]. cbn. lia.
      * apply (Hnone _ _ E); [done|]. cbn. lia.
    + apply (Hnone _ _ E); [done|]. cbn. lia.
    + apply (Hnone _ _ E); [done|]. cbn. lia.
  - destruct (Rx.run_timer (rx l)) as [s| |] eqn:Et.
    + apply (Hone _ _ E); [by eapply run_timer_sends|]. cbn. lia.
    + by apply (Hnone _ _ E).
    + by apply (Hnone _ _ E).
Qed.

(** What is left of a burst after a flush. *)
Lemma after_flush_rank f (t : Tx.Tx Wt) :
  Tx.world (fst (after_flush f t)) = Tx.world t /\
    tx_rank (snd (after_flush f t)) <= match f with Some _ => 4 | None => 1 end.
Proof.
  destruct f as [f|]; cbn; [|split; [done|lia]]. destruct (Tx.fits t f); cbn; [split; [done|lia]|].
  unfold final_flush. destruct (_ =? 0); cbn; split; (done || lia).
Qed.

(** With an empty batch nothing is left to flush. *)
Lemma after_flush_submitted f (t : Tx.Tx Wt) :
  tx_rank (snd (after_flush f (submit_batch t))) <= match f with Some _ => 4 | None => 1 end.
Proof. apply after_flush_rank. Qed.

Lemma flush_for_rank f (t : Tx.Tx Wt) :
  Tx.world (fst (flush_for f t)) = Tx.world t /\ tx_rank (snd (flush_for f t)) <= 6.
Proof.
  unfold flush_for. destruct (_ =? 0); [|by cbn].
  destruct (after_flush_rank (Some f) t) as [-> Hr]. split; [done|lia].
Qed.

Lemma reaped_pending timeout (t : Tx.Tx Wt) :
  out_pending (Tx.world (reaped timeout t)) <= out_pending (Tx.world t).
Proof. apply Tx.reap_loop_pending. Qed.

(** A wait returns a transfer, or ends the flush of a link that is stopping. *)
Lemma wait_turn_work f (t : Tx.Tx Wt) r :
  wait_turn true f t = Some r ->
  tx_rank (snd r) + out_pending (Tx.world (fst r)) <
    tx_rank (TFlushing f) + out_pending (Tx.world t).
Proof.
  unfold wait_turn. destruct (_ <=? _); [|done].
  pose proof (out_wait_pending Tx.TICK (Tx.world t)) as Hp.
  destruct (out_wait Tx.TICK (Tx.world t)) as [[x|] w]; cbn [fst snd] in *; intros [= <-].
  - cbn. lia.
  - destruct (after_flush_rank f (Tx.set_world w t)) as [-> Hr]. destruct f; cbn in *; lia.
Qed.

(** What moving only the transmit thread makes of the work. *)
Lemma work_tx t pc tk se ws l :
  work (mkLink (rx l) (rpc l) t pc tk se (flag l) (held l) (others l) ws) =
    rx_work l + 4 * zlen (drop tk (queued l)) + tx_rank pc + out_pending (Tx.world t).
Proof. done. Qed.

Lemma tx_step_work l l' : tx_step l = Some l' -> flag l = true -> tx_moves l l'.
Proof.
  intros E Hf. unfold tx_step in E.
  assert (Hb : forall r, Some (set_tx (fst r) (snd r) l) = Some l' ->
    tx_rank (snd r) + out_pending (Tx.world (fst r)) <
      tx_rank (tpc l) + out_pending (Tx.world (tx l)) ->
    tx_moves l l').
  { intros r [= <-] Hr. repeat (split; [done|]). unfold set_tx. rewrite work_tx.
    unfold work, queue. lia. }
  assert (Ht : forall f q, queue l = f :: q -> Some (take_frame f l) = Some l' ->
    4 <= tx_rank (tpc l) ->
    tx_moves l l').
  { intros f q Hq [= <-] Hr. repeat (split; [done|]). unfold take_frame. rewrite work_tx.
    unfold work, queue in *. replace (S (taken l)) with (taken l + 1)%nat by lia.
    rewrite <- drop_drop, Hq, zlen_cons. cbn [drop tx_rank]. rewrite drop_0. lia. }
  destruct (tpc l) as [| |f| |f|] eqn:Epc; try done.
  - rewrite Hf in E. apply (Hb _ E). cbn. pose proof (reaped_pending (from_millis 500) (tx l)) as Hp. cbn in Hp. lia.
  - destruct (queue l) as [|f q] eqn:Eq; [|by apply (Ht _ _ eq_refl E)].
    destruct (disconnected l); apply (Hb _ E); cbn [fst snd tx_rank].
    + pose proof (reaped_pending (from_millis 500) (tx l)). lia.
    + pose proof (reaped_pending 0 (tx l)). lia.
  - apply (Hb _ E). destruct (Tx.fits (tx l) f); [cbn; lia|].
    destruct (flush_for_rank f (tx l)) as [-> Hr]. cbn. lia.
  - destruct (queue l) as [|f q] eqn:Eq; [|by apply (Ht _ _ eq_refl E)].
    apply (Hb _ E). unfold final_flush. destruct (_ =? 0); cbn; lia.
  - destruct (wait_turn (flag l) f (tx l)) as [r|] eqn:Ew.
    { apply (Hb _ E). rewrite Hf in Ew. by apply wait_turn_work. }
    injection E as <-. repeat (split; [done|]). rewrite work_tx. unfold work, queue.
    destruct (after_flush_rank f (submit_batch (tx l))) as [-> Hr]. cbn [submit_batch Tx.world].
    pose proof (out_submit_pending (Tx.batch (tx l)) (Tx.world (tx l))) as Hs.
    pose proof (Tx.reap_loop_pending (Z.to_nat (out_pending (out_submit (Tx.batch (tx l)) (Tx.world (tx l)))))
      0 (out_submit (Tx.batch (tx l)) (Tx.world (tx l)))) as Hp.
    unfold Tx.reap. rewrite Epc. destruct f; cbn [tx_rank] in *; lia.
Qed.

(** A step of a stopping link. *)
Lemma step_work size l l' : step size l l' -> stopping l -> stopping l' /\ work l' < work l.
Proof.
  intros Hs (Hf & Hh & Ho).
  destruct Hs as [l' E|l' E|E|e l' E|E|f E|t c E|n E]; try congruence; try lia.
  - destruct (rx_step_work size l l' E Hf) as (s & pc & fs & -> & Hq & Hw).
    split; [by split|]. unfold work. cbn [set_rx tx tpc]. unfold queue.
    assert (Hz : zlen (drop (taken l) (queued l ++ fs)) <= zlen (drop (taken l) (queued l)) + zlen fs).
    { unfold zlen. rewrite !length_drop, length_app. lia. }
    change (queued (set_rx s pc l)) with (Rx.tx (Rx.ctx s)). cbn [set_rx taken]. rewrite Hq. lia.
  - destruct (tx_step_work l l' E Hf) as (_ & _ & Hf' & Hh' & Ho' & Hw). split; [|done].
    unfold stopping. by rewrite Hf', Hh', Ho'.
Qed.

(** A thread that has not ended can step, whatever the others do. *)
Lemma tx_ended (l : link) : tx_step l = None -> tpc l = TDone.
Proof.
  unfold tx_step. intros E. destruct (tpc l); try done.
  - by destruct (flag l).
  - by destruct (queue l), (disconnected l).
  - by destruct (queue l).
  - by destruct (wait_turn _ _ _).
Qed.

Lemma rx_ended_step size (l : link) : rx_step size l = None -> rx_ended (rpc l) = true.
Proof.
  unfold rx_step. intros E. destruct (rpc l) as [|n|n|[|[f|e|] items]|n| |]; try done.
  - by destruct (Rx.rx_start _ _ _).
  - destruct (in_wait _ _) as [[[d|e]|] w]; try done.
    destruct (is_fatal e); [done|]. destruct e; try done.
    destruct (_ <? _); [done|]. by destruct (Rx.recover_bulk_in _ _) as [[u|e] w'].
  - by destruct (Rx.handle_frame _ _).
  - by destruct (Rx.run_timer _).
Qed.

Lemma joined_or_step size (l : link) : joined l \/ exists l', step size l l'.
Proof.
  destruct (tx_step l) as [l'|] eqn:Et; [right; exists l'; by apply step_tx|].
  destruct (rx_step size l) as [l'|] eqn:Er; [right; exists l'; by apply step_rx|].
  left. split; [by apply tx_ended|by apply (rx_ended_step size)].
Qed.

Lemma nsteps_work size n l l' :
  nsteps (step size) n l l' -> stopping l -> stopping l' /\ Z.of_nat n + work l' <= work l.
Proof.
  induction 1 as [l|n l l1 l2 Hs _ IH]; intros Hl; [split; [done|lia]|].
  destruct (step_work size l l1 Hs Hl) as [Hl1 Hw]. destruct (IH Hl1) as [Hl2 Hw2]. split; [done|lia].
Qed.

(** C8. Shutting down ends: once the flag is set and the senders are dropped, no
    schedule of the threads runs for more than [work] steps, whatever the phone
    sends and however the endpoints answer; and as long as a thread has not
    ended some step can be taken, so every run that goes on to its end has both
    threads ended, and the joins of [shutdown] return. *)
Theorem shutdown_joins size n l l' :
  others l = 0%nat -> nsteps (step size) n (shutdown l) l' ->
  Z.of_nat n <= work (shutdown l) /\ (joined l' \/ exists l'', step size l' l'').
Proof.
  intros Ho Hn. assert (Hs : stopping (shutdown l)) by done.
  destruct (nsteps_work size n _ _ Hn Hs) as [_ Hw]. pose proof (work_nonneg l').
  split; [lia|]. apply joined_or_step.
Qed.

End shutdown.

(** ** Schedules

    A run in which [true] steps the receive thread and [false] the transmit
    thread; a thread that has ended stays as it is. *)
Section schedule.
Context {P : Profile} {Wr Wt : Type} `{InEndpoint Wr} `{Clock Wr} `{OutEndpoint Wt}.

Definition act (size : Z) (receive : bool) (l : Link Wr Wt) : Link Wr Wt :=
  default l (if receive then rx_step size l else tx_step l).

Definition run (size : Z) (schedule : list bool) (l : Link Wr Wt) : Link Wr Wt :=
  foldl (fun l a => act size a l) l schedule.

Lemma act_steps size a l : act size a l = l \/ step size l (act size a l).
Proof.
  unfold act. destruct a.
  - destruct (rx_step size l) eqn:E; [right; by apply step_rx|by left].
  - destruct (tx_step l) eqn:E; [right; by apply step_tx|by left].
Qed.

Lemma run_reachable size m lim bi bo sch l :
  reachable size m lim bi bo l -> reachable size m lim bi bo (run size sch l).
Proof.
  revert l. induction sch as [|a sch IH]; intros l Hl; [done|]. cbn. apply IH.
  destruct (act_steps size a l) as [->|Hs]; [done|]. by eapply reach_step.
Qed.

Lemma run_nsteps size sch l : exists n, nsteps (step size) n l (run size sch l).
Proof.
  revert l. induction sch as [|a sch IH]; intros l; [exists 0%nat; constructor|]. cbn.
  destruct (IH (act size a l)) as [n Hn].
  destruct (act_steps size a l) as [E|Hs]; [rewrite E in *; by exists n|].
  exists (S n). by econstructor.
Qed.

End schedule.

#[local] Existing Instances Rx.fake_in Rx.fake_clock Tx.sim_out Tx.sim_out_laws.

(** A link that sent its first DISCOVER and is told to stop. *)
Definition sample_link : Link Rx.FakeIn Tx.SimTx :=
  run (P := dev_profile) 16384 [true; true; false; false; false; true; true; true]
    (start Rx.sample_host (Tx.mkLimits 2048 4 4) Rx.sample_world (Tx.sim_start [])).

Lemma shutdown_joins_witness :
  let last := run (P := dev_profile) 16384 (concat (replicate 9 [true; false])) (shutdown sample_link) in
  (exists n, nsteps (step (P := dev_profile) 16384) n (shutdown sample_link) last /\
    Z.of_nat n <= work (shutdown sample_link)) /\
  joined last.
Proof.
  intros last. split; [|by vm_compute].
  destruct (run_nsteps (P := dev_profile) 16384 (concat (replicate 9 [true; false])) (shutdown sample_link))
    as [n Hn].
  exists n. split; [exact Hn|].
  apply (shutdown_joins (P := dev_profile) 16384 n sample_link last); [reflexivity|exact Hn].
Defined.

End Link.
