(* ===== verification/Delivery.v ===== *)
(** * What a running link guarantees

    Invariants of the threads of [Link], for every order their steps can take:
    the frames queued by any of them leave in order and none is lost, and the
    receive thread never panics. The machines refine the loops of [Tx] and [Rx]. *)
From Stdlib Require Import ZArith Lia.
From stdpp Require Import base numbers list strings relations.
From S2P Require Import Prelude Ethernet Arp Dhcp Wire Packet Backend Tx Rx Link.

Open Scope Z_scope.

Module Delivery.

Import Backend Link.

(** ** Frames leave in order *)

Section order.
Context {W : Type} `{OutEndpoint W}.

(** The frame the transmit thread took and has not packed yet. *)
Definition in_hand (pc : TxPc) : list (list Z) :=
  match pc with
  | TFilling f | TFlushing (Some f) => [f]
  | _ => []
  end.

(** The batch being flushed. *)
Definition flushing (t : Tx.Tx W) (held : list (list Z)) : Prop :=
  exists b, Tx.holding b held /\ held <> [] /\ t = pad b.

Definition batch_is (pc : TxPc) (t : Tx.Tx W) (held : list (list Z)) : Prop :=
  match pc with
  | TFlushing _ => flushing t held
  | TPolling | TFilling _ => Tx.holding t held
  | TTop | TRecv | TDone => Tx.holding t held /\ held = []
  end.

(** The frames taken, in order, are those that left in [ws], those in the batch,
    those that fit no transfer, and the one in hand. *)
Definition tx_ok (lim : Tx.TxLimits) (mp : Z) (tk ws : list (list Z)) (r : Tx.Tx W * TxPc) : Prop :=
  exists don held,
    tk = don ++ in_hand (snd r) /\ batch_is (snd r) (fst r) held /\
    concat (map Packet.decode ws) ++ map Ok held = map Ok (List.filter (Tx.fits_alone lim) don) /\
    Forall (Tx.transfer_ok lim mp) ws /\ Tx.limits (fst r) = lim /\ Tx.max_packet (fst r) = mp.

Lemma holding_empty (t : Tx.Tx W) held : Tx.holding t held -> Tx.packets t = 0 -> held = [].
Proof.
  intros (_ & _ & _ & Hp & _) H0. destruct held as [|f held]; [done|].
  rewrite zlen_cons in Hp. pose proof (zlen_nonneg held). lia.
Qed.

Lemma holding_some (t : Tx.Tx W) held : Tx.holding t held -> Tx.packets t <> 0 -> held <> [].
Proof. intros (_ & _ & _ & Hp & _) H0 ->. by apply H0. Qed.

(** What is kept of a state when only the batch and the program counter move. *)
Definition accounted (lim : Tx.TxLimits) (mp : Z) (don ws held : list (list Z)) (t : Tx.Tx W) : Prop :=
  Tx.holding t held /\
  concat (map Packet.decode ws) ++ map Ok held = map Ok (List.filter (Tx.fits_alone lim) don) /\
  Forall (Tx.transfer_ok lim mp) ws /\ Tx.limits t = lim /\ Tx.max_packet t = mp.

Lemma accounted_world lim mp don ws held (t : Tx.Tx W) w :
  accounted lim mp don ws held t -> accounted lim mp don ws held (Tx.set_world w t).
Proof. done. Qed.

Lemma accounted_drop lim mp don ws held f (t : Tx.Tx W) :
  accounted lim mp don ws held t -> Tx.fits_alone lim f = false ->
  accounted lim mp (don ++ [f]) ws held t.
Proof.
  intros (Hh & He & Hr) Hf. split; [done|]. split; [|done].
  rewrite List.filter_app. cbn [List.filter]. by rewrite Hf, app_nil_r.
Qed.

Lemma accounted_push lim mp don ws held f (t : Tx.Tx W) :
  accounted lim mp don ws held t -> Tx.fits t f = true ->
  accounted lim mp (don ++ [f]) ws (held ++ [f]) (Tx.push f t).
Proof.
  intros (Hh & He & Ht & Hl & Hm) Hf. pose proof (Tx.fits_spec _ _ _ Hh Hf) as Ha.
  split; [by apply Tx.push_holding|]. split; [|done].
  rewrite List.filter_app, !map_app, app_assoc, He. cbn [List.filter]. rewrite <- Hl. by rewrite Ha.
Qed.

Lemma final_flush_ok lim mp tk ws held t :
  accounted lim mp tk ws held t -> tx_ok lim mp tk ws (final_flush t).
Proof.
  intros (Hh & He & Ht & Hl & Hm). exists tk, held. unfold final_flush.
  destruct (Z.eqb_spec (Tx.packets t) 0) as [E|E]; cbn; rewrite app_nil_r.
  - split; [done|]. split; [|done]. split; [done|]. by apply (holding_empty t).
  - split; [done|]. split; [|done]. exists t. split; [done|].
    split; [by eapply holding_some|done].
Qed.

Lemma after_flush_ok lim mp don ws f t :
  accounted lim mp don ws [] t -> tx_ok lim mp (don ++ option_list f) ws (after_flush f t).
Proof.
  intros Ha. destruct f as [f|]; cbn [after_flush option_list].
  - destruct (Tx.fits t f) eqn:Ef.
    + destruct (accounted_push _ _ _ _ _ _ _ Ha Ef) as (Hh & Hr). exists (don ++ [f]), [f].
      cbn [fst snd in_hand batch_is]. by rewrite app_nil_r.
    + apply (final_flush_ok lim mp (don ++ [f]) ws []). apply accounted_drop; [done|].
      destruct Ha as (Hh & _ & _ & Hl & _). rewrite Tx.fits_empty, Hl in Ef by done. done.
  - destruct Ha as (Hh & Hr). exists don, []. cbn. rewrite !app_nil_r in *. by split.
Qed.

Lemma flush_for_ok lim mp don ws held f t :
  accounted lim mp don ws held t -> tx_ok lim mp (don ++ [f]) ws (flush_for f t).
Proof.
  intros Ha. unfold flush_for. destruct (Z.eqb_spec (Tx.packets t) 0) as [E|E].
  - destruct Ha as (Hh & Hr). pose proof (holding_empty _ _ Hh E) as ->.
    by apply (after_flush_ok lim mp don ws (Some f)).
  - destruct Ha as (Hh & He & Ht & Hl & Hm). exists don, held. cbn. split; [done|].
    split; [|done]. exists t. split; [done|]. split; [by eapply holding_some|done].
Qed.

Lemma submit_batch_ok lim mp don ws held t :
  flushing t held ->
  concat (map Packet.decode ws) ++ map Ok held = map Ok (List.filter (Tx.fits_alone lim) don) ->
  Forall (Tx.transfer_ok lim mp) ws -> Tx.limits t = lim -> Tx.max_packet t = mp ->
  accounted lim mp don (ws ++ [Tx.batch t]) [] (submit_batch t).
Proof.
  intros (b & Hb & Hne & ->) He Ht Hl Hm. cbn in Hl, Hm.
  subst lim mp. destruct (Tx.padded_transfer b held Hb Hne) as [Hd Hok].
  destruct Hb as (Hlim & Hmp & _).
  assert (Hh : Tx.holding (submit_batch (pad b)) []) by (do 4 (split; [done|]); by split).
  split; [done|]. split; [|split; [|by split]].
  - rewrite map_app, concat_app, <- He. cbn [map concat]. rewrite !app_nil_r. f_equal. exact Hd.
  - apply Forall_app. split; [done|]. constructor; [exact Hok|constructor].
Qed.

(** Taking the next frame of the channel. *)
Lemma take_next (q tl : list (list Z)) n f : drop n q = f :: tl -> take (S n) q = take n q ++ [f].
Proof.
  intros E. apply take_S_r. rewrite <- (Nat.add_0_r n), <- lookup_drop. by rewrite E.
Qed.

Context {Wr : Type}.

(** A step takes at most one frame, one that is there, and changes nothing else of
    what the threads share. *)
Definition tx_keeps (l l' : Link Wr W) : Prop :=
  rx l' = rx l /\ rpc l' = rpc l /\ flag l' = flag l /\
  ((taken l <= length (queued l))%nat -> (taken l' <= length (queued l))%nat).

Lemma tx_step_keeps l l' : tx_step l = Some l' -> tx_keeps l l'.
Proof.
  unfold tx_step.
  assert (Ht : forall f q, queue l = f :: q -> Some (take_frame f l) = Some l' -> tx_keeps l l').
  { intros f q Hq [= <-]. do 3 (split; [done|]). intros _. cbn.
    unfold queue in Hq. assert (Hl : length (drop (taken l) (queued l)) = S (length q)) by (by rewrite Hq).
    rewrite length_drop in Hl. lia. }
  destruct (tpc l) as [| |f| |f|]; [destruct (flag l)|destruct (queue l) as [|g q] eqn:Eq|
    |destruct (queue l) as [|g q] eqn:Eq|destruct (wait_turn _ _ _)|];
    try (by apply (Ht _ _ eq_refl)); try done; try (destruct (disconnected l));
    by intros [= <-].
Qed.

Definition sends_ok lim mp (l : Link Wr W) : Prop :=
  tx_ok lim mp (take (taken l) (queued l)) (wire l) (tx l, tpc l).

Lemma tx_step_ok lim mp (l l' : Link Wr W) :
  tx_step l = Some l' -> flag l = false -> sends_ok lim mp l -> sends_ok lim mp l'.
Proof.
  intros E Hf (don & hd & Htk & Hb & He & Ht & Hl & Hm). cbn [fst snd] in *.
  unfold tx_step in E. rewrite Hf in E. set (tk := take (taken l) (queued l)) in *.
  assert (Hbe : forall r, tx_ok lim mp tk (wire l) r -> Some (set_tx (fst r) (snd r) l) = Some l' ->
    sends_ok lim mp l').
  { intros r Hr [= <-]. unfold sends_ok. cbn. by destruct r. }
  assert (Htake : forall f q, queue l = f :: q -> in_hand (tpc l) = [] ->
    Tx.holding (tx l) hd -> Some (take_frame f l) = Some l' -> sends_ok lim mp l').
  { intros f q Hq Hi Hh [= <-]. unfold sends_ok. cbn [taken take_frame tx tpc wire].
    change (queued (take_frame f l)) with (queued l). rewrite (take_next _ _ _ _ Hq).
    fold tk. rewrite Htk, Hi, app_nil_r. by exists don, hd. }
  destruct (tpc l) as [| |f| |f|] eqn:Epc; cbn [in_hand batch_is] in *;
    rewrite ?app_nil_r in Htk; try done.
  - apply (Hbe _) in E; [done|]. exists don, hd. by rewrite Htk, app_nil_r.
  - destruct (queue l) as [|f q] eqn:Eq; [|by apply (Htake _ _ eq_refl eq_refl (proj1 Hb) E)].
    destruct (disconnected l); (apply (Hbe _) in E; [done|]);
      exists don, hd; by rewrite Htk, app_nil_r.
  - apply (Hbe _) in E; [done|]. rewrite Htk. destruct (Tx.fits (tx l) f) eqn:Ef.
    + destruct (accounted_push lim mp don (wire l) hd f (tx l)) as (Hh & Hr); [by split|done|].
      exists (don ++ [f]), (hd ++ [f]). cbn [fst snd in_hand batch_is]. by rewrite app_nil_r.
    + by apply (flush_for_ok lim mp don (wire l) hd).
  - destruct (queue l) as [|f q] eqn:Eq; [|by apply (Htake _ _ eq_refl eq_refl Hb E)].
    apply (Hbe _) in E; [done|]. rewrite Htk. by apply (final_flush_ok lim mp don (wire l) hd).
  - unfold wait_turn in E. destruct (_ <=? _).
    + destruct Hb as (b & Hb & Hne & Hpad).
      destruct (out_wait _ _) as [[x|] w]; (apply (Hbe _) in E; [done|]); exists don, hd;
        (split; [done|]); (split; [|done]); exists (Tx.set_world w b); by rewrite Hpad.
    + injection E as <-. unfold sends_ok. cbn [taken tx tpc wire].
      change (queued _) with (queued l). fold tk. rewrite Htk.
      pose proof (submit_batch_ok lim mp don (wire l) hd (tx l) Hb He Ht Hl Hm) as Ha.
      pose proof (after_flush_ok lim mp don _ f _ Ha) as Hr.
      destruct (after_flush f _). by destruct f.
Qed.

End order.

(** ** The receive thread survives *)

Section survives.
Context {P : Profile} {Wr Wt : Type} `{Rx.RxLaws Wr}.

(** Between its steps the thread has a well-formed state and, outside a wait,
    every read slot queued; it ended for the flag or after saying why. *)
Definition rx_inv (l : Link Wr Wt) : Prop :=
  let running n :=
    Rx.rx_ok (rx l) /\ in_pending (Rx.world (rx l)) = Rx.RX_DEPTH /\
    0 <= n <= Rx.MAX_CONSECUTIVE_STALLS in
  match rpc l with
  | RStart => mac_ok (Rx.host_mac (Rx.ctx (rx l))) /\ in_pending (Rx.world (rx l)) = 0
  | RTop n | RWait n | RTimer n => running n
  | RFrames items =>
      running 0 /\ Forall (fun i => match i with Ok f => bytes_ok f | Err _ => True | Panic => False end) items
  | RDone => flag l = true \/
      exists evs msg, Rx.events (Rx.ctx (rx l)) = evs ++ [Rx.Failed msg]
  | RPanicked => False
  end.

Lemma items_ok data :
  bytes_ok data ->
  Forall (fun i => match i with Ok f => bytes_ok f | Err _ => True | Panic => False end)
    (Packet.decode data).
Proof.
  intros Hb. destruct (Packet.decode_total data Hb) as (frames & tail & -> & Ht & Hf & _).
  apply Forall_app. split.
  - apply Forall_map. eapply Forall_impl; [exact Hf|]. by intros f.
  - destruct Ht as [-> | [e ->]]; by repeat constructor.
Qed.

Lemma rx_step_inv size l l' : rx_step size l = Some l' -> rx_inv l -> rx_inv l'.
Proof.
  unfold rx_step, rx_inv. intros E Hi.
  destruct (rpc l) as [|n|n|items|n| |] eqn:Epc; try done.
  - destruct Hi as [Hm Hp].
    destruct (Rx.rx_start_ok size _ _ Hm Hp) as (r & Er & Hr & _). rewrite Er in E.
    injection E as <-. exact Hr.
  - destruct (flag l) eqn:Ef; injection E as <-; [by left|done].
  - destruct Hi as (Hok & Hp & Hn).
    pose proof (in_wait_pending Rx.TICK (Rx.world (rx l))) as Hw.
    pose proof (Rx.wait_bytes Rx.TICK (Rx.world (rx l))) as Hb.
    destruct (in_wait Rx.TICK (Rx.world (rx l))) as [[[data|e]|] w]; cbn [fst snd] in *.
    + injection E as <-. cbn. split; [|by apply items_ok, Hb].
      split; [by apply (Rx.rx_ok_ext (rx l))|]. rewrite in_submit_pending.
      unfold Rx.MAX_CONSECUTIVE_STALLS. split; lia.
    + assert (Hfail : forall msg s, Some (set_rx (Rx.on_ctx (Rx.send_event (Rx.Failed msg)) s) RDone l)
        = Some l' -> rx_inv l').
      { intros msg s [= <-]. right. by eexists _, msg. }
      assert (Hsub : Some (set_rx (Rx.on_world (in_submit size) (Rx.on_world (fun _ => w) (rx l)))
        (RTimer n) l) = Some l' -> rx_inv l').
      { intros [= <-]. split; [by apply (Rx.rx_ok_ext (rx l))|]. cbn. rewrite in_submit_pending.
        split; [lia|done]. }
      fold (rx_inv l').
      destruct e; cbn [is_fatal] in E; [by eapply Hfail|by apply Hsub| |by eapply Hfail|by apply Hsub].
      destruct (Z.ltb_spec Rx.MAX_CONSECUTIVE_STALLS (n + 1)); [by eapply Hfail|].
      destruct (Rx.recover_bulk_in size w) as [[[]|e] w'] eqn:Er; [|by eapply Hfail].
      injection E as <-. split; [by apply (Rx.rx_ok_ext (rx l))|].
      split; [|lia]. by apply (Rx.recover_in_pending size w).
    + injection E as <-. cbn. split; [by apply (Rx.rx_ok_ext (rx l))|]. split; [lia|done].
  - destruct Hi as [(Hok & Hp & Hn) Hit]. destruct items as [|[f|e|] items].
    + by injection E as <-.
    + apply Forall_cons_iff in Hit as [Hf Hit].
      destruct (Rx.handle_frame_effect f (rx l) Hok Hf) as (s & Es & Hok' & [_ K] & _).
      rewrite Es in E. injection E as <-. cbn. split; [|done]. split; [done|]. split; [congruence|done].
    + by injection E as <-.
    + by apply Forall_cons_iff in Hit as [[] _].
  - destruct Hi as (Hok & Hp & Hn).
    destruct (Rx.run_timer_ok (rx l) Hok) as (s & Es & Hok' & [_ K] & _).
    rewrite Es in E. injection E as <-. cbn. split; [done|]. split; [congruence|done].
Qed.

(** The others may change the ARP table and the queue under it. *)
Lemma rx_inv_others (l : Link Wr Wt) a q n :
  rx_inv l ->
  rx_inv (set_others n
    (set_rx (Rx.on_ctx (fun c => Rx.mkCtx (Rx.host_mac c) a q (Rx.sink c) (Rx.events c)) (rx l))
      (rpc l) l)).
Proof.
  unfold rx_inv. cbn. destruct (rpc l); try done.
Qed.

End survives.

(** ** The whole link *)

Section link.
Context {P : Profile} {Wr Wt : Type} `{Rx.RxLaws Wr} `{OutEndpoint Wt}.
Context (size : Z) (m : MacAddr) (lim : Tx.TxLimits) (bulk_in : Wr) (bulk_out : Wt).

Abbreviation reachable := (reachable size m lim bulk_in bulk_out).

Definition max_packet : Z := Z.max (out_max_packet_size bulk_out) 1.

Lemma sends_ok_queue_le (l : Link Wr Wt) s pc fs :
  (taken l <= length (queued l))%nat -> Rx.tx (Rx.ctx s) = queued l ++ fs ->
  (taken l <= length (queued (set_rx s pc l)))%nat.
Proof.
  intros Ht Hq. change (queued (set_rx s pc l)) with (Rx.tx (Rx.ctx s)).
  rewrite Hq, length_app. lia.
Qed.

Lemma sends_ok_queue (l : Link Wr Wt) s pc n fs :
  sends_ok lim max_packet l -> (taken l <= length (queued l))%nat ->
  Rx.tx (Rx.ctx s) = queued l ++ fs ->
  sends_ok lim max_packet (set_others n (set_rx s pc l)).
Proof.
  intros Hs Ht Hq. unfold sends_ok. cbn [taken set_rx wire tx tpc set_others].
  change (queued (set_others n (set_rx s pc l))) with (Rx.tx (Rx.ctx s)).
  rewrite Hq, take_app_le by done. exact Hs.
Qed.

Lemma link_inv l :
  Tx.limits_ok lim -> mac_ok m -> in_pending bulk_in = 0 -> reachable l ->
  rx_inv l /\ (taken l <= length (queued l))%nat /\
  (flag l = false -> sends_ok lim max_packet l).
Proof.
  intros Hlim Hm Hp. induction 1 as [|l l' _ (Hr & Ht & Hs) Hstep].
  - split; [by split|]. split; [done|]. intros _. exists [], [].
    assert (Hh : Tx.holding (tx (start m lim bulk_in bulk_out : Link Wr Wt)) []).
    { split; [done|]. split; [cbn; lia|]. do 2 (split; [done|]). by split. }
    by repeat (split; [done|]).
  - destruct Hstep as [l' E|l' E|E|e l' E Ee|E|f E|t c E|n E].
    + split; [by eapply rx_step_inv|].
      destruct (rx_step_queue size l l' E) as (s & pc & -> & fs & Hq & _).
      split; [by apply (sends_ok_queue_le l s pc fs)|]. intros Hf.
      by apply (sends_ok_queue l s pc (others l) fs (Hs Hf)).
    + destruct (tx_step_keeps l l' E) as (Erx & Erp & Ef & Htk). split.
      { unfold rx_inv. by rewrite Erx, Erp, Ef. }
      split; [unfold queued in *; rewrite Erx; by apply Htk|].
      rewrite Ef. intros Hf. eapply tx_step_ok; [done|done|by apply Hs].
    + split; [|by split]. revert Hr. unfold rx_inv. cbn. destruct (rpc l); try done. by left.
    + unfold try_next_event in Ee. destruct (_ !! _); [|done]. by injection Ee as <- <-.
    + by split; [apply (rx_inv_others l (Rx.arp (Rx.ctx (rx l))) (queued l) (S (others l)))|].
    + split; [by apply (rx_inv_others l (Rx.arp (Rx.ctx (rx l))) (queued l ++ [f]) (others l))|].
      split; [by apply (sends_ok_queue_le l _ (rpc l) [f])|]. intros Hf.
      by apply (sends_ok_queue l _ (rpc l) (others l) [f] (Hs Hf)).
    + split; [by apply (rx_inv_others l (snd (Arp.step t (Rx.arp (Rx.ctx (rx l))) c)) (queued l) (others l))|].
      split; [done|]. exact Hs.
    + by split; [apply (rx_inv_others l (Rx.arp (Rx.ctx (rx l))) (queued l) n)|].
Qed.

(** C9. While the link is up, the frames that the receive thread, the tunnel's
    reader and any other holder of a sender queue leave in the order they were
    queued, whatever the interleaving: the frames carried by the transfers
    submitted so far, then those in the batch, are exactly the frames taken from
    the channel, less those no transfer can carry and the one in hand; and with
    the thread waiting for more, nothing is held back. *)
Theorem frames_conserved l :
  Tx.limits_ok lim -> mac_ok m -> in_pending bulk_in = 0 -> reachable l -> flag l = false ->
  exists don held,
    take (taken l) (queued l) = don ++ in_hand (tpc l) /\
    concat (map Packet.decode (wire l)) ++ map Ok held =
      map Ok (List.filter (Tx.fits_alone lim) don) /\
    Forall (Tx.transfer_ok lim max_packet) (wire l) /\
    (tpc l = TRecv -> held = [] /\ don = take (taken l) (queued l)).
Proof.
  intros Hlim Hm Hp Hr Hf.
  destruct (link_inv l Hlim Hm Hp Hr) as (_ & _ & Hs). destruct (Hs Hf) as (don & hd & Htk & Hb & He & Ht & _).
  exists don, hd. split; [done|]. split; [done|]. split; [done|]. intros E. cbn in Hb, Htk.
  rewrite E in Hb, Htk. cbn in Hb, Htk. rewrite app_nil_r in Htk. by destruct Hb.
Qed.

(** While it waits, all its reads are queued. *)
Definition all_queued (l : Link Wr Wt) : Prop :=
  forall n, rpc l = RWait n -> in_pending (Rx.world (rx l)) = Rx.RX_DEPTH.

(** It ends when told to, or the last event it sent says why. *)
Definition ends_with_reason (l : Link Wr Wt) : Prop :=
  rpc l = RDone -> flag l = true \/
    exists evs msg, Rx.events (Rx.ctx (rx l)) = evs ++ [Rx.Failed msg].

(** C15. Whatever the phone sends and in whatever order the threads run, no frame,
    error or call of another thread makes the receive thread panic, so the lock
    of the ARP table is never poisoned; it waits with all its reads queued, and
    it ends only when told to or after the event that says why. *)
Theorem link_survives l :
  Tx.limits_ok lim -> mac_ok m -> in_pending bulk_in = 0 ->
  Link.reachable size m lim bulk_in bulk_out l ->
  rpc l <> RPanicked /\ all_queued l /\ ends_with_reason l.
Proof.
  intros Hlim Hm Hp Hr. destruct (link_inv l Hlim Hm Hp Hr) as (Hi & _). unfold rx_inv in Hi.
  split; [by intros E; rewrite E in Hi|]. split.
  - intros n E. rewrite E in Hi. by destruct Hi as (_ & Hq & _).
  - intros E. by rewrite E in Hi.
Qed.

End link.

#[local] Existing Instances Rx.fake_in Rx.fake_clock Rx.fake_in_laws Rx.fake_laws Tx.sim_out.

(** The first DISCOVER of a started link has left in a transfer of its own. *)
Definition started : Link Rx.FakeIn Tx.SimTx :=
  run (P := dev_profile) 16384 (true :: replicate 7 false)
    (start Rx.sample_host (Tx.mkLimits 2048 4 4) Rx.sample_world (Tx.sim_start [])).

Lemma started_reachable :
  reachable (P := dev_profile) 16384 Rx.sample_host (Tx.mkLimits 2048 4 4) Rx.sample_world
    (Tx.sim_start []) started.
Proof. apply run_reachable. apply reach_start. Qed.

Lemma frames_conserved_witness :
  exists held, concat (map Packet.decode (wire started)) ++ map Ok held = map Ok (queued started) /\
    zlen (wire started) = 1 /\ held = [].
Proof.
  destruct (frames_conserved (P := dev_profile) 16384 Rx.sample_host (Tx.mkLimits 2048 4 4)
    Rx.sample_world (Tx.sim_start []) started) as (don & hd & Htk & He & _).
  - by split.
  - by apply bytes_okb_ok.
  - reflexivity.
  - apply started_reachable.
  - by vm_compute.
  - exists hd. assert (Hi : in_hand (tpc started) = []) by (by vm_compute).
    rewrite Hi, app_nil_r in Htk.
    assert (Hd : List.filter (Tx.fits_alone (Tx.mkLimits 2048 4 4)) don = queued started)
      by (rewrite <- Htk; by vm_compute).
    rewrite Hd in He. split; [exact He|]. split; [by vm_compute|].
    assert (Hl : length (concat (map Packet.decode (wire started))) = length (queued started))
      by (by vm_compute).
    apply (f_equal length) in He. rewrite length_app, !length_map in He.
    destruct hd; [done|]. cbn [length] in He. rewrite Hl in He. lia.
Defined.

Lemma link_survives_witness :
  rpc started <> RPanicked /\ rpc started = RTop 0.
Proof.
  split; [|by vm_compute].
  apply (link_survives (P := dev_profile) 16384 Rx.sample_host (Tx.mkLimits 2048 4 4)
    Rx.sample_world (Tx.sim_start []) started); [by split|by apply bytes_okb_ok|reflexivity|].
  apply started_reachable.
Defined.

End Delivery.
