(* ===== verification/Threads.v ===== *)
(** * The threads run their loops

    The machines of [Link] refine the loops of [Rx] and [Tx]: a thread that
    runs on its own, with nothing else moving the channel or the flag, does
    what the loop it was written as does. *)
From Stdlib Require Import ZArith Lia.
From stdpp Require Import base numbers list strings relations.
From S2P Require Import Prelude Ethernet Arp Dhcp Wire Packet Backend Tx Rx Link.

Open Scope Z_scope.

Module Threads.

Import Backend Link.

(** ** The receive thread *)

Section rx.
Context {P : Profile} {Wr Wt : Type} `{InEndpoint Wr} `{Clock Wr}.

Abbreviation link := (Link Wr Wt).

(** Steps of the receive thread only. *)
Definition rx_to (size : Z) (l l' : link) : Prop := rx_step size l = Some l'.

Definition rx_runs (size : Z) : relation link := rtc (rx_to size).

Lemma rx_one size (l l1 l2 : link) : rx_step size l = Some l1 -> rx_runs size l1 l2 -> rx_runs size l l2.
Proof. intros E Hr. by apply (rtc_l _ _ l1). Qed.

Lemma rx_last size (l l1 : link) : rx_step size l = Some l1 -> rx_runs size l l1.
Proof. intros E. by apply rtc_once. Qed.

Lemma frames_run size items s s' (l : link) :
  Rx.handle_items items s = Ok s' ->
  rx_runs size (set_rx s (RFrames items) l) (set_rx s' (RTimer 0) l).
Proof.
  revert s. induction items as [|[f|e|] items IH]; intros s E; cbn in E; [..|done].
  - injection E as <-. by apply rx_last.
  - inv_bind E. eapply rx_one; [|by apply (IH _ E)]. cbn. by rewrite E0.
  - injection E as <-. by apply rx_last.
Qed.

(** Where a turn of the loop leaves the thread. *)
Definition after_turn (t : Rx.turn Wr) (l : link) : link :=
  match t with
  | Rx.Again r => set_rx (Rx.st r) (RTop (Rx.stalls r)) l
  | Rx.Returned r => set_rx (Rx.st r) RDone l
  end.

Lemma timer_run size n s t (l : link) :
  Rx.continue n s = Ok t -> rx_runs size (set_rx s (RTimer n) l) (after_turn t l).
Proof.
  unfold Rx.continue. intros E. inv_bind E. injection E as <-. apply rx_last. cbn.
  by rewrite E0.
Qed.

Lemma turn_run size n s t (l : link) :
  Rx.rx_turn size (Rx.mkLoop s n) = Ok t ->
  rx_runs size (set_rx s (RWait n) l) (after_turn t l).
Proof.
  unfold Rx.rx_turn. cbn [Rx.st Rx.stalls]. intros E.
  assert (Hone : forall l1, rx_step size (set_rx s (RWait n) l) = Some l1 ->
    rx_runs size l1 (after_turn t l) -> rx_runs size (set_rx s (RWait n) l) (after_turn t l))
    by (intros l1; apply rx_one).
  cbn [rx_step rpc set_rx rx] in Hone.
  destruct (in_wait Rx.TICK (Rx.world s)) as [[[data|e]|] w].
  - unfold Rx.handle_transfer in E. inv_bind E. eapply Hone; [reflexivity|].
    etrans; [exact (frames_run size _ _ _ l E0)|]. exact (timer_run _ _ _ _ l E).
  - destruct (is_fatal e).
    { injection E as <-. eapply Hone; [reflexivity|]. apply rtc_refl. }
    destruct e; try (eapply Hone; [reflexivity|]; exact (timer_run _ _ _ _ l E)).
    destruct (_ <? _); [injection E as <-; eapply Hone; [reflexivity|]; apply rtc_refl|].
    destruct (Rx.recover_bulk_in size w) as [[u|e] w'].
    + eapply Hone; [reflexivity|]. exact (timer_run _ _ _ _ l E).
    + injection E as <-. eapply Hone; [reflexivity|]. apply rtc_refl.
  - eapply Hone; [reflexivity|]. exact (timer_run _ _ _ _ l E).
Qed.

(** The receive thread of the link is the loop [rx_run]: left alone, with the
    flag as it is, it goes from the top of the loop to where the loop gets, with
    the same state, in whatever turns the loop takes; when the loop returns, the
    thread has ended. *)
Theorem rx_thread_refines size (l : link) fuel n t :
  let _ : Shutdown Wr := fun _ => flag l in
  rpc l = RTop n -> Rx.rx_run fuel size (Rx.mkLoop (rx l) n) = Ok t ->
  rx_runs size l (after_turn t l).
Proof.
  intros Hsh Hpc. assert (El : l = set_rx (rx l) (RTop n) l) by (destruct l; cbn in *; by rewrite Hpc).
  rewrite El at 2. generalize (rx l) as s. clear El Hpc. intros s. revert n s.
  induction fuel as [|fuel IH]; intros n s E; cbn [Rx.rx_run] in E.
  - injection E as <-. apply rtc_refl.
  - change (Backend.shutdown _) with (flag l) in E at 1.
    destruct (flag l) eqn:Ef.
    + injection E as <-. apply rx_last. cbn. by rewrite Ef.
    + inv_bind E. eapply (rx_one _ _ (set_rx s (RWait n) l)); [cbn; by rewrite Ef|].
      etrans; [by apply turn_run|]. destruct a as [r|r]; cbn [after_turn].
      * destruct r as [s1 n1]. cbn. by apply IH.
      * injection E as <-. apply rtc_refl.
Qed.

End rx.

(** ** The transmit thread

    The world of the loop is its endpoint and the channel; with nothing else
    moving, the channel only loses frames and the flag stays [stop]. [hung] says
    whether every sender is gone. *)

Record Solo (W : Type) : Type := mkSolo
  { endpoint : W; channel : list (list Z); submissions : list (list Z); received : nat }.

Arguments mkSolo {W} _ _ _ _.
Arguments endpoint {W} _.
Arguments channel {W} _.
Arguments submissions {W} _.
Arguments received {W} _.

Section tx.
Context {Wr Wt : Type} `{OutEndpoint Wt} (stop hung : bool).

Abbreviation link := (Link Wr Wt).

Definition on_endpoint (w : Wt) (c : Solo Wt) : Solo Wt :=
  mkSolo w (channel c) (submissions c) (received c).

#[local] Instance solo_out : OutEndpoint (Solo Wt) :=
  { out_max_packet_size c := out_max_packet_size (endpoint c);
    out_pending c := out_pending (endpoint c);
    out_submit d c :=
      mkSolo (out_submit d (endpoint c)) (channel c) (submissions c ++ [d]) (received c);
    out_wait t c := let '(r, w) := out_wait t (endpoint c) in (r, on_endpoint w c);
    out_cancel_all c := on_endpoint (out_cancel_all (endpoint c)) c;
    out_clear_halt c := let '(r, w) := out_clear_halt (endpoint c) in (r, on_endpoint w c) }.

Definition pop (c : Solo Wt) : option (list Z) * Solo Wt :=
  match channel c with
  | [] => (None, c)
  | f :: q => (Some f, mkSolo (endpoint c) q (submissions c) (S (received c)))
  end.

#[local] Instance solo_recv : Tx.FrameReceiver (Solo Wt) :=
  { Tx.recv_timeout _ c :=
      let '(o, c) := pop c in
      (match o with Some f => Tx.Frame f | None => if hung then Tx.HungUp else Tx.TimedOut end, c);
    Tx.try_recv := pop }.

#[local] Instance solo_shutdown : Shutdown (Solo Wt) := fun _ => stop.

(** The endpoint's own part of a reap. *)
Lemma drain_solo n c :
  drain_queue out_pending (fun c => snd (out_wait Tx.DRAIN_TIMEOUT c)) n c =
  on_endpoint (drain_queue out_pending (fun w => snd (out_wait Tx.DRAIN_TIMEOUT w)) n (endpoint c)) c.
Proof.
  revert c. induction n as [|n IH]; intros [w q ws k]; [done|]. cbn [drain_queue].
  change (out_pending (mkSolo w q ws k)) with (out_pending w). cbn [endpoint].
  destruct (_ =? 0); [done|]. cbn. destruct (out_wait Tx.DRAIN_TIMEOUT w). cbn. by rewrite IH.
Qed.

Lemma recover_solo c :
  snd (Tx.recover_bulk_out c) = on_endpoint (snd (Tx.recover_bulk_out (endpoint c))) c.
Proof.
  unfold Tx.recover_bulk_out. rewrite drain_solo.
  change (endpoint (out_cancel_all c)) with (out_cancel_all (endpoint c)).
  set (w := drain_queue _ _ _ _). cbn.
  destruct (0 <? out_pending w); [done|]. by destruct (out_clear_halt w).
Qed.

Lemma reap_solo t c : Tx.reap t c = on_endpoint (Tx.reap t (endpoint c)) c.
Proof.
  unfold Tx.reap. change (out_pending c) with (out_pending (endpoint c)).
  generalize (Z.to_nat (out_pending (endpoint c))). intros n. revert c.
  induction n as [|n IH]; intros c; cbn [Tx.reap_loop]; [by destruct c|].
  change (out_pending c) with (out_pending (endpoint c)). destruct (_ <? _); [|by destruct c].
  cbn [out_wait solo_out]. destruct (out_wait t (endpoint c)) as [[[[]|e]|] w].
  - by rewrite IH.
  - destruct e; try done. by rewrite recover_solo.
  - done.
Qed.

(** The state of the machine that a state of the loop stands for. *)
Definition bare (t : Tx.Tx (Solo Wt)) : Tx.Tx Wt :=
  Tx.mkTx (endpoint (Tx.world t)) (Tx.limits t) (Tx.max_packet t) (Tx.batch t) (Tx.packets t)
    (Tx.sent t) (Tx.transfers t) (Tx.bytes t).

Definition placed (l : link) (t : Tx.Tx (Solo Wt)) (r : Tx.Tx Wt * TxPc) : link :=
  mkLink (rx l) (rpc l) (fst r) (snd r) (received (Tx.world t)) (seen l) (flag l) (held l)
    (others l) (submissions (Tx.world t)).

(** What the loop's world says of the link, which the thread's steps keep. *)
Definition world_of (l : link) (t : Tx.Tx (Solo Wt)) : Prop :=
  flag l = stop /\ disconnected l = hung /\
  channel (Tx.world t) = drop (received (Tx.world t)) (queued l).

Definition tx_to (l l' : link) : Prop := tx_step l = Some l'.

Definition tx_runs : relation link := rtc tx_to.

Lemma tx_one (l l1 l2 : link) : tx_step l = Some l1 -> tx_runs l1 l2 -> tx_runs l l2.
Proof. intros E Hr. by apply (rtc_l _ _ l1). Qed.

Lemma tx_last (l l1 : link) : tx_step l = Some l1 -> tx_runs l l1.
Proof. intros E. by apply rtc_once. Qed.

(** A flush that has something to flush. *)
Lemma flush_runs fuel (t t' : Tx.Tx (Solo Wt)) l f :
  world_of l t -> Tx.packets t <> 0 -> Tx.flush fuel t = Some t' ->
  world_of l t' /\
  tx_runs (placed l t (pad (bare t), TFlushing f)) (placed l t' (after_flush f (bare t'))).
Proof.
  intros (Hf & Hd & Hc) Hp E. unfold Tx.flush in E.
  rewrite (proj2 (Z.eqb_neq _ _) Hp) in E.
  set (full := if _ =? 0 then _ else _) in E.
  destruct (Tx.wait_room fuel (Tx.world t)) as [[b c]|] eqn:Ew; [|done]. cbn in E.
  assert (Hpad : pad (bare t) = Tx.set_batch full (Tx.packets t) (bare t)) by done.
  rewrite Hpad. clear Hpad.
  assert (Ht : t = Tx.set_world (Tx.world t) t) by (by destruct t).
  revert Ew Hc. rewrite Ht. cbn [Tx.world Tx.set_world]. generalize (Tx.world t) as c0. clear Ht.
  induction fuel as [|fuel IH]; intros c0 Ew Hc; [done|]. cbn [Tx.wait_room] in Ew.
  change (out_pending c0) with (out_pending (endpoint c0)) in Ew.
  destruct (Tx.TX_DEPTH <=? out_pending (endpoint c0)) eqn:Ed.
  - cbn [out_wait solo_out] in Ew.
    destruct (out_wait Tx.TICK (endpoint c0)) as [[x|] w] eqn:Eo.
    + destruct (IH _ Ew) as [Hw Hr]; [done|]. split; [done|].
      eapply tx_one; [|exact Hr]. cbn. unfold wait_turn. cbn. by rewrite Ed, Eo.
    + change (Backend.shutdown _) with stop in Ew. destruct stop eqn:Es.
      * injection Ew as <- <-. injection E as <-. split; [by split; [congruence|]|].
        apply tx_last. cbn. unfold wait_turn. cbn. by rewrite Ed, Eo, Hf.
      * destruct (IH _ Ew) as [Hw Hr]; [done|]. split; [done|].
        eapply tx_one; [|exact Hr]. cbn. unfold wait_turn. cbn. by rewrite Ed, Eo, Hf.
  - injection Ew as <- <-. injection E as <-. rewrite reap_solo. split; [by split|].
    apply tx_last. cbn. unfold wait_turn. cbn. by rewrite Ed.
Qed.

Lemma final_flush_runs fuel (t t' : Tx.Tx (Solo Wt)) l :
  world_of l t -> Tx.flush fuel t = Some t' ->
  world_of l t' /\ tx_runs (placed l t (final_flush (bare t))) (placed l t' (bare t', TTop)).
Proof.
  intros Hw E. unfold final_flush. destruct (Z.eqb_spec (Tx.packets (bare t)) 0) as [E0|E0].
  - unfold Tx.flush in E. cbn in E0. rewrite E0 in E. injection E as <-.
    split; [done|apply rtc_refl].
  - exact (flush_runs fuel t t' l None Hw E0 E).
Qed.

(** Making room for a frame. *)
Lemma make_room_runs fuel f b (t t' : Tx.Tx (Solo Wt)) l :
  world_of l t -> Tx.make_room fuel f t = Some (b, t') ->
  world_of l t' /\ Tx.fits t' f = b /\
  tx_runs (placed l t (bare t, TFilling f)) (placed l t' (after_flush (Some f) (bare t'))).
Proof.
  intros Hw E. unfold Tx.make_room in E. cbn [after_flush].
  change (Tx.fits (bare t') f) with (Tx.fits t' f).
  destruct (Tx.fits t f) eqn:Ef.
  - injection E as <- <-. split; [done|]. split; [done|]. rewrite Ef. apply tx_last.
    unfold tx_step. cbn [tpc placed snd]. change (Tx.fits _ f) with (Tx.fits t f). by rewrite Ef.
  - destruct (Tx.flush fuel t) as [t1|] eqn:Efl; [|done]. injection E as <- <-.
    assert (Hstep : tx_step (placed l t (bare t, TFilling f)) =
      Some (placed l t (flush_for f (bare t)))).
    { unfold tx_step. cbn [tpc placed snd]. change (Tx.fits _ f) with (Tx.fits t f). by rewrite Ef. }
    unfold flush_for in Hstep. destruct (Z.eqb_spec (Tx.packets (bare t)) 0) as [E0|E0].
    + unfold Tx.flush in Efl. cbn in E0. rewrite E0 in Efl. injection Efl as <-.
      split; [done|]. split; [done|]. by apply tx_last.
    + destruct (flush_runs fuel t t1 l (Some f) Hw E0 Efl) as [Hw1 Hr]. split; [done|].
      split; [done|]. by eapply tx_one.
Qed.

Lemma world_pop l (t : Tx.Tx (Solo Wt)) f q :
  world_of l t -> channel (Tx.world t) = f :: q ->
  world_of l (Tx.set_world (mkSolo (endpoint (Tx.world t)) q (submissions (Tx.world t))
    (S (received (Tx.world t)))) t).
Proof.
  intros (Hf & Hd & Hc) Eq. split; [done|]. split; [done|]. cbn.
  replace (S _) with (received (Tx.world t) + 1)%nat by lia. by rewrite <- drop_drop, <- Hc, Eq.
Qed.

Lemma placed_queue l (t : Tx.Tx (Solo Wt)) r : world_of l t -> queue (placed l t r) = channel (Tx.world t).
Proof. by intros (_ & _ & ->). Qed.

(** The inner loop, up to the flush that ends the burst. *)
Lemma fill_runs fuel f (t t' : Tx.Tx (Solo Wt)) l :
  world_of l t -> Tx.fill fuel f t = Some t' ->
  world_of l t' /\
  tx_runs (placed l t (bare t, TFilling f)) (placed l t' (final_flush (bare t'))).
Proof.
  revert f t. induction fuel as [|fuel IH]; intros f t Hw E; [done|]. cbn [Tx.fill] in E.
  destruct (Tx.make_room fuel f t) as [[b t1]|] eqn:Em; [|done]. cbn in E.
  destruct (make_room_runs fuel f b t t1 l Hw Em) as (Hw1 & Hb & Hr). cbn [after_flush] in Hr.
  change (Tx.fits (bare t1) f) with (Tx.fits t1 f) in Hr. rewrite Hb in Hr.
  destruct b; [|injection E as <-; by split].
  unfold pop in E. cbn in E.
  set (t2 := Tx.push f t1) in *. change (Tx.push f (bare t1)) with (bare t2) in Hr.
  assert (Hw2 : world_of l t2) by done. change (Tx.world t1) with (Tx.world t2) in E.
  pose proof (placed_queue l t2 (bare t2, TPolling) Hw2) as Hq.
  change (placed l t1 (bare t2, TPolling)) with (placed l t2 (bare t2, TPolling)) in Hr.
  destruct (channel (Tx.world t2)) as [|g q] eqn:Eq; cbn in E.
  - assert (Et : t' = t2) by (injection E as <-; by destruct t1). rewrite Et.
    split; [done|]. etrans; [exact Hr|]. apply tx_last. unfold tx_step. cbn [tpc placed snd].
    by rewrite Hq.
  - destruct (IH _ _ (world_pop l t2 g q Hw2 Eq) E) as [Hw' Hr']. split; [done|].
    etrans; [exact Hr|]. eapply tx_one; [|exact Hr']. unfold tx_step. cbn [tpc placed snd].
    by rewrite Hq.
Qed.

(** The transmit thread of the link is the loop [tx_run]: when the loop returns,
    the thread left alone over the same endpoint, channel and flag, whether or
    not the senders are gone, ends in the loop's state, having taken the same
    frames and submitted the same transfers. *)
Theorem tx_thread_refines fuel (t t' : Tx.Tx (Solo Wt)) l :
  world_of l t -> Tx.tx_run fuel t = Some t' ->
  tx_runs (placed l t (bare t, TTop)) (placed l t' (bare t', TDone)).
Proof.
  revert t. induction fuel as [|fuel IH]; intros t Hw E; [done|]. cbn [Tx.tx_run] in E.
  change (Backend.shutdown _) with stop in E. assert (Hw' := Hw). destruct Hw' as (Hf & Hd & _).
  assert (Hreap : forall d, Tx.set_world (Tx.reap d (Tx.world t)) t =
    Tx.set_world (on_endpoint (Tx.reap d (endpoint (Tx.world t))) (Tx.world t)) t)
    by (intros d; by rewrite reap_solo).
  destruct stop eqn:Es.
  - injection E as <-. rewrite Hreap. apply tx_last. unfold tx_step. cbn [tpc placed snd flag].
    by rewrite Hf.
  - eapply (tx_one _ (placed l t (bare t, TRecv))).
    { unfold tx_step. cbn [tpc placed snd flag]. by rewrite Hf. }
    cbn [Tx.recv_timeout solo_recv] in E. unfold pop in E.
    pose proof (placed_queue l t (bare t, TRecv) Hw) as Hq.
    destruct (channel (Tx.world t)) as [|f q] eqn:Eq; cbn in E.
    + destruct hung eqn:Eh.
      * injection E as <-. rewrite Hreap. apply tx_last. unfold tx_step. cbn [tpc placed snd]. rewrite Hq.
        change (disconnected (placed _ _ _)) with (disconnected l). by rewrite Hd.
      * rewrite Hreap in E. set (t1 := Tx.set_world _ t) in E.
        assert (Hw1 : world_of l t1) by exact Hw. eapply tx_one; [|exact (IH t1 Hw1 E)].
        unfold tx_step. cbn [tpc placed snd]. rewrite Hq.
        change (disconnected (placed _ _ _)) with (disconnected l). by rewrite Hd.
    + unfold Tx.burst in E. set (t1 := Tx.set_world _ t) in E.
      destruct (Tx.fill fuel f t1) as [t2|] eqn:Efi; [|done]. cbn in E.
      destruct (Tx.flush fuel t2) as [t3|] eqn:Efl; [|done]. cbn in E.
      destruct (fill_runs fuel f t1 t2 l (world_pop l t f q Hw Eq) Efi) as [Hw2 Hr2].
      destruct (final_flush_runs fuel t2 t3 l Hw2 Efl) as [Hw3 Hr3].
      eapply tx_one; [|etrans; [exact Hr2|etrans; [exact Hr3|by apply IH]]].
      unfold tx_step. cbn [tpc placed snd]. by rewrite Hq.
Qed.

End tx.

#[local] Existing Instances Rx.fake_in Rx.fake_clock Tx.sim_out solo_out solo_recv solo_shutdown.

(** Two turns of a link that has just started. *)
Definition sample_rx : Link Rx.FakeIn Tx.SimTx :=
  run (P := dev_profile) 16384 [true]
    (start Rx.sample_host Tx.small_limits Rx.sample_world (Tx.sim_start [])).

Lemma rx_thread_refines_witness :
  exists r, rx_runs (P := dev_profile) 16384 sample_rx (set_rx (Rx.st r) (RTop (Rx.stalls r)) sample_rx) /\
    in_pending (Rx.world (Rx.st r)) = 16 /\ Rx.submits (Rx.world (Rx.st r)) = 18%nat.
Proof.
  set (sh := (fun _ => flag sample_rx) : Shutdown Rx.FakeIn).
  assert (E : exists r, Rx.rx_run (P := dev_profile) (H1 := sh) 2 16384 (Rx.mkLoop (rx sample_rx) 0)
    = Ok (Rx.Again r) /\ in_pending (Rx.world (Rx.st r)) = 16 /\
      Rx.submits (Rx.world (Rx.st r)) = 18%nat).
  { eexists. split; [vm_compute; reflexivity|]. by vm_compute. }
  destruct E as (r & E & Hp). exists r. split; [|exact Hp].
  apply (rx_thread_refines (P := dev_profile) 16384 sample_rx 2 0 (Rx.Again r)); [by vm_compute|exact E].
Defined.

(** Two frames in the channel, and nobody left to send more. *)
Definition sample_solo : Tx.Tx (Solo Tx.SimTx) :=
  Tx.mkTx (mkSolo (Tx.sim_start []) [[1; 2]; [3]] [] 0) Tx.small_limits 64 [] 0 0 0 0.

Definition sample_alone : Link Rx.FakeIn Tx.SimTx :=
  mkLink (Rx.on_ctx (fun c => Rx.send_frame [3] (Rx.send_frame [1; 2] c)) Rx.sample_state) RDone
    (bare sample_solo) TTop 0 0 false false 0 [].

Lemma tx_thread_refines_witness :
  exists t', tx_runs sample_alone (placed sample_alone t' (bare t', TDone)) /\
    received (Tx.world t') = 2%nat /\ zlen (submissions (Tx.world t')) = 1.
Proof.
  assert (E : exists t', Tx.tx_run (H0 := solo_recv true) (H1 := solo_shutdown false) 20 sample_solo
    = Some t' /\ received (Tx.world t') = 2%nat /\ zlen (submissions (Tx.world t')) = 1).
  { eexists. split; [vm_compute; reflexivity|]. by vm_compute. }
  destruct E as (t' & E & Hr). exists t'. split; [|exact Hr].
  apply (tx_thread_refines false true 20 sample_solo t' sample_alone); [by split|exact E].
Defined.

End Threads.
