(* ===== verification/Transport.v ===== *)
(** * The control endpoint

    [src/transport.rs]: [ControlTransport] over the control requests of a USB
    interface, with the interrupt endpoint as the response signal. The world
    gives the interface, the interrupt endpoint and [thread::sleep]; the
    instance below is the client of the USB classes and the implementation of
    the class the RNDIS layer is proved against. *)
From Stdlib Require Import ZArith Lia.
From stdpp Require Import base numbers list strings.
From S2P Require Import Prelude Wire Control Backend.

Open Scope Z_scope.

Module Transport.

Import Wire Control Backend.

Definition CONTROL_TIMEOUT : Z := from_secs 2.

(** Reads kept queued on the interrupt endpoint. *)
Definition NOTIFY_DEPTH : nat := 2.

(** [std::thread::sleep] *)
Class Sleep (W : Type) : Type := sleep : Z -> W -> W.

(** [notify] says whether the interrupt endpoint was opened; its queue is in the
    world. *)
Record UsbControlTransport (W : Type) : Type := mkTransport
  { world : W; interface_number : Z; notify : bool }.

Arguments mkTransport {W} _ _ _.
Arguments world {W} _.
Arguments interface_number {W} _.
Arguments notify {W} _.

(** [.map_err(|e| RndisError::Transport(e.to_string()))] *)
Definition map_err {A} (r : Result A) : outcome Error A :=
  match r with
  | ok a => Ok a
  | err e => Err (Transport (to_string e))
  end.

Section transport.
Context {W : Type} `{UsbInterface W} `{InEndpoint W} `{Sleep W}.

Fixpoint submit_notify (n : nat) (w : W) : W :=
  match n with
  | O => w
  | S n => submit_notify n (in_submit 8 w)
  end.

(** [open_in] is the interface's; it opens the endpoint at an address. *)
Definition new (open_in : Z -> W -> Result unit * W) (w : W) (number : Z)
    (interrupt_in : option Z) : outcome Error (UsbControlTransport W) * W :=
  match interrupt_in with
  | Some address =>
      let '(r, w) := open_in address w in
      match map_err r with
      | Ok _ =>
          let w := submit_notify NOTIFY_DEPTH w in
          (Ok (mkTransport w number true), w)
      | Err e => (Err e, w)
      | Panic => (Panic, w)
      end
  | None => (Ok (mkTransport w number false), w)
  end.

Definition setup (t : UsbControlTransport W) (req : Z) : ControlSetup :=
  mkSetup req 0 (interface_number t).

Definition set_world (w : W) (t : UsbControlTransport W) : UsbControlTransport W :=
  mkTransport w (interface_number t) (notify t).

Definition usb_send (msg : list Z) (t : UsbControlTransport W) :
    outcome Error unit * UsbControlTransport W :=
  let '(r, w) := control_out (setup t REQ_SEND_ENCAPSULATED) msg CONTROL_TIMEOUT (world t) in
  (map_err r, set_world w t).

Definition usb_receive (t : UsbControlTransport W) :
    outcome Error (list Z) * UsbControlTransport W :=
  let '(r, w) := control_in (setup t REQ_GET_ENCAPSULATED) (as_u16 MAX_CONTROL_MSG)
                   CONTROL_TIMEOUT (world t) in
  (map_err r, set_world w t).

(** The notification's contents are only traced; every arm polls next. *)
Definition usb_await_response (timeout : Z) (t : UsbControlTransport W) :
    outcome Error unit * UsbControlTransport W :=
  if negb (notify t) then (Ok tt, set_world (sleep timeout (world t)) t)
  else
    let '(r, w) := in_wait timeout (world t) in
    match r with
    | Some (ok data) => (Ok tt, set_world (in_submit 8 w) t)
    | Some (err e) => (Err (Transport (to_string e)), set_world (in_submit 8 w) t)
    | None => (Ok tt, set_world w t)
    end.

#[export] Instance usb_transport : ControlTransport (UsbControlTransport W) :=
  { send := usb_send; receive := usb_receive; await_response := usb_await_response }.

#[export] Instance usb_clock `{Clock W} : Clock (UsbControlTransport W) := fun t =>
  let '(n, w) := now (world t) in (n, set_world w t).

End transport.

(** ** Invariants of the world

    What every operation the transport uses preserves, the transport does. *)
Section quiet.
Context {W : Type} `{UsbInterface W} `{InEndpoint W} `{Sleep W} `{Clock W}.

Definition quiet_world (J : W -> Prop) : Prop := forall w, J w ->
  (forall s d t, J (snd (control_out s d t w))) /\
  (forall s n t, J (snd (control_in s n t w))) /\
  (forall n, J (in_submit n w)) /\ (forall t, J (snd (in_wait t w))) /\
  (forall t, J (sleep t w)) /\ J (snd (now w)).

Lemma usb_keeps J :
  quiet_world J -> transport_keeps (fun t : UsbControlTransport W => J (world t)).
Proof.
  intros HJ t Ht. destruct (HJ _ Ht) as (Ho & Hi & _ & Hw & Hs & Hn).
  split; [|split; [|split]].
  - intros msg. cbn. unfold usb_send.
    specialize (Ho (setup t REQ_SEND_ENCAPSULATED) msg CONTROL_TIMEOUT).
    by destruct (control_out _ _ _ _).
  - cbn. unfold usb_receive.
    specialize (Hi (setup t REQ_GET_ENCAPSULATED) (as_u16 MAX_CONTROL_MSG) CONTROL_TIMEOUT).
    by destruct (control_in _ _ _ _).
  - intros d. cbn. unfold usb_await_response. destruct (notify t); cbn [negb]; [|apply Hs].
    specialize (Hw d). destruct (in_wait d (world t)) as [[[x|e]|] w]; cbn in *; [by apply HJ..|done].
  - unfold now at 1, usb_clock. by destruct (now (world t)).
Qed.

End quiet.

(** ** What the USB layer promises

    The clock never runs backwards, a control read takes some time and returns
    bytes. *)
Class UsbLaws (W : Type) `{UsbInterface W} `{InLaws W} `{Sleep W} `{Clock W} : Type :=
  { usb_time : W -> Z;
    transfer : Z;
    transfer_pos : 0 < transfer;
    usb_now w : fst (now w) = usb_time w /\ usb_time w <= usb_time (snd (now w)) /\
      in_pending (snd (now w)) = in_pending w;
    usb_out s d t w : usb_time w <= usb_time (snd (control_out s d t w)) /\
      in_pending (snd (control_out s d t w)) = in_pending w;
    usb_in s n t w : usb_time w + transfer <= usb_time (snd (control_in s n t w)) /\
      in_pending (snd (control_in s n t w)) = in_pending w /\
      match fst (control_in s n t w) with ok d => bytes_ok d | err _ => True end;
    usb_submit n w : usb_time w <= usb_time (in_submit n w);
    usb_wait t w : usb_time w <= usb_time (snd (in_wait t w));
    usb_sleep t w : usb_time w <= usb_time (sleep t w) /\ in_pending (sleep t w) = in_pending w }.

Section laws.
Context {W : Type} `{UsbLaws W}.

Lemma clock_read (t : UsbControlTransport W) :
  now t = (fst (now (world t)), set_world (snd (now (world t))) t).
Proof. unfold now at 1, usb_clock. by destruct (now (world t)). Qed.

(** The USB transport keeps the RNDIS layer's laws, so everything proved of
    transactions and bring-up holds over USB. *)
#[export] Instance usb_transport_laws : TransportLaws (UsbControlTransport W).
Proof.
  refine {| clock := fun t => usb_time (world t); wait_time := 0; transfer_time := transfer |}.
  - done.
  - pose proof transfer_pos. lia.
  - pose proof transfer_pos. lia.
  - intros t. rewrite (clock_read t). cbn. destruct (usb_now (world t)) as (Hn & Hc & _).
    by split.
  - intros msg t. cbn. unfold usb_send.
    destruct (usb_out (setup t REQ_SEND_ENCAPSULATED) msg CONTROL_TIMEOUT (world t)) as [Hc _].
    destruct (control_out _ _ _ _) as [[u|e] w]; by cbn in *.
  - intros t. cbn. unfold usb_await_response. destruct (notify t); cbn [negb].
    + pose proof (usb_wait POLL_INTERVAL (world t)) as Hw.
      destruct (in_wait POLL_INTERVAL (world t)) as [[[d|e]|] w]; cbn in *;
        [pose proof (usb_submit 8 w)|pose proof (usb_submit 8 w)|]; (split; [done|lia]).
    + destruct (usb_sleep POLL_INTERVAL (world t)) as [Hs _]. cbn. split; [done|lia].
  - intros t. cbn. unfold usb_receive.
    destruct (usb_in (setup t REQ_GET_ENCAPSULATED) (as_u16 MAX_CONTROL_MSG) CONTROL_TIMEOUT
      (world t)) as (Hc & _ & Hb).
    destruct (control_in _ _ _ _) as [[d|e] w]; by cbn in *.
Defined.

(** ** The notification queue *)

Lemma submit_notify_pending n (w : W) : in_pending (submit_notify n w) = in_pending w + Z.of_nat n.
Proof.
  revert w. induction n as [|n IH]; intros w; cbn [submit_notify]; [lia|].
  rewrite IH, in_submit_pending. lia.
Qed.

(** The reads queued for notifications. *)
Definition queued (t : UsbControlTransport W) : Z := in_pending (world t).

Lemma transport_keeps_queue (t : UsbControlTransport W) msg d :
  queued (snd (send msg t)) = queued t /\ queued (snd (receive t)) = queued t /\
  queued (snd (await_response d t)) = queued t /\ queued (snd (now t)) = queued t.
Proof.
  unfold queued. cbn. split; [|split; [|split]].
  - unfold usb_send.
    destruct (usb_out (setup t REQ_SEND_ENCAPSULATED) msg CONTROL_TIMEOUT (world t)) as [_ Hp].
    by destruct (control_out _ _ _ _) as [[u|e] w].
  - unfold usb_receive.
    destruct (usb_in (setup t REQ_GET_ENCAPSULATED) (as_u16 MAX_CONTROL_MSG) CONTROL_TIMEOUT
      (world t)) as (_ & Hp & _).
    by destruct (control_in _ _ _ _) as [[u|e] w].
  - unfold usb_await_response. destruct (notify t); cbn [negb].
    + pose proof (in_wait_pending d (world t)) as Hp.
      destruct (in_wait d (world t)) as [[[x|e]|] w]; cbn in *; rewrite ?in_submit_pending; lia.
    + cbn. apply usb_sleep.
  - rewrite (clock_read t). cbn. by destruct (usb_now (world t)) as (_ & _ & Hp).
Qed.

Lemma transport_keeps_depth d : transport_keeps (fun t : UsbControlTransport W => queued t = d).
Proof.
  intros t <-. split; [|split; [|split]].
  - intros msg. apply (transport_keeps_queue t msg 0).
  - apply (transport_keeps_queue t [] 0).
  - intros e. apply (transport_keeps_queue t [] e).
  - apply (transport_keeps_queue t [] 0).
Qed.

Lemma new_queues open_in w number address t w' :
  new open_in w number (Some address) = (Ok t, w') ->
  in_pending (snd (open_in address w)) = 0 ->
  queued t = Z.of_nat NOTIFY_DEPTH /\ notify t = true /\ interface_number t = number.
Proof.
  unfold new. destruct (open_in address w) as [[u|e] w1]; cbn; intros E Hp; simplify_eq.
  split; [|done]. unfold queued. cbn [world].
  pose proof (submit_notify_pending NOTIFY_DEPTH w1). unfold NOTIFY_DEPTH in *. cbn in *. lia.
Qed.

(** C6. Bring-up over the USB transport, on an interrupt endpoint opened with an
    empty queue, finishes without panic; a session it returns is sound; and
    afterwards, whatever the outcome, exactly [NOTIFY_DEPTH] reads are queued on
    the interrupt endpoint: every completed notification was replaced. *)
Theorem usb_bring_up open_in w number address t w' fuel :
  new open_in w number (Some address) = (Ok t, w') ->
  in_pending (snd (open_in address w)) = 0 ->
  fuel_ok (T := UsbControlTransport W) fuel ->
  exists o r', bring_up fuel (Control.new t) = Some (o, r') /\
    queued (transport r') = Z.of_nat NOTIFY_DEPTH /\
    match o with
    | Ok s => session_ok s /\ link r' <> Unknown
    | Err _ => True
    | Panic => False
    end.
Proof.
  intros Hnew Hopen Hf. destruct (new_queues _ _ _ _ _ _ Hnew Hopen) as (Hq & _).
  destruct (runs_bring_up fuel (Control.new t) Hf) as (o & r' & E & _ & Ho).
  exists o, r'. split; [done|]. split; [|done].
  exact (keeps_bring_up _ (transport_keeps_depth (Z.of_nat NOTIFY_DEPTH)) fuel (Control.new t) _ _ Hq E).
Qed.

End laws.

(** ** A concrete USB world

    The interrupt endpoint announces a response at every read; the control
    endpoint accepts every command and answers with no bytes, a millisecond a
    transfer. *)
Module SimUsb.

Record SimUsb : Type := mkSim { time : Z; pending : nat }.

#[export] Instance sim_in : InEndpoint SimUsb :=
  { in_submit _ w := mkSim (time w) (S (pending w));
    in_wait t w :=
      match pending w with
      | S n => (Some (ok [1; 0; 0; 0; 0; 0; 0; 0]), mkSim (time w) n)
      | O => (None, mkSim (time w + Z.max t 0) O)
      end;
    in_pending w := Z.of_nat (pending w);
    in_cancel_all w := w;
    in_clear_halt w := (ok tt, w) }.

#[export] Instance sim_in_laws : InLaws SimUsb.
Proof. split; intros; cbn; try lia. destruct (pending w); cbn; lia. Qed.

#[export] Instance sim_interface : UsbInterface SimUsb :=
  { control_out _ _ _ w := (ok tt, w);
    control_in _ _ _ w := (ok [], mkSim (time w + from_millis 1) (pending w)) }.

#[export] Instance sim_sleep : Sleep SimUsb := fun t w => mkSim (time w + Z.max t 0) (pending w).

#[export] Instance sim_clock : Clock SimUsb := fun w => (time w, w).

#[export] Instance sim_laws : UsbLaws SimUsb.
Proof.
  refine {| usb_time := time; transfer := from_millis 1 |}; [done|intros..]; cbn -[from_millis].
  - repeat split; lia.
  - split; lia.
  - repeat split; [lia|apply List.Forall_nil].
  - lia.
  - destruct (pending w); cbn; lia.
  - split; lia.
Defined.

End SimUsb.

Import SimUsb.

Lemma usb_bring_up_witness :
  exists t w', new (fun _ w => (ok tt, w)) (mkSim 0 0) 3 (Some 130) = (Ok t, w') /\
    exists o r', bring_up 5001 (Control.new t) = Some (o, r') /\
      queued (transport r') = 2 /\
      match o with
      | Ok s => session_ok s /\ link r' <> Unknown
      | Err _ => True
      | Panic => False
      end.
Proof.
  exists (mkTransport (mkSim 0 2) 3 true), (mkSim 0 2). split; [reflexivity|].
  apply (usb_bring_up (fun _ w => (ok tt, w)) (mkSim 0 0) 3 130 _ (mkSim 0 2));
    [reflexivity|reflexivity|by vm_compute].
Defined.

End Transport.
