(* ===== verification/Host.v ===== *)
(** * The host

    What the modules that touch the Mac share: [anyhow] errors, the [Display]
    of an IPv4 address, and the view of the system's state the theorems about
    bring-up and teardown are stated on: the open descriptors, the routes and
    the dynamic store. *)
From Stdlib Require Import ZArith Lia.
From stdpp Require Import base numbers list strings gmap pretty.
From S2P Require Import Prelude Backend.

Open Scope Z_scope.

Module Host.

(** ** Errors

    An [anyhow::Error]: the contexts added to it, outermost first, and the
    error underneath, which [downcast_ref] still finds. *)

Inductive Cause : Type :=
| Os (errno : Z)            (** [io::Error::last_os_error()] *)
| Usb (e : Backend.UsbError)
| Message (m : string).     (** [bail!], [anyhow!] *)

#[export] Instance Cause_eq_dec : EqDecision Cause.
Proof. pose proof Backend.UsbError_eq_dec. solve_decision. Defined.

Record Error : Type := mkError { contexts : list string; cause : Cause }.

Inductive Result (A : Type) : Type :=
| ok (a : A)
| err (e : Error).

Arguments ok {A} a.
Arguments err {A} e.

Definition context (c : string) (e : Error) : Error := mkError (c :: contexts e) (cause e).

Definition os (errno : Z) : Error := mkError [] (Os errno).

Definition message (m : string) : Error := mkError [] (Message m).

(** Text whose exact form nothing depends on: [String::from_utf8_lossy] and
    [str::trim] of what other programs print, and [strerror]. *)
Class Text :=
  { from_utf8_lossy : list Z -> string; trim : string -> string; strerror : Z -> string }.

(** The [Display] of an error: its outermost message. *)
Definition to_string `{Text} (e : Error) : string :=
  match contexts e with
  | c :: _ => c
  | [] =>
      match cause e with
      | Os n => strerror n
      | Usb e => Backend.to_string e
      | Message m => m
      end
  end.

(** ** Text *)

(** [Ipv4Addr]'s [Display] *)
Definition show_ip (i : Ipv4Addr) : string :=
  pretty (oct0 i) +:+ "." +:+ pretty (oct1 i) +:+ "." +:+ pretty (oct2 i) +:+ "." +:+
  pretty (oct3 i).

(** A [String] is the list of its UTF-8 bytes, here as a Rocq string. *)
Definition str_of_bytes (b : list Z) : string :=
  String.string_of_list_ascii (map (fun x => Ascii.ascii_of_nat (Z.to_nat x)) b).

(** [slice.join(sep)] *)
Fixpoint join (sep : string) (l : list string) : string :=
  match l with
  | [] => ""
  | [s] => s
  | s :: l => s +:+ sep +:+ join sep l
  end.

(** ** The system's state *)

(** A property list of the dynamic store. *)
Inductive Value : Type :=
| VString (s : string)
| VArray (l : list string).

Abbreviation Dict := (list (string * Value)).

(** What a removal is about. *)
Inductive Item : Type :=
| Route (d : string)
| Key (k : string).

(** The descriptors, the routes and the dynamic store, with the history of the
    removals that were refused although there was something to remove. *)
Record Sys : Type := mkSys
  { fds : gset Z; routes : gset string; store : gmap string Dict; stuck : list Item }.

Definition open_fd (fd : Z) (s : Sys) : Sys :=
  mkSys ({[fd]} ∪ fds s) (routes s) (store s) (stuck s).

Definition close_fd (fd : Z) (s : Sys) : Sys :=
  mkSys (fds s ∖ {[fd]}) (routes s) (store s) (stuck s).

Definition add_route (d : string) (s : Sys) : Sys :=
  mkSys (fds s) ({[d]} ∪ routes s) (store s) (stuck s).

Definition set_key (k : string) (v : Dict) (s : Sys) : Sys :=
  mkSys (fds s) (routes s) (<[k := v]> (store s)) (stuck s).

(** Removing a route or a key: it goes when the removal succeeds, and stays when
    it is refused, which is remembered if there was something to remove. *)
Definition del_route (done : bool) (d : string) (s : Sys) : Sys :=
  if done then mkSys (fds s) (routes s ∖ {[d]}) (store s) (stuck s)
  else if bool_decide (d ∈ routes s)
  then mkSys (fds s) (routes s) (store s) (stuck s ++ [Route d])
  else s.

Definition del_key (done : bool) (k : string) (s : Sys) : Sys :=
  if done then mkSys (fds s) (routes s) (delete k (store s)) (stuck s)
  else if bool_decide (is_Some (store s !! k))
  then mkSys (fds s) (routes s) (store s) (stuck s ++ [Key k])
  else s.

(** What the world looks like to the theorems. *)
Class View (W : Type) : Type := view : W -> Sys.

Lemma Sys_eq s s' :
  fds s = fds s' -> routes s = routes s' -> store s = store s' -> stuck s = stuck s' -> s = s'.
Proof. destruct s, s'; cbn. by intros -> -> -> ->. Qed.

Lemma close_open fd s : fd ∉ fds s -> close_fd fd (open_fd fd s) = s.
Proof. intros. apply Sys_eq; cbn; [set_solver|done..]. Qed.

(** ** Undoing what was done

    [s] is [base] again, up to the removals that were refused in between: the
    same descriptors are open; a route that was not there before is one whose
    removal was refused; a route that was there is still there, unless it is one
    of those in the way of ours, [leased]; and the keys are the same, but for our
    own, which are gone or could not be removed. *)
Definition restored (leased : string -> Prop) (ours : list string) (base s : Sys) : Prop :=
  exists refused,
    stuck s = stuck base ++ refused /\
    fds s = fds base /\
    (forall d, d ∈ routes s -> d ∈ routes base \/ Route d ∈ refused) /\
    (forall d, d ∈ routes base -> d ∈ routes s \/ leased d) /\
    (forall k, store s !! k = store base !! k \/
               (k ∈ ours /\ (store s !! k = None \/ Key k ∈ refused))).

(** The common case: nothing was in the way, and nothing was refused. *)
Definition untouched (leased : string -> Prop) (ours : list string) (base s : Sys) : Prop :=
  (forall d, leased d -> d ∉ routes base) -> (forall k, k ∈ ours -> store base !! k = None) ->
  stuck s = stuck base -> s = base.

(** What a component leaves behind: only what could not be removed. *)
Definition undone leased ours base s : Prop :=
  restored leased ours base s /\ untouched leased ours base s.

Section restored.
Context (leased : string -> Prop) (ours : list string).

#[global] Instance restored_reflexive : Reflexive (restored leased ours).
Proof. intros s. exists []. rewrite app_nil_r. do 2 (split; [done|]). auto. Qed.

#[global] Instance restored_transitive : Transitive (restored leased ours).
Proof.
  intros s1 s2 s3 (r1 & E1 & F1 & A1 & B1 & K1) (r2 & E2 & F2 & A2 & B2 & K2).
  exists (r1 ++ r2). split; [by rewrite E2, E1, app_assoc|]. split; [by rewrite F2|].
  split; [|split].
  - intros d Hd. destruct (A2 d Hd) as [Hd'|Hd']; [destruct (A1 d Hd')|]; set_solver.
  - intros d Hd. destruct (B1 d Hd) as [Hd'|Hd']; [destruct (B2 d Hd')|]; auto.
  - intros k. destruct (K2 k) as [->|(Ho & Hk)].
    + destruct (K1 k) as [->|(Ho & Hk)]; [by left|]. right. set_solver.
    + right. set_solver.
Qed.

Lemma restored_exact base s : restored leased ours base s -> untouched leased ours base s.
Proof.
  intros (r & E & F & A & B & K) Hl Ho Hs.
  assert (r = []) as -> by (eapply app_inv_head; rewrite app_nil_r; by rewrite <- E).
  apply Sys_eq; [done| | |done].
  - apply set_eq. intros d. split; intros Hd.
    + by destruct (A d Hd) as [|Hr]; [|apply elem_of_nil in Hr].
    + destruct (B d Hd) as [|Hr]; [done|]. by apply Hl in Hr.
  - apply map_eq. intros k. destruct (K k) as [|(Hk & [->|Hr])]; [done| |by apply elem_of_nil in Hr].
    by rewrite Ho.
Qed.

Lemma restored_undone base s : restored leased ours base s -> undone leased ours base s.
Proof. intros Hr. split; [done|by apply restored_exact]. Qed.

(** Removing a leased route, or one of our keys. *)
Lemma restored_del_route b d s : leased d -> restored leased ours s (del_route b d s).
Proof.
  intros Hl. destruct b; cbn; [|case_bool_decide; [|done]].
  - exists []. rewrite app_nil_r. do 2 (split; [done|]). cbn. split; [set_solver|]. split; [|auto].
    intros d' Hd. destruct (decide (d' = d)) as [->|]; set_solver.
  - exists [Route d]. do 2 (split; [done|]). cbn. auto.
Qed.

Lemma restored_del_key b k s : k ∈ ours -> restored leased ours s (del_key b k s).
Proof.
  intros Hk. destruct b; cbn; [|case_bool_decide; [|done]].
  - exists []. rewrite app_nil_r. do 2 (split; [done|]). cbn. split; [auto|]. split; [auto|].
    intros k'. destruct (decide (k' = k)) as [->|].
    + right. split; [done|left]. by rewrite lookup_delete_eq.
    + left. by rewrite lookup_delete_ne.
  - exists [Key k]. do 2 (split; [done|]). cbn. auto.
Qed.

(** The same for one that was just added. *)
Lemma restored_added_route b d s : leased d -> restored leased ours s (del_route b d (add_route d s)).
Proof.
  intros Hl. destruct b; cbn.
  - exists []. rewrite app_nil_r. do 2 (split; [done|]). cbn. split; [set_solver|]. split; [|auto].
    intros d' Hd. destruct (decide (d' = d)) as [->|]; set_solver.
  - rewrite bool_decide_true by set_solver. exists [Route d]. do 2 (split; [done|]). cbn.
    split; [set_solver|]. split; [set_solver|auto].
Qed.

Lemma restored_set_key b k v s : k ∈ ours -> restored leased ours s (del_key b k (set_key k v s)).
Proof.
  intros Hk. destruct b; cbn.
  - exists []. rewrite app_nil_r. do 2 (split; [done|]). cbn. split; [auto|]. split; [auto|].
    intros k'. destruct (decide (k' = k)) as [->|].
    + right. split; [done|left]. by rewrite lookup_delete_eq.
    + left. by rewrite lookup_delete_ne, lookup_insert_ne.
  - rewrite bool_decide_true by (rewrite lookup_insert_eq; by eexists).
    exists [Key k]. do 2 (split; [done|]). cbn. split; [auto|]. split; [auto|].
    intros k'. destruct (decide (k' = k)) as [->|].
    + right. split; [done|right]. by left.
    + left. by rewrite lookup_insert_ne.
Qed.

End restored.

(** The parts of the system are independent. *)
Lemma close_del_route fd b d s : close_fd fd (del_route b d s) = del_route b d (close_fd fd s).
Proof. destruct b; [done|]. cbn. by case_bool_decide. Qed.

Lemma close_del_key fd b k s : close_fd fd (del_key b k s) = del_key b k (close_fd fd s).
Proof. destruct b; [done|]. cbn. by case_bool_decide. Qed.

Lemma del_key_add_route b k d s : del_key b k (add_route d s) = add_route d (del_key b k s).
Proof. destruct b; [done|]. cbn. by case_bool_decide. Qed.

Lemma open_del_route fd b d s : del_route b d (open_fd fd s) = open_fd fd (del_route b d s).
Proof. destruct b; [done|]. cbn. by case_bool_decide. Qed.

Lemma close_set_key fd k v s : close_fd fd (set_key k v s) = set_key k v (close_fd fd s).
Proof. done. Qed.

Lemma close_add_route fd d s : close_fd fd (add_route d s) = add_route d (close_fd fd s).
Proof. done. Qed.

Lemma del_route_set_key b d k v s : del_route b d (set_key k v s) = set_key k v (del_route b d s).
Proof. destruct b; [done|]. cbn. by case_bool_decide. Qed.

Lemma fds_del_route b d s : fds (del_route b d s) = fds s.
Proof. destruct b; [done|]. cbn. by case_bool_decide. Qed.

Lemma del_key_set_ne b k k' v s :
  k <> k' -> del_key b k (set_key k' v s) = set_key k' v (del_key b k s).
Proof.
  intros Hk. destruct b; cbn.
  - apply Sys_eq; [done|done| |done]. cbn. by rewrite delete_insert_ne.
  - rewrite lookup_insert_ne by done. by case_bool_decide.
Qed.

Lemma restored_weaken (leased leased' : string -> Prop) ours base s :
  (forall d, leased d -> leased' d) -> restored leased ours base s -> restored leased' ours base s.
Proof.
  intros Hl (r & E & F & A & B & K). exists r. do 3 (split; [done|]). split; [|done].
  intros d Hd. destruct (B d Hd); auto.
Qed.

(** ** A concrete system

    For the witnesses: the units below [taken] are in use, the programs, keys and
    removals of [refused] fail, everything else succeeds and is recorded. *)
Record Sim : Type := mkSim
  { sim_sys : Sys; taken : Z; refused : list string;
    incoming : list (list Z); written : list (list Z); commands : list (string * list string);
    sim_time : Z }.

Definition with_sys (f : Sys -> Sys) (w : Sim) : Sim :=
  mkSim (f (sim_sys w)) (taken w) (refused w) (incoming w) (written w) (commands w) (sim_time w).

#[export] Instance sim_clock : Clock Sim := fun w => (sim_time w, w).

#[export] Instance sim_view : View Sim := sim_sys.

#[export] Instance sim_text : Text :=
  {| from_utf8_lossy := str_of_bytes; trim s := s; strerror n := "os error " +:+ pretty n |}.

Definition empty_sys : Sys := mkSys ∅ ∅ ∅ [].

Definition sim_start (taken : Z) (refused : list string) (packets : list (list Z)) : Sim :=
  mkSim empty_sys taken refused packets [] [] 0.

End Host.
