(* ===== verification/Utun.v ===== *)
(** * The utun device

    [src/tun/utun.rs]: a point-to-point, IP-only interface. Every read and
    write carries a 4-byte address-family header that is not part of the
    packet. The system calls are a class; an owned descriptor is closed where
    its owner is dropped. *)
From Stdlib Require Import ZArith Lia.
From stdpp Require Import base numbers list strings gmap pretty.
From S2P Require Import Prelude Host.

Open Scope Z_scope.

Module Utun.

Import Host.

(** The 4-byte address family prefix on every packet. *)
Definition AF_HEADER_LEN : Z := 4.

(** Highest unit we will probe when no unit is specified. *)
Definition MAX_UNIT : Z := 255.

(** The system calls and the constants of [libc]: [inl] is [errno]. *)
Class Libc (W : Type) : Type :=
  { EBUSY : Z; EADDRINUSE : Z; AF_INET : Z; AF_INET6 : Z;
    socket : W -> (Z + Z) * W;
    ctl_id : Z -> W -> (Z + Z) * W;
    connect : Z -> Z -> Z -> W -> (Z + unit) * W;
    ifname : Z -> W -> (Z + list Z) * W;
    read_fd : Z -> Z -> W -> (Z + list Z) * W;
    writev : Z -> list Z -> W -> (Z + Z) * W;
    set_rcvtimeo : Z -> Z -> Z -> W -> (Z + unit) * W;
    close : Z -> W -> W }.

Record Utun : Type := mkUtun { fd : Z; name : string }.

(** [buf.iter().position(|&b| b == 0).unwrap_or(buf.len())] *)
Fixpoint nul_position (buf : list Z) : nat :=
  match buf with
  | [] => O
  | b :: buf => if b =? 0 then O else S (nul_position buf)
  end.

(** [v as i32] *)
Definition as_i32 (x : Z) : Z := (x + 2147483648) mod 4294967296 - 2147483648.

Section utun.
Context {W : Type} `{Libc W} `{Text}.

(** Whether the failure means "this unit is taken". *)
Definition is_unit_busy (e : Error) : bool :=
  match cause e with
  | Os n => (n =? EBUSY) || (n =? EADDRINUSE)
  | _ => false
  end.

Definition interface_name (fd : Z) (w : W) : Result string * W :=
  match ifname fd w with
  | (inl e, w) => (err (context "reading the utun interface name" (os e)), w)
  | (inr buf, w) => (ok (from_utf8_lossy (take (nul_position buf) buf)), w)
  end.

(** The kernel numbers units from 1, so utun0 is unit 1. *)
Definition open_unit (unit : Z) (w : W) : Result Utun * W :=
  match socket w with
  | (inl e, w) => (err (context "creating a PF_SYSTEM socket" (os e)), w)
  | (inr fd, w) =>
      match ctl_id fd w with
      | (inl e, w) => (err (context "looking up the utun control id" (os e)), close fd w)
      | (inr id, w) =>
          match connect fd id (unit + 1) w with
          | (inl e, w) => (err (context ("connecting to utun" +:+ pretty unit) (os e)), close fd w)
          | (inr _, w) =>
              match interface_name fd w with
              | (err e, w) => (err e, close fd w)
              | (ok name, w) => (ok (mkUtun fd name), w)
              end
          end
      end
  end.

(** [for unit in 0..MAX_UNIT], from [unit], with [n] units left. *)
Fixpoint open_from (n : nat) (unit : Z) (last_error : option Error) (w : W) : Result Utun * W :=
  match n with
  | O =>
      (err (message ("no free utun device: " +:+
         match last_error with Some e => to_string e | None => "unknown" end)), w)
  | S n =>
      match open_unit unit w with
      | (ok u, w) => (ok u, w)
      | (err e, w) =>
          if negb (is_unit_busy e) then (err e, w) else open_from n (unit + 1) (Some e) w
      end
  end.

(** Open the first free utun device. *)
Definition open (w : W) : Result Utun * W := open_from (Z.to_nat MAX_UNIT) 0 None w.

(** [libc::read] into [buf], and [buf.copy_within(AF_HEADER_LEN..n, 0)]: the
    packet's length and the buffer. *)
Definition read (u : Utun) (buf : list Z) (w : W) : Result Z * list Z * W :=
  match read_fd (fd u) (zlen buf) w with
  | (inl e, w) => (err (context "reading from utun" (os e)), buf, w)
  | (inr data, w) =>
      let buf := data ++ drop (length data) buf in
      if zlen data <? AF_HEADER_LEN then (ok 0, buf, w)
      else
        let packet := sub buf AF_HEADER_LEN (zlen data) in
        (ok (zlen data - AF_HEADER_LEN), packet ++ drop (length packet) buf, w)
  end.

(** Write one IP packet, prepending the address-family header. *)
Definition write (u : Utun) (packet : list Z) (w : W) : Result unit * W :=
  let send family :=
    match writev (fd u) (to_be32 (as_u32 family) ++ packet) w with
    | (inl e, w) => (err (context "writing to utun" (os e)), w)
    | (inr _, w) => (ok tt, w)
    end in
  match packet with
  | [] => (ok tt, w)
  | b :: _ =>
      let version := Z.shiftr b 4 in
      if version =? 4 then send AF_INET
      else if version =? 6 then send AF_INET6
      else (ok tt, w)
  end.

(** Make reads return after [millis] instead of blocking forever. *)
Definition set_read_timeout (u : Utun) (millis : Z) (w : W) : Result unit * W :=
  match set_rcvtimeo (fd u) (Z.quot millis 1000) (as_i32 (Z.rem millis 1000 * 1000)) w with
  | (inl e, w) => (err (context "setting the utun read timeout" (os e)), w)
  | (inr _, w) => (ok tt, w)
  end.

End utun.

(** ** What the system calls do to the system

    A new socket's descriptor was not in use; only [socket] and [close] change
    the descriptors in use, and neither touches routes or the dynamic store. A
    read fills at most the buffer. *)
Class LibcLaws (W : Type) `{Libc W} `{View W} : Prop :=
  { view_socket w : view (snd (socket w)) =
      (match fst (socket w) with inr fd => open_fd fd (view w) | inl _ => view w end);
    socket_fresh w fd : fst (socket w) = inr fd -> fd ∉ fds (view w);
    view_ctl_id fd w : view (snd (ctl_id fd w)) = view w;
    view_connect fd id n w : view (snd (connect fd id n w)) = view w;
    view_ifname fd w : view (snd (ifname fd w)) = view w;
    view_read fd n w : view (snd (read_fd fd n w)) = view w;
    view_writev fd d w : view (snd (writev fd d w)) = view w;
    view_rcvtimeo fd s us w : view (snd (set_rcvtimeo fd s us w)) = view w;
    view_close fd w : view (close fd w) = close_fd fd (view w);
    read_fits fd n w d : fst (read_fd fd n w) = inr d -> 0 <= n -> bytes_ok d /\ zlen d <= n }.

Section laws.
Context {W : Type} `{LibcLaws W} `{Text}.

(** An attempt leaves the system as it was, or holds one fresh descriptor. *)
Definition opened (w : W) (r : Result Utun) (w' : W) : Prop :=
  match r with
  | ok u => (fd u ∉ fds (view w)) /\ view w' = open_fd (fd u) (view w)
  | err _ => view w' = view w
  end.

Lemma view_interface_name fd (w : W) : view (snd (interface_name fd w)) = view w.
Proof.
  unfold interface_name. pose proof (view_ifname fd w) as Hv. by destruct (ifname fd w) as [[e|b] w'].
Qed.

Lemma open_unit_opened unit (w : W) : opened w (fst (open_unit unit w)) (snd (open_unit unit w)).
Proof.
  unfold open_unit. pose proof (view_socket w) as Hs. pose proof (socket_fresh w) as Hf.
  destruct (socket w) as [[e|fd] w1]; cbn in *; [done|]. specialize (Hf fd eq_refl).
  pose proof (view_ctl_id fd w1) as Hc.
  destruct (ctl_id fd w1) as [[e|id] w2]; cbn in *.
  { by rewrite view_close, Hc, Hs, close_open. }
  pose proof (view_connect fd id (unit + 1) w2) as Hn.
  destruct (connect fd id (unit + 1) w2) as [[e|u] w3]; cbn in *.
  { by rewrite view_close, Hn, Hc, Hs, close_open. }
  pose proof (view_interface_name fd w3) as Hi.
  destruct (interface_name fd w3) as [[name|e] w4]; cbn in *.
  - split; [done|]. by rewrite Hi, Hn, Hc.
  - by rewrite view_close, Hi, Hn, Hc, Hs, close_open.
Qed.

(** [k] units in a row, from [unit] on, that were taken. *)
Inductive busy_run : Z -> W -> nat -> W -> Prop :=
| busy_none unit w : busy_run unit w O w
| busy_one unit w e w1 k w2 :
    open_unit unit w = (err e, w1) -> is_unit_busy e = true ->
    busy_run (unit + 1) w1 k w2 -> busy_run unit w (S k) w2.

Lemma busy_run_view unit w k w' : busy_run unit w k w' -> view w' = view w.
Proof.
  induction 1 as [|unit w e w1 k w2 E _ _ IH]; [done|].
  rewrite IH. pose proof (open_unit_opened unit w) as Ho. by rewrite E in Ho.
Qed.

Lemma open_from_spec n unit last (w : W) r w' :
  open_from n unit last w = (r, w') ->
  exists k w1, busy_run unit w k w1 /\
    match r with
    | ok u => (k < n)%nat /\ open_unit (unit + Z.of_nat k) w1 = (ok u, w')
    | err e =>
        ((k < n)%nat /\ open_unit (unit + Z.of_nat k) w1 = (err e, w') /\ is_unit_busy e = false) \/
        (k = n /\ w1 = w')
    end.
Proof.
  revert unit last w. induction n as [|n IH]; intros unit last w; cbn [open_from].
  { intros E. injection E as <- <-. exists O, w. split; [constructor|]. by right. }
  destruct (open_unit unit w) as [[u|e] w1] eqn:Eu.
  { intros E. injection E as <- <-. exists O, w. split; [constructor|].
    split; [lia|]. by rewrite Z.add_0_r. }
  destruct (is_unit_busy e) eqn:Eb; cbn [negb]; intros E.
  - apply IH in E as (k & w2 & Hb & Hr). exists (S k), w2.
    split; [by eapply busy_one|].
    replace (unit + Z.of_nat (S k)) with (unit + 1 + Z.of_nat k) by lia.
    destruct r as [u|e']; [destruct Hr; split; [lia|done]|].
    destruct Hr as [(? & ? & ?)|[-> ->]]; [left|right]; repeat split; (done || lia).
  - injection E as <- <-. exists O, w. split; [constructor|]. left.
    rewrite Z.add_0_r. split; [lia|done].
Qed.

Lemma open_opened (w : W) : opened w (fst (open w)) (snd (open w)).
Proof.
  destruct (open w) as [r w'] eqn:E. apply open_from_spec in E as (k & w1 & Hb & Hr).
  apply busy_run_view in Hb. cbn [fst snd]. destruct r as [u|e].
  - destruct Hr as [_ Hr]. pose proof (open_unit_opened (0 + Z.of_nat k) w1) as Ho.
    rewrite Hr in Ho. cbn in *. by rewrite <- Hb.
  - destruct Hr as [(_ & Hr & _)|[_ <-]]; [|done].
    pose proof (open_unit_opened (0 + Z.of_nat k) w1) as Ho. rewrite Hr in Ho. cbn in *.
    by rewrite Ho.
Qed.

(** C39. Opening takes the first free unit: the units below it were all taken, a
    failure that is not "taken" ends the probing at once, and no descriptor is
    leaked: a failed attempt leaves the system as it was, a successful one
    holds exactly one descriptor more. *)
Theorem open_first_free (w : W) r w' :
  open w = (r, w') ->
  opened w r w' /\
  exists k w1, busy_run 0 w k w1 /\ Z.of_nat k <= MAX_UNIT /\
    match r with
    | ok u => open_unit (Z.of_nat k) w1 = (ok u, w')
    | err e => (open_unit (Z.of_nat k) w1 = (err e, w') /\ is_unit_busy e = false) \/
               (Z.of_nat k = MAX_UNIT /\ w1 = w')
    end.
Proof.
  intros E. split.
  { pose proof (open_opened w) as Ho. by rewrite E in Ho. }
  apply open_from_spec in E as (k & w1 & Hb & Hr). exists k, w1. split; [done|].
  unfold MAX_UNIT in *. destruct r as [u|e].
  - destruct Hr as [Hk Hr]. split; [lia|done].
  - destruct Hr as [(Hk & Hr & Hb')|[-> ->]]; (split; [lia|]); [by left|right; split; [lia|done]].
Qed.

(** ** Reads and writes *)

Lemma read_view u buf (w : W) r buf' w' : read u buf w = (r, buf', w') -> view w' = view w.
Proof.
  unfold read. pose proof (view_read (fd u) (zlen buf) w) as Hv.
  destruct (read_fd _ _ _) as [[e|d] w1]; [intros; by simplify_eq|].
  destruct (_ <? _); intros; by simplify_eq.
Qed.

(** What a read leaves in the buffer: its length never changes, and the packet
    is the bytes after the family header, whatever the buffer held before. *)
Lemma read_spec u buf (w : W) n buf' w' :
  read u buf w = (ok n, buf', w') ->
  zlen buf' = zlen buf /\ 0 <= n <= zlen buf /\
  exists data, read_fd (fd u) (zlen buf) w = (inr data, w') /\
    n = Z.max (zlen data - AF_HEADER_LEN) 0 /\
    (AF_HEADER_LEN <= zlen data -> sub buf' 0 n = drop 4 data /\ bytes_ok (sub buf' 0 n)).
Proof.
  unfold read. pose proof (read_fits (fd u) (zlen buf) w) as Hf.
  destruct (read_fd (fd u) (zlen buf) w) as [[e|d] w1]; [discriminate|]. cbn [fst] in *.
  destruct (Hf d eq_refl (zlen_nonneg buf)) as [Hb Hd]. unfold AF_HEADER_LEN.
  pose proof (zlen_nonneg d) as Hn.
  assert (Hlen : zlen (d ++ drop (length d) buf) = zlen buf).
  { unfold zlen in *. rewrite length_app, length_drop. lia. }
  destruct (Z.ltb_spec (zlen d) 4) as [Hs|Hs]; intros E; injection E as <- <- <-.
  - split; [done|]. split; [lia|]. exists d. split; [done|]. split; [lia|]. lia.
  - assert (Hp : sub (d ++ drop (length d) buf) 4 (zlen d) = drop 4 d).
    { rewrite sub_app_l by lia. unfold sub. apply take_ge.
      rewrite length_drop. unfold zlen. lia. }
    rewrite Hp. assert (Hl : zlen (drop 4 d) = zlen d - 4).
    { unfold zlen in *. rewrite length_drop. lia. }
    split; [|split; [lia|]].
    { unfold zlen in *. rewrite length_app, !length_drop. lia. }
    exists d. split; [done|]. split; [lia|]. intros _.
    rewrite sub_prefix by lia. split; [done|]. by apply Forall_drop.
Qed.

End laws.

(** ** On the concrete system *)

(** A descriptor that is not in use. *)
Definition sim_fd (w : Sim) : Z := fresh (fds (sim_sys w)).

Definition sim_read (n : Z) (w : Sim) : (Z + list Z) * Sim :=
  match incoming w with
  | p :: rest =>
      (inr (map as_u8 (take (Z.to_nat n) p)),
       mkSim (sim_sys w) (taken w) (refused w) rest (written w) (commands w)
         (sim_time w))
  | [] => (inl 35, w)
  end.

#[export] Instance sim_libc : Libc Sim :=
  { EBUSY := 16; EADDRINUSE := 48; AF_INET := 2; AF_INET6 := 30;
    socket w := (inr (sim_fd w), with_sys (open_fd (sim_fd w)) w);
    ctl_id _ w := (inr 7, w);
    connect _ _ unit w := if unit - 1 <? taken w then (inl 16, w) else (inr tt, w);
    ifname _ w := (inr [117; 116; 117; 110; 52; 0; 0], w);
    read_fd _ n w := sim_read n w;
    writev _ d w :=
      (inr (zlen d),
       mkSim (sim_sys w) (taken w) (refused w) (incoming w) (written w ++ [d])
         (commands w) (sim_time w));
    set_rcvtimeo _ _ _ w := (inr tt, w);
    close fd w := with_sys (close_fd fd) w }.

#[export] Instance sim_libc_laws : LibcLaws Sim.
Proof.
  split; intros; cbn in *; try done.
  - injection H as <-. exact (is_fresh (fds (sim_sys w))).
  - by destruct (_ <? _).
  - unfold sim_read. by destruct (incoming w).
  - unfold sim_read in *. destruct (incoming w) as [|p rest]; [done|].
    injection H as <-. split.
    + apply Forall_map, Forall_true. intros x. apply is_u8_mod.
    + unfold zlen. rewrite length_map, length_take. lia.
Qed.

Lemma open_first_free_witness :
  exists r w', open (sim_start 4 [] []) = (r, w') /\
    opened (sim_start 4 [] []) r w' /\
    exists k w1, busy_run 0 (sim_start 4 [] []) k w1 /\ Z.of_nat k <= MAX_UNIT /\
      match r with
      | ok u => open_unit (Z.of_nat k) w1 = (ok u, w')
      | err e => (open_unit (Z.of_nat k) w1 = (err e, w') /\ is_unit_busy e = false) \/
                 (Z.of_nat k = MAX_UNIT /\ w1 = w')
      end.
Proof.
  destruct (open (sim_start 4 [] [])) as [r w'] eqn:E. exists r, w'.
  split; [done|]. by apply open_first_free.
Defined.

End Utun.
