(* ===== verification/Net.v ===== *)
(** * Interface addressing and routing

    [src/tun/net.rs]: the commands that address the tunnel and install its
    on-link route, and their undoing. Running a program is a class; [Routes]
    is dropped where its owner is. *)
From Stdlib Require Import ZArith Lia.
From stdpp Require Import base numbers list strings gmap pretty.
From S2P Require Import Prelude Dhcp Host.

Open Scope Z_scope.

Module Net.

Import Host.

Definition IFCONFIG : string := "/sbin/ifconfig".

Definition ROUTE : string := "/sbin/route".

Record Output : Type := mkOutput { success : bool; stdout : list Z; stderr : list Z }.

(** [Command::new(program).args(args).output()]: [inl] is [errno]. *)
Class Runner (W : Type) : Type := output : string -> list string -> W -> (Z + Output) * W.

Section net.
Context {W : Type} `{Runner W} `{Text}.

Definition run (program : string) (args : list string) (w : W) : Result string * W :=
  match output program args w with
  | (inl e, w) => (err (context ("running " +:+ program) (os e)), w)
  | (inr o, w) =>
      if negb (success o)
      then (err (message (program +:+ " " +:+ join " " args +:+ " failed: " +:+
                   trim (from_utf8_lossy (stderr o)))), w)
      else (ok (from_utf8_lossy (stdout o)), w)
  end.

(** Give the tunnel an address, with the phone's gateway as the peer. *)
Definition configure_interface (interface : string) (ip peer : Ipv4Addr) (mtu : Z) (w : W) :
    Result unit * W :=
  match run IFCONFIG
          [interface; "inet"; show_ip ip; show_ip peer; "netmask"; "255.255.255.255"; "mtu";
           pretty mtu; "up"] w with
  | (err e, w) => (err e, w)
  | (ok _, w) => (ok tt, w)
  end.

(** Routes we installed, removed on teardown. *)
Record Routes : Type := mkRoutes { destinations : list string }.

Definition delete_args (destination : string) : list string := ["-n"; "delete"; "-net"; destination].

Definition add_args (destination : string) (via : list string) : list string :=
  ["-n"; "add"; "-net"; destination] ++ via.

Definition add (destination : string) (via : list string) (r : Routes) (w : W) :
    Result unit * Routes * W :=
  let '(_, w) := run ROUTE (delete_args destination) w in
  match run ROUTE (add_args destination via) w with
  | (err e, w) => (err e, r, w)
  | (ok _, w) => (ok tt, mkRoutes (destinations r ++ [destination]), w)
  end.

(** [for destination in self.destinations.drain(..)]; a failure is logged. *)
Fixpoint remove_all (destinations : list string) (w : W) : W :=
  match destinations with
  | [] => w
  | d :: destinations => remove_all destinations (snd (run ROUTE (delete_args d) w))
  end.

(** Remove everything we added; [Drop] calls it too. *)
Definition remove (r : Routes) (w : W) : Routes * W :=
  (mkRoutes [], remove_all (destinations r) w).

(** Install the on-link route for the phone's subnet. When it fails the routes
    are dropped. *)
Definition install (interface : string) (subnet : Ipv4Addr) (prefix : Z) (w : W) :
    Result Routes * W :=
  let local := show_ip subnet +:+ "/" +:+ pretty prefix in
  match add local ["-interface"; interface] (mkRoutes []) w with
  | (err e, r, w) => (err e, snd (remove r w))
  | (ok _, r, w) => (ok r, w)
  end.

End net.

(** The network address of [ip] under [netmask]. *)
Definition subnet_of (ip netmask : Ipv4Addr) : Ipv4Addr :=
  ip_of_u32 (Z.land (u32_of_ip ip) (u32_of_ip netmask)).

(** ** What the programs do to the system

    [ifconfig] only configures the interface it is given; [route delete] removes
    its destination, and [route add] adds it, exactly when they succeed. *)
Class RunnerLaws (W : Type) `{Runner W} `{View W} : Prop :=
  { view_ifconfig args w : view (snd (output IFCONFIG args w)) = view w;
    view_delete d w : view (snd (output ROUTE (delete_args d) w)) =
      match fst (output ROUTE (delete_args d) w) with
      | inr o => del_route (success o) d (view w)
      | inl _ => del_route false d (view w)
      end;
    view_add d via w : view (snd (output ROUTE (add_args d via) w)) =
      match fst (output ROUTE (add_args d via) w) with
      | inr o => if success o then add_route d (view w) else view w
      | inl _ => view w
      end }.

Section laws.
Context {W : Type} `{RunnerLaws W} `{Text}.

Lemma run_view program args (w : W) :
  view (snd (run program args w)) = view (snd (output program args w)).
Proof. unfold run. destruct (output program args w) as [[e|o] w']; [done|]. by destruct (success o). Qed.

Lemma configure_view interface i p m (w : W) :
  view (snd (configure_interface interface i p m w)) = view w.
Proof.
  unfold configure_interface. pose proof (run_view IFCONFIG
    [interface; "inet"; show_ip i; show_ip p; "netmask"; "255.255.255.255"; "mtu"; pretty m; "up"] w)
    as Hr. rewrite view_ifconfig in Hr. by destruct (run _ _ _) as [[u|e] w'].
Qed.

(** Whether a removal succeeded. *)
Lemma delete_view d (w : W) :
  exists b, view (snd (run ROUTE (delete_args d) w)) = del_route b d (view w).
Proof.
  rewrite run_view, view_delete. destruct (fst _) as [e|o]; by eexists.
Qed.

(** The route of a network in CIDR notation. *)
Definition cidr (subnet : Ipv4Addr) (prefix : Z) : string :=
  show_ip subnet +:+ "/" +:+ pretty prefix.

(** The leftover of an earlier run is removed first, if it can be; a failure
    leaves nothing else behind. *)
Lemma install_route_view interface subnet prefix (w : W) r w' :
  install interface subnet prefix w = (r, w') ->
  exists b, match r with
  | ok rs => destinations rs = [cidr subnet prefix] /\
             view w' = add_route (cidr subnet prefix) (del_route b (cidr subnet prefix) (view w))
  | err _ => view w' = del_route b (cidr subnet prefix) (view w)
  end.
Proof.
  unfold install, add, cidr. set (d := _ +:+ _). intros E0.
  destruct (delete_view d w) as [b Hd]. exists b. revert E0.
  destruct (run ROUTE (delete_args d) w) as [r0 w0]. cbn [snd] in Hd.
  pose proof (view_add d ["-interface"; interface] w0) as Ha. unfold run.
  destruct (output _ _ w0) as [[e|o] w1]; cbn in *.
  { intros E. injection E as <- <-. by rewrite Ha. }
  destruct (success o); cbn; intros E; injection E as <- <-; [|by rewrite Ha].
  split; [done|]. by rewrite Ha, Hd.
Qed.

End laws.

(** ** The route covers the lease *)

(** The netmask of a prefix length. *)
Definition mask_of (p : Z) : Ipv4Addr := ip_of_u32 (4294967296 - 2 ^ (32 - p)).

Lemma mask_testbit p i :
  0 <= p <= 32 -> 0 <= i < 32 ->
  Z.testbit (4294967296 - 2 ^ (32 - p)) i = (32 - p <=? i).
Proof.
  intros Hp Hi. replace (4294967296 - 2 ^ (32 - p)) with (Z.ones p * 2 ^ (32 - p)).
  2: { rewrite Z.ones_equiv, Z.mul_pred_l, <- Z.pow_add_r by lia.
       by replace (p + (32 - p)) with 32 by lia. }
  rewrite <- Z.shiftl_mul_pow2, Z.shiftl_spec by lia.
  destruct (Z.leb_spec (32 - p) i).
  - rewrite Z.ones_spec_low by lia. done.
  - by rewrite Z.testbit_neg_r by lia.
Qed.

Lemma mask_bound p : 0 <= p <= 32 -> is_u32 (4294967296 - 2 ^ (32 - p)).
Proof.
  intros. unfold is_u32. pose proof (Z.pow_pos_nonneg 2 (32 - p) ltac:(lia) ltac:(lia)).
  pose proof (Z.pow_le_mono_r 2 (32 - p) 32 ltac:(lia) ltac:(lia)). lia.
Qed.

Lemma land_mask x p :
  is_u32 x -> 0 <= p <= 32 ->
  Z.land x (4294967296 - 2 ^ (32 - p)) = x / 2 ^ (32 - p) * 2 ^ (32 - p).
Proof.
  intros Hx Hp. rewrite <- Z.shiftl_mul_pow2, <- Z.shiftr_div_pow2 by lia.
  apply Z.bits_inj'. intros i Hi. rewrite Z.land_spec, Z.shiftl_spec by lia.
  destruct (decide (i < 32)) as [Hi32|Hi32].
  - rewrite mask_testbit by lia. destruct (Z.leb_spec (32 - p) i).
    + rewrite Z.shiftr_spec by lia. replace (i - (32 - p) + (32 - p)) with i by lia. apply andb_true_r.
    + by rewrite andb_false_r, Z.testbit_neg_r by lia.
  - assert (Hbig : Z.testbit x i = false).
    { destruct (decide (x = 0)) as [->|]; [apply Z.bits_0|].
      unfold is_u32 in Hx. apply Z.bits_above_log2; [lia|].
      assert (Z.log2 x < 32) by (apply Z.log2_lt_pow2; lia). lia. }
    rewrite Hbig. cbn. rewrite Z.shiftr_spec by lia.
    by replace (i - (32 - p) + (32 - p)) with i by lia.
Qed.

Lemma prefix_of_mask p :
  (p <= 32)%nat -> count_ones (4294967296 - 2 ^ (32 - Z.of_nat p)) = Z.of_nat p.
Proof.
  intros Hp. do 33 (destruct p as [|p]; [by vm_compute|]). lia.
Qed.

Lemma subnet_value i p :
  ip_ok i -> 0 <= p <= 32 ->
  u32_of_ip (subnet_of i (mask_of p)) = u32_of_ip i / 2 ^ (32 - p) * 2 ^ (32 - p).
Proof.
  intros Hi Hp. pose proof (u32_of_ip_bound i Hi) as Hb.
  pose proof (Z.pow_pos_nonneg 2 (32 - p) ltac:(lia) ltac:(lia)) as Hpos.
  unfold subnet_of, mask_of. rewrite (u32_of_ip_of_u32 (_ - _)) by by apply mask_bound.
  rewrite land_mask by done. apply u32_of_ip_of_u32. unfold is_u32 in *.
  pose proof (Z.mul_div_le (u32_of_ip i) _ Hpos).
  pose proof (Z.div_pos (u32_of_ip i) _ ltac:(lia) Hpos). nia.
Qed.

(** C14. For a netmask that is a prefix, the route [install] is asked for is the
    network of the lease: the prefix length is the mask's, the destination is
    the address with its host bits cleared, and it is the network of exactly the
    addresses that share the lease's first [p] bits. *)
Theorem route_covers_lease (l : Dhcp.Lease) (p : nat) :
  (p <= 32)%nat -> ip_ok (Dhcp.ip l) -> Dhcp.netmask l = mask_of (Z.of_nat p) ->
  Dhcp.prefix_len l = Z.of_nat p /\
  u32_of_ip (subnet_of (Dhcp.ip l) (Dhcp.netmask l)) =
    u32_of_ip (Dhcp.ip l) / 2 ^ (32 - Z.of_nat p) * 2 ^ (32 - Z.of_nat p) /\
  forall other, ip_ok other ->
    (subnet_of other (Dhcp.netmask l) = subnet_of (Dhcp.ip l) (Dhcp.netmask l) <->
     u32_of_ip other / 2 ^ (32 - Z.of_nat p) = u32_of_ip (Dhcp.ip l) / 2 ^ (32 - Z.of_nat p)).
Proof.
  intros Hp Hip Hm. rewrite Hm.
  assert (Hp' : 0 <= Z.of_nat p <= 32) by lia.
  split; [|split; [by apply subnet_value|]].
  { unfold Dhcp.prefix_len, mask_of. rewrite Hm. unfold mask_of.
    rewrite u32_of_ip_of_u32 by by apply mask_bound. rewrite prefix_of_mask by done.
    unfold as_u8. apply Z.mod_small. lia. }
  intros other Ho. pose proof (subnet_value other _ Ho Hp') as E1.
  pose proof (subnet_value (Dhcp.ip l) _ Hip Hp') as E2.
  pose proof (Z.pow_pos_nonneg 2 (32 - Z.of_nat p) ltac:(lia) ltac:(lia)) as Hpos. split.
  - intros E. rewrite E, E2 in E1. nia.
  - intros E. rewrite E, <- E2 in E1.
    rewrite <- (ip_of_u32_of_ip (subnet_of other _)) by apply ip_of_u32_ok.
    rewrite E1. apply ip_of_u32_of_ip, ip_of_u32_ok.
Qed.

Lemma route_covers_lease_witness :
  let l := Dhcp.mkLease (Ipv4 192 168 42 130) (Ipv4 255 255 255 192) None [] None None
             UNSPECIFIED 0 0 in
  subnet_of (Dhcp.ip l) (Dhcp.netmask l) = Ipv4 192 168 42 128 /\ Dhcp.prefix_len l = 26.
Proof.
  intros l. split; [reflexivity|].
  apply (route_covers_lease l 26); [lia| |reflexivity].
  apply bytes_okb_ok. reflexivity.
Defined.

(** ** On the concrete system *)

(** A removal can be refused, and fails when there is no such route; a refused
    program fails when it adds something; every call is recorded. *)
Definition sim_route (args : list string) (w : Sim) : bool * (Sys -> Sys) :=
  match args with
  | [_; "delete"; _; d] =>
      if bool_decide (("delete " +:+ d) ∈ refused w) then (false, del_route false d)
      else (bool_decide (d ∈ routes (sim_sys w)), del_route true d)
  | _ :: "add" :: _ :: d :: _ =>
      if bool_decide (ROUTE ∈ refused w) then (false, fun s => s) else (true, add_route d)
  | _ => (true, fun s => s)
  end%string.

#[export] Instance sim_runner : Runner Sim := fun program args w =>
  let w := mkSim (sim_sys w) (taken w) (refused w) (incoming w) (written w)
             (commands w ++ [(program, args)]) (sim_time w) in
  if bool_decide (program = ROUTE) then
    let '(done, f) := sim_route args w in (inr (mkOutput done [] []), with_sys f w)
  else (inr (mkOutput (negb (bool_decide (program ∈ refused w))) [] []), w).

#[export] Instance sim_runner_laws : RunnerLaws Sim.
Proof.
  split; intros; unfold output, sim_runner; change (bool_decide (ROUTE = ROUTE)) with true;
    cbn -[del_route]; try done.
  - case_bool_decide; cbn -[del_route]; [done|]. unfold view, sim_view, del_route. cbn.
    case_bool_decide; [done|]. apply Sys_eq; cbn; [done|set_solver|done..].
  - by destruct (bool_decide (ROUTE ∈ refused w)).
Qed.

End Net.
