(* ===== verification/Dns.v ===== *)
(** * The tunnel's network service

    [src/tun/dns.rs]: the keys published through the dynamic store, and their
    removal. The store is a class; [Dns] is dropped where its owner is. *)
From Stdlib Require Import ZArith Lia.
From stdpp Require Import base numbers list strings gmap pretty.
From S2P Require Import Prelude Host.

Open Scope Z_scope.

Module Dns.

Import Host.

(** Service id under [State:/Network/Service/], ours alone. *)
Definition SERVICE_ID : string := "muta".

(** [SCDynamicStoreBuilder::build], [SCDynamicStore::set] and [remove]. *)
Class DynamicStore (W : Type) : Type :=
  { store_build : W -> bool * W;
    store_set : string -> Dict -> W -> bool * W;
    store_remove : string -> W -> bool * W }.

(** [keys] are the ones we set, oldest first; the store is the world's. *)
Record Dns : Type := mkDns { keys : list string }.

Definition ipv4_key : string := "State:/Network/Service/" +:+ SERVICE_ID +:+ "/IPv4".

Definition dns_key : string := "State:/Network/Service/" +:+ SERVICE_ID +:+ "/DNS".

Definition ipv4_dict (interface : string) (address router : Ipv4Addr) : Dict :=
  [("Addresses", VArray [show_ip address]);
   ("SubnetMasks", VArray ["255.255.255.255"%string]);
   ("Router", VString (show_ip router));
   ("InterfaceName", VString interface)].

Definition dns_dict (servers : list Ipv4Addr) (domain : option string) : Dict :=
  ("ServerAddresses", VArray (map show_ip servers)) ::
  match domain with
  | Some d => [("DomainName", VString d); ("SearchDomains", VArray [d])]
  | None => []
  end.

Section dns.
Context {W : Type} `{DynamicStore W}.

Definition set (key : string) (value : Dict) (d : Dns) (w : W) : Result unit * Dns * W :=
  match store_set key value w with
  | (false, w) => (err (message ("SCDynamicStore rejected " +:+ key)), d, w)
  | (true, w) => (ok tt, mkDns (keys d ++ [key]), w)
  end.

(** [for key in self.keys.drain(..)]; a failure is logged. *)
Fixpoint remove_all (keys : list string) (w : W) : W :=
  match keys with
  | [] => w
  | k :: keys => remove_all keys (snd (store_remove k w))
  end.

(** Remove our entries; [Drop] calls it too. *)
Definition remove (d : Dns) (w : W) : Dns * W := (mkDns [], remove_all (keys d) w).

(** Publish the tunnel as a network service with [servers] as its resolver.
    When a key is rejected what was published is dropped. *)
Definition install (interface : string) (address router : Ipv4Addr) (servers : list Ipv4Addr)
    (domain : option string) (w : W) : Result Dns * W :=
  match store_build w with
  | (false, w) =>
      (err (message "could not open SCDynamicStore (is the daemon running as root?)"), w)
  | (true, w) =>
      match set ipv4_key (ipv4_dict interface address router) (mkDns []) w with
      | (err e, d, w) => (err e, snd (remove d w))
      | (ok _, d, w) =>
          match servers with
          | [] => (ok d, w)
          | _ :: _ =>
              match set dns_key (dns_dict servers domain) d w with
              | (err e, d, w) => (err e, snd (remove d w))
              | (ok _, d, w) => (ok d, w)
              end
          end
      end
  end.

End dns.

(** ** What the store does

    A key is set, or removed, exactly when the store says so. *)
Class StoreLaws (W : Type) `{DynamicStore W} `{View W} : Prop :=
  { view_build w : view (snd (store_build w)) = view w;
    view_set k v w : view (snd (store_set k v w)) =
      if fst (store_set k v w) then set_key k v (view w) else view w;
    view_remove k w : view (snd (store_remove k w)) =
      del_key (fst (store_remove k w)) k (view w) }.

Section laws.
Context {W : Type} `{StoreLaws W}.

(** The keys a tunnel publishes, and the state with them set. *)
Definition published (servers : list Ipv4Addr) : list string :=
  match servers with [] => [ipv4_key] | _ => [ipv4_key; dns_key] end.

Definition publish (interface : string) (address router : Ipv4Addr) (servers : list Ipv4Addr)
    (domain : option string) (s : Sys) : Sys :=
  let s := set_key ipv4_key (ipv4_dict interface address router) s in
  match servers with [] => s | _ => set_key dns_key (dns_dict servers domain) s end.

(** Our keys. *)
Definition ours : list string := [ipv4_key; dns_key].

(** When a key is rejected, what was published is taken back, if it can be. *)
Lemma publish_view interface address router servers domain (w : W) r w' :
  install interface address router servers domain w = (r, w') ->
  match r with
  | ok d => keys d = published servers /\
            view w' = publish interface address router servers domain (view w)
  | err _ => view w' = view w \/
      exists b, view w' =
        del_key b ipv4_key (set_key ipv4_key (ipv4_dict interface address router) (view w))
  end.
Proof.
  unfold install. pose proof (view_build w) as Hb.
  destruct (store_build w) as [[] w1]; [|intros E; simplify_eq; by left].
  cbn [fst snd] in Hb. unfold set at 1.
  pose proof (view_set ipv4_key (ipv4_dict interface address router) w1) as H4.
  destruct (store_set ipv4_key _ w1) as [[] w2]; cbn in H4;
    [|intros E; injection E as <- <-; left; by rewrite H4].
  destruct servers as [|x xs]; [intros E; injection E as <- <-; by rewrite H4, Hb|].
  unfold set. pose proof (view_set dns_key (dns_dict (x :: xs) domain) w2) as Hd.
  destruct (store_set dns_key _ w2) as [[] w3]; cbn in Hd;
    intros E; injection E as <- <-.
  - split; [done|]. by rewrite Hd, H4, Hb.
  - right. cbn. rewrite view_remove, Hd, H4, Hb. by eexists.
Qed.

End laws.

(** ** On the concrete system *)

(** A key can be refused, and so can its removal. *)
#[export] Instance sim_store : DynamicStore Sim :=
  { store_build w := (negb (bool_decide ("SCDynamicStore"%string ∈ refused w)), w);
    store_set k v w :=
      if bool_decide (k ∈ refused w) then (false, w) else (true, with_sys (set_key k v) w);
    store_remove k w :=
      let done := negb (bool_decide (("delete " +:+ k) ∈ refused w)) in
      (done, with_sys (del_key done k) w) }.

#[export] Instance sim_store_laws : StoreLaws Sim.
Proof. split; intros; cbn; try done. by destruct (bool_decide (k ∈ refused w)). Qed.

End Dns.
