(* ===== verification/Tunnel.v ===== *)
(** * The tunnel

    [src/tunnel.rs]: the utun side of the shim, system configuration plus the
    thread that pumps IP packets from the tunnel onto the RNDIS link. What a
    function owned when it returns early is dropped in reverse order of
    declaration, as Rust does. *)
From Stdlib Require Import ZArith Lia.
From stdpp Require Import base numbers list strings gmap pretty.
From S2P Require Import Prelude Ethernet Arp Dhcp Host Utun Net Dns.

Open Scope Z_scope.

Module Tunnel.

Import Host.

(** Ethernet payload limit; the phone's tether link is a normal 1500-byte MTU. *)
Definition DEFAULT_MTU : Z := 1500.

(** Bound on how long the reader blocks before re-checking for shutdown. *)
Definition READ_TIMEOUT_MS : Z := 250.

(** An up tunnel with its routes and DNS. *)
Record Tunnel : Type := mkTunnel
  { utun : Utun.Utun; lease : Dhcp.Lease; routes : Net.Routes; dns : Dns.Dns }.

(** What the reader thread is started with. *)
Record Reader : Type := mkReader
  { r_utun : Utun.Utun; gateway : Ipv4Addr; host_mac : MacAddr }.

(** Its state: the ARP table it shares with the receive thread, the frames it
    handed to the transmit queue, its buffer, and the world. *)
Record ReaderState (W : Type) : Type := mkState
  { arp : Arp.Arp; sent : list (list Z); buf : list Z; world : W }.

Arguments mkState {W} _ _ _ _.
Arguments arp {W} _.
Arguments sent {W} _.
Arguments buf {W} _.
Arguments world {W} _.

Section tunnel.
Context {W : Type} `{Utun.Libc W} `{Net.Runner W} `{Dns.DynamicStore W} `{Clock W} `{Text}.

(** [UtunSink::deliver]: a failed write is logged. *)
Definition utun_deliver (u : Utun.Utun) (packet : list Z) (w : W) : W :=
  snd (Utun.write u packet w).

(** [vec![0u8; mtu as usize + AF_HEADER_LEN + 64]] *)
Definition reader_buffer (mtu : Z) : list Z :=
  replicate (Z.to_nat (mtu + Utun.AF_HEADER_LEN + 64)) 0.

Definition mtu_of (l : Dhcp.Lease) : Z := default DEFAULT_MTU (Dhcp.mtu l).

(** Bring the tunnel up for [lease] and start forwarding: the reader thread is
    returned with its initial buffer. *)
Definition up (host_mac : MacAddr) (lease : Dhcp.Lease) (w : W) :
    Result (Tunnel * (Reader * list Z)) * W :=
  match Dhcp.router lease with
  | None => (err (message "lease has no gateway; cannot route through the phone"), w)
  | Some gateway =>
      match Utun.open w with
      | (err e, w) => (err e, w)
      | (ok u, w) =>
          match Utun.set_read_timeout u READ_TIMEOUT_MS w with
          | (err e, w) => (err e, Utun.close (Utun.fd u) w)
          | (ok _, w) =>
              let name := Utun.name u in
              match Net.configure_interface name (Dhcp.ip lease) gateway (mtu_of lease) w with
              | (err e, w) => (err e, Utun.close (Utun.fd u) w)
              | (ok _, w) =>
                  match Net.install name (Net.subnet_of (Dhcp.ip lease) (Dhcp.netmask lease))
                          (Dhcp.prefix_len lease) w with
                  | (err e, w) => (err e, Utun.close (Utun.fd u) w)
                  | (ok routes, w) =>
                      match Dns.install name (Dhcp.ip lease) gateway (Dhcp.dns lease)
                              (str_of_bytes <$> Dhcp.domain lease) w with
                      | (err e, w) =>
                          let w := snd (Net.remove routes w) in
                          (err (context "publishing the tunnel as a network service" e),
                           Utun.close (Utun.fd u) w)
                      | (ok dns, w) =>
                          (ok (mkTunnel u lease routes dns,
                               (mkReader u gateway host_mac, reader_buffer (mtu_of lease))), w)
                      end
                  end
              end
          end
      end
  end.

(** [Drop] once the reader has been joined, and then the fields in order. The
    utun closes with its last [Arc]: [shared] says that a sink still holds one. *)
Definition drop_tunnel (shared : bool) (t : Tunnel) (w : W) : W :=
  let w := if shared then w else Utun.close (Utun.fd (utun t)) w in
  let w := snd (Net.remove (routes t) w) in
  snd (Dns.remove (dns t) w).

(** ** The reader thread *)

(** The clock as [Arp.lookup] reads it: [elapsed] is asked of an entry only; [0]
    stands for the reading that is not taken. *)
Definition lookup_now (a : Arp.Arp) (ip : Ipv4Addr) (w : W) : Z * W :=
  match Arp.cache a !! ip with
  | Some _ => now w
  | None => (0, w)
  end.

(** The body of [while !shutdown]. *)
Definition reader_turn (r : Reader) (s : ReaderState W) : ReaderState W :=
  match Utun.read (r_utun r) (buf s) (world s) with
  | (err _, b, w) => mkState (arp s) (sent s) b w
  | (ok len, b, w) =>
      if len =? 0 then mkState (arp s) (sent s) b w else
      let '(n, w) := lookup_now (arp s) (gateway r) w in
      match Arp.lookup n (arp s) (gateway r) with
      | Some gateway_mac =>
          mkState (arp s)
            (sent s ++ [Ethernet.build gateway_mac (host_mac r) Ethernet.ETHERTYPE_IPV4
                          (sub b 0 len)]) b w
      | None =>
          let '(n, w) := now w in
          match Arp.request n (arp s) (gateway r) with
          | (Some request, a) => mkState a (sent s ++ [request]) b w
          | (None, a) => mkState a (sent s) b w
          end
      end
  end.

End tunnel.

(** ** Bring-up and teardown restore the system *)

Section laws.
Context {W : Type} `{Utun.LibcLaws W} `{!Net.Runner W} `{!Net.RunnerLaws W}
  `{!Dns.DynamicStore W} `{!Dns.StoreLaws W} `{Clock W} `{Text}.

(** The destination of the tunnel's route. *)
Definition local_route (l : Dhcp.Lease) : string :=
  Net.cidr (Net.subnet_of (Dhcp.ip l) (Dhcp.netmask l)) (Dhcp.prefix_len l).

(** The route in the way of the lease's. *)
Definition displaced (l : Dhcp.Lease) (d : string) : Prop := d = local_route l.

(** The system with the tunnel [t] up. *)
Definition with_tunnel (t : Tunnel) (gw : Ipv4Addr) (s : Sys) : Sys :=
  let l := lease t in
  Dns.publish (Utun.name (utun t)) (Dhcp.ip l) gw (Dhcp.dns l) (str_of_bytes <$> Dhcp.domain l)
    (add_route (local_route l) (open_fd (Utun.fd (utun t)) s)).

Lemma close_view fd (w : W) s :
  view w = open_fd fd s -> fd ∉ fds s -> view (Utun.close fd w) = s.
Proof. intros E Hf. rewrite Utun.view_close, E. by apply close_open. Qed.

Lemma timeout_view u ms (w : W) : view (snd (Utun.set_read_timeout u ms w)) = view w.
Proof.
  unfold Utun.set_read_timeout.
  pose proof (Utun.view_rcvtimeo (Utun.fd u) (Z.quot ms 1000) (Utun.as_i32 (Z.rem ms 1000 * 1000)) w)
    as Hv. by destruct (Utun.set_rcvtimeo _ _ _ _) as [[e|x] w'].
Qed.

Lemma publish_unpublish leased interface address router servers domain b b' s :
  restored leased Dns.ours s
    (match servers with
     | [] => del_key b Dns.ipv4_key
     | _ => fun s => del_key b' Dns.dns_key (del_key b Dns.ipv4_key s)
     end (Dns.publish interface address router servers domain s)).
Proof.
  unfold Dns.publish. destruct servers as [|x xs]; [apply restored_set_key; by left|].
  rewrite del_key_set_ne by done. etrans; [|apply restored_set_key; right; by left].
  apply restored_set_key. by left.
Qed.

Lemma drop_view t gw (w : W) s :
  view w = with_tunnel t gw s -> Utun.fd (utun t) ∉ fds s ->
  Net.destinations (routes t) = [local_route (lease t)] ->
  Dns.keys (dns t) = Dns.published (Dhcp.dns (lease t)) ->
  restored (displaced (lease t)) Dns.ours s (view (drop_tunnel false t w)).
Proof.
  intros E Hf Hd Hk. unfold drop_tunnel, Net.remove, Dns.remove. cbn [snd]. rewrite Hk, Hd.
  cbn [Net.remove_all]. set (w1 := Utun.close _ w).
  destruct (Net.delete_view (local_route (lease t)) w1) as [b Hb]. set (w2 := snd _) in *.
  assert (E1 : view w1 = Dns.publish (Utun.name (utun t)) (Dhcp.ip (lease t)) gw
    (Dhcp.dns (lease t)) (str_of_bytes <$> Dhcp.domain (lease t)) (add_route (local_route (lease t)) s)).
  { unfold w1. rewrite Utun.view_close, E. unfold with_tunnel, Dns.publish.
    destruct (Dhcp.dns (lease t)); rewrite !close_set_key, close_add_route, close_open; done. }
  rewrite E1 in Hb.
  assert (E2 : view w2 = Dns.publish (Utun.name (utun t)) (Dhcp.ip (lease t)) gw
    (Dhcp.dns (lease t)) (str_of_bytes <$> Dhcp.domain (lease t))
    (del_route b (local_route (lease t)) (add_route (local_route (lease t)) s))).
  { rewrite Hb. unfold Dns.publish. destruct (Dhcp.dns (lease t)); by rewrite !del_route_set_key. }
  etrans; [by apply (restored_added_route _ _ b (local_route (lease t)))|].
  pose proof (publish_unpublish (displaced (lease t)) (Utun.name (utun t)) (Dhcp.ip (lease t)) gw
    (Dhcp.dns (lease t)) (str_of_bytes <$> Dhcp.domain (lease t))) as Hp.
  unfold Dns.published. destruct (Dhcp.dns (lease t)); cbn [Dns.remove_all];
    rewrite !Dns.view_remove, E2; [apply (Hp _ true)|apply Hp].
Qed.

(** What [up] does to the system [s]: on failure nothing stays but what could
    not be removed; otherwise the tunnel stands on [s0], which is [s] unless a
    route was in the way of the lease's, and taking it down undoes it. *)
Definition up_promise (l : Dhcp.Lease) (s : Sys) (r : Result (Tunnel * (Reader * list Z))) (w' : W) : Prop :=
  match r with
  | err _ => restored (displaced l) Dns.ours s (view w')
  | ok (t, _) =>
      lease t = l /\
      exists gw b, let s0 := del_route b (local_route l) s in
        Dhcp.router l = Some gw /\ view w' = with_tunnel t gw s0 /\
        forall w2, view w2 = view w' ->
          restored (displaced l) Dns.ours s (view (drop_tunnel false t w2))
  end.

Lemma up_spec mac l (w : W) r w' : up mac l w = (r, w') -> up_promise l (view w) r w'.
Proof.
  unfold up. destruct (Dhcp.router l) as [gw|] eqn:Eg; [|intros E; simplify_eq; cbn; reflexivity].
  pose proof (Utun.open_opened w) as Ho.
  destruct (Utun.open w) as [[u|e] w1]; cbn in Ho.
  2: { intros E; simplify_eq. cbn. rewrite Ho. reflexivity. }
  destruct Ho as [Hf Ho]. pose proof (timeout_view u READ_TIMEOUT_MS w1) as Ht.
  assert (Hclose : forall w3, view w3 = open_fd (Utun.fd u) (view w) ->
    restored (displaced l) Dns.ours (view w) (view (Utun.close (Utun.fd u) w3))).
  { intros w3 E3. rewrite (close_view _ w3 (view w) E3 Hf). reflexivity. }
  destruct (Utun.set_read_timeout u READ_TIMEOUT_MS w1) as [[x|e] w2]; cbn [snd] in Ht.
  2: { intros E. simplify_eq. apply Hclose. by rewrite Ht. }
  pose proof (Net.configure_view (Utun.name u) (Dhcp.ip l) gw (mtu_of l) w2) as Hc.
  destruct (Net.configure_interface _ _ _ _ w2) as [[y|e] w3]; cbn [snd] in Hc.
  2: { intros E. simplify_eq. apply Hclose. by rewrite Hc, Ht. }
  destruct (Net.install _ _ _ w3) as [ro w4] eqn:Er. apply Net.install_route_view in Er as [b Er].
  fold (local_route l) in Er. rewrite Hc, Ht, Ho in Er.
  set (s0 := del_route b (local_route l) (view w)).
  assert (Hs0 : restored (displaced l) Dns.ours (view w) s0) by by apply restored_del_route.
  assert (Hfs0 : Utun.fd u ∉ fds s0) by (unfold s0; by rewrite fds_del_route).
  assert (Es0 : del_route b (local_route l) (open_fd (Utun.fd u) (view w)) = open_fd (Utun.fd u) s0)
    by apply open_del_route.
  rewrite Es0 in Er. intros E. destruct ro as [rs|e].
  2: { simplify_eq. cbn. by rewrite (close_view _ w4 s0 Er Hfs0). }
  destruct Er as [Hds Er].
  destruct (Dns.install _ _ _ _ _ w4) as [ds w5] eqn:Ed. apply Dns.publish_view in Ed.
  rewrite Er in Ed. destruct ds as [d|e].
  - destruct Ed as [Hk Ed]. injection E as <- <-. split; [done|]. exists gw, b.
    split; [done|]. split; [done|]. intros w2' E2. etrans; [exact Hs0|].
    apply (drop_view (mkTunnel u l rs d) gw); try done. by rewrite E2, Ed.
  - injection E as <- <-. cbn -[Net.remove]. etrans; [exact Hs0|].
    unfold Net.remove. cbn [snd]. rewrite Hds. cbn [Net.remove_all].
    destruct (Net.delete_view (local_route l) w5) as [b' Hb]. set (w6 := snd _) in *.
    rewrite Utun.view_close, Hb, close_del_route.
    destruct Ed as [Ed|[b4 Ed]]; rewrite Ed.
    + rewrite close_add_route, close_open by done. by apply restored_added_route.
    + rewrite close_del_key, close_set_key, close_add_route, close_open by done.
      change (set_key ?k ?v (add_route ?d ?s)) with (add_route d (set_key k v s)).
      rewrite del_key_add_route.
      etrans; [apply (restored_set_key (displaced l) Dns.ours b4); by left|].
      by apply restored_added_route.
Qed.

(** C7. Bringing the tunnel up is all or nothing, and taking it down undoes it, up
    to the removals the system refuses, which the code only logs. When a step
    fails, and again when the tunnel is dropped, whatever happened meanwhile as
    long as these were left alone: the same descriptors are open; a route or
    service key of ours is left only if its removal was refused; every other
    route and key is as it was, except a route for the lease's very subnet, which
    gives way to ours. When that route and our keys were not there before and no
    removal is refused, the system is exactly the one from before. While the
    tunnel is up, the system has its descriptor, its on-link route and the service
    keys of the lease on top, and nothing else. *)
Theorem up_restores mac l (w : W) r w' :
  up mac l w = (r, w') ->
  match r with
  | err _ => undone (displaced l) Dns.ours (view w) (view w')
  | ok (t, _) =>
      lease t = l /\
      exists gw b, let s0 := del_route b (local_route l) (view w) in
        Dhcp.router l = Some gw /\ view w' = with_tunnel t gw s0 /\
        forall w2, view w2 = view w' ->
          undone (displaced l) Dns.ours (view w) (view (drop_tunnel false t w2))
  end.
Proof.
  intros E. apply up_spec in E. destruct r as [[t rd]|e]; [|by apply restored_undone].
  destruct E as (El & gw & b & Hg & Hw & Hd). split; [done|]. exists gw, b.
  do 2 (split; [done|]). intros w2 E2. by apply restored_undone, Hd.
Qed.

End laws.

(** ** What the reader sends *)

Section reader.
Context {W : Type} `{Utun.LibcLaws W} `{Clock W} `{Text} (r : Reader) (host_ip : Ipv4Addr) (mtu : Z).

(** The ARP call a turn makes, with its time: none unless the packet finds no
    gateway address. *)
Definition turn_calls (s : ReaderState W) : list (Z * Arp.call) :=
  match Utun.read (r_utun r) (buf s) (world s) with
  | (err _, _, _) => []
  | (ok len, _, w) =>
      if len =? 0 then [] else
      let '(n, w) := lookup_now (arp s) (gateway r) w in
      match Arp.lookup n (arp s) (gateway r) with
      | Some _ => []
      | None => let '(n, w) := now w in [(n, Arp.CRequest (gateway r))]
      end
  end.

(** The reader's turns interleaved with the receive thread's calls on the
    shared table, and with whatever else changes the world; the log is the
    history of the table. The lock makes a turn's lookup and request atomic. *)
Inductive reach : list (Z * Arp.call) -> ReaderState W -> Prop :=
| reach_start w :
    reach [] (mkState (Arp.new (host_mac r) host_ip) [] (reader_buffer mtu) w)
| reach_others log s t c w :
    reach log s -> reach (log ++ [(t, c)]) (mkState (snd (Arp.step t (arp s) c)) (sent s) (buf s) w)
| reach_turn log s : reach log s -> reach (log ++ turn_calls s) (reader_turn r s).

(** What one read of the turn that starts in [s] returned, and the world then. *)
Definition fetched (s : ReaderState W) (data : list Z) (w1 : W) : Prop :=
  Utun.read_fd (Utun.fd (r_utun r)) (mtu + 68) (world s) = (inr data, w1) /\
  Utun.AF_HEADER_LEN < zlen data <= mtu + 68.

(** The address the history [log] last taught for the gateway, if at [n] that is
    less than the time to live ago. *)
Definition resolved (log : list (Z * Arp.call)) (n : Z) : option MacAddr :=
  match Arp.last_learned (gateway r) log with
  | Some (mac, t) => if duration_since n t <? Arp.ENTRY_TTL then Some mac else None
  | None => None
  end.

(** The frame a turn started in [s] may queue, after the history [log], for the
    packet it read: the packet in an IPv4 frame from us to the gateway's address,
    or a request for that address when it is not known at that time. *)
Definition queued (log : list (Z * Arp.call)) (s : ReaderState W) (f : list Z) : Prop :=
  exists data w1, fetched s data w1 /\
    f = match resolved log (fst (now w1)) with
        | Some mac => Ethernet.build mac (host_mac r) Ethernet.ETHERTYPE_IPV4 (drop 4 data)
        | None => Arp.request_frame (Arp.run (Arp.new (host_mac r) host_ip) log) (gateway r)
        end.

Lemma run_app a log c : Arp.run a (log ++ [c]) = Arp.run (Arp.run a log) [c].
Proof. unfold Arp.run. by rewrite foldl_app. Qed.

Lemma lookup_run log w1 :
  let a := Arp.run (Arp.new (host_mac r) host_ip) log in
  Arp.lookup (fst (lookup_now a (gateway r) w1)) a (gateway r) = resolved log (fst (now w1)).
Proof.
  cbn zeta. unfold resolved. rewrite <- Arp.lookup_run_new with (m := host_mac r) (i := host_ip).
  unfold lookup_now, Arp.lookup. by destruct (Arp.cache _ !! gateway r).
Qed.

(** One turn: the table moves by the turn's call, and at most one frame is
    queued, for the packet just read. *)
Lemma reader_turn_spec log s :
  arp s = Arp.run (Arp.new (host_mac r) host_ip) log -> zlen (buf s) = mtu + 68 ->
  arp (reader_turn r s) = Arp.run (Arp.new (host_mac r) host_ip) (log ++ turn_calls s) /\
  zlen (buf (reader_turn r s)) = zlen (buf s) /\
  (sent (reader_turn r s) = sent s \/
   exists f, sent (reader_turn r s) = sent s ++ [f] /\ queued log s f).
Proof.
  intros Ha Hbuf. unfold reader_turn, turn_calls.
  destruct (Utun.read _ _ _) as [[[len|e] b] w1] eqn:Er.
  2: { rewrite app_nil_r. cbn. split; [done|]. split; [|by left].
       unfold Utun.read in Er. destruct (Utun.read_fd _ _ _) as [[?|d] ?]; [by simplify_eq|].
       by destruct (_ <? _). }
  apply Utun.read_spec in Er as (Hb & Hn & data & Hd & Hlen & Hp).
  destruct (Z.eqb_spec len 0) as [->|Hne]; [rewrite app_nil_r; cbn; auto|].
  rewrite Hbuf in Hd. unfold Utun.AF_HEADER_LEN in *. destruct Hp as [Hs Hok]; [lia|].
  pose proof (Utun.read_fits (Utun.fd (r_utun r)) (mtu + 68) (world s) data) as Hfit.
  rewrite Hd in Hfit. destruct (Hfit eq_refl) as [_ Hfit']; [pose proof (zlen_nonneg (buf s)); lia|].
  assert (Hfe : fetched s data w1) by (unfold fetched, Utun.AF_HEADER_LEN; split; [done|lia]).
  pose proof (lookup_run log w1) as Hl. cbn zeta in Hl. rewrite <- Ha in Hl.
  destruct (lookup_now (arp s) (gateway r) w1) as [n w2]. cbn [fst] in Hl. rewrite Hl.
  assert (Hq : forall f, f = match resolved log (fst (now w1)) with
    | Some mac => Ethernet.build mac (host_mac r) Ethernet.ETHERTYPE_IPV4 (drop 4 data)
    | None => Arp.request_frame (arp s) (gateway r)
    end -> queued log s f) by (intros f ->; exists data, w1; by rewrite <- Ha).
  destruct (resolved log (fst (now w1))) as [mac|].
  - rewrite app_nil_r. cbn. split; [done|]. split; [done|]. right.
    eexists. split; [done|]. apply Hq. by rewrite Hs.
  - destruct (now w2) as [n' w3]. rewrite run_app. cbn [Arp.run foldl Arp.step].
    rewrite <- Ha. unfold Arp.request.
    destruct (Arp.last_request (arp s) !! gateway r) as [u|];
      [destruct (duration_since n' u <? Arp.RETRY_INTERVAL)|]; cbn; auto;
      (split; [done|]; split; [done|]; right; eexists; split; [done|by apply Hq]).
Qed.

(** A packet for a gateway whose address is known is sent. *)
Lemma reader_turn_sends log s data w1 mac :
  arp s = Arp.run (Arp.new (host_mac r) host_ip) log -> zlen (buf s) = mtu + 68 ->
  fetched s data w1 -> resolved log (fst (now w1)) = Some mac ->
  sent (reader_turn r s) =
    sent s ++ [Ethernet.build mac (host_mac r) Ethernet.ETHERTYPE_IPV4 (drop 4 data)].
Proof.
  intros Ha Hbuf [Hd Hlen] Hm. unfold Utun.AF_HEADER_LEN in *. unfold reader_turn.
  destruct (Utun.read _ _ _) as [[[len|e] b] w2] eqn:Er.
  2: { unfold Utun.read in Er. rewrite Hbuf, Hd in Er. by destruct (_ <? _). }
  apply Utun.read_spec in Er as (_ & _ & data' & Hd' & Hl & Hp).
  rewrite Hbuf, Hd in Hd'. simplify_eq. unfold Utun.AF_HEADER_LEN in *.
  destruct (Z.eqb_spec (Z.max (zlen data' - 4) 0) 0); [lia|].
  pose proof (lookup_run log w2) as Hlk. cbn zeta in Hlk. rewrite <- Ha, Hm in Hlk.
  destruct (lookup_now (arp s) (gateway r) w2) as [n' w3]. cbn [fst] in Hlk. rewrite Hlk.
  cbn [sent]. destruct Hp as [-> _]; [lia|done].
Qed.

Lemma reach_inv log s :
  0 <= mtu -> reach log s ->
  arp s = Arp.run (Arp.new (host_mac r) host_ip) log /\ zlen (buf s) = mtu + 68.
Proof.
  intros Hm. induction 1 as [w|log s t c w _ [IHa IHb]|log s _ [IHa IHb]].
  - split; [done|]. cbn. unfold reader_buffer. rewrite zlen_replicate.
    unfold Utun.AF_HEADER_LEN. lia.
  - cbn. split; [|done]. by rewrite run_app, <- IHa.
  - destruct (reader_turn_spec log s IHa IHb) as (Ha & Hb & _). split; [done|]. lia.
Qed.

(** C19. Whatever the receive thread does to the shared ARP table in between, each
    frame the reader queues was queued for one packet it had just read, of more
    than the family header and no longer than the buffer: at that moment, by the
    clock the lookup reads, either the address last taught for the gateway was
    younger than the time to live, and the frame is an IPv4 frame to it from us
    that carries what that read returned, less the family header and with nothing
    left over from an earlier read; or it was not, and the frame is the table's
    ARP request for the gateway. In the first case the frame is indeed queued: no
    packet is dropped. The buffer keeps room for a packet of [mtu] bytes. *)
Theorem reader_addresses log s :
  0 <= mtu -> reach log s ->
  zlen (buf s) = mtu + 68 /\
  (forall data w1 mac, fetched s data w1 -> resolved log (fst (now w1)) = Some mac ->
     sent (reader_turn r s) =
       sent s ++ [Ethernet.build mac (host_mac r) Ethernet.ETHERTYPE_IPV4 (drop 4 data)]) /\
  forall f, f ∈ sent s ->
    exists before s0, before `prefix_of` log /\ reach before s0 /\ queued before s0 f.
Proof.
  intros Hm Hr. destruct (reach_inv log s Hm Hr) as [Harp Hbuf]. split; [exact Hbuf|]. split.
  { intros data w1 mac. by apply reader_turn_sends. }
  clear Harp Hbuf.
  induction Hr as [w|log s t c w Hr IH|log s Hr IH]; intros f Hf; [by apply elem_of_nil in Hf|..].
  - destruct (IH f Hf) as (before & s0 & Hp & Hq). exists before, s0.
    split; [by apply prefix_app_r|done].
  - destruct (reach_inv log s Hm Hr) as [Ha Hb].
    assert (Hold : f ∈ sent s -> exists before s0,
      before `prefix_of` log ++ turn_calls s /\ reach before s0 /\ queued before s0 f).
    { intros Hs. destruct (IH f Hs) as (before & s0 & Hp & Hq). exists before, s0.
      split; [by apply prefix_app_r|done]. }
    destruct (reader_turn_spec log s Ha Hb) as (_ & _ & [Es|(g & Es & Hg)]); rewrite Es in Hf; [by apply Hold|].
    apply elem_of_app in Hf as [Hf|Hf]; [by apply Hold|].
    apply list_elem_of_singleton in Hf as ->. exists log, s. by split; [apply prefix_app_r|].
Qed.

End reader.

#[local] Existing Instances Utun.sim_libc Net.sim_runner Dns.sim_store Utun.sim_libc_laws
  Net.sim_runner_laws Dns.sim_store_laws.

(** A lease on the concrete system: the tunnel comes up and goes; the DNS key is
    refused, and the route and the descriptor are gone again; the removal of the
    route is refused, and it is all that is left. *)
Definition sample_lease : Dhcp.Lease :=
  Dhcp.mkLease (Ipv4 192 168 42 130) (Ipv4 255 255 255 0) (Some (Ipv4 192 168 42 129))
    [Ipv4 192 168 42 129] None None (Ipv4 192 168 42 129) (from_secs 3600) (from_secs 1800).

Definition refusing : Sim := sim_start 2 [("delete " +:+ local_route sample_lease)%string] [].

Lemma up_restores_witness :
  exists t rd w' e w'' t3 rd3 w3,
    up Dhcp.sample_mac sample_lease (sim_start 2 [] []) = (ok (t, rd), w') /\
    view (drop_tunnel false t w') = empty_sys /\
    up Dhcp.sample_mac sample_lease (sim_start 2 [Dns.dns_key] []) = (err e, w'') /\
    view w'' = empty_sys /\
    up Dhcp.sample_mac sample_lease refusing = (ok (t3, rd3), w3) /\
    Host.routes (view (drop_tunnel false t3 w3)) = {["192.168.42.0/24"%string]} /\
    Route "192.168.42.0/24" ∈ stuck (view (drop_tunnel false t3 w3)).
Proof.
  assert (Ev : match up Dhcp.sample_mac sample_lease (sim_start 2 [] []),
                     up Dhcp.sample_mac sample_lease (sim_start 2 [Dns.dns_key] []),
                     up Dhcp.sample_mac sample_lease refusing with
    | (ok (t, _), w), (err _, w2), (ok (t3, _), w3) =>
        stuck (view (drop_tunnel false t w)) = [] /\ stuck (view w2) = [] /\
        Host.routes (view (drop_tunnel false t3 w3)) = {["192.168.42.0/24"%string]}
    | _, _, _ => False
    end) by (vm_compute; by repeat split).
  pose proof (up_restores Dhcp.sample_mac sample_lease (sim_start 2 [] [])) as H1.
  pose proof (up_restores Dhcp.sample_mac sample_lease (sim_start 2 [Dns.dns_key] [])) as H2.
  pose proof (up_restores Dhcp.sample_mac sample_lease refusing) as H3.
  destruct (up _ _ (sim_start 2 [] [])) as [[[t rd]|e] w'] eqn:E1; [|done].
  destruct (up _ _ (sim_start 2 [Dns.dns_key] [])) as [[?|e] w''] eqn:E2; [done|].
  destruct (up _ _ refusing) as [[[t3 rd3]|e3] w3] eqn:E3; [|done]. destruct Ev as (S1 & S2 & Hroute).
  exists t, rd, w', e, w'', t3, rd3, w3. split; [done|].
  destruct (H1 _ _ eq_refl) as (_ & gw & b & _ & _ & Hd). destruct (Hd w' eq_refl) as [_ Hu].
  destruct (H2 _ _ eq_refl) as [_ Hu2].
  destruct (H3 _ _ eq_refl) as (_ & gw3 & b3 & _ & _ & Hd3). destruct (Hd3 w3 eq_refl) as [Hr3 _].
  split; [apply Hu; [set_solver|set_solver|done]|].
  split; [done|]. split; [apply Hu2; [set_solver|set_solver|done]|].
  split; [done|]. split; [exact Hroute|].
  destruct Hr3 as (refused & Es & _ & Ha & _). rewrite Es.
  destruct (Ha "192.168.42.0/24"%string) as [Hin|Hin]; [rewrite Hroute; set_solver|set_solver|].
  apply elem_of_app. by right.
Defined.

(** The reader asks for the gateway, learns its address from the receive thread
    and sends the second packet there. *)
Definition sample_reader : Reader :=
  mkReader (Utun.mkUtun 9 "utun4") (Ipv4 192 168 42 129) Dhcp.sample_mac.

Definition two_packets : Sim := sim_start 0 [] [[0; 0; 0; 2; 69; 1]; [0; 0; 0; 2; 69; 2]].

Definition sample_start : ReaderState Sim :=
  mkState (Arp.new Dhcp.sample_mac (Ipv4 192 168 42 130)) [] (reader_buffer 1500) two_packets.

Definition sample_asked : ReaderState Sim := reader_turn sample_reader sample_start.

Definition sample_learned : ReaderState Sim :=
  mkState (snd (Arp.step 1 (arp sample_asked) (Arp.CInsert (Ipv4 192 168 42 129) (Mac 2 0 0 0 0 9))))
    (sent sample_asked) (buf sample_asked) (world sample_asked).

Definition sample_sent : ReaderState Sim := reader_turn sample_reader sample_learned.

Lemma reader_addresses_witness :
  zlen (buf sample_sent) = 1500 + 68 /\
  sent sample_sent =
    [Arp.request_frame (arp sample_start) (Ipv4 192 168 42 129);
     Ethernet.build (Mac 2 0 0 0 0 9) Dhcp.sample_mac Ethernet.ETHERTYPE_IPV4 [69; 2]].
Proof.
  assert (Hr : exists log, reach sample_reader (Ipv4 192 168 42 130) 1500 log sample_sent).
  { eexists. apply reach_turn. apply reach_others with (t := 1). apply reach_turn. apply reach_start. }
  destruct Hr as [log Hr].
  destruct (reader_addresses _ _ 1500 log sample_sent ltac:(lia) Hr) as [Hb _].
  split; [exact Hb|]. vm_compute. reflexivity.
Defined.

End Tunnel.
