(* ===== verification/Status.v ===== *)
(** * Status

    [src/status.rs]: the one-line status format, both ends of it: the line the
    daemon writes and the fields [muta status] prints. A [String] is the list of
    its UTF-8 bytes. The socket and its thread are not modelled. *)
From Stdlib Require Import ZArith Lia.
From stdpp Require Import base numbers list strings gmap pretty.
From S2P Require Import Prelude Host.

Open Scope Z_scope.

Module Status.

Import Host.

(** The bytes of a literal, or of what [Display] writes. *)
Definition bytes_of (s : string) : list Z :=
  map (fun c => Z.of_N (Ascii.N_of_ascii c)) (String.list_ascii_of_string s).

Definition TAB : Z := 9.

Definition NEWLINE : Z := 10.

Definition EQUALS : Z := 61.

Record Status : Type := mkStatus
  { device : option (list Z); link_up : bool; interface : option (list Z);
    address : option Ipv4Addr; gateway : option Ipv4Addr; dns : list Ipv4Addr;
    packets_in : Z; packets_out : Z }.

Definition default_status : Status := mkStatus None false None None None [] 0 0.

(** ** The daemon's end *)

(** [s.replace('\t', " ")] *)
Definition untab (s : list Z) : list Z := map (fun b => if b =? TAB then 32 else b) s.

Definition or_dash (o : option (list Z)) : list Z := default (bytes_of "-") o.

Definition state_text (st : Status) : list Z :=
  bytes_of (if link_up st then "connected" else "waiting").

Definition dns_text (st : Status) : list Z :=
  let dns := bytes_of (join "," (map show_ip (dns st))) in
  match dns with [] => bytes_of "-" | _ => dns end.

Definition encode (st : Status) : list Z :=
  bytes_of "state=" ++ state_text st ++
  TAB :: bytes_of "device=" ++ untab (or_dash (device st)) ++
  TAB :: bytes_of "interface=" ++ or_dash (interface st) ++
  TAB :: bytes_of "address=" ++ or_dash (bytes_of ∘ show_ip <$> address st) ++
  TAB :: bytes_of "gateway=" ++ or_dash (bytes_of ∘ show_ip <$> gateway st) ++
  TAB :: bytes_of "dns=" ++ dns_text st ++
  TAB :: bytes_of "in=" ++ bytes_of (pretty (packets_in st)) ++
  TAB :: bytes_of "out=" ++ bytes_of (pretty (packets_out st)) ++ [NEWLINE].

(** ** The client's end *)

(** [BufRead::read_line]: up to and including the first newline. *)
Fixpoint read_line (s : list Z) : list Z :=
  match s with
  | [] => []
  | b :: s => if b =? NEWLINE then [b] else b :: read_line s
  end.

(** The bytes that are a white-space character on their own. *)
Definition ascii_space (b : Z) : bool := ((9 <=? b) && (b <=? 13)) || (b =? 32).

(** Three bytes, in order, that encode a white-space character. *)
Definition wide_space (a b c : Z) : bool :=
  ((a =? 225) && (b =? 154) && (c =? 128)) ||
  ((a =? 226) && (b =? 128) &&
     (((128 <=? c) && (c <=? 138)) || (c =? 168) || (c =? 169) || (c =? 175))) ||
  ((a =? 226) && (b =? 129) && (c =? 159)) ||
  ((a =? 227) && (b =? 128) && (c =? 128)).

(** Drops the white space that ends a text, given last byte first. *)
Fixpoint trim_rev (s : list Z) : list Z :=
  match s with
  | [] => []
  | c :: s1 =>
      if ascii_space c then trim_rev s1
      else
        match s1 with
        | [] => s
        | b :: s2 =>
            if (b =? 194) && ((c =? 133) || (c =? 160)) then trim_rev s2
            else
              match s2 with
              | [] => s
              | a :: s3 => if wide_space a b c then trim_rev s3 else s
              end
        end
  end.

(** [str::trim_end] *)
Definition trim_end (s : list Z) : list Z := rev (trim_rev (rev s)).

(** [s.split(sep)] for one ASCII character *)
Fixpoint split (sep : Z) (s : list Z) : list (list Z) :=
  match s with
  | [] => [[]]
  | b :: s =>
      if b =? sep then [] :: split sep s
      else
        match split sep s with
        | [] => [[b]]
        | f :: fs => (b :: f) :: fs
        end
  end.

(** [s.split_once(sep)] *)
Fixpoint split_once (sep : Z) (s : list Z) : option (list Z * list Z) :=
  match s with
  | [] => None
  | b :: s =>
      if b =? sep then Some ([], s)
      else
        match split_once sep s with
        | Some (k, v) => Some (b :: k, v)
        | None => None
        end
  end.

(** [{key:<10}]: padded to ten characters, continuation bytes not counted. *)
Definition pad10 (key : list Z) : list Z :=
  key ++ replicate (10 - length (filter (fun b => Z.land b 192 <> 128) key)) 32.

(** The lines [print_status] prints of a reply. *)
Definition print_fields (reply : list Z) : list (list Z) :=
  map (fun field =>
    match split_once EQUALS field with
    | Some (key, value) => pad10 key ++ 32 :: value
    | None => field
    end) (split TAB (trim_end reply)).

(** ** Round trip *)

Lemma split_app sep f rest : sep ∉ f -> split sep (f ++ sep :: rest) = f :: split sep rest.
Proof.
  induction f as [|b f IH]; cbn; intros Hf; [by rewrite Z.eqb_refl|].
  apply not_elem_of_cons in Hf as [Hb Hf]. destruct (Z.eqb_spec b sep); [done|].
  by rewrite IH.
Qed.

Lemma split_last sep f : sep ∉ f -> split sep f = [f].
Proof.
  induction f as [|b f IH]; cbn; intros Hf; [done|].
  apply not_elem_of_cons in Hf as [Hb Hf]. destruct (Z.eqb_spec b sep); [done|].
  by rewrite IH.
Qed.

Lemma split_once_app sep k v : sep ∉ k -> split_once sep (k ++ sep :: v) = Some (k, v).
Proof.
  induction k as [|b k IH]; cbn; intros Hk; [by rewrite Z.eqb_refl|].
  apply not_elem_of_cons in Hk as [Hb Hk]. destruct (Z.eqb_spec b sep); [done|].
  by rewrite IH.
Qed.

Lemma read_line_app s rest : NEWLINE ∉ s -> read_line (s ++ NEWLINE :: rest) = s ++ [NEWLINE].
Proof.
  induction s as [|b s IH]; cbn; intros Hs; [done|].
  apply not_elem_of_cons in Hs as [Hb Hs]. destruct (Z.eqb_spec b NEWLINE); [done|].
  by rewrite IH.
Qed.

Lemma bytes_of_app s t : bytes_of (s +:+ t) = bytes_of s ++ bytes_of t.
Proof.
  unfold bytes_of. induction s as [|c s IH]; [done|].
  change (Z.of_N (Ascii.N_of_ascii c) :: bytes_of (s +:+ t) = Z.of_N (Ascii.N_of_ascii c) ::
    (bytes_of s ++ bytes_of t)). f_equal. exact IH.
Qed.

(** What numbers and addresses are written with. *)
Definition plain (b : Z) : Prop := 45 <= b <= 57.

Lemma pretty_go_plain x : forall s, Forall plain (bytes_of s) -> Forall plain (bytes_of (pretty_N_go x s)).
Proof.
  induction (N.lt_wf_0 x) as [x _ IH]; intros s Hs.
  destruct (decide (x = 0)%N) as [->|]; [by rewrite pretty_N_go_0|].
  rewrite pretty_N_go_step by lia. apply IH; [apply N.div_lt; lia|]. constructor; [|done].
  assert (x `mod` 10 < 10)%N as Hm by (apply N.mod_lt; lia).
  destruct (x `mod` 10)%N as [|p]; [by split|].
  do 4 (destruct p as [p|p|]; [| |by split]); lia || by split.
Qed.

Lemma pretty_N_plain (x : N) : Forall plain (bytes_of (pretty x)).
Proof.
  unfold pretty, pretty_N. case_decide; [by repeat constructor|]. by apply pretty_go_plain.
Qed.

Lemma pretty_plain (x : Z) : Forall plain (bytes_of (pretty x)).
Proof.
  destruct x as [|p|p]; [by repeat constructor|apply (pretty_N_plain (Npos p))|].
  unfold pretty, pretty_Z. rewrite bytes_of_app. apply Forall_app. split; [by repeat constructor|].
  apply (pretty_N_plain (Npos p)).
Qed.

Lemma show_ip_plain i : Forall plain (bytes_of (show_ip i)).
Proof.
  unfold show_ip. rewrite !bytes_of_app. rewrite !Forall_app.
  repeat split; try apply pretty_plain; by repeat constructor.
Qed.

Lemma plain_not_in c s : (c < 45 \/ 57 < c) -> Forall plain s -> c ∉ s.
Proof. intros Hc Hs Hi. rewrite Forall_forall in Hs. specialize (Hs c Hi). unfold plain in Hs. lia. Qed.

Lemma dns_text_plain st : Forall plain (dns_text st) \/ Forall (fun b => 44 <= b <= 57) (dns_text st).
Proof.
  right. unfold dns_text.
  assert (H : Forall (fun b => 44 <= b <= 57) (bytes_of (join "," (map show_ip (dns st))))).
  { assert (Hip : forall i, Forall (fun b => 44 <= b <= 57) (bytes_of (show_ip i))).
    { intros i. eapply Forall_impl; [apply show_ip_plain|]. unfold plain. cbn. lia. }
    induction (dns st) as [|i l IH]; [constructor|]. destruct l as [|j l]; [apply Hip|].
    cbn [map join] in *. rewrite !bytes_of_app, !Forall_app. split; [apply Hip|].
    split; [|exact IH]. repeat constructor; done. }
  destruct (bytes_of _); [|done]. repeat constructor; done.
Qed.

(** Bytes that are neither white space nor part of a longer character. *)
Definition solid (b : Z) : Prop := 33 <= b < 128.

Lemma trim_end_line a p :
  p <> [] -> Forall solid p -> trim_end ((a ++ p) ++ [NEWLINE]) = a ++ p.
Proof.
  intros Hp Hs. unfold trim_end. rewrite rev_unit. cbn [trim_rev].
  change (ascii_space NEWLINE) with true. cbn match.
  destruct p as [|c p _] using rev_ind; [done|].
  apply Forall_app in Hs as [_ Hs]. apply Forall_cons_iff in Hs as [Hc _]. unfold solid in Hc.
  rewrite app_assoc, rev_unit. cbn [trim_rev].
  assert (Hk : trim_rev (c :: rev (a ++ p)) = c :: rev (a ++ p)).
  { cbn [trim_rev]. replace (ascii_space c) with false by (unfold ascii_space; lia).
    destruct (rev (a ++ p)) as [|b s2]; [done|].
    replace ((b =? 194) && ((c =? 133) || (c =? 160))) with false by lia.
    destruct s2 as [|x s3]; [done|].
    by replace (wide_space x b c) with false by (unfold wide_space; lia). }
  cbn [trim_rev] in Hk. rewrite Hk. cbn [rev]. by rewrite rev_involutive.
Qed.

(** The fields of the line, in order. *)
Definition fields (st : Status) : list (list Z * list Z) :=
  [(bytes_of "state", state_text st);
   (bytes_of "device", untab (or_dash (device st)));
   (bytes_of "interface", or_dash (interface st));
   (bytes_of "address", or_dash (bytes_of ∘ show_ip <$> address st));
   (bytes_of "gateway", or_dash (bytes_of ∘ show_ip <$> gateway st));
   (bytes_of "dns", dns_text st);
   (bytes_of "in", bytes_of (pretty (packets_in st)));
   (bytes_of "out", bytes_of (pretty (packets_out st)))].

(** A descriptor string without a newline, an interface name that is a name. *)
Definition status_ok (st : Status) : Prop :=
  (NEWLINE ∉ or_dash (device st)) /\ (NEWLINE ∉ or_dash (interface st)) /\
  TAB ∉ or_dash (interface st).

Lemma untab_not_in c s : c <> 32 -> (c ∉ s) \/ c = TAB -> c ∉ untab s.
Proof.
  intros H32 Hc Hi. apply list_elem_of_In, in_map_iff in Hi as (b & E & Hb).
  apply list_elem_of_In in Hb. destruct (Z.eqb_spec b TAB); [done|]. subst.
  by destruct Hc.
Qed.

(** The field of the line that a key and its value make. *)
Definition field (kv : list Z * list Z) : list Z := fst kv ++ EQUALS :: snd kv.

(** A separator that is in no value. *)
Definition absent (c : Z) (st : Status) : Prop := Forall (fun kv => c ∉ field kv) (fields st).

Lemma ip_text_absent c o : c < 45 -> c ∉ or_dash (bytes_of ∘ show_ip <$> o).
Proof.
  intros Hc. destruct o as [i|]; cbn.
  - apply plain_not_in; [by left|apply show_ip_plain].
  - apply not_elem_of_cons. split; [lia|apply not_elem_of_nil].
Qed.

Lemma status_absent c st :
  (c = TAB \/ c = NEWLINE) -> status_ok st -> absent c st.
Proof.
  intros Hc (Hd & Hn & Ht).
  assert (Hlt : c < 44 /\ c <> 32) by (unfold TAB, NEWLINE in *; lia). destruct Hlt as [Hlt H32].
  assert (Hkey : forall k v, Forall (fun b => 44 < b) (bytes_of k) -> c ∉ v -> c ∉ field (bytes_of k, v)).
  { intros k v Hk Hv. unfold field. cbn. apply not_elem_of_app. split.
    - intros Hi. rewrite Forall_forall in Hk. specialize (Hk c Hi). cbn in Hk. lia.
    - apply not_elem_of_cons. split; [unfold EQUALS; lia|done]. }
  unfold absent, fields.
  repeat (apply List.Forall_cons; [apply Hkey; [repeat constructor; done|]|]); [..|by constructor].
  - unfold state_text. destruct (link_up st); intros Hi;
      apply list_elem_of_In in Hi; cbn in Hi; lia.
  - apply untab_not_in; [done|]. destruct Hc as [->| ->]; [by right|by left].
  - by destruct Hc as [->| ->].
  - apply ip_text_absent. lia.
  - apply ip_text_absent. lia.
  - destruct (dns_text_plain st) as [H|H]; intros Hi; rewrite Forall_forall in H;
      specialize (H c Hi); unfold plain in *; cbn in *; lia.
  - apply plain_not_in; [left; lia|apply pretty_plain].
  - apply plain_not_in; [left; lia|apply pretty_plain].
Qed.

(** Fields joined by a separator. *)
Fixpoint joined (sep : Z) (fs : list (list Z)) : list Z :=
  match fs with
  | [] => []
  | [f] => f
  | f :: fs => f ++ sep :: joined sep fs
  end.

Lemma split_joined sep fs :
  fs <> [] -> Forall (fun f => sep ∉ f) fs -> split sep (joined sep fs) = fs.
Proof.
  induction fs as [|f fs IH]; intros Hne Hf; [done|].
  apply Forall_cons_iff in Hf as [Hf Hfs].
  destruct fs as [|g fs]; [by apply split_last|].
  change (joined sep (f :: g :: fs)) with (f ++ sep :: joined sep (g :: fs)).
  rewrite split_app by done. by rewrite IH.
Qed.

Lemma joined_not_in c sep fs :
  c <> sep -> Forall (fun f => c ∉ f) fs -> c ∉ joined sep fs.
Proof.
  intros Hne. induction fs as [|f fs IH]; intros Hf; [apply not_elem_of_nil|].
  apply Forall_cons_iff in Hf as [Hf Hfs]. destruct fs as [|g fs]; [done|].
  change (joined sep (f :: g :: fs)) with (f ++ sep :: joined sep (g :: fs)).
  apply not_elem_of_app. split; [done|]. apply not_elem_of_cons. split; [done|]. by apply IH.
Qed.

Lemma joined_last sep fs f : fs <> [] -> joined sep (fs ++ [f]) = joined sep fs ++ sep :: f.
Proof.
  induction fs as [|g fs IH]; intros Hne; [done|]. destruct fs as [|h fs]; [done|].
  change (joined sep ((g :: h :: fs) ++ [f])) with (g ++ sep :: joined sep ((h :: fs) ++ [f])).
  rewrite IH by done.
  change (joined sep (g :: h :: fs)) with (g ++ sep :: joined sep (h :: fs)).
  by rewrite <- app_assoc.
Qed.

Lemma encode_joined st : encode st = joined TAB (map field (fields st)) ++ [NEWLINE].
Proof.
  unfold encode, fields, field. cbn [map joined fst snd].
  change (bytes_of "state=") with (bytes_of "state" ++ [EQUALS]).
  change (bytes_of "device=") with (bytes_of "device" ++ [EQUALS]).
  change (bytes_of "interface=") with (bytes_of "interface" ++ [EQUALS]).
  change (bytes_of "address=") with (bytes_of "address" ++ [EQUALS]).
  change (bytes_of "gateway=") with (bytes_of "gateway" ++ [EQUALS]).
  change (bytes_of "dns=") with (bytes_of "dns" ++ [EQUALS]).
  change (bytes_of "in=") with (bytes_of "in" ++ [EQUALS]).
  change (bytes_of "out=") with (bytes_of "out" ++ [EQUALS]).
  rewrite <- !app_assoc. cbn [app]. repeat (rewrite <- ?app_assoc; cbn [app]). done.
Qed.

(** C40. [muta status] prints what [muta run] knows, provided that the device name
    holds no newline and the interface name neither a newline nor a tab
    ([status_ok]; [newline_ends_reply] is what happens otherwise): then the line
    is read whole and splits back into the eight fields, spaces, equals signs and
    tabs in the device name notwithstanding (a tab is shown as a space), each on a
    line of its own after its padded key. *)
Theorem status_roundtrip st :
  status_ok st ->
  read_line (encode st) = encode st /\
  print_fields (encode st) = map (fun '(key, value) => pad10 key ++ 32 :: value) (fields st).
Proof.
  intros Hok. rewrite encode_joined.
  assert (Ht : Forall (fun f => TAB ∉ f) (map field (fields st))).
  { apply Forall_map, (status_absent TAB); [by left|done]. }
  assert (Hn : Forall (fun f => NEWLINE ∉ f) (map field (fields st))).
  { apply Forall_map, (status_absent NEWLINE); [by right|done]. }
  split.
  { apply read_line_app. by apply joined_not_in. }
  unfold print_fields.
  assert (Htail : exists a p, joined TAB (map field (fields st)) = a ++ p /\ p <> [] /\ Forall solid p).
  { exists (joined TAB (map field (take 7 (fields st))) ++ [TAB]).
    exists (bytes_of "out" ++ EQUALS :: bytes_of (pretty (packets_out st))).
    split; [|split; [done|]].
    - rewrite <- app_assoc. apply (joined_last TAB (map field (take 7 (fields st)))). done.
    - apply Forall_app. split; [by repeat constructor|]. constructor; [by split|].
      eapply Forall_impl; [apply pretty_plain|]. unfold plain, solid. cbn. lia. }
  destruct Htail as (a & p & E & Hp & Hs). rewrite E, trim_end_line, <- E by done.
  rewrite split_joined by done. rewrite map_map. apply map_ext_in. intros [k v] Hin.
  unfold field. cbn [fst snd]. rewrite split_once_app; [done|].
  clear -Hin. intros Hi.
  assert (Hk : Forall (fun kv => Forall (fun b => b <> EQUALS) (fst kv)) (fields st)) by
    (repeat constructor; done).
  rewrite Forall_forall in Hk. specialize (Hk (k, v)). rewrite list_elem_of_In in Hk.
  specialize (Hk Hin). rewrite Forall_forall in Hk. by apply (Hk EQUALS).
Qed.

Definition sample_status : Status :=
  mkStatus (Some (bytes_of "Redmi Note 10S")) true (Some (bytes_of "utun4"))
    (Some (Ipv4 10 71 51 112)) (Some (Ipv4 10 71 51 57)) [Ipv4 10 71 51 57] 12 34.

Lemma status_roundtrip_witness :
  print_fields (encode sample_status) =
    map bytes_of
      ["state      connected"; "device     Redmi Note 10S"; "interface  utun4";
       "address    10.71.51.112"; "gateway    10.71.51.57"; "dns        10.71.51.57";
       "in         12"; "out        34"]%string.
Proof.
  destruct (status_roundtrip sample_status) as [_ E].
  - repeat split; apply (bool_decide_eq_true_1 _); by vm_compute.
  - rewrite E. by vm_compute.
Defined.

(** A newline in the descriptor string ends the reply early: the client never
    sees the fields behind it. *)
Lemma newline_ends_reply :
  print_fields (read_line (encode
    (mkStatus (Some [72; NEWLINE; 73]) true None (Some (Ipv4 10 0 0 2)) None [] 0 0))) =
  map bytes_of ["state      connected"; "device     H"]%string.
Proof. by vm_compute. Qed.

End Status.
