(* ===== verification/Device.v ===== *)
(** * Opening a phone

    [src/device.rs]: the scan for a device with an RNDIS function, and the
    sequence that claims it and brings the link up. The backend's enumeration
    traits ([UsbBackend], [UsbDevice] and the rest of [UsbInterface] of
    [src/usb/backend.rs]) are a class over the world, with handles for devices,
    interfaces and bulk endpoints; the interrupt endpoint's queue is the
    world's, as in [Transport]. *)
From Stdlib Require Import ZArith Lia.
From stdpp Require Import base numbers list strings gmap pretty.
From S2P Require Import Prelude Wire Control MockDevice Matcher Backend Transport Host.

Open Scope Z_scope.

Module Device.

Import Matcher.Descriptor.

Abbreviation USB A := (Backend.Result A).

Class UsbBackend (W : Type) : Type :=
  { Dev : Type; If : Type; Ep : Type;
    list_devices : W -> USB (list DeviceInfo) * W;
    open_device : DeviceId -> W -> USB Dev * W;
    configurations : Dev -> W -> USB (list ConfigDescriptor) * W;
    active_configuration : Dev -> W -> USB Z * W;
    set_configuration : Dev -> Z -> W -> USB unit * W;
    claim_interface : Dev -> Z -> W -> USB If * W;
    set_alt_setting : If -> Z -> W -> USB unit * W;
    if_control_out : If -> Backend.ControlSetup -> list Z -> Z -> W -> USB unit * W;
    if_control_in : If -> Backend.ControlSetup -> Z -> Z -> W -> USB (list Z) * W;
    open_in : If -> Z -> TransferType -> W -> USB Ep * W;
    open_out : If -> Z -> TransferType -> W -> USB Ep * W }.

Arguments Dev W {_}.
Arguments If W {_}.
Arguments Ep W {_}.

(** What a watch reports. *)
Inductive HotplugEvent : Type :=
| Connected (info : DeviceInfo)
| Disconnected (i : DeviceId).

(** [UsbBackend::watch] and the [HotplugWatch] it returns, which blocks up to a
    timeout for the next event. *)
Class Hotplug (W : Type) : Type :=
  { Watch : Type;
    watch : W -> USB Watch * W;
    next_event : Watch -> Z -> W -> option HotplugEvent * W }.

Arguments Watch W {_}.

#[local] Existing Instances Transport.usb_transport Transport.usb_clock.

(** The control requests of one claimed interface. *)
Definition interface_of {W} `{UsbBackend W} (i : If W) : Backend.UsbInterface W :=
  {| Backend.control_out := if_control_out i; Backend.control_in := if_control_in i |}.

(** An error of the USB layer under a context. *)
Definition usb_error (c : string) (e : Backend.UsbError) : Host.Error :=
  Host.context c (Host.mkError [] (Host.Usb e)).

(** What one scan for a phone turned up. *)
Record Scan : Type := mkScan
  { rndis : option (DeviceInfo * Matcher.Matcher.RndisFunction); idle : list string }.

(** The [Display] of the RNDIS layer's error, in [anyhow!("..: {e}")]. *)
Class ShowRndis := show_rndis : Wire.Wire.Error -> string.

Section device.
Context {P : Profile} {W : Type} `{UsbBackend W}.

(** The loop of [find], with the labels of the devices inspected so far. *)
Fixpoint find_loop (infos : list DeviceInfo) (idle : list string) (w : W) :
    outcome Host.Error Scan * W :=
  match infos with
  | [] => (Ok (mkScan None idle), w)
  | info :: infos =>
      match open_device (id info) w with
      | (Backend.err _, w) => find_loop infos idle w
      | (Backend.ok device, w) =>
          match configurations device w with
          | (Backend.err _, w) => find_loop infos idle w
          | (Backend.ok configs, w) =>
              match Matcher.Matcher.find_rndis configs with
              | Ok (Some function) => (Ok (mkScan (Some (info, function)) idle), w)
              | Ok None => find_loop infos (idle ++ [label info]) w
              | Err e => match e with end
              | Panic => (Panic, w)
              end
          end
      end
  end.

(** Look for an attached device exposing an RNDIS function. *)
Definition find (w : W) : outcome Host.Error Scan * W :=
  match list_devices w with
  | (Backend.err e, w) => (Err (usb_error "listing USB devices" e), w)
  | (Backend.ok infos, w) => find_loop infos [] w
  end.

Context `{Backend.InEndpoint W} `{Transport.Sleep W} `{Clock W} `{ShowRndis}.

(** An open, initialized RNDIS link; [control] owns the world, and its
    transport the control interface. *)
Record RndisDevice : Type := mkDevice
  { session : Control.Session;
    control : Control.Rndis (Transport.UsbControlTransport W);
    control_handle : If W; bulk_in : Ep W; bulk_out : Ep W; device : Dev W; data : If W }.

(** Make the function's configuration the active one. *)
Definition select_configuration (d : Dev W) (value : Z) (w : W) : outcome Host.Error unit * W :=
  let select w :=
    match set_configuration d value w with
    | (Backend.err e, w) => (Err (usb_error "selecting the RNDIS configuration" e), w)
    | (Backend.ok _, w) => (Ok tt, w)
    end in
  match active_configuration d w with
  | (Backend.ok active, w) => if active =? value then (Ok tt, w) else select w
  | (Backend.err _, w) => select w
  end.

(** The control transport's interrupt endpoint. *)
Definition open_interrupt (i : If W) (address : Z) (w : W) : USB unit * W :=
  match open_in i address Interrupt w with
  | (Backend.ok _, w) => (Backend.ok tt, w)
  | (Backend.err e, w) => (Backend.err e, w)
  end.

(** [Rndis::new(transport).bring_up()] and the bulk endpoints. *)
Definition bring_up_link (fuel : nat) (d : Dev W) (ci di : If W)
    (f : Matcher.Matcher.RndisFunction) (t : Transport.UsbControlTransport W) :
    option (outcome Host.Error RndisDevice * W) :=
  let _ : Backend.UsbInterface W := interface_of ci in
  r ← Control.bring_up fuel (Control.new t);
  let '(r, control) := r in
  let w := Transport.world (Control.transport control) in
  match r with
  | Err e => Some (Err (Host.message ("RNDIS bring-up: " +:+ show_rndis e)), w)
  | Panic => Some (Panic, w)
  | Ok session =>
      match open_in di (Matcher.Matcher.bulk_in f) Bulk w with
      | (Backend.err e, w) => Some (Err (usb_error "opening the bulk IN endpoint" e), w)
      | (Backend.ok bin, w) =>
          match open_out di (Matcher.Matcher.bulk_out f) Bulk w with
          | (Backend.err e, w) => Some (Err (usb_error "opening the bulk OUT endpoint" e), w)
          | (Backend.ok bout, w) =>
              Some (Ok (mkDevice session
                (Control.mkRndis (Transport.set_world w (Control.transport control))
                   (Control.next_request_id control) (Control.link control))
                ci bin bout d di), w)
          end
      end
  end.

(** Claim the interfaces and run the RNDIS bring-up sequence. *)
Definition open (fuel : nat) (info : DeviceInfo) (f : Matcher.Matcher.RndisFunction) (w : W) :
    option (outcome Host.Error RndisDevice * W) :=
  match open_device (id info) w with
  | (Backend.err e, w) => Some (Err (usb_error ("opening " +:+ label info) e), w)
  | (Backend.ok d, w) =>
  match select_configuration d (Matcher.Matcher.config_value f) w with
  | (Err e, w) => Some (Err e, w)
  | (Panic, w) => Some (Panic, w)
  | (Ok _, w) =>
  match claim_interface d (Matcher.Matcher.control_interface f) w with
  | (Backend.err e, w) =>
      Some (Err (usb_error ("claiming control interface " +:+
        pretty (Matcher.Matcher.control_interface f)) e), w)
  | (Backend.ok ci, w) =>
  match claim_interface d (Matcher.Matcher.data_interface f) w with
  | (Backend.err e, w) =>
      Some (Err (usb_error ("claiming data interface " +:+
        pretty (Matcher.Matcher.data_interface f)) e), w)
  | (Backend.ok di, w) =>
  match
    (if negb (Matcher.Matcher.data_alt_setting f =? 0)
     then set_alt_setting di (Matcher.Matcher.data_alt_setting f) w
     else (Backend.ok tt, w))
  with
  | (Backend.err e, w) =>
      Some (Err (usb_error "selecting the data interface alt setting" e), w)
  | (Backend.ok _, w) =>
  match Transport.new (open_interrupt ci) w (Matcher.Matcher.control_interface f)
          (Matcher.Matcher.interrupt_in f) with
  | (Err e, w) => Some (Err (Host.message ("opening the control transport: " +:+ show_rndis e)), w)
  | (Panic, w) => Some (Panic, w)
  | (Ok t, w) => bring_up_link fuel d ci di f t
  end end end end end end.

End device.

(** ** The scan *)

(** What a device answers when it is its turn: the configurations read from it, or
    [None] when it cannot be opened or read. *)
Abbreviation Answer := (DeviceInfo * option (list ConfigDescriptor))%type.

Section scan.
Context {P : Profile} {W : Type} `{UsbBackend W}.

(** One device is opened and read. *)
Definition ask (info : DeviceInfo) (w : W) : option (list ConfigDescriptor) * W :=
  match open_device (id info) w with
  | (Backend.ok d, w) =>
      match configurations d w with
      | (Backend.ok configs, w) => (Some configs, w)
      | (Backend.err _, w) => (None, w)
      end
  | (Backend.err _, w) => (None, w)
  end.

(** The answers of the listed devices, each asked once those before it have been:
    devices may come, go and change in between. *)
Fixpoint answers (infos : list DeviceInfo) (w : W) : list Answer :=
  match infos with
  | [] => []
  | info :: infos => (info, fst (ask info w)) :: answers infos (snd (ask info w))
  end.

(** A device that was inspected. *)
Definition inspected (a : Answer) : bool := match snd a with Some _ => true | None => false end.

Definition tethers (a : Answer) : Matcher.Matcher.search Matcher.Matcher.RndisFunction :=
  match snd a with
  | Some configs => Matcher.Matcher.find_rndis configs
  | None => Ok None
  end.

(** A scan that ends at the first of [all] that tethers, and lists as idle those
    before it that could be read. *)
Definition first_of (all : list Answer) (idle0 : list string) (scan : Scan) : Prop :=
  match rndis scan with
  | Some (info, f) => exists before a after,
      all = before ++ a :: after /\ fst a = info /\ tethers a = Ok (Some f) /\
      Forall (fun a => tethers a = Ok None) before /\
      idle scan = idle0 ++ map (label ∘ fst) (List.filter inspected before)
  | None => Forall (fun a => tethers a = Ok None) all /\
      idle scan = idle0 ++ map (label ∘ fst) (List.filter inspected all)
  end.

Lemma answers_infos infos (w : W) : map fst (answers infos w) = infos.
Proof. revert w. induction infos as [|info infos IH]; intros w; cbn; [done|]. by rewrite IH. Qed.

(** A device that is passed over. *)
Lemma first_of_skip a all idle0 scan :
  tethers a = Ok None ->
  first_of all (idle0 ++ if inspected a then [label (fst a)] else []) scan ->
  first_of (a :: all) idle0 scan.
Proof.
  intros Ht. unfold first_of. destruct (rndis scan) as [[info f]|].
  - intros (before & b & after & -> & Hi & Hf & Hb & E). exists (a :: before), b, after.
    split; [done|]. split; [done|]. split; [done|]. split; [by constructor|]. rewrite E.
    cbn [List.filter]. destruct (inspected a); by rewrite <- app_assoc.
  - intros [Hb E]. split; [by constructor|]. rewrite E. cbn [List.filter].
    destruct (inspected a); by rewrite <- app_assoc.
Qed.

Lemma find_loop_spec infos idle0 (w : W) :
  match fst (find_loop infos idle0 w) with
  | Ok scan => first_of (answers infos w) idle0 scan
  | Err _ => False
  | Panic => exists a, a ∈ answers infos w /\ tethers a = Panic
  end.
Proof.
  revert idle0 w. induction infos as [|info infos IH]; intros idle0 w; cbn [find_loop answers].
  { unfold first_of. cbn. split; [constructor|]. by rewrite app_nil_r. }
  assert (Hskip : forall r w idle1, tethers (info, r) = Ok None ->
    idle1 = idle0 ++ (if inspected (info, r) then [label info] else []) ->
    match fst (find_loop infos idle1 w) with
    | Ok scan => first_of ((info, r) :: answers infos w) idle0 scan
    | Err _ => False
    | Panic => exists a, a ∈ (info, r) :: answers infos w /\ tethers a = Panic
    end).
  { intros r w1 idle1 Ht ->. specialize (IH (idle0 ++ if inspected (info, r) then [label info] else []) w1).
    destruct (fst (find_loop infos _ w1)) as [scan|e|]; [by apply first_of_skip|done|].
    destruct IH as (a & Ha & Hp). exists a. split; [by right|done]. }
  unfold ask. destruct (open_device (id info) w) as [[d|e] w1]; cbn [fst snd].
  2: { apply Hskip; [done|]. by rewrite app_nil_r. }
  destruct (configurations d w1) as [[configs|e] w2]; cbn [fst snd].
  2: { apply Hskip; [done|]. by rewrite app_nil_r. }
  destruct (Matcher.Matcher.find_rndis configs) as [[f|]|[]|] eqn:Ef.
  - cbn. exists [], (info, Some configs), (answers infos w2). cbn. rewrite app_nil_r.
    unfold tethers. cbn. by repeat split.
  - apply Hskip; [|done]. unfold tethers. cbn. by rewrite Ef.
  - cbn. exists (info, Some configs). split; [by left|exact Ef].
Qed.

(** C30. The scan stops at the first device that tethers. Every device before it was
    unreadable or has no RNDIS function, and the idle list names, in order,
    exactly the readable ones among them; without a match it names all of them.
    Each device is judged by what it answers when the scan reaches it, and nothing
    is assumed of the bus in between. Only a descriptor that makes the matcher
    panic can keep the scan from returning. *)
Theorem find_first_tethering (w : W) :
  match fst (find w) with
  | Ok scan => exists infos w1, list_devices w = (Backend.ok infos, w1) /\
      map fst (answers infos w1) = infos /\ first_of (answers infos w1) [] scan
  | Err _ => exists e w1, list_devices w = (Backend.err e, w1)
  | Panic => exists infos w1 a,
      list_devices w = (Backend.ok infos, w1) /\ a ∈ answers infos w1 /\ tethers a = Panic
  end.
Proof.
  unfold find. destruct (list_devices w) as [[infos|e] w1]; [|by exists e, w1].
  pose proof (find_loop_spec infos [] w1) as Hf.
  destruct (fst (find_loop infos [] w1)) as [scan|e|]; [|done|].
  { exists infos, w1. by rewrite answers_infos. }
  destruct Hf as (a & Ha & Hp). by exists infos, w1, a.
Qed.

End scan.

(** ** Opening *)

(** What the host controller has set up on the device; an interface that is not in
    [alts] is in its default setting, zero. *)
Record DeviceView : Type := mkView
  { active : option Z; claimed : gset Z; alts : gmap Z Z }.

Definition setting (v : DeviceView) (n : Z) : Z := default 0 (alts v !! n).

(** The backend's promises: a configuration and an alternate setting are in
    force when their request succeeded, a fresh configuration has its interfaces
    in their default settings, a claimed interface is the one asked for, and
    nothing else changes any of it. *)
Class OpenLaws (W : Type) `{UsbBackend W} `{Backend.InLaws W} `{Transport.Sleep W} `{Clock W} : Type :=
  { dview : W -> DeviceView;
    if_number : If W -> Z;
    requests (i : If W) :: Transport.UsbLaws W (H := interface_of i);
    open_law i w : dview (snd (open_device i w)) = dview w;
    active_law d w :
      match active_configuration d w with
      | (Backend.ok v, w') => active (dview w) = Some v /\ dview w' = dview w
      | (Backend.err _, w') => dview w' = dview w
      end;
    set_configuration_law d v w :
      match set_configuration d v w with
      | (Backend.ok _, w') => active (dview w') = Some v /\ alts (dview w') = ∅
      | (Backend.err _, _) => True
      end;
    claim_law d n w :
      match claim_interface d n w with
      | (Backend.ok i, w') => if_number i = n /\
          dview w' = mkView (active (dview w)) ({[n]} ∪ claimed (dview w)) (alts (dview w))
      | (Backend.err _, _) => True
      end;
    alt_law i n w :
      match set_alt_setting i n w with
      | (Backend.ok _, w') =>
          dview w' = mkView (active (dview w)) (claimed (dview w)) (<[if_number i := n]> (alts (dview w)))
      | (Backend.err _, _) => True
      end;
    open_in_law i a ty w : dview (snd (open_in i a ty w)) = dview w;
    open_out_law i a ty w : dview (snd (open_out i a ty w)) = dview w;
    out_quiet i s d t w : dview (snd (if_control_out i s d t w)) = dview w;
    in_quiet i s n t w : dview (snd (if_control_in i s n t w)) = dview w;
    submit_quiet n w : dview (Backend.in_submit n w) = dview w;
    wait_quiet t w : dview (snd (Backend.in_wait t w)) = dview w;
    sleep_quiet t w : dview (Transport.sleep t w) = dview w;
    clock_quiet w : dview (snd (now w)) = dview w }.

Section open.
Context {W : Type} `{OpenLaws W} `{ShowRndis}.

(** A configuration that was already active keeps its settings; otherwise they are
    the default ones. *)
Lemma select_view d v (w : W) :
  match select_configuration d v w with
  | (Ok _, w') => active (dview w') = Some v /\
      (alts (dview w') = ∅ \/ active (dview w) = Some v /\ alts (dview w') = alts (dview w))
  | (Err _, _) => True
  | (Panic, _) => False
  end.
Proof.
  unfold select_configuration. pose proof (active_law d w) as Ha.
  assert (Hset : forall w1, match (match set_configuration d v w1 with
      | (Backend.err e, w) => (Err (usb_error "selecting the RNDIS configuration" e), w)
      | (Backend.ok _, w) => (Ok tt, w)
      end) with
    | (Ok _, w') => active (dview w') = Some v /\
        (alts (dview w') = ∅ \/ active (dview w) = Some v /\ alts (dview w') = alts (dview w))
    | (Err _, _) => True
    | (Panic, _) => False
    end).
  { intros w1. pose proof (set_configuration_law d v w1) as Hs.
    destruct (set_configuration d v w1) as [[u|e] w2]; [|done]. destruct Hs. split; [done|by left]. }
  destruct (active_configuration d w) as [[a|e] w1]; [|apply Hset].
  destruct (Z.eqb_spec a v) as [->|]; [|apply Hset]. destruct Ha as [Ha ->]. split; [done|by right].
Qed.

(** The control transport leaves the device set up as it is. *)
Lemma transport_quiet (i : If W) v :
  let _ : Backend.UsbInterface W := interface_of i in
  Control.transport_keeps (fun t : Transport.UsbControlTransport W => dview (Transport.world t) = v).
Proof.
  intros iface. apply (Transport.usb_keeps (fun w => dview w = v)). intros w <-.
  split; [|split; [|split; [|split; [|split]]]]; intros.
  - apply out_quiet.
  - apply in_quiet.
  - apply submit_quiet.
  - apply wait_quiet.
  - apply sleep_quiet.
  - apply clock_quiet.
Qed.

Lemma submit_notify_quiet n (w : W) : dview (Transport.submit_notify n w) = dview w.
Proof. revert w. induction n as [|n IH]; intros w; [done|]. cbn. by rewrite IH, submit_quiet. Qed.

Lemma new_quiet i (w : W) n a :
  match Transport.new (open_interrupt i) w n a with
  | (Ok t, w') => dview (Transport.world t) = dview w
  | (Err _, _) => True
  | (Panic, _) => False
  end.
Proof.
  unfold Transport.new, open_interrupt. destruct a as [a|]; [|done].
  pose proof (open_in_law i a Interrupt w) as Ho.
  destruct (open_in i a Interrupt w) as [[ep|e] w1]; [|done].
  cbn -[Transport.submit_notify] in *. by rewrite submit_notify_quiet.
Qed.

(** Fuel for the transactions of a bring-up over any interface. *)
Definition open_fuel (fuel : nat) : Prop :=
  forall i : If W, Control.fuel_ok (H1 := Transport.usb_transport_laws (H := interface_of i)) fuel.

(** The data interface's setting: the function's, and if that is the default one,
    which is not asked for, the one it had when its configuration was active
    before. *)
Definition data_setting (f : Matcher.Matcher.RndisFunction) (before after : DeviceView) : Prop :=
  setting after (Matcher.Matcher.data_interface f) = Matcher.Matcher.data_alt_setting f \/
  Matcher.Matcher.data_alt_setting f = 0 /\
  active before = Some (Matcher.Matcher.config_value f) /\
  setting after (Matcher.Matcher.data_interface f) = setting before (Matcher.Matcher.data_interface f).

(** What an open device is, the device being as in [v] before. *)
Definition ready (v : DeviceView) (f : Matcher.Matcher.RndisFunction) (d : RndisDevice (W := W)) (w : W) : Prop :=
  Control.session_ok (session d) /\ Control.link (control d) <> Control.Unknown /\
  active (dview w) = Some (Matcher.Matcher.config_value f) /\
  Matcher.Matcher.control_interface f ∈ claimed (dview w) /\
  Matcher.Matcher.data_interface f ∈ claimed (dview w) /\
  data_setting f v (dview w).

Lemma bring_up_link_spec fuel d ci di f (t : Transport.UsbControlTransport W) :
  open_fuel fuel ->
  exists o w', bring_up_link fuel d ci di f t = Some (o, w') /\
    match o with
    | Ok x => Control.session_ok (session x) /\ Control.link (control x) <> Control.Unknown /\
        dview w' = dview (Transport.world t)
    | Err _ => True
    | Panic => False
    end.
Proof.
  intros Hf. pose (iface := interface_of ci).
  pose proof (Control.runs_bring_up (H1 := Transport.usb_transport_laws (H := iface)) fuel
    (Control.new t) (Hf ci)) as (o & r & E & _ & Ho).
  pose proof (Control.keeps_bring_up _ (transport_quiet ci (dview (Transport.world t))) fuel
    (Control.new t) o r eq_refl E) as Hv.
  unfold bring_up_link. fold iface. unfold mbind, option_bind. rewrite E.
  destruct o as [s|e|]; [|by eexists _, _|done].
  pose proof (open_in_law di (Matcher.Matcher.bulk_in f) Bulk
    (Transport.world (Control.transport r))) as Hi.
  destruct (open_in di _ _ _) as [[bin|e] w1]; cbn [snd] in Hi; [|by eexists _, _].
  pose proof (open_out_law di (Matcher.Matcher.bulk_out f) Bulk w1) as Hout.
  destruct (open_out di _ _ _) as [[bout|e] w2]; cbn [snd] in Hout; [|by eexists _, _].
  eexists _, _. split; [done|]. cbn. destruct Ho as [Hs Hl]. split; [done|]. split; [done|].
  by rewrite Hout, Hi.
Qed.

(** Opening always comes to an end, and not by a panic. *)
Lemma open_ends fuel info f (w : W) :
  open_fuel fuel -> exists o w', open fuel info f w = Some (o, w') /\ o <> Panic.
Proof.
  intros Hf. unfold open. destruct (open_device (id info) w) as [[d|e] w1]; [|by eexists _, _].
  pose proof (select_view d (Matcher.Matcher.config_value f) w1) as Hs.
  destruct (select_configuration d _ w1) as [[u|e|] w2]; [|by eexists _, _|done].
  destruct (claim_interface d _ w2) as [[ci|e] w3]; [|by eexists _, _].
  destruct (claim_interface d _ w3) as [[di|e] w4]; [|by eexists _, _].
  destruct (if negb _ then _ else _) as [[x|e] w5]; [|by eexists _, _].
  pose proof (new_quiet ci w5 (Matcher.Matcher.control_interface f)
    (Matcher.Matcher.interrupt_in f)) as Ht.
  destruct (Transport.new _ w5 _ _) as [[t|e|] w6]; [|by eexists _, _|done].
  destruct (bring_up_link_spec fuel d ci di f t Hf) as (o & w' & E & Ho).
  exists o, w'. split; [done|]. by destruct o.
Qed.

(** C17. Opening a phone finishes without a panic, whatever the device does; and a
    device it returns is ready: the function's configuration is the active one,
    both its interfaces are claimed, the session is sound and the link's state is
    known. The data interface is in the setting the function names, with one
    exception: setting zero is not asked for, so that when the configuration was
    active already, an interface that something else had left in another setting
    stays in it. *)
Theorem open_ready fuel info f (w : W) :
  open_fuel fuel ->
  exists o w', open fuel info f w = Some (o, w') /\
    match o with
    | Ok d => ready (dview w) f d w'
    | Err _ => True
    | Panic => False
    end.
Proof.
  intros Hf. unfold open. pose proof (open_law (id info) w) as Ho.
  destruct (open_device (id info) w) as [[d|e] w1]; cbn [snd] in Ho; [|by eexists _, _].
  pose proof (select_view d (Matcher.Matcher.config_value f) w1) as Hs.
  destruct (select_configuration d _ w1) as [[u|e|] w2]; [|by eexists _, _|done].
  rewrite Ho in Hs. destruct Hs as [Hact Hs].
  pose proof (claim_law d (Matcher.Matcher.control_interface f) w2) as Hc.
  destruct (claim_interface d _ w2) as [[ci|e] w3]; [|by eexists _, _]. destruct Hc as [_ Hc].
  pose proof (claim_law d (Matcher.Matcher.data_interface f) w3) as Hd.
  destruct (claim_interface d _ w3) as [[di|e] w4]; [|by eexists _, _]. destruct Hd as [Hn Hd].
  rewrite Hc in Hd. cbn in Hd.
  pose proof (alt_law di (Matcher.Matcher.data_alt_setting f) w4) as Ha.
  set (alt := if negb _ then _ else _).
  assert (Halt : match alt with
    | (Backend.ok _, w5) => active (dview w5) = active (dview w4) /\
        claimed (dview w5) = claimed (dview w4) /\ data_setting f (dview w) (dview w5)
    | (Backend.err _, _) => True
    end).
  { unfold alt. destruct (Z.eqb_spec (Matcher.Matcher.data_alt_setting f) 0) as [E0|E0]; cbn [negb].
    - split; [done|]. split; [done|]. unfold data_setting, setting. rewrite Hd. cbn.
      destruct Hs as [-> | [Hwas ->]]; [left; by rewrite lookup_empty|by right].
    - destruct (set_alt_setting di _ w4) as [[x|e] w5]; [|done]. rewrite Ha. cbn.
      split; [done|]. split; [done|]. left. unfold setting. cbn. by rewrite Hn, lookup_insert_eq. }
  destruct alt as [[x|e] w5]; [|by eexists _, _].
  pose proof (new_quiet ci w5 (Matcher.Matcher.control_interface f)
    (Matcher.Matcher.interrupt_in f)) as Ht.
  destruct (Transport.new _ w5 _ _) as [[t|e|] w6]; [|by eexists _, _|done].
  destruct (bring_up_link_spec fuel d ci di f t Hf) as (o & w' & E & Ho').
  exists o, w'. split; [done|]. destruct o as [dev|e|]; [|done|done].
  destruct Ho' as (Hso & Hl & Hv). unfold ready. rewrite Hv, Ht.
  destruct Halt as (-> & -> & Halt). rewrite Hd. cbn.
  do 3 (split; [done|]). split; [|split; [|exact Halt]]; rewrite !elem_of_union, !elem_of_singleton; auto.
Qed.

End open.

(** ** A concrete phone

    A device with the Android configuration of the matcher's tests and the
    scripted RNDIS function of the control channel's, a millisecond a control
    read; the interrupt endpoint announces a response at every read. *)
Record Phone : Type := mkPhone
  { function : MockDevice.MockDevice.MockDevice; reads : nat; view_of : DeviceView }.

Definition phone_info : DeviceInfo :=
  mkDeviceInfo (mkDeviceId 7) 0x2717 0xFF80 (Some "Xiaomi"%string) (Some "Redmi"%string).

Definition later (ms : Z) (w : Phone) : Phone :=
  mkPhone (MockDevice.MockDevice.set_time
             (MockDevice.MockDevice.time (function w) + ms) (function w)) (reads w) (view_of w).

Definition with_view (f : DeviceView -> DeviceView) (w : Phone) : Phone :=
  mkPhone (function w) (reads w) (f (view_of w)).

Definition phone_out (msg : list Z) (w : Phone) : USB unit * Phone :=
  let '(r, d) := MockDevice.MockDevice.mock_send msg (function w) in
  (match r with Ok _ => Backend.ok tt | _ => Backend.err Backend.Stall end,
   mkPhone d (reads w) (view_of w)).

Definition phone_reply (w : Phone) : USB (list Z) * Phone :=
  let '(r, d) := MockDevice.MockDevice.mock_receive (function w) in
  (match r with Ok m => Backend.ok (map as_u8 m) | _ => Backend.err Backend.Stall end,
   later (from_millis 1) (mkPhone d (reads w) (view_of w))).

#[export] Instance phone_backend : UsbBackend Phone :=
  { Dev := unit; If := Z; Ep := Z;
    list_devices w := (Backend.ok [phone_info], w);
    open_device _ w := (Backend.ok tt, w);
    configurations _ w := (Backend.ok [Matcher.Matcher.android_config], w);
    active_configuration _ w :=
      (match active (view_of w) with Some v => Backend.ok v | None => Backend.err Backend.NotFound end, w);
    set_configuration _ v w := (Backend.ok tt, with_view (fun _ => mkView (Some v) ∅ ∅) w);
    claim_interface _ n w :=
      (Backend.ok n, with_view (fun v => mkView (active v) ({[n]} ∪ claimed v) (alts v)) w);
    set_alt_setting i n w :=
      (Backend.ok tt, with_view (fun v => mkView (active v) (claimed v) (<[i := n]> (alts v))) w);
    if_control_out _ _ msg _ w := phone_out msg w;
    if_control_in _ _ _ _ w := phone_reply w;
    open_in _ a _ w := (Backend.ok a, w);
    open_out _ a _ w := (Backend.ok a, w) }.

#[export] Instance phone_in : Backend.InEndpoint Phone :=
  { in_submit n w := mkPhone (function w) (S (reads w)) (view_of w);
    in_wait t w :=
      match reads w with
      | S n => (Some (Backend.ok [1; 0; 0; 0; 0; 0; 0; 0]), mkPhone (function w) n (view_of w))
      | O => (None, later (Z.max t 0) w)
      end;
    in_pending w := Z.of_nat (reads w);
    in_cancel_all w := w;
    in_clear_halt w := (Backend.ok tt, w) }.

#[export] Instance phone_in_laws : Backend.InLaws Phone.
Proof. split; intros; cbn; try lia. destruct (reads w) eqn:E; cbn; lia. Qed.

#[export] Instance phone_sleep : Transport.Sleep Phone := fun t => later (Z.max t 0).

#[export] Instance phone_clock : Clock Phone := fun w =>
  (MockDevice.MockDevice.time (function w), w).

#[local] Instance phone_text : ShowRndis := fun _ => "RNDIS error"%string.

Lemma phone_out_keeps msg (w : Phone) :
  MockDevice.MockDevice.time (function (snd (phone_out msg w))) =
    MockDevice.MockDevice.time (function w) /\
  reads (snd (phone_out msg w)) = reads w /\ view_of (snd (phone_out msg w)) = view_of w.
Proof.
  unfold phone_out, MockDevice.MockDevice.mock_send.
  cbn zeta. destruct (MockDevice.MockDevice.reply_to _ msg); cbn. all: by repeat split.
Qed.

Lemma phone_reply_keeps (w : Phone) :
  MockDevice.MockDevice.time (function (snd (phone_reply w))) =
    MockDevice.MockDevice.time (function w) + from_millis 1 /\
  reads (snd (phone_reply w)) = reads w /\ view_of (snd (phone_reply w)) = view_of w /\
  match fst (phone_reply w) with Backend.ok d => bytes_ok d | Backend.err _ => True end.
Proof.
  unfold phone_reply, MockDevice.MockDevice.mock_receive.
  assert (Hb : forall m, bytes_ok (map as_u8 m)).
  { intros m. apply Forall_map, Forall_true. intros x. apply is_u8_mod. }
  destruct (MockDevice.MockDevice.preloaded _); [destruct (MockDevice.MockDevice.replies _)|];
    cbn -[from_millis]; repeat split; (done || apply Hb || apply List.Forall_nil).
Qed.

#[export] Instance phone_laws : OpenLaws Phone.
Proof.
  refine {| dview := view_of; if_number := fun i : If Phone => i |}; try done.
  - intros i. refine (Transport.Build_UsbLaws Phone _ _ _ _ _
      (fun w => MockDevice.MockDevice.time (function w)) (from_millis 1) _ _ _ _ _ _ _); intros;
      try (done || by split).
    + cbn. destruct (phone_out_keeps d w) as (-> & -> & _). by split.
    + cbn -[from_millis]. destruct (phone_reply_keeps w) as (-> & -> & _ & Hb). by split.
    + cbn. destruct (reads w); cbn; lia.
    + cbn. lia.
  - intros d w. cbn. by destruct (active (view_of w)) eqn:E.
  - intros. apply (phone_out_keeps d w).
  - intros. apply (phone_reply_keeps w).
  - intros t w. cbn. by destruct (reads w).
Defined.

Definition phone : Phone :=
  mkPhone MockDevice.MockDevice.sample_device 0 (mkView (Some 2) ∅ ∅).

Definition phone_function : Matcher.Matcher.RndisFunction :=
  Matcher.Matcher.mkRndis 1 0 1 0 (Some 0x81) 0x82 0x02 512.

Lemma open_ready_witness :
  exists d w', open 5001 phone_info phone_function phone = Some (Ok d, w') /\
    ready (view_of phone) phone_function d w' /\ bulk_in d = 0x82 /\
    setting (view_of w') 1 = 0.
Proof.
  destruct (open_ready 5001 phone_info phone_function phone) as (o & w' & E & Ho).
  - intros i. by vm_compute.
  - assert (Es : match open 5001 phone_info phone_function phone with
      | Some (Ok d, w') => bulk_in d = 0x82 /\ setting (view_of w') 1 = 0
      | _ => False
      end) by (vm_compute; split; reflexivity).
    rewrite E in Es. destruct o as [d|e|]; [|destruct Es|destruct Es].
    exists d, w'. split; [exact E|]. split; [exact Ho|exact Es].
Defined.

Lemma find_first_tethering_witness :
  exists scan infos w1,
    fst (find (P := release_profile) phone) = Ok scan /\
    list_devices phone = (Backend.ok infos, w1) /\
    rndis scan = Some (phone_info, phone_function).
Proof.
  pose proof (find_first_tethering (P := release_profile) phone) as Hf.
  assert (E : fst (find (P := release_profile) phone) =
    Ok (mkScan (Some (phone_info, phone_function)) [])) by (by vm_compute).
  rewrite E in Hf. destruct Hf as (infos & w1 & El & _).
  eexists _, infos, w1. split; [exact E|]. split; [exact El|reflexivity].
Defined.

End Device.
