(* ===== verification/Daemon.v ===== *)
(** * The daemon

    [src/daemon.rs]: hold the tunnel up while the phone is attached, restore the
    system when it goes. The session owns the control channel, whose transport
    owns the world; the link's threads are operations of the world, and the
    packets the receive thread hands to the sink arrive while the session
    sleeps. *)
From Stdlib Require Import ZArith Lia.
From stdpp Require Import base numbers list strings gmap pretty.
From S2P Require Import Prelude Ethernet Dhcp Wire Control Matcher Backend Tx Rx Transport.
From S2P Require Import Host Utun Net Dns Tunnel Status Device.

Open Scope Z_scope.

Module Daemon.

Definition KEEPALIVE_INTERVAL : Z := from_secs 10.

Definition POLL_INTERVAL : Z := from_millis 100.

(** Pause before retrying after a failed session. *)
Definition RETRY_DELAY : Z := from_secs 2.

(** How long to block waiting for a hotplug event between scans. *)
Definition HOTPLUG_WAIT : Z := from_secs 2.

(** [signals::requested] *)
Class Signals (W : Type) : Type := requested : W -> bool.

(** The link's threads, seen from the session: starting them, the next event,
    the packets the sink was given, the frames sent, and stopping them. *)
Class LinkThreads (W : Type) : Type :=
  { link_start : MacAddr -> Tx.Tx.TxLimits -> Z -> W -> W;
    try_next_event : W -> option Rx.Rx.LinkEvent * W;
    sink_packets : W -> list (list Z) * W;
    sent_count : W -> Z;
    link_shutdown : W -> W }.

Record Session (W : Type) : Type := mkSession
  { control : Control.Control.Rndis (Transport.Transport.UsbControlTransport W);
    sink : Rx.Sink.SwitchableSink Utun.Utun.Utun;
    tunnel : option Tunnel.Tunnel.Tunnel;
    status : option Status.Status.Status;
    next_keepalive : Z }.

Arguments mkSession {W} _ _ _ _ _.
Arguments control {W} _.
Arguments sink {W} _.
Arguments tunnel {W} _.
Arguments status {W} _.
Arguments next_keepalive {W} _.

Section session.
Context {W : Type} `{Backend.Backend.UsbInterface W} `{Backend.Backend.InEndpoint W}
  `{Transport.Transport.Sleep W} `{Clock W} `{Utun.Utun.Libc W} `{Net.Net.Runner W}
  `{Dns.Dns.DynamicStore W} `{Host.Text} `{Device.Device.ShowRndis} `{Signals W} `{LinkThreads W}.

#[local] Existing Instances Transport.Transport.usb_transport Transport.Transport.usb_clock.

Definition world (s : Session W) : W := Transport.Transport.world (Control.Control.transport (control s)).

Definition on_world (f : W -> W) (s : Session W) : Session W :=
  let c := control s in
  mkSession
    (Control.Control.mkRndis
       (Transport.Transport.set_world (f (world s)) (Control.Control.transport c))
       (Control.Control.next_request_id c) (Control.Control.link c))
    (sink s) (tunnel s) (status s) (next_keepalive s).

Definition set_control c (s : Session W) : Session W :=
  mkSession c (sink s) (tunnel s) (status s) (next_keepalive s).

Definition set_sink k (s : Session W) : Session W :=
  mkSession (control s) k (tunnel s) (status s) (next_keepalive s).

Definition set_tunnel t (s : Session W) : Session W :=
  mkSession (control s) (sink s) t (status s) (next_keepalive s).

Definition set_next t (s : Session W) : Session W :=
  mkSession (control s) (sink s) (tunnel s) (status s) t.

(** [if let Some(s) = status { s.update(f) }] *)
Definition update f (s : Session W) : Session W :=
  mkSession (control s) (sink s) (tunnel s) (f <$> status s) (next_keepalive s).

(** [Instant::now()] *)
Definition read_clock (s : Session W) : Z * Session W :=
  let '(n, w) := now (world s) in (n, on_world (fun _ => w) s).

(** One packet from the receive thread, through the sink. *)
Definition deliver (packet : list Z) (s : Session W) : Session W :=
  let s :=
    match Rx.Sink.inner (sink s) with
    | Some u => on_world (Tunnel.Tunnel.utun_deliver u packet) s
    | None => s
    end in
  set_sink (Rx.Sink.deliver (fun _ u => u) packet (sink s)) s.

(** [std::thread::sleep(POLL_INTERVAL)] *)
Definition doze (s : Session W) : Session W :=
  let s := on_world (Transport.Transport.sleep POLL_INTERVAL) s in
  let '(packets, w) := sink_packets (world s) in
  foldl (fun s p => deliver p s) (on_world (fun _ => w) s) packets.

(** Whether the sink still holds the tunnel's utun. *)
Definition shared (t : Tunnel.Tunnel.Tunnel) (s : Session W) : bool :=
  match Rx.Sink.inner (sink s) with
  | Some u => Utun.Utun.fd u =? Utun.Utun.fd (Tunnel.Tunnel.utun t)
  | None => false
  end.

(** [sink.detach()]; the sink's utun closes if no tunnel holds it any more. *)
Definition detach (s : Session W) : Session W :=
  let s' := set_sink (Rx.Sink.detach (sink s)) s in
  match Rx.Sink.inner (sink s), tunnel s with
  | Some u, None => on_world (Utun.Utun.close (Utun.Utun.fd u)) s'
  | _, _ => s'
  end.

(** [tunnel = None], [drop(tunnel)] *)
Definition drop_tunnel (s : Session W) : Session W :=
  match tunnel s with
  | Some t => set_tunnel None (on_world (Tunnel.Tunnel.drop_tunnel (shared t s) t) s)
  | None => s
  end.

(** What a turn of the loop does next. *)
Inductive turn : Type :=
| Continue (s : Session W)
| Break (r : outcome Host.Host.Error unit) (s : Session W).

(** The tunnel for a lease with another address. *)
Definition replace_tunnel (mac : MacAddr) (lease : Dhcp.Dhcp.Lease) (s : Session W) : turn :=
  let s := drop_tunnel (detach s) in
  let '(r, w) := Tunnel.Tunnel.up mac lease (world s) in
  let s := on_world (fun _ => w) s in
  match r with
  | Host.Host.ok (t, _) =>
      let s := set_sink (Rx.Sink.attach (Tunnel.Tunnel.utun t) (sink s)) s in
      let s := update (fun st => Status.Status.mkStatus (Status.Status.device st) true
        (Some (Status.Status.bytes_of (Utun.Utun.name (Tunnel.Tunnel.utun t))))
        (Some (Dhcp.Dhcp.ip lease)) (Dhcp.Dhcp.router lease) (Dhcp.Dhcp.dns lease)
        (Status.Status.packets_in st) (Status.Status.packets_out st)) s in
      Continue (set_tunnel (Some t) s)
  | Host.Host.err e => Break (Err e) s
  end.

(** [match link::try_next_event(&link.events)] *)
Definition handle_event (mac : MacAddr) (s : Session W) : turn :=
  let '(event, w) := try_next_event (world s) in
  let s := on_world (fun _ => w) s in
  match event with
  | Some (Rx.Rx.Bound lease) =>
      let renewed :=
        match tunnel s with
        | Some t => bool_decide (Dhcp.Dhcp.ip (Tunnel.Tunnel.lease t) = Dhcp.Dhcp.ip lease)
        | None => false
        end in
      if renewed then Continue s else replace_tunnel mac lease s
  | Some (Rx.Rx.Failed e) => Break (Err (Host.Host.message ("link failed: " +:+ e))) s
  | None => Continue s
  end.

(** The keepalive, when it is time, and the counters it publishes; the rates it
    logs are left out. *)
Definition keep_alive (fuel : nat) (s : Session W) : option turn :=
  let '(n, s) := read_clock s in
  if n <? next_keepalive s then Some (Continue s) else
  let '(n, s) := read_clock s in
  let s := set_next (n + KEEPALIVE_INTERVAL) s in
  r ← Control.Control.keepalive fuel (control s);
  let '(r, c) := r in
  let s := set_control c s in
  match r with
  | Err e => Some (Break (Err (Host.Host.message ("keepalive failed: " +:+
                                 Device.Device.show_rndis e))) s)
  | Panic => Some (Break Panic s)
  | Ok _ =>
      Some (Continue (update (fun st => Status.Status.mkStatus (Status.Status.device st)
        (Status.Status.link_up st) (Status.Status.interface st) (Status.Status.address st)
        (Status.Status.gateway st) (Status.Status.dns st)
        (Rx.Sink.delivered (sink s)) (sent_count (world s))) s))
  end.

(** The body of the loop. *)
Definition session_turn (fuel : nat) (mac : MacAddr) (s : Session W) : option turn :=
  if requested (world s) then Some (Break (Ok tt) s) else
  let s := doze s in
  match handle_event mac s with
  | Break r s => Some (Break r s)
  | Continue s => keep_alive fuel s
  end.

(** Stop delivering, restore routes and DNS, then stop the link threads: the
    error of [halt] is ignored, a panic of it is not. *)
Definition finish (r : outcome Host.Host.Error unit) (s : Session W) :
    option (outcome Host.Host.Error unit * Session W) :=
  let s := drop_tunnel (detach s) in
  h ← Control.Control.halt (control s);
  match h with
  | (Panic, c) => Some (Panic, set_control c s)
  | (_, c) => Some (r, on_world link_shutdown (set_control c s))
  end.

(** [Running] when [n] turns were not enough to end the session. *)
Inductive ending : Type :=
| Running
| Ended (r : outcome Host.Host.Error unit).

Fixpoint session_run (n fuel : nat) (mac : MacAddr) (s : Session W) : option (ending * Session W) :=
  match n with
  | O => Some (Running, s)
  | S n =>
      t ← session_turn fuel mac s;
      match t with
      | Continue s => session_run n fuel mac s
      | Break r s => '(r, s) ← finish r s; Some (Ended r, s)
      end
  end.

End session.

Arguments turn W : clear implicits.

(** ** The sessions of the daemon *)

Section daemon.
Context {P : Profile} {W : Type} `{Device.Device.UsbBackend W} `{Backend.Backend.InEndpoint W}
  `{Transport.Transport.Sleep W} `{Clock W} `{Utun.Utun.Libc W} `{Net.Net.Runner W}
  `{Dns.Dns.DynamicStore W} `{Host.Text} `{Device.Device.ShowRndis} `{Signals W} `{LinkThreads W}
  `{Device.Device.Hotplug W}.

(** [MacAddr(device.session.host_mac)] *)
Definition session_mac (s : Control.Control.Session) : MacAddr :=
  let b := Control.Control.host_mac s in
  Mac (nthZ b 0) (nthZ b 1) (nthZ b 2) (nthZ b 3) (nthZ b 4) (nthZ b 5).

Definition session_limits (s : Control.Control.Session) : Tx.Tx.TxLimits :=
  Tx.Tx.mkLimits (Control.Control.device_max_transfer_size s)
    (Control.Control.s_max_packets_per_transfer s) (Control.Control.s_packet_alignment s).

(** Hold one phone's tunnel up for at most [n] turns. *)
Definition run_session (n fuel : nat) (info : Matcher.Descriptor.DeviceInfo)
    (f : Matcher.Matcher.RndisFunction) (st : option Status.Status.Status) (w : W) :
    option (ending * option Status.Status.Status * W) :=
  r ← Device.Device.open fuel info f w;
  let '(r, w) := r in
  match r with
  | Err e => Some (Ended (Err e), st, w)
  | Panic => Some (Ended Panic, st, w)
  | Ok d =>
      let _ : Backend.Backend.UsbInterface W :=
        Device.Device.interface_of (Device.Device.control_handle d) in
      let mac := session_mac (Device.Device.session d) in
      let s := mkSession (Device.Device.control d) (Rx.Sink.mkSink None 0 0 0) None st 0 in
      let s := on_world (link_start mac (session_limits (Device.Device.session d))
                 Control.Control.HOST_MAX_TRANSFER_SIZE) s in
      let '(n0, s) := read_clock s in
      r ← session_run n fuel mac (set_next (n0 + KEEPALIVE_INTERVAL) s);
      let '(e, s) := r in
      Some (e, status s, world s)
  end.

(** Name the devices that are attached without an RNDIS function, once per
    change: what is logged, and what is remembered as reported. *)
Definition report_idle (seen reported : list string) : list string * list string :=
  if bool_decide (reported = seen) then ([], reported)
  else
    (map (fun label =>
       label +:+ " is attached but not tethering; enable USB tethering on the phone") seen, seen).

(** Block until something is plugged in, or the wait elapses. *)
Definition wait_for_attach (o : option (Device.Device.Watch W)) (w : W) : W :=
  match o with
  | Some h => snd (Device.Device.next_event h HOTPLUG_WAIT w)
  | None => Transport.Transport.sleep HOTPLUG_WAIT w
  end.

(** The daemon between sessions. *)
Record State : Type := mkState
  { d_status : option Status.Status.Status; d_watch : option (Device.Device.Watch W);
    reported : list string; d_world : W }.

(** The body of [while !signals::requested()]; [None] when the session in it
    did not end within [n] turns. *)
Definition daemon_turn (n fuel : nat) (s : State) : option (outcome Host.Host.Error State) :=
  match Device.Device.find (d_world s) with
  | (Ok scan, w) =>
      match Device.Device.rndis scan with
      | Some (info, f) =>
          let st := (fun st => Status.Status.mkStatus
            (Some (Status.Status.bytes_of (Matcher.Descriptor.label info)))
            (Status.Status.link_up st) (Status.Status.interface st) (Status.Status.address st)
            (Status.Status.gateway st) (Status.Status.dns st) (Status.Status.packets_in st)
            (Status.Status.packets_out st)) <$> d_status s in
          r ← run_session n fuel info f st w;
          let '(e, st, w) := r in
          match e with
          | Running => None
          | Ended Panic => Some Panic
          | Ended _ =>
              let st := (fun _ => Status.Status.default_status) <$> st in
              let w := if negb (requested w) then Transport.Transport.sleep RETRY_DELAY w else w in
              Some (Ok (mkState st (d_watch s) [] w))
          end
      | None =>
          let '(_, reported) := report_idle (Device.Device.idle scan) (reported s) in
          Some (Ok (mkState (d_status s) (d_watch s) reported (wait_for_attach (d_watch s) w)))
      end
  | (Err _, w) =>
      Some (Ok (mkState (d_status s) (d_watch s) (reported s) (Transport.Transport.sleep RETRY_DELAY w)))
  | (Panic, _) => Some Panic
  end.

(** [while !signals::requested()], for at most [turns] turns; [None] when a turn's
    session did not end in time, or the loop did not. *)
Fixpoint daemon_loop (turns n fuel : nat) (s : State) : option (outcome Host.Host.Error State) :=
  match turns with
  | O => None
  | S turns =>
      if requested (d_world s) then Some (Ok s) else
      r ← daemon_turn n fuel s;
      match r with
      | Ok s => daemon_loop turns n fuel s
      | r => Some r
      end
  end.

End daemon.

Arguments State W {_}.
Arguments mkState {W _} _ _ _ _.

(** ** A session restores the system *)

(** Neither the USB operations nor the link's threads touch descriptors, routes
    or the dynamic store. *)
Class SessionLaws (W : Type) `{Backend.Backend.UsbInterface W} `{Backend.Backend.InEndpoint W}
    `{Transport.Transport.Sleep W} `{Clock W} `{LinkThreads W} `{Host.View W} : Prop :=
  { usb_quiet v : Transport.Transport.quiet_world (fun w => Host.view w = v);
    view_event w : Host.view (snd (try_next_event w)) = Host.view w;
    view_packets w : Host.view (snd (sink_packets w)) = Host.view w;
    view_shutdown w : Host.view (link_shutdown w) = Host.view w }.

Section laws.
Context {W : Type} `{Transport.Transport.UsbLaws W} `{Utun.Utun.Libc W} `{Host.View W}
  `{!Utun.Utun.LibcLaws W} `{!Net.Net.Runner W} `{!Net.Net.RunnerLaws W}
  `{!Dns.Dns.DynamicStore W} `{!Dns.Dns.StoreLaws W} `{Host.Text} `{Device.Device.ShowRndis}
  `{Signals W} `{LinkThreads W} `{!SessionLaws W} (base : Host.Sys) (leased : string -> Prop).

#[local] Existing Instances Transport.Transport.usb_transport Transport.Transport.usb_clock
  Transport.Transport.usb_transport_laws.

(** The leases a session is given: by an event, in a turn, and in a run. *)
Definition event_leases (s : Session W) : list Dhcp.Dhcp.Lease :=
  match fst (try_next_event (world s)) with
  | Some (Rx.Rx.Bound l) => [l]
  | _ => []
  end.

Definition turn_leases (s : Session W) : list Dhcp.Dhcp.Lease :=
  if requested (world s) then [] else event_leases (doze s).

Fixpoint run_leases (n fuel : nat) (mac : MacAddr) (s : Session W) : list Dhcp.Dhcp.Lease :=
  match n with
  | O => []
  | S n =>
      turn_leases s ++
      match session_turn fuel mac s with
      | Some (Continue s) => run_leases n fuel mac s
      | _ => []
      end
  end.

(** Their routes are among [leased]. *)
Definition among (ls : list Dhcp.Dhcp.Lease) : Prop :=
  Forall (fun l => leased (Tunnel.Tunnel.local_route l)) ls.

(** [base] again, up to what could not be removed. *)
Abbreviation back := (Host.restored leased Dns.Dns.ours base).

(** The sink delivers into the tunnel that is up, if one is; the system is
    [base] with that tunnel, and dropping it gives [base] back. *)
Definition holds (s : Session W) : Prop :=
  match tunnel s with
  | None => Rx.Sink.inner (sink s) = None /\ back (Host.view (world s))
  | Some t =>
      Rx.Sink.inner (sink s) = Some (Tunnel.Tunnel.utun t) /\
      (exists gw s0, Dhcp.Dhcp.router (Tunnel.Tunnel.lease t) = Some gw /\ back s0 /\
        Host.view (world s) = Tunnel.Tunnel.with_tunnel t gw s0) /\
      forall w2, Host.view w2 = Host.view (world s) ->
        back (Host.view (Tunnel.Tunnel.drop_tunnel false t w2))
  end.

(** No tunnel, nothing attached, the system as it was. *)
Definition restored (s : Session W) : Prop :=
  tunnel s = None /\ Rx.Sink.inner (sink s) = None /\ back (Host.view (world s)).

Lemma holds_ext (s s' : Session W) :
  holds s -> tunnel s' = tunnel s -> Rx.Sink.inner (sink s') = Rx.Sink.inner (sink s) ->
  Host.view (world s') = Host.view (world s) -> holds s'.
Proof. unfold holds. intros Hs -> -> ->. done. Qed.

Lemma restored_holds s : restored s -> holds s.
Proof. intros (Ht & Hi & Hv). unfold holds. by rewrite Ht. Qed.

Lemma read_clock_view (s : Session W) :
  exists w, Host.view w = Host.view (world s) /\ snd (read_clock s) = on_world (fun _ => w) s.
Proof.
  unfold read_clock. destruct (usb_quiet (Host.view (world s)) (world s) eq_refl) as (_ & _ & _ & _ & _ & Hn).
  destruct (now (world s)) as [n w]. by exists w.
Qed.

Lemma holds_world (s : Session W) f :
  holds s -> Host.view (f (world s)) = Host.view (world s) -> holds (on_world f s).
Proof. intros Hs Hv. by apply (holds_ext s). Qed.

Lemma read_clock_holds (s : Session W) : holds s -> holds (snd (read_clock s)).
Proof. intros Hs. destruct (read_clock_view s) as (w & Hv & ->). by apply holds_world. Qed.

Lemma write_view u packet (w : W) : Host.view (Tunnel.Tunnel.utun_deliver u packet w) = Host.view w.
Proof.
  unfold Tunnel.Tunnel.utun_deliver, Utun.Utun.write.
  assert (Hsend : forall family, Host.view (snd
    match Utun.Utun.writev (Utun.Utun.fd u) (to_be32 (as_u32 family) ++ packet) w with
    | (inl e, w) => (Host.Host.err (Host.Host.context "writing to utun" (Host.Host.os e)), w)
    | (inr _, w) => (Host.Host.ok tt, w)
    end) = Host.view w).
  { intros family. pose proof (Utun.Utun.view_writev (Utun.Utun.fd u)
      (to_be32 (as_u32 family) ++ packet) w) as Hv.
    by destruct (Utun.Utun.writev _ _ _) as [[e|n] w']. }
  destruct packet as [|b rest]; [done|]. destruct (Z.shiftr b 4 =? 4); [apply Hsend|].
  destruct (Z.shiftr b 4 =? 6); [apply Hsend|done].
Qed.

Lemma deliver_holds packet (s : Session W) : holds s -> holds (deliver packet s).
Proof.
  intros Hs. unfold deliver. destruct (Rx.Sink.inner (sink s)) as [u|] eqn:Ei.
  - apply (holds_ext s); [done..| |].
    + unfold Rx.Sink.deliver. cbn. by rewrite Ei.
    + apply (write_view u packet).
  - apply (holds_ext s); [done..| |done]. unfold Rx.Sink.deliver. cbn. by rewrite Ei.
Qed.

Lemma doze_holds (s : Session W) : holds s -> holds (doze s).
Proof.
  intros Hs. unfold doze.
  destruct (usb_quiet (Host.view (world s)) (world s) eq_refl) as (_ & _ & _ & _ & Hsl & _).
  apply (holds_world s (Transport.Transport.sleep POLL_INTERVAL)) in Hs; [|apply Hsl].
  set (s1 := on_world _ s) in *. pose proof (view_packets (world s1)) as Hp.
  destruct (sink_packets (world s1)) as [packets w].
  apply (holds_world s1 (fun _ => w)) in Hs; [|done].
  revert Hs. generalize (on_world (fun _ => w) s1) as s2.
  induction packets as [|p packets IH]; intros s2 Hs2; [done|]. cbn. by apply IH, deliver_holds.
Qed.

Lemma detach_drop (s : Session W) : holds s -> restored (drop_tunnel (detach s)).
Proof.
  unfold holds, detach. destruct (tunnel s) as [t|] eqn:Et.
  - intros (Hi & _ & Hd). rewrite Hi. unfold drop_tunnel. cbn. rewrite Et. cbn.
    unfold restored, shared. cbn. split; [done|]. split; [done|]. by apply Hd.
  - intros [Hi Hv]. rewrite Hi. unfold drop_tunnel. cbn. rewrite Et. by split.
Qed.

(** What a turn may leave behind. *)
Definition turn_ok (t : turn W) : Prop :=
  match t with
  | Continue s => holds s
  | Break r s => holds s /\ r <> Panic
  end.

Lemma replace_tunnel_ok mac l (s : Session W) :
  leased (Tunnel.Tunnel.local_route l) -> holds s -> turn_ok (replace_tunnel mac l s).
Proof.
  intros Hl Hs. apply detach_drop in Hs as (Ht & Hi & Hv). unfold replace_tunnel.
  set (s1 := drop_tunnel (detach s)) in *.
  assert (Hback : forall s', Host.restored (Tunnel.Tunnel.displaced l) Dns.Dns.ours
    (Host.view (world s1)) s' -> back s').
  { intros s' Hr. etrans; [exact Hv|]. eapply Host.restored_weaken; [|exact Hr]. by intros d ->. }
  pose proof (Tunnel.Tunnel.up_spec mac l (world s1)) as Hup.
  destruct (Tunnel.Tunnel.up mac l (world s1)) as [[[t rd]|e] w]; specialize (Hup _ _ eq_refl).
  - destruct Hup as (El & gw & b & Hg & Hw & Hd). cbn. split; [done|]. split.
    + exists gw, (Host.del_route b (Tunnel.Tunnel.local_route l) (Host.view (world s1))).
      rewrite El. split; [done|]. split; [|done]. by apply Hback, Host.restored_del_route.
    + intros w2 E2. by apply Hback, Hd.
  - cbn. split; [|done]. unfold holds. cbn. rewrite Ht. split; [done|]. by apply Hback.
Qed.

Lemma handle_event_ok mac (s : Session W) :
  among (event_leases s) -> holds s -> turn_ok (handle_event mac s).
Proof.
  intros Hl Hs. unfold handle_event. pose proof (view_event (world s)) as Hv.
  unfold among, event_leases in Hl.
  destruct (try_next_event (world s)) as [event w]. cbn [fst snd] in *.
  apply (holds_world s (fun _ => w)) in Hs; [|done].
  destruct event as [[l|e]|]; [|by split|done].
  set (renewed := match tunnel _ with Some _ => _ | None => _ end).
  destruct renewed; [done|]. apply replace_tunnel_ok; [by inversion Hl|done].
Qed.

Lemma control_holds (m : Control.Control.M (Transport.Transport.UsbControlTransport W) unit) s o c :
  (forall I, Control.Control.transport_keeps I -> Control.Control.keeps I m) ->
  holds s -> m (control s) = Some (o, c) -> holds (set_control c s).
Proof.
  intros Hm Hs E. apply (holds_ext s); [done..|].
  exact (Hm _ (Transport.Transport.usb_keeps _ (usb_quiet (Host.view (world s)))) _ _ _ eq_refl E).
Qed.

Lemma keep_alive_ok fuel (s : Session W) :
  Control.Control.fuel_ok (T := Transport.Transport.UsbControlTransport W) fuel -> holds s ->
  exists t, keep_alive fuel s = Some t /\ turn_ok t.
Proof.
  intros Hf Hs. unfold keep_alive. apply read_clock_holds in Hs.
  destruct (read_clock s) as [n s1]; cbn [snd] in Hs.
  destruct (n <? next_keepalive s1); [by eexists|].
  apply read_clock_holds in Hs. destruct (read_clock s1) as [n2 s2]; cbn [snd] in Hs.
  set (s3 := set_next _ s2).
  assert (Hs3 : holds s3) by by apply (holds_ext s2).
  destruct (Control.Control.runs_keepalive fuel (control s3) Hf) as (o & c & E & _ & Ho).
  pose proof (control_holds (Control.Control.keepalive fuel) s3 o c
    (fun I HI => Control.Control.keeps_keepalive I HI fuel) Hs3 E) as Hc.
  unfold mbind, option_bind. rewrite E. destruct o as [u|e|]; [| |done]; eexists; (split; [done|]).
  - by apply (holds_ext (set_control c s3)).
  - by split.
Qed.

Lemma session_turn_ok fuel mac (s : Session W) :
  Control.Control.fuel_ok (T := Transport.Transport.UsbControlTransport W) fuel ->
  among (turn_leases s) -> holds s -> exists t, session_turn fuel mac s = Some t /\ turn_ok t.
Proof.
  intros Hf Hl Hs. unfold session_turn, turn_leases in *. destruct (requested (world s)); [by eexists|].
  apply doze_holds in Hs. pose proof (handle_event_ok mac _ Hl Hs) as He.
  destruct (handle_event mac (doze s)) as [s1|r s1]; [by apply keep_alive_ok|].
  by eexists.
Qed.

Lemma finish_restored r (s : Session W) :
  holds s -> exists s', finish r s = Some (r, s') /\ restored s'.
Proof.
  intros Hs. apply detach_drop in Hs. unfold finish. set (s1 := drop_tunnel (detach s)) in *.
  destruct (Control.Control.runs_halt (control s1)) as (o & c & E & _ & Ho).
  pose proof (control_holds Control.Control.halt s1 o c
    (fun I HI => Control.Control.keeps_halt I HI) (restored_holds s1 Hs) E) as Hc.
  destruct Hs as (Ht & Hi & Hv). exists (on_world link_shutdown (set_control c s1)).
  unfold mbind, option_bind. rewrite E. split; [by destruct o|]. split; [done|]. split; [done|].
  cbn. rewrite view_shutdown. unfold holds in Hc. cbn in Hc. rewrite Ht in Hc. by destruct Hc.
Qed.

(** However many turns a session is given, it holds, or has been cleaned up. *)
Lemma session_run_ok n fuel mac (s : Session W) :
  Control.Control.fuel_ok (T := Transport.Transport.UsbControlTransport W) fuel ->
  among (run_leases n fuel mac s) -> holds s ->
  exists e s', session_run n fuel mac s = Some (e, s') /\
    match e with
    | Running => holds s'
    | Ended r => restored s' /\ r <> Panic
    end.
Proof.
  intros Hf. revert s. induction n as [|n IH]; intros s Hl Hs; [by exists Running, s|].
  cbn [session_run run_leases] in *. apply Forall_app in Hl as [Hl1 Hl2].
  destruct (session_turn_ok fuel mac s Hf Hl1 Hs) as (t & E & Ht).
  unfold mbind, option_bind. rewrite E in *.
  destruct t as [s1|r s1]; cbn [turn_ok] in Ht; [by apply IH|].
  destruct Ht as [Ht Hr]. destruct (finish_restored r s1 Ht) as (s' & -> & Hs').
  by exists (Ended r), s'.
Qed.

End laws.

Section session_restores.
Context {W : Type} `{Transport.Transport.UsbLaws W} `{Utun.Utun.Libc W} `{Host.View W}
  `{!Utun.Utun.LibcLaws W} `{!Net.Net.Runner W} `{!Net.Net.RunnerLaws W}
  `{!Dns.Dns.DynamicStore W} `{!Dns.Dns.StoreLaws W} `{Host.Text} `{Device.Device.ShowRndis}
  `{Signals W} `{LinkThreads W} `{!SessionLaws W} (base : Host.Sys).

#[local] Existing Instances Transport.Transport.usb_transport Transport.Transport.usb_clock
  Transport.Transport.usb_transport_laws.

(** The routes for the subnets a run is leased. *)
Definition leased_routes (n fuel : nat) (mac : MacAddr) (s : Session W) (d : string) : Prop :=
  exists l, l ∈ run_leases n fuel mac s /\ d = Tunnel.Tunnel.local_route l.

(** C2. A session leaves the system as it found it, up to the removals the system
    refuses, which the code only logs. From a session without a tunnel on the
    system [base], any number of turns keeps [holds]: the sink delivers into the
    tunnel that is up, and into nothing otherwise, whatever leases, renewals,
    failures, packets and keepalive errors the turns bring. However the session
    ends (by a signal, a failed link, a failed keepalive or a tunnel that cannot be
    set up), it ends without a panic, with the sink detached and no tunnel. The
    same descriptors are open as in [base]; a route or key of ours is left only if
    its removal was refused; every other route and key is as it was, except routes
    for the very subnets this run was leased, which gave way to ours; and when
    there were no such routes and keys in [base], and no removal was refused, the
    system is exactly [base]. A requested shutdown ends the session at the next
    turn. *)
Theorem session_restores n fuel mac (s : Session W) :
  Control.Control.fuel_ok (T := Transport.Transport.UsbControlTransport W) fuel ->
  tunnel s = None -> Rx.Sink.inner (sink s) = None -> Host.view (world s) = base ->
  exists e s', session_run n fuel mac s = Some (e, s') /\
    match e with
    | Running => holds base (leased_routes n fuel mac s) s'
    | Ended r => tunnel s' = None /\ Rx.Sink.inner (sink s') = None /\ r <> Panic /\
        Host.undone (leased_routes n fuel mac s) Dns.Dns.ours base (Host.view (world s'))
    end /\
    (requested (world s) = true -> (0 < n)%nat -> e = Ended (Ok tt)).
Proof.
  intros Hf Ht Hi Hv.
  assert (Hs : holds base (leased_routes n fuel mac s) s).
  { unfold holds. rewrite Ht, Hv. by split. }
  destruct (session_run_ok base (leased_routes n fuel mac s) n fuel mac s Hf) as (e & s' & E & He); [|done|].
  { apply Forall_forall. intros l Hl. by exists l. }
  exists e, s'. split; [done|]. split.
  { destruct e as [|r]; [done|]. destruct He as ((Ht' & Hi' & Hv') & Hr).
    do 3 (split; [done|]). by apply Host.restored_undone. }
  intros Hr Hn. destruct n as [|n]; [lia|]. revert E. cbn [session_run]. unfold session_turn.
  rewrite Hr. cbn. destruct (finish_restored _ _ (Ok tt) s Hs) as (s2 & -> & _). cbn. intros E.
  by simplify_eq.
Qed.

End session_restores.

(** ** A concrete session

    The scripted phone, the concrete host, a list of events to come, and the
    time at which the shutdown signal arrives. *)
Record World : Type := mkWorld
  { phone : Device.Device.Phone; host : Host.Host.Sim; to_come : list Rx.Rx.LinkEvent;
    signal_at : Z }.

Definition on_phone {A} (f : Device.Device.Phone -> A * Device.Device.Phone) (w : World) : A * World :=
  let '(a, p) := f (phone w) in (a, mkWorld p (host w) (to_come w) (signal_at w)).

Definition in_phone (f : Device.Device.Phone -> Device.Device.Phone) (w : World) : World :=
  mkWorld (f (phone w)) (host w) (to_come w) (signal_at w).

Definition on_host {A} (f : Host.Host.Sim -> A * Host.Host.Sim) (w : World) : A * World :=
  let '(a, h) := f (host w) in (a, mkWorld (phone w) h (to_come w) (signal_at w)).

Definition in_host (f : Host.Host.Sim -> Host.Host.Sim) (w : World) : World :=
  mkWorld (phone w) (f (host w)) (to_come w) (signal_at w).

#[local] Existing Instances Device.Device.phone_in Device.Device.phone_in_laws
  Device.Device.phone_sleep Device.Device.phone_clock Device.Device.phone_backend
  Device.Device.phone_laws Device.Device.phone_text Host.Host.sim_view Host.Host.sim_text
  Utun.Utun.sim_libc Utun.Utun.sim_libc_laws Net.Net.sim_runner Net.Net.sim_runner_laws
  Dns.Dns.sim_store Dns.Dns.sim_store_laws.

#[export] Instance world_usb : Backend.Backend.UsbInterface World :=
  {| Backend.Backend.control_out s d t := on_phone (Device.Device.if_control_out (W := Device.Device.Phone) 0 s d t);
     Backend.Backend.control_in s n t := on_phone (Device.Device.if_control_in (W := Device.Device.Phone) 0 s n t) |}.

#[export] Instance world_in : Backend.Backend.InEndpoint World :=
  { in_submit n := in_phone (Backend.Backend.in_submit n);
    in_wait t := on_phone (Backend.Backend.in_wait t);
    in_pending w := Backend.Backend.in_pending (phone w);
    in_cancel_all w := w;
    in_clear_halt w := (Backend.Backend.ok tt, w) }.

#[export] Instance world_in_laws : Backend.Backend.InLaws World.
Proof.
  split; intros; try done; cbn; try lia.
  unfold on_phone. destruct (Device.Device.reads (phone w)) eqn:E; cbn; lia.
Qed.

#[export] Instance world_sleep : Transport.Transport.Sleep World := fun t =>
  in_phone (Transport.Transport.sleep t).

#[export] Instance world_clock : Clock World := on_phone now.

#[export] Instance world_usb_laws : Transport.Transport.UsbLaws World.
Proof.
  pose proof (Device.Device.requests (W := Device.Device.Phone) 0) as L.
  refine (Transport.Transport.Build_UsbLaws World _ _ _ _ _
    (fun w => Transport.Transport.usb_time (UsbLaws := L) (phone w))
    (Transport.Transport.transfer (UsbLaws := L)) (Transport.Transport.transfer_pos (UsbLaws := L))
    _ _ _ _ _ _); intros; cbn; unfold on_phone.
  - pose proof (Transport.Transport.usb_now (UsbLaws := L) (phone w)) as Hn.
    exact Hn.
  - pose proof (Transport.Transport.usb_out (UsbLaws := L) s d t (phone w)) as Ho.
    cbn in Ho. by destruct (Device.Device.phone_out d (phone w)).
  - pose proof (Transport.Transport.usb_in (UsbLaws := L) s n t (phone w)) as Hi.
    cbn in Hi. by destruct (Device.Device.phone_reply (phone w)).
  - apply (Transport.Transport.usb_submit (UsbLaws := L) n (phone w)).
  - pose proof (Transport.Transport.usb_wait (UsbLaws := L) t (phone w)) as Hw.
    cbn in Hw. by destruct (Device.Device.reads (phone w)).
  - apply (Transport.Transport.usb_sleep (UsbLaws := L) t (phone w)).
Defined.

#[export] Instance world_libc : Utun.Utun.Libc World :=
  { EBUSY := 16; EADDRINUSE := 48; AF_INET := 2; AF_INET6 := 30;
    socket := on_host Utun.Utun.socket;
    ctl_id fd := on_host (Utun.Utun.ctl_id fd);
    connect fd id n := on_host (Utun.Utun.connect fd id n);
    ifname fd := on_host (Utun.Utun.ifname fd);
    read_fd fd n := on_host (Utun.Utun.read_fd fd n);
    writev fd d := on_host (Utun.Utun.writev fd d);
    set_rcvtimeo fd s us := on_host (Utun.Utun.set_rcvtimeo fd s us);
    close fd := in_host (Utun.Utun.close fd) }.

#[export] Instance world_runner : Net.Net.Runner World := fun program args =>
  on_host (Net.Net.output program args).

#[export] Instance world_store : Dns.Dns.DynamicStore World :=
  { store_build := on_host Dns.Dns.store_build;
    store_set k v := on_host (Dns.Dns.store_set k v);
    store_remove k := on_host (Dns.Dns.store_remove k) }.

#[export] Instance world_view : Host.View World := fun w => Host.view (host w).

Lemma on_host_eq {A} (f : Host.Host.Sim -> A * Host.Host.Sim) w :
  fst (on_host f w) = fst (f (host w)) /\ host (snd (on_host f w)) = snd (f (host w)).
Proof. unfold on_host. by destruct (f (host w)). Qed.

#[export] Instance world_libc_laws : Utun.Utun.LibcLaws World.
Proof.
  split; intros; unfold Host.view, world_view in *; cbn -[Utun.Utun.socket Utun.Utun.ctl_id
    Utun.Utun.connect Utun.Utun.ifname Utun.Utun.read_fd Utun.Utun.writev Utun.Utun.set_rcvtimeo
    Utun.Utun.close] in *.
  - destruct (on_host_eq Utun.Utun.socket w) as [Hf Hs]. unfold Utun.Utun.socket, world_libc.
    rewrite Hf, Hs. apply Utun.Utun.view_socket.
  - apply Utun.Utun.socket_fresh. unfold Utun.Utun.socket in H at 1. cbn in H. exact H.
  - unfold Utun.Utun.ctl_id, world_libc. rewrite (proj2 (on_host_eq _ w)). apply Utun.Utun.view_ctl_id.
  - unfold Utun.Utun.connect, world_libc. rewrite (proj2 (on_host_eq _ w)). apply Utun.Utun.view_connect.
  - unfold Utun.Utun.ifname, world_libc. rewrite (proj2 (on_host_eq _ w)). apply Utun.Utun.view_ifname.
  - unfold Utun.Utun.read_fd, world_libc. rewrite (proj2 (on_host_eq _ w)). apply Utun.Utun.view_read.
  - unfold Utun.Utun.writev, world_libc. rewrite (proj2 (on_host_eq _ w)). apply Utun.Utun.view_writev.
  - unfold Utun.Utun.set_rcvtimeo, world_libc. rewrite (proj2 (on_host_eq _ w)). apply Utun.Utun.view_rcvtimeo.
  - apply (Utun.Utun.view_close fd (host w)).
  - unfold Utun.Utun.read_fd, world_libc in H. rewrite (proj1 (on_host_eq _ w)) in H.
    by apply (Utun.Utun.read_fits fd n (host w)).
Qed.

#[export] Instance world_runner_laws : Net.Net.RunnerLaws World.
Proof.
  split; intros; unfold Host.view, world_view, Net.Net.output, world_runner;
    rewrite ?(proj2 (on_host_eq _ w)), ?(proj1 (on_host_eq _ w)).
  - apply Net.Net.view_ifconfig.
  - apply Net.Net.view_delete.
  - apply Net.Net.view_add.
Qed.

#[export] Instance world_store_laws : Dns.Dns.StoreLaws World.
Proof.
  split; intros; unfold Host.view, world_view, Dns.Dns.store_build, Dns.Dns.store_set,
    Dns.Dns.store_remove, world_store; rewrite ?(proj2 (on_host_eq _ w)), ?(proj1 (on_host_eq _ w)).
  - apply Dns.Dns.view_build.
  - apply Dns.Dns.view_set.
  - apply Dns.Dns.view_remove.
Qed.

#[export] Instance world_signals : Signals World := fun w => signal_at w <=? fst (now w).

#[export] Instance world_link : LinkThreads World :=
  { link_start _ _ _ w := w;
    try_next_event w :=
      match to_come w with
      | [] => (None, w)
      | e :: rest => (Some e, mkWorld (phone w) (host w) rest (signal_at w))
      end;
    sink_packets w := ([[69; 0; 0; 20]], w);
    sent_count _ := 0;
    link_shutdown w := w }.

#[export] Instance world_session_laws : SessionLaws World.
Proof.
  split; intros; try done; [|cbn; by destruct (to_come w)].
  intros w <-. unfold Host.view, world_view.
  split; [|split; [|split; [|split; [|split]]]]; intros; cbn; unfold on_phone; try done.
  - by destruct (Device.Device.phone_out d (phone w)).
  - by destruct (Device.Device.phone_reply (phone w)).
  - by destruct (Device.Device.reads (phone w)).
Qed.

(** Two leases for the same address, one for another, and a signal after eleven
    seconds: the second tunnel replaces the first, a keepalive is answered, and
    the system ends as it started. *)
Definition other_lease : Dhcp.Dhcp.Lease :=
  Dhcp.Dhcp.mkLease (Ipv4 192 168 43 7) (Ipv4 255 255 255 0) (Some (Ipv4 192 168 43 1)) [] None None
    (Ipv4 192 168 43 1) (from_secs 3600) (from_secs 1800).

Definition sample_world : World :=
  mkWorld Device.Device.phone (Host.Host.sim_start 1 [] [])
    [Rx.Rx.Bound Tunnel.Tunnel.sample_lease; Rx.Rx.Bound Tunnel.Tunnel.sample_lease;
     Rx.Rx.Bound other_lease] (from_secs 11).

Definition sample_session : Session World :=
  mkSession (Control.Control.new (Transport.Transport.mkTransport sample_world 0 true))
    (Rx.Sink.mkSink None 0 0 0) None (Some Status.Status.default_status) (from_secs 10).

Lemma session_restores_witness :
  exists s', session_run 200 5001 (Mac 2 0 0 0 0 1) sample_session = Some (Ended (Ok tt), s') /\
    Host.view (world s') = Host.Host.empty_sys /\
    length (Host.Host.commands (host (world s'))) = 8%nat /\
    length (Host.Host.written (host (world s'))) = 109%nat.
Proof.
  destruct (session_restores Host.Host.empty_sys 200 5001 (Mac 2 0 0 0 0 1) sample_session)
    as (e & s' & E & He & _).
  - by vm_compute.
  - done.
  - done.
  - done.
  - assert (Ee : match session_run 200 5001 (Mac 2 0 0 0 0 1) sample_session with
      | Some (Ended (Ok tt), s') =>
          length (Host.Host.commands (host (world s'))) = 8%nat /\
          length (Host.Host.written (host (world s'))) = 109%nat /\
          Host.Host.stuck (Host.view (world s')) = []
      | _ => False
      end) by (vm_compute; repeat split; reflexivity).
    rewrite E in Ee. destruct e as [|[[]|e|]]; try (destruct Ee; fail).
    exists s'. split; [exact E|]. destruct He as (_ & _ & _ & _ & Hu), Ee as (Hc & Hw & Hst).
    split; [|split; [exact Hc|exact Hw]]. apply Hu; [intros d _; apply not_elem_of_empty|done|exact Hst].
Defined.

End Daemon.
