(* ===== verification/Quiet.v ===== *)
(** * What the operations leave alone

    A property of the world that every primitive operation preserves is preserved
    by the functions built from them: the utun, the routes, the network service and
    the tunnel over the host's operations, the scan, the bring-up and the turns of
    a session over the USB ones. *)
From Stdlib Require Import ZArith Lia.
From stdpp Require Import base numbers list strings gmap pretty.
From S2P Require Import Prelude Dhcp Wire Control Matcher Backend Rx Transport.
From S2P Require Import Host Utun Net Dns Tunnel Status Device Daemon.

Open Scope Z_scope.

Module Quiet.

(** An operation preserves [J]: one that returns a result, and one that does
    not. *)
Definition keeps {W A} (J : W -> Prop) (f : W -> A * W) : Prop := forall w, J w -> J (snd (f w)).

Definition lets {W} (J : W -> Prop) (f : W -> W) : Prop := forall w, J w -> J (f w).

Create HintDb quiet.

Lemma keeps_at {W A} (J : W -> Prop) (f : W -> A * W) w : keeps J f -> J w -> J (snd (f w)).
Proof. intros Hf. apply Hf. Qed.

Lemma lets_at {W} (J : W -> Prop) (f : W -> W) w : lets J f -> J w -> J (f w).
Proof. intros Hf. apply Hf. Qed.

(** Goes through a function's calls: each is known to preserve the property, by
    a hint. *)
Ltac walk :=
  cbn [fst snd];
  first
    [ assumption
    | lazymatch goal with
      | |- ?J (snd (match ?x with _ => _ end)) => branch J x
      | |- ?J (match ?x with _ => _ end) => branch J x
      | |- ?J (snd (?f ?w)) => apply (keeps_at J f w); [solve [eauto with quiet]|walk]
      | |- ?J (?f ?w) => apply (lets_at J f w); [solve [eauto with quiet]|walk]
      end ]
with branch J x :=
  lazymatch type of J with
  | ?W -> Prop =>
      lazymatch type of x with
      | (_ * W)%type =>
          let H := fresh "Hq" in
          assert (H : J (snd x)) by walk; destruct x as [? ?]; cbn [snd] in H; walk
      | _ => destruct x; walk
      end
  end.

(** ** The host *)

Class HostQuiet {W : Type} `{Utun.Utun.Libc W} `{Net.Net.Runner W} `{Dns.Dns.DynamicStore W}
    (J : W -> Prop) : Prop :=
  { q_socket : keeps J Utun.Utun.socket;
    q_ctl_id fd : keeps J (Utun.Utun.ctl_id fd);
    q_connect fd id n : keeps J (Utun.Utun.connect fd id n);
    q_ifname fd : keeps J (Utun.Utun.ifname fd);
    q_writev fd d : keeps J (Utun.Utun.writev fd d);
    q_rcvtimeo fd s us : keeps J (Utun.Utun.set_rcvtimeo fd s us);
    q_close fd : lets J (Utun.Utun.close fd);
    q_output program args : keeps J (Net.Net.output program args);
    q_build : keeps J Dns.Dns.store_build;
    q_set k v : keeps J (Dns.Dns.store_set k v);
    q_remove k : keeps J (Dns.Dns.store_remove k) }.

#[export] Hint Resolve q_socket q_ctl_id q_connect q_ifname q_writev q_rcvtimeo q_close q_output
  q_build q_set q_remove : quiet.

Section host.
Context {W : Type} `{Utun.Utun.Libc W} `{Net.Net.Runner W} `{Dns.Dns.DynamicStore W} `{Host.Text}
  (J : W -> Prop) `{!HostQuiet J}.

Lemma q_interface_name fd : keeps J (Utun.Utun.interface_name fd).
Proof. intros w Hw. unfold Utun.Utun.interface_name. walk. Qed.

#[local] Hint Resolve q_interface_name : quiet.

Lemma q_open_unit unit : keeps J (Utun.Utun.open_unit unit).
Proof. intros w Hw. unfold Utun.Utun.open_unit. walk. Qed.

#[local] Hint Resolve q_open_unit : quiet.

Lemma q_open_from n unit last : keeps J (Utun.Utun.open_from n unit last).
Proof. revert unit last. induction n; intros unit last w Hw; cbn [Utun.Utun.open_from]; walk. Qed.

Lemma q_open : keeps J (Utun.Utun.open).
Proof. apply q_open_from. Qed.

Lemma q_read_timeout u ms : keeps J (Utun.Utun.set_read_timeout u ms).
Proof. intros w Hw. unfold Utun.Utun.set_read_timeout. walk. Qed.

Lemma q_write u packet : keeps J (Utun.Utun.write u packet).
Proof. intros w Hw. unfold Utun.Utun.write. walk. Qed.

Lemma q_run program args : keeps J (Net.Net.run program args).
Proof. intros w Hw. unfold Net.Net.run. walk. Qed.

#[local] Hint Resolve q_open q_read_timeout q_run : quiet.

Lemma q_configure name ip peer mtu : keeps J (Net.Net.configure_interface name ip peer mtu).
Proof. intros w Hw. unfold Net.Net.configure_interface. walk. Qed.

Lemma q_remove_routes ds : lets J (Net.Net.remove_all ds).
Proof. induction ds; intros w Hw; cbn [Net.Net.remove_all]; walk. Qed.

#[local] Hint Resolve q_configure q_remove_routes : quiet.

Lemma q_add d via r : keeps J (Net.Net.add d via r).
Proof. intros w Hw. unfold Net.Net.add. walk. Qed.

#[local] Hint Resolve q_add : quiet.

Lemma q_install_route name subnet prefix : keeps J (Net.Net.install name subnet prefix).
Proof. intros w Hw. unfold Net.Net.install, Net.Net.remove. walk. Qed.

Lemma q_remove_keys ks : lets J (Dns.Dns.remove_all ks).
Proof. induction ks; intros w Hw; cbn [Dns.Dns.remove_all]; walk. Qed.

Lemma q_set_key k v d : keeps J (Dns.Dns.set k v d).
Proof. intros w Hw. unfold Dns.Dns.set. walk. Qed.

#[local] Hint Resolve q_install_route q_remove_keys q_set_key : quiet.

Lemma q_publish name ip gw servers domain : keeps J (Dns.Dns.install name ip gw servers domain).
Proof. intros w Hw. unfold Dns.Dns.install, Dns.Dns.remove. walk. Qed.

#[local] Hint Resolve q_publish : quiet.

Lemma q_up mac l : keeps J (Tunnel.Tunnel.up mac l).
Proof. intros w Hw. unfold Tunnel.Tunnel.up, Net.Net.remove. walk. Qed.

Lemma q_drop_tunnel shared t : lets J (Tunnel.Tunnel.drop_tunnel shared t).
Proof.
  intros w Hw. unfold Tunnel.Tunnel.drop_tunnel, Net.Net.remove, Dns.Dns.remove. cbn [snd].
  destruct shared; walk.
Qed.

End host.

#[export] Hint Resolve q_write q_up q_drop_tunnel : quiet.

(** ** The session *)

Class SessionQuiet {W : Type} `{Backend.Backend.UsbInterface W} `{Backend.Backend.InEndpoint W}
    `{Transport.Transport.Sleep W} `{Clock W} `{Daemon.Daemon.LinkThreads W} (J : W -> Prop) : Prop :=
  { q_usb : Transport.Transport.quiet_world J;
    q_event : keeps J Daemon.Daemon.try_next_event;
    q_packets : keeps J Daemon.Daemon.sink_packets;
    q_shutdown : lets J Daemon.Daemon.link_shutdown }.

Section session.
Import Daemon.Daemon.
Context {W : Type} `{Backend.Backend.UsbInterface W} `{Backend.Backend.InEndpoint W}
  `{Transport.Transport.Sleep W} `{Clock W} `{Utun.Utun.Libc W} `{Net.Net.Runner W}
  `{Dns.Dns.DynamicStore W} `{Host.Text} `{Device.Device.ShowRndis} `{Daemon.Daemon.Signals W}
  `{Daemon.Daemon.LinkThreads W}.

#[local] Existing Instances Transport.Transport.usb_transport Transport.Transport.usb_clock.

(** The world of a session after a turn. *)
Definition turn_world (t : turn W) : W :=
  match t with Continue s | Break _ s => world s end.

(** A turn begins by sleeping: what holds of the world afterwards, [J'], holds
    for the rest of it. *)
Context (J J' : W -> Prop) `{!HostQuiet J'} `{!SessionQuiet J'}.

Lemma q_clock s : J' (world s) -> J' (world (snd (read_clock s))).
Proof.
  intros Hs. destruct (q_usb _ Hs) as (_ & _ & _ & _ & _ & Hn). unfold read_clock.
  by destruct (now (world s)).
Qed.

Lemma q_deliver p s : J' (world s) -> J' (world (deliver p s)).
Proof.
  intros Hs. unfold deliver. destruct (Rx.Sink.inner (sink s)) as [u|]; [|done].
  cbn. unfold Tunnel.Tunnel.utun_deliver. by apply q_write.
Qed.

Lemma q_doze s :
  (forall w, J w -> J' (Transport.Transport.sleep POLL_INTERVAL w)) ->
  J (world s) -> J' (world (doze s)).
Proof.
  intros Hsl Hs. unfold doze. apply Hsl in Hs.
  set (s1 := on_world (Transport.Transport.sleep POLL_INTERVAL) s).
  pose proof (q_packets (world s1) Hs) as Hp.
  destruct (sink_packets (world s1)) as [packets w]. cbn [snd] in Hp.
  set (s2 := on_world (fun _ => w) s1).
  assert (Hs2 : J' (world s2)) by done. revert Hs2. generalize s2. clear -HostQuiet0.
  induction packets as [|p packets IH]; intros s Hs; [done|]. cbn. apply IH. by apply q_deliver.
Qed.

Lemma q_detach s : J' (world s) -> J' (world (detach s)).
Proof.
  intros Hs. unfold detach. destruct (Rx.Sink.inner (sink s)) as [u|]; [|done].
  destruct (tunnel s); [done|]. cbn. by apply q_close.
Qed.

Lemma q_drop s : J' (world s) -> J' (world (drop_tunnel s)).
Proof.
  intros Hs. unfold drop_tunnel. destruct (tunnel s) as [t|]; [|done].
  exact (q_drop_tunnel J' (shared t s) t _ Hs).
Qed.

Lemma q_handle mac s : J' (world s) -> J' (turn_world (handle_event mac s)).
Proof.
  intros Hs. unfold handle_event. pose proof (q_event (world s) Hs) as He.
  destruct (try_next_event (world s)) as [[[l|e]|] w]; cbn [snd] in He; [|done..].
  set (s1 := on_world (fun _ => w) s). destruct (match tunnel s1 with Some _ => _ | None => _ end); [done|].
  unfold replace_tunnel. assert (Hd : J' (world (drop_tunnel (detach s1)))) by by apply q_drop, q_detach.
  pose proof (q_up J' mac l _ Hd) as Hu.
  by destruct (Tunnel.Tunnel.up mac l _) as [[[t rd]|e] w'].
Qed.

Lemma q_control {A} (m : Control.Control.M (Transport.Transport.UsbControlTransport W) A) s o c :
  (forall I, Control.Control.transport_keeps I -> Control.Control.keeps I m) ->
  J' (world s) -> m (control s) = Some (o, c) -> J' (world (set_control c s)).
Proof.
  intros Hm Hs E. exact (Hm _ (Transport.Transport.usb_keeps _ q_usb) _ _ _ Hs E).
Qed.

Lemma q_keep_alive fuel s t :
  J' (world s) -> keep_alive fuel s = Some t -> J' (turn_world t).
Proof.
  intros Hs. unfold keep_alive. apply q_clock in Hs. destruct (read_clock s) as [n s1]; cbn [snd] in Hs.
  destruct (n <? next_keepalive s1); [by intros [= <-]|].
  apply q_clock in Hs. destruct (read_clock s1) as [n2 s2]; cbn [snd] in Hs.
  set (s3 := set_next _ s2). unfold mbind, option_bind.
  destruct (Control.Control.keepalive fuel (control s3)) as [[o c]|] eqn:E; [|done].
  pose proof (q_control _ s3 o c (fun I HI => Control.Control.keeps_keepalive I HI fuel) Hs E) as Hc.
  by destruct o as [u|e|]; intros [= <-].
Qed.

Lemma q_finish r s r' s' : J' (world s) -> finish r s = Some (r', s') -> J' (world s').
Proof.
  intros Hs. unfold finish. assert (Hd : J' (world (drop_tunnel (detach s)))) by by apply q_drop, q_detach.
  set (s1 := drop_tunnel (detach s)) in *. unfold mbind, option_bind.
  destruct (Control.Control.halt (control s1)) as [[o c]|] eqn:E; [|done].
  pose proof (q_control Control.Control.halt s1 o c (fun I HI => Control.Control.keeps_halt I HI) Hd E) as Hc.
  destruct o; intros [= <- <-]; [by apply q_shutdown..|done].
Qed.

(** A turn that does not find the signal sleeps first. *)
Lemma q_turn fuel mac s t :
  (forall w, J w -> J' (Transport.Transport.sleep POLL_INTERVAL w)) ->
  J (world s) -> session_turn fuel mac s = Some t ->
  (requested (world s) = true /\ t = Break (Ok tt) s) \/ J' (turn_world t).
Proof.
  intros Hsl Hs. unfold session_turn. destruct (requested (world s)); [left; by simplify_eq|].
  intros E. right. apply (q_doze s Hsl) in Hs. apply (q_handle mac) in Hs.
  destruct (handle_event mac (doze s)) as [s1|r s1]; [by apply (q_keep_alive fuel s1)|].
  by simplify_eq.
Qed.

End session.

(** ** Scanning and opening *)

Class UsbQuiet {W : Type} `{Device.Device.UsbBackend W} `{Backend.Backend.InEndpoint W}
    `{Transport.Transport.Sleep W} `{Clock W} `{Daemon.Daemon.LinkThreads W} (J : W -> Prop) : Prop :=
  { q_list : keeps J Device.Device.list_devices;
    q_open_device i : keeps J (Device.Device.open_device i);
    q_configurations d : keeps J (Device.Device.configurations d);
    q_active d : keeps J (Device.Device.active_configuration d);
    q_configure_device d v : keeps J (Device.Device.set_configuration d v);
    q_claim d n : keeps J (Device.Device.claim_interface d n);
    q_alt i n : keeps J (Device.Device.set_alt_setting i n);
    q_open_in i a ty : keeps J (Device.Device.open_in i a ty);
    q_open_out i a ty : keeps J (Device.Device.open_out i a ty);
    q_link_start m l n : lets J (Daemon.Daemon.link_start m l n);
    q_session i :: SessionQuiet (H := Device.Device.interface_of i) J }.

#[export] Hint Resolve q_list q_open_device q_configurations q_active q_configure_device q_claim
  q_alt q_open_in q_open_out : quiet.

Section device.
Import Device.Device.
Context {P : Profile} {W : Type} `{Device.Device.UsbBackend W} `{Backend.Backend.InEndpoint W}
  `{Transport.Transport.Sleep W} `{Clock W} `{Device.Device.ShowRndis} `{Daemon.Daemon.LinkThreads W}
  (J : W -> Prop) `{!UsbQuiet J}.

Lemma q_find_loop infos idle : keeps J (find_loop infos idle).
Proof.
  revert idle. induction infos as [|info infos IH]; intros idle w Hw; cbn [find_loop]; [done|].
  assert (Ho : J (snd (open_device (Matcher.Descriptor.id info) w))) by walk.
  destruct (open_device _ w) as [[d|e] w1]; cbn [snd] in Ho; [|by apply IH].
  assert (Hc : J (snd (configurations d w1))) by walk.
  destruct (configurations d w1) as [[configs|e] w2]; cbn [snd] in Hc; [|by apply IH].
  destruct (Matcher.Matcher.find_rndis configs) as [[f|]|[]|]; [done|by apply IH|done].
Qed.

Lemma q_find : keeps J find.
Proof.
  intros w Hw. unfold find. assert (Hl : J (snd (list_devices w))) by walk.
  destruct (list_devices w) as [[infos|e] w1]; [by apply q_find_loop|done].
Qed.

Lemma q_select d v : keeps J (select_configuration d v).
Proof. intros w Hw. unfold select_configuration. walk. Qed.

Lemma q_submit (i : If W) n w : J w -> J (Transport.Transport.submit_notify n w).
Proof.
  revert w. induction n as [|n IH]; intros w Hw; [done|]. cbn. apply IH.
  destruct (q_usb (H := interface_of i) (J := J) w Hw) as (_ & _ & Hs & _). apply Hs.
Qed.

Lemma q_new i n a w o w' :
  J w -> Transport.Transport.new (open_interrupt i) w n a = (o, w') ->
  J w' /\ forall t, o = Ok t -> J (Transport.Transport.world t).
Proof.
  intros Hw. unfold Transport.Transport.new, open_interrupt.
  destruct a as [a|]; [|intros [= <- <-]; split; [done|]; by intros t [= <-]].
  assert (Ho : J (snd (open_in i a Matcher.Descriptor.Interrupt w))) by walk.
  destruct (open_in i a _ w) as [[ep|e] w1]; cbn [snd] in Ho.
  - cbn -[Transport.Transport.submit_notify]. intros [= <- <-].
    pose proof (q_submit i Transport.Transport.NOTIFY_DEPTH w1 Ho) as Hs.
    split; [exact Hs|]. intros t [= <-]. exact Hs.
  - cbn. by intros [= <- <-].
Qed.

Lemma q_bring_up fuel d ci di f t o w' :
  J (Transport.Transport.world t) -> bring_up_link fuel d ci di f t = Some (o, w') ->
  J w' /\ forall x, o = Ok x -> J (Transport.Transport.world (Control.Control.transport (control x))).
Proof.
  intros Ht. unfold bring_up_link. set (iface := interface_of ci).
  unfold mbind, option_bind.
  destruct (Control.Control.bring_up fuel _) as [[r c]|] eqn:E; [|done].
  pose proof (Control.Control.keeps_bring_up _
    (Transport.Transport.usb_keeps _ (q_usb (H := iface) (J := J))) fuel (Control.Control.new t) _ _ Ht E) as Hc.
  destruct r as [s|e|]; [|by intros [= <- <-]..].
  assert (Hi : J (snd (open_in di (Matcher.Matcher.bulk_in f) Matcher.Descriptor.Bulk
    (Transport.Transport.world (Control.Control.transport c))))) by walk.
  destruct (open_in di _ _ _) as [[bin|e] w1]; cbn [snd] in Hi; [|by intros [= <- <-]].
  assert (Ho : J (snd (open_out di (Matcher.Matcher.bulk_out f) Matcher.Descriptor.Bulk w1))) by walk.
  destruct (open_out di _ _ _) as [[bout|e] w2]; cbn [snd] in Ho; [|by intros [= <- <-]].
  intros [= <- <-]. split; [done|]. by intros x [= <-].
Qed.

Lemma q_open_phone fuel info f w o w' :
  J w -> open fuel info f w = Some (o, w') ->
  J w' /\ forall x, o = Ok x -> J (Transport.Transport.world (Control.Control.transport (control x))).
Proof.
  intros Hw. unfold open.
  assert (Ho : J (snd (open_device (Matcher.Descriptor.id info) w))) by walk.
  destruct (open_device _ w) as [[d|e] w1]; cbn [snd] in Ho; [|by intros [= <- <-]].
  pose proof (q_select d (Matcher.Matcher.config_value f) w1 Ho) as Hs.
  destruct (select_configuration d _ w1) as [[u|e|] w2]; cbn [snd] in Hs; [|by intros [= <- <-]..].
  assert (Hc : J (snd (claim_interface d (Matcher.Matcher.control_interface f) w2))) by walk.
  destruct (claim_interface d _ w2) as [[ci|e] w3]; cbn [snd] in Hc; [|by intros [= <- <-]].
  assert (Hd : J (snd (claim_interface d (Matcher.Matcher.data_interface f) w3))) by walk.
  destruct (claim_interface d _ w3) as [[di|e] w4]; cbn [snd] in Hd; [|by intros [= <- <-]].
  set (alt := if negb _ then _ else _).
  assert (Ha : J (snd alt)) by (unfold alt; walk).
  destruct alt as [[x|e] w5]; cbn [snd] in Ha; [|by intros [= <- <-]].
  destruct (Transport.Transport.new _ w5 _ _) as [[t|e|] w6] eqn:En;
    apply (q_new _ _ _ _ _ _ Ha) in En as [H6 Ht]; [|by intros [= <- <-]..].
  by apply q_bring_up, Ht.
Qed.

End device.

End Quiet.
