(* ===== verification/Nusb.v ===== *)
(** * The nusb adapter

    [src/usb/nusb_backend.rs]: the endpoint traits over nusb's endpoints, the
    translation of its errors, the lookup of a device by its stable id, and the
    translation of hotplug events. nusb's endpoint is a class with its
    documented behaviour: completions are waited for only while transfers are
    pending. Opening handles and copying descriptors is in [Crate]. *)
From Stdlib Require Import ZArith Lia.
From stdpp Require Import base numbers list strings gmap.
From S2P Require Import Prelude Matcher Backend Device.

Open Scope Z_scope.

Module Nusb.

Import Backend Matcher.Descriptor.

(** [nusb::transfer::TransferError], as far as it is told apart; [display] is
    the message of the others. *)
Inductive TransferError : Type :=
| TCancelled
| TStall
| TDisconnected
| TOther (display : string).

(** [nusb::ErrorKind], likewise. *)
Inductive NusbError : Type :=
| KDisconnected
| KNotFound
| KOther (display : string).

(** [nusb::transfer::Completion] *)
Record Completion : Type := mkCompletion
  { status : option TransferError; buffer : list Z }.

(** [nusb::Endpoint]; a submitted buffer is its requested length, or its
    contents. *)
Class Endpoint (W : Type) : Type :=
  { ep_max_packet_size : W -> Z;
    ep_pending : W -> Z;
    ep_submit_in : Z -> W -> W;
    ep_submit_out : list Z -> W -> W;
    ep_wait : Z -> W -> option Completion * W;
    ep_cancel_all : W -> W;
    ep_clear_halt : W -> option NusbError * W }.

Definition transfer_err (e : TransferError) : UsbError :=
  match e with
  | TCancelled => Timeout
  | TStall => Stall
  | TDisconnected => Disconnected
  | TOther m => Other m
  end.

(** [err], for the [nusb::Error]s of everything but transfers. *)
Definition nusb_err (e : NusbError) : UsbError :=
  match e with
  | KDisconnected => Disconnected
  | KNotFound => NotFound
  | KOther m => Other m
  end.

Definition completion_bytes (c : Completion) : Result (list Z) :=
  match status c with
  | None => ok (buffer c)
  | Some e => err (transfer_err e)
  end.

Definition completion_status (c : Completion) : Result unit :=
  match status c with
  | None => ok tt
  | Some e => err (transfer_err e)
  end.

(** [len.div_ceil(mps) * mps], and at least one packet. *)
Definition rounded (mps len : Z) : Z := Z.max ((len + mps - 1) / mps * mps) mps.

(** ** Endpoints *)

(** The world of an endpoint object. *)
Record NusbIn (W : Type) : Type := mkIn { in_ep : W }.
Arguments mkIn {W} _.
Arguments in_ep {W} _.

Record NusbOut (W : Type) : Type := mkOut { out_ep : W }.
Arguments mkOut {W} _.
Arguments out_ep {W} _.

Section endpoints.
Context {W : Type} `{Endpoint W}.

Definition submit (len : Z) (e : NusbIn W) : NusbIn W :=
  let mps := Z.max (ep_max_packet_size (in_ep e)) 1 in
  mkIn (ep_submit_in (rounded mps len) (in_ep e)).

Definition wait_in (timeout : Z) (e : NusbIn W) : option (Result (list Z)) * NusbIn W :=
  if ep_pending (in_ep e) =? 0 then (None, e)
  else let '(c, w) := ep_wait timeout (in_ep e) in (completion_bytes <$> c, mkIn w).

Definition wait_out (timeout : Z) (e : NusbOut W) : option (Result unit) * NusbOut W :=
  if ep_pending (out_ep e) =? 0 then (None, e)
  else let '(c, w) := ep_wait timeout (out_ep e) in (completion_status <$> c, mkOut w).

Definition halt_result (r : option NusbError) : Result unit :=
  match r with None => ok tt | Some e => err (nusb_err e) end.

#[export] Instance nusb_in : InEndpoint (NusbIn W) :=
  { in_submit := submit;
    in_wait := wait_in;
    in_pending e := ep_pending (in_ep e);
    in_cancel_all e := mkIn (ep_cancel_all (in_ep e));
    in_clear_halt e :=
      let '(r, w) := ep_clear_halt (in_ep e) in (halt_result r, mkIn w) }.

#[export] Instance nusb_out : OutEndpoint (NusbOut W) :=
  { out_max_packet_size e := ep_max_packet_size (out_ep e);
    out_pending e := ep_pending (out_ep e);
    out_submit data e := mkOut (ep_submit_out data (out_ep e));
    out_wait := wait_out;
    out_cancel_all e := mkOut (ep_cancel_all (out_ep e));
    out_clear_halt e :=
      let '(r, w) := ep_clear_halt (out_ep e) in (halt_result r, mkOut w) }.

End endpoints.

(** nusb's promises. Waiting is promised something only while a transfer is
    pending; with none, nusb panics. *)
Class EndpointLaws (W : Type) `{Endpoint W} : Prop :=
  { ep_pending_nonneg w : 0 <= ep_pending w;
    ep_submit_in_pending n w : ep_pending (ep_submit_in n w) = ep_pending w + 1;
    ep_submit_out_pending d w : ep_pending (ep_submit_out d w) = ep_pending w + 1;
    ep_wait_pending t w : 0 < ep_pending w ->
      ep_pending (snd (ep_wait t w)) =
        ep_pending w - match fst (ep_wait t w) with Some _ => 1 | None => 0 end;
    ep_cancel_pending w : ep_pending (ep_cancel_all w) = ep_pending w;
    ep_clear_pending w : ep_pending (snd (ep_clear_halt w)) = ep_pending w }.

Section laws.
Context {W : Type} `{EndpointLaws W}.

(** The adapters keep the endpoint traits' promises, which the link's threads
    and the control transport are proved against: an idle endpoint is never
    waited on. *)
#[export] Instance nusb_in_laws : InLaws (NusbIn W).
Proof.
  split; intros; cbn.
  - apply ep_pending_nonneg.
  - apply ep_submit_in_pending.
  - unfold wait_in. destruct (Z.eqb_spec (ep_pending (in_ep w)) 0) as [E|E]; cbn; [lia|].
    pose proof (ep_pending_nonneg (in_ep w)). pose proof (ep_wait_pending t (in_ep w)) as Hp.
    destruct (ep_wait t (in_ep w)) as [[c|] w']; cbn in *; lia.
  - apply ep_cancel_pending.
  - pose proof (ep_clear_pending (in_ep w)). by destruct (ep_clear_halt (in_ep w)).
Qed.

#[export] Instance nusb_out_laws : OutLaws (NusbOut W).
Proof.
  split; intros; cbn.
  - apply ep_pending_nonneg.
  - apply ep_submit_out_pending.
  - unfold wait_out. destruct (Z.eqb_spec (ep_pending (out_ep w)) 0) as [E|E]; cbn; [lia|].
    pose proof (ep_pending_nonneg (out_ep w)). pose proof (ep_wait_pending t (out_ep w)) as Hp.
    destruct (ep_wait t (out_ep w)) as [[c|] w']; cbn in *; lia.
  - apply ep_cancel_pending.
  - pose proof (ep_clear_pending (out_ep w)). by destruct (ep_clear_halt (out_ep w)).
Qed.

End laws.

(** An endpoint that completes every transfer at once, of as many as are pending. *)
#[local] Instance counted : Endpoint nat :=
  { ep_max_packet_size _ := 512;
    ep_pending := Z.of_nat;
    ep_submit_in _ := S;
    ep_submit_out _ := S;
    ep_wait _ w := match w with S n => (Some (mkCompletion None []), n) | O => (None, O) end;
    ep_cancel_all w := w;
    ep_clear_halt w := (None, w) }.

#[local] Instance counted_laws : EndpointLaws nat.
Proof. split; intros; cbn; try lia. destruct w; cbn in *; lia. Qed.

(** A read is rounded up to the smallest positive number of whole packets that
    holds it, as USB requires. *)
Theorem rounded_spec mps len :
  0 < mps -> 0 <= len ->
  rounded mps len mod mps = 0 /\ Z.max len mps <= rounded mps len /\
  forall n, n mod mps = 0 -> 0 < n -> len <= n -> rounded mps len <= n.
Proof.
  intros Hm Hl. unfold rounded. set (q := (len + mps - 1) / mps).
  assert (Hq : q * mps <= len + mps - 1 < q * mps + mps).
  { pose proof (Z.div_mod (len + mps - 1) mps ltac:(lia)).
    pose proof (Z.mod_pos_bound (len + mps - 1) mps Hm). unfold q. lia. }
  split; [|split; [lia|]].
  - destruct (Z.max_spec (q * mps) mps) as [[_ ->]|[_ ->]]; [by apply Z_mod_same_full|].
    apply Z_mod_mult.
  - intros n Hn Hp Hle. apply Z.mod_divide in Hn as [k ->]; [|lia].
    assert (Hk : 0 < k) by (apply (Z.mul_pos_cancel_r k mps); lia).
    apply Z.max_lub; [|pose proof (Z.mul_le_mono_nonneg_r 1 k mps ltac:(lia) ltac:(lia)); lia].
    destruct (decide (q <= k)); [nia|].
    pose proof (Z.mul_le_mono_nonneg_r (k + 1) q mps ltac:(lia) ltac:(lia)). lia.
Qed.

Lemma rounded_spec_witness :
  rounded 512 16384 = 16384 /\ rounded 512 8 mod 512 = 0 /\ Z.max 8 512 <= rounded 512 8.
Proof.
  split; [reflexivity|]. destruct (rounded_spec 512 8) as (H1 & H2 & _); [lia..|]. by split.
Defined.

(** ** Devices *)

(** [NusbBackend::open]'s search of the listed devices. *)
Definition find_device {R} (listed : list (R * DeviceInfo)) (i : DeviceId) : Result R :=
  match List.find (fun '(_, info) => bool_decide (id info = i)) listed with
  | Some (raw, _) => ok raw
  | None => err NotFound
  end.

(** ** Hotplug events *)

Section hotplug.
Context {K : Type} `{Countable K}.

(** [nusb::hotplug::HotplugEvent]: [K] is nusb's own id for a device. *)
Inductive RawEvent : Type :=
| RawConnected (raw : K) (info : DeviceInfo)
| RawDisconnected (raw : K).

(** The id map seeded with the devices already present. *)
Definition seed (listed : list (K * DeviceInfo)) : gmap K DeviceId :=
  foldl (fun ids '(raw, info) => <[raw := id info]> ids) ∅ listed.

(** One event of the watcher thread; a device it never saw connect is skipped. *)
Definition translate (ids : gmap K DeviceId) (e : RawEvent) : option Device.Device.HotplugEvent * gmap K DeviceId :=
  match e with
  | RawConnected raw info => (Some (Device.Device.Connected info), <[raw := id info]> ids)
  | RawDisconnected raw => (Device.Device.Disconnected <$> ids !! raw, delete raw ids)
  end.

(** The watcher over a sequence of events. *)
Fixpoint watch (ids : gmap K DeviceId) (events : list RawEvent) : list (option Device.Device.HotplugEvent) :=
  match events with
  | [] => []
  | e :: events => let '(o, ids) := translate ids e in o :: watch ids events
  end.

(** What is known of a device after a history: the identity it last connected
    with, unless it went away since. *)
Definition present (raw : K) (known : option DeviceId) (e : RawEvent) : option DeviceId :=
  match e with
  | RawConnected r info => if bool_decide (r = raw) then Some (id info) else known
  | RawDisconnected r => if bool_decide (r = raw) then None else known
  end.

Lemma translate_lookup ids e raw :
  snd (translate ids e) !! raw = present raw (ids !! raw) e.
Proof.
  destruct e as [r info|r]; cbn; case_bool_decide as E; subst.
  - by rewrite lookup_insert_eq.
  - by rewrite lookup_insert_ne.
  - by rewrite lookup_delete_eq.
  - by rewrite lookup_delete_ne.
Qed.

Lemma watch_app ids before events :
  watch ids (before ++ events) =
    watch ids before ++ watch (foldl (fun ids e => snd (translate ids e)) ids before) events.
Proof.
  revert ids. induction before as [|e before IH]; intros ids; [done|]. cbn.
  destruct (translate ids e) as [o ids']. cbn. by rewrite IH.
Qed.

Lemma fold_lookup ids before raw :
  foldl (fun ids e => snd (translate ids e)) ids before !! raw = foldl (present raw) (ids !! raw) before.
Proof.
  revert ids. induction before as [|e before IH]; intros ids; [done|]. cbn.
  by rewrite IH, translate_lookup.
Qed.

(** A disconnection is reported exactly when the device was there, under the
    identity it was last seen with: listed at the start or connected since, and
    not gone in between; so no unplugging is reported twice, and none of a
    device that was never reported. *)
Theorem disconnect_reported listed before raw after :
  watch (seed listed) (before ++ RawDisconnected raw :: after) !! length before =
    Some (Device.Device.Disconnected <$> foldl (present raw) (seed listed !! raw) before).
Proof.
  rewrite watch_app. assert (Hl : forall ids evs, length (watch ids evs) = length evs).
  { intros ids evs. revert ids. induction evs as [|e evs IH]; intros ids; [done|]. cbn.
    destruct (translate ids e). cbn. by rewrite IH. }
  rewrite lookup_app_r by by rewrite Hl. rewrite Hl, Nat.sub_diag. cbn.
  by rewrite fold_lookup.
Qed.

End hotplug.

End Nusb.
