(* ===== verification/Crate.v ===== *)
(** * The nusb backend

    The rest of [src/usb/nusb_backend.rs]: [UsbBackend], [UsbDevice],
    [UsbInterface] and [HotplugWatch] over the types of the nusb crate, which
    are a class with what the adapter reads of them. *)
From Stdlib Require Import ZArith Lia.
From stdpp Require Import base numbers list strings gmap.
From S2P Require Import Prelude Matcher Backend Device Nusb.

Open Scope Z_scope.

Module Crate.

Import Backend Matcher.Descriptor Nusb.Nusb.

(** [nusb::transfer::ControlOut] and [ControlIn], class requests to an interface;
    the payload is the data, or the length. *)
Record Request (A : Type) : Type := mkRequest
  { control_type : string; recipient : string; r_request : Z; r_value : Z; r_index : Z; payload : A }.

Arguments mkRequest {A} _ _ _ _ _ _.

(** [nusb::descriptors::TransferType] *)
Inductive RawTransferType : Type := TControl | TIsochronous | TBulk | TInterrupt.

(** The types and functions of [nusb]: [inl] is the error. *)
Class Crate (W : Type) : Type :=
  { RawInfo : Type; RawId : Type; RawDevice : Type; RawConfig : Type; RawAlt : Type;
    RawEndpoint : Type; RawInterface : Type; RawQueue : Type;
    (* nusb::DeviceInfo *)
    raw_id : RawInfo -> RawId;
    registry_entry_id : RawInfo -> Z;
    raw_vendor_id : RawInfo -> Z;
    raw_product_id : RawInfo -> Z;
    manufacturer_string : RawInfo -> option string;
    product_string : RawInfo -> option string;
    (* nusb::descriptors *)
    configuration_value : RawConfig -> Z;
    interface_alt_settings : RawConfig -> list RawAlt;
    interface_number : RawAlt -> Z;
    alternate_setting : RawAlt -> Z;
    alt_class : RawAlt -> Z;
    alt_subclass : RawAlt -> Z;
    alt_protocol : RawAlt -> Z;
    alt_endpoints : RawAlt -> list RawEndpoint;
    alt_descriptors : RawAlt -> list Z;
    ep_address : RawEndpoint -> Z;
    ep_transfer_type : RawEndpoint -> RawTransferType;
    ep_packet_size : RawEndpoint -> Z;
    (* the operations *)
    nusb_list_devices : W -> (NusbError + list RawInfo) * W;
    raw_open : RawInfo -> W -> (NusbError + RawDevice) * W;
    raw_configurations : RawDevice -> W -> list RawConfig;
    raw_active : RawDevice -> W -> string + RawConfig;
    raw_set_configuration : RawDevice -> Z -> W -> (NusbError + unit) * W;
    raw_claim : RawDevice -> Z -> W -> (NusbError + RawInterface) * W;
    raw_set_alt : RawInterface -> Z -> W -> (NusbError + unit) * W;
    raw_control_out : RawInterface -> Request (list Z) -> Z -> W -> (TransferError + unit) * W;
    raw_control_in : RawInterface -> Request Z -> Z -> W -> (TransferError + list Z) * W;
    raw_endpoint : RawInterface -> RawTransferType -> Direction -> Z -> W -> (NusbError + RawQueue) * W }.

Arguments RawInfo W {_}.
Arguments RawId W {_}.
Arguments RawDevice W {_}.
Arguments RawConfig W {_}.
Arguments RawAlt W {_}.
Arguments RawEndpoint W {_}.
Arguments RawInterface W {_}.
Arguments RawQueue W {_}.

(** [.map_err(err)] and [.map_err(transfer_err)] *)
Definition map_err {A} (r : NusbError + A) : Result A :=
  match r with inl e => err (nusb_err e) | inr a => ok a end.

Definition map_transfer_err {A} (r : TransferError + A) : Result A :=
  match r with inl e => err (transfer_err e) | inr a => ok a end.

(** [{:?}] of a [TransferType] *)
Definition show_transfer_type (ty : TransferType) : string :=
  match ty with
  | Control => "Control"
  | Isochronous => "Isochronous"
  | Bulk => "Bulk"
  | Interrupt => "Interrupt"
  end.

Section backend.
Context {W : Type} `{Crate W}.

(** On macOS. *)
Definition stable_id (raw : RawInfo W) : DeviceId := mkDeviceId (registry_entry_id raw).

Definition device_info (raw : RawInfo W) : DeviceInfo :=
  mkDeviceInfo (stable_id raw) (raw_vendor_id raw) (raw_product_id raw) (manufacturer_string raw)
    (product_string raw).

Definition list_nusb (w : W) : Result (list (RawInfo W * DeviceInfo)) * W :=
  match nusb_list_devices w with
  | (inl e, w) => (err (nusb_err e), w)
  | (inr raws, w) => (ok (map (fun raw => (raw, device_info raw)) raws), w)
  end.

(** [NusbBackend::list] *)
Definition list_devices (w : W) : Result (list DeviceInfo) * W :=
  match list_nusb w with
  | (err e, w) => (err e, w)
  | (ok l, w) => (ok (map snd l), w)
  end.

(** [NusbBackend::open] *)
Definition open_device (i : DeviceId) (w : W) : Result (RawDevice W) * W :=
  match list_nusb w with
  | (err e, w) => (err e, w)
  | (ok l, w) =>
      match find_device l i with
      | err e => (err e, w)
      | ok raw => let '(r, w) := raw_open raw w in (map_err r, w)
      end
  end.

Definition transfer_type (t : RawTransferType) : TransferType :=
  match t with
  | TControl => Control
  | TIsochronous => Isochronous
  | TBulk => Bulk
  | TInterrupt => Interrupt
  end.

Definition config_descriptor (config : RawConfig W) : ConfigDescriptor :=
  mkConfig (configuration_value config)
    (map (fun alt =>
       mkInterface (interface_number alt) (alternate_setting alt) (alt_class alt) (alt_subclass alt)
         (alt_protocol alt)
         (map (fun ep =>
            mkEndpoint (ep_address ep) (transfer_type (ep_transfer_type ep))
              (as_u16 (ep_packet_size ep)))
            (alt_endpoints alt))
         (alt_descriptors alt))
       (interface_alt_settings config)).

Definition configurations (d : RawDevice W) (w : W) : Result (list ConfigDescriptor) * W :=
  (ok (map config_descriptor (raw_configurations d w)), w).

Definition active_configuration (d : RawDevice W) (w : W) : Result Z * W :=
  match raw_active d w with
  | inl e => (err (Other e), w)
  | inr c => (ok (configuration_value c), w)
  end.

Definition set_configuration (d : RawDevice W) (value : Z) (w : W) : Result unit * W :=
  let '(r, w) := raw_set_configuration d value w in (map_err r, w).

Definition claim_interface (d : RawDevice W) (number : Z) (w : W) : Result (RawInterface W) * W :=
  let '(r, w) := raw_claim d number w in (map_err r, w).

Definition set_alt_setting (i : RawInterface W) (alt : Z) (w : W) : Result unit * W :=
  let '(r, w) := raw_set_alt i alt w in (map_err r, w).

Definition control_out (i : RawInterface W) (s : ControlSetup) (data : list Z) (timeout : Z) (w : W) :
    Result unit * W :=
  let '(r, w) :=
    raw_control_out i
      (mkRequest "Class" "Interface" (request s) (setup_value s) (setup_index s) data) timeout w in
  (map_transfer_err r, w).

Definition control_in (i : RawInterface W) (s : ControlSetup) (len timeout : Z) (w : W) :
    Result (list Z) * W :=
  let '(r, w) :=
    raw_control_in i
      (mkRequest "Class" "Interface" (request s) (setup_value s) (setup_index s) len) timeout w in
  (map_transfer_err r, w).

Definition open_in (i : RawInterface W) (address : Z) (ty : TransferType) (w : W) :
    Result (RawQueue W) * W :=
  match ty with
  | Bulk => let '(r, w) := raw_endpoint i TBulk In address w in (map_err r, w)
  | Interrupt => let '(r, w) := raw_endpoint i TInterrupt In address w in (map_err r, w)
  | other => (err (Other ("unsupported IN endpoint " +:+ show_transfer_type other)), w)
  end.

Definition open_out (i : RawInterface W) (address : Z) (ty : TransferType) (w : W) :
    Result (RawQueue W) * W :=
  match ty with
  | Bulk => let '(r, w) := raw_endpoint i TBulk Out address w in (map_err r, w)
  | Interrupt => let '(r, w) := raw_endpoint i TInterrupt Out address w in (map_err r, w)
  | other => (err (Other ("unsupported OUT endpoint " +:+ show_transfer_type other)), w)
  end.

#[export] Instance nusb_backend : Device.Device.UsbBackend W :=
  {| Device.Device.Dev := RawDevice W; Device.Device.If := RawInterface W;
     Device.Device.Ep := RawQueue W;
     Device.Device.list_devices := list_devices;
     Device.Device.open_device := open_device;
     Device.Device.configurations := configurations;
     Device.Device.active_configuration := active_configuration;
     Device.Device.set_configuration := set_configuration;
     Device.Device.claim_interface := claim_interface;
     Device.Device.set_alt_setting := set_alt_setting;
     Device.Device.if_control_out := control_out;
     Device.Device.if_control_in := control_in;
     Device.Device.open_in := open_in;
     Device.Device.open_out := open_out |}.

(** ** The watch *)

(** [nusb::watch_devices], the spawn of the thread that translates its events
    (given the id map it starts from), and [recv_timeout] on its channel; the
    error of a spawn is its message, and [inl] of a receive whether the channel
    is closed. *)
Class Watching : Type :=
  { RawWatch : Type; Chan : Type;
    watch_devices : W -> (NusbError + RawWatch) * W;
    spawn_watcher : RawWatch -> list (RawId W * DeviceId) -> W -> (string + Chan) * W;
    recv_timeout : Chan -> Z -> W -> (bool + Device.Device.HotplugEvent) * W }.

Context `{Watching}.

(** [NusbBackend::watch] *)
Definition watch (w : W) : Result Chan * W :=
  match watch_devices w with
  | (inl e, w) => (err (nusb_err e), w)
  | (inr raw, w) =>
      match list_nusb w with
      | (err e, w) => (err e, w)
      | (ok l, w) =>
          match spawn_watcher raw (map (fun '(r, info) => (raw_id r, id info)) l) w with
          | (inl m, w) => (err (Other m), w)
          | (inr c, w) => (ok c, w)
          end
      end
  end.

(** [ChannelHotplugWatch::next_event] *)
Definition next_event (c : Chan) (timeout : Z) (w : W) : option Device.Device.HotplugEvent * W :=
  match recv_timeout c timeout w with
  | (inr event, w) => (Some event, w)
  | (inl _, w) => (None, w)
  end.

#[export] Instance nusb_hotplug : Device.Device.Hotplug W :=
  {| Device.Device.Watch := Chan; Device.Device.watch := watch;
     Device.Device.next_event := next_event |}.

End backend.

(** ** What nusb promises

    Two devices of a listing never share a registry entry; descriptor fields are
    bytes. Devices may come and go between two listings. *)
Class CrateLaws (W : Type) `{Crate W} : Prop :=
  { registry_unique w raws : fst (nusb_list_devices w) = inr raws ->
      NoDup (map registry_entry_id raws);
    number_byte (a : RawAlt W) : is_u8 (interface_number a) }.

Section laws.
Context {W : Type} `{CrateLaws W}.

(** What the backend reports is well-formed for the matcher. *)
Lemma configurations_ok d (w : W) configs :
  fst (configurations d w) = ok configs -> Forall Matcher.Matcher.config_ok configs.
Proof.
  cbn. intros [= <-]. apply Forall_map, Forall_true. intros c.
  apply Forall_map, Forall_true. intros a. apply number_byte.
Qed.

Lemma find_device_unique {R} (key : R -> Z) (info_of : R -> DeviceInfo) l raw :
  (forall r, id (info_of r) = mkDeviceId (key r)) -> NoDup (map key l) -> raw ∈ l ->
  find_device (map (fun r => (r, info_of r)) l) (id (info_of raw)) = ok raw.
Proof.
  intros Hk Hn Hin. unfold find_device. rewrite Hk. induction l as [|r l IH]; [by apply elem_of_nil in Hin|].
  cbn. rewrite Hk. apply NoDup_cons in Hn as [Hr Hn].
  case_bool_decide as E.
  - injection E as E. apply elem_of_cons in Hin as [->|Hin]; [done|].
    destruct Hr. rewrite E. by apply list_elem_of_fmap_2.
  - apply elem_of_cons in Hin as [->|Hin]; [done|]. by apply IH.
Qed.

Lemma find_device_absent {R} (info_of : R -> DeviceInfo) l i :
  (forall r, r ∈ l -> id (info_of r) <> i) ->
  find_device (map (fun r => (r, info_of r)) l) i = err NotFound.
Proof.
  intros Hn. unfold find_device. induction l as [|r l IH]; [done|]. cbn.
  case_bool_decide as E; [by destruct (Hn r); [left|]|]. apply IH. intros r' Hr. apply Hn. by right.
Qed.

(** C33. A listed device is opened, and no other. Opening lists the bus again: by the
    identity of a device of an earlier listing it opens the very device that still
    has this registry entry, passing on what nusb answers, and when there is none
    it is [NotFound], and opens nothing; as long as nothing is plugged or
    unplugged in between, the devices that can be opened are exactly those of the
    earlier listing. *)
Theorem open_listed (w : W) infos w1 :
  list_devices w = (ok infos, w1) ->
  match nusb_list_devices w1 with
  | (inl e, w2) => forall i, open_device i w1 = (err (nusb_err e), w2)
  | (inr raws, w2) =>
      (forall raw, raw ∈ raws ->
         open_device (id (device_info raw)) w1 =
           (map_err (fst (raw_open raw w2)), snd (raw_open raw w2))) /\
      (forall i, (forall raw, raw ∈ raws -> id (device_info raw) <> i) ->
         open_device i w1 = (err NotFound, w2)) /\
      (forall info, info ∈ infos ->
         (exists raw, raw ∈ raws /\ id (device_info raw) = id info /\
            open_device (id info) w1 = (map_err (fst (raw_open raw w2)), snd (raw_open raw w2))) \/
         open_device (id info) w1 = (err NotFound, w2)) /\
      (fst (nusb_list_devices w) = inr raws -> infos = map device_info raws)
  end.
Proof.
  unfold list_devices, list_nusb. destruct (nusb_list_devices w) as [[e|raws0] w'] eqn:E; [done|].
  intros [= <- <-]. destruct (nusb_list_devices w') as [[e|raws] w2] eqn:E2.
  { intros i. unfold open_device, list_nusb. by rewrite E2. }
  pose proof (registry_unique w' raws) as Hu. rewrite E2 in Hu. specialize (Hu eq_refl).
  assert (Hopen : forall raw, raw ∈ raws -> open_device (id (device_info raw)) w' =
    (map_err (fst (raw_open raw w2)), snd (raw_open raw w2))).
  { intros raw Hin. unfold open_device, list_nusb. rewrite E2.
    rewrite (find_device_unique registry_entry_id device_info raws raw); [|done..].
    by destruct (raw_open raw w2). }
  assert (Hnone : forall i, (forall raw, raw ∈ raws -> id (device_info raw) <> i) ->
    open_device i w' = (err NotFound, w2)).
  { intros i Hi. unfold open_device, list_nusb. rewrite E2. by rewrite find_device_absent. }
  split; [exact Hopen|]. split; [exact Hnone|]. split.
  - intros info _.
    destruct (decide (Exists (fun raw => id (device_info raw) = id info) raws)) as [Hx|Hn].
    + apply Exists_exists in Hx as (raw & Hin & Hid). left. exists raw.
      split; [done|]. split; [done|]. rewrite <- Hid. by apply Hopen.
    + right. apply Hnone. intros raw Hin Hid. apply Hn, Exists_exists. by exists raw.
  - intros [= ->]. by rewrite map_map.
Qed.

End laws.

(** ** A bus of two devices

    A device is its registry entry and its vendor; opening gives the entry. *)
Definition plugged : list (Z * Z) := [(7, 0x2717); (9, 0x18D1)].

#[export] Instance bus_crate : Crate unit :=
  let no {A} (w : unit) : (NusbError + A) * unit := (inl (KOther "busy"), w) in
  {| RawInfo := Z * Z; RawId := Z; RawDevice := Z; RawConfig := Empty_set; RawAlt := Empty_set;
     RawEndpoint := Empty_set; RawInterface := Empty_set; RawQueue := Empty_set;
     raw_id := fst; registry_entry_id := fst; raw_vendor_id := snd; raw_product_id _ := 1;
     manufacturer_string _ := None; product_string _ := None;
     configuration_value c := match c with end; interface_alt_settings c := match c with end;
     interface_number a := match a with end; alternate_setting a := match a with end;
     alt_class a := match a with end; alt_subclass a := match a with end;
     alt_protocol a := match a with end; alt_endpoints a := match a with end;
     alt_descriptors a := match a with end; ep_address a := match a with end;
     ep_transfer_type a := match a with end; ep_packet_size a := match a with end;
     nusb_list_devices w := (inr plugged, w);
     raw_open raw w := (inr (fst raw), w);
     raw_configurations _ _ := [];
     raw_active _ _ := inl "unconfigured"%string;
     raw_set_configuration _ _ := no; raw_claim _ _ := no;
     raw_set_alt i := match i with end; raw_control_out i := match i with end;
     raw_control_in i := match i with end; raw_endpoint i := match i with end |}.

#[export] Instance bus_laws : CrateLaws unit.
Proof.
  split.
  - intros w raws [= <-]. apply (bool_decide_unpack _). by vm_compute.
  - intros [].
Qed.

Lemma open_listed_witness :
  exists infos, list_devices tt = (ok infos, tt) /\
    open_device (mkDeviceId 9) tt = (ok 9, tt) /\ open_device (mkDeviceId 8) tt = (err NotFound, tt).
Proof.
  destruct (open_listed (H := bus_crate) tt (map (@device_info unit bus_crate) plugged) tt eq_refl)
    as (Ho & Hn & _).
  exists (map (@device_info unit bus_crate) plugged). split; [done|]. split.
  - apply (Ho (9, 0x18D1)). right. left.
  - apply Hn. intros raw Hr.
    apply elem_of_cons in Hr as [->|Hr]; [done|].
    apply elem_of_cons in Hr as [->|Hr]; [done|]. by apply elem_of_nil in Hr.
Defined.

End Crate.
