(* ===== verification/Probe.v ===== *)
(** * The descriptor dump

    [src/probe.rs]: the scan that prints every device with an RNDIS function, and
    the watch that repeats it. What is printed is returned. *)
From Stdlib Require Import ZArith Lia Ascii String.
From stdpp Require Import base numbers list strings pretty.
From S2P Require Import Prelude Matcher Backend Device Crate.

Open Scope Z_scope.

Module Probe.

Import Matcher.Descriptor Device.Device.

(** A [println!] or an [eprintln!]. *)
Inductive Line : Type :=
| Out (s : string)
| Err (s : string).

(** [{:02x}] on a [u8] *)
Definition hex2 (x : Z) : string := hex_digit (x / 16 mod 16) +:+ hex_digit (x mod 16).

(** [{:x}], without leading zeros. *)
Fixpoint hex_from (fuel : nat) (x : Z) (acc : string) : string :=
  match fuel with
  | O => acc
  | S fuel =>
      let acc := hex_digit (x mod 16) +:+ acc in
      if x <? 16 then acc else hex_from fuel (x / 16) acc
  end.

(** [Display] of a [DeviceId], 64 bits of it. *)
Definition show_id (i : DeviceId) : string := "0x" +:+ hex_from 16 (raw_id i) "".

Definition show_direction (d : Direction) : string :=
  match d with In => "In" | Matcher.Descriptor.Out => "Out" end.

(** [{:#?}] of an [RndisFunction] *)
Definition show_function (f : Matcher.Matcher.RndisFunction) : list string :=
  let field n x := "    " +:+ n +:+ ": " +:+ pretty x +:+ "," in
  ["RndisFunction {";
   field "config_value" (Matcher.Matcher.config_value f);
   field "control_interface" (Matcher.Matcher.control_interface f);
   field "data_interface" (Matcher.Matcher.data_interface f);
   field "data_alt_setting" (Matcher.Matcher.data_alt_setting f)] ++
  match Matcher.Matcher.interrupt_in f with
  | Some a => ["    interrupt_in: Some("; "        " +:+ pretty a +:+ ","; "    ),"]
  | None => ["    interrupt_in: None,"]
  end ++
  [field "bulk_in" (Matcher.Matcher.bulk_in f);
   field "bulk_out" (Matcher.Matcher.bulk_out f);
   field "bulk_max_packet_size" (Matcher.Matcher.bulk_max_packet_size f);
   "}"%string].

Definition show_endpoint (ep : EndpointDescriptor) : string :=
  "      ep 0x" +:+ hex2 (address ep) +:+ " " +:+ Crate.Crate.show_transfer_type (transfer_type ep) +:+
  " " +:+ show_direction (direction ep) +:+ " mps " +:+ pretty (max_packet_size ep).

Definition show_interface (i : InterfaceDescriptor) : list string :=
  ("    iface " +:+ pretty (number i) +:+ "." +:+ pretty (alt_setting i) +:+ " class " +:+
     hex2 (class i) +:+ "/" +:+ hex2 (subclass i) +:+ "/" +:+ hex2 (protocol i)) ::
  map show_endpoint (endpoints i).

Definition show_config (c : ConfigDescriptor) : list string :=
  ("  config " +:+ pretty (value c)) :: concat (map show_interface (interfaces c)).

(** What is printed of a device with an RNDIS function; the first line follows an
    empty one, and [show_function] begins on the line of its label. *)
Definition header (info : DeviceInfo) : string :=
  "=== " +:+ label info +:+ " id=" +:+ show_id (id info) +:+ " ===".

Definition body (configs : list ConfigDescriptor) (f : Matcher.Matcher.RndisFunction) : list string :=
  concat (map show_config configs) ++
  match show_function f with s :: rest => ("  RNDIS: " +:+ s) :: rest | [] => [] end.

Definition dump (info : DeviceInfo) (configs : list ConfigDescriptor)
    (f : Matcher.Matcher.RndisFunction) : list Line :=
  map Out (EmptyString :: header info :: body configs f).

Definition nothing_found : Line := Out "no RNDIS device found — enable USB tethering on the phone".

(** Printed before the rest. *)
Definition after {W} (lines : list Line) (r : outcome Empty_set (list Line) * W) :
    outcome Empty_set (list Line) * W :=
  match r with
  | (Ok rest, w) => (Ok (lines ++ rest), w)
  | (o, w) => (o, w)
  end.

Section probe.
Context {P : Profile} {W : Type} `{UsbBackend W}.

(** The loop of [scan] over the listed devices, with [found] so far. *)
Fixpoint scan_loop (infos : list DeviceInfo) (found : bool) (w : W) :
    outcome Empty_set (list Line) * W :=
  match infos with
  | [] => (Ok (if negb found then [nothing_found] else []), w)
  | info :: infos =>
      let continue lines found w := after lines (scan_loop infos found w) in
      match open_device (id info) w with
      | (Backend.Backend.err e, w) =>
          continue [Out (label info +:+ ": cannot open (" +:+ Backend.Backend.to_string e +:+ ")")]
            found w
      | (Backend.Backend.ok device, w) =>
          match configurations device w with
          | (Backend.Backend.err e, w) =>
              continue [Out (label info +:+ ": cannot read configs (" +:+
                          Backend.Backend.to_string e +:+ ")")] found w
          | (Backend.Backend.ok configs, w) =>
              match Matcher.Matcher.find_rndis configs with
              | Ok None => continue [] found w
              | Ok (Some f) => continue (dump info configs f) true w
              | Prelude.Err e => match e with end
              | Panic => (Panic, w)
              end
          end
      end
  end.

Definition scan (w : W) : outcome Empty_set (list Line) * W :=
  match list_devices w with
  | (Backend.Backend.err e, w) =>
      (Ok [Err ("list failed: " +:+ Backend.Backend.to_string e)], w)
  | (Backend.Backend.ok infos, w) => scan_loop infos false w
  end.

Context `{Hotplug W}.

(** The body of the watch's loop. *)
Definition watch_turn (h : Watch W) (w : W) : outcome Empty_set (list Line) * W :=
  match next_event h (from_secs 3600) w with
  | (Some (Connected info), w) =>
      after [Out EmptyString; Out ("+ connected: " +:+ label info)] (scan w)
  | (Some (Disconnected i), w) =>
      (Ok [Out EmptyString; Out ("- disconnected: " +:+ show_id i)], w)
  | (None, w) => (Ok [], w)
  end.

(** [n] turns of the watch's endless loop. *)
Fixpoint watch_loop (n : nat) (h : Watch W) (w : W) : outcome Empty_set (list Line) * W :=
  match n with
  | O => (Ok [], w)
  | S n =>
      match watch_turn h w with
      | (Ok lines, w) => after lines (watch_loop n h w)
      | r => r
      end
  end.

(** How [run] stands after [n] turns. *)
Inductive standing : Type :=
| Returned (r : Backend.Backend.Result unit)
| Watching
| Panicked.

(** [run]: what is printed, and where it stands. *)
Definition run (n : nat) (watching : bool) (w : W) : list Line * standing * W :=
  match scan w with
  | (Ok lines, w) =>
      if watching then
        let lines := lines ++
          [Out EmptyString; Out "watching for hotplug events (ctrl-c to stop)..."] in
        match watch w with
        | (Backend.Backend.err e, w) => (lines, Returned (Backend.Backend.err e), w)
        | (Backend.Backend.ok h, w) =>
            match watch_loop n h w with
            | (Ok more, w) => (lines ++ more, Watching, w)
            | (_, w) => (lines, Panicked, w)
            end
        end
      else (lines, Returned (Backend.Backend.ok tt), w)
  | (_, w) => ([], Panicked, w)
  end.

End probe.

(** A property of the world that listing, opening and reading preserve: the scan
    does nothing else. *)
Class Reads {W : Type} `{UsbBackend W} (J : W -> Prop) : Prop :=
  { reads_list w : J w -> J (snd (list_devices w));
    reads_open i w : J w -> J (snd (open_device i w));
    reads_configurations d w : J w -> J (snd (configurations d w)) }.

(** ** What the dump says

    The strings that are printed can be read again: a number ends at the first
    character that is not its own. *)
Fixpoint absent (c : Ascii.ascii) (s : string) : Prop :=
  match s with EmptyString => True | String d s => d <> c /\ absent c s end.

(** Neither a digit nor the minus sign. *)
Definition separator (c : Ascii.ascii) : Prop :=
  c <> "-"%char /\ forall d : N, (d < 10)%N -> pretty_N_char d <> c.

Lemma separators : separator "."%char /\ separator " "%char /\ separator ","%char.
Proof.
  repeat split; try done; intros d Hd; destruct d as [|d]; try done;
    do 4 (destruct d as [d|d|]; try done; try lia).
Qed.

Lemma sep_inj c a a' r r' :
  absent c a -> absent c a' -> a +:+ String c r = a' +:+ String c r' -> a = a' /\ r = r'.
Proof.
  revert a'. induction a as [|x a IH]; intros [|x' a'] Ha Ha' E; cbn in *.
  - by injection E.
  - injection E as E _. by destruct Ha'.
  - injection E as E _. by destruct Ha.
  - injection E as -> E. destruct (IH a') as [-> ->]; [tauto..|done].
Qed.

Lemma pretty_go_absent c x : separator c -> forall s, absent c s -> absent c (pretty_N_go x s).
Proof.
  intros [_ Hc]. induction (N.lt_wf_0 x) as [x _ IH]; intros s Hs.
  destruct (decide (x = 0)%N) as [->|]; [by rewrite pretty_N_go_0|].
  rewrite pretty_N_go_step by lia. apply IH; [apply N.div_lt; lia|]. split; [|done].
  apply Hc, N.mod_lt. lia.
Qed.

Lemma pretty_absent c (x : Z) : separator c -> absent c (pretty x).
Proof.
  intros Hc. assert (Hn : forall n : N, absent c (pretty n)).
  { intros n. unfold pretty, pretty_N. case_decide; [|by apply pretty_go_absent].
    split; [|done]. by apply (proj2 Hc 0%N). }
  destruct x as [|p|p]; [apply (Hn 0%N)|apply (Hn (Npos p))|].
  unfold pretty, pretty_Z. split; [by intros <-; destruct Hc|]. apply (Hn (Npos p)).
Qed.

(** A number before a separator is read back. *)
Lemma number_inj c (x x' : Z) r r' :
  separator c -> pretty x +:+ String c r = pretty x' +:+ String c r' -> x = x' /\ r = r'.
Proof.
  intros Hc E. apply sep_inj in E as [E ->]; [|by apply pretty_absent..]. split; [|done].
  by apply (inj pretty) in E.
Qed.

Lemma hex_digit_inj d d' r r' :
  0 <= d < 16 -> 0 <= d' < 16 ->
  hex_digit d +:+ r = hex_digit d' +:+ r' -> d = d' /\ r = r'.
Proof.
  intros Hd Hd'. assert (Hall : forall x, 0 <= x < 16 ->
    x ∈ [0; 1; 2; 3; 4; 5; 6; 7; 8; 9; 10; 11; 12; 13; 14; 15]).
  { intros x Hx. rewrite !elem_of_cons. lia. }
  apply Hall in Hd, Hd'. rewrite !elem_of_cons, elem_of_nil in Hd, Hd'.
  repeat destruct Hd as [->|Hd]; try done; repeat destruct Hd' as [->|Hd']; try done;
    cbn; intros E; by injection E.
Qed.

Lemma append_assoc (a b c : string) : (a +:+ b) +:+ c = a +:+ (b +:+ c).
Proof. induction a as [|x a IH]; [done|]. exact (f_equal (String x) IH). Qed.

Lemma append_empty (a : string) : a +:+ "" = a.
Proof. induction a as [|x a IH]; [done|]. exact (f_equal (String x) IH). Qed.

Lemma hex2_inj x x' r r' :
  is_u8 x -> is_u8 x' -> hex2 x +:+ r = hex2 x' +:+ r' -> x = x' /\ r = r'.
Proof.
  unfold is_u8, hex2. intros Hx Hx' E. rewrite !append_assoc in E.
  apply hex_digit_inj in E as [E1 E]; [|zdm..]. apply hex_digit_inj in E as [E2 ->]; [|zdm..].
  split; [zdm|done].
Qed.

Fixpoint starts (p s : string) : bool :=
  match p, s with
  | EmptyString, _ => true
  | String c p, String d s => Ascii.eqb c d && starts p s
  | _, _ => false
  end.

(** The level of a line in the tree of descriptors. *)
Definition level (s : string) : nat :=
  if starts "      ep 0x" s then 3
  else if starts "    iface " s then 2
  else if starts "  config " s then 1 else 0.

Definition below (k : nat) (t : list string) : Prop :=
  match t with [] => True | s :: _ => (level s < k)%nat end.

(** Blocks of lines that begin at level [k] and continue below are read one by
    one. *)
Lemma blocks_inj {A} (k : nat) (show : A -> list string) (ok : A -> Prop) (R : A -> A -> Prop) :
  (forall a, exists s r, show a = s :: r /\ level s = k) ->
  (forall a a' t t', ok a -> ok a' -> below (S k) t -> below (S k) t' ->
    show a ++ t = show a' ++ t' -> R a a' /\ t = t') ->
  forall l l' t t', Forall ok l -> Forall ok l' -> below k t -> below k t' ->
    concat (map show l) ++ t = concat (map show l') ++ t' -> Forall2 R l l' /\ t = t'.
Proof.
  intros Hs Hinj. assert (Hb : forall l t, below k t -> below (S k) (concat (map show l) ++ t)).
  { intros [|a l] t Ht; cbn.
    - destruct t; cbn in *; [done|]. lia.
    - destruct (Hs a) as (s & r & -> & Hl). cbn. lia. }
  induction l as [|a l IH]; intros [|a' l'] t t' Hl Hl' Ht Ht' E; cbn in E.
  - by split.
  - destruct (Hs a') as (s & r & E' & Hk). rewrite E' in E. cbn in E. subst t. cbn in Ht. lia.
  - destruct (Hs a) as (s & r & E' & Hk). rewrite E' in E. cbn in E. subst t'. cbn in Ht'. lia.
  - apply Forall_cons_iff in Hl as [Ha Hl]. apply Forall_cons_iff in Hl' as [Ha' Hl'].
    rewrite <- !app_assoc in E.
    destruct (Hinj a a' _ _ Ha Ha' (Hb l t Ht) (Hb l' t' Ht') E) as [HR E'].
    destruct (IH l' t t' Hl Hl' Ht Ht' E') as [HF ->]. split; [by constructor|done].
Qed.

(** The fields that are bytes in the code. *)
Definition endpoint_u8 (ep : EndpointDescriptor) : Prop := is_u8 (address ep).

Definition interface_u8 (i : InterfaceDescriptor) : Prop :=
  is_u8 (class i) /\ is_u8 (subclass i) /\ is_u8 (protocol i) /\ Forall endpoint_u8 (endpoints i).

Definition config_u8 (c : ConfigDescriptor) : Prop := Forall interface_u8 (interfaces c).

(** The same descriptors, but for the class-specific bytes, which are not printed. *)
Definition same_interface (i i' : InterfaceDescriptor) : Prop :=
  number i = number i' /\ alt_setting i = alt_setting i' /\ class i = class i' /\
  subclass i = subclass i' /\ protocol i = protocol i' /\ endpoints i = endpoints i'.

Definition same_config (c c' : ConfigDescriptor) : Prop :=
  value c = value c' /\ Forall2 same_interface (interfaces c) (interfaces c').

Lemma show_endpoint_inj ep ep' :
  endpoint_u8 ep -> endpoint_u8 ep' -> show_endpoint ep = show_endpoint ep' -> ep = ep'.
Proof.
  intros Hu Hu' E. unfold show_endpoint in E.
  apply (inj (String.append "      ep 0x")) in E. apply hex2_inj in E as [Ea E]; [|done..].
  unfold direction in E. rewrite Ea in E.
  set (d := if negb (Z.land (address ep') 128 =? 0) then In else Matcher.Descriptor.Out) in E.
  assert (Et : transfer_type ep = transfer_type ep' /\
    pretty (max_packet_size ep) = pretty (max_packet_size ep')).
  { destruct (transfer_type ep), (transfer_type ep'), d; cbn in E; try discriminate E;
      injection E as E; by split. }
  destruct Et as [Et Em]. apply (inj pretty) in Em. destruct ep, ep'. cbn in *. congruence.
Qed.

Lemma show_interface_head i i' :
  interface_u8 i -> interface_u8 i' ->
  hd EmptyString (show_interface i) = hd EmptyString (show_interface i') ->
  number i = number i' /\ alt_setting i = alt_setting i' /\ class i = class i' /\
  subclass i = subclass i' /\ protocol i = protocol i'.
Proof.
  destruct separators as (Hdot & Hspace & _).
  intros (Hc & Hs & Hp & _) (Hc' & Hs' & Hp' & _) E. cbn [show_interface hd] in E.
  apply (inj (String.append "    iface ")) in E.
  apply (number_inj "."%char) in E as [-> E]; [|done].
  apply (number_inj " "%char) in E as [-> E]; [|done].
  apply (inj (String.append "class ")) in E. apply hex2_inj in E as [-> E]; [|done..].
  injection E as E. apply hex2_inj in E as [-> E]; [|done..]. injection E as E.
  by rewrite <- (append_empty (hex2 (protocol i))), <- (append_empty (hex2 (protocol i'))) in E;
    apply hex2_inj in E as [-> _].
Qed.

(** An interface and the lines of its endpoints. *)
Lemma show_interface_inj i i' t t' :
  interface_u8 i -> interface_u8 i' -> below 3 t -> below 3 t' ->
  show_interface i ++ t = show_interface i' ++ t' -> same_interface i i' /\ t = t'.
Proof.
  intros Hi Hi' Ht Ht' E.
  assert (Hh : hd EmptyString (show_interface i) = hd EmptyString (show_interface i'))
    by exact (f_equal (hd EmptyString) E).
  apply show_interface_head in Hh as (En & Ea & Ec & Es & Ep); [|done..].
  apply (f_equal (@tl string)) in E. cbn [show_interface tl app] in E.
  assert (Hl : forall l, map show_endpoint l = concat (map (fun ep => [show_endpoint ep]) l)).
  { induction l as [|ep l IHl]; cbn; [done|]. by rewrite IHl. }
  rewrite !Hl in E. apply (blocks_inj 3 _ endpoint_u8 eq) in E as [Hf ->].
  - split; [|done]. apply list_eq_Forall2 in Hf. by repeat split.
  - intros ep. exists (show_endpoint ep), []. split; reflexivity.
  - intros ep ep' r r' He He' _ _ E1. split; [|exact (f_equal (@tl string) E1)].
    apply show_endpoint_inj; [done|done|]. exact (f_equal (hd EmptyString) E1).
  - apply Hi.
  - apply Hi'.
  - done.
  - done.
Qed.

Lemma show_config_inj c c' t t' :
  config_u8 c -> config_u8 c' -> below 2 t -> below 2 t' ->
  show_config c ++ t = show_config c' ++ t' -> same_config c c' /\ t = t'.
Proof.
  intros Hc Hc' Ht Ht' E. pose proof (f_equal (hd EmptyString) E) as Ev.
  apply (f_equal (@tl string)) in E. cbn [show_config app hd tl] in Ev, E.
  apply (inj (String.append "  config ")), (inj pretty) in Ev. apply (blocks_inj 2 _ interface_u8 same_interface) in E as [Hf ->];
    try done.
  - intros i. eexists _, _. split; reflexivity.
  - intros i i' r r'. apply show_interface_inj.
Qed.

Lemma field_inj (n : string) (x x' : Z) :
  "    " +:+ n +:+ ": " +:+ pretty x +:+ "," = "    " +:+ n +:+ ": " +:+ pretty x' +:+ "," -> x = x'.
Proof.
  intros E. apply (inj (String.append "    ")), (inj (String.append n)), (inj (String.append ": ")) in E.
  by apply (number_inj ","%char) in E as [-> _]; [|apply separators].
Qed.

Lemma line_at (k : nat) (l l' : list string) : l = l' -> nth k l EmptyString = nth k l' EmptyString.
Proof. by intros ->. Qed.

(** Line [k] of the equation [E] shows that the fields [x] and [y] are equal. *)
Ltac read_field k E x y := assert (x = y) as <- by exact (field_inj _ _ _ (line_at k _ _ E)).

Lemma show_function_inj f f' : show_function f = show_function f' -> f = f'.
Proof.
  destruct f as [a b c d i bi bo m], f' as [a' b' c' d' i' bi' bo' m']. intros E.
  read_field 1%nat E a a'. read_field 2%nat E b b'. read_field 3%nat E c c'. read_field 4%nat E d d'.
  destruct i as [i|], i' as [i'|];
    [|discriminate (line_at 5 _ _ E)|discriminate (line_at 5 _ _ E)|].
  - assert (Ei := line_at 6 _ _ E). apply (inj (String.append "        ")) in Ei.
    apply (number_inj ","%char) in Ei as [-> _]; [|apply separators].
    read_field 8%nat E bi bi'. read_field 9%nat E bo bo'. by read_field 10%nat E m m'.
  - read_field 6%nat E bi bi'. read_field 7%nat E bo bo'. by read_field 8%nat E m m'.
Qed.

(** What is printed under the header tells the descriptors, the class-specific bytes
    excepted, and the function. *)
Lemma body_inj configs configs' f f' :
  Forall config_u8 configs -> Forall config_u8 configs' ->
  body configs f = body configs' f' -> Forall2 same_config configs configs' /\ f = f'.
Proof.
  intros Hc Hc' E. unfold body in E.
  assert (Hb : forall g, below 1 match show_function g with s :: rest => ("  RNDIS: " +:+ s) :: rest | [] => [] end)
    by (intros g; apply Nat.lt_0_1).
  apply (blocks_inj 1 _ config_u8 same_config) in E as [Hf E]; try done.
  - split; [done|]. apply show_function_inj. unfold show_function. cbn [app].
    f_equal. exact (f_equal (@tl string) E).
  - intros c. eexists _, _. split; reflexivity.
  - intros c c' r r'. apply show_config_inj.
Qed.

Section laws.
Context {P : Profile} {W : Type} `{UsbBackend W}.

Lemma scan_loop_keeps J `{!Reads J} infos found w : J w -> J (snd (scan_loop infos found w)).
Proof.
  revert found w. induction infos as [|info infos IH]; intros found w Hw; cbn [scan_loop]; [done|].
  assert (Hrest : forall f w lines, J w -> J (snd (after lines (scan_loop infos f w)))).
  { intros f w1 lines Hw1. specialize (IH f w1 Hw1). by destruct (scan_loop infos f w1) as [[r|[]|] w2]. }
  pose proof (reads_open (id info) w Hw) as Ho.
  destruct (open_device (id info) w) as [[d|e] w1]; cbn [snd] in Ho; [|by apply Hrest].
  pose proof (reads_configurations d w1 Ho) as Hc.
  destruct (configurations d w1) as [[configs|e] w2]; cbn [snd] in Hc; [|by apply Hrest].
  destruct (Matcher.Matcher.find_rndis configs) as [[f|]|[]|]; [by apply Hrest..|done].
Qed.

(** The lines tell these descriptors and this function: no others are printed the
    same. *)
Definition reads_back (lines : list string) (configs : list ConfigDescriptor)
    (f : Matcher.Matcher.RndisFunction) : Prop :=
  lines = body configs f /\
  (Forall config_u8 configs -> forall configs' f', Forall config_u8 configs' ->
    lines = body configs' f' -> Forall2 same_config configs configs' /\ f = f').

(** What is printed of one device, by what it answered: its name and identity, its
    descriptors and function when it tethers, a line that it could not be read, or
    nothing. *)
Definition tells (a : Answer) (lines : list Line) : Prop :=
  let info := fst a in
  match snd a with
  | Some configs =>
      match Matcher.Matcher.find_rndis configs with
      | Ok (Some f) => exists text, reads_back text configs f /\
          lines = map Out (EmptyString ::
            ("=== " +:+ label info +:+ " id=" +:+ show_id (id info) +:+ " ===") :: text)
      | Ok None => lines = []
      | _ => False
      end
  | None => exists why, lines = [Out (label info +:+ ": cannot " +:+ why)]
  end.

Lemma dump_tells info configs f :
  Matcher.Matcher.find_rndis configs = Ok (Some f) -> tells (info, Some configs) (dump info configs f).
Proof.
  intros E. unfold tells. cbn [fst snd]. rewrite E. exists (body configs f). split; [|done].
  split; [done|]. intros Hc configs' f' Hc'. by apply body_inj.
Qed.

Definition is_phone (a : Answer) : bool :=
  match tethers a with Ok (Some _) => true | _ => false end.

(** What the rest of a scan prints after the block of [a]. *)
Definition rest_of (a : Answer) (all : list Answer) (found : bool)
    (r : outcome Empty_set (list Line)) : Prop :=
  match r with
  | Ok lines => exists blocks, Forall2 tells (a :: all) blocks /\
      lines = concat blocks ++ (if found || existsb is_phone (a :: all) then [] else [nothing_found])
  | Prelude.Err _ => False
  | Panic => exists b, b ∈ a :: all /\ tethers b = Panic
  end.

Lemma scan_loop_spec infos found w :
  match fst (scan_loop infos found w) with
  | Ok lines => exists blocks, Forall2 tells (answers infos w) blocks /\
      lines = concat blocks ++ (if found || existsb is_phone (answers infos w) then [] else [nothing_found])
  | Prelude.Err _ => False
  | Panic => exists a, a ∈ answers infos w /\ tethers a = Panic
  end.
Proof.
  revert found w. induction infos as [|info infos IH]; intros found w; cbn [scan_loop answers].
  { exists []. split; [constructor|]. by destruct found. }
  assert (Hrest : forall a f w block, tells a block -> f = found || is_phone a ->
    rest_of a (answers infos w) found (fst (after block (scan_loop infos f w)))).
  { intros a f w1 block Ht ->. specialize (IH (found || is_phone a) w1).
    destruct (scan_loop infos _ w1) as [[lines|[]|] w2]; cbn in *.
    - destruct IH as (blocks & Hb & ->). exists (block :: blocks). split; [by constructor|].
      cbn. by rewrite <- app_assoc, orb_assoc.
    - destruct IH as (b & Hb & Hp). exists b. split; [by right|done]. }
  fold (rest_of (info, fst (ask info w)) (answers infos (snd (ask info w))) found
    (fst (scan_loop (info :: infos) found w))).
  unfold ask. destruct (open_device (id info) w) as [[d|e] w1]; cbn [fst snd].
  2: { apply Hrest; [|by rewrite orb_false_r]. by exists ("open (" +:+ Backend.Backend.to_string e +:+ ")"). }
  destruct (configurations d w1) as [[configs|e] w2]; cbn [fst snd].
  2: { apply Hrest; [|by rewrite orb_false_r].
       by exists ("read configs (" +:+ Backend.Backend.to_string e +:+ ")"). }
  destruct (Matcher.Matcher.find_rndis configs) as [[f|]|[]|] eqn:Ef.
  - apply Hrest; [by apply dump_tells|]. unfold is_phone, tethers. cbn. by rewrite Ef, orb_true_r.
  - apply Hrest; [by unfold tells; cbn; rewrite Ef|]. unfold is_phone, tethers. cbn.
    by rewrite Ef, orb_false_r.
  - cbn. exists (info, Some configs). split; [by left|exact Ef].
Qed.

(** C34. The dump is complete and claims nothing: every attached device with an RNDIS
    function has, in the order of the listing, its name and identity printed, and
    lines from which its configurations, interfaces and endpoints and the function
    the daemon would drive can be read back (only the class-specific bytes are not
    among them); a device that cannot be read has a line that says so; the hint to
    enable tethering is printed exactly when no device tethers; and the scan
    preserves whatever listing, opening and reading descriptors preserve, a live
    session's claims included. *)
Theorem scan_reports J `{!Reads J} w :
  J w ->
  J (snd (scan w)) /\
  match fst (scan w) with
  | Ok lines =>
      (exists e w1, list_devices w = (Backend.Backend.err e, w1) /\
         lines = [Err ("list failed: " +:+ Backend.Backend.to_string e)]) \/
      exists infos w1 blocks, list_devices w = (Backend.Backend.ok infos, w1) /\
        map fst (answers infos w1) = infos /\ Forall2 tells (answers infos w1) blocks /\
        lines = concat blocks ++
          (if existsb is_phone (answers infos w1) then [] else [nothing_found])
  | Prelude.Err _ => False
  | Panic => exists infos w1 a, list_devices w = (Backend.Backend.ok infos, w1) /\
      a ∈ answers infos w1 /\ tethers a = Panic
  end.
Proof.
  intros Hw. unfold scan. pose proof (reads_list w Hw) as Hl.
  destruct (list_devices w) as [[infos|e] w1]; cbn [snd] in Hl.
  2: { split; [done|]. left. by exists e, w1. }
  split; [by apply scan_loop_keeps|]. pose proof (scan_loop_spec infos false w1) as Hs.
  destruct (fst (scan_loop infos false w1)) as [lines|[]|].
  - right. destruct Hs as (blocks & Hb & ->). exists infos, w1, blocks. by rewrite answers_infos.
  - destruct Hs as (a & Ha & Hp). by exists infos, w1, a.
Qed.

End laws.

#[local] Existing Instance phone_backend.

(** The phone of the witness, as [muta probe] shows it. *)
Definition phone_text : list string :=
  ["=== Xiaomi Redmi (2717:ff80) id=0x7 ==="; "  config 1";
   "    iface 0.0 class e0/01/03"; "      ep 0x81 Interrupt In mps 512";
   "    iface 1.0 class 0a/00/00"; "      ep 0x82 Bulk In mps 512"; "      ep 0x02 Bulk Out mps 512";
   "  RNDIS: RndisFunction {"; "    config_value: 1,"; "    control_interface: 0,";
   "    data_interface: 1,"; "    data_alt_setting: 0,"; "    interrupt_in: Some("; "        129,";
   "    ),"; "    bulk_in: 130,"; "    bulk_out: 2,"; "    bulk_max_packet_size: 512,"; "}"].

Lemma scan_reports_witness :
  let J (w : Phone) := view_of w = mkView (Some 2) {[0; 1]} ∅ in
  let busy := with_view (fun _ => mkView (Some 2) {[0; 1]} ∅) phone in
  J (snd (scan (P := release_profile) busy)) /\
  fst (scan (P := release_profile) busy) = Ok (map Out (EmptyString :: phone_text)).
Proof.
  intros J busy. assert (HJ : Reads J) by by split.
  destruct (scan_reports (P := release_profile) J busy eq_refl) as [Hj _].
  split; [exact Hj|]. vm_compute. reflexivity.
Defined.

End Probe.
