(* ===== verification/Signals.v ===== *)
(** * Signals

    [src/signals.rs]: the shutdown flag and the handlers, and reopening the log
    over standard output and error. The descriptor table of the process is a
    map to the files its entries are open on. *)
From Stdlib Require Import ZArith Lia.
From stdpp Require Import base numbers list strings gmap.
From S2P Require Import Prelude.

Open Scope Z_scope.

Module Signals.

(** What a signal is set to do. *)
Inductive Disposition : Type :=
| Shutdown      (** [handler]: sets the flag *)
| ReopenLog     (** [reopen_log] *)
| Ignored.      (** [SIG_IGN] *)

#[export] Instance Disposition_eq_dec : EqDecision Disposition.
Proof. solve_decision. Defined.

Definition SIGHUP : Z := 1.

Definition SIGINT : Z := 2.

Definition SIGPIPE : Z := 13.

Definition SIGTERM : Z := 15.

(** [libc::signal]; its result is not looked at. *)
Class Handlers (W : Type) : Type := signal : Z -> Disposition -> W -> W.

Section handlers.
Context {W : Type} `{Handlers W}.

Definition install (w : W) : W :=
  signal SIGPIPE Ignored (signal SIGTERM Shutdown (signal SIGINT Shutdown w)).

(** newsyslog sends SIGHUP after moving the log aside. *)
Definition reopen_log_on_hangup (w : W) : W := signal SIGHUP ReopenLog w.

End handlers.

(** ** The process as its handlers see it *)

(** What [libc::open] is asked for, which is what a descriptor is open on. *)
Record Open : Type := mkOpen { path : string; flags : Z; create_mode : Z }.

#[export] Instance Open_eq_dec : EqDecision Open.
Proof. solve_decision. Defined.

Definition O_WRONLY : Z := 1.

Definition O_APPEND : Z := 8.

Definition O_CREAT : Z := 512.

(** The flag, the handlers, and the files of the descriptors. *)
Record Process : Type := mkProcess
  { SHUTDOWN : bool; handlers : gmap Z Disposition; files : gmap Z Open }.

#[export] Instance process_handlers : Handlers Process := fun s d p =>
  mkProcess (SHUTDOWN p) (<[s := d]> (handlers p)) (files p).

Definition requested (p : Process) : bool := SHUTDOWN p.

Definition handler (p : Process) : Process := mkProcess true (handlers p) (files p).

Definition STDOUT_FILENO : Z := 1.

Definition STDERR_FILENO : Z := 2.

Definition dup2 (fd to : Z) (p : Process) : Process :=
  match files p !! fd with
  | Some f => mkProcess (SHUTDOWN p) (handlers p) (<[to := f]> (files p))
  | None => p
  end.

Definition close (fd : Z) (p : Process) : Process :=
  mkProcess (SHUTDOWN p) (handlers p) (delete fd (files p)).

(** The system's answer [fd] to [open]: a descriptor, or negative when it failed. *)
Definition opened (fd : Z) (file : Open) (p : Process) : Process :=
  if 0 <=? fd then mkProcess (SHUTDOWN p) (handlers p) (<[fd := file]> (files p)) else p.

(** [crate::service::LOG_PATH_C] *)
Definition LOG_PATH_C : string := "/var/log/muta.log".

(** The log, opened to append to it, and created when newsyslog has moved the old
    one aside. *)
Definition log : Open :=
  mkOpen LOG_PATH_C (Z.lor (Z.lor O_WRONLY O_APPEND) O_CREAT) (6 * 64 + 4 * 8 + 4).

(** [reopen_log], given what [open] of the log returns. *)
Definition reopen_log (fd : Z) (p : Process) : Process :=
  let p := opened fd log p in
  if 0 <=? fd then close fd (dup2 fd STDERR_FILENO (dup2 fd STDOUT_FILENO p)) else p.

(** A signal is delivered; [fd] is what an [open] in a handler would return. *)
Definition deliver (s fd : Z) (p : Process) : Process :=
  match handlers p !! s with
  | Some Shutdown => handler p
  | Some ReopenLog => reopen_log fd p
  | Some Ignored | None => p
  end.

(** ** What a run of signals does *)

(** The signals of a run, each with what an [open] in its handler returns. *)
Definition deliveries (ss : list (Z * Z)) (p : Process) : Process :=
  foldl (fun p '(s, fd) => deliver s fd p) p ss.

Definition stops (s : Z) : bool := (s =? SIGINT) || (s =? SIGTERM).

Definition reopens (x : Z * Z) : bool := (fst x =? SIGHUP) && (0 <=? snd x).

(** A daemon that follows the rotation of its log, with its output open. *)
Definition installed (p : Process) : Prop :=
  handlers p !! SIGHUP = Some ReopenLog /\ handlers p !! SIGINT = Some Shutdown /\
  handlers p !! SIGPIPE = Some Ignored /\ handlers p !! SIGTERM = Some Shutdown.

Lemma start_installed p : installed (reopen_log_on_hangup (install p)).
Proof.
  unfold installed, reopen_log_on_hangup, install, signal. cbn. rewrite !lookup_insert.
  by repeat split.
Qed.

(** [open] returns a descriptor that is not in use, and the output is. *)
Definition fresh (p : Process) (fd : Z) : Prop :=
  fd < 0 \/ (files p !! fd = None /\ fd <> STDOUT_FILENO /\ fd <> STDERR_FILENO).

Lemma reopen_log_files fd p :
  fresh p fd ->
  files (reopen_log fd p) =
    if 0 <=? fd then <[STDERR_FILENO := log]> (<[STDOUT_FILENO := log]> (files p)) else files p.
Proof.
  intros Hf. unfold reopen_log, opened. destruct (Z.leb_spec 0 fd) as [H0|]; [|done].
  destruct Hf as [|(Hn & H1 & H2)]; [lia|]. unfold dup2, close. cbn [files].
  rewrite lookup_insert_eq. cbn [files]. rewrite lookup_insert_ne by done. rewrite lookup_insert_eq.
  cbn [files]. apply map_eq. intros k. destruct (decide (k = fd)) as [->|Hk].
  - rewrite lookup_delete_eq, !lookup_insert_ne by done. by symmetry.
  - rewrite lookup_delete_ne by done.
    rewrite !lookup_insert. repeat (case_decide; try done).
Qed.

(** C27. Signals only flip the flag or move the output: over any run of the signals
    the daemon handles, the shutdown flag is raised exactly by an interrupt or a
    termination, a closed socket does nothing, and after a hangup that could
    open the log both standard output and standard error are open on it, by its
    path and to append, with
    every other descriptor as it was and none left behind. *)
Theorem signals_sound ss p :
  installed p ->
  Forall (fun '(s, fd) => s ∈ [SIGHUP; SIGINT; SIGPIPE; SIGTERM] /\ fresh p fd) ss ->
  let p' := deliveries ss p in
  requested p' = requested p || existsb (fun x => stops (fst x)) ss /\
  files p' =
    if existsb reopens ss
    then <[STDERR_FILENO := log]> (<[STDOUT_FILENO := log]> (files p)) else files p.
Proof.
  intros Hi Hss. cbn. unfold deliveries.
  assert (Hgen : forall q b, installed q -> requested q = b ->
    (files q = files p \/ files q = <[STDERR_FILENO := log]> (<[STDOUT_FILENO := log]> (files p))) ->
    requested (foldl (fun p '(s, fd) => deliver s fd p) q ss) = b || existsb (fun x => stops (fst x)) ss /\
    files (foldl (fun p '(s, fd) => deliver s fd p) q ss) =
      if existsb reopens ss
      then <[STDERR_FILENO := log]> (<[STDOUT_FILENO := log]> (files p)) else files q).
  2: { apply Hgen; [done|done|by left]. }
  induction Hss as [|[s fd] ss [Hs Hf] _ IH]; intros q b Hq Hb Hqf; [by rewrite orb_false_r|].
  cbn [foldl existsb fst].
  assert (Hfq : fresh q fd).
  { destruct Hf as [|(Hn & H1 & H2)]; [by left|]. right. split; [|done].
    destruct Hqf as [-> | ->]; [done|]. by rewrite !lookup_insert_ne by done. }
  destruct Hq as (Q1 & Q2 & Q3 & Q4).
  assert (Hcase : deliver s fd q = (if s =? SIGHUP then reopen_log fd q
    else if stops s then handler q else q)).
  { unfold deliver. rewrite !elem_of_cons in Hs.
    destruct Hs as [->|[->|[->|[->|Hs]]]]; [by rewrite Q1|by rewrite Q2|by rewrite Q3|by rewrite Q4|].
    by apply elem_of_nil in Hs. }
  rewrite Hcase. unfold reopens at 1 2. cbn [fst snd].
  destruct (Z.eqb_spec s SIGHUP) as [->|Hne]; cbn [andb orb].
  - pose proof (reopen_log_files fd q Hfq) as Hr.
    assert (Hkeep : requested (reopen_log fd q) = requested q /\
      handlers (reopen_log fd q) = handlers q).
    { unfold reopen_log, opened. destruct (0 <=? fd); [|done]. unfold dup2. cbn [files].
      rewrite lookup_insert_eq. cbn [files].
      by destruct (<[STDOUT_FILENO:=log]> _ !! fd). }
    destruct Hkeep as [Hk1 Hk2].
    destruct (IH (reopen_log fd q) b) as [I1 I2]; [unfold installed; by rewrite Hk2|congruence| |].
    { rewrite Hr. destruct (0 <=? fd); [|done]. right. destruct Hqf as [-> | ->]; [done|].
      apply map_eq. intros k. rewrite !lookup_insert. repeat (case_decide; try done). }
    rewrite I1, I2, Hr. split; [done|]. destruct (0 <=? fd); [|done]. cbn [orb].
    destruct (existsb reopens ss); [done|]. destruct Hqf as [-> | ->]; [done|].
    apply map_eq. intros k. rewrite !lookup_insert. repeat (case_decide; try done).
  - destruct (stops s) eqn:Es; cbn [orb].
    + destruct (IH (handler q) true) as [I1 I2]; [done|done|done|]. rewrite I1, I2.
      by rewrite orb_true_r.
    + by apply IH.
Qed.

Definition null : Open := mkOpen "/dev/null" 2 0.

(** The log launchd opened, moved aside since. *)
Definition old : Open := mkOpen "/var/log/muta.log.0" 521 420.

Lemma signals_sound_witness :
  let p := reopen_log_on_hangup (install (mkProcess false ∅ {[0 := null; 1 := old; 2 := old]})) in
  let p' := deliveries [(SIGPIPE, 5); (SIGHUP, 5); (SIGHUP, -1)] p in
  requested p' = false /\ path <$> files p' !! 1 = Some "/var/log/muta.log" /\
  flags <$> files p' !! 2 = Some 521 /\
  files p' !! 5 = None.
Proof.
  intros p p'.
  destruct (signals_sound [(SIGPIPE, 5); (SIGHUP, 5); (SIGHUP, -1)] p) as [Hr Hf].
  - apply start_installed.
  - repeat (apply List.Forall_cons; [split; [by apply (bool_decide_unpack _); vm_compute|]|]);
      [by right|by right|by left|apply List.Forall_nil].
  - split; [exact Hr|]. fold p' in Hf. rewrite Hf. by vm_compute.
Defined.

End Signals.
