(* ===== verification/Service.v ===== *)
(** * The installed service

    [src/service.rs]: installing and removing the LaunchDaemon, and following
    the rotation of its log. The file system and [launchctl] are classes; what is
    printed and logged is left out. *)
From Stdlib Require Import ZArith Lia Ascii String.
From stdpp Require Import base numbers list strings gmap pretty.
From S2P Require Import Prelude Host Net Transport Status Signals.

Open Scope Z_scope.

Module Service.

Import Host.

Definition LABEL : string := "com.github.jost-s.muta".

Definition INSTALL_DIR : string := "/usr/local/libexec/muta".

Definition PLIST_PATH : string := "/Library/LaunchDaemons/com.github.jost-s.muta.plist".

Definition NEWSYSLOG_PATH : string := "/etc/newsyslog.d/muta.conf".

Definition LOG_PATH : string := "/var/log/muta.log".

(** The path the hangup handler opens is the path launchd is told to. *)
Lemma log_paths : LOG_PATH = Signals.LOG_PATH_C.
Proof. done. Qed.

Definition PID_PATH : string := "/var/run/muta.pid".

Definition SOCKET_PATH : string := "/var/run/muta.sock".

Definition LAUNCHCTL : string := "/bin/launchctl".

(** ** The file system *)

(** What [std::fs::metadata] gives: [st_mode], owner, device and inode. *)
Record Metadata : Type := mkMeta { st_mode : Z; st_uid : Z; st_dev : Z; st_ino : Z }.

(** [std::fs] and [libc::chown]: [inl] is [errno]. *)
Class Fs (W : Type) : Type :=
  { ENOENT : Z;
    current_exe : W -> Z + string;
    exists_path : string -> W -> bool;
    canonicalize : string -> W -> option string;
    metadata : string -> W -> Z + Metadata;
    stderr_metadata : W -> option Metadata;
    create_dir_all : string -> W -> (Z + unit) * W;
    set_permissions : string -> Z -> W -> (Z + unit) * W;
    chown : string -> Z -> Z -> W -> (Z + unit) * W;
    copy : string -> string -> W -> (Z + unit) * W;
    rename : string -> string -> W -> (Z + unit) * W;
    write : string -> string -> W -> (Z + unit) * W;
    remove_file : string -> W -> (Z + unit) * W;
    remove_dir : string -> W -> (Z + unit) * W;
    process_id : W -> Z }.

(** [Path::join], [with_extension] on a name without one, and [parent]. *)
Definition join_path (dir name : string) : string := dir +:+ "/" +:+ name.

Definition with_extension (path ext : string) : string := path +:+ "." +:+ ext.

Fixpoint last_slash (s : string) : option nat :=
  match s with
  | EmptyString => None
  | String c s =>
      match last_slash s with
      | Some n => Some (S n)
      | None => if Ascii.eqb c "/"%char then Some O else None
      end
  end.

Definition parent (path : string) : option string :=
  match last_slash path with
  | Some n => Some (String.substring 0 n path)
  | None => None
  end.

Definition installed_binary : string := join_path INSTALL_DIR "muta".

Definition staged_binary : string := with_extension installed_binary "new".

(** [0o755] and the like *)
Definition octal (u g o : Z) : Z := u * 64 + g * 8 + o.

(** The first NUL of a path. *)
Fixpoint nul_at (s : string) : option nat :=
  match s with
  | EmptyString => None
  | String c s => if Ascii.eqb c Ascii.zero then Some O else S <$> nul_at s
  end.

(** ** Fallible steps

    A function of the module runs in the world, and returns or fails; [?] is the
    bind. *)
Definition M (W A : Type) : Type := W -> outcome Error A * W.

Definition ret {W A} (a : A) : M W A := fun w => (Ok a, w).

Definition bind {W A B} (m : M W A) (k : A -> M W B) : M W B := fun w =>
  match m w with
  | (Ok a, w) => k a w
  | (Err e, w) => (Err e, w)
  | (Panic, w) => (Panic, w)
  end.

Declare Scope service_scope.
Delimit Scope service_scope with service.

Notation "'let?' x := m 'in' k" := (bind m (fun x => k))
  (at level 10, x name, m at level 100, k at level 200) : service_scope.

Notation "m ;? k" := (bind m (fun _ => k))
  (at level 110, k at level 200, right associativity) : service_scope.

Open Scope service_scope.

Definition fail {W A} (e : Error) : M W A := fun w => (Err e, w).

(** [let _ = m;] *)
Definition ignore {W A} (m : M W A) : M W unit := fun w =>
  match m w with
  | (Panic, w) => (Panic, w)
  | (_, w) => (Ok tt, w)
  end.

(** A system call, with the contexts its error gets. *)
Definition call {W A} (contexts : list string) (op : W -> (Z + A) * W) : M W A := fun w =>
  match op w with
  | (inl e, w) => (Err (mkError contexts (Os e)), w)
  | (inr a, w) => (Ok a, w)
  end.

Definition look {W A} (f : W -> A) : M W A := fun w => (Ok (f w), w).

Section service.
Context {W : Type} `{Fs W} `{Net.Runner W} `{Transport.Sleep W} `{Text}.

Definition launchctl (args : list string) : M W unit := fun w =>
  match Net.output LAUNCHCTL args w with
  | (inl e, w) => (Err (context "running launchctl" (os e)), w)
  | (inr o, w) =>
      if negb (Net.success o)
      then (Err (message ("launchctl " +:+ join " " args +:+ " failed: " +:+
                   trim (from_utf8_lossy (Net.stderr o)))), w)
      else (Ok tt, w)
  end.

Definition chown_root (path : string) : M W unit :=
  match nul_at path with
  | Some n => fail (message ("nul byte found in provided data at position: " +:+
                      pretty (Z.of_nat n)))
  | None => call ["setting root ownership on " +:+ path] (chown path 0 0)
  end.

(** [{:o}] *)
Fixpoint octal_digits (fuel : nat) (x : Z) (acc : string) : string :=
  match fuel with
  | O => acc
  | S fuel =>
      let acc := pretty (x mod 8) +:+ acc in
      if x <? 8 then acc else octal_digits fuel (x / 8) acc
  end.

(** Create [dir] and verify it ends up owned by root and writable only by
    root. *)
Definition root_owned_dir (dir : string) : M W unit :=
  call ["creating " +:+ dir] (create_dir_all dir) ;?
  call [] (set_permissions dir (octal 7 5 5)) ;?
  chown_root dir ;?
  let? meta := call [] (fun w => (metadata dir w, w)) in
  let mode := st_mode meta in
  if negb (st_uid meta =? 0) || negb (Z.land mode (octal 0 2 2) =? 0)
  then fail (message (dir +:+ " is not root-owned and root-writable-only (uid " +:+
    pretty (st_uid meta) +:+ ", mode " +:+ octal_digits 4 (Z.land mode (octal 7 7 7)) "" +:+
    "); refusing to install"))
  else ret tt.

Definition write_root_file (path contents : string) (mode : Z) : M W unit :=
  (match parent path with
   | Some dir => call [] (create_dir_all dir)
   | None => ret tt
   end) ;?
  call ["writing " +:+ path] (write path contents) ;?
  call [] (set_permissions path mode) ;?
  chown_root path.

(** [for attempt in 0..10 { .. }]; [remaining] counts the attempts still to come and
    [last] is the last error. *)
Fixpoint bootstrap_from (remaining : nat) (attempt : Z) (last : option Error) : M W unit := fun w =>
  match remaining with
  | O => match last with Some e => (Err e, w) | None => (Panic, w) end
  | S remaining =>
      match launchctl ["bootstrap"; "system"; PLIST_PATH] w with
      | (Ok _, w) => (Ok tt, w)
      | (Err e, w) =>
          bootstrap_from remaining (attempt + 1) (Some e)
            (Transport.sleep (from_millis (200 * (attempt + 1))) w)
      | (Panic, w) => (Panic, w)
      end
  end.

Definition bootstrap : M W unit := bootstrap_from 10 0 None.

Definition quote : string := String (Ascii.ascii_of_nat 34) EmptyString.

Definition newline : string := String (Ascii.ascii_of_nat 10) EmptyString.

Definition lines (l : list string) : string := foldr (fun s acc => s +:+ newline +:+ acc) EmptyString l.

(** Generated, so that the path names where the binary landed. *)
Definition plist (binary : string) : string :=
  lines
    ["<?xml version=" +:+ quote +:+ "1.0" +:+ quote +:+ " encoding=" +:+ quote +:+ "UTF-8" +:+
       quote +:+ "?>";
     "<!DOCTYPE plist PUBLIC " +:+ quote +:+ "-//Apple//DTD PLIST 1.0//EN" +:+ quote +:+ " " +:+
       quote +:+ "http://www.apple.com/DTDs/PropertyList-1.0.dtd" +:+ quote +:+ ">";
     "<plist version=" +:+ quote +:+ "1.0" +:+ quote +:+ ">";
     "<dict>";
     "    <key>Label</key>";
     "    <string>" +:+ LABEL +:+ "</string>";
     "";
     "    <key>ProgramArguments</key>";
     "    <array>";
     "        <string>" +:+ binary +:+ "</string>";
     "        <string>run</string>";
     "    </array>";
     "";
     "    <!-- Resident: the daemon watches for hotplug itself. -->";
     "    <key>RunAtLoad</key>";
     "    <true/>";
     "    <key>KeepAlive</key>";
     "    <true/>";
     "";
     "    <key>StandardOutPath</key>";
     "    <string>" +:+ LOG_PATH +:+ "</string>";
     "    <key>StandardErrorPath</key>";
     "    <string>" +:+ LOG_PATH +:+ "</string>";
     "";
     "    <!-- On the packet path: Background throttling stalls the link while the Mac is busy, e.g. after boot. -->";
     "    <key>ProcessType</key>";
     "    <string>Standard</string>";
     "</dict>";
     "</plist>"].

(** [B] keeps newsyslog's own line out of the log. *)
Definition NEWSYSLOG_CONF : string :=
  lines
    ["# logfilename          [owner:group]  mode count size  when flags [/pid_file]";
     "/var/log/muta.log      root:wheel     644   5     1000  *    JB    /var/run/muta.pid"].

(** Copying the running binary beside the target, and renaming it over. *)
Definition install_binary (source : string) : M W unit :=
  call ["copying " +:+ source +:+ " to " +:+ staged_binary] (copy source staged_binary) ;?
  call [] (set_permissions staged_binary (octal 7 5 5)) ;?
  chown_root staged_binary ;?
  call [] (rename staged_binary installed_binary).

Definition bootout : M W unit := ignore (launchctl ["bootout"; "system/" +:+ LABEL]).

Definition install : M W unit :=
  let? source := call ["locating the running executable"] (fun w => (current_exe w, w)) in
  let? running := look (exists_path PLIST_PATH) in
  (if running then bootout else ret tt) ;?
  root_owned_dir INSTALL_DIR ;?
  let? same := look (fun w => bool_decide (canonicalize source w = canonicalize installed_binary w)) in
  (if same then ret tt else install_binary source) ;?
  write_root_file PLIST_PATH (plist installed_binary) (octal 6 4 4) ;?
  write_root_file NEWSYSLOG_PATH NEWSYSLOG_CONF (octal 6 4 4) ;?
  bootstrap ;?
  ignore (launchctl ["enable"; "system/" +:+ LABEL]).

(** What [uninstall] removes, in order. *)
Definition installed_files : list string :=
  [PLIST_PATH; NEWSYSLOG_PATH; LOG_PATH; PID_PATH; SOCKET_PATH; installed_binary].

Fixpoint remove_files (paths : list string) : M W unit := fun w =>
  match paths with
  | [] => (Ok tt, w)
  | path :: paths =>
      match remove_file path w with
      | (inr _, w) => remove_files paths w
      | (inl e, w) =>
          if e =? ENOENT then remove_files paths w
          else (Err (message ("removing " +:+ path +:+ ": " +:+ strerror e)), w)
      end
  end.

Definition uninstall : M W unit :=
  let? present := look (exists_path PLIST_PATH) in
  (if present then bootout else ret tt) ;?
  remove_files installed_files ;?
  (fun w => (Ok tt, snd (remove_dir INSTALL_DIR w))).

(** ** The log of the service *)

Definition stderr_is_log (w : W) : bool :=
  match stderr_metadata w with
  | None => false
  | Some a =>
      match metadata LOG_PATH w with
      | inr b => (st_dev a =? st_dev b) && (st_ino a =? st_ino b)
      | inl _ => false
      end
  end.

Context `{Signals.Handlers W}.

(** Whether this process took on following the rotation. *)
Definition follow_log_rotation (w : W) : bool * W :=
  if stderr_is_log w then
    let w := Signals.reopen_log_on_hangup w in
    (true, snd (write PID_PATH (pretty (process_id w) +:+ newline) w))
  else (false, w).

Definition release_log (w : W) : W := snd (remove_file PID_PATH w).

End service.

(** ** What the system calls do

    The files a system holds, by path. The paths of the module are taken to be
    different files when they are different strings: nothing is linked to them. *)
Record Node : Type := mkNode
  { is_dir : bool; mode : Z; uid : Z; gid : Z; data : string }.

#[export] Instance Node_eq_dec : EqDecision Node.
Proof. solve_decision. Defined.

Abbreviation Files := (gmap string Node).

(** [q] is [p] or a directory above it. *)
Definition above (q p : string) : bool :=
  String.eqb q p || String.prefix (q +:+ "/") p.

(** What the daemon itself writes, when [launchctl] starts or stops it. *)
Definition runtime_files : list string := [LOG_PATH; PID_PATH; SOCKET_PATH].

(** The files of the service: those [install] puts in place, and those. *)
Definition service_files : list string :=
  [PLIST_PATH; NEWSYSLOG_PATH; installed_binary] ++ runtime_files.

(** A directory [install] makes sure of, or one above it. *)
Definition is_directory (p : string) : bool :=
  existsb (above p) [INSTALL_DIR; "/Library/LaunchDaemons"; "/etc/newsyslog.d"].

(** The documented effects. A failed call may leave the file it was making in
    any state, and no other; on a volume that ignores owners [chown] succeeds
    and sets none. *)
Class FsLaws (W : Type) `{Fs W} `{Net.Runner W} `{Transport.Sleep W} : Type :=
  { files : W -> Files;
    sleep_files d w : files (Transport.sleep d w) = files w;
    launchctl_files args w p :
      p ∉ runtime_files -> files (snd (Net.output LAUNCHCTL args w)) !! p = files w !! p;
    create_files d w p :
      above p d = false -> files (snd (create_dir_all d w)) !! p = files w !! p;
    create_keeps d w p n : files w !! p = Some n -> files (snd (create_dir_all d w)) !! p = Some n;
    permissions_files p m w :
      match set_permissions p m w with
      | (inr _, w') => exists n, files w !! p = Some n /\
          files w' = <[p := mkNode (is_dir n) m (uid n) (gid n) (data n)]> (files w)
      | (inl _, w') => files w' = files w
      end;
    chown_files p u g w :
      match chown p u g w with
      | (inr _, w') => exists n u' g', files w !! p = Some n /\
          files w' = <[p := mkNode (is_dir n) (mode n) u' g' (data n)]> (files w)
      | (inl _, w') => files w' = files w
      end;
    copy_files a b w :
      (forall p, p <> b -> files (snd (copy a b w)) !! p = files w !! p) /\
      (fst (copy a b w) = inr tt -> exists n n', files w !! a = Some n /\
        files (snd (copy a b w)) !! b = Some n' /\ is_dir n' = false /\ data n' = data n);
    rename_files a b w :
      match rename a b w with
      | (inr _, w') => exists n, files w !! a = Some n /\ files w' = <[b := n]> (delete a (files w))
      | (inl _, w') => files w' = files w
      end;
    write_files p s w :
      (forall q, q <> p -> files (snd (write p s w)) !! q = files w !! q) /\
      (fst (write p s w) = inr tt -> exists n, files (snd (write p s w)) !! p = Some n /\
        is_dir n = false /\ data n = s);
    remove_file_files p w :
      match remove_file p w with
      | (inr _, w') => files w' = delete p (files w)
      | (inl e, w') => files w' = files w /\ (e = ENOENT -> files w !! p = None)
      end;
    remove_dir_files p w :
      files (snd (remove_dir p w)) = files w \/ files (snd (remove_dir p w)) = delete p (files w);
    metadata_files p w m : metadata p w = inr m -> exists n, files w !! p = Some n /\
      st_uid m = uid n /\ Z.land (st_mode m) (octal 7 7 7) = Z.land (mode n) (octal 7 7 7) }.

Section laws.
Context {W : Type} `{FsLaws W} `{Text}.

(** A step that leaves the file at [p] as it is. *)
Definition keeps {A} (p : string) (m : M W A) : Prop :=
  forall w, files (snd (m w)) !! p = files w !! p.

Lemma keeps_done {A} p (a : A) : keeps p (ret a).
Proof. by intros w. Qed.

Lemma keeps_fail {A} p e : keeps p (fail e : M W A).
Proof. by intros w. Qed.

Lemma keeps_look {A} p (f : W -> A) : keeps p (look f).
Proof. by intros w. Qed.

Lemma keeps_then {A B} p (m : M W A) (k : A -> M W B) :
  keeps p m -> (forall a, keeps p (k a)) -> keeps p (bind m k).
Proof.
  intros Hm Hk w. specialize (Hm w). unfold bind. destruct (m w) as [[a|e|] w']; cbn in *; [|done..].
  by rewrite Hk.
Qed.

Lemma keeps_ignore {A} p (m : M W A) : keeps p m -> keeps p (ignore m).
Proof. intros Hm w. specialize (Hm w). unfold ignore. by destruct (m w) as [[a|e|] w']. Qed.

Lemma keeps_call {A} p c (op : W -> (Z + A) * W) :
  (forall w, files (snd (op w)) !! p = files w !! p) -> keeps p (call c op).
Proof. intros Ho w. specialize (Ho w). unfold call. by destruct (op w) as [[e|a] w']. Qed.

Lemma keeps_launchctl p args : p ∉ runtime_files -> keeps p (launchctl args).
Proof.
  intros Hp w. pose proof (launchctl_files args w p Hp) as Hl. unfold launchctl.
  destruct (Net.output LAUNCHCTL args w) as [[e|o] w']; [done|]. by destruct (negb _).
Qed.

Lemma keeps_permissions p q m c : p <> q -> keeps p (call c (set_permissions q m)).
Proof.
  intros Hn. apply keeps_call. intros w. pose proof (permissions_files q m w) as Hf.
  destruct (set_permissions q m w) as [[e|[]] w']; cbn; [by rewrite Hf|].
  destruct Hf as (n & _ & ->). rewrite lookup_insert. by case_decide.
Qed.

Lemma keeps_chown p q : p <> q -> keeps p (chown_root q).
Proof.
  intros Hn. unfold chown_root. destruct (nul_at q); [apply keeps_fail|].
  apply keeps_call. intros w. pose proof (chown_files q 0 0 w) as Hf.
  destruct (chown q 0 0 w) as [[e|[]] w']; cbn; [by rewrite Hf|].
  destruct Hf as (n' & u' & g' & _ & ->). rewrite lookup_insert. by case_decide.
Qed.

Lemma keeps_create p d c : above p d = false -> keeps p (call c (create_dir_all d)).
Proof. intros Ha. apply keeps_call. intros w. by apply create_files. Qed.

Lemma keeps_write p q t c : p <> q -> keeps p (call c (write q t)).
Proof. intros Hn. apply keeps_call. intros w. by apply (write_files q t w). Qed.

Lemma keeps_same {A} p (f : W -> Z + A) c : keeps p (call c (fun w => (f w, w))).
Proof. by apply keeps_call. Qed.

Lemma keeps_if {A} p (b : bool) (m k : M W A) : keeps p m -> keeps p k -> keeps p (if b then m else k).
Proof. by destruct b. Qed.

Lemma keeps_bootstrap_from p n k last :
  p ∉ runtime_files -> keeps p (bootstrap_from n k last).
Proof.
  intros Hp. revert k last. induction n as [|n IH]; intros k last w; cbn [bootstrap_from].
  - by destruct last.
  - pose proof (keeps_launchctl p ["bootstrap"; "system"; PLIST_PATH] Hp w) as Hl.
    destruct (launchctl _ w) as [[[]|e|] w']; cbn in Hl |- *; [done| |done].
    by rewrite IH, sleep_files.
Qed.

Lemma keeps_root_owned_dir p d :
  p <> d -> above p d = false -> keeps p (root_owned_dir d).
Proof.
  intros Hn Ha. unfold root_owned_dir. apply keeps_then; [by apply keeps_create|intros _].
  apply keeps_then; [by apply keeps_permissions|intros _].
  apply keeps_then; [by apply keeps_chown|intros _].
  apply keeps_then; [apply keeps_same|intros m]. apply keeps_if; [apply keeps_fail|apply keeps_done].
Qed.

Lemma keeps_write_root_file p q t m :
  p <> q -> (forall d, parent q = Some d -> above p d = false) -> keeps p (write_root_file q t m).
Proof.
  intros Hn Ha. unfold write_root_file. apply keeps_then; [|intros _].
  { destruct (parent q) as [d|]; [by apply keeps_create, Ha|apply keeps_done]. }
  apply keeps_then; [by apply keeps_write|intros _].
  apply keeps_then; [by apply keeps_permissions|intros _]. by apply keeps_chown.
Qed.

Lemma keeps_install_binary p src :
  p <> staged_binary -> p <> installed_binary -> keeps p (install_binary src).
Proof.
  intros Hs Hi. unfold install_binary. apply keeps_then; [|intros _].
  { apply keeps_call. intros w. by apply (copy_files src staged_binary w). }
  apply keeps_then; [by apply keeps_permissions|intros _].
  apply keeps_then; [by apply keeps_chown|intros _].
  apply keeps_call. intros w. pose proof (rename_files staged_binary installed_binary w) as Hr.
  destruct (rename _ _ w) as [[e|[]] w']; cbn; [by rewrite Hr|].
  destruct Hr as (n & _ & ->). rewrite lookup_insert_ne, lookup_delete_ne; done.
Qed.

(** ** Reasoning about what succeeds *)

Definition spec {A} (P : W -> Prop) (m : M W A) (Q : A -> W -> Prop) (E : W -> Prop) : Prop :=
  forall w, P w -> match m w with (Ok a, w') => Q a w' | (_, w') => E w' end.

Lemma spec_bind {A B} P R Q E (m : M W A) (k : A -> M W B) :
  spec P m R E -> (forall a, spec (R a) (k a) Q E) -> spec P (bind m k) Q E.
Proof.
  intros Hm Hk w Hw. specialize (Hm w Hw). unfold bind.
  destruct (m w) as [[a|e|] w']; [|done..]. by apply Hk.
Qed.

Lemma spec_weaken {A} P P' Q Q' E (m : M W A) :
  spec P m Q E -> (forall w, P' w -> P w) -> (forall a w, Q a w -> Q' a w) -> spec P' m Q' E.
Proof.
  intros Hm HP HQ w Hw. specialize (Hm w (HP w Hw)). destruct (m w) as [[a|e|] w']; auto.
Qed.

(** A property of one file survives the steps that keep the file. *)
Lemma spec_keeps {A} p (F : option Node -> Prop) (m : M W A) :
  keeps p m -> spec (fun w => F (files w !! p)) m (fun _ w => F (files w !! p)) (fun w => F (files w !! p)).
Proof.
  intros Hk w Hw. specialize (Hk w). destruct (m w) as [[a|e|] w']; cbn in Hk; by rewrite Hk.
Qed.

Lemma spec_keeps_two {A} p q (F : option Node -> option Node -> Prop) (m : M W A) :
  keeps p m -> keeps q m ->
  spec (fun w => F (files w !! p) (files w !! q)) m (fun _ w => F (files w !! p) (files w !! q))
    (fun w => F (files w !! p) (files w !! q)).
Proof.
  intros Hp Hq w Hw. specialize (Hp w). specialize (Hq w).
  destruct (m w) as [[a|e|] w']; cbn in Hp, Hq; by rewrite Hp, Hq.
Qed.

Lemma spec_and {A} P Q1 Q2 E1 E2 (m : M W A) :
  spec P m Q1 E1 -> spec P m Q2 E2 ->
  spec P m (fun a w => Q1 a w /\ Q2 a w) (fun w => E1 w /\ E2 w).
Proof.
  intros H1' H2' w Hw. specialize (H1' w Hw). specialize (H2' w Hw).
  by destruct (m w) as [[a|e|] w'].
Qed.

Definition is_file (text : string) (m : Z) (o : option Node) : Prop :=
  exists n, o = Some n /\ is_dir n = false /\ data n = text /\ mode n = m.

(** Owned by root, and writable by nobody else. *)
Definition root_only (o : option Node) : Prop :=
  exists n, o = Some n /\ uid n = 0 /\ Z.land (mode n) (octal 0 2 2) = 0.

Definition any (_ : W) : Prop := True.

Lemma root_owned_dir_spec d :
  spec any (root_owned_dir d) (fun _ w => root_only (files w !! d)) any.
Proof.
  intros w _. unfold root_owned_dir, bind. destruct (call _ (create_dir_all d) w) as [[?|?|] w1]; [|done..].
  destruct (call _ (set_permissions _ _) w1) as [[?|?|] w2]; [|done..].
  destruct (chown_root d w2) as [[?|?|] w3]; [|done..]. unfold call.
  destruct (metadata d w3) as [e|m] eqn:Em; [done|]. cbv beta iota zeta.
  apply metadata_files in Em as (n & Hn & Hu & Hm).
  destruct (Z.eqb_spec (st_uid m) 0) as [E0|]; [|done]. cbn [negb orb].
  destruct (Z.eqb_spec (Z.land (st_mode m) (octal 0 2 2)) 0) as [E1|]; [|done]. cbn.
  exists n. split; [done|]. split; [congruence|].
  change (octal 0 2 2) with (Z.land (octal 7 7 7) (octal 0 2 2)) in E1 |- *.
  rewrite Z.land_assoc in E1 |- *. by rewrite <- Hm.
Qed.

Lemma permissions_spec p m text c :
  spec (fun w => exists n, files w !! p = Some n /\ is_dir n = false /\ data n = text)
    (call c (set_permissions p m)) (fun _ w => is_file text m (files w !! p)) any.
Proof.
  intros w (n & Hn & Hd & Ht). unfold call. pose proof (permissions_files p m w) as Hp.
  destruct (set_permissions p m w) as [[e|[]] w']; [done|].
  destruct Hp as (n' & Hn' & ->). rewrite Hn in Hn'. injection Hn' as <-.
  rewrite lookup_insert. case_decide; [|done]. by eexists.
Qed.

Lemma chown_spec p m text :
  spec (fun w => is_file text m (files w !! p)) (chown_root p)
    (fun _ w => is_file text m (files w !! p)) any.
Proof.
  intros w (n & Hn & Hd & Ht & Hm). unfold chown_root. destruct (nul_at p); [done|]. unfold call.
  pose proof (chown_files p 0 0 w) as Hc. destruct (chown p 0 0 w) as [[e|[]] w']; [done|].
  destruct Hc as (n' & u & g & Hn' & ->). rewrite Hn in Hn'. injection Hn' as <-.
  rewrite lookup_insert. case_decide; [|done]. by eexists.
Qed.

Lemma write_root_file_spec p text m :
  spec any (write_root_file p text m) (fun _ w => is_file text m (files w !! p)) any.
Proof.
  unfold write_root_file. apply spec_bind with (R := fun _ => any).
  { intros w _. destruct (parent p); [|done]. by destruct (call _ _ w) as [[]]. }
  intros _. apply spec_bind with
    (R := fun _ w => exists n, files w !! p = Some n /\ is_dir n = false /\ data n = text).
  { intros w _. unfold call. destruct (write_files p text w) as [_ Hw].
    destruct (write p text w) as [[e|[]] w']; [done|]. by apply Hw. }
  intros _. apply spec_bind with (R := fun _ w => is_file text m (files w !! p));
    [apply permissions_spec|intros _; apply chown_spec].
Qed.

(** The binary is the copy that replaced it, or what it was. *)
Definition old_or_new (old src now : option Node) : Prop :=
  now = old \/ exists n, src = Some n /\ is_file (data n) (octal 7 5 5) now.

(** Everything up to the rename happens beside the target. *)
Lemma install_binary_spec src old s0 :
  src <> staged_binary -> staged_binary <> installed_binary ->
  spec (fun w => files w !! installed_binary = old /\ files w !! src = s0) (install_binary src)
    (fun _ w => exists n, s0 = Some n /\ is_file (data n) (octal 7 5 5) (files w !! installed_binary))
    (fun w => files w !! installed_binary = old).
Proof.
  intros Hs Hne. set (kept w := files w !! installed_binary = old).
  assert (Hk : forall A (m : M W A), keeps installed_binary m -> spec kept m (fun _ => kept) kept)
    by (intros A m; apply (spec_keeps installed_binary (fun o => o = old))).
  unfold install_binary. apply spec_bind with (R := fun _ w => kept w /\
    exists n0 n, s0 = Some n0 /\ files w !! staged_binary = Some n /\ is_dir n = false /\ data n = data n0).
  { intros w [Ho Hsrc]. unfold call. destruct (copy_files src staged_binary w) as [Hf Hc].
    destruct (copy src staged_binary w) as [[e|[]] w']; cbn in *; (split || unfold kept);
      try (unfold kept; by rewrite Hf).
    destruct (Hc eq_refl) as (n0 & n & Hn0 & Hn). exists n0, n. by rewrite <- Hsrc. }
  intros _. apply spec_bind with (R := fun _ w => kept w /\
    exists n0, s0 = Some n0 /\ is_file (data n0) (octal 7 5 5) (files w !! staged_binary)).
  { intros w (Ho & n0 & n & Hn0 & Hn). pose proof (Hk _ _ (keeps_permissions installed_binary staged_binary
      (octal 7 5 5) [] ltac:(done)) w Ho) as Hkw.
    pose proof (permissions_spec staged_binary (octal 7 5 5) (data n0) [] w
      (ex_intro _ n Hn)) as Hp.
    destruct (call _ _ w) as [[a|e|] w']; [|done..]. split; [done|]. by exists n0. }
  intros _. apply spec_bind with (R := fun _ w => kept w /\
    exists n0, s0 = Some n0 /\ is_file (data n0) (octal 7 5 5) (files w !! staged_binary)).
  { intros w (Ho & n0 & Hn0 & Hn).
    pose proof (Hk _ _ (keeps_chown installed_binary staged_binary ltac:(done)) w Ho) as Hkw.
    pose proof (chown_spec staged_binary (octal 7 5 5) (data n0) w Hn) as Hp.
    destruct (chown_root staged_binary w) as [[a|e|] w']; [|done..]. split; [done|]. by exists n0. }
  intros _ w (Ho & n0 & Hn0 & Hn). unfold call.
  pose proof (rename_files staged_binary installed_binary w) as Hr.
  destruct (rename _ _ w) as [[e|[]] w']; [red in Ho; by rewrite <- Hr in Ho|].
  destruct Hr as (n & Hn' & ->). rewrite lookup_insert. case_decide; [|done].
  exists n0. split; [done|]. by rewrite <- Hn'.
Qed.

(** A running executable that none of the module's paths names. *)
Definition elsewhere (p : string) : bool :=
  forallb (fun q => negb (String.eqb p q)) (INSTALL_DIR :: staged_binary :: service_files) &&
  negb (is_directory p).

Lemma is_directory_false p :
  is_directory p = false ->
  above p INSTALL_DIR = false /\ above p "/Library/LaunchDaemons" = false /\
  above p "/etc/newsyslog.d" = false.
Proof.
  unfold is_directory. cbn [existsb]. intros H'. repeat apply orb_false_iff in H' as [? H'].
  done.
Qed.

Lemma elsewhere_spec p :
  elsewhere p = true ->
  (p ∉ INSTALL_DIR :: staged_binary :: service_files) /\ is_directory p = false.
Proof.
  unfold elsewhere. intros He. apply andb_true_iff in He as [He Hd%negb_true_iff].
  split; [|done]. intros Hin. rewrite forallb_forall in He. apply list_elem_of_In in Hin.
  specialize (He p Hin). by rewrite String.eqb_refl in He.
Qed.

(** The steps of [install] after the binary is in place. *)
Definition publish : M W unit :=
  write_root_file PLIST_PATH (plist installed_binary) (octal 6 4 4) ;?
  write_root_file NEWSYSLOG_PATH NEWSYSLOG_CONF (octal 6 4 4) ;?
  bootstrap ;?
  ignore (launchctl ["enable"; "system/" +:+ LABEL]).

Lemma keeps_publish p :
  p ∉ [PLIST_PATH; NEWSYSLOG_PATH] ++ runtime_files ->
  above p "/Library/LaunchDaemons" = false -> above p "/etc/newsyslog.d" = false ->
  keeps p publish.
Proof.
  intros Hp Ha1 Ha2. rewrite not_elem_of_app in Hp. destruct Hp as [Hp Hr].
  rewrite !not_elem_of_cons in Hp. destruct Hp as (Hp1 & Hp2 & _).
  unfold publish. apply keeps_then; [|intros _; apply keeps_then; [|intros _; apply keeps_then; [|intros _]]].
  - apply keeps_write_root_file; [done|]. intros d Hd. vm_compute in Hd. by injection Hd as <-.
  - apply keeps_write_root_file; [done|]. intros d Hd. vm_compute in Hd. by injection Hd as <-.
  - by apply keeps_bootstrap_from.
  - by apply keeps_ignore, keeps_launchctl.
Qed.

(** The steps before. *)
Definition prepare : M W unit :=
  let? running := look (exists_path PLIST_PATH) in
  (if running then bootout else ret tt) ;? root_owned_dir INSTALL_DIR.

Lemma keeps_prepare p :
  p ∉ INSTALL_DIR :: runtime_files -> above p INSTALL_DIR = false -> keeps p prepare.
Proof.
  intros Hp Ha. apply not_elem_of_cons in Hp as [Hd Hr]. unfold prepare, bootout.
  apply keeps_then; [apply keeps_look|intros b]. apply keeps_then; [|intros _].
  - apply keeps_if; [by apply keeps_ignore, keeps_launchctl|apply keeps_done].
  - by apply keeps_root_owned_dir.
Qed.

Lemma bind_assoc {A B C} (m : M W A) (k : A -> M W B) (h : B -> M W C) w :
  bind (bind m k) h w = bind m (fun a => bind (k a) h) w.
Proof. unfold bind. by destruct (m w) as [[a|e|] w']. Qed.

Definition replace (source : string) : M W unit :=
  let? same := look (fun w => bool_decide (canonicalize source w = canonicalize installed_binary w)) in
  if same then ret tt else install_binary source.

Lemma install_steps w :
  install w =
    bind (call ["locating the running executable"] (fun w => (current_exe w, w)))
      (fun source => prepare ;? replace source ;? publish) w.
Proof.
  unfold install, bind. destruct (call _ _ w) as [[src|e|] w1]; [|done..].
  unfold prepare, replace, publish, bind, look. 
  destruct (exists_path PLIST_PATH w1), (bootout w1) as [[?|?|] w2]; try done; cbn;
    destruct (root_owned_dir INSTALL_DIR _) as [[?|?|] w3]; try done; by case_bool_decide.
Qed.

Lemma spec_fail {A} P Q E E' (m : M W A) :
  spec P m Q E -> (forall w, E w -> E' w) -> spec P m Q E'.
Proof.
  intros Hm HE w Hw. specialize (Hm w Hw). destruct (m w) as [[a|e|] w']; auto.
Qed.

(** A step after which [F] holds, followed by one that keeps the file. *)
Lemma spec_then {A B} p (F : option Node -> Prop) P (Q : B -> W -> Prop) (m : M W A) (k : M W B) :
  spec P m (fun _ w => F (files w !! p)) any -> keeps p k -> spec any k Q any ->
  spec P (m ;? k) (fun b w => F (files w !! p) /\ Q b w) any.
Proof.
  intros Hm Hk HQ. apply (spec_bind P (fun _ w => F (files w !! p))); [done|]. intros _.
  eapply spec_fail; [|by intros w _]. apply (spec_and _ _ _ (fun w => F (files w !! p)) any).
  - by apply (spec_keeps p F).
  - intros w Hw. exact (HQ w I).
Qed.

Lemma publish_spec :
  spec any publish (fun _ w =>
    is_file (plist installed_binary) (octal 6 4 4) (files w !! PLIST_PATH) /\
    is_file NEWSYSLOG_CONF (octal 6 4 4) (files w !! NEWSYSLOG_PATH) /\ True) any.
Proof.
  unfold publish.
  assert (Hend : forall p, p ∉ runtime_files ->
    keeps p (bootstrap ;? ignore (launchctl ["enable"; "system/" +:+ LABEL]))).
  { intros p Hp. apply keeps_then; [by apply keeps_bootstrap_from|].
    intros _. by apply keeps_ignore, keeps_launchctl. }
  apply (spec_then PLIST_PATH (is_file _ _)); [apply write_root_file_spec| |].
  - apply keeps_then; [|intros _; apply Hend; by apply (bool_decide_unpack _); vm_compute].
    apply keeps_write_root_file; [done|]. intros d Hd. vm_compute in Hd. by injection Hd as <-.
  - apply (spec_then NEWSYSLOG_PATH (is_file _ _)); [apply write_root_file_spec| |].
    + apply Hend. by apply (bool_decide_unpack _); vm_compute.
    + intros w _. by destruct (bind _ _ w) as [[]].
Qed.

Lemma replace_spec src old s0 :
  src <> staged_binary ->
  spec (fun w => files w !! installed_binary = old /\ files w !! src = s0) (replace src)
    (fun _ w => old_or_new old s0 (files w !! installed_binary))
    (fun w => old_or_new old s0 (files w !! installed_binary)).
Proof.
  intros Hs w [Ho Hsrc]. unfold replace, bind, look. case_bool_decide; [by left|].
  pose proof (install_binary_spec src old s0 Hs ltac:(done) w (conj Ho Hsrc)) as Hi.
  destruct (install_binary src w) as [[a|e|] w']; [by right|by left|by left].
Qed.

Lemma keeps_replace p src :
  p <> staged_binary -> p <> installed_binary -> keeps p (replace src).
Proof.
  intros. apply keeps_then; [apply keeps_look|intros b].
  apply keeps_if; [apply keeps_done|by apply keeps_install_binary].
Qed.

Lemma keeps_install p :
  p ∉ INSTALL_DIR :: staged_binary :: service_files -> is_directory p = false -> keeps p install.
Proof.
  intros Hp Hd w. apply is_directory_false in Hd as (Hd1 & Hd2 & Hd3).
  unfold service_files in Hp. rewrite install_steps.
  apply keeps_then; [apply keeps_same|intros src].
  apply keeps_then; [apply keeps_prepare; [set_solver|done]|intros _].
  apply keeps_then; [apply keeps_replace; set_solver|intros _].
  apply keeps_publish; [set_solver|done..].
Qed.

(** C24. Installing never leaves half a binary where launchd would run it: whatever
    fails, the installed binary is what it was or a complete copy of the running
    one, executable and in place by a single rename; when everything succeeds the
    directory belongs to root and only root can write to it, the property list
    and the rotation rule have their exact text, and no other file but the
    staged copy and what the daemon itself writes has changed. *)
Theorem install_atomic w r w' src :
  install w = (r, w') -> current_exe w = inr src -> elsewhere src = true ->
  old_or_new (files w !! installed_binary) (files w !! src) (files w' !! installed_binary) /\
  (r = Ok tt ->
    root_only (files w' !! INSTALL_DIR) /\
    is_file (plist installed_binary) (octal 6 4 4) (files w' !! PLIST_PATH) /\
    is_file NEWSYSLOG_CONF (octal 6 4 4) (files w' !! NEWSYSLOG_PATH)) /\
  (forall p, elsewhere p = true -> files w' !! p = files w !! p).
Proof.
  intros E0 Hc He. destruct (elsewhere_spec src He) as (Hin & Ha1).
  apply is_directory_false in Ha1 as [Ha1 _]. unfold service_files in Hin.
  pose proof E0 as E. rewrite install_steps in E. unfold bind at 1, call in E. rewrite Hc in E. split; [|split].
  - assert (Hs : spec (fun w0 => files w0 !! installed_binary = files w !! installed_binary /\
        files w0 !! src = files w !! src) (prepare ;? replace src ;? publish)
      (fun _ w0 => old_or_new (files w !! installed_binary) (files w !! src) (files w0 !! installed_binary))
      (fun w0 => old_or_new (files w !! installed_binary) (files w !! src) (files w0 !! installed_binary))).
    { apply (spec_bind _ (fun _ w0 => files w0 !! installed_binary = files w !! installed_binary /\
        files w0 !! src = files w !! src)).
      - eapply spec_fail.
        + apply (spec_keeps_two installed_binary src (fun a b => a = _ /\ b = _)); apply keeps_prepare.
          * by apply (bool_decide_unpack _); vm_compute.
          * by vm_compute.
          * set_solver.
          * done.
        + intros w0 [Ho _]. by left.
      - intros _. apply (spec_bind _ (fun _ w0 => old_or_new (files w !! installed_binary)
          (files w !! src) (files w0 !! installed_binary))).
        + apply replace_spec. set_solver.
        + intros _. apply (spec_keeps installed_binary (old_or_new _ _)). apply keeps_publish;
            [by apply (bool_decide_unpack _); vm_compute|by vm_compute..]. }
    specialize (Hs w (conj eq_refl eq_refl)). rewrite E in Hs. by destruct r as [a|e|].
  - intros ->.
    assert (Hs : spec any (prepare ;? replace src ;? publish) (fun _ w0 =>
      root_only (files w0 !! INSTALL_DIR) /\
      is_file (plist installed_binary) (octal 6 4 4) (files w0 !! PLIST_PATH) /\
      is_file NEWSYSLOG_CONF (octal 6 4 4) (files w0 !! NEWSYSLOG_PATH) /\ True) any).
    { apply (spec_then INSTALL_DIR root_only).
      - unfold prepare. intros w0 _. unfold bind at 1, look. unfold bind.
        destruct ((if exists_path PLIST_PATH w0 then bootout else ret tt) w0) as [[?|?|] w1]; [|done..].
        exact (root_owned_dir_spec INSTALL_DIR w1 I).
      - apply keeps_then; [by apply keeps_replace|intros _].
        apply keeps_publish; [by apply (bool_decide_unpack _); vm_compute|by vm_compute..].
      - intros w0 _. unfold bind. pose proof (publish_spec) as Hp.
        destruct (replace src w0) as [[?|?|] w1]; [|done..]. exact (Hp w1 I). }
    specialize (Hs w I). rewrite E in Hs. tauto.
  - intros p Hp. destruct (elsewhere_spec p Hp) as (Hin' & Hp').
    pose proof (keeps_install p Hin' Hp' w) as Hk. by rewrite E0 in Hk.
Qed.

(** ** Removing it again *)

Lemma remove_files_spec paths w :
  match remove_files paths w with
  | (Ok _, w') => forall p, files w' !! p = if bool_decide (p ∈ paths) then None else files w !! p
  | (Err _, w') => forall p, p ∉ paths -> files w' !! p = files w !! p
  | (Panic, _) => False
  end.
Proof.
  revert w. induction paths as [|q paths IH]; intros w; cbn [remove_files].
  { intros p. by rewrite bool_decide_eq_false_2 by apply not_elem_of_nil. }
  pose proof (remove_file_files q w) as Hr.
  assert (Hgone : forall w', files w' !! q = None -> (forall p, p <> q -> files w' !! p = files w !! p) ->
    match remove_files paths w' with
    | (Ok _, w'') => forall p, files w'' !! p = if bool_decide (p ∈ q :: paths) then None else files w !! p
    | (Err _, w'') => forall p, p ∉ q :: paths -> files w'' !! p = files w !! p
    | (Panic, _) => False
    end).
  { intros w' Hq Ho. specialize (IH w'). destruct (remove_files paths w') as [[[]|e|] w'']; [| |done].
    - intros p. rewrite IH. repeat case_bool_decide; try done; [set_solver| |].
      + assert (p = q) as -> by set_solver. done.
      + apply Ho. set_solver.
    - intros p Hp. rewrite IH by set_solver. apply Ho. set_solver. }
  destruct (remove_file q w) as [[e|[]] w1].
  - destruct Hr as [Hf Hn]. destruct (Z.eqb_spec e ENOENT) as [->|].
    + apply Hgone; [rewrite Hf; by apply Hn|by rewrite Hf].
    + intros p _. by rewrite Hf.
  - apply Hgone; rewrite Hr; [apply lookup_delete_eq|]. intros p Hp. by rewrite lookup_delete_ne.
Qed.

(** The staged copy is gone once it has been renamed. *)
Lemma install_unstages w w' :
  install w = (Ok tt, w') -> files w !! staged_binary = None -> files w' !! staged_binary = None.
Proof.
  intros E H0s. set (gone o := o = @None Node).
  assert (Hs : spec (fun w => gone (files w !! staged_binary)) install
    (fun _ w => gone (files w !! staged_binary)) any); [|specialize (Hs w H0s); by rewrite E in Hs].
  assert (Hk : forall A (m : M W A), keeps staged_binary m ->
    spec (fun w => gone (files w !! staged_binary)) m (fun _ w => gone (files w !! staged_binary)) any).
  { intros A m Hm. eapply spec_fail; [by apply spec_keeps|done]. }
  intros w0 Hw0. rewrite install_steps. revert w0 Hw0.
  apply (spec_bind _ (fun _ w => gone (files w !! staged_binary))); [by apply Hk, keeps_same|].
  intros src. apply (spec_bind _ (fun _ w => gone (files w !! staged_binary))); [|intros _].
  { apply Hk, keeps_prepare; [by apply (bool_decide_unpack _); vm_compute|by vm_compute]. }
  apply (spec_bind _ (fun _ w => gone (files w !! staged_binary))); [|intros _].
  - intros w0 Hw0. unfold replace, bind at 1, look. case_bool_decide; [done|].
    unfold install_binary, bind. destruct (call _ (copy _ _) w0) as [[?|?|] w1]; [|done..].
    destruct (call _ (set_permissions _ _) w1) as [[?|?|] w2]; [|done..].
    destruct (chown_root staged_binary w2) as [[?|?|] w3]; [|done..]. unfold call.
    pose proof (rename_files staged_binary installed_binary w3) as Hr.
    destruct (rename _ _ w3) as [[e|[]] w4]; [done|]. destruct Hr as (n & _ & ->).
    unfold gone. by rewrite lookup_insert_ne, lookup_delete_eq.
  - apply Hk, keeps_publish; [by apply (bool_decide_unpack _); vm_compute|by vm_compute..].
Qed.

Lemma installed_service p : p ∈ installed_files <-> p ∈ service_files.
Proof. unfold installed_files, service_files, runtime_files. set_solver. Qed.

(** Stopping the service. *)
Lemma boot_files (w : W) :
  fst ((if exists_path PLIST_PATH w then bootout else ret tt) w) = Ok tt /\
  forall p, p ∉ service_files ->
    files (snd ((if exists_path PLIST_PATH w then bootout else ret tt) w)) !! p = files w !! p.
Proof.
  destruct (exists_path PLIST_PATH w); [|done]. split.
  - unfold bootout, ignore, launchctl. destruct (Net.output _ _ w) as [[e|o] w1]; [done|].
    by destruct (negb _).
  - intros p Hp. apply keeps_ignore, keeps_launchctl.
    intros Hr. apply Hp. by apply elem_of_app; right.
Qed.

(** What [uninstall] does to the files, whatever it finds. *)
Lemma uninstall_files (w : W) r w' :
  uninstall w = (r, w') ->
  (forall p, p ∉ INSTALL_DIR :: service_files -> files w' !! p = files w !! p) /\
  match r with
  | Ok _ => forall p, p ∈ service_files -> files w' !! p = None
  | Err _ => True
  | Panic => False
  end /\
  (files w' !! INSTALL_DIR = files w !! INSTALL_DIR \/ files w' !! INSTALL_DIR = None).
Proof.
  assert (Hdir : INSTALL_DIR ∉ service_files) by (by apply (bool_decide_unpack _); vm_compute).
  intros E. unfold uninstall, bind, look in E. destruct (boot_files w) as [Hr Hk].
  destruct ((if exists_path PLIST_PATH w then bootout else ret tt) w) as [r1 w1]. cbn in Hr, Hk. subst r1.
  pose proof (remove_files_spec installed_files w1) as Hs.
  destruct (remove_files installed_files w1) as [[[]|e|] w2]; [| |done].
  - injection E as <- <-.
    assert (Hf : files (snd (remove_dir INSTALL_DIR w2)) = files w2 \/
      files (snd (remove_dir INSTALL_DIR w2)) = delete INSTALL_DIR (files w2)) by apply remove_dir_files.
    assert (Hout : forall p, p ∉ service_files -> files w2 !! p = files w !! p).
    { intros p Hp. rewrite Hs, bool_decide_eq_false_2 by (by rewrite installed_service). by apply Hk. }
    repeat split.
    + intros p Hp. apply not_elem_of_cons in Hp as [Hpd Hp]. rewrite <- (Hout p Hp).
      destruct Hf as [-> | ->]; [done|]. by rewrite lookup_delete_ne.
    + intros p Hp. assert (H0p : files w2 !! p = None)
        by (rewrite Hs, bool_decide_eq_true_2; [done|by apply installed_service]).
      destruct Hf as [-> | ->]; [done|]. rewrite lookup_delete. by case_decide.
    + destruct Hf as [-> | ->]; [left; by apply Hout|right; apply lookup_delete_eq].
  - injection E as <- <-.
    assert (Hout : forall p, p ∉ service_files -> files w2 !! p = files w !! p).
    { intros p Hp. rewrite Hs by (by rewrite installed_service). by apply Hk. }
    repeat split; [|left; by apply Hout]. intros p Hp. by apply not_elem_of_cons in Hp as [_ Hp]; apply Hout.
Qed.

(** C25. Installing, running and uninstalling the service leaves no file behind:
    after [uninstall] has succeeded its property list, rotation rule, binary, log,
    pid file and socket are gone, and whatever else is there that was not there
    before [install] (which may have failed anywhere) is a directory, a copy
    staged by an [install] that failed, or not the service's: it was put there
    between the two by something else, newsyslog's rotated logs included. No other
    file changes, an [uninstall] that fails included; the directory itself stays or
    goes. *)
Theorem uninstall_removes w0 r0 w1 w2 r w3 :
  install w0 = (r0, w1) -> uninstall w2 = (r, w3) ->
  r <> Panic /\
  (forall p, p ∉ INSTALL_DIR :: service_files -> files w3 !! p = files w2 !! p) /\
  (files w3 !! INSTALL_DIR = files w2 !! INSTALL_DIR \/ files w3 !! INSTALL_DIR = None) /\
  (r = Ok tt ->
    (forall p, p ∈ service_files -> files w3 !! p = None) /\
    (forall p, files w0 !! p = None -> is_Some (files w3 !! p) ->
      is_directory p = true \/ (p = staged_binary /\ r0 <> Ok tt) \/
      (~ (p ∈ runtime_files) /\ files w2 !! p <> files w1 !! p))).
Proof.
  intros E0 E. destruct (uninstall_files w2 r w3 E) as (Hk & Hr & Hd).
  split; [by intros ->|]. split; [done|]. split; [exact Hd|]. intros ->. split; [done|].
  intros p Hp [n Hn]. destruct (is_directory p) eqn:Ed; [by left|right].
  assert (Hsvc : p ∉ service_files) by (intros Hin; rewrite Hr in Hn; done).
  assert (Hdir : p <> INSTALL_DIR) by (intros ->; by vm_compute in Ed).
  destruct (decide (files w2 !! p = files w1 !! p)) as [Heq|Hne].
  2: { right. split; [|done]. unfold service_files in Hsvc. set_solver. }
  rewrite Hk, Heq in Hn by set_solver. left.
  destruct (decide (p = staged_binary)) as [->|Hst]; [split; [done|]|].
  - intros ->. by rewrite (install_unstages w0 w1 E0 Hp) in Hn.
  - pose proof (keeps_install p ltac:(set_solver) Ed w0) as Hki. rewrite E0 in Hki.
    cbn in Hki. congruence.
Qed.

(** The world before attempt [k] of [bootstrap], when those before it failed. *)
Fixpoint attempts (k : nat) (w : W) : W :=
  match k with
  | O => w
  | S k => Transport.sleep (from_millis (200 * (Z.of_nat k + 1)))
             (snd (launchctl ["bootstrap"; "system"; PLIST_PATH] (attempts k w)))
  end.

Definition attempt (k : nat) (w : W) : outcome Error unit :=
  fst (launchctl ["bootstrap"; "system"; PLIST_PATH] (attempts k w)).

Lemma launchctl_returns args (w : W) : fst (launchctl args w) <> Panic.
Proof.
  unfold launchctl. destruct (Net.output _ _ w) as [[e|o] w1]; [done|]. by destruct (negb _).
Qed.

(** Attempts [k], [k + 1], and so on. *)
Lemma bootstrap_from_spec n k last w :
  (forall i, (i < k)%nat -> attempt i w <> Ok tt) -> (k = 0%nat <-> last = None) -> (0 < n + k)%nat ->
  (forall e, last = Some e -> attempt (k - 1) w = Err e) ->
  match bootstrap_from n (Z.of_nat k) last (attempts k w) with
  | (Ok _, w') => exists i, (i < k + n)%nat /\ attempt i w = Ok tt /\
      (forall j, (j < i)%nat -> attempt j w <> Ok tt) /\
      w' = snd (launchctl ["bootstrap"; "system"; PLIST_PATH] (attempts i w))
  | (Err e, w') => (forall i, (i < k + n)%nat -> attempt i w <> Ok tt) /\
      attempt (k + n - 1) w = Err e /\ w' = attempts (k + n) w
  | (Panic, _) => False
  end.
Proof.
  revert k last. induction n as [|n IH]; intros k last Hno Hz Hpos Hl; cbn [bootstrap_from].
  - destruct last as [e|]; [|pose proof (proj2 Hz eq_refl); lia].
    rewrite Nat.add_0_r. split; [done|]. split; [by apply Hl|done].
  - pose proof (launchctl_returns ["bootstrap"; "system"; PLIST_PATH] (attempts k w)) as Hp.
    destruct (launchctl _ (attempts k w)) as [[[]|e|] w1] eqn:E; cbn in Hp; [| |done].
    + exists k. unfold attempt. rewrite E. split; [lia|]. by split.
    + assert (Ha : attempt k w = Err e) by (unfold attempt; by rewrite E).
      specialize (IH (S k) (Some e)).
      replace (Z.of_nat k + 1) with (Z.of_nat (S k)) in * by lia.
      assert (Hw : attempts (S k) w = Transport.sleep (from_millis (200 * Z.of_nat (S k))) w1).
      { cbn [attempts]. rewrite E. cbn [snd]. do 3 f_equal. lia. }
      rewrite Hw in IH. replace (k + S n)%nat with (S k + n)%nat by lia. apply IH.
      * intros i Hi. destruct (decide (i = k)) as [->|]; [by rewrite Ha|]. apply Hno. lia.
      * split; [lia|done].
      * lia.
      * intros e' [= <-]. cbn. by rewrite Nat.sub_0_r.
Qed.

(** C26. Bootstrapping tries at most ten times, pausing longer after each refusal: it
    succeeds with the first attempt that does, and otherwise fails with the
    error of the tenth; it never runs out of errors to report. *)
Theorem bootstrap_retries w r w' :
  bootstrap w = (r, w') ->
  match r with
  | Ok _ => exists i, (i < 10)%nat /\ attempt i w = Ok tt /\
      (forall j, (j < i)%nat -> attempt j w <> Ok tt)
  | Err e => (forall i, (i < 10)%nat -> attempt i w <> Ok tt) /\ attempt 9 w = Err e /\
      w' = attempts 10 w
  | Panic => False
  end.
Proof.
  intros E. unfold bootstrap in E. pose proof (bootstrap_from_spec 10 0 None w) as Hs.
  specialize (Hs ltac:(intros i Hi; lia) (conj (fun _ => eq_refl) (fun _ => eq_refl))
    ltac:(lia) ltac:(done)).
  change (Z.of_nat 0) with 0 in Hs. change (attempts 0 w) with w in Hs.
  rewrite E in Hs. destruct r as [[]|e|]; [|exact Hs|exact Hs].
  destruct Hs as (i & Hi & Ha & Hj & _). by exists i.
Qed.

End laws.

(** ** A disk

    The calls on the paths of [broken] fail, [launchctl bootstrap] fails while
    the old job is [leaving], and owners are honoured or not. *)
Record Disk : Type := mkDisk
  { disk : Files; exe : string; broken : list string; leaving : nat; owners : bool;
    asked : list (list string) }.

Definition put (f : Files) (d : Disk) : Disk :=
  mkDisk f (exe d) (broken d) (leaving d) (owners d) (asked d).

Definition touch (p : string) (d : Disk) (f : Node -> Files) : (Z + unit) * Disk :=
  match disk d !! p with
  | Some n => if bool_decide (p ∈ broken d) then (inl 5, d) else (inr tt, put (f n) d)
  | None => (inl 2, d)
  end.

#[export] Instance disk_fs : Fs Disk :=
  { ENOENT := 2;
    current_exe d := inr (exe d);
    exists_path p d := bool_decide (is_Some (disk d !! p));
    canonicalize p d := (fun _ => p) <$> disk d !! p;
    metadata p d :=
      match disk d !! p with Some n => inr (mkMeta (mode n) (uid n) 1 1) | None => inl 2 end;
    stderr_metadata d := None;
    create_dir_all p d :=
      match disk d !! p with
      | Some _ => (inr tt, d)
      | None => (inr tt, put (<[p := mkNode true 511 0 0 ""]> (disk d)) d)
      end;
    set_permissions p m d :=
      touch p d (fun n => <[p := mkNode (is_dir n) m (uid n) (gid n) (data n)]> (disk d));
    chown p u g d :=
      touch p d (fun n =>
        <[p := if owners d then mkNode (is_dir n) (mode n) u g (data n) else n]> (disk d));
    copy a b d :=
      touch a d (fun n => <[b := mkNode false (mode n) 0 0 (data n)]> (disk d));
    rename a b d := touch a d (fun n => <[b := n]> (delete a (disk d)));
    write p s d :=
      if bool_decide (p ∈ broken d) then (inl 28, d)
      else (inr tt, put (<[p := mkNode false 420 0 0 s]> (disk d)) d);
    remove_file p d := touch p d (fun n => delete p (disk d));
    remove_dir p d := touch p d (fun n => delete p (disk d));
    process_id _ := 1 }.

#[export] Instance disk_runner : Net.Runner Disk := fun program args d =>
  let d' := mkDisk (disk d) (exe d) (broken d) (pred (leaving d)) (owners d) (asked d ++ [args]) in
  (inr (Net.mkOutput (bool_decide (leaving d = 0%nat)) [] []), d').

#[export] Instance disk_sleep : Transport.Sleep Disk := fun _ d => d.

#[export] Instance disk_laws : FsLaws Disk.
Proof.
  refine {| files := disk |}; cbn; try done.
  - intros d w p Ha. destruct (disk w !! d); cbn; [done|]. rewrite lookup_insert_ne; [done|].
    intros ->. unfold above in Ha. by rewrite String.eqb_refl in Ha.
  - intros d w p n Hn. destruct (disk w !! d) eqn:E; cbn; [done|].
    rewrite lookup_insert_ne; [done|]. intros ->. congruence.
  - intros p m w. unfold touch. destruct (disk w !! p) as [n|] eqn:E; [|done].
    case_bool_decide; [done|]. cbn. by exists n.
  - intros p u g w. unfold touch. destruct (disk w !! p) as [n|] eqn:E; [|done].
    case_bool_decide; [done|]. cbn. destruct (owners w).
    + by exists n, u, g.
    + exists n, (uid n), (gid n). by destruct n.
  - intros x y w. unfold touch. destruct (disk w !! x) as [n|] eqn:E; [|by split].
    case_bool_decide; [by split|]. cbn. split.
    + intros p Hp. by rewrite lookup_insert_ne.
    + intros _. exists n, (mkNode false (mode n) 0 0 (data n)). by rewrite lookup_insert_eq.
  - intros x y w. unfold touch. destruct (disk w !! x) as [n|] eqn:E; [|done].
    case_bool_decide; [done|]. cbn. by exists n.
  - intros p s w. case_bool_decide; cbn; [by split|]. split.
    + intros q Hq. by rewrite lookup_insert_ne.
    + intros _. eexists. by rewrite lookup_insert_eq.
  - intros p w. unfold touch. destruct (disk w !! p) eqn:E; [|done].
    by case_bool_decide; cbn.
  - intros p w. unfold touch. destruct (disk w !! p); [|by left]. case_bool_decide; cbn; auto.
  - intros p w m. destruct (disk w !! p) as [n|] eqn:E; [|done]. intros [= <-]. by exists n.
Defined.

#[local] Existing Instance Host.sim_text.

Definition downloaded : string := "/Users/me/muta".

(** The first installation, with the old job gone after two attempts. *)
Definition fresh (broken : list string) (owners : bool) : Disk :=
  mkDisk {[ downloaded := mkNode false 493 501 20 "binary" ]} downloaded broken 2 owners [].

Lemma install_atomic_witness :
  let '(r, d) := install (fresh [] true) in
  r = Ok tt /\ root_only (disk d !! INSTALL_DIR) /\
  old_or_new None (Some (mkNode false 493 501 20 "binary")) (disk d !! installed_binary) /\
  zlen (asked d) = 4.
Proof.
  pose proof (install_atomic (fresh [] true)) as Hi.
  destruct (install (fresh [] true)) as [r d] eqn:E.
  specialize (Hi r d downloaded eq_refl eq_refl ltac:(by vm_compute)) as (Hb & Hok & _).
  assert (Hr : r = Ok tt /\ zlen (asked d) = 4) by (vm_compute in E; injection E as <- <-; by vm_compute).
  destruct Hr as [Hr Ha]. destruct (Hok Hr) as (Hd & _). repeat split; [exact Hr|exact Hd|exact Hb|exact Ha].
Defined.

(** On a volume that ignores owners the directory is refused. *)
Definition ignoring : Disk :=
  put (<[INSTALL_DIR := mkNode true 493 99 0 ""]> (disk (fresh [] false))) (fresh [] false).

Lemma ownerless_refused :
  match install ignoring with
  | (Err e, d) => disk d !! installed_binary = None /\ disk d !! staged_binary = None
  | _ => False
  end.
Proof. by vm_compute. Qed.

(** A failed [chown] of the copy leaves it behind, and uninstalling does not
    remove it. *)
Lemma staged_left_behind :
  let d := snd (install (fresh [staged_binary] true)) in
  is_Some (disk d !! staged_binary) /\ is_Some (disk (snd (uninstall d)) !! staged_binary).
Proof. vm_compute. split; by eexists. Qed.

(** The service ran, and wrote its log and its pid file; newsyslog rotated the
    log once. *)
Definition rotated_log : string := LOG_PATH +:+ ".0".

Definition ran (d : Disk) : Disk :=
  let file text := mkNode false 420 0 0 text in
  put (<[LOG_PATH := file "log"]> (<[PID_PATH := file "1"]> (<[rotated_log := file "log"]> (disk d)))) d.

Lemma uninstall_removes_witness :
  let d := ran (snd (install (fresh [] true))) in
  exists d', uninstall d = (Ok tt, d') /\ disk d' !! installed_binary = None /\
    disk d' !! PID_PATH = None /\ disk d' !! downloaded = disk d !! downloaded /\
    elements (dom (disk d')) ≡ₚ [downloaded; rotated_log; "/Library/LaunchDaemons"; "/etc/newsyslog.d"].
Proof.
  intros d. pose proof (uninstall_removes (fresh [] true)) as Hu.
  destruct (install (fresh [] true)) as [r1 d1] eqn:E1. specialize (Hu r1 d1 d).
  destruct (uninstall d) as [r d'] eqn:E. specialize (Hu r d' eq_refl eq_refl).
  assert (Hd : r = Ok tt /\ elements (dom (disk d')) ≡ₚ
    [downloaded; rotated_log; "/Library/LaunchDaemons"; "/etc/newsyslog.d"]).
  { subst d. vm_compute in E1. injection E1 as <- <-. vm_compute in E. injection E as <- <-.
    split; [done|]. by apply (bool_decide_unpack _); vm_compute. }
  destruct Hd as [-> Hd]. destruct Hu as (_ & Hk & _ & Hok). destruct (Hok eq_refl) as [Hg _].
  exists d'. split; [done|].
  split; [apply Hg; by apply (bool_decide_unpack _); vm_compute|].
  split; [apply Hg; by apply (bool_decide_unpack _); vm_compute|].
  split; [apply Hk; by apply (bool_decide_unpack _); vm_compute|exact Hd].
Defined.

Lemma bootstrap_retries_witness :
  exists i, (i < 10)%nat /\ attempt i (fresh [] true) = Ok tt.
Proof.
  pose proof (bootstrap_retries (fresh [] true)) as Hb.
  destruct (bootstrap (fresh [] true)) as [r d] eqn:E. specialize (Hb r d eq_refl).
  assert (Hr : r = Ok tt) by (vm_compute in E; by injection E as <-). subst r.
  destruct Hb as (i & Hi & Ha & _). by exists i.
Defined.

End Service.
