(* ===== verification/Server.v ===== *)
(** * The status server

    [src/status.rs], lines 53-137 and 158-164: the socket the daemon serves its
    status on, the thread that answers, and the client's query. The listener and
    its streams are a class; the status is shared with the daemon, which updates
    it between the thread's steps. *)
From Stdlib Require Import ZArith Lia.
From stdpp Require Import base numbers list strings gmap sorting.
From S2P Require Import Prelude Host Transport Status Net Service.

Open Scope Z_scope.

Module Server.

Import Host.

Definition SOCKET_PATH : string := Service.SOCKET_PATH.

(** What [accept] gives on a listener that does not block. *)
Inductive Accepted (S : Type) : Type :=
| Stream (s : S)
| WouldBlock
| AcceptFailed (errno : Z).

Arguments Stream {S} s.
Arguments WouldBlock {S}.
Arguments AcceptFailed {S} errno.

(** [UnixListener], [UnixStream], and the [Builder::spawn] of the thread. *)
Class Sockets (W : Type) : Type :=
  { Sock : Type; Conn : Type;
    bind : string -> W -> (Z + Sock) * W;
    listener_nonblocking : Sock -> W -> (Z + unit) * W;
    accept : Sock -> W -> Accepted Conn * W;
    stream_blocking : Conn -> W -> (Z + unit) * W;
    try_clone : Conn -> W -> (Z + unit) * W;
    read_line : Conn -> W -> (Z + list Z) * W;
    write_all : Conn -> list Z -> W -> (Z + unit) * W;
    connect : string -> W -> (Z + Conn) * W;
    spawn : W -> (Z + unit) * W }.

Arguments Sock W {_}.
Arguments Conn W {_}.

Section server.
Context {W : Type} `{Sockets W} `{Service.Fs W} `{Transport.Sleep W} `{Text}.

(** The listener, the status shared with the daemon, and the flag. *)
Record StatusServer : Type := mkServer
  { listener : Sock W; shared : Status.Status; stopping : bool }.

(** [StatusServer::start]. When the thread cannot be spawned the socket stays behind. *)
Definition start (w : W) : Result StatusServer * W :=
  let w := snd (Service.remove_file SOCKET_PATH w) in
  match bind SOCKET_PATH w with
  | (inl e, w) => (err (mkError ["binding " +:+ SOCKET_PATH] (Os e)), w)
  | (inr l, w) =>
      match listener_nonblocking l w with
      | (inl e, w) => (err (os e), w)
      | (inr _, w) =>
          match Service.set_permissions SOCKET_PATH (Service.octal 6 6 6) w with
          | (inl e, w) => (err (mkError ["relaxing permissions on " +:+ SOCKET_PATH] (Os e)), w)
          | (inr _, w) =>
              match spawn w with
              | (inl e, w) => (err (os e), w)
              | (inr _, w) => (ok (mkServer l Status.default_status false), w)
              end
          end
      end
  end.

Definition update (f : Status.Status -> Status.Status) (s : StatusServer) : StatusServer :=
  mkServer (listener s) (f (shared s)) (stopping s).

(** [Drop], before the thread is joined, and once it is. *)
Definition stop (s : StatusServer) : StatusServer := mkServer (listener s) (shared s) true.

Definition remove_socket (w : W) : W := snd (Service.remove_file SOCKET_PATH w).

(** One client: whatever it asks, it gets the status. *)
Definition handle (c : Conn W) (st : Status.Status) (w : W) : Result unit * W :=
  match stream_blocking c w with
  | (inl e, w) => (err (os e), w)
  | (inr _, w) =>
      match try_clone c w with
      | (inl e, w) => (err (os e), w)
      | (inr _, w) =>
          let '(_, w) := read_line c w in
          match write_all c (Status.encode st) w with
          | (inl e, w) => (err (os e), w)
          | (inr _, w) => (ok tt, w)
          end
      end
  end.

(** Where the thread of [serve] is: about to look at the flag, with a client it has
    accepted, with the status it has cloned under the lock for that client, or
    returned. *)
Inductive Phase : Type :=
| Looking
| Connected (c : Conn W)
| Answering (c : Conn W) (status : Status.Status)
| Returned.

(** One step of the thread; the lock is released between the clone and the reply. *)
Definition serve_step (t : Phase) (s : StatusServer) (w : W) : Phase * W :=
  match t with
  | Looking =>
      if stopping s then (Returned, w)
      else match accept (listener s) w with
           | (Stream c, w) => (Connected c, w)
           | (WouldBlock, w) => (Looking, Transport.sleep (from_millis 100) w)
           | (AcceptFailed _, w) => (Returned, w)
           end
  | Connected c => (Answering c (shared s), w)
  | Answering c status => (Looking, snd (handle c status w))
  | Returned => (Returned, w)
  end.

(** [query]: the client's end of it. *)
Definition query (w : W) : Result (list Z) * W :=
  match connect SOCKET_PATH w with
  | (inl e, w) => (err (os e), w)
  | (inr c, w) =>
      match write_all c (Status.bytes_of "status" ++ [Status.NEWLINE]) w with
      | (inl e, w) => (err (os e), w)
      | (inr _, w) =>
          match read_line c w with
          | (inl e, w) => (err (os e), w)
          | (inr reply, w) => (ok reply, w)
          end
      end
  end.

(** What [print_status] does: the lines it prints, or those it prints to standard
    error before it exits with code 1. *)
Inductive Shown : Type :=
| Printed (fields : list (list Z))
| Exited (stderr : list string).

Definition print_status (w : W) : Shown * W :=
  match query w with
  | (ok reply, w) => (Printed (Status.print_fields reply), w)
  | (err e, w) =>
      (Exited ["muta: cannot reach the service (" +:+ to_string e +:+ ")";
               "is it running? try `sudo muta run` or `sudo muta install`"], w)
  end.

(** ** The thread among the daemon's updates *)

Record Config : Type := mkConfig { phase : Phase; server : StatusServer; world : W }.

(** A step of the thread, an update or a stop by the daemon. *)
Inductive step : Config -> Config -> Prop :=
| step_thread t s w : step (mkConfig t s w) (mkConfig (fst (serve_step t s w)) s (snd (serve_step t s w)))
| step_update f t s w : step (mkConfig t s w) (mkConfig t (update f s) w)
| step_stop t s w : step (mkConfig t s w) (mkConfig t (stop s) w).

(** [run past c]: the server came to [c] through the configurations [past]. *)
Inductive run : list Config -> Config -> Prop :=
| run_start s w : run [] (mkConfig Looking s w)
| run_step past c c' : run past c -> step c c' -> run (past ++ [c]) c'.

End server.

Arguments StatusServer W {_}.
Arguments Phase W {_}.
Arguments Config W {_}.
Arguments Looking {W _}.
Arguments Returned {W _}.

(** [replies] is what was sent in full, oldest first; nothing but [write_all]
    sends. *)
Class SocketLaws (W : Type) `{Sockets W} `{Transport.Sleep W} : Type :=
  { replies : W -> list (list Z);
    accept_quiet l w : replies (snd (accept l w)) = replies w;
    blocking_quiet c w : replies (snd (stream_blocking c w)) = replies w;
    clone_quiet c w : replies (snd (try_clone c w)) = replies w;
    read_quiet c w : replies (snd (read_line c w)) = replies w;
    sleep_quiet d w : replies (Transport.sleep d w) = replies w;
    write_replies c b w : replies (snd (write_all c b w)) =
      match fst (write_all c b w) with inr _ => replies w ++ [b] | inl _ => replies w end }.

Section laws.
Context {W : Type} `{SocketLaws W} `{Service.Fs W} `{Text}.

Lemma handle_replies c st w :
  replies (snd (handle c st w)) = replies w \/
  replies (snd (handle c st w)) = replies w ++ [Status.encode st].
Proof.
  unfold handle. pose proof (blocking_quiet c w) as Hb.
  destruct (stream_blocking c w) as [[e|[]] w1]; cbn in Hb; [by left|].
  pose proof (clone_quiet c w1) as Hc.
  destruct (try_clone c w1) as [[e|[]] w2]; cbn in Hc; [left; cbn; congruence|].
  pose proof (read_quiet c w2) as Hr. destruct (read_line c w2) as [r w3]. cbn in Hr.
  pose proof (write_replies c (Status.encode st) w3) as Hw.
  destruct (write_all c (Status.encode st) w3) as [[e|[]] w4]; cbn in Hw |- *; [left|right]; congruence.
Qed.

(** Only the reply to a client sends. *)
Lemma step_replies c c' :
  step c c' ->
  replies (world c') = replies (world c) \/
  exists k status, phase c = Answering k status /\
    replies (world c') = replies (world c) ++ [Status.encode status].
Proof.
  intros [t s w|f t s w|t s w]; cbn [phase server world]; [|by left..].
  destruct t as [|k|k status|]; cbn [serve_step snd]; [|by left| |by left].
  - left. destruct (stopping s); [done|]. pose proof (accept_quiet (listener s) w) as Ha.
    destruct (accept (listener s) w) as [[k| |e] w1]; cbn in Ha |- *; [done| |done].
    by rewrite sleep_quiet.
  - destruct (handle_replies k status w) as [E|E]; [by left|right]. by exists k, status.
Qed.

(** The client [k] that is being served was accepted by step [i], and has been
    since. *)
Definition serving (configs : list (Config W)) (i : nat) (k : Conn W) (j : nat) : Prop :=
  (i < j)%nat /\ (phase <$> configs !! i) = Some Looking /\
  (phase <$> configs !! S i) = Some (Connected k) /\
  forall m c, (i < m <= j)%nat -> configs !! m = Some c ->
    phase c = Connected k \/ exists status, phase c = Answering k status.

(** What the thread holds is a client, and a status that was current since that
    client came. *)
Definition held (configs : list (Config W)) (j : nat) (t : Phase W) : Prop :=
  match t with
  | Connected k => exists i, serving configs i k j
  | Answering k status => exists i m c, serving configs i k j /\ (i < m <= j)%nat /\
      configs !! m = Some c /\ shared (server c) = status
  | _ => True
  end.

Lemma serving_snoc configs i k j c :
  length configs = S j -> serving configs i k j ->
  phase c = Connected k \/ (exists status, phase c = Answering k status) ->
  serving (configs ++ [c]) i k (S j).
Proof.
  intros Hl (Hi & H0i & H1i & Hm) Hc. split; [lia|]. rewrite !lookup_app_l by lia.
  split; [done|]. split; [done|]. intros m d Hmj Hd.
  destruct (decide (m = S j)) as [->|].
  - rewrite lookup_app_r, Hl, Nat.sub_diag in Hd by lia. by injection Hd as <-.
  - rewrite lookup_app_l in Hd by lia. apply (Hm m d); [lia|done].
Qed.

Lemma run_held past (c : Config W) : run past c -> held (past ++ [c]) (length past) (phase c).
Proof.
  induction 1 as [s w|past c c' Hr IH Hs]; [done|].
  rewrite length_app, Nat.add_1_r. set (j := length past) in *.
  assert (Hl : length (past ++ [c]) = S j) by (rewrite length_app, Nat.add_1_r; done).
  assert (Hc : (past ++ [c]) !! j = Some c) by (unfold j; by rewrite lookup_app_r, Nat.sub_diag).
  assert (Hc' : ((past ++ [c]) ++ [c']) !! S j = Some c') by (by rewrite lookup_app_r, Hl, Nat.sub_diag by lia).
  assert (Hsame : phase c' = phase c -> held ((past ++ [c]) ++ [c']) (S j) (phase c')).
  { intros E. rewrite E in *. destruct (phase c) as [|k|k status|] eqn:Ep; try done.
    - destruct IH as [i Hi]. exists i. apply serving_snoc; [done|done|]. rewrite E. by left.
    - destruct IH as (i & m & d & Hi & Hm & Hd & Hst). exists i, m, d.
      split; [apply serving_snoc; [done|done|]; rewrite E; right; by exists status|].
      split; [lia|]. rewrite lookup_app_l by lia. done. }
  destruct Hs as [t s w|f t s w|t s w]; [|by apply Hsame..].
  destruct t as [|k|k status|]; cbn [serve_step phase fst] in *; [| |done|by apply Hsame].
  - destruct (stopping s); [done|]. destruct (accept (listener s) w) as [[k| |e] w1] eqn:Ea; [|done..].
    exists j. split; [lia|]. rewrite lookup_app_l, Hc by lia. split; [done|]. rewrite Hc'. split; [done|].
    intros m d Hm Hd. replace m with (S j) in Hd by lia. rewrite Hc' in Hd. injection Hd as <-. by left.
  - destruct IH as [i Hi]. exists i, j, (mkConfig (Connected k) s w).
    split; [apply serving_snoc; [done|done|]; right; by eexists|].
    split; [destruct Hi; lia|]. by rewrite lookup_app_l by lia.
Qed.

(** C28. A client is told the status as it is: in every run of the server's thread
    among the daemon's updates, a step that sends anything sends one reply, to
    the client it accepted last, and what it sends is the line of the status
    as it stood at a moment since that client was accepted: an update set before
    the client came is never missing from its reply. *)
Theorem replies_current past (c : Config W) j x y :
  run past c -> (past ++ [c]) !! j = Some x -> (past ++ [c]) !! S j = Some y ->
  replies (world y) = replies (world x) \/
  exists k i m z, serving (past ++ [c]) i k j /\ (i < m <= j)%nat /\ (past ++ [c]) !! m = Some z /\
    replies (world y) = replies (world x) ++ [Status.encode (shared (server z))].
Proof.
  intros Hr. revert j x y. induction Hr as [s w|past c c' Hr IH Hs]; intros j x y Hx Hy; [done|].
  assert (Hj : (j <= length past)%nat).
  { apply lookup_lt_Some in Hy. rewrite !length_app in Hy. cbn in Hy. lia. }
  assert (Hl : length (past ++ [c]) = S (length past)) by (rewrite length_app, Nat.add_1_r; done).
  rewrite (lookup_app_l (past ++ [c])) in Hx by lia.
  assert (Hkeep : forall i k, serving (past ++ [c]) i k j -> serving ((past ++ [c]) ++ [c']) i k j).
  { intros i k (Hi & H0i & H1i & Hm). split; [done|]. rewrite !(lookup_app_l (past ++ [c])) by lia.
    split; [done|]. split; [done|]. intros m d Hmj Hd. rewrite (lookup_app_l (past ++ [c])) in Hd by lia. by apply (Hm m d). }
  destruct (decide (j = length past)) as [->|Hne].
  - rewrite lookup_app_r, Nat.sub_diag in Hx by done. injection Hx as <-.
    rewrite lookup_app_r, Hl, Nat.sub_diag in Hy by lia. injection Hy as <-.
    destruct (step_replies _ _ Hs) as [E | (k & status & Ep & E)]; [by left|right].
    pose proof (run_held past c Hr) as Hh. rewrite Ep in Hh.
    destruct Hh as (i & m & z & Hi & Hm & Hz & <-). exists k, i, m, z.
    split; [by apply Hkeep|]. split; [done|]. by rewrite (lookup_app_l (past ++ [c])) by lia.
  - rewrite (lookup_app_l (past ++ [c])) in Hy by lia.
    destruct (IH j x y Hx Hy) as [E | (k & i & m & z & Hi & Hm & Hz & E)]; [by left|right].
    exists k, i, m, z. split; [by apply Hkeep|]. split; [done|]. by rewrite (lookup_app_l (past ++ [c])) by lia.
Qed.

End laws.

(** ** Clients at the door

    Each turn the next of the waiting clients connects; [true] ones take the
    reply, the others have gone. *)
Record Door : Type := mkDoor { waiting : list bool; answered : list (list Z) }.

#[export] Instance door_sockets : Sockets Door :=
  {| Sock := unit; Conn := bool;
     bind _ w := (inr tt, w);
     listener_nonblocking _ w := (inr tt, w);
     accept _ w :=
       match waiting w with
       | [] => (WouldBlock, w)
       | c :: cs => (Stream c, mkDoor cs (answered w))
       end;
     stream_blocking _ w := (inr tt, w);
     try_clone _ w := (inr tt, w);
     read_line _ w := (inr [], w);
     write_all (c : bool) b w := if c then (inr tt, mkDoor (waiting w) (answered w ++ [b])) else (inl 32, w);
     connect _ w := (inr true, w);
     spawn w := (inr tt, w) |}.

#[export] Instance door_sleep : Transport.Sleep Door := fun _ w => w.

#[export] Instance door_laws : SocketLaws Door.
Proof.
  refine {| replies := answered |}; try done.
  - intros l w. cbn. by destruct (waiting w).
  - intros c b w. cbn. by destruct c.
Defined.

(** A client before the tunnel is up, one that hangs up, and one after. *)
Definition at_rest : StatusServer Door := mkServer (tt : Sock Door) Status.default_status false.

Definition tunnel_up (st : Status.Status) : Status.Status :=
  Status.mkStatus (Status.device st) true (Status.interface st) (Status.address st)
    (Status.gateway st) (Status.dns st) 0 0.

(** The thread's step, [n] times. *)
Fixpoint thread_run (n : nat) (past : list (Config Door)) (c : Config Door) :
    list (Config Door) * Config Door :=
  match n with
  | O => (past, c)
  | S n => thread_run n (past ++ [c])
             (mkConfig (fst (serve_step (phase c) (server c) (world c))) (server c)
                (snd (serve_step (phase c) (server c) (world c))))
  end.

Lemma thread_run_run n past c :
  run past c -> run (fst (thread_run n past c)) (snd (thread_run n past c)).
Proof.
  revert past c. induction n as [|n IH]; intros past c Hr; [done|]. apply IH.
  apply run_step; [done|]. destruct c as [t s w]. apply step_thread.
Qed.

(** The second client is accepted, and the tunnel comes up before the lock. *)
Definition before_update : list (Config Door) * Config Door :=
  thread_run 4 [] (mkConfig Looking at_rest (mkDoor [true; true] [])).

Definition after_update : Config Door :=
  let c := snd before_update in mkConfig (phase c) (update tunnel_up (server c)) (world c).

Definition to_the_end : list (Config Door) * Config Door :=
  thread_run 2 (fst before_update ++ [snd before_update]) after_update.

Lemma replies_current_witness :
  let '(past, c) := to_the_end in
  answered (world c) =
    [Status.encode Status.default_status; Status.encode (tunnel_up Status.default_status)] /\
  length past = 7%nat /\
  exists k i m z, serving (past ++ [c]) i k 6 /\ (i < m <= 6)%nat /\ (past ++ [c]) !! m = Some z /\
    Status.encode (shared (server z)) = Status.encode (tunnel_up Status.default_status).
Proof.
  assert (Hr : run (fst to_the_end) (snd to_the_end)).
  { apply thread_run_run, run_step; [apply thread_run_run, run_start|].
    unfold after_update. destruct (snd before_update) as [t s w]. apply step_update. }
  destruct to_the_end as [past c] eqn:E. cbn [fst snd] in Hr.
  pose proof (replies_current past c 6) as Hc.
  vm_compute in E. injection E as <- <-.
  destruct (Hc _ _ Hr eq_refl eq_refl) as [Hs | (k & i & m & z & Hi & Hm & Hz & Hs)]; [done|].
  split; [by vm_compute|]. split; [done|]. exists k, i, m, z. split; [exact Hi|]. split; [exact Hm|].
  split; [exact Hz|]. apply (f_equal last) in Hs. rewrite last_snoc in Hs.
  apply Some_inj. rewrite <- Hs. vm_compute. reflexivity.
Defined.

End Server.
