(* ===== verification/Resident.v ===== *)
(** * The resident daemon

    [run] of [src/daemon.rs]: start-up, the loop over the sessions, and what is
    left when it returns. *)
From Stdlib Require Import ZArith Lia.
From stdpp Require Import base numbers list strings gmap pretty.
From S2P Require Import Prelude Control Matcher Backend Rx Transport.
From S2P Require Import Host Utun Net Dns Tunnel Status Device Daemon Quiet Signals Service Server.

Open Scope Z_scope.

Module Resident.

Import Daemon.Daemon Quiet.Quiet.

Section run.
Context {P : Profile} {W : Type} `{Device.Device.UsbBackend W} `{Backend.Backend.InEndpoint W}
  `{Transport.Transport.Sleep W} `{Clock W} `{Utun.Utun.Libc W} `{Net.Net.Runner W}
  `{Dns.Dns.DynamicStore W} `{Host.Text} `{Device.Device.ShowRndis} `{Signals W} `{LinkThreads W}
  `{Device.Device.Hotplug W} `{Signals.Signals.Handlers W} `{Service.Service.Fs W}
  `{Server.Server.Sockets W}.

(** Losing the status socket is not worth refusing to tether over. *)
Definition start_status (w : W) : option (Server.Server.StatusServer W) * W :=
  match Server.Server.start w with
  | (Host.Host.ok s, w) => (Some s, w)
  | (Host.Host.err _, w) => (None, w)
  end.

(** [backend.watch().ok()] *)
Definition start_watch (w : W) : option (Device.Device.Watch W) * W :=
  match Device.Device.watch w with
  | (Backend.Backend.ok h, w) => (Some h, w)
  | (Backend.Backend.err _, w) => (None, w)
  end.

(** Run until interrupted: the status server is dropped when [run] returns. [None]
    when [turns] scans, [n] turns of a session or [fuel] reads of a control
    transaction were not enough. *)
Definition run (turns n fuel : nat) (w : W) : option (outcome Host.Host.Error W) :=
  let w := Signals.Signals.install w in
  let '(rotating, w) := Service.Service.follow_log_rotation w in
  let '(server, w) := start_status w in
  let '(watch, w) := start_watch w in
  r ← daemon_loop turns n fuel (mkState (Server.Server.shared <$> server) watch [] w);
  match r with
  | Ok s =>
      let w := d_world s in
      let w := if rotating then Service.Service.release_log w else w in
      Some (Ok (match server with Some _ => Server.Server.remove_socket w | None => w end))
  | Err e => Some (Err e)
  | Panic => Some Panic
  end.

End run.

(** ** What the daemon may rely on *)

(** The operations of start-up and shutdown, and the pauses. *)
Class GroundQuiet {W : Type} `{Transport.Transport.Sleep W} `{Device.Device.Hotplug W}
    `{Signals.Signals.Handlers W} `{Service.Service.Fs W} `{Server.Server.Sockets W}
    (J : W -> Prop) : Prop :=
  { q_signal s d : lets J (Signals.Signals.signal s d);
    q_write p t : keeps J (Service.Service.write p t);
    q_permissions p m : keeps J (Service.Service.set_permissions p m);
    q_remove_file p : keeps J (Service.Service.remove_file p);
    q_bind p : keeps J (Server.Server.bind p);
    q_nonblocking l : keeps J (Server.Server.listener_nonblocking l);
    q_spawn : keeps J Server.Server.spawn;
    q_watch : keeps J Device.Device.watch;
    q_next_event h t : keeps J (Device.Device.next_event h t);
    q_sleep d : lets J (Transport.Transport.sleep d) }.

#[export] Hint Resolve q_signal q_write q_permissions q_remove_file q_bind q_nonblocking q_spawn q_watch
  q_next_event q_sleep : quiet.

(** What is still to come: [patience], the scans and polls until the user's
    signal, and [offered], the routes of the subnets phones will lease. *)
Class Future (W : Type) : Type :=
  { patience : W -> nat;
    offered : W -> list string }.

Definition due `{Future W} (k : nat) (leased : list string) (w : W) : Prop :=
  (patience w <= k)%nat /\ offered w ⊆ leased.

(** Only the tunnel's operations touch descriptors, routes and the dynamic store;
    descriptors read from a device are bytes; a lease the link reports is one of
    those to come; and the user means to stop the daemon: after [patience] scans
    of the bus and pauses of a poll or more, the signal has come, and it is not
    taken back. Nothing is assumed of how long the hotplug watch waits: it may
    return at once. *)
Class DaemonLaws (W : Type) `{Device.Device.OpenLaws W} `{LinkThreads W} `{Utun.Utun.Libc W}
    `{Net.Net.Runner W} `{Dns.Dns.DynamicStore W} `{Signals W} `{Device.Device.Hotplug W}
    `{Signals.Signals.Handlers W} `{Service.Service.Fs W} `{Server.Server.Sockets W}
    `{Host.View W} `{Future W} : Prop :=
  { view_usb v :: UsbQuiet (fun w : W => Host.view w = v);
    view_ground v :: GroundQuiet (fun w : W => Host.view w = v);
    descriptors d (w : W) configs :
      fst (Device.Device.configurations d w) = Backend.Backend.ok configs ->
      Forall Matcher.Matcher.config_ok configs;
    due_usb k L :: UsbQuiet (due k L);
    due_host k L :: HostQuiet (due k L);
    due_ground k L :: GroundQuiet (due k L);
    requested_patience w : requested w = (patience w =? 0)%nat;
    offered_event w l w' : try_next_event w = (Some (Rx.Rx.Bound l), w') ->
      Tunnel.Tunnel.local_route l ∈ offered w;
    list_patience w : (patience (snd (Device.Device.list_devices w)) <= pred (patience w))%nat;
    sleep_patience d w : POLL_INTERVAL <= d ->
      (patience (Transport.Transport.sleep d w) <= pred (patience w))%nat }.

Section laws.
Context {W : Type} `{DaemonLaws W} `{!Utun.Utun.LibcLaws W} `{!Net.Net.RunnerLaws W}
  `{!Dns.Dns.StoreLaws W} `{Host.Text} `{Device.Device.ShowRndis}
  (base : Host.Sys) (leased : list string).

#[local] Existing Instances Transport.Transport.usb_transport Transport.Transport.usb_clock
  Transport.Transport.usb_transport_laws release_profile.

(** The system is as it was, up to what could not be removed, and the signal comes
    within [k] scans and polls. *)
Definition at_rest (k : nat) (w : W) : Prop :=
  Host.restored (fun d => d ∈ leased) Dns.Dns.ours base (Host.view w) /\ due k leased w.

Lemma due_le k k' (w : W) : (k <= k')%nat -> due k leased w -> due k' leased w.
Proof. intros Hk [Hp Ho]. split; [lia|done]. Qed.

Lemma rest_keeps {A} k (f : W -> A * W) :
  (forall v, keeps (fun w => Host.view w = v) f) -> keeps (due k leased) f -> keeps (at_rest k) f.
Proof. intros Hv Hd w [Hr Hw]. split; [|by apply Hd]. by rewrite (Hv (Host.view w)). Qed.

Lemma rest_lets k (f : W -> W) :
  (forall v, lets (fun w => Host.view w = v) f) -> lets (due k leased) f -> lets (at_rest k) f.
Proof. intros Hv Hd w [Hr Hw]. split; [|by apply Hd]. by rewrite (Hv (Host.view w)). Qed.

#[export] Instance rest_ground k : GroundQuiet (at_rest k).
Proof.
  split; intros; first [apply rest_keeps; intros|apply rest_lets; intros];
    first [apply q_signal|apply q_write|apply q_permissions|apply q_remove_file|apply q_bind
      |apply q_nonblocking|apply q_spawn|apply q_watch|apply q_next_event|apply q_sleep].
Qed.

#[export] Instance session_laws i : SessionLaws W (H := Device.Device.interface_of i).
Proof.
  split.
  - intros v. apply q_usb.
  - intros w. by apply (q_event (H := Device.Device.interface_of i)
      (J := fun w' => Host.view w' = Host.view w)).
  - intros w. by apply (q_packets (H := Device.Device.interface_of i)
      (J := fun w' => Host.view w' = Host.view w)).
  - intros w. by apply (q_shutdown (H := Device.Device.interface_of i)
      (J := fun w' => Host.view w' = Host.view w)).
Qed.

Lemma poll_due k (w : W) :
  due k leased w -> due (pred k) leased (Transport.Transport.sleep POLL_INTERVAL w).
Proof.
  intros Hw. pose proof (q_sleep (J := due k leased) POLL_INTERVAL w Hw) as [_ Ho].
  destruct Hw as [Hp _]. pose proof (sleep_patience POLL_INTERVAL w ltac:(done)).
  split; [lia|done].
Qed.

(** ** The scan *)

Lemma find_loop_total infos idle (w : W) : fst (Device.Device.find_loop infos idle w) <> Panic.
Proof.
  revert idle w. induction infos as [|info infos IH]; intros idle w; cbn [Device.Device.find_loop]; [done|].
  destruct (Device.Device.open_device _ w) as [[d|e] w1]; [|apply IH].
  pose proof (descriptors d w1) as Hd.
  destruct (Device.Device.configurations d w1) as [[configs|e] w2]; [|apply IH].
  pose proof (Matcher.Matcher.find_rndis_release configs (Hd configs eq_refl)) as Hr.
  by destruct (Matcher.Matcher.find_rndis configs) as [[f|]|[]|].
Qed.

(** A scan brings the signal closer. *)
Lemma list_due k (w : W) : due k leased w -> due (pred k) leased (snd (Device.Device.list_devices w)).
Proof.
  intros Hw. pose proof (q_list (J := due k leased) w Hw) as [_ Ho].
  destruct Hw as [Hp _]. pose proof (list_patience w). split; [lia|done].
Qed.

Lemma find_rest k (w : W) :
  at_rest k w ->
  at_rest (pred k) (snd (Device.Device.find w)) /\ fst (Device.Device.find w) <> Panic.
Proof.
  intros [Hr Hw]. pose proof (q_find (fun w' => Host.view w' = Host.view w) w eq_refl) as Hv.
  apply list_due in Hw. unfold at_rest. unfold Device.Device.find in *.
  destruct (Device.Device.list_devices w) as [[infos|e] w1]; cbn [snd] in *.
  - split; [|apply find_loop_total]. rewrite Hv. split; [done|].
    by apply (q_find_loop (due (pred k) leased)).
  - by rewrite Hv.
Qed.

(** ** A session *)

Lemma read_clock_sink `{Backend.Backend.UsbInterface W} (s : Session W) :
  tunnel (snd (read_clock s)) = tunnel s /\ sink (snd (read_clock s)) = sink s.
Proof. unfold read_clock. by destruct (now (world s)). Qed.

Section one.
Context (i : Device.Device.If W).

#[local] Instance iface : Backend.Backend.UsbInterface W := Device.Device.interface_of i.

(** A session is given leases that were to come. *)
Lemma session_leases n k fuel mac (s : Session W) :
  due k leased (world s) -> among (fun d => d ∈ leased) (run_leases n fuel mac s).
Proof.
  revert k s. induction n as [|n IH]; intros k s Hw; [by constructor|]. cbn [run_leases].
  apply Forall_app. split.
  - unfold turn_leases, event_leases. destruct (requested (world s)); [by constructor|].
    pose proof (q_doze (due k leased) (due (pred k) leased) s (poll_due k) Hw) as [_ Ho].
    pose proof (offered_event (world (doze s))) as Hl.
    destruct (try_next_event (world (doze s))) as [[[l|e]|] w']; [|by constructor..].
    constructor; [|by constructor]. by apply Ho, (Hl l w').
  - destruct (session_turn fuel mac s) as [t|] eqn:E; [|by constructor].
    pose proof (q_turn (due k leased) (due (pred k) leased) fuel mac s t (poll_due k) Hw E) as Ht.
    destruct t as [s1|r s1]; [|by constructor]. destruct Ht as [[_ [=]]|Ht]. by apply (IH (pred k)).
Qed.

(** More turns than the signal takes to come end the session. *)
Lemma session_stops n k fuel mac (s s' : Session W) e :
  due k leased (world s) -> (k < n)%nat -> session_run n fuel mac s = Some (e, s') ->
  e <> Running /\ due k leased (world s').
Proof.
  revert k s. induction n as [|n IH]; intros k s Hk Hn; [lia|]. cbn [session_run].
  destruct (session_turn fuel mac s) as [t|] eqn:E; [|done].
  pose proof (q_turn (due k leased) (due (pred k) leased) fuel mac s t (poll_due k) Hk E) as Ht.
  rewrite requested_patience in Ht.
  assert (Hz : patience (world s) = 0%nat -> t = Break (Ok tt) s).
  { intros Hz. revert E. unfold session_turn. rewrite requested_patience, Hz. cbn. by intros [= <-]. }
  destruct t as [s1|r s1]; cbn [turn_world mbind option_bind] in *.
  - destruct Ht as [[_ [=]]|Ht]. destruct k as [|k].
    { destruct Hk. discriminate Hz. lia. }
    intros Er. apply (IH k) in Er as [He Hp]; [|done|lia]. split; [done|].
    by apply (due_le k); [lia|].
  - destruct (finish r s1) as [[r' s2]|] eqn:Ef; [|done]. intros [= <- <-]. split; [done|].
    eapply (q_finish (due k leased)); [|exact Ef].
    destruct Ht as [[_ [= -> ->]]|Ht]; [done|]. by apply (due_le (pred k)); [lia|].
Qed.

End one.

Lemma run_session_ok n k fuel info f st (w : W) :
  Device.Device.open_fuel fuel -> at_rest k w -> (k < n)%nat ->
  exists r st' w', run_session n fuel info f st w = Some (Ended r, st', w') /\ r <> Panic /\
    at_rest k w'.
Proof.
  intros Hf [Hv Hp] Hn. unfold run_session.
  destruct (Device.Device.open_ends fuel info f w Hf) as (o & w1 & E & Ho).
  destruct (q_open_phone (fun w' => Host.view w' = Host.view w) fuel info f w o w1 eq_refl E) as [Hv1 Hvd].
  destruct (q_open_phone (due k leased) fuel info f w o w1 Hp E) as [Hp1 Hpd].
  unfold mbind, option_bind. rewrite E.
  destruct o as [d|e|]; [| |done].
  2: { eexists _, _, _. do 2 (split; [done|]). split; [by rewrite Hv1|done]. }
  specialize (Hvd d eq_refl). specialize (Hpd d eq_refl).
  set (iface := Device.Device.interface_of _). set (mac := session_mac _).
  set (s0 := on_world _ (mkSession _ _ _ _ _)).
  assert (Hv0 : Host.view (world s0) = Host.view w)
    by by apply (q_link_start (J := fun w' => Host.view w' = Host.view w)).
  assert (Hp0 : due k leased (world s0)) by by apply (q_link_start (J := due k leased)).
  apply (q_clock (fun w' => Host.view w' = Host.view w)) in Hv0.
  apply (q_clock (due k leased)) in Hp0.
  destruct (read_clock_sink s0) as (Ht & Hi).
  destruct (read_clock s0) as [n0 s1]; cbn [snd] in *. set (s2 := set_next _ s1).
  assert (Hh : holds base (fun d => d ∈ leased) s2).
  { unfold holds. cbn. rewrite Ht, Hi. split; [done|]. unfold s2, world, set_next. cbn.
    fold (world s1). by rewrite Hv0. }
  pose proof (session_leases (Device.Device.control_handle d) n k fuel mac s2 Hp0) as Hl.
  destruct (session_run_ok base (fun d => d ∈ leased) n fuel mac s2
    (Hf (Device.Device.control_handle d)) Hl Hh) as (e & s3 & Er & He).
  pose proof Er as Ef. fold iface in Ef. rewrite Ef.
  destruct (session_stops (Device.Device.control_handle d) n k fuel mac s2 s3 e Hp0 Hn Er) as [Hr Hp3].
  destruct e as [|r]; [done|]. destruct He as ((_ & _ & Hv3) & Hr').
  by exists r, (status s3), (world s3).
Qed.

(** ** The loop *)

Lemma attach_rest k o (w : W) : at_rest k w -> at_rest k (wait_for_attach o w).
Proof.
  intros Hw. destruct o as [h|]; cbn.
  - by apply (q_next_event (J := at_rest k)).
  - by apply (q_sleep (J := at_rest k)).
Qed.

(** Every turn scans, which brings the signal closer, and leaves nothing behind. *)
Lemma daemon_turn_ok n k fuel (s : State W) :
  Device.Device.open_fuel fuel -> at_rest k (d_world s) -> (k < n)%nat ->
  exists s', daemon_turn n fuel s = Some (Ok s') /\ at_rest (pred k) (d_world s').
Proof.
  intros Hf Hw Hn. unfold daemon_turn. destruct (find_rest k (d_world s) Hw) as [Hfr Hfp].
  destruct (Device.Device.find (d_world s)) as [[scan|e|] w1]; cbn [fst snd] in *; [| |done].
  2: { eexists. split; [done|]. by apply (q_sleep (J := at_rest (pred k))). }
  destruct (Device.Device.rndis scan) as [[info f]|].
  - destruct (run_session_ok n (pred k) fuel info f ((fun st => Status.Status.mkStatus
      (Some (Status.Status.bytes_of (Matcher.Descriptor.label info)))
      (Status.Status.link_up st) (Status.Status.interface st) (Status.Status.address st)
      (Status.Status.gateway st) (Status.Status.dns st) (Status.Status.packets_in st)
      (Status.Status.packets_out st)) <$> d_status s) w1 Hf Hfr ltac:(lia)) as (r & st' & w2 & E & Hr & Hw2).
    unfold mbind, option_bind. rewrite E.
    assert (Hpause : at_rest (pred k)
      (if negb (requested w2) then Transport.Transport.sleep RETRY_DELAY w2 else w2)).
    { destruct (requested w2); [done|]. by apply (q_sleep (J := at_rest (pred k))). }
    destruct r as [u|e|]; [| |done]; (eexists; split; [done|exact Hpause]).
  - destruct (report_idle _ _) as [logged reported']. eexists. split; [done|]. by apply attach_rest.
Qed.

Lemma daemon_loop_ok turns n k fuel (s : State W) :
  Device.Device.open_fuel fuel -> at_rest k (d_world s) -> (k < n)%nat -> (k < turns)%nat ->
  exists s', daemon_loop turns n fuel s = Some (Ok s') /\ at_rest 0 (d_world s').
Proof.
  intros Hf. revert k s. induction turns as [|turns IH]; intros k s Hw Hn Ht; [lia|].
  cbn [daemon_loop]. rewrite requested_patience.
  destruct (Nat.eqb_spec (patience (d_world s)) 0) as [E0|E0].
  { exists s. split; [done|]. destruct Hw as [Hv [_ Ho]]. split; [done|]. split; [lia|done]. }
  destruct (daemon_turn_ok n k fuel s Hf Hw Hn) as (s1 & E & Hs1).
  unfold mbind, option_bind. rewrite E. destruct Hw as (_ & Hp & _).
  apply (IH (pred k)); [done|lia|lia].
Qed.

(** ** Start-up and shutdown *)

Lemma ground_rest k (w : W) :
  at_rest k w ->
  at_rest k (Signals.Signals.install w) /\
  at_rest k (snd (Service.Service.follow_log_rotation w)) /\
  at_rest k (snd (start_status w)) /\ at_rest k (snd (start_watch w)) /\
  at_rest k (Service.Service.release_log w) /\ at_rest k (Server.Server.remove_socket w).
Proof.
  intros Hw. split; [by do 3 apply (q_signal (J := at_rest k))|]. split; [|split; [|split; [|split]]].
  - unfold Service.Service.follow_log_rotation. destruct (Service.Service.stderr_is_log w); [|done].
    cbn [snd]. by apply (q_write (J := at_rest k)), (q_signal (J := at_rest k)).
  - unfold start_status, Server.Server.start.
    pose proof (q_remove_file Server.Server.SOCKET_PATH w Hw) as Hr. cbn zeta.
    set (w0 := snd _) in *. pose proof (q_bind Server.Server.SOCKET_PATH w0 Hr) as Hb.
    destruct (Server.Server.bind _ w0) as [[e|l] w1]; cbn [snd] in Hb; [done|].
    pose proof (q_nonblocking l w1 Hb) as Hl.
    destruct (Server.Server.listener_nonblocking l w1) as [[e|u] w2]; cbn [snd] in Hl; [done|].
    pose proof (q_permissions Server.Server.SOCKET_PATH (Service.Service.octal 6 6 6) w2 Hl) as Hp.
    destruct (Service.Service.set_permissions _ _ w2) as [[e|u'] w3]; cbn [snd] in Hp; [done|].
    pose proof (q_spawn w3 Hp) as Hsp. by destruct (Server.Server.spawn w3) as [[e|u''] w4].
  - unfold start_watch. pose proof (q_watch w Hw) as Hq.
    by destruct (Device.Device.watch w) as [[h|e] w1].
  - by apply q_remove_file.
  - by apply q_remove_file.
Qed.

(** C1. The daemon returns when it is told to, and leaves the Mac as it was, up to
    the removals the system refuses, which the code only logs. If the signal comes
    within [k] scans and polls, a run with more turns than that returns [Ok],
    whatever devices come and go, however their sessions fail, whether or not the
    log, the status socket and the hotplug watch could be set up, and even if the
    watch returns at once every time. The same descriptors are then open as
    before; a route or service key of ours is left only if its removal was
    refused; every other route and key is as it was, except routes for the very
    subnets phones leased, which gave way to ours; and when there were none of
    those, and no removal was refused, the system is exactly the one from before. *)
Theorem run_restores turns n k fuel (w : W) :
  Device.Device.open_fuel fuel -> Host.view w = base -> offered w ⊆ leased ->
  (patience w <= k)%nat -> (k < n)%nat -> (k < turns)%nat ->
  exists w', run turns n fuel w = Some (Ok w') /\ requested w' = true /\
    Host.undone (fun d => d ∈ leased) Dns.Dns.ours base (Host.view w').
Proof.
  intros Hf Hv Ho Hp Hn Ht.
  assert (Hw : at_rest k w) by (split; [by rewrite Hv|done]). unfold run.
  destruct (ground_rest k w Hw) as (H1r & _).
  destruct (ground_rest k _ H1r) as (_ & H2r & _).
  destruct (Service.Service.follow_log_rotation _) as [rotating w2]; cbn [snd] in H2r.
  destruct (ground_rest k w2 H2r) as (_ & _ & H3r & _).
  destruct (start_status w2) as [server w3]; cbn [snd] in H3r.
  destruct (ground_rest k w3 H3r) as (_ & _ & _ & H4r & _).
  destruct (start_watch w3) as [watch w4]; cbn [snd] in H4r.
  destruct (daemon_loop_ok turns n k fuel
    (mkState (Server.Server.shared <$> server) watch [] w4) Hf H4r Hn Ht) as (s' & E & Hs).
  unfold mbind, option_bind. rewrite E. eexists. split; [done|].
  set (w5 := if rotating then _ else _).
  assert (H5r : at_rest 0 w5) by (unfold w5; destruct rotating; [by apply ground_rest|done]).
  assert (H6r : at_rest 0 match server with Some _ => Server.Server.remove_socket w5 | None => w5 end)
    by (destruct server; [by apply ground_rest|done]).
  destruct H6r as (Hv6 & Hp6 & _). split; [|by apply Host.restored_undone].
  rewrite requested_patience. apply Nat.eqb_eq. lia.
Qed.

End laws.
(** ** A concrete run

    The world of the session's witness, which now lists its phone, taking as long as
    a poll, and runs as the service. *)

#[local] Existing Instances Device.Device.phone_in Device.Device.phone_in_laws
  Device.Device.phone_sleep Device.Device.phone_clock Device.Device.phone_backend
  Device.Device.phone_laws Device.Device.phone_text Host.Host.sim_view Host.Host.sim_text.

#[export] Instance world_backend : Device.Device.UsbBackend World :=
  let on {A} (f : Device.Device.Phone -> A * Device.Device.Phone) := on_phone f in
  {| Device.Device.Dev := unit; Device.Device.If := Z; Device.Device.Ep := Z;
     Device.Device.list_devices w :=
       on Device.Device.list_devices (in_phone (Device.Device.later POLL_INTERVAL) w);
     Device.Device.open_device i := on (Device.Device.open_device (W := Device.Device.Phone) i);
     Device.Device.configurations d := on (Device.Device.configurations (W := Device.Device.Phone) d);
     Device.Device.active_configuration d :=
       on (Device.Device.active_configuration (W := Device.Device.Phone) d);
     Device.Device.set_configuration d v :=
       on (Device.Device.set_configuration (W := Device.Device.Phone) d v);
     Device.Device.claim_interface d n :=
       on (Device.Device.claim_interface (W := Device.Device.Phone) d n);
     Device.Device.set_alt_setting i n :=
       on (Device.Device.set_alt_setting (W := Device.Device.Phone) i n);
     Device.Device.if_control_out i s d t :=
       on (Device.Device.if_control_out (W := Device.Device.Phone) i s d t);
     Device.Device.if_control_in i s n t :=
       on (Device.Device.if_control_in (W := Device.Device.Phone) i s n t);
     Device.Device.open_in i a ty := on (Device.Device.open_in (W := Device.Device.Phone) i a ty);
     Device.Device.open_out i a ty := on (Device.Device.open_out (W := Device.Device.Phone) i a ty) |}.

(** The channel of the watch is closed: the wait returns at once. *)
#[export] Instance world_hotplug : Device.Device.Hotplug World :=
  {| Device.Device.Watch := unit;
     Device.Device.watch w := (Backend.Backend.ok tt, w);
     Device.Device.next_event _ _ w := (None, w) |}.

#[export] Instance world_handlers : Signals.Signals.Handlers World := fun _ _ w => w.

#[export] Instance world_fs : Service.Service.Fs World :=
  let fine (w : World) : (Z + unit) * World := (inr tt, w) in
  let log := Service.Service.mkMeta 33188 0 1 42 in
  {| Service.Service.ENOENT := 2;
     Service.Service.current_exe _ := inr Service.Service.installed_binary;
     Service.Service.exists_path _ _ := true;
     Service.Service.canonicalize p _ := Some p;
     Service.Service.metadata _ _ := inr log;
     Service.Service.stderr_metadata _ := Some log;
     Service.Service.create_dir_all _ := fine;
     Service.Service.set_permissions _ _ := fine;
     Service.Service.chown _ _ _ := fine;
     Service.Service.copy _ _ := fine;
     Service.Service.rename _ _ := fine;
     Service.Service.write _ _ := fine;
     Service.Service.remove_file _ := fine;
     Service.Service.remove_dir _ := fine;
     Service.Service.process_id _ := 77 |}.

#[export] Instance world_sockets : Server.Server.Sockets World :=
  {| Server.Server.Sock := unit; Server.Server.Conn := unit;
     Server.Server.bind _ w := (inr tt, w);
     Server.Server.listener_nonblocking _ w := (inr tt, w);
     Server.Server.accept _ w := (Server.Server.WouldBlock, w);
     Server.Server.stream_blocking _ w := (inr tt, w);
     Server.Server.try_clone _ w := (inr tt, w);
     Server.Server.read_line _ w := (inr [], w);
     Server.Server.write_all _ _ w := (inr tt, w);
     Server.Server.connect _ w := (inr tt, w);
     Server.Server.spawn w := (inr tt, w) |}.

#[export] Instance world_open : Device.Device.OpenLaws World.
Proof.
  refine {| Device.Device.dview w := Device.Device.view_of (phone w);
            Device.Device.if_number := fun i : Device.Device.If World => i |}; try done.
  - intros d w. cbn. by destruct (Device.Device.active (Device.Device.view_of (phone w))) eqn:E.
  - intros. cbn. unfold on_phone. pose proof (Device.Device.phone_out_keeps d (phone w)) as Hk.
    destruct (Device.Device.phone_out d (phone w)). apply Hk.
  - intros. cbn. unfold on_phone. pose proof (Device.Device.phone_reply_keeps (phone w)) as Hk.
    destruct (Device.Device.phone_reply (phone w)). apply Hk.
  - intros t w. cbn. unfold on_phone. cbn. by destruct (Device.Device.reads (phone w)).
Defined.

Definition time (w : World) : Z := MockDevice.MockDevice.time (Device.Device.function (phone w)).

(** The polls left until the signal. *)
Definition polls (w : World) : nat :=
  Z.to_nat ((signal_at w - time w + (POLL_INTERVAL - 1)) / POLL_INTERVAL).

(** The routes of the leases among its events. *)
#[export] Instance world_future : Future World :=
  {| patience := polls;
     offered w := omap (fun e => match e with
       | Rx.Rx.Bound l => Some (Tunnel.Tunnel.local_route l)
       | _ => None
       end) (to_come w) |}.

(** What only depends on the host, on the time left until the signal and on the
    events to come. *)
Definition stable (J : World -> Prop) : Prop := forall w w',
  host w' = host w -> signal_at w' = signal_at w -> time w <= time w' ->
  to_come w' ⊆ to_come w -> J w -> J w'.

Lemma stable_view v : stable (fun w => Host.view w = v).
Proof. intros w w' Hh _ _ _. unfold Host.view, world_view. by rewrite Hh. Qed.

Lemma polls_mono d w w' :
  0 <= d -> signal_at w' = signal_at w -> time w + d * POLL_INTERVAL <= time w' ->
  (polls w' <= polls w - Z.to_nat d)%nat.
Proof.
  intros Hd Hs Ht. unfold polls. rewrite Hs. set (p := POLL_INTERVAL) in *.
  assert (Hp : 0 < p) by done.
  pose proof (Z.div_le_mono (signal_at w - time w' + (p - 1)) (signal_at w - time w + (p - 1) - d * p)
    p Hp ltac:(lia)) as Hm.
  replace (signal_at w - time w + (p - 1) - d * p) with (signal_at w - time w + (p - 1) + (- d) * p)
    in Hm by lia. rewrite Z.div_add in Hm by lia. lia.
Qed.

Lemma stable_due k L : stable (due k L).
Proof.
  intros w w' _ Hs Ht Hc [Hp Ho]. split.
  - pose proof (polls_mono 0 w w' ltac:(done) Hs ltac:(lia)). unfold patience, world_future in *. lia.
  - intros d Hd. apply Ho. cbn in *. apply list_elem_of_omap in Hd as (e & He & Hd).
    apply list_elem_of_omap. exists e. split; [by apply Hc|done].
Qed.

(** The time of a phone after each of its operations. *)
Lemma phone_out_time msg w : time (snd (on_phone (Device.Device.phone_out msg) w)) = time w.
Proof.
  unfold time, on_phone. pose proof (Device.Device.phone_out_keeps msg (phone w)) as [Ht _].
  by destruct (Device.Device.phone_out msg (phone w)).
Qed.

Lemma phone_reply_time w :
  time (snd (on_phone Device.Device.phone_reply w)) = time w + from_millis 1.
Proof.
  unfold time, on_phone. pose proof (Device.Device.phone_reply_keeps (phone w)) as [Ht _].
  by destruct (Device.Device.phone_reply (phone w)).
Qed.

Lemma on_phone_host {A} (f : Device.Device.Phone -> A * Device.Device.Phone) w :
  host (snd (on_phone f w)) = host w /\ signal_at (snd (on_phone f w)) = signal_at w /\
  to_come (snd (on_phone f w)) = to_come w.
Proof. unfold on_phone. by destruct (f (phone w)). Qed.

Section instances.
Context (J : World -> Prop) (HJ : stable J).

Lemma stable_phone {A} (f : Device.Device.Phone -> A * Device.Device.Phone) :
  (forall w, time w <= time (snd (on_phone f w))) -> keeps J (on_phone f).
Proof.
  intros Hf w Hw. destruct (on_phone_host f w) as (Hh & Hs & Hc). apply (HJ w); [done..| |done].
  by rewrite Hc.
Qed.

Lemma stable_session i : SessionQuiet (H := Device.Device.interface_of (W := World) i) J.
Proof.
  split.
  - intros w Hw. split; [|split; [|split; [|split; [|split]]]]; intros.
    + apply (stable_phone (Device.Device.phone_out d)); [|done]. intros x. by rewrite phone_out_time.
    + apply (stable_phone Device.Device.phone_reply); [|done]. intros x. rewrite phone_reply_time.
      unfold from_millis. lia.
    + by apply (HJ w).
    + apply (stable_phone (Backend.Backend.in_wait t)); [|done]. intros x. unfold time, on_phone. cbn.
      destruct (Device.Device.reads (phone x)); cbn; lia.
    + apply (HJ w); [done..| |done|done]. unfold time. cbn. lia.
    + apply (stable_phone now); [|done]. intros x. unfold time. cbn. lia.
  - intros w Hw. cbn. destruct (to_come w) eqn:E; [done|]. apply (HJ w); [done..| |done].
    rewrite E. cbn. by apply list_subseteq_cons.
  - intros w Hw. done.
  - intros w Hw. done.
Qed.

Lemma stable_usb : UsbQuiet J.
Proof.
  split; intros; try (apply stable_phone; intros w; unfold time; cbn; lia).
  - intros w Hw.
    apply (stable_phone Device.Device.list_devices); [intros x; unfold time; cbn; lia|].
    apply (HJ w); [done..| |done|done]. unfold time. cbn -[POLL_INTERVAL].
    assert (0 <= POLL_INTERVAL) by done. lia.
  - by intros w Hw.
  - apply stable_session.
Qed.

Lemma stable_ground : GroundQuiet J.
Proof.
  split; intros; try (by intros w Hw).
  intros w Hw. apply (HJ w); [done..| |done|done]. unfold time. cbn. lia.
Qed.

End instances.

Lemma due_on_host k L : HostQuiet (due (W := World) k L).
Proof.
  assert (Hh : forall A (f : Host.Host.Sim -> A * Host.Host.Sim), keeps (due k L) (on_host f)).
  { intros A f w Hw. unfold on_host. by destruct (f (host w)). }
  split; intros; try apply Hh. by intros w Hw.
Qed.

Lemma polls_pred (w w' : World) :
  signal_at w' = signal_at w -> time w + POLL_INTERVAL <= time w' -> (polls w' <= pred (polls w))%nat.
Proof. intros Hs Ht. pose proof (polls_mono 1 w w' ltac:(done) Hs ltac:(lia)). lia. Qed.

#[export] Instance world_laws : DaemonLaws World.
Proof.
  split.
  - intros v. apply stable_usb, stable_view.
  - intros v. apply stable_ground, stable_view.
  - intros d w configs. cbn. intros [= <-]. constructor; [repeat constructor; cbn; lia|constructor].
  - intros k L. apply stable_usb, stable_due.
  - apply due_on_host.
  - intros k L. apply stable_ground, stable_due.
  - intros w. unfold patience, world_future, polls, requested, world_signals.
    change (fst (now w)) with (time w).
    set (p := POLL_INTERVAL). assert (Hp : p = 100000000) by done.
    apply Bool.eq_true_iff_eq. rewrite Z.leb_le, Nat.eqb_eq.
    pose proof (Z.div_mod (signal_at w - time w + (p - 1)) p ltac:(lia)).
    pose proof (Z.mod_pos_bound (signal_at w - time w + (p - 1)) p ltac:(lia)). nia.
  - intros w l w'. cbn. destruct (to_come w) as [|e rest]; [done|]. intros [= -> <-]. by left.
  - intros w. apply polls_pred; [done|]. unfold time. cbn -[POLL_INTERVAL]. lia.
  - intros d w Hd. apply polls_pred; [done|]. unfold time. cbn -[POLL_INTERVAL]. lia.
Qed.

(** The signal comes eleven seconds in, in the middle of a session: the run ends
    with the system as it started. *)
Lemma run_restores_witness :
  exists w', run (P := release_profile) 200 200 5001 sample_world = Some (Ok w') /\
    Host.view w' = Host.Host.empty_sys /\ requested w' = true /\
    length (Host.Host.commands (host w')) = 8%nat.
Proof.
  destruct (run_restores Host.Host.empty_sys (offered sample_world) 200 200 110 5001 sample_world)
    as (w' & E & Hr & _ & Hu).
  - intros i. by vm_compute.
  - reflexivity.
  - reflexivity.
  - apply Nat.leb_le. by vm_compute.
  - lia.
  - lia.
  - assert (Ec : match run (P := release_profile) 200 200 5001 sample_world with
      | Some (Ok w') => length (Host.Host.commands (host w')) = 8%nat /\
          Host.Host.stuck (Host.view w') = []
      | _ => False
      end) by (vm_compute; split; reflexivity).
    exists w'. split; [exact E|]. rewrite E in Ec. destruct Ec as [Ec Es].
    split; [|split; [exact Hr|exact Ec]].
    apply Hu; [intros d _; apply not_elem_of_empty|done|exact Es].
Defined.

End Resident.
