(* ===== verification/Main.v ===== *)
(** * The command line

    [src/main.rs]: the dispatch of [muta]'s commands, with its checks, over the
    modelled commands. What is printed goes through the world's two outputs; the
    lines of a command are printed when it is done. *)
From Stdlib Require Import ZArith Lia.
From stdpp Require Import base numbers list strings.
From S2P Require Import Prelude Host Transport Control Backend Matcher Utun Net Dns Tunnel Status.
From S2P Require Import Device Daemon Quiet Signals Service Server Probe Resident.

Open Scope Z_scope.

Module Main.

Import Host.

(** The process's effective user, its two outputs and its logger. [env!] is fixed
    when the crate is built. *)
Class Process (W : Type) : Type :=
  { geteuid : W -> Z;
    init_logger : string -> W -> W;
    print : string -> W -> W;
    eprint : string -> W -> W;
    CARGO_PKG_VERSION : string }.

(** How the process ends, if it does within the turns and the fuel it is given. *)
Inductive Exit : Type :=
| Returned (r : Result unit)
| Exited (code : Z)
| Panicked
| Running.

Definition newline : string := String (Ascii.ascii_of_nat 10) EmptyString.

Definition lines (l : list string) : string := foldr (fun s acc => s +:+ newline +:+ acc) EmptyString l.

Definition USAGE : string :=
  lines
    ["muta — Android USB tethering for macOS";
     EmptyString;
     "usage:";
     "  muta run [-v]      bring up tethering in the foreground (needs root)";
     "  muta status        show the current connection";
     "  muta probe         dump USB descriptors of any attached RNDIS device";
     "  muta install       install and start the background service (needs root)";
     "  muta uninstall     stop and remove the background service (needs root)";
     "  muta --version     print the version";
     EmptyString;
     "Try `sudo muta run -v` first. Install once you want it to survive reboots."].

Section main.
Context {P : Profile} {W : Type} `{Device.Device.UsbBackend W} `{Backend.Backend.InEndpoint W}
  `{Transport.Transport.Sleep W} `{Clock W} `{Utun.Utun.Libc W} `{Net.Net.Runner W}
  `{Dns.Dns.DynamicStore W} `{Host.Text} `{Device.Device.ShowRndis} `{Daemon.Daemon.Signals W}
  `{Daemon.Daemon.LinkThreads W} `{Device.Device.Hotplug W} `{Signals.Signals.Handlers W}
  `{Service.Service.Fs W} `{Server.Server.Sockets W} `{Process W}.

(** A command: how the process ends, and the world it leaves, which the model of the
    daemon only gives when it returns. *)
Abbreviation Command := (W -> Exit * option W).

(** [args.iter().any(|a| ..)] *)
Definition has (flags args : list string) : bool :=
  existsb (fun a => existsb (String.eqb a) flags) args.

Definition verbose (args : list string) : bool := has ["-v"; "--verbose"] args.

(** nusb logs every transfer; it is kept out of our own output. *)
Definition init_logging (verbose : bool) (w : W) : W :=
  init_logger (if verbose then "debug,nusb=info" else "info,nusb=warn") w.

Definition require_root (command : string) (w : W) : Result unit :=
  if negb (geteuid w =? 0)
  then err (message ("`muta " +:+ command +:+ "` must run as root (try: sudo muta " +:+
              command +:+ ")"))
  else ok tt.

(** A command that needs root. *)
Definition as_root (command : string) (body : Command) : Command := fun w =>
  match require_root command w with
  | err e => (Returned (err e), Some w)
  | ok _ => body w
  end.

Definition exit_of (r : outcome Error unit) : Exit :=
  match r with Ok _ => Returned (ok tt) | Err e => Returned (err e) | Panic => Panicked end.

(** [daemon::run] *)
Definition daemon_run (turns n fuel : nat) : Command := fun w =>
  match Resident.Resident.run turns n fuel w with
  | Some (Ok w) => (Returned (ok tt), Some w)
  | Some (Err e) => (Returned (err e), None)
  | Some Panic => (Panicked, None)
  | None => (Running, None)
  end.

(** [service::install] and [service::uninstall] *)
Definition service (m : Service.Service.M W unit) : Command := fun w =>
  let '(r, w) := m w in (exit_of r, Some w).

(** [status::print_status] *)
Definition status : Command := fun w =>
  match Server.Server.print_status w with
  | (Server.Server.Printed fields, w) =>
      (Returned (ok tt), Some (print (lines (map from_utf8_lossy fields)) w))
  | (Server.Server.Exited stderr, w) => (Exited 1, Some (eprint (lines stderr) w))
  end.

Definition show_line (l : Probe.Probe.Line) (w : W) : W :=
  match l with
  | Probe.Probe.Out s => print (s +:+ newline) w
  | Probe.Probe.Err s => eprint (s +:+ newline) w
  end.

(** [probe::run] *)
Definition probe (n : nat) (watching : bool) : Command := fun w =>
  let '(printed, standing, w) := Probe.Probe.run n watching w in
  (match standing with
   | Probe.Probe.Returned (Backend.Backend.ok _) => Returned (ok tt)
   | Probe.Probe.Returned (Backend.Backend.err e) => Returned (err (mkError [] (Usb e)))
   | Probe.Probe.Watching => Running
   | Probe.Probe.Panicked => Panicked
   end, Some (foldl (fun w l => show_line l w) w printed)).

(** [main], after the program's name is skipped. *)
Definition main (turns n fuel : nat) (args : list string) : Command := fun w =>
  let command := default "help" (head args) in
  if String.eqb command "run"
  then as_root "run" (daemon_run turns n fuel) (init_logging (verbose args) w)
  else if String.eqb command "status" then status w
  else if String.eqb command "probe"
  then probe n (has ["--watch"] args) (init_logging (verbose args) w)
  else if String.eqb command "install"
  then as_root "install" (service Service.Service.install) (init_logging false w)
  else if String.eqb command "uninstall"
  then as_root "uninstall" (service Service.Service.uninstall) (init_logging false w)
  else if has ["--version"; "-V"] [command]
  then (Returned (ok tt), Some (print ("muta " +:+ CARGO_PKG_VERSION +:+ newline) w))
  else if has ["help"; "--help"; "-h"] [command] then (Returned (ok tt), Some (print USAGE w))
  else (Exited 2, Some (eprint ("muta: unknown command `" +:+ command +:+ "`" +:+ newline +:+ newline +:+
                    USAGE) w)).

End main.

(** ** Who may do what

    [untouched w w'] says that the system is as it was: logging, printing, a
    client's exchange over the status socket, listing, opening and reading USB
    devices and waiting for them leave it so. *)
Class ProcessLaws (W : Type) `{Device.Device.UsbBackend W} `{Device.Device.Hotplug W}
    `{Server.Server.Sockets W} `{Process W} : Type :=
  { untouched : relation W;
    untouched_preorder :: PreOrder untouched;
    logger_untouched s w : untouched w (init_logger s w);
    print_untouched s w : untouched w (print s w);
    eprint_untouched s w : untouched w (eprint s w);
    connect_untouched p w : untouched w (snd (Server.Server.connect p w));
    write_untouched c b w : untouched w (snd (Server.Server.write_all c b w));
    read_untouched c w : untouched w (snd (Server.Server.read_line c w));
    list_untouched w : untouched w (snd (Device.Device.list_devices w));
    open_untouched i w : untouched w (snd (Device.Device.open_device i w));
    configurations_untouched d w : untouched w (snd (Device.Device.configurations d w));
    watch_untouched w : untouched w (snd (Device.Device.watch w));
    event_untouched h t w : untouched w (snd (Device.Device.next_event h t w));
    logger_euid s w : geteuid (init_logger s w) = geteuid w }.

Section laws.
Context {P : Profile} {W : Type} `{Device.Device.UsbBackend W} `{Backend.Backend.InEndpoint W}
  `{Transport.Transport.Sleep W} `{Clock W} `{Utun.Utun.Libc W} `{Net.Net.Runner W}
  `{Dns.Dns.DynamicStore W} `{Host.Text} `{Device.Device.ShowRndis} `{Daemon.Daemon.Signals W}
  `{Daemon.Daemon.LinkThreads W} `{Device.Device.Hotplug W} `{Signals.Signals.Handlers W}
  `{Service.Service.Fs W} `{Server.Server.Sockets W} `{Process W} `{!ProcessLaws W}.

Lemma as_root_refused command body (w : W) :
  geteuid w <> 0 -> exists e, as_root command body w = (Returned (err e), Some w).
Proof.
  intros Hu. unfold as_root, require_root. destruct (Z.eqb_spec (geteuid w) 0); [done|].
  by eexists.
Qed.

Lemma query_untouched w : untouched w (snd (Server.Server.query w)).
Proof.
  unfold Server.Server.query. pose proof (connect_untouched Server.Server.SOCKET_PATH w) as Hc.
  destruct (Server.Server.connect _ w) as [[e|c] w1]; cbn in Hc |- *; [done|].
  pose proof (write_untouched c (Status.Status.bytes_of "status" ++ [Status.Status.NEWLINE]) w1) as Hw.
  destruct (Server.Server.write_all _ _ w1) as [[e|[]] w2]; cbn in Hw |- *; [by etrans|].
  pose proof (read_untouched c w2) as Hr.
  destruct (Server.Server.read_line c w2) as [[e|r] w3]; cbn in Hr |- *; etrans; eauto; by etrans.
Qed.

Lemma status_untouched w : exists w', snd (status w) = Some w' /\ untouched w w'.
Proof.
  unfold status, Server.Server.print_status. pose proof (query_untouched w) as Hq.
  destruct (Server.Server.query w) as [[e|reply] w1]; cbn in Hq |- *; eexists; (split; [done|]);
    (etrans; [exact Hq|]); [apply print_untouched|apply eprint_untouched].
Qed.

#[local] Instance scan_untouched w0 : Probe.Probe.Reads (untouched w0).
Proof.
  split; intros; (etrans; [eassumption|]).
  - apply list_untouched.
  - apply open_untouched.
  - apply configurations_untouched.
Qed.

Lemma scan_keeps w0 w : untouched w0 w -> untouched w0 (snd (Probe.Probe.scan w)).
Proof.
  intros Hw. unfold Probe.Probe.scan. pose proof (Probe.Probe.reads_list (J := untouched w0) w Hw) as Hl.
  destruct (Device.Device.list_devices w) as [[infos|e] w1]; [|done].
  by apply (Probe.Probe.scan_loop_keeps (untouched w0)).
Qed.

Lemma after_snd lines (r : outcome Empty_set (list Probe.Probe.Line) * W) :
  snd (Probe.Probe.after lines r) = snd r.
Proof. by destruct r as [[]]. Qed.

Lemma turn_keeps h w0 w : untouched w0 w -> untouched w0 (snd (Probe.Probe.watch_turn h w)).
Proof.
  intros Hw. unfold Probe.Probe.watch_turn.
  pose proof (event_untouched h (from_secs 3600) w) as He.
  destruct (Device.Device.next_event h _ w) as [[[info|i]|] w1]; cbn [snd] in He;
    [|by etrans..]. rewrite after_snd. apply scan_keeps. by etrans.
Qed.

Lemma watch_keeps n h w0 w : untouched w0 w -> untouched w0 (snd (Probe.Probe.watch_loop n h w)).
Proof.
  revert w. induction n as [|n IH]; intros w Hw; cbn [Probe.Probe.watch_loop]; [done|].
  pose proof (turn_keeps h w0 w Hw) as Ht.
  destruct (Probe.Probe.watch_turn h w) as [[ls|[]|] w1]; cbn [snd] in Ht; [|done].
  rewrite after_snd. by apply IH.
Qed.

Lemma probe_run_keeps n b w : untouched w (snd (Probe.Probe.run n b w)).
Proof.
  unfold Probe.Probe.run. pose proof (scan_keeps w w ltac:(done)) as Hs.
  destruct (Probe.Probe.scan w) as [[ls|[]|] w1]; cbn [snd] in Hs; [|done]. destruct b; [|done].
  pose proof (watch_untouched w1) as Hw.
  destruct (Device.Device.watch w1) as [[h|e] w2]; cbn [snd] in Hw; [|by etrans].
  pose proof (watch_keeps n h w w2 ltac:(by etrans)) as Hl.
  by destruct (Probe.Probe.watch_loop n h w2) as [[more|[]|] w3].
Qed.

Lemma printing_untouched printed w0 w :
  untouched w0 w -> untouched w0 (foldl (fun w l => show_line l w) w printed).
Proof.
  revert w. induction printed as [|l printed IH]; intros w Hw; cbn [foldl]; [done|]. apply IH.
  etrans; [exact Hw|]. destruct l; [apply print_untouched|apply eprint_untouched].
Qed.

Lemma probe_untouched n b w : exists w', snd (probe n b w) = Some w' /\ untouched w w'.
Proof.
  unfold probe. pose proof (probe_run_keeps n b w) as Hr.
  destruct (Probe.Probe.run n b w) as [[printed standing] w1]. eexists. split; [done|].
  by apply printing_untouched.
Qed.

(** The commands that change the system. *)
Definition privileged (command : string) : bool := has ["run"; "install"; "uninstall"] [command].

(** C29. Without root nothing is changed: whatever the arguments, a process that is
    not root leaves the system as it was, and the commands that would change it
    fail before they begin. *)
Theorem unprivileged_harmless turns n fuel args w :
  geteuid w <> 0 ->
  (exists w', snd (main turns n fuel args w) = Some w' /\ untouched w w') /\
  (privileged (default "help" (head args)) = true ->
   exists e, fst (main turns n fuel args w) = Returned (err e)).
Proof.
  intros Hu. unfold main, privileged. set (command := default "help" (head args)).
  assert (Hroot : forall b c body,
    (exists w', snd (as_root c body (init_logging b w)) = Some w' /\ untouched w w') /\
    exists e, fst (as_root c body (init_logging b w)) = Returned (err e)).
  { intros b c body. destruct (as_root_refused c body (init_logging b w)) as [e ->].
    - unfold init_logging. by rewrite logger_euid.
    - split; [|by eexists]. eexists. split; [done|]. apply logger_untouched. }
  destruct (String.eqb_spec command "run") as [->|N1]; [split; [apply Hroot|intros _; apply Hroot]|].
  destruct (String.eqb_spec command "status") as [->|N2]; [split; [apply status_untouched|done]|].
  destruct (String.eqb_spec command "probe") as [->|N3].
  { split; [|done]. destruct (probe_untouched n (has ["--watch"] args) (init_logging (verbose args) w))
      as (w' & -> & Hw). exists w'. split; [done|]. etrans; [apply logger_untouched|exact Hw]. }
  destruct (String.eqb_spec command "install") as [->|N4]; [split; [apply Hroot|intros _; apply Hroot]|].
  destruct (String.eqb_spec command "uninstall") as [->|N5];
    [split; [apply Hroot|intros _; apply Hroot]|].
  assert (Hp : has ["run"; "install"; "uninstall"] [command] = false).
  { unfold has. cbn. by rewrite !(proj2 (String.eqb_neq _ _)) by done. }
  rewrite Hp. clear Hp. split; [|done].
  destruct (has ["--version"; "-V"] [command]); [eexists; split; [done|apply print_untouched]|].
  destruct (has ["help"; "--help"; "-h"] [command]);
    (eexists; split; [done|]); [apply print_untouched|apply eprint_untouched].
Qed.

End laws.

(** ** The commands on the daemon's world

    The user who runs the command is fixed; what is printed is not kept. *)
Definition as_user (user : Z) : Process Daemon.Daemon.World :=
  {| geteuid _ := user; init_logger _ w := w; print _ w := w; eprint _ w := w;
     CARGO_PKG_VERSION := "0.1.0" |}.


Import Daemon.Daemon Resident.Resident.

#[local] Existing Instances Device.Device.phone_in Device.Device.phone_sleep
  Device.Device.phone_clock Device.Device.phone_backend Device.Device.phone_text
  Host.Host.sim_view Host.Host.sim_text.

#[export] Instance world_process user : ProcessLaws World (H2 := as_user user).
Proof.
  refine {| untouched w w' := Host.view w' = Host.view w |}; try (intros; reflexivity).
  split; [done|]. intros a b c E1 E2. congruence.
Defined.

(** [muta install] without root changes nothing. *)
Lemma unprivileged_harmless_witness :
  let '(x, w') := main (P := release_profile) (H14 := as_user 501) 1 1 1 ["install"] sample_world in
  (exists e, x = Returned (err e)) /\ Host.view <$> w' = Some (Host.view sample_world).
Proof.
  destruct (unprivileged_harmless (P := release_profile) (H14 := as_user 501) 1 1 1 ["install"]
    sample_world ltac:(done)) as [(w' & E & Hu) He].
  destruct (main _ _ _ _ _) as [x o]. cbn [fst snd] in *. subst o. split; [by apply He|].
  exact (f_equal Some Hu).
Defined.

(** With root it goes through, and so does a run of the daemon until its signal; an
    unknown command ends with code 2. *)
Lemma root_installs :
  fst (main (P := release_profile) (H14 := as_user 0) 1 1 1 ["install"] sample_world) = Returned (ok tt) /\
  fst (main (P := release_profile) (H14 := as_user 0) 200 200 5001 ["run"] sample_world) = Returned (ok tt) /\
  fst (main (P := release_profile) (H14 := as_user 501) 1 1 1 ["instal"] sample_world) = Exited 2 /\
  fst (main (P := release_profile) (H14 := as_user 501) 1 1 1 [] sample_world) = Returned (ok tt).
Proof. vm_compute. repeat split; reflexivity. Qed.

End Main.
