(* ===== verification/NetTests.v ===== *)
(** * The netstack's unit tests

    The tests of [src/netstack/*.rs] as boolean functions over the model: the
    model gives the answers the program's authors expect of the code. An
    [unwrap] of an error makes a test [false]; where a test reads the clock it is
    read at a fixed instant. *)
From Stdlib Require Import ZArith Lia.
From stdpp Require Import base numbers list strings gmap.
From S2P Require Import Prelude Ethernet Arp UdpIp Dhcp.

Open Scope Z_scope.

(** ** Assertions *)
Module Assert.

(** [r.unwrap()], and what follows on its value. *)
Definition unwrap {E A} (r : outcome E A) (k : A -> bool) : bool :=
  match r with Ok a => k a | _ => false end.

(** [o.unwrap()] on an [Option] *)
Definition unwrap_some {A} (o : option A) (k : A -> bool) : bool :=
  match o with Some a => k a | None => false end.

Definition is_none {A} (o : option A) : bool := match o with None => true | Some _ => false end.

(** [matches!(r, Err(Error::Malformed(_)))] and [Err(Error::Truncated)] *)
Definition malformed {A} (r : outcome Error A) : bool :=
  match r with Err (Malformed _) => true | _ => false end.

Definition truncated {A} (r : outcome Error A) : bool :=
  match r with Err Truncated => true | _ => false end.

Definition is_err {E A} (r : outcome E A) : bool := match r with Err _ => true | _ => false end.

(** [buf[i] = v], and [buf[i..i + 2].copy_from_slice(..)] *)
Definition put (i v : Z) (buf : list Z) : list Z := <[Z.to_nat i := v]> buf.

Definition put16 (i : Z) (v : Z) (buf : list Z) : list Z :=
  put (i + 1) (v mod 256) (put i (v / 256 mod 256) buf).

(** [vec![v; n]] *)
Definition vec (v n : Z) : list Z := replicate (Z.to_nat n) v.

Infix "===" := (fun a b => bool_decide (a = b)) (at level 70) : bool_scope.

End Assert.

Import Assert.
Open Scope bool_scope.

Module EthernetTests.

Import Ethernet.Ethernet.

Definition round_trips_a_frame : bool :=
  let dst := Mac 1 2 3 4 5 6 in
  let src := Mac 0xAA 0xAA 0xAA 0xAA 0xAA 0xAA in
  let payload := vec 9 100 in
  let built := build dst src ETHERTYPE_IPV4 payload in
  unwrap (parse built) (fun f =>
    (Ethernet.dst f === dst) && (Ethernet.src f === src) && (ethertype f === ETHERTYPE_IPV4) &&
    (sub (Ethernet.payload f) 0 100 === payload)).

Definition pads_short_frames_to_the_ethernet_minimum : bool :=
  let built := build MacAddr.BROADCAST MacAddr.ZERO ETHERTYPE_ARP [1; 2; 3] in
  zlen built === MIN_FRAME_LEN.

Definition rejects_a_frame_shorter_than_its_header : bool := truncated (parse (vec 0 13)).

Definition broadcast_counts_as_multicast : bool :=
  MacAddr.is_multicast MacAddr.BROADCAST && negb (MacAddr.is_multicast (Mac 2 0 0 0 0 1)).

Lemma ethernet_tests_pass :
  [round_trips_a_frame; pads_short_frames_to_the_ethernet_minimum;
   rejects_a_frame_shorter_than_its_header; broadcast_counts_as_multicast] = replicate 4 true.
Proof. by vm_compute. Qed.

End EthernetTests.

Module ArpTests.

Import Arp.Arp.

#[local] Instance ArpPacket_eq_dec : EqDecision ArpPacket.
Proof. solve_decision. Defined.

Definition HOST_MAC : MacAddr := Mac 2 0 0 0 0 1.

Definition GW_MAC : MacAddr := Mac 0x3e 0x02 0x24 0x8f 0xb0 0xcc.

Definition HOST_IP : Ipv4Addr := Ipv4 192 168 42 130.

Definition GW_IP : Ipv4Addr := Ipv4 192 168 42 129.

Definition request_from_gateway (target : Ipv4Addr) : list Z :=
  build (mkArpPacket OP_REQUEST GW_MAC GW_IP MacAddr.ZERO target).

(** The instant of the tests' calls. *)
Definition t0 : Z := from_secs 5.

Definition round_trips_a_packet : bool :=
  let p := mkArpPacket OP_REPLY GW_MAC GW_IP HOST_MAC HOST_IP in
  unwrap (parse (build p)) (fun q => q === p).

Definition replies_to_a_request_for_our_address : bool :=
  let arp := new HOST_MAC HOST_IP in
  unwrap (fst (handle t0 arp (request_from_gateway HOST_IP))) (fun o =>
  unwrap_some o (fun frame =>
  unwrap (Ethernet.parse frame) (fun eth =>
    (Ethernet.dst eth === GW_MAC) && (Ethernet.src eth === HOST_MAC) &&
    (Ethernet.ethertype eth === Ethernet.ETHERTYPE_ARP) &&
    unwrap (parse (Ethernet.payload eth)) (fun reply =>
      (op reply === OP_REPLY) && (sender_mac reply === HOST_MAC) && (sender_ip reply === HOST_IP) &&
      (target_ip reply === GW_IP))))).

Definition ignores_requests_for_other_addresses : bool :=
  let arp := new HOST_MAC HOST_IP in
  let other := Ipv4 192 168 42 200 in
  unwrap (fst (handle t0 arp (request_from_gateway other))) is_none.

Definition learns_the_sender_from_any_arp_traffic : bool :=
  let arp := new HOST_MAC HOST_IP in
  let '(r, arp) := handle t0 arp (request_from_gateway HOST_IP) in
  unwrap r (fun _ => lookup t0 arp GW_IP === Some GW_MAC).

Definition does_not_learn_from_an_unspecified_sender : bool :=
  let arp := new HOST_MAC HOST_IP in
  let probe := build (mkArpPacket OP_REQUEST GW_MAC UNSPECIFIED MacAddr.ZERO HOST_IP) in
  let '(r, arp) := handle t0 arp probe in
  unwrap r (fun _ => lookup t0 arp UNSPECIFIED === None).

Definition stays_silent_before_we_have_an_address : bool :=
  let arp := new HOST_MAC UNSPECIFIED in
  let probe := request_from_gateway UNSPECIFIED in
  unwrap (fst (handle t0 arp probe)) is_none.

Definition rate_limits_repeat_requests : bool :=
  let arp := new HOST_MAC HOST_IP in
  let '(first, arp) := request t0 arp GW_IP in
  let '(second, _) := request (t0 + from_millis 1) arp GW_IP in
  negb (is_none first) && is_none second.

Definition rejects_truncated_and_non_ipv4_packets : bool :=
  let arp := new HOST_MAC HOST_IP in
  let '(r, arp) := handle t0 arp (vec 0 27) in
  let wrong := build (mkArpPacket OP_REQUEST GW_MAC GW_IP MacAddr.ZERO HOST_IP) in
  let wrong := put16 2 0x86DD wrong in
  truncated r && malformed (fst (handle t0 arp wrong)).

Definition rejects_implausible_address_sizes : bool :=
  let p := build (mkArpPacket OP_REQUEST GW_MAC GW_IP MacAddr.ZERO HOST_IP) in
  malformed (parse (put 4 8 p)).

Lemma arp_tests_pass :
  [round_trips_a_packet; replies_to_a_request_for_our_address; ignores_requests_for_other_addresses;
   learns_the_sender_from_any_arp_traffic; does_not_learn_from_an_unspecified_sender;
   stays_silent_before_we_have_an_address; rate_limits_repeat_requests;
   rejects_truncated_and_non_ipv4_packets; rejects_implausible_address_sizes] = replicate 9 true.
Proof. by vm_compute. Qed.

End ArpTests.

Module UdpTests.

Import UdpIp.UdpIp.

#[local] Existing Instance dev_profile.

Definition datagram (payload : list Z) : UdpDatagram := mkUdp UNSPECIFIED BROADCAST_IP 68 67 payload.

(** [build_udp] returns a [Vec]; it has no error. *)
Definition built (d : UdpDatagram) (ip_id : Z) (k : list Z -> bool) : bool :=
  unwrap (build_udp (E := Empty_set) d ip_id) k.

Definition sum (parts : list (list Z)) (k : Z -> bool) : bool :=
  unwrap (checksum (E := Empty_set) parts) k.

Definition round_trips_a_datagram : bool :=
  let payload := vec 7 300 in
  built (datagram payload) 0x1234 (fun packet =>
  unwrap (parse_udp packet) (fun d =>
    (src_ip d === UNSPECIFIED) && (dst_ip d === BROADCAST_IP) &&
    ((src_port d, dst_port d) === (68, 67)) && (UdpIp.payload d === payload))).

Definition built_packets_have_valid_checksums : bool :=
  built (datagram [1; 2; 3]) 1 (fun packet => sum [sub packet 0 20] (fun c => c === 0)).

Definition odd_length_payload_checksums_the_same_as_a_flat_buffer : bool :=
  built (datagram [1; 2; 3; 4; 5]) 1 (fun packet =>
  let udp := sub packet 20 (zlen packet) in
  let pseudo := [0; 0; 0; 0; 255; 255; 255; 255; 0; PROTO_UDP; 0; as_u8 (zlen udp)] in
  sum [pseudo; udp] (fun split => sum [pseudo ++ udp] (fun flat => split === flat))).

Definition parses_a_packet_carrying_ipv4_options : bool :=
  built (datagram [9; 9]) 1 (fun packet =>
  let packet := take 20 packet ++ [1; 1; 1; 1] ++ drop 20 packet in
  let packet := put 0 0x46 packet in
  let packet := put16 2 (as_u16 (zlen packet)) packet in
  unwrap (parse_udp packet) (fun d => UdpIp.payload d === [9; 9])).

Definition ignores_trailing_ethernet_padding : bool :=
  built (datagram [1; 2; 3]) 1 (fun packet =>
  unwrap (parse_udp (packet ++ vec 0 20)) (fun d => UdpIp.payload d === [1; 2; 3])).

Definition rejects_fragments : bool :=
  built (datagram [1]) 1 (fun packet =>
    malformed (parse_udp (put 6 0x20 packet)) && malformed (parse_udp (put 7 1 packet))).

Definition rejects_a_length_field_longer_than_the_buffer : bool :=
  built (datagram [1; 2; 3]) 1 (fun packet =>
  let lie := as_u16 (zlen packet) + 100 in
  truncated (parse_udp (put16 2 lie packet))).

Definition rejects_a_udp_length_longer_than_the_ip_payload : bool :=
  built (datagram [1; 2; 3]) 1 (fun packet => is_err (parse_udp (put16 24 999 packet))).

Definition rejects_a_header_length_below_the_minimum : bool :=
  built (datagram [1]) 1 (fun packet => malformed (parse_udp (put 0 0x44 packet))).

Definition rejects_non_udp_and_non_ipv4 : bool :=
  built (datagram [1]) 1 (fun packet =>
    malformed (parse_udp (put 9 6 packet)) && malformed (parse_udp (put 0 0x65 packet))).

Lemma udp_tests_pass :
  [round_trips_a_datagram; built_packets_have_valid_checksums;
   odd_length_payload_checksums_the_same_as_a_flat_buffer; parses_a_packet_carrying_ipv4_options;
   ignores_trailing_ethernet_padding; rejects_fragments;
   rejects_a_length_field_longer_than_the_buffer; rejects_a_udp_length_longer_than_the_ip_payload;
   rejects_a_header_length_below_the_minimum; rejects_non_udp_and_non_ipv4] = replicate 10 true.
Proof. by vm_compute. Qed.

End UdpTests.

Module DhcpTests.

Import Dhcp.Dhcp.

#[local] Instance Lease_eq_dec : EqDecision Lease.
Proof. solve_decision. Defined.

#[local] Instance Event_eq_dec : EqDecision Event.
Proof. solve_decision. Defined.

Definition MAC : MacAddr := Mac 0x02 0x02 0x24 0x8f 0xb0 0xcd.

Definition SERVER : Ipv4Addr := Ipv4 192 168 42 129.

Definition OFFERED : Ipv4Addr := Ipv4 192 168 42 130.

(** A reply as Android's tether server sends it. *)
Definition server_reply (xid message_type : Z) (yiaddr : Ipv4Addr) (options : list (Z * list Z)) :
    list Z :=
  let m := [OP_REPLY; HTYPE_ETHERNET; 6; 0] ++ to_be32 xid ++ vec 0 4 ++ vec 0 4 ++ octets yiaddr ++
           octets SERVER ++ vec 0 4 ++ MacAddr.as_bytes MAC in
  let m := vec_resize m BOOTP_LEN 0 ++ MAGIC_COOKIE in
  let m := push_option m OPT_MESSAGE_TYPE [message_type] in
  let m := foldl (fun m '(code, data) => push_option m code data) m options in
  m ++ [OPT_END].

Definition full_offer (xid message_type : Z) : list Z :=
  server_reply xid message_type OFFERED
    [(OPT_SUBNET_MASK, [255; 255; 255; 0]);
     (OPT_ROUTER, octets SERVER);
     (OPT_DNS, [8; 8; 8; 8; 1; 1; 1; 1]);
     (OPT_SERVER_ID, octets SERVER);
     (OPT_LEASE_TIME, to_be32 3600);
     (OPT_DOMAIN_NAME, [108; 97; 110]);
     (OPT_INTERFACE_MTU, to_be16 1500)].

Definition xid_of (msg : list Z) : Z := be32 (nthZ msg 4) (nthZ msg 5) (nthZ msg 6) (nthZ msg 7).

(** [let Event::Send(m) = r.unwrap() else { panic!(..) }], and [Event::Bound]. *)
Definition expect_send (r : outcome Error Event) (k : list Z -> bool) : bool :=
  match r with Ok (Send m) => k m | _ => false end.

Definition expect_bound (r : outcome Error Event) (k : Lease -> bool) : bool :=
  match r with Ok (EBound l) => k l | _ => false end.

(** A client that sent its DISCOVER, and the message. *)
Definition discovering (xid : Z) : list Z * DhcpClient := discover (new MAC xid).

(** Drive the client through a full DISCOVER/OFFER/REQUEST/ACK exchange. *)
Definition bind (k : DhcpClient -> Lease -> bool) : bool :=
  let '(d, c) := discovering 0x1234 in
  let xid := xid_of d in
  let '(r, c) := handle c (full_offer xid OFFER) in
  expect_send r (fun request =>
    (option_of request OPT_MESSAGE_TYPE === Some [REQUEST]) &&
    let '(r, c) := handle c (full_offer xid ACK) in
    expect_bound r (fun lease => k c lease)).

Definition completes_the_four_way_exchange : bool :=
  bind (fun client lease =>
    is_none (retransmit client) && (ip lease === OFFERED) &&
    (netmask lease === Ipv4 255 255 255 0) && (router lease === Some SERVER) &&
    (dns lease === [Ipv4 8 8 8 8; Ipv4 1 1 1 1]) && (domain lease === Some [108; 97; 110]) &&
    (mtu lease === Some 1500) && (lease_time lease === from_secs 3600) &&
    (renewal_time lease === from_secs 1800) && (prefix_len lease === 24)).

Definition discover_asks_for_the_options_we_need : bool :=
  let '(d, _) := discovering 1 in
  (option_of d OPT_MESSAGE_TYPE === Some [DISCOVER]) &&
  unwrap_some (option_of d OPT_PARAM_REQUEST) (fun params =>
    forallb (fun wanted => bool_decide (wanted ∈ params))
      [OPT_SUBNET_MASK; OPT_ROUTER; OPT_DNS; OPT_LEASE_TIME]) &&
  (300 <=? zlen d).

Definition request_echoes_the_offered_address_and_server : bool :=
  let '(d, c) := discovering 0x1234 in
  expect_send (fst (handle c (full_offer (xid_of d) OFFER))) (fun request =>
    (option_of request OPT_REQUESTED_IP === Some (octets OFFERED)) &&
    (option_of request OPT_SERVER_ID === Some (octets SERVER))).

Definition ignores_replies_for_another_transaction : bool :=
  let '(d, c) := discovering 0x1234 in
  let '(r, c) := handle c (full_offer (Z.lxor (xid_of d) 0xFFFF) OFFER) in
  unwrap r (fun e => e === Ignored) &&
  unwrap_some (retransmit c) (fun m => option_of m OPT_MESSAGE_TYPE === Some [DISCOVER]).

Definition ignores_replies_addressed_to_another_client : bool :=
  let '(d, c) := discovering 0x1234 in
  let offer := full_offer (xid_of d) OFFER in
  let offer := put 28 (Z.lxor (nthZ offer 28) 0xFF) offer in
  unwrap (fst (handle c offer)) (fun e => e === Ignored).

Definition a_nak_drops_the_lease : bool :=
  bind (fun c _ =>
    let '(m, c) := renew c in
    unwrap_some m (fun _ =>
      let '(r, c) := handle c (server_reply (xid c) NAK UNSPECIFIED []) in
      unwrap r (fun e => e === ENak) && is_none (retransmit c))).

Definition renewal_rebinds_on_ack : bool :=
  bind (fun c _ =>
    let '(m, c) := renew c in
    unwrap_some m (fun renew =>
      (sub renew 10 12 === [0; 0]) && (sub renew 12 16 === octets OFFERED) &&
      expect_bound (fst (handle c (full_offer (xid c) ACK))) (fun _ => true))).

Definition falls_back_to_the_server_as_gateway_when_no_router_option : bool :=
  let '(d, c) := discovering 0x1234 in
  let minimal t := server_reply (xid_of d) t OFFERED [(OPT_SERVER_ID, octets SERVER)] in
  let '(r, c) := handle c (minimal OFFER) in
  unwrap r (fun _ =>
  expect_bound (fst (handle c (minimal ACK))) (fun lease =>
    (router lease === Some SERVER) && (0 <? lease_time lease))).

Definition rejects_an_ack_without_an_address : bool :=
  let '(d, c) := discovering 0x1234 in
  let '(r, c) := handle c (full_offer (xid_of d) OFFER) in
  let bad := server_reply (xid_of d) ACK UNSPECIFIED [(OPT_SERVER_ID, octets SERVER)] in
  unwrap r (fun _ => malformed (fst (handle c bad))).

Definition rejects_truncated_and_corrupt_messages : bool :=
  let '(_, c) := discovering 0x1234 in
  let '(r, c) := handle c (vec 0 100) in
  let '(r1, c) := handle c (put BOOTP_LEN 0 (full_offer (xid c) OFFER)) in
  let '(r2, _) := handle c (put 0 OP_REQUEST (full_offer (xid c) OFFER)) in
  truncated r && malformed r1 && malformed r2.

Definition rejects_an_option_running_past_the_message : bool :=
  let '(_, c) := discovering 0x1234 in
  let msg := removelast (full_offer (xid c) OFFER) ++ [OPT_DNS; 200] in
  let '(r, c) := handle c msg in
  let exact := removelast (full_offer (xid c) OFFER) ++ [OPT_DNS; 4; 9; 9; 9; 9] in
  truncated r && unwrap (fst (handle c exact)) (fun _ => true).

Definition rejects_a_message_with_no_type_option : bool :=
  let '(_, c) := discovering 0x1234 in
  let m := [OP_REPLY; HTYPE_ETHERNET; 6; 0] ++ to_be32 (xid c) in
  malformed (fst (handle c (vec_resize m BOOTP_LEN 0 ++ MAGIC_COOKIE ++ [OPT_END]))).

Definition a_new_discover_uses_a_fresh_transaction_id : bool :=
  let '(first, c) := discovering 0x1234 in
  let '(second, _) := discover c in
  negb (xid_of first =? xid_of second).

Definition retransmit_repeats_the_pending_message_only : bool :=
  let c := new MAC 0x1234 in
  is_none (retransmit c) &&
  let '(d, c) := discover c in
  let xid := xid_of d in
  unwrap_some (retransmit c) (fun m => option_of m OPT_MESSAGE_TYPE === Some [DISCOVER]) &&
  let '(r, c) := handle c (full_offer xid OFFER) in
  unwrap r (fun _ =>
  unwrap_some (retransmit c) (fun m => option_of m OPT_MESSAGE_TYPE === Some [REQUEST]) &&
  let '(r, c) := handle c (full_offer xid ACK) in
  unwrap r (fun _ => is_none (retransmit c))).

Lemma dhcp_tests_pass :
  [completes_the_four_way_exchange; discover_asks_for_the_options_we_need;
   request_echoes_the_offered_address_and_server; ignores_replies_for_another_transaction;
   ignores_replies_addressed_to_another_client; a_nak_drops_the_lease; renewal_rebinds_on_ack;
   falls_back_to_the_server_as_gateway_when_no_router_option; rejects_an_ack_without_an_address;
   rejects_truncated_and_corrupt_messages; rejects_an_option_running_past_the_message;
   rejects_a_message_with_no_type_option; a_new_discover_uses_a_fresh_transaction_id;
   retransmit_repeats_the_pending_message_only] = replicate 14 true.
Proof. by vm_compute. Qed.

End DhcpTests.
