(* ===== verification/UsbTests.v ===== *)
(** * The unit tests of RNDIS and of the matcher

    The tests of [src/rndis/*.rs] and [src/usb/matcher.rs] as boolean functions
    over the model. *)
From Stdlib Require Import ZArith Lia.
From stdpp Require Import base numbers list strings gmap.
From S2P Require Import Prelude Wire Packet Control MockDevice Matcher NetTests.

Open Scope Z_scope.

Import NetTests.Assert.
Open Scope bool_scope.

(** [matches!(r, Err(Error::Truncated))] of [rndis::error] *)
Definition cut {A} (r : outcome Wire.Wire.Error A) : bool :=
  match r with Err Wire.Wire.Truncated => true | _ => false end.

(** [buf[i..i + 4].copy_from_slice(&v.to_le_bytes())] *)
Definition put32 (i v : Z) (buf : list Z) : list Z :=
  put (i + 3) (nthZ (to_le32 v) 3) (put (i + 2) (nthZ (to_le32 v) 2)
    (put (i + 1) (nthZ (to_le32 v) 1) (put i (nthZ (to_le32 v) 0) buf))).

Module PacketTests.

Import Packet.Packet.

(** [(0..len).map(|i| i as u8).collect()] *)
Definition frame (len : nat) : list Z := map (fun i => as_u8 (Z.of_nat i)) (seq 0 len).

(** [decode(buf).collect::<Result<Vec<_>>>()] *)
Fixpoint all_ok (items : list (outcome Wire.Wire.Error (list Z))) :
    outcome Wire.Wire.Error (list (list Z)) :=
  match items with
  | [] => Ok []
  | r :: items => f ← r; rest ← all_ok items; mret (f :: rest)
  end.

Definition collect (buf : list Z) : outcome Wire.Wire.Error (list (list Z)) := all_ok (decode buf).

(** One packet in its own transfer. *)
Definition encode (frame : list Z) : list Z := append [] frame 1.

Definition yields (buf : list Z) (frames : list (list Z)) : bool :=
  unwrap (collect buf) (fun fs => fs === frames).

Definition round_trips_a_single_frame : bool :=
  let f := frame 64 in yields (encode f) [f].

Definition splits_aggregated_frames_from_one_transfer : bool :=
  let '(a, b, c) := (frame 64, frame 100, frame 1514) in
  yields (encode a ++ encode b ++ encode c) [a; b; c].

Definition ignores_trailing_padding_shorter_than_a_header : bool :=
  let f := frame 64 in yields (encode f ++ vec 0 16) [f].

Definition empty_transfer_yields_nothing : bool := yields [] [].

Definition rejects_data_length_running_past_the_message : bool :=
  is_err (collect (put32 12 9999 (encode (frame 64)))).

Definition rejects_data_offset_running_past_the_message : bool :=
  is_err (collect (put32 8 9999 (encode (frame 64)))).

Definition rejects_message_length_beyond_the_transfer : bool :=
  let buf := encode (frame 64) in is_err (collect (put32 4 (zlen buf + 1) buf)).

Definition rejects_message_length_shorter_than_the_header : bool :=
  is_err (collect (put32 4 8 (encode (frame 64)))).

Definition rejects_a_non_packet_message : bool :=
  is_err (collect (put32 0 0x80000002 (encode (frame 64)))).

Definition stops_after_a_malformed_packet_instead_of_looping : bool :=
  let buf := put32 4 0 (encode (frame 64)) ++ encode (frame 64) in
  match decode buf with [r] => is_err r | _ => false end.

Definition appends_several_frames_into_one_transfer : bool :=
  let '(a, b, c) := (frame 64, frame 100, frame 1514) in
  yields (foldl (fun buf f => append buf f 1) [] [a; b; c]) [a; b; c].

Definition alignment_padding_keeps_frames_intact_and_aligned : bool :=
  let '(a, b) := (frame 65, frame 101) in
  let buf := append [] a 8 in
  let first_len := zlen buf in
  let buf := append buf b 8 in
  (first_len mod 8 === 0) && yields buf [a; b].

Definition alignment_of_zero_is_treated_as_one : bool :=
  let f := frame 64 in yields (append [] f 0) [f].

Definition accepts_a_larger_than_minimum_data_offset : bool :=
  let f := frame 64 in
  let pad := 8 in
  let buf := encode f in
  let n := Z.to_nat Wire.Wire.DATA_HEADER_LEN in
  let buf := take n buf ++ vec 0 pad ++ drop n buf in
  let buf := put32 4 (as_u32 (zlen buf)) buf in
  let buf := put32 8 (Wire.Wire.DATA_HEADER_LEN - Wire.Wire.OFFSET_BASE + pad) buf in
  yields buf [f].

Lemma packet_tests_pass :
  [round_trips_a_single_frame; splits_aggregated_frames_from_one_transfer;
   ignores_trailing_padding_shorter_than_a_header; empty_transfer_yields_nothing;
   rejects_data_length_running_past_the_message; rejects_data_offset_running_past_the_message;
   rejects_message_length_beyond_the_transfer; rejects_message_length_shorter_than_the_header;
   rejects_a_non_packet_message; stops_after_a_malformed_packet_instead_of_looping;
   appends_several_frames_into_one_transfer; alignment_padding_keeps_frames_intact_and_aligned;
   alignment_of_zero_is_treated_as_one; accepts_a_larger_than_minimum_data_offset] =
  replicate 14 true.
Proof. by vm_compute. Qed.

End PacketTests.

Module WireTests.

Import Wire.Wire.

Definition init_message_matches_the_wire_layout : bool :=
  let m := encode_init 1 0x4000 in
  (zlen m === 24) &&
  (m === [0x02; 0; 0; 0; 24; 0; 0; 0; 1; 0; 0; 0; 1; 0; 0; 0; 0; 0; 0; 0; 0x00; 0x40; 0; 0]).

Definition set_message_points_at_its_own_payload : bool :=
  let m := encode_set 7 OID_GEN_CURRENT_PACKET_FILTER (to_le32 0x2F) in
  unwrap (u32_at m 4) (fun n =>
  unwrap (u32_at m 16) (fun len =>
  unwrap (u32_at m 20) (fun offset =>
    (n === zlen m) &&
    (sub m (OFFSET_BASE + offset) (OFFSET_BASE + offset + len) === [0x2F; 0; 0; 0])))).

Definition init_complete_bytes (alignment_exponent : Z) : list Z :=
  words [MSG_INIT_C; 52; 1; STATUS_SUCCESS; 1; 0; 0; 0; 8; 0x4000; alignment_exponent; 0; 0].

Definition decodes_init_complete_and_expands_the_alignment_exponent : bool :=
  unwrap (decode_init_complete (init_complete_bytes 2)) (fun c =>
    (status c === STATUS_SUCCESS) && (max_transfer_size c === 0x4000) &&
    (max_packets_per_transfer c === 8) && (packet_alignment c === 4)).

Definition absurd_alignment_exponent_does_not_shift_overflow : bool :=
  unwrap (decode_init_complete (init_complete_bytes 0xFFFFFFFF)) (fun c => packet_alignment c === 1).

Definition truncated_init_complete_is_rejected : bool :=
  cut (decode_init_complete (sub (init_complete_bytes 2) 0 20)).

Definition decodes_a_mac_address_from_query_complete : bool :=
  let mac := [0x11; 0x22; 0x33; 0x44; 0x55; 0x66] in
  let m := words [MSG_QUERY_C; 30; 3; STATUS_SUCCESS; 6; 16] ++ mac in
  unwrap (decode_query_complete m) (fun '(id, status, info) =>
    ((id, status) === (3, STATUS_SUCCESS)) && (info === mac)).

Definition query_complete_information_buffer_cannot_escape_the_message : bool :=
  cut (decode_query_complete (words [MSG_QUERY_C; 24; 3; STATUS_SUCCESS; 6; 4096])).

Definition query_complete_offset_length_overflow_is_rejected : bool :=
  cut (decode_query_complete
         (words [MSG_QUERY_C; 24; 3; STATUS_SUCCESS; 0xFFFFFFFF; 0xFFFFFFFF])).

Definition failed_query_yields_status_without_an_information_buffer : bool :=
  unwrap (decode_query_complete (words [MSG_QUERY_C; 24; 3; 0xC0000001; 0; 0]))
    (fun '(_, status, info) => (status === 0xC0000001) && (info === [])).

Lemma wire_tests_pass :
  [init_message_matches_the_wire_layout; set_message_points_at_its_own_payload;
   decodes_init_complete_and_expands_the_alignment_exponent;
   absurd_alignment_exponent_does_not_shift_overflow; truncated_init_complete_is_rejected;
   decodes_a_mac_address_from_query_complete;
   query_complete_information_buffer_cannot_escape_the_message;
   query_complete_offset_length_overflow_is_rejected;
   failed_query_yields_status_without_an_information_buffer] = replicate 9 true.
Proof. by vm_compute. Qed.

End WireTests.

Module ControlTests.

Import Wire.Wire Control.Control MockDevice.MockDevice.

(** More reads than the scripted device has messages. *)
Definition fuel : nat := 64.

(** [MockDevice::new(mac)]; a reading of the clock takes a microsecond. *)
Definition mock (mac : list Z) (preloaded : list (list Z)) (fail : bool) : MockDevice :=
  mkMock [] [] preloaded mac fail 0 1000.

(** [m().unwrap()] on a fresh channel, and what follows on the result and it. *)
Definition run {T A} (m : M T A) (t : T) (k : A -> Rndis T -> bool) : bool :=
  match m (new t) with Some (Ok a, r) => k a r | _ => false end.

Definition run_err {T A} (m : M T A) (t : T) (k : Error -> bool) : bool :=
  match m (new t) with Some (Err e, _) => k e | _ => false end.

Definition bring_up_runs_init_query_set_in_order : bool :=
  let mac := [0xAA; 0xBB; 0xCC; 0x01; 0x02; 0x03] in
  run (bring_up fuel) (mock mac [] false) (fun session r =>
    let sent := sent (transport r) in
    (host_mac session === mac) && (device_max_transfer_size session === 16384) &&
    (map (fun m => word m 0) sent === [MSG_INIT; MSG_QUERY; MSG_SET]) &&
    unwrap_some (sent !! 2%nat) (fun set =>
      unwrap (u32_at set 12) (fun oid =>
      unwrap (u32_at set 28) (fun filter =>
        (oid === OID_GEN_CURRENT_PACKET_FILTER) && (filter === DEFAULT_PACKET_FILTER))))).

Definition falls_back_to_current_address_when_permanent_fails : bool :=
  let mac := [1; 2; 3; 4; 5; 6] in
  run (bring_up fuel) (mock mac [] true) (fun session _ => host_mac session === mac).

Definition an_indicate_status_between_command_and_completion_is_handled : bool :=
  run (bring_up fuel) (mock [1; 2; 3; 4; 5; 6] [indicate STATUS_MEDIA_CONNECT] false)
    (fun _ r => match link_state r with Up => true | _ => false end).

Definition a_device_keepalive_is_answered_during_a_transaction : bool :=
  let ping := words [MSG_KEEPALIVE; 12; 0x4242] in
  run (initialize fuel) (mock [1; 2; 3; 4; 5; 6] [ping] false) (fun _ r =>
    existsb (fun m => (word m 0 =? MSG_KEEPALIVE_C) && (word m 8 =? 0x4242)) (sent (transport r))).

Definition media_disconnect_is_reported : bool :=
  run (initialize fuel) (mock [1; 2; 3; 4; 5; 6] [indicate STATUS_MEDIA_DISCONNECT] false)
    (fun _ r => match link_state r with Down => true | _ => false end).

(** A device whose every answer is a failed INIT. *)
Inductive Failing : Type := failing.

#[local] Instance failing_transport : ControlTransport Failing :=
  { send _ t := (Ok tt, t);
    receive t := (Ok (words [MSG_INIT_C; 52; 1; 0xC0000001; 1; 0; 0; 0; 1; 16384; 0; 0; 0]), t);
    await_response _ t := (Ok tt, t) }.

#[local] Instance failing_clock : Clock Failing := fun t => (0, t).

Definition init_failure_status_is_surfaced : bool :=
  run_err (initialize fuel) failing (fun e => e === Status 0xC0000001).

(** Waiting sleeps ten milliseconds: five hundred waits reach the deadline. *)
Definition a_silent_device_times_out_rather_than_hanging : bool :=
  run_err (T := Silent) (initialize 502) 0 (fun e => e === NoResponse).

Lemma control_tests_pass :
  [bring_up_runs_init_query_set_in_order; falls_back_to_current_address_when_permanent_fails;
   an_indicate_status_between_command_and_completion_is_handled;
   a_device_keepalive_is_answered_during_a_transaction; media_disconnect_is_reported;
   init_failure_status_is_surfaced; a_silent_device_times_out_rather_than_hanging] =
  replicate 7 true.
Proof. by vm_compute. Qed.

End ControlTests.

Module MatcherTests.

Import Matcher.Descriptor Matcher.Matcher.

#[local] Existing Instance dev_profile.

#[local] Instance RndisFunction_eq_dec : EqDecision RndisFunction.
Proof. solve_decision. Defined.

(** [find_rndis(..).expect("matched")] *)
Definition matched (configs : list ConfigDescriptor) (k : RndisFunction -> bool) : bool :=
  match find_rndis configs with Ok (Some f) => k f | _ => false end.

Definition unmatched (configs : list ConfigDescriptor) : bool :=
  match find_rndis configs with Ok None => true | _ => false end.

Definition matches_android_rndis_gadget : bool :=
  matched [mkConfig 1 [control_iface 0 (0xE0, 0x01, 0x03) android_cdc_extra; data_iface 1]]
    (fun f => f === mkRndis 1 0 1 0 (Some 0x81) 0x82 0x02 512).

Definition matches_microsoft_comm_acm_vendor_signature : bool :=
  matched [mkConfig 1 [control_iface 0 (0x02, 0x02, 0xFF) android_cdc_extra; data_iface 1]]
    (fun _ => true).

Definition matches_misc_class_4_1_signature : bool :=
  matched [mkConfig 1 [control_iface 0 (0xEF, 0x04, 0x01) android_cdc_extra; data_iface 1]]
    (fun _ => true).

Definition union_descriptor_wins_over_adjacency : bool :=
  let extra := android_cdc_extra in
  let extra := put (zlen extra - 1) 3 extra in
  matched [mkConfig 1 [control_iface 0 (0xE0, 0x01, 0x03) extra; data_iface 1; data_iface 3]]
    (fun f => data_interface f === 3).

Definition falls_back_to_adjacent_interface_without_union : bool :=
  matched [mkConfig 1 [control_iface 2 (0xE0, 0x01, 0x03) []; data_iface 3]]
    (fun f => (control_interface f === 2) && (data_interface f === 3)).

Definition picks_alt_setting_that_exposes_the_bulk_pair : bool :=
  let alt n eps := mkInterface 1 n CLASS_CDC_DATA 0 0 eps [] in
  let alt0 := alt 0 [] in
  let alt1 := alt 1 (endpoints (data_iface 1)) in
  matched [mkConfig 1 [control_iface 0 (0xE0, 0x01, 0x03) android_cdc_extra; alt0; alt1]]
    (fun f => data_alt_setting f === 1).

Definition finds_rndis_in_a_non_first_configuration : bool :=
  let mtp_only := mkConfig 1 [mkInterface 0 0 0x06 0x01 0x01 [] []] in
  let tether := mkConfig 2 [control_iface 0 (0xE0, 0x01, 0x03) android_cdc_extra; data_iface 1] in
  matched [mtp_only; tether] (fun f => config_value f === 2).

Definition ignores_non_rndis_devices : bool :=
  unmatched [mkConfig 1 [control_iface 0 (0x02, 0x06, 0x00) []; data_iface 1]].

Definition rejects_control_interface_with_no_data_interface : bool :=
  unmatched [mkConfig 1 [control_iface 0 (0xE0, 0x01, 0x03) android_cdc_extra]].

Definition union_parser_rejects_malformed_lengths : bool :=
  let none extra := match union_subordinate extra with Ok None => true | _ => false end in
  none [0x00; CS_INTERFACE; CDC_UNION; 0; 1] && none [0x40; CS_INTERFACE; CDC_UNION; 0; 1] &&
  none [0x04; CS_INTERFACE; CDC_UNION; 0].

Lemma matcher_tests_pass :
  [matches_android_rndis_gadget; matches_microsoft_comm_acm_vendor_signature;
   matches_misc_class_4_1_signature; union_descriptor_wins_over_adjacency;
   falls_back_to_adjacent_interface_without_union; picks_alt_setting_that_exposes_the_bulk_pair;
   finds_rndis_in_a_non_first_configuration; ignores_non_rndis_devices;
   rejects_control_interface_with_no_data_interface; union_parser_rejects_malformed_lengths] =
  replicate 10 true.
Proof. by vm_compute. Qed.

End MatcherTests.
