(* ===== verification/HostTests.v ===== *)
(** * The unit tests of the link, the tunnel and the status

    The tests of [src/link.rs], [src/tun/*.rs] and [src/status.rs] as boolean
    functions over the model. *)
From Stdlib Require Import ZArith Lia.
From stdpp Require Import base numbers list strings gmap.
From S2P Require Import Prelude Backend Rx Host Utun Net Status NetTests.

Open Scope Z_scope.

Import NetTests.Assert.
Open Scope bool_scope.

Module LinkTests.

Import Backend.Backend Rx.Rx.

#[local] Existing Instance fake_in.

(** Sixteen reads were queued, and the one that stalled was already returned. *)
Definition stalled (wedge : bool) : FakeIn :=
  let ep := submit_all (Z.to_nat RX_DEPTH) 16384 (mkFakeIn [] 0 0 0 false 0 false) in
  mkFakeIn (tail (results ep)) (submits ep) (cancels ep) (halts ep) wedge 0 false.

Definition recovers_a_stalled_bulk_in_endpoint : bool :=
  let '(r, ep) := recover_bulk_in 16384 (stalled false) in
  match r with ok _ => true | err _ => false end &&
  (cancels ep =? 1)%nat && (halts ep =? 1)%nat && (in_pending ep === RX_DEPTH) &&
  (Z.of_nat (submits ep) === RX_DEPTH * 2).

Definition refuses_to_clear_halt_while_reads_are_pending : bool :=
  let '(r, ep) := recover_bulk_in 16384 (stalled true) in
  match r with ok _ => false | err _ => true end && (halts ep =? 0)%nat.

Lemma link_tests_pass :
  [recovers_a_stalled_bulk_in_endpoint; refuses_to_clear_halt_while_reads_are_pending] =
  replicate 2 true.
Proof. by vm_compute. Qed.

End LinkTests.

Module TunTests.

#[local] Existing Instances Utun.Utun.sim_libc Host.Host.sim_text.

Definition computes_the_network_address : bool :=
  (Net.Net.subnet_of (Ipv4 10 71 51 112) (Ipv4 255 255 255 0) === Ipv4 10 71 51 0) &&
  (Net.Net.subnet_of (Ipv4 192 168 42 130) (Ipv4 255 255 255 192) === Ipv4 192 168 42 128).

(** No system call is made: nothing is written. *)
Definition write_ignores_packets_that_are_not_ip : bool :=
  let utun := Utun.Utun.mkUtun 3 "test" in
  let ignored packet :=
    match Utun.Utun.write utun packet (Host.Host.sim_start 0 [] []) with
    | (Host.Host.ok _, w) => (length (Host.Host.written w) =? 0)%nat
    | (Host.Host.err _, _) => false
    end in
  ignored [] && ignored [0x00].

Lemma tun_tests_pass :
  [computes_the_network_address; write_ignores_packets_that_are_not_ip] = replicate 2 true.
Proof. by vm_compute. Qed.

End TunTests.

Module StatusTests.

Import Status.Status.

Definition starts_with (line prefix : list Z) : bool := take (length prefix) line === prefix.

Fixpoint contains (line part : list Z) : bool :=
  starts_with line part || match line with [] => false | _ :: line => contains line part end.

Definition encodes_a_connected_status : bool :=
  let status := mkStatus (Some (bytes_of "Xiaomi Redmi Note 10S")) true (Some (bytes_of "utun4"))
    (Some (Ipv4 10 71 51 112)) (Some (Ipv4 10 71 51 57)) [Ipv4 10 71 51 57] 12 34 in
  let line := encode status in
  starts_with line (bytes_of "state=connected" ++ [TAB]) &&
  contains line (bytes_of "interface=utun4") &&
  contains line (bytes_of "device=Xiaomi Redmi Note 10S" ++ [TAB]) &&
  contains line (bytes_of "address=10.71.51.112") && (last line === Some NEWLINE).

Definition encodes_missing_fields_as_placeholders : bool :=
  let line := encode default_status in
  starts_with line (bytes_of "state=waiting" ++ [TAB]) &&
  contains line (bytes_of "interface=-" ++ [TAB]) && contains line (bytes_of "dns=-" ++ [TAB]).

Lemma status_tests_pass :
  [encodes_a_connected_status; encodes_missing_fields_as_placeholders] = replicate 2 true.
Proof. by vm_compute. Qed.

End StatusTests.
